(* ===== verification/_CoqProject ===== *)
-Q . S2P
Prelude.v
GoStrings.v
CLayout.v
Tracing.v
Vmlinux.v
VmlinuxBpf.v
VmlinuxNet.v
VmlinuxTask.v
VmlinuxDrm.v
VmlinuxFs.v
PtRegs.v
BpfHelpers.v
HelperTypes.v
BpfMacros.v
BpfLoops.v
Kernel.v
BpfProgram.v
Concurrent.v
Bytecode.v
ObjectBytes.v
ObjectFile.v
ObjectCode.v
Hw.v
Loader.v
Discovery.v
DiscoveryTest.v
Cgroup.v
PodMap.v
Config.v
Metrics.v
Deploy.v
Setup.v
Agent.v
Fairness.v
Liveness.v
System.v
Scrape.v
Goroutines.v
Scheduling.v
Tabwriter.v
Ctl.v
