(* ===== verification/Prelude.v ===== *)
(** * KubeNPU, verified

    KubeNPU is a node agent that counts the [drm_ioctl] calls of GPU and NPU
    users and labels them with the pod that made them. An eBPF program on
    [drm_ioctl] filters calls by device and ioctl number and writes a record to
    a ring buffer; the agent decodes it, finds the container of the cgroup, and
    increments a Prometheus counter. This library models that path from the C
    program to the scrape, and proves what each part promises and what they
    promise together.

    ** The parts and their files, in dependency order

    - [Prelude] (this file): machine integers as [Z] with explicit wrap-around
      ([wrap], [in_width]), bytes and little-endian encoding, Go errors (sentinel
      variables and wrapping, [errors_Is]), the result type [res] with its monad
      instances, the hint databases [knpu] and the development's tactics.
    - [GoStrings]: the functions of Go's [strings], [path/filepath], [strconv]
      and [bufio.Scanner] the program uses, on [String.string], with the lemmas
      the parsers need (cut, split/join, replace, integer round trip).
    - [CLayout]: C types with bit-fields, sizes, offsets and byte-level member
      access, with the separation lemmas; a type that passes the test [wf_type] is
      laid out soundly ([wf_sound_layout]).
    - [Vmlinux]: the kernel types the program reaches ([src/bpf/vmlinux.h]).
      [VmlinuxBpf], [VmlinuxNet], [VmlinuxTask], [VmlinuxDrm], [VmlinuxFs]: the
      structs the helper prototypes mention, with what they contain by value, the
      DRM objects behind the hooked function, and the structs the compiled program
      records; a struct is the list of its members.
    - [Tracing]: the argument macros [BPF_PROG] and [BPF_PROG2] of
      [src/bpf/bpf/bpf_tracing.h]. [PtRegs]: the rest of that header: target
      selection and what the macros become without a target, the registers of
      ten architectures, kprobe and system-call probes.
    - [BpfHelpers]: every helper prototype of [src/bpf/bpf/bpf_helper_defs.h].
      [HelperTypes]: its forward declarations against [vmlinux.h].
    - [BpfMacros] and [BpfLoops]: [src/bpf/bpf/bpf_helpers.h]: printing, parameter
      filling, tail calls, member arithmetic, map and symbol declarations, and the
      loops over the kernel's iterators (a type class with laws), with the
      conversions of C between the integer types of their arguments.
    - [Kernel]: interfaces to the kernel's maps as type classes with laws
      ([BpfHash], [BpfRingbuf], [BpfPercpu], and the capacity contract
      [BpfHashCap]); Module [Model] instantiates them for the examples.
    - [BpfProgram]: [src/bpf/common.h] and [src/bpf/drm_common.bpf.c]. Structs
      are byte layouts, [kubenpu_ioctl] is the program statement by statement
      over the map interfaces, kernel memory is read through CO-RE relocations;
      [kubenpu_ioctl_entry] is what [BPF_PROG] wraps around it.
    - [Concurrent]: the same program as small steps, one per access to shared
      memory, on several CPUs beside a reader of the ring buffer, whose
      reservations exclude each other by a spinlock.
    - [Bytecode]: eBPF instructions, their decoding and a machine for them.
      [ObjectBytes]: the bytes of [src/pkg/loader/bpf_x86_bpfel.o]. [ObjectFile]:
      their ELF and BTF sections, and the Go file generated around them
      ([bpf_x86_bpfel.go]). [ObjectCode]: the program found there, run.
    - [Hw]: [src/pkg/hw] and the device types of [src/pkg/discovery/device.go];
      the [Vendor] interface is a record of its methods.
    - [Loader]: [src/pkg/loader]. The [Loader] record holds the kernel objects,
      the hook, the reader and the two [sync.Once] flags, plus the calls made to
      the eBPF library so far, map updates included; a reader, hook or object is
      closed when the closing call was made and has not failed
      ([reader_closed], [hook_closed], [object_closed]).
    - [Discovery]: [src/pkg/discovery]; the file system is the record [system].
      [DiscoveryTest]: the package's tests, evaluated on the definitions.
    - [Cgroup] and [PodMap]: [src/pkg/podmap]. [Cgroup] has the path parser and
      the index built by a directory walk; [PodMap] the cache in front of the CRI
      runtime, its rules as an inductive specification ([answers]), and the
      interface [Resolver] the agent is written against.
    - [Config]: [src/pkg/config/config.go], environment to configuration.
    - [Metrics]: [src/pkg/metrics], the collector's maps and scrape, conversion
      to [float64], the probes of the HTTP server.
    - [Deploy]: the container that [src/deploy] (Helm, Tanka, Kustomize) renders
      from a set of values: image, security context, environment, port, probes,
      mounts.
    - [Setup]: [src/cmd/agent/main.go] up to its main loop, as a function of
      everything the process gets from outside ([host]); its result carries the
      trace of what was done in which order ([startup]).
    - [Agent]: the running agent of the same file as a state machine: kernel,
      reader loop, bounded queue, worker, signal goroutine and shutdown. Closing
      the queue, the pod map and the loader and the end of the process are steps
      of their own; a reader whose closing failed goes on being read; reads fail
      as they please. Steps are executable ([do_step]) and equal to a rule system ([rule]); [reach]
      collects runs with what they observably did.
    - [Fairness]: weakly fair infinite executions of a step function, in which an
      action may take the turn of a component without being one it can rely on
      (a read that fails), and the rule that concludes progress from a measure.
      [Liveness]: the agent's executions under it.
    - [System]: the parts together. [Scrape]: the collector gathered while the
      agent runs. [Goroutines]: the goroutines and the HTTP handlers beside the
      collector's mutex, one step per lock, map access and metric sent; the
      lookup of the kernel's drop counters can fail at any scrape, and does once
      the map is closed.
      [Scheduling]: their infinite executions, which are fair ones of [Agent].
    - [Tabwriter]: Go's [text/tabwriter] as [kubenpuctl] configures it, rune
      counts included. [Ctl]: [src/cmd/kubenpuctl].

    ** What is shown

    - Filter and record: the program implements an abstract filter on every
      branch, for every layout of the kernel's structs; the record leaks no old
      memory; the Go mirror types decode it exactly; helper calls and map
      declarations type-check against the kernel's declarations.
    - Concurrency: every interleaving of executions on several CPUs with each
      other and with the reader is a sequence of atomic executions, each at a
      point between its call and its return, so the other files may take an
      execution as one step; an execution waits for another one only to enter a
      reservation in the ring buffer, and there for one step.
    - The compiled program: the object file the agent embeds has the map
      definitions, the struct layouts and the names of the sources, and its
      instructions, relocated for any kernel, exit without an access out of
      bounds, in the state and with the result of the C program.
    - Setup: for any iteration order of maps and directories the kernel maps and
      the device map hold exactly the nodes and ioctls of the supported devices;
      setup fails exactly beyond 32 nodes; the program is attached after the
      last update of the maps, once, and the order of all other steps of the
      start is that of the source.
    - Names: the paths of both cgroup drivers parse back to pod and container;
      answers are current with respect to index, TTL and runtime; errors are
      classified as the drop reasons say; a new container is found in one lookup
      unless the rebuild rate limit holds it back.
    - Accounting: over all interleavings, every event is in exactly one place,
      and each series of the scrape is the number of its outcomes; events are
      handled in order; the queue is bounded; when the reader could be closed,
      shutdown drains the queue and terminates within a measure; readiness
      follows the signal.
    - Mutual exclusion: the interleavings of goroutines and scrapes inside the
      collector's methods are runs in which the methods are atomic; the mutex is
      released by whoever holds it.
    - Progress: in every execution that schedules goroutines and handlers fairly,
      with a mutex that starves nobody, what is queued is settled, what is
      submitted is read if reads do not fail for ever and no shutdown comes first,
      scrapes are answered, and a signal makes [main] return unless closing the
      reader fails; if it does, there is a fair execution in which [main] never
      returns, which is recorded as a finding.
    - End to end ([System], [Scrape], [Goroutines]): a call on a file opened from a discovered
      node is submitted exactly when its device's vendor lists it; each counted
      event carries the labels of the device and the kind of the call that caused
      it; from a scrape to a later one no counter decreases and no series is lost
      but that of the kernel's drops, when it could not be looked up. Events whose cgroup path does not
      parse are counted nowhere, which is recorded as a finding, as are the
      overflow of durations and the rate limit on index rebuilds.
    - The headers: helper numbers and types agree with the kernel's; kprobes and
      system-call probes hand over the arguments fentry programs get, whatever
      the high bytes of a slot hold but for a [bool] of [BPF_PROG]; printing
      calls fit the calling convention; loops over iterators end and destroy them.
    - [kubenpuctl]: the listing is an aligned table of the discovered devices; a
      failed discovery is reported on standard error only.
    - Deployment: the three renderings start the same agent, with the image and
      the capabilities of the values, configured as they say, probed where it
      answers, with the directories it reads mounted.

    ** Conventions and bounds

    Loops are structural recursion on the data they range over, with three
    exceptions: [TrimSpace] in [GoStrings] has the length of the string
    ([trim_fuel_enough]); the iterator loops of [BpfLoops] have fuel, which need
    not exceed the length of the range; and the tab writer's recursion over
    columns has the number of columns ([format_fuel]: more makes no difference).
    The machine of [Bytecode] runs as many steps as the program has instruction
    slots, which is enough since its jumps go forward; BTF types are compared to
    a depth of 20, beyond the nesting of any recorded type.
    Go's map iteration is an arbitrary permutation. Time is a monotonic clock in
    nanoseconds, given to each call. A step of [Agent] is one access to what the
    threads share: a call of the BPF program, a read of the ring buffer, a
    channel operation, a method of the collector. That a call of the program may
    be one step is what [Concurrent] proves of its single accesses, and that a
    method of the collector may be is what [Goroutines] proves; a lookup in the
    pod map is one step since only the worker uses the pod map and all that
    others see of it is an atomic counter. Counters wrap at 64 bits; the measure
    of the shutdown theorem is bounded by three times the queue size plus eleven.

    ** What is not modelled

    Kernel helpers, the verifier and the JIT, the eBPF and gRPC libraries, the
    Prometheus registry, the HTTP stack and cobra are parameters with their
    documented behaviour as hypotheses, which the examples instantiate; ELF, BTF
    and the instruction set follow their published formats. Of [vmlinux.h], which
    dumps every type of one kernel build, the types are modelled that the
    program, a helper prototype or the compiled program's type information
    reaches. Compiler attributes ([__always_inline], [__hidden], sections other
    than those the loader looks for), and of the manifests names and labels, probe
    timings, services, resource limits, update strategy and scheduling are left
    out. Formatted
    error and log texts are not computed: nothing in the program branches on
    them. That [unix.Major] and [unix.Minor] of a [stat] result are the kernel's
    numbers of the file is the definition [device_file], a hypothesis of the
    theorem that crosses that boundary. *)

From stdpp Require Export base prelude gmap strings list fin_maps.
From Stdlib Require Export ZArith Lia.
From coqutil Require Byte Word.LittleEndianList.

Global Open Scope Z_scope.
Declare Scope knpu_scope.
Delimit Scope knpu_scope with knpu.
Open Scope knpu_scope.

(** ** Machine integers: a [w]-bit unsigned value is a [Z] in range, and a
    store or an addition at width [w] wraps. *)

Definition wrap (w z : Z) : Z := z mod 2 ^ w.

Definition in_width (w z : Z) : Prop := 0 ≤ z < 2 ^ w.

#[export] Instance in_width_dec w z : Decision (in_width w z).
Proof. unfold in_width. apply _. Defined.

Lemma wrap_in_width w z : 0 ≤ w → in_width w (wrap w z).
Proof. intros. unfold in_width, wrap. apply Z.mod_pos_bound. lia. Qed.

Lemma wrap_id w z : in_width w z → wrap w z = z.
Proof. intros []. by apply Z.mod_small. Qed.

Lemma wrap_wrap w z : wrap w (wrap w z) = wrap w z.
Proof. apply Zmod_mod. Qed.

Lemma wrap_add_l w a b : wrap w (wrap w a + b) = wrap w (a + b).
Proof. apply Zplus_mod_idemp_l. Qed.

Lemma wrap_add_r w a b : wrap w (a + wrap w b) = wrap w (a + b).
Proof. apply Zplus_mod_idemp_r. Qed.

Lemma in_width_mono w w' z : 0 ≤ w ≤ w' → in_width w z → in_width w' z.
Proof.
  unfold in_width. intros [? ?] [? ?]. split; [done|].
  eapply Z.lt_le_trans; [done|]. apply Z.pow_le_mono_r; lia.
Qed.

(** Packing a low field of [n] bits under a high field. *)
Lemma lor_shiftl_add a b n :
  0 ≤ n → 0 ≤ b < 2 ^ n → Z.lor (Z.shiftl a n) b = a * 2 ^ n + b.
Proof.
  intros Hn Hb. rewrite <- Z.shiftl_mul_pow2 by done.
  symmetry. apply Z.add_nocarry_lor, Z.bits_inj'. intros i Hi.
  rewrite Z.land_spec, Z.bits_0, Z.shiftl_spec by done.
  destruct (decide (i < n)).
  - by rewrite Z.testbit_neg_r by lia.
  - rewrite <- (Z.mod_small b (2 ^ n)) by done.
    rewrite Z.mod_pow2_bits_high by lia. apply andb_false_r.
Qed.

(** ** Bytes *)

Abbreviation byte := Init.Byte.byte.
Abbreviation bytes := (list byte).

#[export] Instance byte_eq_decision : EqDecision byte := Byte.byte_eq_dec.

#[export] Program Instance byte_countable : Countable byte :=
  inj_countable Byte.to_N Byte.of_N _.
Next Obligation. intros b. apply Byte.of_to_N. Qed.

(** Little-endian encoding at a byte width, and its inverse. *)
Definition le_bytes (n : nat) (z : Z) : bytes :=
  LittleEndianList.le_split n z.

Definition le_value (bs : bytes) : Z :=
  LittleEndianList.le_combine bs.

Lemma length_le_bytes n z : length (le_bytes n z) = n.
Proof. apply LittleEndianList.length_le_split. Qed.

Lemma le_value_bytes n z : le_value (le_bytes n z) = wrap (8 * Z.of_nat n) z.
Proof.
  unfold le_value, le_bytes, wrap.
  rewrite LittleEndianList.le_combine_split. by rewrite Z.mul_comm.
Qed.

Lemma le_value_bytes_id n z :
  in_width (8 * Z.of_nat n) z → le_value (le_bytes n z) = z.
Proof. intros. rewrite le_value_bytes. by apply wrap_id. Qed.

Lemma le_bytes_value n bs : length bs = n → le_bytes n (le_value bs) = bs.
Proof. intros <-. apply LittleEndianList.split_le_combine. Qed.

Lemma le_value_width bs : in_width (8 * Z.of_nat (length bs)) (le_value bs).
Proof. apply LittleEndianList.le_combine_bound. Qed.

Lemma le_bytes_wrap n z : le_bytes n (wrap (8 * Z.of_nat n) z) = le_bytes n z.
Proof.
  unfold le_bytes, wrap. rewrite (LittleEndianList.le_split_mod z).
  by rewrite Z.mul_comm.
Qed.

Lemma le_bytes_inj n a b :
  in_width (8 * Z.of_nat n) a → in_width (8 * Z.of_nat n) b →
  le_bytes n a = le_bytes n b → a = b.
Proof.
  intros Ha Hb H. apply (f_equal le_value) in H.
  by rewrite !le_value_bytes_id in H.
Qed.

#[global] Arguments le_bytes : simpl never.
#[global] Arguments le_value : simpl never.

Example le_bytes_example : le_value (le_bytes 4 226) = 226.
Proof. vm_compute. reflexivity. Qed.

(** ** Go errors

    A package-level [errors.New] variable is a [Sentinel] (compared by
    identity, here by its qualified variable name); every other error value is
    a format with the errors it wraps with [%w] or joins. The formatted text is
    not modelled: nothing in the program branches on it. *)

Inductive error : Type :=
  | Sentinel (var : string)
  | Errorf (format : string) (wrapped : list error).

(** [errors.Is(e, target)] for a sentinel target: walk the wrapping tree. *)
Fixpoint errors_Is (target : string) (e : error) : bool :=
  match e with
  | Sentinel v => bool_decide (v = target)
  | Errorf _ ws => existsb (errors_Is target) ws
  end.

(** [errors.New(m)] inside a function: a fresh error that wraps nothing. *)
Definition errors_New (m : string) : error := Errorf m [].

Lemma errors_Is_New t m : errors_Is t (errors_New m) = false.
Proof. done. Qed.

Lemma errors_Is_wrap t f e : errors_Is t (Errorf f [e]) = errors_Is t e.
Proof. cbn. by rewrite orb_false_r. Qed.

(** The two results of a fallible Go function, [(a, nil)] or [(zero, err)]. *)
Inductive res (A : Type) : Type :=
  | Ok (a : A)
  | Err (e : error).
Arguments Ok {A} a.
Arguments Err {A} e.

#[export] Instance res_ret : MRet res := λ _ a, Ok a.
#[export] Instance res_bind : MBind res :=
  λ _ _ k m, match m with Ok a => k a | Err e => Err e end.
#[export] Instance res_fmap : FMap res :=
  λ _ _ f m, match m with Ok a => Ok (f a) | Err e => Err e end.

Definition is_ok {A} (r : res A) : bool :=
  match r with Ok _ => true | Err _ => false end.

(** [if err != nil { return ..., fmt.Errorf(f, ..., err) }] *)
Definition wrap_err {A} (f : string) (r : res A) : res A :=
  match r with Ok a => Ok a | Err e => Err (Errorf f [e]) end.

Lemma res_bind_Ok {A B} (m : res A) (k : A → res B) b :
  m ≫= k = Ok b ↔ ∃ a, m = Ok a ∧ k a = Ok b.
Proof. destruct m; cbn; naive_solver. Qed.

Lemma wrap_err_Ok {A} f (r : res A) a : wrap_err f r = Ok a ↔ r = Ok a.
Proof. destruct r; naive_solver. Qed.

(** ** Sums *)

Lemma sum_insert (vs : list Z) cpu v v' :
  vs !! cpu = Some v → foldr Z.add 0 (<[cpu := v']> vs) = foldr Z.add 0 vs - v + v'.
Proof.
  revert cpu. induction vs as [|w vs IH]; intros [|cpu]; cbn; intros E; simplify_eq.
  - lia.
  - rewrite IH by done. lia.
Qed.

(** ** Automation *)

Create HintDb knpu.
Create Rewrite HintDb knpu.
#[export] Hint Rewrite @errors_Is_wrap @errors_Is_New : knpu.
#[export] Hint Rewrite wrap_wrap wrap_add_l wrap_add_r : knpu.
#[export] Hint Rewrite length_le_bytes : knpu.
#[export] Hint Resolve wrap_in_width wrap_id le_value_width : knpu.

(** Split every [match] and [if] of the goal and of the hypotheses, closing
    the branches that are contradictory. *)
Ltac split_cases :=
  repeat (case_match; simplify_eq/=; try done).

(** Unpack a successful monadic computation into its steps. *)
Ltac ok_inv :=
  repeat match goal with
  | H : _ ≫= _ = Ok _ |- _ => apply res_bind_Ok in H as (? & ? & ?)
  | H : wrap_err _ _ = Ok _ |- _ => apply wrap_err_Ok in H
  | H : Ok _ = Ok _ |- _ => injection H as H; subst
  | H : Err _ = Ok _ |- _ => discriminate H
  end.

(** Ranges of a machine integer, as inequalities for [lia]. *)
Ltac width_lia := unfold in_width, wrap in *; cbn in *; lia.

(** Reduce the option and result monads only. *)
Ltac opt_cbn :=
  cbn [mbind option_bind res_bind fmap option_fmap option_map res_fmap mret
       option_ret res_ret from_option default].

(** A closed decidable proposition, by evaluation. *)
Ltac by_decide := apply (bool_decide_unpack _); vm_compute; exact I.
