(* ===== verification/GoStrings.v ===== *)
(** * The part of Go's [strings], [path/filepath], [strconv] and [bufio]
      packages that the program uses

    Each function is written out on byte strings as the standard library
    defines it on Linux, with the lemmas the components share: what a prefix,
    suffix or separator test means, splitting and joining as inverses, and
    decimal printing and parsing. *)

From Stdlib Require Export Ascii.
From stdpp Require Import pretty.
From S2P Require Import Prelude.

Local Open Scope string_scope.
Local Open Scope Z_scope.

(** ** String algebra *)

#[global] Arguments String.append !_ _ /.

Lemma append_assoc (a b c : string) : (a ++ b) ++ c = a ++ (b ++ c).
Proof. induction a as [|x a IH]; cbn; [done|]. by rewrite <- IH. Qed.

Lemma append_nil_r (a : string) : a ++ "" = a.
Proof. induction a as [|x a IH]; cbn; [done|]. by rewrite IH. Qed.

Lemma append_cons c (a b : string) : String c a ++ b = String c (a ++ b).
Proof. done. Qed.

Lemma length_append (a b : string) :
  String.length (a ++ b) = (String.length a + String.length b)%nat.
Proof. induction a as [|x a IH]; cbn; [done|]. by rewrite IH. Qed.

Lemma append_inj_r (a b c : string) : a ++ c = b ++ c → a = b.
Proof.
  intros H.
  assert (Hlen : String.length a = String.length b).
  { apply (f_equal String.length) in H.
    rewrite !length_append in H. lia. }
  revert b H Hlen. induction a as [|x a IH]; intros [|y b] H Hlen; cbn in *;
    simplify_eq; [done|]. f_equal. eauto.
Qed.

#[export] Hint Rewrite append_assoc append_nil_r append_cons : knpu.

(** Does every character satisfy [p]? *)
Fixpoint all_chars (p : ascii → bool) (s : string) : bool :=
  match s with
  | "" => true
  | String c s => p c && all_chars p s
  end.

Lemma all_chars_app p a b :
  all_chars p (a ++ b) = all_chars p a && all_chars p b.
Proof. induction a as [|x a IH]; cbn; [done|]. rewrite IH. apply andb_assoc. Qed.

Lemma all_chars_impl (p q : ascii → bool) s :
  (∀ c, p c = true → q c = true) →
  all_chars p s = true → all_chars q s = true.
Proof.
  intros Hpq. induction s as [|c s IH]; cbn; [done|].
  rewrite !andb_true_iff. naive_solver.
Qed.

(** [s] contains no character [c]. *)
Definition no_char (c : ascii) (s : string) : bool :=
  all_chars (λ x, negb (Ascii.eqb x c)) s.

(** ** [strings]: prefixes, suffixes, cutting *)

(** [strings.CutPrefix(s, p)], as an option for its [found] result. *)
Fixpoint CutPrefix (s p : string) {struct p} : option string :=
  match p, s with
  | "", _ => Some s
  | String a p, String b s => if Ascii.eqb a b then CutPrefix s p else None
  | String _ _, "" => None
  end.

Definition HasPrefix (s p : string) : bool := bool_decide (is_Some (CutPrefix s p)).

Lemma CutPrefix_Some s p r : CutPrefix s p = Some r ↔ s = p ++ r.
Proof.
  revert s. induction p as [|a p IH]; intros [|b s]; cbn; try by split; congruence.
  destruct (Ascii.eqb_spec a b) as [<-|Hne]; [|split; congruence].
  rewrite IH. split; congruence.
Qed.

Lemma CutPrefix_app p r : CutPrefix (p ++ r) p = Some r.
Proof. by apply CutPrefix_Some. Qed.

Lemma HasPrefix_spec s p : HasPrefix s p = true ↔ ∃ r, s = p ++ r.
Proof.
  unfold HasPrefix. rewrite bool_decide_eq_true. split.
  - intros [r Hr]. exists r. by apply CutPrefix_Some.
  - intros [r Hr]. exists r. by apply CutPrefix_Some.
Qed.

(** The part of [s] before the suffix [x], if [s] ends in [x]. *)
Fixpoint CutSuffix (s x : string) : option string :=
  if String.eqb s x then Some ""
  else match s with
       | "" => None
       | String c s => String c <$> CutSuffix s x
       end.

Definition HasSuffix (s x : string) : bool := bool_decide (is_Some (CutSuffix s x)).
Definition TrimSuffix (s x : string) : string := default s (CutSuffix s x).

Lemma CutSuffix_app r x : CutSuffix (r ++ x) x = Some r.
Proof.
  induction r as [|c r IH].
  - cbn. destruct x; cbn; [done|]. by rewrite Ascii.eqb_refl, String.eqb_refl.
  - cbn [String.append CutSuffix].
    destruct (String.eqb_spec (String c (r ++ x)) x) as [H|_].
    + apply (f_equal String.length) in H. cbn in H.
      rewrite length_append in H. lia.
    + by rewrite IH.
Qed.

Lemma CutSuffix_Some s x r : CutSuffix s x = Some r ↔ s = r ++ x.
Proof.
  split; [|intros ->; apply CutSuffix_app].
  revert r. induction s as [|c s IH]; intros r; cbn [CutSuffix].
  - destruct (String.eqb_spec "" x) as [<-|_]; [naive_solver|done].
  - destruct (String.eqb_spec (String c s) x) as [<-|_]; [naive_solver|].
    intros (r' & Hr' & ->)%fmap_Some. apply IH in Hr' as ->. done.
Qed.

Lemma HasSuffix_spec s x : HasSuffix s x = true ↔ ∃ r, s = r ++ x.
Proof.
  unfold HasSuffix. rewrite bool_decide_eq_true. split.
  - intros [r Hr]. exists r. by apply CutSuffix_Some.
  - intros [r Hr]. exists r. by apply CutSuffix_Some.
Qed.

Lemma TrimSuffix_app r x : TrimSuffix (r ++ x) x = r.
Proof. unfold TrimSuffix. by rewrite CutSuffix_app. Qed.

(** [strings.Cut(s, sep)]: split around the first occurrence of [sep]. *)
Fixpoint Cut (s sep : string) : option (string * string) :=
  match CutPrefix s sep with
  | Some after => Some ("", after)
  | None => match s with
            | "" => None
            | String c s => prod_map (String c) id <$> Cut s sep
            end
  end.

Definition Contains (s sub : string) : bool := bool_decide (is_Some (Cut s sub)).

Lemma Cut_Some s sep b a : Cut s sep = Some (b, a) → s = b ++ sep ++ a.
Proof.
  revert b a. induction s as [|c s IH]; intros b a; cbn [Cut];
    destruct (CutPrefix _ sep) as [r|] eqn:E.
  - intros [= <- <-]. by apply CutPrefix_Some in E.
  - done.
  - intros [= <- <-]. by apply CutPrefix_Some in E.
  - intros ([b' a'] & HC & [= -> ->])%fmap_Some. cbn. f_equal. by apply IH.
Qed.

Lemma Cut_occurs b sep a : is_Some (Cut (b ++ sep ++ a) sep).
Proof.
  induction b as [|c b IH]; cbn [String.append].
  - pose proof (CutPrefix_app sep a) as H.
    destruct (sep ++ a); cbn [Cut]; rewrite H; eauto.
  - cbn [Cut]. destruct (CutPrefix _ sep) as [r|]; [eauto|].
    destruct IH as [[b' a'] ->]. cbn. eauto.
Qed.

Lemma Contains_spec s sub :
  Contains s sub = true ↔ ∃ b a, s = b ++ sub ++ a.
Proof.
  unfold Contains. rewrite bool_decide_eq_true. split.
  - intros [[b a] H]. exists b, a. by apply Cut_Some.
  - intros (b & a & ->). apply Cut_occurs.
Qed.

(** Cutting at a separator whose first character the prefix avoids finds the
    occurrence right after the prefix. *)
Lemma Cut_first c sep b a :
  no_char c b = true → Cut (b ++ String c sep ++ a) (String c sep) = Some (b, a).
Proof.
  induction b as [|x b IH]; cbn [String.append no_char all_chars]; intros Hb.
  - cbn. by rewrite Ascii.eqb_refl, CutPrefix_app.
  - apply andb_true_iff in Hb as [Hx Hb]. cbn [Cut CutPrefix].
    destruct (Ascii.eqb_spec c x) as [->|_];
      [by rewrite Ascii.eqb_refl in Hx|].
    fold (no_char c b) in Hb. cbn [String.append] in IH. by rewrite (IH Hb).
Qed.

(** ** [strings]: splitting, joining, searching and replacing one byte *)

(** [strings.Split(s, sep)] for a one-byte separator. *)
Fixpoint Split (s : string) (c : ascii) : list string :=
  match s with
  | "" => [""]
  | String x s =>
      if Ascii.eqb x c then "" :: Split s c
      else match Split s c with
           | p :: ps => String x p :: ps
           | [] => [String x ""]
           end
  end.

(** [strings.Join(parts, sep)]. *)
Fixpoint Join (parts : list string) (sep : string) : string :=
  match parts with
  | [] => ""
  | [p] => p
  | p :: ps => p ++ sep ++ Join ps sep
  end.

Lemma Split_ne s c : Split s c ≠ [].
Proof. destruct s as [|x s]; cbn; [done|]. split_cases. Qed.

Lemma Split_app a b c : Split (a ++ String c b) c = (Split a c ++ Split b c)%list.
Proof.
  induction a as [|x a IH]; cbn [String.append Split].
  - by rewrite Ascii.eqb_refl.
  - rewrite IH. destruct (Ascii.eqb x c); [done|].
    destruct (Split a c) as [|p ps] eqn:E; [by apply Split_ne in E|done].
Qed.

Lemma Split_no_char s c : no_char c s = true → Split s c = [s].
Proof.
  unfold no_char. induction s as [|x s IH]; cbn; [done|].
  rewrite andb_true_iff, negb_true_iff. intros [-> Hs]. by rewrite IH.
Qed.

Lemma Join_cons p ps sep :
  ps ≠ [] → Join (p :: ps) sep = p ++ sep ++ Join ps sep.
Proof. by destruct ps. Qed.

Lemma Split_Join ps c :
  ps ≠ [] → Forall (λ p, no_char c p = true) ps →
  Split (Join ps (String c "")) c = ps.
Proof.
  intros Hne H. induction H as [|p ps Hp Hps IH]; [done|].
  destruct (decide (ps = [])) as [->|Hps'].
  - by apply Split_no_char.
  - rewrite Join_cons by done. cbn [String.append].
    rewrite Split_app, Split_no_char, IH by done. done.
Qed.

Lemma Split_no_sep s c : Forall (λ p, no_char c p = true) (Split s c).
Proof.
  induction s as [|x s IH]; cbn; [by repeat constructor|].
  destruct (Ascii.eqb x c) eqn:E; [by constructor|].
  assert (Hx : no_char c (String x "") = true)
    by (unfold no_char; cbn; by rewrite E).
  destruct (Split s c) as [|p ps]; inversion_clear IH; constructor; try done.
  unfold no_char in *. cbn in *. by rewrite E.
Qed.

Lemma Join_Split s c : Join (Split s c) (String c "") = s.
Proof.
  induction s as [|x s IH]; cbn [Split]; [done|].
  destruct (Ascii.eqb_spec x c) as [->|_].
  - rewrite Join_cons by apply Split_ne. by rewrite IH.
  - destruct (Split s c) as [|p ps] eqn:E; [by apply Split_ne in E|].
    destruct ps; cbn in *; by rewrite IH.
Qed.

(** [strings.LastIndex(s, c)] for a one-byte [c]; [None] is Go's -1. *)
Fixpoint LastIndex (s : string) (c : ascii) : option nat :=
  match s with
  | "" => None
  | String x s =>
      match LastIndex s c with
      | Some i => Some (S i)
      | None => if Ascii.eqb x c then Some O else None
      end
  end.

(** The slice [s[n:]]. *)
Fixpoint slice_from (n : nat) (s : string) : string :=
  match n, s with
  | O, _ => s
  | S n, String _ s => slice_from n s
  | S _, "" => ""
  end.

Lemma LastIndex_None s c : no_char c s = true → LastIndex s c = None.
Proof.
  unfold no_char. induction s as [|x s IH]; cbn; [done|].
  rewrite andb_true_iff, negb_true_iff. intros [-> Hs]. by rewrite IH.
Qed.

Lemma LastIndex_app a c b :
  no_char c b = true → LastIndex (a ++ String c b) c = Some (String.length a).
Proof.
  intros Hb. induction a as [|x a IH]; cbn.
  - by rewrite LastIndex_None, Ascii.eqb_refl.
  - by rewrite IH.
Qed.

Lemma slice_from_app a x b : slice_from (String.length a + 1) (a ++ String x b) = b.
Proof. by induction a. Qed.

(** [strings.ReplaceAll(s, old, new)] for one-byte [old] and [new]. *)
Fixpoint ReplaceAll (s : string) (old new : ascii) : string :=
  match s with
  | "" => ""
  | String x s => String (if Ascii.eqb x old then new else x) (ReplaceAll s old new)
  end.

Lemma ReplaceAll_none s old new : no_char old s = true → ReplaceAll s old new = s.
Proof.
  unfold no_char. induction s as [|x s IH]; cbn; [done|].
  rewrite andb_true_iff, negb_true_iff. intros [-> Hs]. by rewrite IH.
Qed.

(** Replacing back restores a string that did not use the new byte. *)
Lemma ReplaceAll_undo s old new :
  no_char new s = true → ReplaceAll (ReplaceAll s old new) new old = s.
Proof.
  unfold no_char. induction s as [|x s IH]; cbn; [done|].
  rewrite andb_true_iff, negb_true_iff. intros [Hx Hs]. rewrite IH by done.
  destruct (Ascii.eqb_spec x old) as [->|_]; [by rewrite Ascii.eqb_refl|].
  by rewrite Hx.
Qed.

Lemma ReplaceAll_removes s old new :
  old ≠ new → no_char old (ReplaceAll s old new) = true.
Proof.
  intros Hne. unfold no_char. induction s as [|x s IH]; cbn; [done|].
  rewrite IH, andb_true_r. destruct (Ascii.eqb_spec x old) as [->|Hx].
  - by destruct (Ascii.eqb_spec new old).
  - by destruct (Ascii.eqb_spec x old).
Qed.

(** ** [strings.TrimSpace] *)

Definition byte_string (bs : list nat) : string :=
  fold_right (λ b s, String (ascii_of_nat b) s) "" bs.

(** The UTF-8 encodings of the code points [unicode.IsSpace] accepts. *)
Definition space_encodings : list string :=
  map byte_string
    ([[9]; [10]; [11]; [12]; [13]; [32]; [194; 133]; [194; 160];
      [225; 154; 128]; [226; 128; 168]; [226; 128; 169]; [226; 128; 175];
      [226; 129; 159]; [227; 128; 128]]
     ++ map (λ k, [226; 128; 128 + k]) (seq 0 11))%nat%list.

(** Strip with [cut] the first encoding it finds, at most [fuel] times; the
    length of the string is enough fuel ([trim_fuel_enough]). *)
Fixpoint trim_with (cut : string → string → option string) (fuel : nat)
    (s : string) : string :=
  match fuel with
  | O => s
  | S fuel =>
      match head (omap (cut s) space_encodings) with
      | Some r => trim_with cut fuel r
      | None => s
      end
  end.

Definition TrimSpace (s : string) : string :=
  let l := trim_with CutPrefix (String.length s) s in
  trim_with CutSuffix (String.length l) l.

Lemma space_encodings_ne e : e ∈ space_encodings → (0 < String.length e)%nat.
Proof.
  intros He. assert (Forall (λ e, (0 < String.length e)%nat) space_encodings) as H.
  { unfold space_encodings. repeat constructor; cbn; lia. }
  rewrite Forall_forall in H. by apply H.
Qed.

#[global] Opaque space_encodings.

Lemma head_omap_Some {A B} (f : A → option B) l b :
  head (omap f l) = Some b → ∃ a, a ∈ l ∧ f a = Some b.
Proof.
  intros H. assert (b ∈ omap f l) as Hb by (destruct (omap f l); set_solver).
  by apply list_elem_of_omap in Hb.
Qed.

Lemma head_omap_None {A B} (f : A → option B) l a :
  head (omap f l) = None → a ∈ l → f a = None.
Proof.
  intros H Ha. destruct (f a) as [b|] eqn:E; [|done].
  assert (b ∈ omap f l) as Hb by (apply list_elem_of_omap; eauto).
  destruct (omap f l); set_solver.
Qed.

Lemma trim_fuel_enough cut s e n :
  (∀ s e r, cut s e = Some r →
     String.length s = (String.length r + String.length e)%nat) →
  (String.length s ≤ n)%nat → e ∈ space_encodings →
  cut (trim_with cut n s) e = None.
Proof.
  intros Hcut. revert s. induction n as [|n IH]; intros s Hn He; cbn [trim_with].
  - destruct (cut s e) as [r|] eqn:E; [|done].
    apply Hcut in E. apply space_encodings_ne in He. lia.
  - destruct (head _) as [r|] eqn:E.
    + apply head_omap_Some in E as (e' & He' & E). apply Hcut in E.
      apply space_encodings_ne in He'. apply IH; [lia|done].
    + by eapply head_omap_None in E.
Qed.

Lemma trim_with_id cut s n :
  (∀ e, e ∈ space_encodings → cut s e = None) → trim_with cut n s = s.
Proof.
  intros H. destruct n; cbn [trim_with]; [done|].
  destruct (head _) as [r|] eqn:E; [|done].
  apply head_omap_Some in E as (e & He & E). by rewrite H in E.
Qed.

Lemma CutSuffix_length s e r :
  CutSuffix s e = Some r → String.length s = (String.length r + String.length e)%nat.
Proof. intros ->%CutSuffix_Some. apply length_append. Qed.

(** Nothing is left to trim on the right. *)
Lemma TrimSpace_no_suffix s e :
  e ∈ space_encodings → CutSuffix (TrimSpace s) e = None.
Proof.
  intros He. unfold TrimSpace.
  exact (trim_fuel_enough _ _ _ _ CutSuffix_length (le_n _) He).
Qed.

(** ** [path/filepath] on Linux *)

Definition ToSlash (path : string) : string := path.

(** One path component of [Clean], on the stack of the components kept so
    far (innermost first). *)
Definition clean_step (rooted : bool) (stack : list string) (c : string) :
    list string :=
  if String.eqb c "" || String.eqb c "." then stack
  else if String.eqb c ".." then
    match stack with
    | top :: rest => if String.eqb top ".." then ".." :: stack else rest
    | [] => if rooted then [] else [".."]
    end
  else c :: stack.

Definition Clean (path : string) : string :=
  let rooted := HasPrefix path "/" in
  let comps := rev (foldl (clean_step rooted) [] (Split path "/")) in
  if rooted then "/" ++ Join comps "/"
  else match comps with [] => "." | _ => Join comps "/" end.

(** [filepath.Join(elem...)]. *)
Fixpoint path_Join (elem : list string) : string :=
  match elem with
  | [] => ""
  | e :: es => if String.eqb e "" then path_Join es else Clean (Join elem "/")
  end.

(** [filepath.Base(path)]: the last non-empty component. *)
Definition Base (path : string) : string :=
  if String.eqb path "" then "."
  else default "/" (last (filter (λ c, c ≠ "") (Split path "/"))).

Example path_Join_ex1 : path_Join ["/sys/class/drm"; "card1"] = "/sys/class/drm/card1".
Proof. reflexivity. Qed.
Example path_Join_ex2 : path_Join ["a/"; "../b"; ""; "./c"] = "b/c".
Proof. reflexivity. Qed.
Example Base_ex1 : Base "/sys/devices/pci0000:00/0000:00:02.0" = "0000:00:02.0".
Proof. reflexivity. Qed.
Example Base_ex2 : Base "//" = "/".
Proof. reflexivity. Qed.
Example TrimSpace_ex : TrimSpace (" 1" ++ byte_string [10%nat]) = "1".
Proof. reflexivity. Qed.

(** ** [strconv] *)

Definition digit_val (c : ascii) : option Z :=
  let n := Z.of_nat (nat_of_ascii c) in
  if bool_decide (48 ≤ n ≤ 57) then Some (n - 48) else None.

Fixpoint parse_digits (acc : Z) (s : string) : option Z :=
  match s with
  | "" => Some acc
  | String c s => d ← digit_val c; parse_digits (10 * acc + d) s
  end.

Definition parse_uint (s : string) : option Z :=
  match s with "" => None | _ => parse_digits 0 s end.

(** [strconv.ParseInt(s, 10, 64)]; [strconv.Atoi] is the same function on a
    64-bit platform. A syntax error and a range error are both [None]. *)
Definition ParseInt (s : string) : option Z :=
  z ← match s with
      | String "+" r => parse_uint r
      | String "-" r => Z.opp <$> parse_uint r
      | _ => parse_uint s
      end;
  if bool_decide (- 2 ^ 63 ≤ z < 2 ^ 63) then Some z else None.

Definition Atoi : string → option Z := ParseInt.

(** [strconv.Itoa] and the [%d] verb. *)
Definition Itoa (z : Z) : string := pretty z.

Lemma ParseInt_range s z : ParseInt s = Some z → - 2 ^ 63 ≤ z < 2 ^ 63.
Proof.
  unfold ParseInt. intros (y & _ & H)%bind_Some.
  case_bool_decide; naive_solver.
Qed.

Lemma digit_val_pretty n :
  (n < 10)%N → digit_val (pretty_N_char n) = Some (Z.of_N n).
Proof.
  intros H. assert (n = 0 ∨ n = 1 ∨ n = 2 ∨ n = 3 ∨ n = 4 ∨ n = 5 ∨ n = 6 ∨
    n = 7 ∨ n = 8 ∨ n = 9)%N as Hn by lia.
  naive_solver.
Qed.

Lemma parse_pretty_go x s :
  (0 < x)%N → parse_digits 0 (pretty_N_go x s) = parse_digits (Z.of_N x) s.
Proof.
  revert s. induction (N.lt_wf_0 x) as [x _ IH]; intros s Hx.
  rewrite pretty_N_go_step by done.
  assert (Hm : (x `mod` 10 < 10)%N) by (apply N.mod_lt; lia).
  assert (Hd : Z.of_N x = 10 * Z.of_N (x `div` 10) + Z.of_N (x `mod` 10)).
  { pose proof (N.div_mod x 10). lia. }
  destruct (decide (x `div` 10 = 0)%N) as [E|E].
  - rewrite E, pretty_N_go_0. cbn [parse_digits].
    rewrite digit_val_pretty by done. cbn [mbind option_bind].
    f_equal. rewrite E in Hd. lia.
  - assert (x `div` 10 < x)%N by (apply N.div_lt; lia).
    rewrite IH by lia. cbn [parse_digits].
    rewrite digit_val_pretty by done. cbn [mbind option_bind].
    f_equal. lia.
Qed.

Lemma pretty_N_go_ne x c s : pretty_N_go x (String c s) ≠ "".
Proof.
  revert c s. induction (N.lt_wf_0 x) as [x _ IH]; intros c s.
  destruct (decide (x = 0)%N) as [->|E]; [by rewrite pretty_N_go_0|].
  rewrite pretty_N_go_step by lia. apply IH. apply N.div_lt; lia.
Qed.

Lemma parse_uint_pretty (x : N) : parse_uint (pretty x) = Some (Z.of_N x).
Proof.
  unfold pretty, pretty_N. case_decide as E; [by subst|].
  unfold parse_uint. rewrite pretty_N_go_step by lia.
  pose proof (pretty_N_go_ne (x `div` 10) (pretty_N_char (x `mod` 10)) "") as Hne.
  destruct (pretty_N_go _ _) as [|c r] eqn:Eg; [done|].
  rewrite <- Eg, <- pretty_N_go_step by lia. apply parse_pretty_go. lia.
Qed.

Lemma parse_digits_nonneg acc s z :
  0 ≤ acc → parse_digits acc s = Some z → 0 ≤ z.
Proof.
  revert acc. induction s as [|c s IH]; cbn; intros acc Ha; [naive_solver|].
  intros (d & Hd & H)%bind_Some. apply IH in H; [done|].
  unfold digit_val in Hd. case_bool_decide; simplify_eq. lia.
Qed.

Lemma parse_uint_sign c s x : parse_uint (String c s) = Some x → c ≠ "+"%char ∧ c ≠ "-"%char.
Proof.
  unfold parse_uint. cbn. intros (d & Hd & _)%bind_Some.
  split; intros ->; by vm_compute in Hd.
Qed.

Lemma ParseInt_uint s x :
  parse_uint s = Some x → x < 2 ^ 63 → ParseInt s = Some x.
Proof.
  intros H Hx. assert (0 ≤ x) as H0.
  { destruct s; [done|]. by eapply (parse_digits_nonneg 0). }
  unfold ParseInt. assert (match s with
      | String "+" r => parse_uint r
      | String "-" r => Z.opp <$> parse_uint r
      | _ => parse_uint s end = Some x) as ->.
  { destruct s as [|c s]; [done|]. apply parse_uint_sign in H as Hc.
    destruct c as [[] [] [] [] [] [] [] []]; naive_solver. }
  cbn. rewrite bool_decide_eq_true_2; [done|lia].
Qed.

(** Printing and parsing an [int] round-trips. *)
Lemma ParseInt_Itoa z : - 2 ^ 63 ≤ z < 2 ^ 63 → ParseInt (Itoa z) = Some z.
Proof.
  intros Hz. unfold Itoa. destruct z as [|p|p].
  - done.
  - change (pretty (Z.pos p)) with (pretty (N.pos p)).
    apply ParseInt_uint; [|lia]. by rewrite parse_uint_pretty.
  - change (pretty (Z.neg p)) with ("-" ++ pretty (N.pos p)).
    unfold ParseInt. cbn [String.append]. rewrite parse_uint_pretty.
    cbn [mbind option_bind fmap option_fmap option_map].
    change (- Z.of_N (N.pos p)) with (Z.neg p).
    by rewrite bool_decide_eq_true_2.
Qed.

(** ** [bufio.Scanner] with [ScanLines] *)

(** [bufio.MaxScanTokenSize]: a line that does not leave room for its newline
    in a buffer of this size ends the scan with [ErrTooLong]. *)
Definition max_token_size : Z := 65536.

Definition newline : ascii := "010".
Definition drop_cr (line : string) : string := TrimSuffix line (String "013" "").

(** The tokens of the lines [ls] of a file (its content split at the
    newlines), and whether the scan stopped at a line that is too long. An
    empty last line is not a token. *)
Fixpoint scan_lines (limit : Z) (ls : list string) : list string * bool :=
  match ls with
  | [] => ([], false)
  | [l] => if bool_decide (limit ≤ Z.of_nat (String.length l)) then ([], true)
           else if String.eqb l "" then ([], false) else ([drop_cr l], false)
  | l :: ls => if bool_decide (limit ≤ Z.of_nat (String.length l)) then ([], true)
               else let '(ts, long) := scan_lines limit ls in (drop_cr l :: ts, long)
  end.

Definition scanner_lines (content : string) : list string * bool :=
  scan_lines max_token_size (Split content newline).

Example scanner_ex : scanner_lines ("a=1" ++ String newline ("b" ++ String "013" (String newline "")))
  = (["a=1"; "b"], false).
Proof. vm_compute. reflexivity. Qed.
