(* ===== verification/CLayout.v ===== *)
(** * Object layout of C (and Go host-layout) types on the program's targets

    The BPF program, the kernel header [bpf/vmlinux.h] and the generated Go
    bindings of [pkg/loader] describe the same memory with type declarations.
    This file gives those declarations their x86-64/BPF layout: size,
    alignment, and the offset of a member, with anonymous members searched
    through. Objects are byte lists; a member is read and written in little
    endian at its offset. *)

From S2P Require Import Prelude.
From S2P Require Import GoStrings.

(** A bit-field is a member of type [CBits size width]: [width] bits in a unit
    of the declared type, of [size] bytes. *)
Inductive ctype : Type :=
  | CInt (size : Z)                  (** an integer or enum *)
  | CBool                            (** [_Bool]: a byte, to which a number converts as [!= 0] *)
  | CPtr (to : string)               (** a pointer; the pointee is a name *)
  | CArr (elem : ctype) (n : nat)
  | CStruct (ms : members)
  | CUnion (ms : members)
  | CBits (size width : Z)
with members : Type :=
  | MNil
  | MCons (name : string) (t : ctype) (rest : members).

Notation "'[mem:' ']'" := MNil (format "[mem: ]") : knpu_scope.
Notation "'[mem:' x ; .. ; y ']'" :=
  (MCons (fst x) (snd x) .. (MCons (fst y) (snd y) MNil) ..)
  (only parsing) : knpu_scope.

Scheme ctype_mut := Induction for ctype Sort Prop
  with members_mut := Induction for members Sort Prop.
Combined Scheme ctype_members_ind from ctype_mut, members_mut.

(** The least multiple of [a] that is at least [off]. *)
Definition align_up (off a : Z) : Z := (off + a - 1) / a * a.

(** The first whole byte at or after bit [p]. *)
Definition bytes_of (p : Z) : Z := (p + 7) / 8.

(** Where a bit-field goes when the next free bit is [p]: there, unless it
    would cross the boundary of a unit of its type; a width of 0 closes the
    unit. *)
Definition bits_at (p size width : Z) : Z :=
  if bool_decide (width = 0) then align_up p (8 * size)
  else if bool_decide (p / (8 * size) = (p + width - 1) / (8 * size)) then p
  else align_up p (8 * size).

Definition is_bits (t : ctype) : bool := match t with CBits _ _ => true | _ => false end.

(** Unnamed bit-fields are padding and align nothing. *)
Fixpoint alignof (t : ctype) : Z :=
  match t with
  | CInt size => size
  | CBool => 1
  | CPtr _ => 8
  | CArr t _ => alignof t
  | CStruct ms | CUnion ms => alignof_ms ms
  | CBits size _ => size
  end
with alignof_ms (ms : members) : Z :=
  match ms with
  | MNil => 1
  | MCons name t ms =>
      Z.max (if is_bits t && String.eqb name "" then 1 else alignof t) (alignof_ms ms)
  end.

(** Sizes; [struct_end p ms] is the first bit after the members [ms] of a
    struct laid out from bit [p], [union_size] the largest member. *)
Fixpoint sizeof (t : ctype) : Z :=
  match t with
  | CInt size => size
  | CBool => 1
  | CPtr _ => 8
  | CArr t n => sizeof t * Z.of_nat n
  | CStruct ms => align_up (bytes_of (struct_end 0 ms)) (alignof_ms ms)
  | CUnion ms => align_up (union_size ms) (alignof_ms ms)
  | CBits size _ => size
  end
with struct_end (p : Z) (ms : members) : Z :=
  match ms with
  | MNil => p
  | MCons _ t ms =>
      match t with
      | CBits size width => struct_end (bits_at p size width + width) ms
      | _ => struct_end (8 * (align_up (bytes_of p) (alignof t) + sizeof t)) ms
      end
  end
with union_size (ms : members) : Z :=
  match ms with
  | MNil => 0
  | MCons _ t ms =>
      Z.max (match t with CBits _ width => bytes_of width | _ => sizeof t end) (union_size ms)
  end.

(** Byte offset and type of member [f] of an object that starts at byte [off];
    a bit-field has no address. *)
Fixpoint offset_in (off : Z) (t : ctype) (f : string) : option (Z * ctype) :=
  match t with
  | CStruct ms => offset_struct (8 * off) ms f
  | CUnion ms => offset_union off ms f
  | _ => None
  end
with offset_struct (p : Z) (ms : members) (f : string) : option (Z * ctype) :=
  match ms with
  | MNil => None
  | MCons name t ms =>
      match t with
      | CBits size width =>
          if String.eqb name f then None
          else offset_struct (bits_at p size width + width) ms f
      | _ =>
          let o := align_up (bytes_of p) (alignof t) in
          if String.eqb name f then Some (o, t)
          else match (if String.eqb name "" then offset_in o t f else None) with
               | Some r => Some r
               | None => offset_struct (8 * (o + sizeof t)) ms f
               end
      end
  end
with offset_union (off : Z) (ms : members) (f : string) : option (Z * ctype) :=
  match ms with
  | MNil => None
  | MCons name t ms =>
      if String.eqb name f then (if is_bits t then None else Some (off, t))
      else match (if String.eqb name "" then offset_in off t f else None) with
           | Some r => Some r
           | None => offset_union off ms f
           end
  end.

Definition offsetof (t : ctype) (f : string) : option Z :=
  fst <$> offset_in 0 t f.

(** The members of a struct with their first bit and their width in bits, in
    order, and the addressable ones with their byte offsets. *)
Fixpoint layout_bits (p : Z) (ms : members) : list (string * ctype * Z * Z) :=
  match ms with
  | MNil => []
  | MCons name t ms =>
      match t with
      | CBits size width =>
          let q := bits_at p size width in
          (name, t, q, width) :: layout_bits (q + width) ms
      | _ =>
          let o := align_up (bytes_of p) (alignof t) in
          (name, t, 8 * o, 8 * sizeof t) :: layout_bits (8 * (o + sizeof t)) ms
      end
  end.

Definition layout_ms (ms : members) : list (string * Z * ctype) :=
  (λ '(name, t, p, _), (name, p / 8, t)) <$>
    filter (λ '(_, t, _, _), is_bits t = false) (layout_bits 0 ms).

(** ** Objects in memory *)

(** The [n] bytes of [buf] at offset [off]. *)
Definition peek (buf : bytes) (off n : Z) : bytes :=
  take (Z.to_nat n) (drop (Z.to_nat off) buf).

(** [buf] with the bytes [bs] stored at offset [off]. *)
Definition poke (buf : bytes) (off : Z) (bs : bytes) : bytes :=
  take (Z.to_nat off) buf ++ bs ++ drop (Z.to_nat off + length bs) buf.

(** Read and assign an integer member; [None] for a member the type does not
    have. *)
Definition load_field (t : ctype) (f : string) (buf : bytes) : option Z :=
  '(o, ft) ← offset_in 0 t f; Some (le_value (peek buf o (sizeof ft))).

Definition store_field (t : ctype) (f : string) (v : Z) (buf : bytes) : option bytes :=
  '(o, ft) ← offset_in 0 t f;
  Some (poke buf o (le_bytes (Z.to_nat (sizeof ft)) v)).

(** Assign element [i] of an array member. *)
Definition store_elem (t : ctype) (f : string) (i : nat) (v : Z) (buf : bytes) :
    option bytes :=
  '(o, ft) ← offset_in 0 t f;
  match ft with
  | CArr et n =>
      if bool_decide (i < n)%nat
      then Some (poke buf (o + sizeof et * Z.of_nat i) (le_bytes (Z.to_nat (sizeof et)) v))
      else None
  | _ => None
  end.

(** ** The layout is sound *)

Fixpoint wf_type (t : ctype) : bool :=
  match t with
  | CInt size => bool_decide (0 < size)
  | CBool | CPtr _ => true
  | CArr t _ => wf_type t
  | CStruct ms | CUnion ms => wf_ms ms
  | CBits size width => bool_decide (0 < size) && bool_decide (0 ≤ width ≤ 8 * size)
  end
with wf_ms (ms : members) : bool :=
  match ms with
  | MNil => true
  | MCons _ t ms => wf_type t && wf_ms ms
  end.

Lemma align_up_bounds off a : 0 < a → off ≤ align_up off a < off + a.
Proof.
  intros Ha. unfold align_up.
  pose proof (Z.div_mod (off + a - 1) a ltac:(lia)).
  pose proof (Z.mod_pos_bound (off + a - 1) a Ha). nia.
Qed.

Lemma align_up_ge off a : 0 < a → off ≤ align_up off a.
Proof. intros. by apply align_up_bounds. Qed.

Lemma align_up_divide off a : (a | align_up off a).
Proof. unfold align_up. apply Z.divide_factor_r. Qed.

Lemma bytes_of_ge p : p ≤ 8 * bytes_of p < p + 8.
Proof.
  unfold bytes_of. pose proof (Z.div_mod (p + 7) 8 ltac:(lia)).
  pose proof (Z.mod_pos_bound (p + 7) 8 ltac:(lia)). lia.
Qed.

Lemma bits_at_ge p size width : 0 < size → p ≤ bits_at p size width.
Proof.
  intros Hs. unfold bits_at. repeat case_bool_decide; try apply align_up_ge; lia.
Qed.

#[export] Hint Resolve align_up_ge align_up_divide bits_at_ge : knpu.

(** A bit-field lies in one unit of its type. *)
Lemma bits_at_unit p size width :
  0 < size → 0 < width ≤ 8 * size →
  bits_at p size width / (8 * size) = (bits_at p size width + width - 1) / (8 * size).
Proof.
  intros Hs Hw. unfold bits_at. rewrite bool_decide_eq_false_2 by lia.
  case_bool_decide as Hp; [done|].
  destruct (align_up_divide p (8 * size)) as [k ->].
  rewrite Z.div_mul by lia. apply (Z.div_unique _ _ _ (width - 1)); lia.
Qed.

Lemma align_size_pos :
  (∀ t, wf_type t = true → 0 < alignof t ∧ 0 ≤ sizeof t) ∧
  (∀ ms, wf_ms ms = true → 0 < alignof_ms ms ∧ 0 ≤ union_size ms ∧
     ∀ p, p ≤ struct_end p ms).
Proof.
  apply ctype_members_ind; cbn [wf_type wf_ms alignof alignof_ms sizeof union_size struct_end];
    intros; rewrite ?andb_true_iff, ?bool_decide_eq_true in *; try done; try lia.
  - naive_solver lia.
  - destruct H as (Ha & Hu & He); [done|]. split; [done|].
    pose proof (align_up_ge (bytes_of (struct_end 0 ms)) _ Ha).
    pose proof (bytes_of_ge (struct_end 0 ms)). specialize (He 0). lia.
  - destruct H as (Ha & Hu & He); [done|]. split; [done|].
    pose proof (align_up_ge (union_size ms) _ Ha). lia.
  - destruct H1 as [Ht (Ha' & Hu & He)%H0]. destruct (H Ht) as [Ha Hs]. split_and!.
    + destruct (_ && _); lia.
    + destruct t; try lia.
    + intros p.
      assert (Hplain : p ≤ 8 * (align_up (bytes_of p) (alignof t) + sizeof t)).
      { pose proof (align_up_ge (bytes_of p) _ Ha). pose proof (bytes_of_ge p). lia. }
      destruct t as [| | | | | |size width]; try (by etransitivity; [exact Hplain|apply He]).
      cbn in Ht. rewrite andb_true_iff, !bool_decide_eq_true in Ht.
      pose proof (bits_at_ge p size width ltac:(lia)).
      specialize (He (bits_at p size width + width)). lia.
Qed.

Lemma alignof_pos t : wf_type t = true → 0 < alignof t.
Proof. apply align_size_pos. Qed.

Lemma sizeof_nonneg t : wf_type t = true → 0 ≤ sizeof t.
Proof. apply align_size_pos. Qed.

Lemma struct_end_ge p ms : wf_ms ms = true → p ≤ struct_end p ms.
Proof. intros H. by apply align_size_pos. Qed.

(** First bit and width of a member, and the steps of the layout in terms of
    them. *)
Definition member_pos (p : Z) (t : ctype) : Z :=
  match t with
  | CBits size width => bits_at p size width
  | _ => 8 * align_up (bytes_of p) (alignof t)
  end.

Definition member_width (t : ctype) : Z :=
  match t with CBits _ width => width | _ => 8 * sizeof t end.

Lemma layout_bits_cons p name t ms :
  layout_bits p (MCons name t ms) =
  (name, t, member_pos p t, member_width t)
    :: layout_bits (member_pos p t + member_width t) ms.
Proof. destruct t; cbn; try done; by rewrite Z.mul_add_distr_l. Qed.

Lemma struct_end_cons p name t ms :
  struct_end p (MCons name t ms) = struct_end (member_pos p t + member_width t) ms.
Proof. destruct t; cbn; try done; by rewrite Z.mul_add_distr_l. Qed.

Lemma member_pos_ge p t : wf_type t = true → p ≤ member_pos p t ∧ 0 ≤ member_width t.
Proof.
  intros Ht. pose proof (alignof_pos t Ht) as Ha. pose proof (sizeof_nonneg t Ht).
  pose proof (bytes_of_ge p). pose proof (align_up_ge (bytes_of p) _ Ha).
  destruct t as [| | | | | |size width]; cbn [member_pos member_width]; try lia.
  cbn in Ht. rewrite andb_true_iff, !bool_decide_eq_true in Ht.
  split; [apply bits_at_ge|]; lia.
Qed.

(** How a member of type [t] may lie: a bit-field in one unit of its type,
    anything else at a multiple of its alignment. *)
Definition placed (t : ctype) (q w : Z) : Prop :=
  match t with
  | CBits size width => w = width ∧ (0 < w → q / (8 * size) = (q + w - 1) / (8 * size))
  | _ => ∃ o, q = 8 * o ∧ w = 8 * sizeof t ∧ (alignof t | o)
  end.

Lemma member_placed p t : wf_type t = true → placed t (member_pos p t) (member_width t).
Proof.
  destruct t as [| | | | | |size width]; intros Ht; cbn [placed member_pos member_width];
    try (eexists; split_and!; [done|done|apply align_up_divide]).
  cbn in Ht. rewrite andb_true_iff, !bool_decide_eq_true in Ht.
  split; [done|]. intros. apply bits_at_unit; lia.
Qed.

(** Every member is placed between the start of the layout and its end. *)
Lemma layout_bits_bounds ms p :
  wf_ms ms = true →
  Forall (λ '(_, t, q, w), p ≤ q ∧ 0 ≤ w ∧ q + w ≤ struct_end p ms ∧ placed t q w)
    (layout_bits p ms).
Proof.
  revert p. induction ms as [|n t ms IH]; intros p Hwf; [constructor|].
  cbn in Hwf. apply andb_true_iff in Hwf as [Ht Hms].
  destruct (member_pos_ge p t Ht) as [Hp Hw].
  rewrite layout_bits_cons, struct_end_cons. constructor.
  - split_and!; [done|done|by apply struct_end_ge|by apply member_placed].
  - eapply Forall_impl; [by apply IH|]. intros [[[n' t'] q] w] (? & ? & ? & ?).
    split_and!; [lia|done..].
Qed.

(** No two members share a bit. *)
Lemma layout_bits_disjoint ms p i j n1 t1 q1 w1 n2 t2 q2 w2 :
  wf_ms ms = true → (i < j)%nat →
  layout_bits p ms !! i = Some (n1, t1, q1, w1) →
  layout_bits p ms !! j = Some (n2, t2, q2, w2) →
  q1 + w1 ≤ q2.
Proof.
  revert p i j. induction ms as [|n t ms IH]; intros p i j Hwf Hij; [done|].
  cbn in Hwf. apply andb_true_iff in Hwf as [Ht Hms]. rewrite layout_bits_cons.
  destruct j as [|j]; [lia|]. cbn. intros H1 H2. destruct i as [|i]; cbn in H1.
  - simplify_eq.
    pose proof (layout_bits_bounds ms (member_pos p t1 + member_width t1) Hms) as HF.
    rewrite Forall_forall in HF. by apply (HF _ (list_elem_of_lookup_2 _ _ _ H2)).
  - eapply (IH _ i j); [done|lia|done..].
Qed.

(** A member ends within the object. *)
Lemma struct_end_sizeof ms : wf_ms ms = true → struct_end 0 ms ≤ 8 * sizeof (CStruct ms).
Proof.
  intros Hms. cbn [sizeof].
  pose proof (align_up_ge (bytes_of (struct_end 0 ms)) (alignof_ms ms)
    (proj1 (proj2 align_size_pos ms Hms))).
  pose proof (bytes_of_ge (struct_end 0 ms)). lia.
Qed.

(** What a layout promises: members inside the object, placed, and apart. *)
Definition sound_layout (ms : members) : Prop :=
  Forall (λ '(_, t, q, w), 0 ≤ q ∧ 0 ≤ w ∧ q + w ≤ 8 * sizeof (CStruct ms) ∧ placed t q w)
    (layout_bits 0 ms) ∧
  ∀ i j n1 t1 q1 w1 n2 t2 q2 w2, (i < j)%nat →
    layout_bits 0 ms !! i = Some (n1, t1, q1, w1) →
    layout_bits 0 ms !! j = Some (n2, t2, q2, w2) → q1 + w1 ≤ q2.

Lemma wf_sound_layout ms : wf_ms ms = true → sound_layout ms.
Proof.
  intros Hms. split.
  - eapply Forall_impl; [by apply layout_bits_bounds|]. intros [[[n t] q] w] (? & ? & ? & ?).
    pose proof (struct_end_sizeof ms Hms). split_and!; [done|done|lia|done].
  - intros. by eapply layout_bits_disjoint.
Qed.

(** ** Reading back what was stored *)

Lemma length_poke buf off bs :
  0 ≤ off → off + Z.of_nat (length bs) ≤ Z.of_nat (length buf) →
  length (poke buf off bs) = length buf.
Proof.
  intros. unfold poke. rewrite !length_app, length_take, length_drop. lia.
Qed.

Lemma peek_poke_eq buf off bs :
  0 ≤ off → off + Z.of_nat (length bs) ≤ Z.of_nat (length buf) →
  peek (poke buf off bs) off (Z.of_nat (length bs)) = bs.
Proof.
  intros. unfold peek, poke.
  rewrite drop_app_length' by (rewrite length_take; lia).
  by rewrite Nat2Z.id, take_app_length.
Qed.

Lemma lookup_poke buf off bs i :
  0 ≤ off → off + Z.of_nat (length bs) ≤ Z.of_nat (length buf) →
  poke buf off bs !! i =
    if decide (Z.to_nat off ≤ i < Z.to_nat off + length bs)%nat
    then bs !! (i - Z.to_nat off)%nat else buf !! i.
Proof.
  intros Ho Hl. unfold poke. case_decide as Hi.
  - rewrite lookup_app_r by (rewrite length_take; lia).
    rewrite lookup_app_l by (rewrite length_take; lia).
    f_equal. rewrite length_take. lia.
  - destruct (decide (i < Z.to_nat off)%nat).
    + rewrite lookup_app_l by (rewrite length_take; lia).
      by rewrite lookup_take_lt.
    + rewrite lookup_app_r by (rewrite length_take; lia).
      rewrite lookup_app_r by (rewrite length_take; lia).
      rewrite lookup_drop. f_equal. rewrite length_take. lia.
Qed.

Lemma peek_poke_ne buf off bs off' n :
  0 ≤ off → off + Z.of_nat (length bs) ≤ Z.of_nat (length buf) →
  0 ≤ off' → 0 ≤ n →
  off' + n ≤ off ∨ off + Z.of_nat (length bs) ≤ off' →
  peek (poke buf off bs) off' n = peek buf off' n.
Proof.
  intros Ho Hl Ho' Hn Hd. apply list_eq. intros i. unfold peek.
  destruct (decide (i < Z.to_nat n)%nat).
  - rewrite !lookup_take_lt by done. rewrite !lookup_drop.
    rewrite lookup_poke by done. rewrite decide_False by lia. done.
  - by rewrite !lookup_take_ge by lia.
Qed.
