(* ===== verification/Tracing.v ===== *)
(** * The argument macros of libbpf: [bpf/bpf/bpf_tracing.h]

    A tracing program receives one array of 64-bit slots; [BPF_PROG] and
    [BPF_PROG2] expand to code that takes the typed arguments out of it. The
    definitions are the macros' expansions: argument counting by position in a
    list of tokens, [___bpf_ctx_cast] and [___bpf_ctx_arg] by recursion on the
    count, the conversions of the wrapper. The theorem says which arguments
    come out of what the kernel stored: [BPF_PROG2] ignores the unused high
    bytes of a slot, [BPF_PROG] does too except for a [bool], which it takes
    from the whole slot. *)

From S2P Require Import Prelude.
From S2P Require Import CLayout.

Local Open Scope Z_scope.

(** ** Counting arguments *)

(** What a macro parameter is bound to: a token of the caller, the leading
    underscore, or a number of the macro itself. *)
Inductive token (A : Type) : Type :=
  | TArg (a : A)
  | TUnderscore
  | TNum (n : nat).
Arguments TArg {A}.
Arguments TUnderscore {A}.
Arguments TNum {A}.

(** [___bpf_nth] and [___bpf_nth2] name their parameter [N], after 13 and
    after 25 others. *)
Definition ___bpf_nth {A} (ts : list (token A)) : option (token A) := ts !! 13%nat.
Definition ___bpf_nth2 {A} (ts : list (token A)) : option (token A) := ts !! 25%nat.

Definition ___bpf_narg {A} (args : list A) : option (token A) :=
  ___bpf_nth (TUnderscore :: (TArg <$> args) ++
    (TNum <$> [12; 11; 10; 9; 8; 7; 6; 5; 4; 3; 2; 1; 0])%nat).

Definition ___bpf_narg2 {A} (args : list A) : option (token A) :=
  ___bpf_nth2 (TUnderscore :: (TArg <$> args) ++
    (TNum <$> [12; 12; 11; 11; 10; 10; 9; 9; 8; 8; 7; 7;
               6; 6; 5; 5; 4; 4; 3; 3; 2; 2; 1; 1; 0])%nat).

(** [___bpf_apply(fn, n)]: only a number completes the name of a macro. *)
Definition ___bpf_apply {A B} (fn : nat → option B) (n : option (token A)) : option B :=
  match n with Some (TNum n) => fn n | _ => None end.

(** ** [BPF_PROG] *)

(** The expressions of the expansion: [ctx] and [ctx[i]]. *)
Inductive ctx_expr : Type := ECtx | ESlot (i : nat).

(** [___bpf_ctx_cast0] to [___bpf_ctx_cast12], which differ by their index. *)
Fixpoint ___bpf_ctx_castN (n : nat) : list ctx_expr :=
  match n with
  | O => [ECtx]
  | S n => ___bpf_ctx_castN n ++ [ESlot n]
  end.

Definition ___bpf_ctx_cast {A} (args : list A) : option (list ctx_expr) :=
  ___bpf_apply (λ n, Some (___bpf_ctx_castN n)) (___bpf_narg args).

(** The conversion of a 64-bit slot, a [void *], to the type of a parameter, as
    an unsigned value: an integer keeps the low bytes, a [_Bool] is whether any
    of the 64 bits is set, and a struct does not convert. *)
Definition convert (t : ctype) (v : Z) : option Z :=
  match t with
  | CInt size => Some (wrap (8 * size) v)
  | CBool => Some (if bool_decide (wrap 64 v = 0) then 0 else 1)
  | CPtr _ => Some (wrap 64 v)
  | _ => None
  end.

Definition slot_arg (ctx : list Z) (a : ctx_expr * ctype) : option Z :=
  match a.1 with
  | ECtx => None
  | ESlot i => v ← ctx !! i; convert a.2 v
  end.

(** The arguments [____name] is called with, after [ctx] itself; [args] are
    the declared parameters. *)
Definition BPF_PROG (args : list (string * ctype)) (ctx : list Z) : option (list Z) :=
  match ___bpf_ctx_cast args with
  | Some (ECtx :: es) => mapM (slot_arg ctx) (zip es args.*2)
  | _ => None
  end.

(** ** [BPF_PROG2]: arguments of one or two slots *)

(** Type and name alternate in the argument list of [BPF_PROG2]. *)
Definition flatten (args : list (ctype * string)) : list (ctype + string) :=
  mjoin ((λ a, [inl a.1; inr a.2]) <$> args).

Definition ___bpf_treg_cnt (t : ctype) : option nat :=
  if bool_decide (sizeof t = 1) then Some 1%nat
  else if bool_decide (sizeof t = 2) then Some 1%nat
  else if bool_decide (sizeof t = 4) then Some 1%nat
  else if bool_decide (sizeof t = 8) then Some 1%nat
  else if bool_decide (sizeof t = 16) then Some 2%nat
  else None.

(** [___bpf_reg_cnt0] to [___bpf_reg_cnt12]. *)
Fixpoint ___bpf_reg_cntN (k : nat) (args : list (ctype * string)) : option nat :=
  match k, args with
  | O, _ => Some 0%nat
  | S k, (t, _) :: args => n ← ___bpf_reg_cntN k args; m ← ___bpf_treg_cnt t; Some (n + m)%nat
  | S _, [] => None
  end.

Definition ___bpf_reg_cnt (args : list (ctype * string)) : option nat :=
  ___bpf_apply (λ k, ___bpf_reg_cntN k args) (___bpf_narg2 (flatten args)).

(** The bytes of the union member [x], from one slot narrowed to the size of
    [t] or from two slots. *)
Definition ___bpf_union_arg (t : ctype) (ctx : list Z) (n : nat) : option bytes :=
  if bool_decide (sizeof t = 1) then le_bytes 1 <$> ctx !! n
  else if bool_decide (sizeof t = 2) then le_bytes 2 <$> ctx !! n
  else if bool_decide (sizeof t = 4) then le_bytes 4 <$> ctx !! n
  else if bool_decide (sizeof t = 8) then le_bytes 8 <$> ctx !! n
  else if bool_decide (sizeof t = 16) then
    v ← ctx !! n; w ← ctx !! (n + 1)%nat; Some (le_bytes 8 v ++ le_bytes 8 w)
  else None.

(** [___bpf_ctx_arg0] to [___bpf_ctx_arg12]; [n] is the number of slots of all
    arguments. *)
Fixpoint ___bpf_ctx_argN (k n : nat) (args : list (ctype * string)) (ctx : list Z) :
    option (list bytes) :=
  match k, args with
  | O, _ => Some []
  | S k', (t, _) :: rest =>
      r ← ___bpf_reg_cntN k args;
      v ← ___bpf_union_arg t ctx (n - r)%nat;
      vs ← ___bpf_ctx_argN k' n rest ctx;
      Some (v :: vs)
  | S _, [] => None
  end.

Definition BPF_PROG2 (args : list (ctype * string)) (ctx : list Z) : option (list bytes) :=
  ___bpf_apply (λ k, n ← ___bpf_reg_cnt args; ___bpf_ctx_argN k n args ctx)
    (___bpf_narg2 (flatten args)).

(** [___bpf_ctx_decl0] to [___bpf_ctx_decl12]: the parameters [____name] is
    declared with, after [ctx]. *)
Fixpoint ___bpf_ctx_declN (k : nat) (args : list (ctype * string)) :
    option (list (string * ctype)) :=
  match k, args with
  | O, _ => Some []
  | S k, (t, x) :: args => ds ← ___bpf_ctx_declN k args; Some ((x, t) :: ds)
  | S _, [] => None
  end.

Definition ___bpf_ctx_decl (args : list (ctype * string)) : option (list (string * ctype)) :=
  ___bpf_apply (λ k, ___bpf_ctx_declN k args) (___bpf_narg2 (flatten args)).

(** ** What the kernel's trampoline stores *)

(** A value of [t] in the slots it takes: its bytes come first, the rest of the
    last slot is arbitrary. *)
Definition stored (t : ctype) (v : bytes) (slots : list Z) : Prop :=
  Some (length slots) = ___bpf_treg_cnt t ∧ Z.of_nat (length v) = sizeof t ∧
  ∃ pad, mjoin (le_bytes 8 <$> slots) = v ++ pad.

(** What C passes in one register without being a struct. *)
Definition scalar (t : ctype) : bool :=
  match t with
  | CInt size => bool_decide (size ≤ 8)
  | CBool | CPtr _ => true
  | _ => false
  end.

(** The number a handler gets for a value [v] that was stored in [slot]: for a
    [_Bool] it depends on the slot, not only on the byte of the value. *)
Definition received (t : ctype) (v : bytes) (slot : Z) : Z :=
  match t with
  | CBool => if bool_decide (wrap 64 slot = 0) then 0 else 1
  | _ => le_value v
  end.

(** A [_Bool] the kernel stored as a whole slot: 0 or 1, the rest of the slot
    zero. *)
Definition clean_bool (t : ctype) (v : bytes) (slots : list Z) : Prop :=
  t = CBool → slots = [le_value v] ∧ (le_value v = 0 ∨ le_value v = 1).

(** ** Lemmas *)

Lemma narg_length {A} (args : list A) :
  (length args ≤ 12)%nat → ___bpf_narg args = Some (TNum (length args)).
Proof.
  intros H. do 13 (destruct args as [|? args]; [reflexivity|]). cbn in H. lia.
Qed.

Lemma narg2_length (args : list (ctype * string)) :
  (length args ≤ 12)%nat → ___bpf_narg2 (flatten args) = Some (TNum (length args)).
Proof.
  intros H. do 13 (destruct args as [|? args]; [reflexivity|]). cbn in H. lia.
Qed.

(** One argument more and the name is not completed by a number. *)
Lemma narg_limit {A} (args : list A) :
  length args = 13%nat → ∃ a, ___bpf_narg args = Some (TArg a).
Proof.
  intros H. do 14 (destruct args as [|? args]; [try discriminate H|]); [|discriminate H].
  by eexists.
Qed.

Lemma ctx_castN_slots n : ___bpf_ctx_castN n = ECtx :: (ESlot <$> seq 0 n).
Proof.
  induction n as [|n IH]; [done|]. cbn [___bpf_ctx_castN].
  by rewrite IH, seq_S, fmap_app.
Qed.

Lemma reg_cntN_stored (args : list (ctype * string)) vals slots :
  Forall3 (λ a, stored a.1) args vals slots →
  ___bpf_reg_cntN (length args) args = Some (length (mjoin slots)).
Proof.
  induction 1 as [|[t x] v ss args vals slots (Hr & _) _ IH]; [done|].
  cbn. rewrite IH. opt_cbn. cbn in Hr. rewrite <- Hr. opt_cbn. by rewrite length_app, Nat.add_comm.
Qed.

(** The function is declared with the parameters it is called with. *)
Lemma ctx_decl_args (args : list (ctype * string)) :
  (length args ≤ 12)%nat → ___bpf_ctx_decl args = Some ((λ '(t, x), (x, t)) <$> args).
Proof.
  intros H. unfold ___bpf_ctx_decl. rewrite narg2_length by done. cbn. clear H.
  induction args as [|[t x] args IH]; [done|]. cbn. by rewrite IH.
Qed.

(** Narrowing a slot keeps its low bytes. *)
Lemma le_bytes_take n m z : (n ≤ m)%nat → take n (le_bytes m z) = le_bytes n z.
Proof.
  revert m z. induction n as [|n IH]; intros [|m] z H; [done|done|lia|].
  unfold le_bytes, LittleEndianList.le_split; fold LittleEndianList.le_split.
  cbn [take]. f_equal. apply (IH m). lia.
Qed.

Lemma le_bytes_narrow n m z v pad :
  (n ≤ m)%nat → length v = n → le_bytes m z = v ++ pad → le_bytes n z = v.
Proof. intros Hn Hv E. rewrite <- (le_bytes_take n m), E by done. by apply take_app_length'. Qed.

Lemma treg_cnt_cases t n :
  ___bpf_treg_cnt t = Some n →
  (n = 1%nat ∧ sizeof t ∈ [1; 2; 4; 8]) ∨ (n = 2%nat ∧ sizeof t = 16).
Proof.
  unfold ___bpf_treg_cnt. repeat case_bool_decide; intros [= <-]; set_solver.
Qed.

(** Reading back what was stored from slot [length pre] on. *)
Lemma union_arg_stored t v slots pre post :
  stored t v slots →
  ___bpf_union_arg t (pre ++ slots ++ post) (length pre) = Some v.
Proof.
  intros (Hn & Hv & pad & Hp). symmetry in Hn.
  destruct (treg_cnt_cases _ _ Hn) as [[Hl Ht]|[Hl Ht]].
  - destruct slots as [|slot [|]]; try discriminate Hl.
    assert (Hlk : (pre ++ [slot] ++ post) !! length pre = Some slot)
      by (by apply list_lookup_middle).
    cbn in Hp. rewrite app_nil_r in Hp.
    unfold ___bpf_union_arg. rewrite Hlk. cbn.
    repeat case_bool_decide; try (f_equal; eapply le_bytes_narrow; [|lia|exact Hp]; lia).
    all: set_solver.
  - destruct slots as [|s1 [|s2 [|]]]; try discriminate Hl.
    assert (H1 : (pre ++ [s1; s2] ++ post) !! length pre = Some s1)
      by (by apply list_lookup_middle).
    assert (H2 : (pre ++ [s1; s2] ++ post) !! (length pre + 1)%nat = Some s2).
    { rewrite lookup_app_r by lia. by replace (length pre + 1 - length pre)%nat with 1%nat by lia. }
    unfold ___bpf_union_arg. rewrite H1, H2, Ht. cbn. cbn in Hp. rewrite app_nil_r in Hp.
    rewrite Hp. f_equal. apply (f_equal length) in Hp as Hlen.
    rewrite !length_app, !length_le_bytes in Hlen.
    assert (pad = []) as -> by (destruct pad; [done|cbn in Hlen; lia]). apply app_nil_r.
Qed.

Lemma ctx_argN_stored args vals slots pre post :
  Forall3 (λ a, stored a.1) args vals slots →
  ___bpf_ctx_argN (length args) (length pre + length (mjoin slots)) args
    (pre ++ mjoin slots ++ post) = Some vals.
Proof.
  intros H. revert pre. induction H as [|[t x] v ss args vals slots Hs H IH]; intros pre; [done|].
  pose proof (reg_cntN_stored _ _ _ (Forall3_cons _ (t, x) v ss _ _ _ Hs H)) as Hr.
  cbn [length ___bpf_ctx_argN]. cbn [length] in Hr. rewrite Hr. opt_cbn.
  rewrite Nat.add_sub. change (mjoin (ss :: slots)) with (ss ++ mjoin slots).
  rewrite <- (assoc_L (++)).
  rewrite (union_arg_stored t v ss) by done. opt_cbn.
  specialize (IH (pre ++ ss)). rewrite length_app in IH. rewrite length_app, Nat.add_assoc.
  rewrite <- (assoc_L (++)) in IH. by rewrite IH.
Qed.

Lemma BPF_PROG_expand (args : list (string * ctype)) (ctx : list Z) :
  (length args ≤ 12)%nat →
  BPF_PROG args ctx = mapM (slot_arg ctx) (zip (ESlot <$> seq 0 (length args)) args.*2).
Proof.
  intros Hlen. unfold BPF_PROG, ___bpf_ctx_cast.
  rewrite narg_length by done. cbn [___bpf_apply]. by rewrite ctx_castN_slots.
Qed.

(** Without structs the two macros read the same slots. *)
Lemma scalar_stored t v slots :
  scalar t = true → stored t v slots →
  ∃ slot, slots = [slot] ∧ convert t slot = Some (received t v slot).
Proof.
  intros Hs (Hn & Hv & pad & Hp). symmetry in Hn.
  destruct (treg_cnt_cases _ _ Hn) as [[Hl Ht]|[_ Ht]].
  - destruct slots as [|slot [|]]; try discriminate Hl. exists slot. split; [done|].
    cbn in Hp. rewrite app_nil_r in Hp.
    assert (E : wrap (8 * sizeof t) slot = le_value v).
    { rewrite <- Hv, <- le_value_bytes. f_equal.
      eapply le_bytes_narrow; [|done|exact Hp]. set_solver by lia. }
    destruct t; try done; cbn [convert received]; cbn [sizeof] in E;
      rewrite <- E; done.
  - destruct t; cbn in Hs; try done. apply bool_decide_eq_true in Hs. cbn in Ht. lia.
Qed.

Lemma scalars_stored (args : list (string * ctype)) vals slots :
  Forall3 (λ a, stored a.2) args vals slots → Forall (λ a, scalar a.2 = true) args →
  length (mjoin slots) = length args ∧
  Forall2 (λ x y, slot_arg (mjoin slots) x = Some y)
    (zip (ESlot <$> seq 0 (length args)) args.*2)
    (zip_with (λ '(a, v) slot, received a.2 v slot) (zip args vals) (mjoin slots)).
Proof.
  intros H Hs.
  assert (Hgen : ∀ pre, length (mjoin slots) = length args ∧
    Forall2 (λ x y, slot_arg (pre ++ mjoin slots) x = Some y)
      (zip (ESlot <$> seq (length pre) (length args)) args.*2)
      (zip_with (λ '(a, v) slot, received a.2 v slot) (zip args vals) (mjoin slots)));
    [|by apply (Hgen [])].
  induction H as [|[x t] v ss args vals slots Hst _ IH]; intros pre; [by split|].
  apply Forall_cons in Hs as [Ht Hts]. destruct (scalar_stored t v ss Ht Hst) as (slot & -> & E).
  destruct (IH Hts (pre ++ [slot])) as [Hl HF]. change (mjoin ([slot] :: slots)) with (slot :: mjoin slots).
  rewrite length_app in HF. cbn [length] in HF. rewrite Nat.add_1_r in HF.
  rewrite <- (assoc_L (++)) in HF. split; [cbn; by rewrite Hl|].
  cbn [length seq fmap list_fmap zip zip_with snd]. constructor; [|exact HF].
  unfold slot_arg. cbn [fst snd]. rewrite list_lookup_middle by done. exact E.
Qed.

Lemma slot_arg_app ctx post x y : slot_arg ctx x = Some y → slot_arg (ctx ++ post) x = Some y.
Proof.
  unfold slot_arg. destruct x as [[|i] t]; cbn [fst]; [done|].
  destruct (ctx !! i) as [v|] eqn:E; [|done]. by rewrite (lookup_app_l_Some _ _ _ _ E).
Qed.

(** With a clean slot for every [_Bool] a handler gets the values. *)
Lemma received_clean (args : list (string * ctype)) vals slots :
  Forall3 (λ a, stored a.2) args vals slots → Forall (λ a, scalar a.2 = true) args →
  Forall3 (λ a, clean_bool a.2) args vals slots →
  zip_with (λ '(a, v) slot, received a.2 v slot) (zip args vals) (mjoin slots) =
  le_value <$> vals.
Proof.
  intros H. induction H as [|[x t] v ss args vals slots Hst _ IH]; [done|].
  intros [Ht Hts]%Forall_cons Hc. inversion Hc as [|? ? ? ? ? ? Hb Hbs]; subst.
  destruct (scalar_stored t v ss Ht Hst) as (slot & -> & _).
  change (mjoin ([slot] :: slots)) with (slot :: mjoin slots). cbn [zip zip_with fmap list_fmap snd].
  f_equal; [|by apply IH]. cbn [snd] in Hb. destruct t; try done.
  destruct (Hb eq_refl) as [[= ->] [-> | ->]]; done.
Qed.

(** ** Properties *)

(** C36: The macros hand a program the arguments the kernel stored, with up to
    twelve of them and whatever follows: [BPF_PROG2] yields each value byte for
    byte, values of two slots included, whatever the unused high bytes of the
    slots hold. When no argument is a struct [BPF_PROG] yields the numbers the
    values encode, again whatever the high bytes hold, but for a [bool], which
    is true when any bit of its slot is set; so all of them are the stored
    values when the slots of the [bool]s have zero high bytes. *)
Theorem BPF_PROG_arguments (args : list (string * ctype)) vals slots post :
  (length args ≤ 12)%nat →
  Forall3 (λ a, stored a.2) args vals slots →
  BPF_PROG2 (prod_swap <$> args) (mjoin slots ++ post) = Some vals ∧
  (Forall (λ a, scalar a.2 = true) args →
   BPF_PROG args (mjoin slots ++ post) =
     Some (zip_with (λ '(a, v) slot, received a.2 v slot) (zip args vals) (mjoin slots)) ∧
   (Forall3 (λ a, clean_bool a.2) args vals slots →
    BPF_PROG args (mjoin slots ++ post) = Some (le_value <$> vals))).
Proof.
  intros Hlen H. split.
  - assert (H' : Forall3 (λ a, stored a.1) (prod_swap <$> args) vals slots)
      by (clear Hlen; induction H; by constructor).
    unfold BPF_PROG2, ___bpf_reg_cnt. rewrite narg2_length by (by rewrite length_fmap).
    cbn [___bpf_apply]. rewrite (reg_cntN_stored _ _ _ H'). opt_cbn.
    exact (ctx_argN_stored _ _ _ [] post H').
  - intros Hs. destruct (scalars_stored _ _ _ H Hs) as [_ HF].
    rewrite BPF_PROG_expand by done.
    assert (E : mapM (slot_arg (mjoin slots ++ post))
      (zip (ESlot <$> seq 0 (length args)) args.*2) =
      Some (zip_with (λ '(a, v) slot, received a.2 v slot) (zip args vals) (mjoin slots))).
    { apply mapM_Some_2. eapply Forall2_impl; [exact HF|]. intros. by apply slot_arg_app. }
    split; [done|]. intros Hc. rewrite E. by rewrite (received_clean _ _ _ H Hs Hc).
Qed.

(** The witness: an [int] and two false [bool]s, the second of which, with
    garbage above its byte, arrives as true under [BPF_PROG] only. *)
Lemma BPF_PROG_arguments_witness :
  let args := [("a", CInt 4); ("b", CBool); ("c", CBool)] in
  let ctx := [2 ^ 40 + 7; 0; 2 ^ 40; 9] in
  BPF_PROG2 (prod_swap <$> args) ctx = Some [le_bytes 4 7; le_bytes 1 0; le_bytes 1 0] ∧
  BPF_PROG args ctx = Some [7; 0; 1].
Proof.
  destruct (BPF_PROG_arguments [("a", CInt 4); ("b", CBool); ("c", CBool)]
           [le_bytes 4 7; le_bytes 1 0; le_bytes 1 0] [[2 ^ 40 + 7]; [0]; [2 ^ 40]] [9])
    as (H2 & H1).
  - cbn. lia.
  - repeat constructor; cbn.
    + exists [Byte.x00; Byte.x01; Byte.x00; Byte.x00]. reflexivity.
    + exists [Byte.x00; Byte.x00; Byte.x00; Byte.x00; Byte.x00; Byte.x00; Byte.x00]. reflexivity.
    + exists [Byte.x00; Byte.x00; Byte.x00; Byte.x00; Byte.x01; Byte.x00; Byte.x00]. reflexivity.
  - split; [exact H2|]. destruct H1 as [H1 _]; [by repeat constructor|exact H1].
Defined.
