(* ===== verification/Vmlinux.v ===== *)
(** * The kernel types the BPF program is compiled against

    The part of [bpf/vmlinux.h] that [bpf/drm_common.bpf.c] reaches: the types
    of [filp->f_inode->i_rdev], closed under by-value containment, and the
    enumerations that number helpers, maps, programs and attach points. The
    declarations are transcribed one by one, in the order the types need each
    other; a pointee is a name, because only the size of a pointer matters for
    the layout. A tag [struct x] is [struct_x] here and [enum x] is [enum_x];
    a typedef keeps its name. *)

From S2P Require Import Prelude.
From S2P Require Import GoStrings.
From S2P Require Import CLayout.

Local Open Scope Z_scope.

(** An enumeration: the size of its type and its enumerators. *)
Record enum : Type := Enum {
  enum_size : Z;
  enumerators : list (string * Z);
}.

Definition enum_type (e : enum) : ctype := CInt (enum_size e).

(** The value of an enumerator. *)
Definition enum_value (e : enum) (name : string) : option Z :=
  snd <$> find (λ '(n, _), String.eqb n name) (enumerators e).

Definition enum_bpf_func_id : enum := Enum 4 [
  ("BPF_FUNC_unspec", 0);
  ("BPF_FUNC_map_lookup_elem", 1);
  ("BPF_FUNC_map_update_elem", 2);
  ("BPF_FUNC_map_delete_elem", 3);
  ("BPF_FUNC_probe_read", 4);
  ("BPF_FUNC_ktime_get_ns", 5);
  ("BPF_FUNC_trace_printk", 6);
  ("BPF_FUNC_get_prandom_u32", 7);
  ("BPF_FUNC_get_smp_processor_id", 8);
  ("BPF_FUNC_skb_store_bytes", 9);
  ("BPF_FUNC_l3_csum_replace", 10);
  ("BPF_FUNC_l4_csum_replace", 11);
  ("BPF_FUNC_tail_call", 12);
  ("BPF_FUNC_clone_redirect", 13);
  ("BPF_FUNC_get_current_pid_tgid", 14);
  ("BPF_FUNC_get_current_uid_gid", 15);
  ("BPF_FUNC_get_current_comm", 16);
  ("BPF_FUNC_get_cgroup_classid", 17);
  ("BPF_FUNC_skb_vlan_push", 18);
  ("BPF_FUNC_skb_vlan_pop", 19);
  ("BPF_FUNC_skb_get_tunnel_key", 20);
  ("BPF_FUNC_skb_set_tunnel_key", 21);
  ("BPF_FUNC_perf_event_read", 22);
  ("BPF_FUNC_redirect", 23);
  ("BPF_FUNC_get_route_realm", 24);
  ("BPF_FUNC_perf_event_output", 25);
  ("BPF_FUNC_skb_load_bytes", 26);
  ("BPF_FUNC_get_stackid", 27);
  ("BPF_FUNC_csum_diff", 28);
  ("BPF_FUNC_skb_get_tunnel_opt", 29);
  ("BPF_FUNC_skb_set_tunnel_opt", 30);
  ("BPF_FUNC_skb_change_proto", 31);
  ("BPF_FUNC_skb_change_type", 32);
  ("BPF_FUNC_skb_under_cgroup", 33);
  ("BPF_FUNC_get_hash_recalc", 34);
  ("BPF_FUNC_get_current_task", 35);
  ("BPF_FUNC_probe_write_user", 36);
  ("BPF_FUNC_current_task_under_cgroup", 37);
  ("BPF_FUNC_skb_change_tail", 38);
  ("BPF_FUNC_skb_pull_data", 39);
  ("BPF_FUNC_csum_update", 40);
  ("BPF_FUNC_set_hash_invalid", 41);
  ("BPF_FUNC_get_numa_node_id", 42);
  ("BPF_FUNC_skb_change_head", 43);
  ("BPF_FUNC_xdp_adjust_head", 44);
  ("BPF_FUNC_probe_read_str", 45);
  ("BPF_FUNC_get_socket_cookie", 46);
  ("BPF_FUNC_get_socket_uid", 47);
  ("BPF_FUNC_set_hash", 48);
  ("BPF_FUNC_setsockopt", 49);
  ("BPF_FUNC_skb_adjust_room", 50);
  ("BPF_FUNC_redirect_map", 51);
  ("BPF_FUNC_sk_redirect_map", 52);
  ("BPF_FUNC_sock_map_update", 53);
  ("BPF_FUNC_xdp_adjust_meta", 54);
  ("BPF_FUNC_perf_event_read_value", 55);
  ("BPF_FUNC_perf_prog_read_value", 56);
  ("BPF_FUNC_getsockopt", 57);
  ("BPF_FUNC_override_return", 58);
  ("BPF_FUNC_sock_ops_cb_flags_set", 59);
  ("BPF_FUNC_msg_redirect_map", 60);
  ("BPF_FUNC_msg_apply_bytes", 61);
  ("BPF_FUNC_msg_cork_bytes", 62);
  ("BPF_FUNC_msg_pull_data", 63);
  ("BPF_FUNC_bind", 64);
  ("BPF_FUNC_xdp_adjust_tail", 65);
  ("BPF_FUNC_skb_get_xfrm_state", 66);
  ("BPF_FUNC_get_stack", 67);
  ("BPF_FUNC_skb_load_bytes_relative", 68);
  ("BPF_FUNC_fib_lookup", 69);
  ("BPF_FUNC_sock_hash_update", 70);
  ("BPF_FUNC_msg_redirect_hash", 71);
  ("BPF_FUNC_sk_redirect_hash", 72);
  ("BPF_FUNC_lwt_push_encap", 73);
  ("BPF_FUNC_lwt_seg6_store_bytes", 74);
  ("BPF_FUNC_lwt_seg6_adjust_srh", 75);
  ("BPF_FUNC_lwt_seg6_action", 76);
  ("BPF_FUNC_rc_repeat", 77);
  ("BPF_FUNC_rc_keydown", 78);
  ("BPF_FUNC_skb_cgroup_id", 79);
  ("BPF_FUNC_get_current_cgroup_id", 80);
  ("BPF_FUNC_get_local_storage", 81);
  ("BPF_FUNC_sk_select_reuseport", 82);
  ("BPF_FUNC_skb_ancestor_cgroup_id", 83);
  ("BPF_FUNC_sk_lookup_tcp", 84);
  ("BPF_FUNC_sk_lookup_udp", 85);
  ("BPF_FUNC_sk_release", 86);
  ("BPF_FUNC_map_push_elem", 87);
  ("BPF_FUNC_map_pop_elem", 88);
  ("BPF_FUNC_map_peek_elem", 89);
  ("BPF_FUNC_msg_push_data", 90);
  ("BPF_FUNC_msg_pop_data", 91);
  ("BPF_FUNC_rc_pointer_rel", 92);
  ("BPF_FUNC_spin_lock", 93);
  ("BPF_FUNC_spin_unlock", 94);
  ("BPF_FUNC_sk_fullsock", 95);
  ("BPF_FUNC_tcp_sock", 96);
  ("BPF_FUNC_skb_ecn_set_ce", 97);
  ("BPF_FUNC_get_listener_sock", 98);
  ("BPF_FUNC_skc_lookup_tcp", 99);
  ("BPF_FUNC_tcp_check_syncookie", 100);
  ("BPF_FUNC_sysctl_get_name", 101);
  ("BPF_FUNC_sysctl_get_current_value", 102);
  ("BPF_FUNC_sysctl_get_new_value", 103);
  ("BPF_FUNC_sysctl_set_new_value", 104);
  ("BPF_FUNC_strtol", 105);
  ("BPF_FUNC_strtoul", 106);
  ("BPF_FUNC_sk_storage_get", 107);
  ("BPF_FUNC_sk_storage_delete", 108);
  ("BPF_FUNC_send_signal", 109);
  ("BPF_FUNC_tcp_gen_syncookie", 110);
  ("BPF_FUNC_skb_output", 111);
  ("BPF_FUNC_probe_read_user", 112);
  ("BPF_FUNC_probe_read_kernel", 113);
  ("BPF_FUNC_probe_read_user_str", 114);
  ("BPF_FUNC_probe_read_kernel_str", 115);
  ("BPF_FUNC_tcp_send_ack", 116);
  ("BPF_FUNC_send_signal_thread", 117);
  ("BPF_FUNC_jiffies64", 118);
  ("BPF_FUNC_read_branch_records", 119);
  ("BPF_FUNC_get_ns_current_pid_tgid", 120);
  ("BPF_FUNC_xdp_output", 121);
  ("BPF_FUNC_get_netns_cookie", 122);
  ("BPF_FUNC_get_current_ancestor_cgroup_id", 123);
  ("BPF_FUNC_sk_assign", 124);
  ("BPF_FUNC_ktime_get_boot_ns", 125);
  ("BPF_FUNC_seq_printf", 126);
  ("BPF_FUNC_seq_write", 127);
  ("BPF_FUNC_sk_cgroup_id", 128);
  ("BPF_FUNC_sk_ancestor_cgroup_id", 129);
  ("BPF_FUNC_ringbuf_output", 130);
  ("BPF_FUNC_ringbuf_reserve", 131);
  ("BPF_FUNC_ringbuf_submit", 132);
  ("BPF_FUNC_ringbuf_discard", 133);
  ("BPF_FUNC_ringbuf_query", 134);
  ("BPF_FUNC_csum_level", 135);
  ("BPF_FUNC_skc_to_tcp6_sock", 136);
  ("BPF_FUNC_skc_to_tcp_sock", 137);
  ("BPF_FUNC_skc_to_tcp_timewait_sock", 138);
  ("BPF_FUNC_skc_to_tcp_request_sock", 139);
  ("BPF_FUNC_skc_to_udp6_sock", 140);
  ("BPF_FUNC_get_task_stack", 141);
  ("BPF_FUNC_load_hdr_opt", 142);
  ("BPF_FUNC_store_hdr_opt", 143);
  ("BPF_FUNC_reserve_hdr_opt", 144);
  ("BPF_FUNC_inode_storage_get", 145);
  ("BPF_FUNC_inode_storage_delete", 146);
  ("BPF_FUNC_d_path", 147);
  ("BPF_FUNC_copy_from_user", 148);
  ("BPF_FUNC_snprintf_btf", 149);
  ("BPF_FUNC_seq_printf_btf", 150);
  ("BPF_FUNC_skb_cgroup_classid", 151);
  ("BPF_FUNC_redirect_neigh", 152);
  ("BPF_FUNC_per_cpu_ptr", 153);
  ("BPF_FUNC_this_cpu_ptr", 154);
  ("BPF_FUNC_redirect_peer", 155);
  ("BPF_FUNC_task_storage_get", 156);
  ("BPF_FUNC_task_storage_delete", 157);
  ("BPF_FUNC_get_current_task_btf", 158);
  ("BPF_FUNC_bprm_opts_set", 159);
  ("BPF_FUNC_ktime_get_coarse_ns", 160);
  ("BPF_FUNC_ima_inode_hash", 161);
  ("BPF_FUNC_sock_from_file", 162);
  ("BPF_FUNC_check_mtu", 163);
  ("BPF_FUNC_for_each_map_elem", 164);
  ("BPF_FUNC_snprintf", 165);
  ("BPF_FUNC_sys_bpf", 166);
  ("BPF_FUNC_btf_find_by_name_kind", 167);
  ("BPF_FUNC_sys_close", 168);
  ("BPF_FUNC_timer_init", 169);
  ("BPF_FUNC_timer_set_callback", 170);
  ("BPF_FUNC_timer_start", 171);
  ("BPF_FUNC_timer_cancel", 172);
  ("BPF_FUNC_get_func_ip", 173);
  ("BPF_FUNC_get_attach_cookie", 174);
  ("BPF_FUNC_task_pt_regs", 175);
  ("BPF_FUNC_get_branch_snapshot", 176);
  ("BPF_FUNC_trace_vprintk", 177);
  ("BPF_FUNC_skc_to_unix_sock", 178);
  ("BPF_FUNC_kallsyms_lookup_name", 179);
  ("BPF_FUNC_find_vma", 180);
  ("BPF_FUNC_loop", 181);
  ("BPF_FUNC_strncmp", 182);
  ("BPF_FUNC_get_func_arg", 183);
  ("BPF_FUNC_get_func_ret", 184);
  ("BPF_FUNC_get_func_arg_cnt", 185);
  ("BPF_FUNC_get_retval", 186);
  ("BPF_FUNC_set_retval", 187);
  ("BPF_FUNC_xdp_get_buff_len", 188);
  ("BPF_FUNC_xdp_load_bytes", 189);
  ("BPF_FUNC_xdp_store_bytes", 190);
  ("BPF_FUNC_copy_from_user_task", 191);
  ("BPF_FUNC_skb_set_tstamp", 192);
  ("BPF_FUNC_ima_file_hash", 193);
  ("BPF_FUNC_kptr_xchg", 194);
  ("BPF_FUNC_map_lookup_percpu_elem", 195);
  ("BPF_FUNC_skc_to_mptcp_sock", 196);
  ("BPF_FUNC_dynptr_from_mem", 197);
  ("BPF_FUNC_ringbuf_reserve_dynptr", 198);
  ("BPF_FUNC_ringbuf_submit_dynptr", 199);
  ("BPF_FUNC_ringbuf_discard_dynptr", 200);
  ("BPF_FUNC_dynptr_read", 201);
  ("BPF_FUNC_dynptr_write", 202);
  ("BPF_FUNC_dynptr_data", 203);
  ("BPF_FUNC_tcp_raw_gen_syncookie_ipv4", 204);
  ("BPF_FUNC_tcp_raw_gen_syncookie_ipv6", 205);
  ("BPF_FUNC_tcp_raw_check_syncookie_ipv4", 206);
  ("BPF_FUNC_tcp_raw_check_syncookie_ipv6", 207);
  ("BPF_FUNC_ktime_get_tai_ns", 208);
  ("BPF_FUNC_user_ringbuf_drain", 209);
  ("BPF_FUNC_cgrp_storage_get", 210);
  ("BPF_FUNC_cgrp_storage_delete", 211);
  ("__BPF_FUNC_MAX_ID", 212)].

Definition enum_bpf_map_type : enum := Enum 4 [
  ("BPF_MAP_TYPE_UNSPEC", 0);
  ("BPF_MAP_TYPE_HASH", 1);
  ("BPF_MAP_TYPE_ARRAY", 2);
  ("BPF_MAP_TYPE_PROG_ARRAY", 3);
  ("BPF_MAP_TYPE_PERF_EVENT_ARRAY", 4);
  ("BPF_MAP_TYPE_PERCPU_HASH", 5);
  ("BPF_MAP_TYPE_PERCPU_ARRAY", 6);
  ("BPF_MAP_TYPE_STACK_TRACE", 7);
  ("BPF_MAP_TYPE_CGROUP_ARRAY", 8);
  ("BPF_MAP_TYPE_LRU_HASH", 9);
  ("BPF_MAP_TYPE_LRU_PERCPU_HASH", 10);
  ("BPF_MAP_TYPE_LPM_TRIE", 11);
  ("BPF_MAP_TYPE_ARRAY_OF_MAPS", 12);
  ("BPF_MAP_TYPE_HASH_OF_MAPS", 13);
  ("BPF_MAP_TYPE_DEVMAP", 14);
  ("BPF_MAP_TYPE_SOCKMAP", 15);
  ("BPF_MAP_TYPE_CPUMAP", 16);
  ("BPF_MAP_TYPE_XSKMAP", 17);
  ("BPF_MAP_TYPE_SOCKHASH", 18);
  ("BPF_MAP_TYPE_CGROUP_STORAGE_DEPRECATED", 19);
  ("BPF_MAP_TYPE_CGROUP_STORAGE", 19);
  ("BPF_MAP_TYPE_REUSEPORT_SOCKARRAY", 20);
  ("BPF_MAP_TYPE_PERCPU_CGROUP_STORAGE_DEPRECATED", 21);
  ("BPF_MAP_TYPE_PERCPU_CGROUP_STORAGE", 21);
  ("BPF_MAP_TYPE_QUEUE", 22);
  ("BPF_MAP_TYPE_STACK", 23);
  ("BPF_MAP_TYPE_SK_STORAGE", 24);
  ("BPF_MAP_TYPE_DEVMAP_HASH", 25);
  ("BPF_MAP_TYPE_STRUCT_OPS", 26);
  ("BPF_MAP_TYPE_RINGBUF", 27);
  ("BPF_MAP_TYPE_INODE_STORAGE", 28);
  ("BPF_MAP_TYPE_TASK_STORAGE", 29);
  ("BPF_MAP_TYPE_BLOOM_FILTER", 30);
  ("BPF_MAP_TYPE_USER_RINGBUF", 31);
  ("BPF_MAP_TYPE_CGRP_STORAGE", 32);
  ("BPF_MAP_TYPE_ARENA", 33);
  ("BPF_MAP_TYPE_INSN_ARRAY", 34);
  ("__MAX_BPF_MAP_TYPE", 35)].

Definition enum_bpf_prog_type : enum := Enum 4 [
  ("BPF_PROG_TYPE_UNSPEC", 0);
  ("BPF_PROG_TYPE_SOCKET_FILTER", 1);
  ("BPF_PROG_TYPE_KPROBE", 2);
  ("BPF_PROG_TYPE_SCHED_CLS", 3);
  ("BPF_PROG_TYPE_SCHED_ACT", 4);
  ("BPF_PROG_TYPE_TRACEPOINT", 5);
  ("BPF_PROG_TYPE_XDP", 6);
  ("BPF_PROG_TYPE_PERF_EVENT", 7);
  ("BPF_PROG_TYPE_CGROUP_SKB", 8);
  ("BPF_PROG_TYPE_CGROUP_SOCK", 9);
  ("BPF_PROG_TYPE_LWT_IN", 10);
  ("BPF_PROG_TYPE_LWT_OUT", 11);
  ("BPF_PROG_TYPE_LWT_XMIT", 12);
  ("BPF_PROG_TYPE_SOCK_OPS", 13);
  ("BPF_PROG_TYPE_SK_SKB", 14);
  ("BPF_PROG_TYPE_CGROUP_DEVICE", 15);
  ("BPF_PROG_TYPE_SK_MSG", 16);
  ("BPF_PROG_TYPE_RAW_TRACEPOINT", 17);
  ("BPF_PROG_TYPE_CGROUP_SOCK_ADDR", 18);
  ("BPF_PROG_TYPE_LWT_SEG6LOCAL", 19);
  ("BPF_PROG_TYPE_LIRC_MODE2", 20);
  ("BPF_PROG_TYPE_SK_REUSEPORT", 21);
  ("BPF_PROG_TYPE_FLOW_DISSECTOR", 22);
  ("BPF_PROG_TYPE_CGROUP_SYSCTL", 23);
  ("BPF_PROG_TYPE_RAW_TRACEPOINT_WRITABLE", 24);
  ("BPF_PROG_TYPE_CGROUP_SOCKOPT", 25);
  ("BPF_PROG_TYPE_TRACING", 26);
  ("BPF_PROG_TYPE_STRUCT_OPS", 27);
  ("BPF_PROG_TYPE_EXT", 28);
  ("BPF_PROG_TYPE_LSM", 29);
  ("BPF_PROG_TYPE_SK_LOOKUP", 30);
  ("BPF_PROG_TYPE_SYSCALL", 31);
  ("BPF_PROG_TYPE_NETFILTER", 32);
  ("__MAX_BPF_PROG_TYPE", 33)].

Definition enum_bpf_attach_type : enum := Enum 4 [
  ("BPF_CGROUP_INET_INGRESS", 0);
  ("BPF_CGROUP_INET_EGRESS", 1);
  ("BPF_CGROUP_INET_SOCK_CREATE", 2);
  ("BPF_CGROUP_SOCK_OPS", 3);
  ("BPF_SK_SKB_STREAM_PARSER", 4);
  ("BPF_SK_SKB_STREAM_VERDICT", 5);
  ("BPF_CGROUP_DEVICE", 6);
  ("BPF_SK_MSG_VERDICT", 7);
  ("BPF_CGROUP_INET4_BIND", 8);
  ("BPF_CGROUP_INET6_BIND", 9);
  ("BPF_CGROUP_INET4_CONNECT", 10);
  ("BPF_CGROUP_INET6_CONNECT", 11);
  ("BPF_CGROUP_INET4_POST_BIND", 12);
  ("BPF_CGROUP_INET6_POST_BIND", 13);
  ("BPF_CGROUP_UDP4_SENDMSG", 14);
  ("BPF_CGROUP_UDP6_SENDMSG", 15);
  ("BPF_LIRC_MODE2", 16);
  ("BPF_FLOW_DISSECTOR", 17);
  ("BPF_CGROUP_SYSCTL", 18);
  ("BPF_CGROUP_UDP4_RECVMSG", 19);
  ("BPF_CGROUP_UDP6_RECVMSG", 20);
  ("BPF_CGROUP_GETSOCKOPT", 21);
  ("BPF_CGROUP_SETSOCKOPT", 22);
  ("BPF_TRACE_RAW_TP", 23);
  ("BPF_TRACE_FENTRY", 24);
  ("BPF_TRACE_FEXIT", 25);
  ("BPF_MODIFY_RETURN", 26);
  ("BPF_LSM_MAC", 27);
  ("BPF_TRACE_ITER", 28);
  ("BPF_CGROUP_INET4_GETPEERNAME", 29);
  ("BPF_CGROUP_INET6_GETPEERNAME", 30);
  ("BPF_CGROUP_INET4_GETSOCKNAME", 31);
  ("BPF_CGROUP_INET6_GETSOCKNAME", 32);
  ("BPF_XDP_DEVMAP", 33);
  ("BPF_CGROUP_INET_SOCK_RELEASE", 34);
  ("BPF_XDP_CPUMAP", 35);
  ("BPF_SK_LOOKUP", 36);
  ("BPF_XDP", 37);
  ("BPF_SK_SKB_VERDICT", 38);
  ("BPF_SK_REUSEPORT_SELECT", 39);
  ("BPF_SK_REUSEPORT_SELECT_OR_MIGRATE", 40);
  ("BPF_PERF_EVENT", 41);
  ("BPF_TRACE_KPROBE_MULTI", 42);
  ("BPF_LSM_CGROUP", 43);
  ("BPF_STRUCT_OPS", 44);
  ("BPF_NETFILTER", 45);
  ("BPF_TCX_INGRESS", 46);
  ("BPF_TCX_EGRESS", 47);
  ("BPF_TRACE_UPROBE_MULTI", 48);
  ("BPF_CGROUP_UNIX_CONNECT", 49);
  ("BPF_CGROUP_UNIX_SENDMSG", 50);
  ("BPF_CGROUP_UNIX_RECVMSG", 51);
  ("BPF_CGROUP_UNIX_GETPEERNAME", 52);
  ("BPF_CGROUP_UNIX_GETSOCKNAME", 53);
  ("BPF_NETKIT_PRIMARY", 54);
  ("BPF_NETKIT_PEER", 55);
  ("BPF_TRACE_KPROBE_SESSION", 56);
  ("BPF_TRACE_UPROBE_SESSION", 57);
  ("BPF_TRACE_FSESSION", 58);
  ("__MAX_BPF_ATTACH_TYPE", 59)].

Definition atomic_t : ctype := CStruct [mem:
  ("counter", CInt 4) ].

Definition __u8 : ctype := CInt 1.

Definition u8 : ctype := __u8.

Definition __u16 : ctype := CInt 2.

Definition u16 : ctype := __u16.

Definition struct_qspinlock : ctype := CStruct [mem:
  ("", CUnion [mem:
    ("val", atomic_t);
    ("", CStruct [mem:
      ("locked", u8);
      ("pending", u8) ]);
    ("", CStruct [mem:
      ("locked_pending", u16);
      ("tail", u16) ]) ]) ].

Definition arch_spinlock_t : ctype := struct_qspinlock.

Definition struct_raw_spinlock : ctype := CStruct [mem:
  ("raw_lock", arch_spinlock_t) ].

Definition struct_spinlock : ctype := CStruct [mem:
  ("", CUnion [mem:
    ("rlock", struct_raw_spinlock) ]) ].

Definition spinlock_t : ctype := struct_spinlock.

Definition fmode_t : ctype := CInt 4.

Definition struct_path : ctype := CStruct [mem:
  ("mnt", CPtr "struct vfsmount");
  ("dentry", CPtr "struct dentry") ].

Definition __s64 : ctype := CInt 8.

Definition s64 : ctype := __s64.

Definition atomic64_t : ctype := CStruct [mem:
  ("counter", s64) ].

Definition atomic_long_t : ctype := atomic64_t.

Definition raw_spinlock_t : ctype := struct_raw_spinlock.

Definition struct_optimistic_spin_queue : ctype := CStruct [mem:
  ("tail", atomic_t) ].

Definition struct_list_head : ctype := CStruct [mem:
  ("next", CPtr "struct list_head");
  ("prev", CPtr "struct list_head") ].

Definition struct_mutex : ctype := CStruct [mem:
  ("owner", atomic_long_t);
  ("wait_lock", raw_spinlock_t);
  ("osq", struct_optimistic_spin_queue);
  ("wait_list", struct_list_head) ].

Definition __u64 : ctype := CInt 8.

Definition u64 : ctype := __u64.

Definition __kernel_loff_t : ctype := CInt 8.

Definition loff_t : ctype := __kernel_loff_t.

Definition __u32 : ctype := CInt 4.

Definition u32 : ctype := __u32.

Definition errseq_t : ctype := u32.

Definition struct_callback_head : ctype := CStruct [mem:
  ("next", CPtr "struct callback_head");
  ("func", CPtr "void (*)(struct callback_head *)") ].

Definition struct_llist_node : ctype := CStruct [mem:
  ("next", CPtr "struct llist_node") ].

Definition struct_file_ra_state : ctype := CStruct [mem:
  ("start", CInt 8);
  ("size", CInt 4);
  ("async_size", CInt 4);
  ("ra_pages", CInt 4);
  ("order", CInt 2);
  ("mmap_miss", CInt 2);
  ("prev_pos", loff_t) ].

Definition freeptr_t : ctype := CStruct [mem:
  ("v", CInt 8) ].

Definition file_ref_t : ctype := CStruct [mem:
  ("refcnt", atomic64_t) ].

Definition struct_file : ctype := CStruct [mem:
  ("f_lock", spinlock_t);
  ("f_mode", fmode_t);
  ("f_op", CPtr "struct file_operations");
  ("f_mapping", CPtr "struct address_space");
  ("private_data", CPtr "void");
  ("f_inode", CPtr "struct inode");
  ("f_flags", CInt 4);
  ("f_iocb_flags", CInt 4);
  ("f_cred", CPtr "struct cred");
  ("f_owner", CPtr "struct fown_struct");
  ("", CUnion [mem:
    ("f_path", struct_path);
    ("__f_path", struct_path) ]);
  ("", CUnion [mem:
    ("f_pos_lock", struct_mutex);
    ("f_pipe", u64) ]);
  ("f_pos", loff_t);
  ("f_security", CPtr "void");
  ("f_wb_err", errseq_t);
  ("f_sb_err", errseq_t);
  ("f_ep", CPtr "struct hlist_head");
  ("", CUnion [mem:
    ("f_task_work", struct_callback_head);
    ("f_llist", struct_llist_node);
    ("f_ra", struct_file_ra_state);
    ("f_freeptr", freeptr_t) ]);
  ("f_ref", file_ref_t) ].

Definition umode_t : ctype := CInt 2.

Definition __kernel_uid32_t : ctype := CInt 4.

Definition uid_t : ctype := __kernel_uid32_t.

Definition kuid_t : ctype := CStruct [mem:
  ("val", uid_t) ].

Definition __kernel_gid32_t : ctype := CInt 4.

Definition gid_t : ctype := __kernel_gid32_t.

Definition kgid_t : ctype := CStruct [mem:
  ("val", gid_t) ].

Definition __kernel_dev_t : ctype := u32.

Definition dev_t : ctype := __kernel_dev_t.

Definition time64_t : ctype := __s64.

Definition enum_rw_hint : enum := Enum 1 [
  ("WRITE_LIFE_NOT_SET", 0);
  ("WRITE_LIFE_NONE", 1);
  ("WRITE_LIFE_SHORT", 2);
  ("WRITE_LIFE_MEDIUM", 3);
  ("WRITE_LIFE_LONG", 4);
  ("WRITE_LIFE_EXTREME", 5);
  ("WRITE_LIFE_HINT_NR", 6)].

Definition blkcnt_t : ctype := u64.

Definition enum_inode_state_flags_enum : enum := Enum 4 [
  ("I_NEW", 1);
  ("I_SYNC", 2);
  ("I_LRU_ISOLATING", 4);
  ("I_DIRTY_SYNC", 16);
  ("I_DIRTY_DATASYNC", 32);
  ("I_DIRTY_PAGES", 64);
  ("I_WILL_FREE", 128);
  ("I_FREEING", 256);
  ("I_CLEAR", 512);
  ("I_REFERENCED", 1024);
  ("I_LINKABLE", 2048);
  ("I_DIRTY_TIME", 4096);
  ("I_WB_SWITCH", 8192);
  ("I_OVL_INUSE", 16384);
  ("I_CREATING", 32768);
  ("I_DONTCACHE", 65536);
  ("I_SYNC_QUEUED", 131072);
  ("I_PINNING_NETFS_WB", 262144)].

Definition struct_inode_state_flags : ctype := CStruct [mem:
  ("__state", enum_type enum_inode_state_flags_enum) ].

Definition struct_rw_semaphore : ctype := CStruct [mem:
  ("count", atomic_long_t);
  ("owner", atomic_long_t);
  ("osq", struct_optimistic_spin_queue);
  ("wait_lock", raw_spinlock_t);
  ("wait_list", struct_list_head) ].

Definition struct_hlist_node : ctype := CStruct [mem:
  ("next", CPtr "struct hlist_node");
  ("pprev", CPtr "struct hlist_node *") ].

Definition struct_hlist_head : ctype := CStruct [mem:
  ("first", CPtr "struct hlist_node") ].

Definition gfp_t : ctype := CInt 4.

Definition struct_xarray : ctype := CStruct [mem:
  ("xa_lock", spinlock_t);
  ("xa_flags", gfp_t);
  ("xa_head", CPtr "void") ].

Definition struct_rb_root : ctype := CStruct [mem:
  ("rb_node", CPtr "struct rb_node") ].

Definition struct_rb_root_cached : ctype := CStruct [mem:
  ("rb_root", struct_rb_root);
  ("rb_leftmost", CPtr "struct rb_node") ].

Definition struct_address_space : ctype := CStruct [mem:
  ("host", CPtr "struct inode");
  ("i_pages", struct_xarray);
  ("invalidate_lock", struct_rw_semaphore);
  ("gfp_mask", gfp_t);
  ("i_mmap_writable", atomic_t);
  ("i_mmap", struct_rb_root_cached);
  ("nrpages", CInt 8);
  ("writeback_index", CInt 8);
  ("a_ops", CPtr "struct address_space_operations");
  ("flags", CInt 8);
  ("wb_err", errseq_t);
  ("i_private_lock", spinlock_t);
  ("i_private_list", struct_list_head);
  ("i_mmap_rwsem", struct_rw_semaphore);
  ("i_private_data", CPtr "void") ].

Definition struct_inode : ctype := CStruct [mem:
  ("i_mode", umode_t);
  ("i_opflags", CInt 2);
  ("i_flags", CInt 4);
  ("i_acl", CPtr "struct posix_acl");
  ("i_default_acl", CPtr "struct posix_acl");
  ("i_uid", kuid_t);
  ("i_gid", kgid_t);
  ("i_op", CPtr "struct inode_operations");
  ("i_sb", CPtr "struct super_block");
  ("i_mapping", CPtr "struct address_space");
  ("i_security", CPtr "void");
  ("i_ino", CInt 8);
  ("", CUnion [mem:
    ("i_nlink", CInt 4);
    ("__i_nlink", CInt 4) ]);
  ("i_rdev", dev_t);
  ("i_size", loff_t);
  ("i_atime_sec", time64_t);
  ("i_mtime_sec", time64_t);
  ("i_ctime_sec", time64_t);
  ("i_atime_nsec", u32);
  ("i_mtime_nsec", u32);
  ("i_ctime_nsec", u32);
  ("i_generation", u32);
  ("i_lock", spinlock_t);
  ("i_bytes", CInt 2);
  ("i_blkbits", u8);
  ("i_write_hint", enum_type enum_rw_hint);
  ("i_blocks", blkcnt_t);
  ("i_state", struct_inode_state_flags);
  ("i_rwsem", struct_rw_semaphore);
  ("dirtied_when", CInt 8);
  ("dirtied_time_when", CInt 8);
  ("i_hash", struct_hlist_node);
  ("i_io_list", struct_list_head);
  ("i_wb", CPtr "struct bdi_writeback");
  ("i_wb_frn_winner", CInt 4);
  ("i_wb_frn_avg_time", u16);
  ("i_wb_frn_history", u16);
  ("i_lru", struct_list_head);
  ("i_sb_list", struct_list_head);
  ("i_wb_list", struct_list_head);
  ("", CUnion [mem:
    ("i_dentry", struct_hlist_head);
    ("i_rcu", struct_callback_head) ]);
  ("i_version", atomic64_t);
  ("i_sequence", atomic64_t);
  ("i_count", atomic_t);
  ("i_dio_count", atomic_t);
  ("i_writecount", atomic_t);
  ("i_readcount", atomic_t);
  ("", CUnion [mem:
    ("i_fop", CPtr "struct file_operations");
    ("free_inode", CPtr "void (*)(struct inode *)") ]);
  ("i_flctx", CPtr "struct file_lock_context");
  ("i_data", struct_address_space);
  ("", CUnion [mem:
    ("i_devices", struct_list_head);
    ("i_linklen", CInt 4) ]);
  ("", CUnion [mem:
    ("i_pipe", CPtr "struct pipe_inode_info");
    ("i_cdev", CPtr "struct cdev");
    ("i_link", CPtr "char");
    ("i_dir_seq", CInt 4) ]);
  ("i_fsnotify_mask", __u32);
  ("i_fsnotify_marks", CPtr "struct fsnotify_mark_connector");
  ("i_private", CPtr "void") ].

(** An enumeration without repeated names is a partial function. *)
Lemma enum_value_spec e n v :
  NoDup (enumerators e).*1 →
  enum_value e n = Some v ↔ (n, v) ∈ enumerators e.
Proof.
  unfold enum_value. induction (enumerators e) as [|[n' v'] l IH]; cbn.
  { set_solver. }
  rewrite NoDup_cons. intros [Hn Hl]. destruct (String.eqb_spec n' n) as [->|Hne].
  - cbn. rewrite elem_of_cons. split; [intros [= ->]; by left|].
    intros [[= ->]|H]; [done|]. destruct Hn. apply list_elem_of_fmap. by exists (n, v).
  - rewrite IH by done. set_solver.
Qed.
