(* ===== verification/VmlinuxBpf.v ===== *)
(** * More of [bpf/vmlinux.h]

    The contexts and arguments of the helpers that the BPF interface itself defines (its user-visible structs, [struct pt_regs] and the network headers).
    Transcribed like [Vmlinux], closed under by-value containment; a pointee is
    a name. Unnamed bit-fields are the padding the header spells out. *)

From S2P Require Import Prelude.
From S2P Require Import CLayout.
From S2P Require Import Vmlinux.

Local Open Scope Z_scope.

Definition __be16 : ctype := __u16.

Definition __be32 : ctype := __u32.

Definition struct_bpf_fib_lookup : ctype := CStruct [mem:
  ("family", __u8);
  ("l4_protocol", __u8);
  ("sport", __be16);
  ("dport", __be16);
  ("", CUnion [mem:
    ("tot_len", __u16);
    ("mtu_result", __u16) ]);
  ("ifindex", __u32);
  ("", CUnion [mem:
    ("tos", __u8);
    ("flowinfo", __be32);
    ("rt_metric", __u32) ]);
  ("", CUnion [mem:
    ("ipv4_src", __be32);
    ("ipv6_src", CArr __u32 4) ]);
  ("", CUnion [mem:
    ("ipv4_dst", __be32);
    ("ipv6_dst", CArr __u32 4) ]);
  ("", CUnion [mem:
    ("", CStruct [mem:
      ("h_vlan_proto", __be16);
      ("h_vlan_TCI", __be16) ]);
    ("tbid", __u32) ]);
  ("", CUnion [mem:
    ("", CStruct [mem:
      ("mark", __u32) ]);
    ("", CStruct [mem:
      ("smac", CArr __u8 6);
      ("dmac", CArr __u8 6) ]) ]) ].

Definition struct_bpf_sk_lookup : ctype := CStruct [mem:
  ("", CUnion [mem:
    ("", CUnion [mem:
      ("sk", CPtr "struct bpf_sock") ]);
    ("cookie", __u64) ]);
  ("family", __u32);
  ("protocol", __u32);
  ("remote_ip4", __u32);
  ("remote_ip6", CArr __u32 4);
  ("remote_port", __be16);
  ("local_ip4", __u32);
  ("local_ip6", CArr __u32 4);
  ("local_port", __u32);
  ("ingress_ifindex", __u32) ].

Definition struct_fred_cs : ctype := CStruct [mem:
  ("cs", CBits 8 16);
  ("sl", CBits 8 2);
  ("wfe", CBits 8 1) ].

Definition struct_fred_ss : ctype := CStruct [mem:
  ("ss", CBits 8 16);
  ("sti", CBits 8 1);
  ("swevent", CBits 8 1);
  ("nmi", CBits 8 1);
  ("", CBits 4 13);
  ("vector", CBits 8 8);
  ("", CBits 2 8);
  ("type", CBits 8 4);
  ("", CBits 1 4);
  ("enclave", CBits 8 1);
  ("l", CBits 8 1);
  ("nested", CBits 8 1);
  ("", CBits 1 1);
  ("insnlen", CBits 8 4) ].

Definition struct_pt_regs : ctype := CStruct [mem:
  ("r15", CInt 8);
  ("r14", CInt 8);
  ("r13", CInt 8);
  ("r12", CInt 8);
  ("bp", CInt 8);
  ("bx", CInt 8);
  ("r11", CInt 8);
  ("r10", CInt 8);
  ("r9", CInt 8);
  ("r8", CInt 8);
  ("ax", CInt 8);
  ("cx", CInt 8);
  ("dx", CInt 8);
  ("si", CInt 8);
  ("di", CInt 8);
  ("orig_ax", CInt 8);
  ("ip", CInt 8);
  ("", CUnion [mem:
    ("cs", u16);
    ("csx", u64);
    ("fred_cs", struct_fred_cs) ]);
  ("flags", CInt 8);
  ("sp", CInt 8);
  ("", CUnion [mem:
    ("ss", u16);
    ("ssx", u64);
    ("fred_ss", struct_fred_ss) ]) ].

Definition bpf_user_pt_regs_t : ctype := struct_pt_regs.

Definition struct_bpf_perf_event_data : ctype := CStruct [mem:
  ("regs", bpf_user_pt_regs_t);
  ("sample_period", __u64);
  ("addr", __u64) ].

Definition struct_bpf_perf_event_value : ctype := CStruct [mem:
  ("counter", __u64);
  ("enabled", __u64);
  ("running", __u64) ].

Definition struct_bpf_pidns_info : ctype := CStruct [mem:
  ("pid", __u32);
  ("tgid", __u32) ].

Definition struct_bpf_redir_neigh : ctype := CStruct [mem:
  ("nh_family", __u32);
  ("", CUnion [mem:
    ("ipv4_nh", __be32);
    ("ipv6_nh", CArr __u32 4) ]) ].

Definition __s32 : ctype := CInt 4.

Definition struct_bpf_sock : ctype := CStruct [mem:
  ("bound_dev_if", __u32);
  ("family", __u32);
  ("type", __u32);
  ("protocol", __u32);
  ("mark", __u32);
  ("priority", __u32);
  ("src_ip4", __u32);
  ("src_ip6", CArr __u32 4);
  ("src_port", __u32);
  ("dst_port", __be16);
  ("dst_ip4", __u32);
  ("dst_ip6", CArr __u32 4);
  ("state", __u32);
  ("rx_queue_mapping", __s32) ].

Definition struct_bpf_sock_addr : ctype := CStruct [mem:
  ("user_family", __u32);
  ("user_ip4", __u32);
  ("user_ip6", CArr __u32 4);
  ("user_port", __u32);
  ("family", __u32);
  ("type", __u32);
  ("protocol", __u32);
  ("msg_src_ip4", __u32);
  ("msg_src_ip6", CArr __u32 4);
  ("", CUnion [mem:
    ("sk", CPtr "struct bpf_sock") ]) ].

Definition struct_bpf_sock_ops : ctype := CStruct [mem:
  ("op", __u32);
  ("", CUnion [mem:
    ("args", CArr __u32 4);
    ("reply", __u32);
    ("replylong", CArr __u32 4) ]);
  ("family", __u32);
  ("remote_ip4", __u32);
  ("local_ip4", __u32);
  ("remote_ip6", CArr __u32 4);
  ("local_ip6", CArr __u32 4);
  ("remote_port", __u32);
  ("local_port", __u32);
  ("is_fullsock", __u32);
  ("snd_cwnd", __u32);
  ("srtt_us", __u32);
  ("bpf_sock_ops_cb_flags", __u32);
  ("state", __u32);
  ("rtt_min", __u32);
  ("snd_ssthresh", __u32);
  ("rcv_nxt", __u32);
  ("snd_nxt", __u32);
  ("snd_una", __u32);
  ("mss_cache", __u32);
  ("ecn_flags", __u32);
  ("rate_delivered", __u32);
  ("rate_interval_us", __u32);
  ("packets_out", __u32);
  ("retrans_out", __u32);
  ("total_retrans", __u32);
  ("segs_in", __u32);
  ("data_segs_in", __u32);
  ("segs_out", __u32);
  ("data_segs_out", __u32);
  ("lost_out", __u32);
  ("sacked_out", __u32);
  ("sk_txhash", __u32);
  ("bytes_received", __u64);
  ("bytes_acked", __u64);
  ("", CUnion [mem:
    ("sk", CPtr "struct bpf_sock") ]);
  ("", CUnion [mem:
    ("skb_data", CPtr "void") ]);
  ("", CUnion [mem:
    ("skb_data_end", CPtr "void") ]);
  ("skb_len", __u32);
  ("skb_tcp_flags", __u32);
  ("skb_hwtstamp", __u64) ].

Definition struct_bpf_sock_tuple : ctype := CStruct [mem:
  ("", CUnion [mem:
    ("ipv4", CStruct [mem:
      ("saddr", __be32);
      ("daddr", __be32);
      ("sport", __be16);
      ("dport", __be16) ]);
    ("ipv6", CStruct [mem:
      ("saddr", CArr __be32 4);
      ("daddr", CArr __be32 4);
      ("sport", __be16);
      ("dport", __be16) ]) ]) ].

Definition struct_bpf_spin_lock : ctype := CStruct [mem:
  ("val", __u32) ].

Definition struct_bpf_sysctl : ctype := CStruct [mem:
  ("write", __u32);
  ("file_pos", __u32) ].

Definition struct_bpf_tcp_sock : ctype := CStruct [mem:
  ("snd_cwnd", __u32);
  ("srtt_us", __u32);
  ("rtt_min", __u32);
  ("snd_ssthresh", __u32);
  ("rcv_nxt", __u32);
  ("snd_nxt", __u32);
  ("snd_una", __u32);
  ("mss_cache", __u32);
  ("ecn_flags", __u32);
  ("rate_delivered", __u32);
  ("rate_interval_us", __u32);
  ("packets_out", __u32);
  ("retrans_out", __u32);
  ("total_retrans", __u32);
  ("segs_in", __u32);
  ("data_segs_in", __u32);
  ("segs_out", __u32);
  ("data_segs_out", __u32);
  ("lost_out", __u32);
  ("sacked_out", __u32);
  ("bytes_received", __u64);
  ("bytes_acked", __u64);
  ("dsack_dups", __u32);
  ("delivered", __u32);
  ("delivered_ce", __u32);
  ("icsk_retransmits", __u32) ].

Definition struct_bpf_tunnel_key : ctype := CStruct [mem:
  ("tunnel_id", __u32);
  ("", CUnion [mem:
    ("remote_ipv4", __u32);
    ("remote_ipv6", CArr __u32 4) ]);
  ("tunnel_tos", __u8);
  ("tunnel_ttl", __u8);
  ("", CUnion [mem:
    ("tunnel_ext", __u16);
    ("tunnel_flags", __be16) ]);
  ("tunnel_label", __u32);
  ("", CUnion [mem:
    ("local_ipv4", __u32);
    ("local_ipv6", CArr __u32 4) ]) ].

Definition struct_bpf_xfrm_state : ctype := CStruct [mem:
  ("reqid", __u32);
  ("spi", __u32);
  ("family", __u16);
  ("ext", __u16);
  ("", CUnion [mem:
    ("remote_ipv4", __u32);
    ("remote_ipv6", CArr __u32 4) ]) ].

Definition struct_sk_reuseport_md : ctype := CStruct [mem:
  ("", CUnion [mem:
    ("data", CPtr "void") ]);
  ("", CUnion [mem:
    ("data_end", CPtr "void") ]);
  ("len", __u32);
  ("eth_protocol", __u32);
  ("ip_protocol", __u32);
  ("bind_inany", __u32);
  ("hash", __u32);
  ("", CUnion [mem:
    ("sk", CPtr "struct bpf_sock") ]);
  ("", CUnion [mem:
    ("migrating_sk", CPtr "struct bpf_sock") ]) ].

Definition __kernel_sa_family_t : ctype := CInt 2.

Definition sa_family_t : ctype := __kernel_sa_family_t.

Definition struct_sockaddr : ctype := CStruct [mem:
  ("sa_family", sa_family_t);
  ("sa_data", CArr (CInt 1) 14) ].

Definition __sum16 : ctype := __u16.

Definition struct_tcphdr : ctype := CStruct [mem:
  ("source", __be16);
  ("dest", __be16);
  ("seq", __be32);
  ("ack_seq", __be32);
  ("ae", CBits 2 1);
  ("res1", CBits 2 3);
  ("doff", CBits 2 4);
  ("fin", CBits 2 1);
  ("syn", CBits 2 1);
  ("rst", CBits 2 1);
  ("psh", CBits 2 1);
  ("ack", CBits 2 1);
  ("urg", CBits 2 1);
  ("ece", CBits 2 1);
  ("cwr", CBits 2 1);
  ("window", __be16);
  ("check", __sum16);
  ("urg_ptr", __be16) ].

Definition struct___sk_buff : ctype := CStruct [mem:
  ("len", __u32);
  ("pkt_type", __u32);
  ("mark", __u32);
  ("queue_mapping", __u32);
  ("protocol", __u32);
  ("vlan_present", __u32);
  ("vlan_tci", __u32);
  ("vlan_proto", __u32);
  ("priority", __u32);
  ("ingress_ifindex", __u32);
  ("ifindex", __u32);
  ("tc_index", __u32);
  ("cb", CArr __u32 5);
  ("hash", __u32);
  ("tc_classid", __u32);
  ("data", __u32);
  ("data_end", __u32);
  ("napi_id", __u32);
  ("family", __u32);
  ("remote_ip4", __u32);
  ("local_ip4", __u32);
  ("remote_ip6", CArr __u32 4);
  ("local_ip6", CArr __u32 4);
  ("remote_port", __u32);
  ("local_port", __u32);
  ("data_meta", __u32);
  ("", CUnion [mem:
    ("flow_keys", CPtr "struct bpf_flow_keys") ]);
  ("tstamp", __u64);
  ("wire_len", __u32);
  ("gso_segs", __u32);
  ("", CUnion [mem:
    ("sk", CPtr "struct bpf_sock") ]);
  ("gso_size", __u32);
  ("tstamp_type", __u8);
  ("hwtstamp", __u64) ].

Definition struct_sk_msg_md : ctype := CStruct [mem:
  ("", CUnion [mem:
    ("data", CPtr "void") ]);
  ("", CUnion [mem:
    ("data_end", CPtr "void") ]);
  ("family", __u32);
  ("remote_ip4", __u32);
  ("local_ip4", __u32);
  ("remote_ip6", CArr __u32 4);
  ("local_ip6", CArr __u32 4);
  ("remote_port", __u32);
  ("local_port", __u32);
  ("size", __u32);
  ("", CUnion [mem:
    ("sk", CPtr "struct bpf_sock") ]) ].

Definition struct_xdp_md : ctype := CStruct [mem:
  ("data", __u32);
  ("data_end", __u32);
  ("data_meta", __u32);
  ("ingress_ifindex", __u32);
  ("rx_queue_index", __u32);
  ("egress_ifindex", __u32) ].

Definition struct_btf_ptr : ctype := CStruct [mem:
  ("ptr", CPtr "void");
  ("type_id", __u32);
  ("flags", __u32) ].

Definition struct_bpf_timer : ctype := CStruct [mem:
  ("__opaque", CArr __u64 2) ].

Definition struct_bpf_dynptr : ctype := CStruct [mem:
  ("__opaque", CArr __u64 2) ].

Definition struct_iphdr : ctype := CStruct [mem:
  ("ihl", CBits 1 4);
  ("version", CBits 1 4);
  ("tos", __u8);
  ("tot_len", __be16);
  ("id", __be16);
  ("frag_off", __be16);
  ("ttl", __u8);
  ("protocol", __u8);
  ("check", __sum16);
  ("", CUnion [mem:
    ("", CStruct [mem:
      ("saddr", __be32);
      ("daddr", __be32) ]);
    ("addrs", CStruct [mem:
      ("saddr", __be32);
      ("daddr", __be32) ]) ]) ].

Definition struct_in6_addr : ctype := CStruct [mem:
  ("in6_u", CUnion [mem:
    ("u6_addr8", CArr __u8 16);
    ("u6_addr16", CArr __be16 8);
    ("u6_addr32", CArr __be32 4) ]) ].

Definition struct_ipv6hdr : ctype := CStruct [mem:
  ("priority", CBits 1 4);
  ("version", CBits 1 4);
  ("flow_lbl", CArr __u8 3);
  ("payload_len", __be16);
  ("nexthdr", __u8);
  ("hop_limit", __u8);
  ("", CUnion [mem:
    ("", CStruct [mem:
      ("saddr", struct_in6_addr);
      ("daddr", struct_in6_addr) ]);
    ("addrs", CStruct [mem:
      ("saddr", struct_in6_addr);
      ("daddr", struct_in6_addr) ]) ]) ].

Definition struct_bpf_iter_num : ctype := CStruct [mem:
  ("__opaque", CArr __u64 1) ].
