(* ===== verification/VmlinuxNet.v ===== *)
(** * More of [bpf/vmlinux.h]

    The socket types of the helpers.
    Transcribed like [Vmlinux], closed under by-value containment; a pointee is
    a name. Unnamed bit-fields are the padding the header spells out. *)

From S2P Require Import Prelude.
From S2P Require Import CLayout.
From S2P Require Import Vmlinux.
From S2P Require Import VmlinuxBpf.

Local Open Scope Z_scope.

Definition socket_state : enum := Enum 4 [
  ("SS_FREE", 0);
  ("SS_UNCONNECTED", 1);
  ("SS_CONNECTING", 2);
  ("SS_CONNECTED", 3);
  ("SS_DISCONNECTING", 4)].

Definition struct_wait_queue_head : ctype := CStruct [mem:
  ("lock", spinlock_t);
  ("head", struct_list_head) ].

Definition wait_queue_head_t : ctype := struct_wait_queue_head.

Definition struct_socket_wq : ctype := CStruct [mem:
  ("wait", wait_queue_head_t);
  ("fasync_list", CPtr "struct fasync_struct");
  ("flags", CInt 8);
  ("rcu", struct_callback_head);
  ("", CBits 8 64) ].

Definition struct_socket : ctype := CStruct [mem:
  ("state", enum_type socket_state);
  ("type", CInt 2);
  ("flags", CInt 8);
  ("file", CPtr "struct file");
  ("sk", CPtr "struct sock");
  ("ops", CPtr "struct proto_ops");
  ("", CBits 8 64);
  ("", CBits 8 64);
  ("", CBits 8 64);
  ("wq", struct_socket_wq) ].

Definition __addrpair : ctype := __u64.

Definition __portpair : ctype := __u32.

Definition possible_net_t : ctype := CStruct [mem:
  ("net", CPtr "struct net") ].

Definition struct_hlist_nulls_node : ctype := CStruct [mem:
  ("next", CPtr "struct hlist_nulls_node");
  ("pprev", CPtr "struct hlist_nulls_node *") ].

Definition struct_refcount_struct : ctype := CStruct [mem:
  ("refs", atomic_t) ].

Definition refcount_t : ctype := struct_refcount_struct.

Definition struct_sock_common : ctype := CStruct [mem:
  ("", CUnion [mem:
    ("skc_addrpair", __addrpair);
    ("", CStruct [mem:
      ("skc_daddr", __be32);
      ("skc_rcv_saddr", __be32) ]) ]);
  ("", CUnion [mem:
    ("skc_hash", CInt 4);
    ("skc_u16hashes", CArr __u16 2) ]);
  ("", CUnion [mem:
    ("skc_portpair", __portpair);
    ("", CStruct [mem:
      ("skc_dport", __be16);
      ("skc_num", __u16) ]) ]);
  ("skc_family", CInt 2);
  ("skc_state", CInt 1);
  ("skc_reuse", CBits 1 4);
  ("skc_reuseport", CBits 1 1);
  ("skc_ipv6only", CBits 1 1);
  ("skc_net_refcnt", CBits 1 1);
  ("skc_bypass_prot_mem", CBits 1 1);
  ("skc_bound_dev_if", CInt 4);
  ("", CUnion [mem:
    ("skc_bind_node", struct_hlist_node);
    ("skc_portaddr_node", struct_hlist_node) ]);
  ("skc_prot", CPtr "struct proto");
  ("skc_net", possible_net_t);
  ("skc_v6_daddr", struct_in6_addr);
  ("skc_v6_rcv_saddr", struct_in6_addr);
  ("skc_cookie", atomic64_t);
  ("", CUnion [mem:
    ("skc_flags", CInt 8);
    ("skc_listener", CPtr "struct sock");
    ("skc_tw_dr", CPtr "struct inet_timewait_death_row") ]);
  ("skc_dontcopy_begin", CArr (CInt 4) 0);
  ("", CUnion [mem:
    ("skc_node", struct_hlist_node);
    ("skc_nulls_node", struct_hlist_nulls_node) ]);
  ("skc_tx_queue_mapping", CInt 2);
  ("skc_rx_queue_mapping", CInt 2);
  ("", CUnion [mem:
    ("skc_incoming_cpu", CInt 4);
    ("skc_rcv_wnd", u32);
    ("skc_tw_rcv_nxt", u32) ]);
  ("skc_refcnt", refcount_t);
  ("skc_dontcopy_end", CArr (CInt 4) 0);
  ("", CUnion [mem:
    ("skc_rxhash", u32);
    ("skc_window_clamp", u32);
    ("skc_tw_snd_nxt", u32) ]) ].

Definition struct_sk_buff_list : ctype := CStruct [mem:
  ("next", CPtr "struct sk_buff");
  ("prev", CPtr "struct sk_buff") ].

Definition struct_sk_buff_head : ctype := CStruct [mem:
  ("", CUnion [mem:
    ("", CStruct [mem:
      ("next", CPtr "struct sk_buff");
      ("prev", CPtr "struct sk_buff") ]);
    ("list", struct_sk_buff_list) ]);
  ("qlen", __u32);
  ("lock", spinlock_t) ].

Definition socket_lock_t : ctype := CStruct [mem:
  ("slock", spinlock_t);
  ("owned", CInt 4);
  ("wq", wait_queue_head_t) ].

Definition struct_page_frag : ctype := CStruct [mem:
  ("page", CPtr "struct page");
  ("offset", __u32);
  ("size", __u32) ].

Definition struct_timer_list : ctype := CStruct [mem:
  ("entry", struct_hlist_node);
  ("expires", CInt 8);
  ("function", CPtr "void (*)(struct timer_list *)");
  ("flags", u32) ].

Definition netdev_features_t : ctype := u64.

Definition struct_qrwlock : ctype := CStruct [mem:
  ("", CUnion [mem:
    ("cnts", atomic_t);
    ("", CStruct [mem:
      ("wlocked", u8);
      ("__lstate", CArr u8 3) ]) ]);
  ("wait_lock", arch_spinlock_t) ].

Definition arch_rwlock_t : ctype := struct_qrwlock.

Definition struct_rwlock : ctype := CStruct [mem:
  ("raw_lock", arch_rwlock_t) ].

Definition rwlock_t : ctype := struct_rwlock.

Definition ktime_t : ctype := s64.

Definition struct_sock_cgroup_data : ctype := CStruct [mem:
  ("cgroup", CPtr "struct cgroup");
  ("classid", u32);
  ("prioidx", u16) ].

Definition netns_tracker : ctype := CStruct [mem: ].

Definition struct_sock : ctype := CStruct [mem:
  ("__sk_common", struct_sock_common);
  ("__cacheline_group_begin__sock_write_rx", CArr __u8 0);
  ("sk_drops", atomic_t);
  ("sk_peek_off", __s32);
  ("sk_error_queue", struct_sk_buff_head);
  ("sk_receive_queue", struct_sk_buff_head);
  ("sk_backlog", CStruct [mem:
    ("rmem_alloc", atomic_t);
    ("len", CInt 4);
    ("head", CPtr "struct sk_buff");
    ("tail", CPtr "struct sk_buff") ]);
  ("__cacheline_group_end__sock_write_rx", CArr __u8 0);
  ("__cacheline_group_begin__sock_read_rx", CArr __u8 0);
  ("sk_rx_dst", CPtr "struct dst_entry");
  ("sk_rx_dst_ifindex", CInt 4);
  ("sk_rx_dst_cookie", u32);
  ("sk_ll_usec", CInt 4);
  ("sk_napi_id", CInt 4);
  ("sk_busy_poll_budget", u16);
  ("sk_prefer_busy_poll", u8);
  ("sk_userlocks", u8);
  ("sk_rcvbuf", CInt 4);
  ("sk_filter", CPtr "struct sk_filter");
  ("", CUnion [mem:
    ("sk_wq", CPtr "struct socket_wq");
    ("sk_wq_raw", CPtr "struct socket_wq") ]);
  ("sk_data_ready", CPtr "void (*)(struct sock *)");
  ("sk_rcvtimeo", CInt 8);
  ("sk_rcvlowat", CInt 4);
  ("__cacheline_group_end__sock_read_rx", CArr __u8 0);
  ("__cacheline_group_begin__sock_read_rxtx", CArr __u8 0);
  ("sk_err", CInt 4);
  ("sk_socket", CPtr "struct socket");
  ("sk_memcg", CPtr "struct mem_cgroup");
  ("sk_policy", CArr (CPtr "struct xfrm_policy") 2);
  ("psp_assoc", CPtr "struct psp_assoc");
  ("__cacheline_group_end__sock_read_rxtx", CArr __u8 0);
  ("__cacheline_group_begin__sock_write_rxtx", CArr __u8 0);
  ("sk_lock", socket_lock_t);
  ("sk_reserved_mem", u32);
  ("sk_forward_alloc", CInt 4);
  ("sk_tsflags", u32);
  ("__cacheline_group_end__sock_write_rxtx", CArr __u8 0);
  ("__cacheline_group_begin__sock_write_tx", CArr __u8 0);
  ("sk_write_pending", CInt 4);
  ("sk_omem_alloc", atomic_t);
  ("sk_err_soft", CInt 4);
  ("sk_wmem_queued", CInt 4);
  ("sk_wmem_alloc", refcount_t);
  ("sk_tsq_flags", CInt 8);
  ("", CUnion [mem:
    ("sk_send_head", CPtr "struct sk_buff");
    ("tcp_rtx_queue", struct_rb_root) ]);
  ("sk_write_queue", struct_sk_buff_head);
  ("sk_frag", struct_page_frag);
  ("", CUnion [mem:
    ("sk_timer", struct_timer_list);
    ("tcp_retransmit_timer", struct_timer_list);
    ("mptcp_retransmit_timer", struct_timer_list) ]);
  ("sk_pacing_rate", CInt 8);
  ("sk_zckey", atomic_t);
  ("sk_tskey", atomic_t);
  ("sk_tx_queue_mapping_jiffies", CInt 8);
  ("__cacheline_group_end__sock_write_tx", CArr __u8 0);
  ("__cacheline_group_begin__sock_read_tx", CArr __u8 0);
  ("sk_dst_pending_confirm", u32);
  ("sk_pacing_status", u32);
  ("sk_max_pacing_rate", CInt 8);
  ("sk_sndtimeo", CInt 8);
  ("sk_priority", u32);
  ("sk_mark", u32);
  ("sk_uid", kuid_t);
  ("sk_protocol", u16);
  ("sk_type", u16);
  ("sk_dst_cache", CPtr "struct dst_entry");
  ("sk_route_caps", netdev_features_t);
  ("sk_validate_xmit_skb", CPtr "struct sk_buff * (*)(struct sock *, struct net_device *, struct sk_buff *)");
  ("sk_gso_type", u16);
  ("sk_gso_max_segs", u16);
  ("sk_gso_max_size", CInt 4);
  ("sk_allocation", gfp_t);
  ("sk_txhash", u32);
  ("sk_sndbuf", CInt 4);
  ("sk_pacing_shift", u8);
  ("sk_use_task_frag", CBool);
  ("__cacheline_group_end__sock_read_tx", CArr __u8 0);
  ("sk_gso_disabled", CBits 1 1);
  ("sk_kern_sock", CBits 1 1);
  ("sk_no_check_tx", CBits 1 1);
  ("sk_no_check_rx", CBits 1 1);
  ("sk_shutdown", u8);
  ("sk_lingertime", CInt 8);
  ("sk_prot_creator", CPtr "struct proto");
  ("sk_callback_lock", rwlock_t);
  ("sk_ack_backlog", u32);
  ("sk_max_ack_backlog", u32);
  ("sk_ino", CInt 8);
  ("sk_peer_lock", spinlock_t);
  ("sk_bind_phc", CInt 4);
  ("sk_peer_pid", CPtr "struct pid");
  ("sk_peer_cred", CPtr "struct cred");
  ("sk_stamp", ktime_t);
  ("sk_disconnects", CInt 4);
  ("", CUnion [mem:
    ("sk_txrehash", u8);
    ("sk_scm_recv_flags", u8);
    ("", CStruct [mem:
      ("sk_scm_credentials", CBits 1 1);
      ("sk_scm_security", CBits 1 1);
      ("sk_scm_pidfd", CBits 1 1);
      ("sk_scm_rights", CBits 1 1);
      ("sk_scm_unused", CBits 1 4) ]) ]);
  ("sk_clockid", u8);
  ("sk_txtime_deadline_mode", CBits 1 1);
  ("sk_txtime_report_errors", CBits 1 1);
  ("sk_txtime_unused", CBits 1 6);
  ("sk_bpf_cb_flags", u8);
  ("sk_user_data", CPtr "void");
  ("sk_security", CPtr "void");
  ("sk_cgrp_data", struct_sock_cgroup_data);
  ("sk_state_change", CPtr "void (*)(struct sock *)");
  ("sk_write_space", CPtr "void (*)(struct sock *)");
  ("sk_error_report", CPtr "void (*)(struct sock *)");
  ("sk_backlog_rcv", CPtr "int (*)(struct sock *, struct sk_buff *)");
  ("sk_destruct", CPtr "void (*)(struct sock *)");
  ("sk_reuseport_cb", CPtr "struct sock_reuseport");
  ("sk_bpf_storage", CPtr "struct bpf_local_storage");
  ("sk_drop_counters", CPtr "struct numa_drop_counters");
  ("", CUnion [mem:
    ("sk_rcu", struct_callback_head);
    ("sk_freeptr", freeptr_t) ]);
  ("ns_tracker", netns_tracker);
  ("sk_user_frags", struct_xarray) ].

Definition __s16 : ctype := CInt 2.

Definition struct_inet_cork : ctype := CStruct [mem:
  ("flags", CInt 4);
  ("addr", __be32);
  ("opt", CPtr "struct ip_options");
  ("fragsize", CInt 4);
  ("length", CInt 4);
  ("dst", CPtr "struct dst_entry");
  ("tx_flags", u8);
  ("ttl", __u8);
  ("tos", __s16);
  ("priority", u32);
  ("gso_size", __u16);
  ("ts_opt_id", u32);
  ("transmit_time", u64);
  ("mark", u32) ].

Definition dscp_t : ctype := u8.

Definition __be64 : ctype := __u64.

Definition struct_flowi_tunnel : ctype := CStruct [mem:
  ("tun_id", __be64) ].

Definition struct_flowi_common : ctype := CStruct [mem:
  ("flowic_oif", CInt 4);
  ("flowic_iif", CInt 4);
  ("flowic_l3mdev", CInt 4);
  ("flowic_mark", __u32);
  ("flowic_dscp", dscp_t);
  ("flowic_scope", __u8);
  ("flowic_proto", __u8);
  ("flowic_flags", __u8);
  ("flowic_secid", __u32);
  ("flowic_uid", kuid_t);
  ("flowic_multipath_hash", __u32);
  ("flowic_tun_key", struct_flowi_tunnel) ].

Definition union_flowi_uli : ctype := CUnion [mem:
  ("ports", CStruct [mem:
    ("dport", __be16);
    ("sport", __be16) ]);
  ("icmpt", CStruct [mem:
    ("type", __u8);
    ("code", __u8) ]);
  ("gre_key", __be32);
  ("mht", CStruct [mem:
    ("type", __u8) ]) ].

Definition struct_flowi4 : ctype := CStruct [mem:
  ("__fl_common", struct_flowi_common);
  ("saddr", __be32);
  ("daddr", __be32);
  ("uli", union_flowi_uli) ].

Definition struct_flowi6 : ctype := CStruct [mem:
  ("__fl_common", struct_flowi_common);
  ("daddr", struct_in6_addr);
  ("saddr", struct_in6_addr);
  ("flowlabel", __be32);
  ("uli", union_flowi_uli);
  ("mp_hash", __u32) ].

Definition struct_flowi : ctype := CStruct [mem:
  ("u", CUnion [mem:
    ("__fl_common", struct_flowi_common);
    ("ip4", struct_flowi4);
    ("ip6", struct_flowi6) ]) ].

Definition struct_inet6_cork : ctype := CStruct [mem:
  ("opt", CPtr "struct ipv6_txoptions");
  ("hop_limit", u8);
  ("tclass", u8);
  ("dontfrag", CBits 1 1) ].

Definition struct_inet_cork_full : ctype := CStruct [mem:
  ("base", struct_inet_cork);
  ("fl", struct_flowi);
  ("base6", struct_inet6_cork) ].

Definition struct_inet_sock : ctype := CStruct [mem:
  ("sk", struct_sock);
  ("pinet6", CPtr "struct ipv6_pinfo");
  ("ipv6_fl_list", CPtr "struct ipv6_fl_socklist");
  ("inet_flags", CInt 8);
  ("inet_saddr", __be32);
  ("uc_ttl", __s16);
  ("inet_sport", __be16);
  ("inet_opt", CPtr "struct ip_options_rcu");
  ("inet_id", atomic_t);
  ("tos", __u8);
  ("min_ttl", __u8);
  ("mc_ttl", __u8);
  ("pmtudisc", __u8);
  ("rcv_tos", __u8);
  ("convert_csum", __u8);
  ("uc_index", CInt 4);
  ("mc_index", CInt 4);
  ("mc_addr", __be32);
  ("local_port_range", u32);
  ("mc_list", CPtr "struct ip_mc_socklist");
  ("cork", struct_inet_cork_full) ].

Definition struct_fastopen_queue : ctype := CStruct [mem:
  ("rskq_rst_head", CPtr "struct request_sock");
  ("rskq_rst_tail", CPtr "struct request_sock");
  ("lock", spinlock_t);
  ("qlen", CInt 4);
  ("max_qlen", CInt 4);
  ("ctx", CPtr "struct tcp_fastopen_context") ].

Definition struct_request_sock_queue : ctype := CStruct [mem:
  ("rskq_lock", spinlock_t);
  ("rskq_defer_accept", u8);
  ("synflood_warned", u8);
  ("qlen", atomic_t);
  ("young", atomic_t);
  ("rskq_accept_head", CPtr "struct request_sock");
  ("rskq_accept_tail", CPtr "struct request_sock");
  ("fastopenq", struct_fastopen_queue) ].

Definition struct_inet_connection_sock : ctype := CStruct [mem:
  ("icsk_inet", struct_inet_sock);
  ("icsk_accept_queue", struct_request_sock_queue);
  ("icsk_bind_hash", CPtr "struct inet_bind_bucket");
  ("icsk_bind2_hash", CPtr "struct inet_bind2_bucket");
  ("icsk_delack_timer", struct_timer_list);
  ("", CUnion [mem:
    ("icsk_keepalive_timer", struct_timer_list);
    ("mptcp_tout_timer", struct_timer_list) ]);
  ("icsk_rto", __u32);
  ("icsk_rto_min", __u32);
  ("icsk_rto_max", u32);
  ("icsk_delack_max", __u32);
  ("icsk_pmtu_cookie", __u32);
  ("icsk_ca_ops", CPtr "struct tcp_congestion_ops");
  ("icsk_af_ops", CPtr "struct inet_connection_sock_af_ops");
  ("icsk_ulp_ops", CPtr "struct tcp_ulp_ops");
  ("icsk_ulp_data", CPtr "void");
  ("icsk_sync_mss", CPtr "unsigned int (*)(struct sock *, u32)");
  ("icsk_ca_state", CBits 1 5);
  ("icsk_ca_initialized", CBits 1 1);
  ("icsk_ca_setsockopt", CBits 1 1);
  ("icsk_ca_dst_locked", CBits 1 1);
  ("icsk_retransmits", __u8);
  ("icsk_pending", __u8);
  ("icsk_backoff", __u8);
  ("icsk_syn_retries", __u8);
  ("icsk_probes_out", __u8);
  ("icsk_ext_hdr_len", __u16);
  ("icsk_ack", CStruct [mem:
    ("pending", __u8);
    ("quick", __u8);
    ("pingpong", __u8);
    ("retry", __u8);
    ("ato", CBits 4 8);
    ("lrcv_flowlabel", CBits 4 20);
    ("dst_quick_ack", CBits 4 1);
    ("unused", CBits 4 3);
    ("lrcvtime", __u32);
    ("last_seg_size", __u16);
    ("rcv_mss", __u16) ]);
  ("icsk_mtup", CStruct [mem:
    ("search_high", CInt 4);
    ("search_low", CInt 4);
    ("probe_size", CBits 4 31);
    ("enabled", CBits 4 1);
    ("probe_timestamp", u32) ]);
  ("icsk_probes_tstamp", u32);
  ("icsk_user_timeout", u32);
  ("icsk_ca_priv", CArr u64 13) ].

Definition struct_minmax_sample : ctype := CStruct [mem:
  ("t", u32);
  ("v", u32) ].

Definition struct_minmax : ctype := CStruct [mem:
  ("s", CArr struct_minmax_sample 3) ].

Definition struct_tcp_options_received : ctype := CStruct [mem:
  ("ts_recent_stamp", CInt 4);
  ("ts_recent", u32);
  ("rcv_tsval", u32);
  ("rcv_tsecr", u32);
  ("saw_tstamp", CBits 2 1);
  ("tstamp_ok", CBits 2 1);
  ("dsack", CBits 2 1);
  ("wscale_ok", CBits 2 1);
  ("sack_ok", CBits 2 3);
  ("smc_ok", CBits 2 1);
  ("snd_wscale", CBits 2 4);
  ("rcv_wscale", CBits 2 4);
  ("accecn", CBits 1 6);
  ("saw_unknown", CBits 1 1);
  ("unused", CBits 1 1);
  ("num_sacks", u8);
  ("user_mss", u16);
  ("mss_clamp", u16) ].

Definition struct_tcp_rack : ctype := CStruct [mem:
  ("mstamp", u64);
  ("rtt_us", u32);
  ("end_seq", u32);
  ("last_delivered", u32);
  ("reo_wnd_steps", u8);
  ("reo_wnd_persist", CBits 1 5);
  ("dsack_seen", CBits 1 1);
  ("advanced", CBits 1 1) ].

Definition struct_rb_node : ctype := CStruct [mem:
  ("__rb_parent_color", CInt 8);
  ("rb_right", CPtr "struct rb_node");
  ("rb_left", CPtr "struct rb_node") ].

Definition struct_timerqueue_node : ctype := CStruct [mem:
  ("node", struct_rb_node);
  ("expires", ktime_t) ].

Definition struct_hrtimer : ctype := CStruct [mem:
  ("node", struct_timerqueue_node);
  ("_softexpires", ktime_t);
  ("function", CPtr "enum hrtimer_restart (*)(struct hrtimer *)");
  ("base", CPtr "struct hrtimer_clock_base");
  ("state", u8);
  ("is_rel", u8);
  ("is_soft", u8);
  ("is_hard", u8) ].

Definition struct_tcp_sack_block : ctype := CStruct [mem:
  ("start_seq", u32);
  ("end_seq", u32) ].

Definition struct_tcp_sock : ctype := CStruct [mem:
  ("inet_conn", struct_inet_connection_sock);
  ("__cacheline_group_begin__tcp_sock_read_tx", CArr __u8 0);
  ("max_window", u32);
  ("rcv_ssthresh", u32);
  ("reordering", u32);
  ("notsent_lowat", u32);
  ("gso_segs", u16);
  ("retransmit_skb_hint", CPtr "struct sk_buff");
  ("tcp_clean_acked", CPtr "void (*)(struct sock *, u32)");
  ("__cacheline_group_end__tcp_sock_read_tx", CArr __u8 0);
  ("__cacheline_group_begin__tcp_sock_read_txrx", CArr __u8 0);
  ("tsoffset", u32);
  ("snd_wnd", u32);
  ("mss_cache", u32);
  ("snd_cwnd", u32);
  ("prr_out", u32);
  ("lost_out", u32);
  ("sacked_out", u32);
  ("tcp_header_len", u16);
  ("scaling_ratio", u8);
  ("repair", CBits 1 1);
  ("tcp_usec_ts", CBits 1 1);
  ("is_sack_reneg", CBits 1 1);
  ("is_cwnd_limited", CBits 1 1);
  ("recvmsg_inq", CBits 1 1);
  ("__cacheline_group_end__tcp_sock_read_txrx", CArr __u8 0);
  ("__cacheline_group_begin__tcp_sock_read_rx", CArr __u8 0);
  ("copied_seq", u32);
  ("snd_wl1", u32);
  ("tlp_high_seq", u32);
  ("rttvar_us", u32);
  ("retrans_out", u32);
  ("advmss", u16);
  ("urg_data", u16);
  ("lost", u32);
  ("snd_ssthresh", u32);
  ("rtt_min", struct_minmax);
  ("out_of_order_queue", struct_rb_root);
  ("__cacheline_group_end__tcp_sock_read_rx", CArr __u8 0);
  ("", CBits 8 64);
  ("", CBits 8 64);
  ("", CBits 8 64);
  ("__cacheline_group_begin__tcp_sock_write_tx", CArr __u8 0);
  ("segs_out", u32);
  ("data_segs_out", u32);
  ("bytes_sent", u64);
  ("snd_sml", u32);
  ("chrono_type", u8);
  ("chrono_start", u32);
  ("chrono_stat", CArr u32 3);
  ("write_seq", u32);
  ("pushed_seq", u32);
  ("lsndtime", u32);
  ("mdev_us", u32);
  ("rtt_seq", u32);
  ("tcp_wstamp_ns", u64);
  ("accecn_opt_tstamp", u64);
  ("tsorted_sent_queue", struct_list_head);
  ("highest_sack", CPtr "struct sk_buff");
  ("ecn_flags", u8);
  ("__cacheline_group_end__tcp_sock_write_tx", CArr __u8 0);
  ("__cacheline_group_begin__tcp_sock_write_txrx", CArr __u8 0);
  ("nonagle", CBits 1 4);
  ("rate_app_limited", CBits 1 1);
  ("", CBits 2 3);
  ("received_ce_pending", CBits 1 4);
  ("accecn_opt_sent_w_dsack", CBits 1 1);
  ("unused2", CBits 1 3);
  ("accecn_minlen", CBits 1 2);
  ("est_ecnfield", CBits 1 2);
  ("accecn_opt_demand", CBits 1 2);
  ("prev_ecnfield", CBits 1 2);
  ("pred_flags", __be32);
  ("tcp_clock_cache", u64);
  ("tcp_mstamp", u64);
  ("rcv_nxt", u32);
  ("snd_nxt", u32);
  ("snd_una", u32);
  ("window_clamp", u32);
  ("srtt_us", u32);
  ("packets_out", u32);
  ("snd_up", u32);
  ("delivered", u32);
  ("delivered_ce", u32);
  ("received_ce", u32);
  ("received_ecn_bytes", CArr u32 3);
  ("app_limited", u32);
  ("rcv_wnd", u32);
  ("rcv_tstamp", u32);
  ("rx_opt", struct_tcp_options_received);
  ("__cacheline_group_end__tcp_sock_write_txrx", CArr __u8 0);
  ("__cacheline_group_begin__tcp_sock_write_rx", CArr __u8 0);
  ("bytes_received", u64);
  ("segs_in", u32);
  ("data_segs_in", u32);
  ("rcv_wup", u32);
  ("max_packets_out", u32);
  ("cwnd_usage_seq", u32);
  ("rate_delivered", u32);
  ("rate_interval_us", u32);
  ("rcv_rtt_last_tsecr", u32);
  ("delivered_ecn_bytes", CArr u32 3);
  ("pkts_acked_ewma", u16);
  ("first_tx_mstamp", u64);
  ("delivered_mstamp", u64);
  ("bytes_acked", u64);
  ("rcv_rtt_est", CStruct [mem:
    ("rtt_us", u32);
    ("seq", u32);
    ("time", u64) ]);
  ("rcvq_space", CStruct [mem:
    ("space", CInt 4);
    ("seq", u32);
    ("time", u64) ]);
  ("__cacheline_group_end__tcp_sock_write_rx", CArr __u8 0);
  ("dsack_dups", u32);
  ("compressed_ack_rcv_nxt", u32);
  ("tsq_node", struct_list_head);
  ("rack", struct_tcp_rack);
  ("compressed_ack", u8);
  ("dup_ack_counter", CBits 1 2);
  ("tlp_retrans", CBits 1 1);
  ("syn_ect_snt", CBits 1 2);
  ("syn_ect_rcv", CBits 1 2);
  ("thin_lto", CBits 1 1);
  ("fastopen_connect", CBits 1 1);
  ("fastopen_no_cookie", CBits 1 1);
  ("fastopen_client_fail", CBits 1 2);
  ("frto", CBits 1 1);
  ("repair_queue", u8);
  ("save_syn", CBits 1 2);
  ("syn_data", CBits 1 1);
  ("syn_fastopen", CBits 1 1);
  ("syn_fastopen_exp", CBits 1 1);
  ("syn_fastopen_ch", CBits 1 1);
  ("syn_data_acked", CBits 1 1);
  ("syn_fastopen_child", CBits 1 1);
  ("keepalive_probes", u8);
  ("accecn_fail_mode", CBits 1 4);
  ("saw_accecn_opt", CBits 1 2);
  ("tcp_tx_delay", u32);
  ("mdev_max_us", u32);
  ("reord_seen", u32);
  ("snd_cwnd_cnt", u32);
  ("snd_cwnd_clamp", u32);
  ("snd_cwnd_used", u32);
  ("snd_cwnd_stamp", u32);
  ("prior_cwnd", u32);
  ("prr_delivered", u32);
  ("last_oow_ack_time", u32);
  ("pacing_timer", struct_hrtimer);
  ("compressed_ack_timer", struct_hrtimer);
  ("ooo_last_skb", CPtr "struct sk_buff");
  ("duplicate_sack", CArr struct_tcp_sack_block 1);
  ("selective_acks", CArr struct_tcp_sack_block 4);
  ("recv_sack_cache", CArr struct_tcp_sack_block 4);
  ("prior_ssthresh", u32);
  ("high_seq", u32);
  ("retrans_stamp", u32);
  ("undo_marker", u32);
  ("undo_retrans", CInt 4);
  ("mtu_info", u32);
  ("bytes_retrans", u64);
  ("total_retrans", u32);
  ("rto_stamp", u32);
  ("total_rto", u16);
  ("total_rto_recoveries", u16);
  ("total_rto_time", u32);
  ("urg_seq", u32);
  ("keepalive_time", CInt 4);
  ("keepalive_intvl", CInt 4);
  ("linger2", CInt 4);
  ("bpf_sock_ops_cb_flags", u8);
  ("bpf_chg_cc_inprogress", CBits 1 1);
  ("timeout_rehash", u16);
  ("rcv_ooopack", u32);
  ("mtu_probe", CStruct [mem:
    ("probe_seq_start", u32);
    ("probe_seq_end", u32) ]);
  ("plb_rehash", u32);
  ("is_mptcp", CBool);
  ("syn_smc", CBool);
  ("smc_hs_congested", CPtr "bool (*)(const struct sock *)");
  ("af_specific", CPtr "struct tcp_sock_af_ops");
  ("md5sig_info", CPtr "struct tcp_md5sig_info");
  ("ao_info", CPtr "struct tcp_ao_info");
  ("fastopen_req", CPtr "struct tcp_fastopen_request");
  ("fastopen_rsk", CPtr "struct request_sock");
  ("saved_syn", CPtr "struct saved_syn");
  ("", CBits 8 64);
  ("", CBits 8 64);
  ("", CBits 8 64);
  ("", CBits 8 64);
  ("", CBits 8 64);
  ("", CBits 8 64);
  ("", CBits 8 64) ].

Definition s16 : ctype := __s16.

Definition struct_in6_pktinfo : ctype := CStruct [mem:
  ("ipi6_addr", struct_in6_addr);
  ("ipi6_ifindex", CInt 4) ].

Definition struct_ipv6_pinfo : ctype := CStruct [mem:
  ("saddr", struct_in6_addr);
  ("", CUnion [mem:
    ("daddr", struct_in6_addr);
    ("final", struct_in6_addr) ]);
  ("flow_label", __be32);
  ("dst_cookie", u32);
  ("opt", CPtr "struct ipv6_txoptions");
  ("hop_limit", s16);
  ("pmtudisc", u8);
  ("tclass", u8);
  ("saddr_cache", CBool);
  ("daddr_cache", CBool);
  ("mcast_hops", u8);
  ("frag_size", u32);
  ("ucast_oif", CInt 4);
  ("mcast_oif", CInt 4);
  ("rxopt", CUnion [mem:
    ("bits", CStruct [mem:
      ("srcrt", CBits 2 1);
      ("osrcrt", CBits 2 1);
      ("rxinfo", CBits 2 1);
      ("rxoinfo", CBits 2 1);
      ("rxhlim", CBits 2 1);
      ("rxohlim", CBits 2 1);
      ("hopopts", CBits 2 1);
      ("ohopopts", CBits 2 1);
      ("dstopts", CBits 2 1);
      ("odstopts", CBits 2 1);
      ("rxflow", CBits 2 1);
      ("rxtclass", CBits 2 1);
      ("rxpmtu", CBits 2 1);
      ("rxorigdstaddr", CBits 2 1);
      ("recvfragsize", CBits 2 1) ]);
    ("all", u16) ]);
  ("srcprefs", u8);
  ("min_hopcount", u8);
  ("rcv_flowinfo", __be32);
  ("sticky_pktinfo", struct_in6_pktinfo);
  ("pktoptions", CPtr "struct sk_buff");
  ("rxpmtu", CPtr "struct sk_buff");
  ("ipv6_mc_list", CPtr "struct ipv6_mc_socklist");
  ("ipv6_ac_list", CPtr "struct ipv6_ac_socklist") ].

Definition struct_tcp6_sock : ctype := CStruct [mem:
  ("tcp", struct_tcp_sock);
  ("inet6", struct_ipv6_pinfo) ].

Definition struct_inet_timewait_sock : ctype := CStruct [mem:
  ("__tw_common", struct_sock_common);
  ("tw_mark", __u32);
  ("tw_substate", CInt 1);
  ("tw_rcv_wscale", CInt 1);
  ("tw_sport", __be16);
  ("tw_transparent", CBits 4 1);
  ("tw_flowlabel", CBits 4 20);
  ("tw_usec_ts", CBits 4 1);
  ("tw_connect_bind", CBits 4 1);
  ("tw_pad", CBits 4 1);
  ("tw_tos", CBits 4 8);
  ("tw_txhash", u32);
  ("tw_priority", u32);
  ("tw_entry_stamp", u32);
  ("tw_timer", struct_timer_list);
  ("tw_tb", CPtr "struct inet_bind_bucket");
  ("tw_tb2", CPtr "struct inet_bind2_bucket");
  ("psp_assoc", CPtr "struct psp_assoc");
  ("tw_validate_xmit_skb", CPtr "struct sk_buff * (*)(struct sock *, struct net_device *, struct sk_buff *)") ].

Definition struct_tcp_timewait_sock : ctype := CStruct [mem:
  ("tw_sk", struct_inet_timewait_sock);
  ("tw_rcv_wnd", u32);
  ("tw_ts_offset", u32);
  ("tw_ts_recent", u32);
  ("tw_last_oow_ack_time", u32);
  ("tw_ts_recent_stamp", CInt 4);
  ("tw_tx_delay", u32);
  ("tw_md5_key", CPtr "struct tcp_md5sig_key");
  ("ao_info", CPtr "struct tcp_ao_info") ].

Definition struct_request_sock : ctype := CStruct [mem:
  ("__req_common", struct_sock_common);
  ("dl_next", CPtr "struct request_sock");
  ("mss", u16);
  ("num_retrans", u8);
  ("syncookie", CBits 1 1);
  ("num_timeout", CBits 1 7);
  ("ts_recent", u32);
  ("rsk_timer", struct_timer_list);
  ("rsk_ops", CPtr "struct request_sock_ops");
  ("sk", CPtr "struct sock");
  ("saved_syn", CPtr "struct saved_syn");
  ("secid", u32);
  ("peer_secid", u32);
  ("timeout", u32) ].

Definition struct_inet_request_sock : ctype := CStruct [mem:
  ("req", struct_request_sock);
  ("snd_wscale", CBits 2 4);
  ("rcv_wscale", CBits 2 4);
  ("tstamp_ok", CBits 2 1);
  ("sack_ok", CBits 2 1);
  ("wscale_ok", CBits 2 1);
  ("ecn_ok", CBits 2 1);
  ("acked", CBits 2 1);
  ("no_srccheck", CBits 2 1);
  ("smc_ok", CBits 2 1);
  ("ir_mark", u32);
  ("", CUnion [mem:
    ("ireq_opt", CPtr "struct ip_options_rcu");
    ("", CStruct [mem:
      ("ipv6_opt", CPtr "struct ipv6_txoptions");
      ("pktopts", CPtr "struct sk_buff") ]) ]) ].

Definition struct_tcp_request_sock : ctype := CStruct [mem:
  ("req", struct_inet_request_sock);
  ("af_specific", CPtr "struct tcp_request_sock_ops");
  ("snt_synack", u64);
  ("tfo_listener", CBool);
  ("is_mptcp", CBool);
  ("req_usec_ts", CBool);
  ("drop_req", CBool);
  ("txhash", u32);
  ("rcv_isn", u32);
  ("snt_isn", u32);
  ("ts_off", u32);
  ("snt_tsval_first", u32);
  ("snt_tsval_last", u32);
  ("last_oow_ack_time", u32);
  ("rcv_nxt", u32);
  ("syn_tos", u8);
  ("accecn_ok", CBool);
  ("syn_ect_snt", CBits 1 2);
  ("syn_ect_rcv", CBits 1 2);
  ("accecn_fail_mode", CBits 1 4);
  ("saw_accecn_opt", CBits 1 2);
  ("ao_keyid", u8);
  ("ao_rcv_next", u8);
  ("used_tcp_ao", CBool) ].

Definition struct_numa_drop_counters : ctype := CStruct [mem:
  ("drops0", atomic_t);
  ("", CBits 8 64);
  ("", CBits 8 64);
  ("", CBits 8 64);
  ("", CBits 8 64);
  ("", CBits 8 64);
  ("", CBits 8 64);
  ("", CBits 8 64);
  ("drops1", atomic_t);
  ("", CBits 8 64);
  ("", CBits 8 64);
  ("", CBits 8 64);
  ("", CBits 8 64);
  ("", CBits 8 64);
  ("", CBits 8 64);
  ("", CBits 8 64) ].

Definition struct_udp_sock : ctype := CStruct [mem:
  ("inet", struct_inet_sock);
  ("udp_flags", CInt 8);
  ("pending", CInt 4);
  ("encap_type", __u8);
  ("udp_lrpa_hash", __u16);
  ("udp_lrpa_node", struct_hlist_nulls_node);
  ("len", __u16);
  ("gso_size", __u16);
  ("pcslen", __u16);
  ("pcrlen", __u16);
  ("encap_rcv", CPtr "int (*)(struct sock *, struct sk_buff *)");
  ("encap_err_rcv", CPtr "void (*)(struct sock *, struct sk_buff *, int, __be16, u32, u8 *)");
  ("encap_err_lookup", CPtr "int (*)(struct sock *, struct sk_buff *)");
  ("encap_destroy", CPtr "void (*)(struct sock *)");
  ("gro_receive", CPtr "struct sk_buff * (*)(struct sock *, struct list_head *, struct sk_buff *)");
  ("gro_complete", CPtr "int (*)(struct sock *, struct sk_buff *, int)");
  ("udp_prod_queue", CPtr "struct udp_prod_queue");
  ("reader_queue", struct_sk_buff_head);
  ("forward_deficit", CInt 4);
  ("forward_threshold", CInt 4);
  ("peeking_with_offset", CBool);
  ("tunnel_list", struct_hlist_node);
  ("", CBits 8 64);
  ("drop_counters", struct_numa_drop_counters) ].

Definition struct_udp6_sock : ctype := CStruct [mem:
  ("udp", struct_udp_sock);
  ("inet6", struct_ipv6_pinfo) ].

Definition wait_queue_func_t : ctype := CPtr "function".

Definition struct_wait_queue_entry : ctype := CStruct [mem:
  ("flags", CInt 4);
  ("private", CPtr "void");
  ("func", wait_queue_func_t);
  ("entry", struct_list_head) ].

Definition wait_queue_entry_t : ctype := struct_wait_queue_entry.

Definition struct_scm_stat : ctype := CStruct [mem:
  ("nr_fds", atomic_t);
  ("nr_unix_fds", CInt 8) ].

Definition struct_unix_sock : ctype := CStruct [mem:
  ("sk", struct_sock);
  ("addr", CPtr "struct unix_address");
  ("path", struct_path);
  ("iolock", struct_mutex);
  ("bindlock", struct_mutex);
  ("peer", CPtr "struct sock");
  ("listener", CPtr "struct sock");
  ("vertex", CPtr "struct unix_vertex");
  ("lock", spinlock_t);
  ("", CBits 8 64);
  ("", CBits 8 64);
  ("", CBits 8 64);
  ("", CBits 8 64);
  ("peer_wq", struct_socket_wq);
  ("peer_wake", wait_queue_entry_t);
  ("scm_stat", struct_scm_stat);
  ("inq_len", CInt 4);
  ("recvmsg_inq", CBool);
  ("oob_skb", CPtr "struct sk_buff");
  ("", CBits 8 64);
  ("", CBits 8 64);
  ("", CBits 8 64);
  ("", CBits 8 64);
  ("", CBits 8 64);
  ("", CBits 8 64);
  ("", CBits 8 64) ].

Definition work_func_t : ctype := CPtr "function".

Definition struct_work_struct : ctype := CStruct [mem:
  ("data", atomic_long_t);
  ("entry", struct_list_head);
  ("func", work_func_t) ].

Definition struct_in_addr : ctype := CStruct [mem:
  ("s_addr", __be32) ].

Definition struct_mptcp_addr_info : ctype := CStruct [mem:
  ("id", u8);
  ("family", sa_family_t);
  ("port", __be16);
  ("", CUnion [mem:
    ("addr", struct_in_addr);
    ("addr6", struct_in6_addr) ]) ].

Definition struct_mptcp_rm_list : ctype := CStruct [mem:
  ("ids", CArr u8 8);
  ("nr", u8) ].

Definition struct_mptcp_pm_data : ctype := CStruct [mem:
  ("local", struct_mptcp_addr_info);
  ("remote", struct_mptcp_addr_info);
  ("anno_list", struct_list_head);
  ("userspace_pm_local_addr_list", struct_list_head);
  ("lock", spinlock_t);
  ("", CUnion [mem:
    ("", CStruct [mem:
      ("addr_signal", u8);
      ("server_side", CBool);
      ("work_pending", CBool);
      ("accept_addr", CBool);
      ("accept_subflow", CBool);
      ("remote_deny_join_id0", CBool);
      ("add_addr_signaled", u8);
      ("add_addr_accepted", u8);
      ("local_addr_used", u8);
      ("pm_type", u8);
      ("extra_subflows", u8);
      ("status", u8) ]);
    ("reset", CStruct [mem:
      ("addr_signal", u8);
      ("server_side", CBool);
      ("work_pending", CBool);
      ("accept_addr", CBool);
      ("accept_subflow", CBool);
      ("remote_deny_join_id0", CBool);
      ("add_addr_signaled", u8);
      ("add_addr_accepted", u8);
      ("local_addr_used", u8);
      ("pm_type", u8);
      ("extra_subflows", u8);
      ("status", u8) ]) ]);
  ("id_avail_bitmap", CArr (CInt 8) 4);
  ("rm_list_tx", struct_mptcp_rm_list);
  ("rm_list_rx", struct_mptcp_rm_list) ].

Definition struct_mptcp_sock : ctype := CStruct [mem:
  ("sk", struct_inet_connection_sock);
  ("local_key", u64);
  ("remote_key", u64);
  ("write_seq", u64);
  ("bytes_sent", u64);
  ("snd_nxt", u64);
  ("bytes_received", u64);
  ("ack_seq", u64);
  ("rcv_wnd_sent", atomic64_t);
  ("rcv_data_fin_seq", u64);
  ("bytes_retrans", u64);
  ("bytes_consumed", u64);
  ("snd_burst", CInt 4);
  ("old_wspace", CInt 4);
  ("recovery_snd_nxt", u64);
  ("bytes_acked", u64);
  ("snd_una", u64);
  ("wnd_end", u64);
  ("last_data_sent", u32);
  ("last_data_recv", u32);
  ("last_ack_recv", u32);
  ("timer_ival", CInt 8);
  ("token", u32);
  ("flags", CInt 8);
  ("cb_flags", CInt 8);
  ("recovery", CBool);
  ("can_ack", CBool);
  ("fully_established", CBool);
  ("rcv_data_fin", CBool);
  ("snd_data_fin_enable", CBool);
  ("rcv_fastclose", CBool);
  ("use_64bit_ack", CBool);
  ("csum_enabled", CBool);
  ("allow_infinite_fallback", CBool);
  ("pending_state", u8);
  ("mpc_endpoint_id", u8);
  ("recvmsg_inq", CBits 1 1);
  ("cork", CBits 1 1);
  ("nodelay", CBits 1 1);
  ("fastopening", CBits 1 1);
  ("in_accept_queue", CBits 1 1);
  ("free_first", CBits 1 1);
  ("rcvspace_init", CBits 1 1);
  ("fastclosing", CBits 1 1);
  ("notsent_lowat", u32);
  ("keepalive_cnt", CInt 4);
  ("keepalive_idle", CInt 4);
  ("keepalive_intvl", CInt 4);
  ("maxseg", CInt 4);
  ("work", struct_work_struct);
  ("ooo_last_skb", CPtr "struct sk_buff");
  ("out_of_order_queue", struct_rb_root);
  ("conn_list", struct_list_head);
  ("rtx_queue", struct_list_head);
  ("first_pending", CPtr "struct mptcp_data_frag");
  ("join_list", struct_list_head);
  ("first", CPtr "struct sock");
  ("pm", struct_mptcp_pm_data);
  ("sched", CPtr "struct mptcp_sched_ops");
  ("rcv_rtt_est", CStruct [mem:
    ("samples", CArr u32 5);
    ("next_sample", u32) ]);
  ("rcvq_space", CStruct [mem:
    ("space", CInt 4);
    ("copied", CInt 4);
    ("time", u64) ]);
  ("scaling_ratio", u8);
  ("allow_subflows", CBool);
  ("subflow_id", u32);
  ("setsockopt_seq", u32);
  ("ca_name", CArr (CInt 1) 16);
  ("fallback_lock", spinlock_t);
  ("backlog_list", struct_list_head);
  ("backlog_len", u32);
  ("backlog_unaccounted", u32) ].
