(* ===== verification/VmlinuxTask.v ===== *)
(** * More of [bpf/vmlinux.h]

    Tasks, cgroups and what the kernel hands out with them.
    Transcribed like [Vmlinux], closed under by-value containment; a pointee is
    a name. Unnamed bit-fields are the padding the header spells out. *)

From S2P Require Import Prelude.
From S2P Require Import CLayout.
From S2P Require Import Vmlinux.
From S2P Require Import VmlinuxBpf.
From S2P Require Import VmlinuxNet.

Local Open Scope Z_scope.

Definition struct_thread_info : ctype := CStruct [mem:
  ("flags", CInt 8);
  ("syscall_work", CInt 8);
  ("status", u32);
  ("cpu", u32) ].

Definition struct___call_single_node : ctype := CStruct [mem:
  ("llist", struct_llist_node);
  ("", CUnion [mem:
    ("u_flags", CInt 4);
    ("a_flags", atomic_t) ]);
  ("src", u16);
  ("dst", u16) ].

Definition struct_load_weight : ctype := CStruct [mem:
  ("weight", CInt 8);
  ("inv_weight", u32) ].

Definition struct_sched_avg : ctype := CStruct [mem:
  ("last_update_time", u64);
  ("load_sum", u64);
  ("runnable_sum", u64);
  ("util_sum", u32);
  ("period_contrib", u32);
  ("load_avg", CInt 8);
  ("runnable_avg", CInt 8);
  ("util_avg", CInt 8);
  ("util_est", CInt 4) ].

Definition struct_sched_entity : ctype := CStruct [mem:
  ("load", struct_load_weight);
  ("run_node", struct_rb_node);
  ("deadline", u64);
  ("min_vruntime", u64);
  ("min_slice", u64);
  ("max_slice", u64);
  ("group_node", struct_list_head);
  ("on_rq", CInt 1);
  ("sched_delayed", CInt 1);
  ("rel_deadline", CInt 1);
  ("custom_slice", CInt 1);
  ("exec_start", u64);
  ("sum_exec_runtime", u64);
  ("prev_sum_exec_runtime", u64);
  ("vruntime", u64);
  ("vlag", s64);
  ("vprot", u64);
  ("slice", u64);
  ("nr_migrations", u64);
  ("depth", CInt 4);
  ("parent", CPtr "struct sched_entity");
  ("cfs_rq", CPtr "struct cfs_rq");
  ("my_q", CPtr "struct cfs_rq");
  ("runnable_weight", CInt 8);
  ("", CBits 8 64);
  ("", CBits 8 64);
  ("", CBits 8 64);
  ("", CBits 8 64);
  ("", CBits 8 64);
  ("", CBits 8 64);
  ("", CBits 8 64);
  ("avg", struct_sched_avg) ].

Definition struct_sched_rt_entity : ctype := CStruct [mem:
  ("run_list", struct_list_head);
  ("timeout", CInt 8);
  ("watchdog_stamp", CInt 8);
  ("time_slice", CInt 4);
  ("on_rq", CInt 2);
  ("on_list", CInt 2);
  ("back", CPtr "struct sched_rt_entity") ].

Definition dl_server_pick_f : ctype := CPtr "function".

Definition struct_sched_dl_entity : ctype := CStruct [mem:
  ("rb_node", struct_rb_node);
  ("dl_runtime", u64);
  ("dl_deadline", u64);
  ("dl_period", u64);
  ("dl_bw", u64);
  ("dl_density", u64);
  ("runtime", s64);
  ("deadline", u64);
  ("flags", CInt 4);
  ("dl_throttled", CBits 4 1);
  ("dl_yielded", CBits 4 1);
  ("dl_non_contending", CBits 4 1);
  ("dl_overrun", CBits 4 1);
  ("dl_server", CBits 4 1);
  ("dl_server_active", CBits 4 1);
  ("dl_defer", CBits 4 1);
  ("dl_defer_armed", CBits 4 1);
  ("dl_defer_running", CBits 4 1);
  ("dl_defer_idle", CBits 4 1);
  ("dl_timer", struct_hrtimer);
  ("inactive_timer", struct_hrtimer);
  ("rq", CPtr "struct rq");
  ("server_pick_task", dl_server_pick_f);
  ("pi_se", CPtr "struct sched_dl_entity") ].

Definition struct_scx_dsq_list_node : ctype := CStruct [mem:
  ("node", struct_list_head);
  ("flags", u32);
  ("priv", u32) ].

Definition s32 : ctype := __s32.

Definition struct_sched_ext_entity : ctype := CStruct [mem:
  ("dsq", CPtr "struct scx_dispatch_q");
  ("dsq_list", struct_scx_dsq_list_node);
  ("dsq_priq", struct_rb_node);
  ("dsq_seq", u32);
  ("dsq_flags", u32);
  ("flags", u32);
  ("weight", u32);
  ("sticky_cpu", s32);
  ("holding_cpu", s32);
  ("selected_cpu", s32);
  ("kf_mask", u32);
  ("kf_tasks", CArr (CPtr "struct task_struct") 2);
  ("ops_state", atomic_long_t);
  ("runnable_node", struct_list_head);
  ("runnable_at", CInt 8);
  ("core_sched_at", u64);
  ("ddsp_dsq_id", u64);
  ("ddsp_enq_flags", u64);
  ("slice", u64);
  ("dsq_vtime", u64);
  ("disallow", CBool);
  ("cgrp_moving_from", CPtr "struct cgroup");
  ("tasks_node", struct_list_head) ].

Definition struct_uclamp_se : ctype := CStruct [mem:
  ("value", CBits 4 11);
  ("bucket_id", CBits 4 3);
  ("active", CBits 4 1);
  ("user_defined", CBits 4 1) ].

Definition struct_sched_statistics : ctype := CStruct [mem:
  ("wait_start", u64);
  ("wait_max", u64);
  ("wait_count", u64);
  ("wait_sum", u64);
  ("iowait_count", u64);
  ("iowait_sum", u64);
  ("sleep_start", u64);
  ("sleep_max", u64);
  ("sum_sleep_runtime", s64);
  ("block_start", u64);
  ("block_max", u64);
  ("sum_block_runtime", s64);
  ("exec_max", s64);
  ("slice_max", u64);
  ("nr_migrations_cold", u64);
  ("nr_failed_migrations_affine", u64);
  ("nr_failed_migrations_running", u64);
  ("nr_failed_migrations_hot", u64);
  ("nr_forced_migrations", u64);
  ("nr_wakeups", u64);
  ("nr_wakeups_sync", u64);
  ("nr_wakeups_migrate", u64);
  ("nr_wakeups_local", u64);
  ("nr_wakeups_remote", u64);
  ("nr_wakeups_affine", u64);
  ("nr_wakeups_affine_attempts", u64);
  ("nr_wakeups_passive", u64);
  ("nr_wakeups_idle", u64);
  ("core_forceidle_sum", u64);
  ("", CBits 8 64);
  ("", CBits 8 64);
  ("", CBits 8 64) ].

Definition struct_cpumask : ctype := CStruct [mem:
  ("bits", CArr (CInt 8) 128) ].

Definition cpumask_t : ctype := struct_cpumask.

Definition union_rcu_special : ctype := CUnion [mem:
  ("b", CStruct [mem:
    ("blocked", u8);
    ("need_qs", u8);
    ("exp_hint", u8);
    ("need_mb", u8) ]);
  ("s", u32) ].

Definition struct_timespec64 : ctype := CStruct [mem:
  ("tv_sec", time64_t);
  ("tv_nsec", CInt 8) ].

Definition struct_sched_info : ctype := CStruct [mem:
  ("pcount", CInt 8);
  ("run_delay", CInt 8);
  ("max_run_delay", CInt 8);
  ("min_run_delay", CInt 8);
  ("last_arrival", CInt 8);
  ("last_queued", CInt 8);
  ("max_run_delay_ts", struct_timespec64) ].

Definition struct_plist_node : ctype := CStruct [mem:
  ("prio", CInt 4);
  ("prio_list", struct_list_head);
  ("node_list", struct_list_head) ].

Definition __kernel_clockid_t : ctype := CInt 4.

Definition clockid_t : ctype := __kernel_clockid_t.

Definition enum_timespec_type : enum := Enum 4 [
  ("TT_NONE", 0);
  ("TT_NATIVE", 1);
  ("TT_COMPAT", 2)].

Definition struct_restart_block : ctype := CStruct [mem:
  ("arch_data", CInt 8);
  ("fn", CPtr "long int (*)(struct restart_block *)");
  ("", CUnion [mem:
    ("futex", CStruct [mem:
      ("uaddr", CPtr "u32");
      ("val", u32);
      ("flags", u32);
      ("bitset", u32);
      ("time", ktime_t);
      ("uaddr2", CPtr "u32") ]);
    ("nanosleep", CStruct [mem:
      ("clockid", clockid_t);
      ("type", enum_type enum_timespec_type);
      ("", CUnion [mem:
        ("rmtp", CPtr "struct __kernel_timespec");
        ("compat_rmtp", CPtr "struct old_timespec32") ]);
      ("expires", ktime_t) ]);
    ("poll", CStruct [mem:
      ("ufds", CPtr "struct pollfd");
      ("nfds", CInt 4);
      ("has_timeout", CInt 4);
      ("end_time", struct_timespec64) ]) ]) ].

Definition __kernel_pid_t : ctype := CInt 4.

Definition pid_t : ctype := __kernel_pid_t.

Definition struct_prev_cputime : ctype := CStruct [mem:
  ("utime", u64);
  ("stime", u64);
  ("lock", raw_spinlock_t) ].

Definition struct_seqcount : ctype := CStruct [mem:
  ("sequence", CInt 4) ].

Definition seqcount_t : ctype := struct_seqcount.

Definition enum_vtime_state : enum := Enum 4 [
  ("VTIME_INACTIVE", 0);
  ("VTIME_IDLE", 1);
  ("VTIME_SYS", 2);
  ("VTIME_USER", 3);
  ("VTIME_GUEST", 4)].

Definition struct_vtime : ctype := CStruct [mem:
  ("seqcount", seqcount_t);
  ("starttime", CInt 8);
  ("state", enum_type enum_vtime_state);
  ("cpu", CInt 4);
  ("utime", u64);
  ("stime", u64);
  ("gtime", u64) ].

Definition struct_timerqueue_head : ctype := CStruct [mem:
  ("rb_root", struct_rb_root_cached) ].

Definition struct_posix_cputimer_base : ctype := CStruct [mem:
  ("nextevt", u64);
  ("tqhead", struct_timerqueue_head) ].

Definition struct_posix_cputimers : ctype := CStruct [mem:
  ("bases", CArr struct_posix_cputimer_base 3);
  ("timers_active", CInt 4);
  ("expiry_active", CInt 4) ].

Definition struct_posix_cputimers_work : ctype := CStruct [mem:
  ("work", struct_callback_head);
  ("mutex", struct_mutex);
  ("scheduled", CInt 4) ].

Definition struct_sysv_sem : ctype := CStruct [mem:
  ("undo_list", CPtr "struct sem_undo_list") ].

Definition struct_sysv_shm : ctype := CStruct [mem:
  ("shm_clist", struct_list_head) ].

Definition sigset_t : ctype := CStruct [mem:
  ("sig", CArr (CInt 8) 1) ].

Definition struct_sigpending : ctype := CStruct [mem:
  ("list", struct_list_head);
  ("signal", sigset_t) ].

Definition __kernel_ulong_t : ctype := CInt 8.

Definition __kernel_size_t : ctype := __kernel_ulong_t.

Definition size_t : ctype := __kernel_size_t.

Definition struct_seccomp : ctype := CStruct [mem:
  ("mode", CInt 4);
  ("filter_count", atomic_t);
  ("filter", CPtr "struct seccomp_filter") ].

Definition struct_syscall_user_dispatch : ctype := CStruct [mem:
  ("selector", CPtr "char");
  ("offset", CInt 8);
  ("len", CInt 8);
  ("on_dispatch", CBool) ].

Definition struct_wake_q_node : ctype := CStruct [mem:
  ("next", CPtr "struct wake_q_node") ].

Definition struct_task_io_accounting : ctype := CStruct [mem:
  ("rchar", u64);
  ("wchar", u64);
  ("syscr", u64);
  ("syscw", u64);
  ("read_bytes", u64);
  ("write_bytes", u64);
  ("cancelled_write_bytes", u64) ].

Definition nodemask_t : ctype := CStruct [mem:
  ("bits", CArr (CInt 8) 16) ].

Definition struct_seqcount_spinlock : ctype := CStruct [mem:
  ("seqcount", seqcount_t) ].

Definition seqcount_spinlock_t : ctype := struct_seqcount_spinlock.

Definition struct_rseq_event : ctype := CStruct [mem:
  ("", CUnion [mem:
    ("all", u64);
    ("", CStruct [mem:
      ("", CUnion [mem:
        ("events", u32);
        ("", CStruct [mem:
          ("sched_switch", u8);
          ("ids_changed", u8);
          ("user_irq", u8) ]) ]);
      ("has_rseq", u8);
      ("__pad", u8);
      ("", CUnion [mem:
        ("error", u16);
        ("", CStruct [mem:
          ("fatal", u8);
          ("slowpath", u8) ]) ]) ]) ]) ].

Definition struct_rseq_ids : ctype := CStruct [mem:
  ("", CUnion [mem:
    ("cpu_cid", u64);
    ("", CStruct [mem:
      ("cpu_id", u32);
      ("mm_cid", u32) ]) ]);
  ("node_id", u32) ].

Definition struct_rseq_data : ctype := CStruct [mem:
  ("usrptr", CPtr "struct rseq");
  ("len", u32);
  ("sig", u32);
  ("event", struct_rseq_event);
  ("ids", struct_rseq_ids) ].

Definition struct_sched_mm_cid : ctype := CStruct [mem:
  ("active", CInt 4);
  ("cid", CInt 4);
  ("node", struct_hlist_node) ].

Definition struct_arch_tlbflush_unmap_batch : ctype := CStruct [mem:
  ("cpumask", struct_cpumask);
  ("unmapped_pages", CBool) ].

Definition struct_tlbflush_unmap_batch : ctype := CStruct [mem:
  ("arch", struct_arch_tlbflush_unmap_batch);
  ("flush_required", CBool);
  ("writable", CBool) ].

Definition struct_lazy_mmu_state : ctype := CStruct [mem:
  ("enable_count", u8);
  ("pause_count", u8) ].

Definition struct_latency_record : ctype := CStruct [mem:
  ("backtrace", CArr (CInt 8) 12);
  ("count", CInt 4);
  ("time", CInt 8);
  ("max", CInt 8) ].

Definition struct_kmap_ctrl : ctype := CStruct [mem: ].

Definition struct_llist_head : ctype := CStruct [mem:
  ("first", CPtr "struct llist_node") ].

Definition struct_da_monitor : ctype := CStruct [mem:
  ("monitoring", CBool);
  ("curr_state", CInt 4) ].

Definition struct_ltl_monitor : ctype := CStruct [mem: ].

Definition union_rv_task_monitor : ctype := CUnion [mem:
  ("da_mon", struct_da_monitor);
  ("ltl_mon", struct_ltl_monitor) ].

Definition union_unwind_task_id : ctype := CUnion [mem:
  ("", CStruct [mem:
    ("cpu", u32);
    ("cnt", u32) ]);
  ("id", u64) ].

Definition struct_unwind_task_info : ctype := CStruct [mem:
  ("unwind_mask", atomic_long_t);
  ("cache", CPtr "struct unwind_cache");
  ("work", struct_callback_head);
  ("id", union_unwind_task_id) ].

Definition struct_desc_struct : ctype := CStruct [mem:
  ("limit0", u16);
  ("base0", u16);
  ("base1", CBits 2 8);
  ("type", CBits 2 4);
  ("s", CBits 2 1);
  ("dpl", CBits 2 2);
  ("p", CBits 2 1);
  ("limit1", CBits 2 4);
  ("avl", CBits 2 1);
  ("l", CBits 2 1);
  ("d", CBits 2 1);
  ("g", CBits 2 1);
  ("base2", CBits 2 8) ].

Definition struct_thread_shstk : ctype := CStruct [mem:
  ("base", u64);
  ("size", u64) ].

Definition struct_thread_struct : ctype := CStruct [mem:
  ("tls_array", CArr struct_desc_struct 3);
  ("sp", CInt 8);
  ("es", CInt 2);
  ("ds", CInt 2);
  ("fsindex", CInt 2);
  ("gsindex", CInt 2);
  ("fsbase", CInt 8);
  ("gsbase", CInt 8);
  ("ptrace_bps", CArr (CPtr "struct perf_event") 4);
  ("virtual_dr6", CInt 8);
  ("ptrace_dr7", CInt 8);
  ("cr2", CInt 8);
  ("trap_nr", CInt 8);
  ("error_code", CInt 8);
  ("io_bitmap", CPtr "struct io_bitmap");
  ("iopl_emul", CInt 8);
  ("iopl_warn", CBits 4 1);
  ("pkru", u32);
  ("features", CInt 8);
  ("features_locked", CInt 8);
  ("shstk", struct_thread_shstk) ].

Definition struct_task_struct : ctype := CStruct [mem:
  ("thread_info", struct_thread_info);
  ("__state", CInt 4);
  ("saved_state", CInt 4);
  ("stack", CPtr "void");
  ("usage", refcount_t);
  ("flags", CInt 4);
  ("ptrace", CInt 4);
  ("on_cpu", CInt 4);
  ("wake_entry", struct___call_single_node);
  ("wakee_flips", CInt 4);
  ("wakee_flip_decay_ts", CInt 8);
  ("last_wakee", CPtr "struct task_struct");
  ("recent_used_cpu", CInt 4);
  ("wake_cpu", CInt 4);
  ("on_rq", CInt 4);
  ("prio", CInt 4);
  ("static_prio", CInt 4);
  ("normal_prio", CInt 4);
  ("rt_priority", CInt 4);
  ("se", struct_sched_entity);
  ("rt", struct_sched_rt_entity);
  ("dl", struct_sched_dl_entity);
  ("dl_server", CPtr "struct sched_dl_entity");
  ("scx", struct_sched_ext_entity);
  ("sched_class", CPtr "struct sched_class");
  ("core_node", struct_rb_node);
  ("core_cookie", CInt 8);
  ("core_occupation", CInt 4);
  ("sched_task_group", CPtr "struct task_group");
  ("sched_throttle_work", struct_callback_head);
  ("throttle_node", struct_list_head);
  ("throttled", CBool);
  ("uclamp_req", CArr struct_uclamp_se 2);
  ("uclamp", CArr struct_uclamp_se 2);
  ("", CBits 8 64);
  ("", CBits 8 64);
  ("", CBits 8 64);
  ("stats", struct_sched_statistics);
  ("preempt_notifiers", struct_hlist_head);
  ("btrace_seq", CInt 4);
  ("policy", CInt 4);
  ("max_allowed_capacity", CInt 8);
  ("nr_cpus_allowed", CInt 4);
  ("cpus_ptr", CPtr "cpumask_t");
  ("user_cpus_ptr", CPtr "cpumask_t");
  ("cpus_mask", cpumask_t);
  ("migration_pending", CPtr "void");
  ("migration_disabled", CInt 2);
  ("migration_flags", CInt 2);
  ("rcu_read_lock_nesting", CInt 4);
  ("rcu_read_unlock_special", union_rcu_special);
  ("rcu_node_entry", struct_list_head);
  ("rcu_blocked_node", CPtr "struct rcu_node");
  ("rcu_tasks_nvcsw", CInt 8);
  ("rcu_tasks_holdout", u8);
  ("rcu_tasks_idx", u8);
  ("rcu_tasks_idle_cpu", CInt 4);
  ("rcu_tasks_holdout_list", struct_list_head);
  ("rcu_tasks_exit_cpu", CInt 4);
  ("rcu_tasks_exit_list", struct_list_head);
  ("trc_reader_nesting", CInt 4);
  ("trc_reader_scp", CPtr "struct srcu_ctr");
  ("sched_info", struct_sched_info);
  ("tasks", struct_list_head);
  ("pushable_tasks", struct_plist_node);
  ("pushable_dl_tasks", struct_rb_node);
  ("mm", CPtr "struct mm_struct");
  ("active_mm", CPtr "struct mm_struct");
  ("exit_state", CInt 4);
  ("exit_code", CInt 4);
  ("exit_signal", CInt 4);
  ("pdeath_signal", CInt 4);
  ("jobctl", CInt 8);
  ("personality", CInt 4);
  ("sched_reset_on_fork", CBits 4 1);
  ("sched_contributes_to_load", CBits 4 1);
  ("sched_migrated", CBits 4 1);
  ("sched_task_hot", CBits 4 1);
  ("", CBits 8 28);
  ("sched_remote_wakeup", CBits 4 1);
  ("sched_rt_mutex", CBits 4 1);
  ("user_dumpable", CBits 4 1);
  ("in_execve", CBits 4 1);
  ("in_iowait", CBits 4 1);
  ("restore_sigmask", CBits 4 1);
  ("in_lru_fault", CBits 4 1);
  ("no_cgroup_migration", CBits 4 1);
  ("frozen", CBits 4 1);
  ("use_memdelay", CBits 4 1);
  ("in_memstall", CBits 4 1);
  ("in_eventfd", CBits 4 1);
  ("pasid_activated", CBits 4 1);
  ("reported_split_lock", CBits 4 1);
  ("in_thrashing", CBits 4 1);
  ("in_nf_duplicate", CBits 4 1);
  ("atomic_flags", CInt 8);
  ("restart_block", struct_restart_block);
  ("pid", pid_t);
  ("tgid", pid_t);
  ("stack_canary", CInt 8);
  ("real_parent", CPtr "struct task_struct");
  ("parent", CPtr "struct task_struct");
  ("children", struct_list_head);
  ("sibling", struct_list_head);
  ("group_leader", CPtr "struct task_struct");
  ("ptraced", struct_list_head);
  ("ptrace_entry", struct_list_head);
  ("thread_pid", CPtr "struct pid");
  ("pid_links", CArr struct_hlist_node 4);
  ("thread_node", struct_list_head);
  ("vfork_done", CPtr "struct completion");
  ("set_child_tid", CPtr "int");
  ("clear_child_tid", CPtr "int");
  ("worker_private", CPtr "void");
  ("utime", u64);
  ("stime", u64);
  ("gtime", u64);
  ("prev_cputime", struct_prev_cputime);
  ("vtime", struct_vtime);
  ("tick_dep_mask", atomic_t);
  ("nvcsw", CInt 8);
  ("nivcsw", CInt 8);
  ("start_time", u64);
  ("start_boottime", u64);
  ("min_flt", CInt 8);
  ("maj_flt", CInt 8);
  ("posix_cputimers", struct_posix_cputimers);
  ("posix_cputimers_work", struct_posix_cputimers_work);
  ("ptracer_cred", CPtr "struct cred");
  ("real_cred", CPtr "struct cred");
  ("cred", CPtr "struct cred");
  ("cached_requested_key", CPtr "struct key");
  ("comm", CArr (CInt 1) 16);
  ("nameidata", CPtr "struct nameidata");
  ("sysvsem", struct_sysv_sem);
  ("sysvshm", struct_sysv_shm);
  ("last_switch_count", CInt 8);
  ("last_switch_time", CInt 8);
  ("fs", CPtr "struct fs_struct");
  ("files", CPtr "struct files_struct");
  ("io_uring", CPtr "struct io_uring_task");
  ("io_uring_restrict", CPtr "struct io_restriction");
  ("nsproxy", CPtr "struct nsproxy");
  ("signal", CPtr "struct signal_struct");
  ("sighand", CPtr "struct sighand_struct");
  ("blocked", sigset_t);
  ("real_blocked", sigset_t);
  ("saved_sigmask", sigset_t);
  ("pending", struct_sigpending);
  ("sas_ss_sp", CInt 8);
  ("sas_ss_size", size_t);
  ("sas_ss_flags", CInt 4);
  ("task_works", CPtr "struct callback_head");
  ("audit_context", CPtr "struct audit_context");
  ("loginuid", kuid_t);
  ("sessionid", CInt 4);
  ("seccomp", struct_seccomp);
  ("syscall_dispatch", struct_syscall_user_dispatch);
  ("parent_exec_id", u64);
  ("self_exec_id", u64);
  ("alloc_lock", spinlock_t);
  ("pi_lock", raw_spinlock_t);
  ("wake_q", struct_wake_q_node);
  ("pi_waiters", struct_rb_root_cached);
  ("pi_top_task", CPtr "struct task_struct");
  ("pi_blocked_on", CPtr "struct rt_mutex_waiter");
  ("blocked_on", CPtr "struct mutex");
  ("blocker", CInt 8);
  ("in_ubsan", CInt 4);
  ("journal_info", CPtr "void");
  ("bio_list", CPtr "struct bio_list");
  ("plug", CPtr "struct blk_plug");
  ("reclaim_state", CPtr "struct reclaim_state");
  ("io_context", CPtr "struct io_context");
  ("capture_control", CPtr "struct capture_control");
  ("ptrace_message", CInt 8);
  ("last_siginfo", CPtr "kernel_siginfo_t");
  ("ioac", struct_task_io_accounting);
  ("psi_flags", CInt 4);
  ("acct_rss_mem1", u64);
  ("acct_vm_mem1", u64);
  ("acct_timexpd", u64);
  ("mems_allowed", nodemask_t);
  ("mems_allowed_seq", seqcount_spinlock_t);
  ("cpuset_mem_spread_rotor", CInt 4);
  ("cgroups", CPtr "struct css_set");
  ("cg_list", struct_list_head);
  ("closid", u32);
  ("rmid", u32);
  ("robust_list", CPtr "struct robust_list_head");
  ("compat_robust_list", CPtr "struct compat_robust_list_head");
  ("pi_state_list", struct_list_head);
  ("pi_state_cache", CPtr "struct futex_pi_state");
  ("futex_exit_mutex", struct_mutex);
  ("futex_state", CInt 4);
  ("perf_recursion", CArr u8 4);
  ("perf_event_ctxp", CPtr "struct perf_event_context");
  ("perf_event_mutex", struct_mutex);
  ("perf_event_list", struct_list_head);
  ("perf_ctx_data", CPtr "struct perf_ctx_data");
  ("mempolicy", CPtr "struct mempolicy");
  ("il_prev", CInt 2);
  ("il_weight", u8);
  ("pref_node_fork", CInt 2);
  ("numa_scan_seq", CInt 4);
  ("numa_scan_period", CInt 4);
  ("numa_scan_period_max", CInt 4);
  ("numa_preferred_nid", CInt 4);
  ("numa_migrate_retry", CInt 8);
  ("node_stamp", u64);
  ("last_task_numa_placement", u64);
  ("last_sum_exec_runtime", u64);
  ("numa_work", struct_callback_head);
  ("numa_group", CPtr "struct numa_group");
  ("numa_faults", CPtr "long unsigned int");
  ("total_numa_faults", CInt 8);
  ("numa_faults_locality", CArr (CInt 8) 3);
  ("numa_pages_migrated", CInt 8);
  ("rseq", struct_rseq_data);
  ("mm_cid", struct_sched_mm_cid);
  ("tlb_ubc", struct_tlbflush_unmap_batch);
  ("splice_pipe", CPtr "struct pipe_inode_info");
  ("task_frag", struct_page_frag);
  ("lazy_mmu_state", struct_lazy_mmu_state);
  ("delays", CPtr "struct task_delay_info");
  ("nr_dirtied", CInt 4);
  ("nr_dirtied_pause", CInt 4);
  ("dirty_paused_when", CInt 8);
  ("latency_record_count", CInt 4);
  ("latency_record", CArr struct_latency_record 32);
  ("timer_slack_ns", u64);
  ("default_timer_slack_ns", u64);
  ("curr_ret_stack", CInt 4);
  ("curr_ret_depth", CInt 4);
  ("ret_stack", CPtr "long unsigned int");
  ("ftrace_timestamp", CInt 8);
  ("ftrace_sleeptime", CInt 8);
  ("trace_overrun", atomic_t);
  ("tracing_graph_pause", atomic_t);
  ("trace_recursion", CInt 8);
  ("memcg_nr_pages_over_high", CInt 4);
  ("active_memcg", CPtr "struct mem_cgroup");
  ("objcg", CPtr "struct obj_cgroup");
  ("throttle_disk", CPtr "struct gendisk");
  ("utask", CPtr "struct uprobe_task");
  ("sequential_io", CInt 4);
  ("sequential_io_avg", CInt 4);
  ("kmap_ctrl", struct_kmap_ctrl);
  ("rcu", struct_callback_head);
  ("rcu_users", refcount_t);
  ("pagefault_disabled", CInt 4);
  ("oom_reaper_list", CPtr "struct task_struct");
  ("oom_reaper_timer", struct_timer_list);
  ("stack_vm_area", CPtr "struct vm_struct");
  ("stack_refcount", refcount_t);
  ("patch_state", CInt 4);
  ("security", CPtr "void");
  ("bpf_storage", CPtr "struct bpf_local_storage");
  ("bpf_ctx", CPtr "struct bpf_run_ctx");
  ("bpf_net_context", CPtr "struct bpf_net_context");
  ("kstack_offset", u32);
  ("mce_vaddr", CPtr "void");
  ("mce_kflags", __u64);
  ("mce_addr", u64);
  ("mce_ripv", CBits 8 1);
  ("mce_whole_page", CBits 8 1);
  ("__mce_reserved", CBits 8 62);
  ("mce_kill_me", struct_callback_head);
  ("mce_count", CInt 4);
  ("kretprobe_instances", struct_llist_head);
  ("rethooks", struct_llist_head);
  ("l1d_flush_kill", struct_callback_head);
  ("rv", CArr union_rv_task_monitor 2);
  ("user_event_mm", CPtr "struct user_event_mm");
  ("unwind_info", struct_unwind_task_info);
  ("thread", struct_thread_struct);
  ("", CBits 8 64);
  ("", CBits 8 64);
  ("", CBits 8 64);
  ("", CBits 8 64);
  ("", CBits 8 64) ].

Definition struct_percpu_ref : ctype := CStruct [mem:
  ("percpu_count_ptr", CInt 8);
  ("data", CPtr "struct percpu_ref_data") ].

Definition struct_rcu_work : ctype := CStruct [mem:
  ("work", struct_work_struct);
  ("rcu", struct_callback_head);
  ("wq", CPtr "struct workqueue_struct") ].

Definition struct_cgroup_subsys_state : ctype := CStruct [mem:
  ("cgroup", CPtr "struct cgroup");
  ("ss", CPtr "struct cgroup_subsys");
  ("refcnt", struct_percpu_ref);
  ("rstat_cpu", CPtr "struct css_rstat_cpu");
  ("sibling", struct_list_head);
  ("children", struct_list_head);
  ("id", CInt 4);
  ("flags", CInt 4);
  ("serial_nr", u64);
  ("online_cnt", atomic_t);
  ("destroy_work", struct_work_struct);
  ("destroy_rwork", struct_rcu_work);
  ("parent", CPtr "struct cgroup_subsys_state");
  ("nr_descendants", CInt 4);
  ("rstat_flush_next", CPtr "struct cgroup_subsys_state") ].

Definition struct_cgroup_file : ctype := CStruct [mem:
  ("kn", CPtr "struct kernfs_node");
  ("notified_at", CInt 8);
  ("notify_timer", struct_timer_list) ].

Definition struct_cacheline_padding : ctype := CStruct [mem:
  ("x", CArr (CInt 1) 0) ].

Definition struct_task_cputime : ctype := CStruct [mem:
  ("stime", u64);
  ("utime", u64);
  ("sum_exec_runtime", CInt 8) ].

Definition struct_cgroup_base_stat : ctype := CStruct [mem:
  ("cputime", struct_task_cputime);
  ("forceidle_sum", u64);
  ("ntime", u64) ].

Definition struct_cgroup_bpf : ctype := CStruct [mem:
  ("effective", CArr (CPtr "struct bpf_prog_array") 38);
  ("progs", CArr struct_hlist_head 38);
  ("flags", CArr u8 38);
  ("revisions", CArr u64 38);
  ("storages", struct_list_head);
  ("inactive", CPtr "struct bpf_prog_array");
  ("refcnt", struct_percpu_ref);
  ("release_work", struct_work_struct) ].

Definition struct_cgroup_freezer_state : ctype := CStruct [mem:
  ("freeze", CBool);
  ("e_freeze", CBool);
  ("nr_frozen_descendants", CInt 4);
  ("nr_frozen_tasks", CInt 4);
  ("freeze_seq", seqcount_spinlock_t);
  ("freeze_start_nsec", u64);
  ("frozen_nsec", u64) ].

Definition struct_cgroup : ctype := CStruct [mem:
  ("self", struct_cgroup_subsys_state);
  ("flags", CInt 8);
  ("level", CInt 4);
  ("max_depth", CInt 4);
  ("nr_descendants", CInt 4);
  ("nr_dying_descendants", CInt 4);
  ("max_descendants", CInt 4);
  ("nr_populated_csets", CInt 4);
  ("nr_populated_domain_children", CInt 4);
  ("nr_populated_threaded_children", CInt 4);
  ("nr_threaded_children", CInt 4);
  ("kill_seq", CInt 4);
  ("kn", CPtr "struct kernfs_node");
  ("procs_file", struct_cgroup_file);
  ("events_file", struct_cgroup_file);
  ("psi_files", CArr struct_cgroup_file 3);
  ("subtree_control", u32);
  ("subtree_ss_mask", u32);
  ("old_subtree_control", u32);
  ("old_subtree_ss_mask", u32);
  ("subsys", CArr (CPtr "struct cgroup_subsys_state") 15);
  ("nr_dying_subsys", CArr (CInt 4) 15);
  ("root", CPtr "struct cgroup_root");
  ("cset_links", struct_list_head);
  ("e_csets", CArr struct_list_head 15);
  ("dom_cgrp", CPtr "struct cgroup");
  ("old_dom_cgrp", CPtr "struct cgroup");
  ("rstat_base_cpu", CPtr "struct cgroup_rstat_base_cpu");
  ("", CBits 8 64);
  ("", CBits 8 64);
  ("", CBits 8 64);
  ("", CBits 8 64);
  ("", CBits 8 64);
  ("", CBits 8 64);
  ("", CBits 8 64);
  ("_pad_", struct_cacheline_padding);
  ("last_bstat", struct_cgroup_base_stat);
  ("bstat", struct_cgroup_base_stat);
  ("prev_cputime", struct_prev_cputime);
  ("pidlists", struct_list_head);
  ("pidlist_mutex", struct_mutex);
  ("offline_waitq", wait_queue_head_t);
  ("finish_destroy_work", struct_work_struct);
  ("release_agent_work", struct_work_struct);
  ("psi", CPtr "struct psi_group");
  ("bpf", struct_cgroup_bpf);
  ("freezer", struct_cgroup_freezer_state);
  ("bpf_cgrp_storage", CPtr "struct bpf_local_storage");
  ("", CUnion [mem:
    ("", CStruct [mem:
      ("__empty_ancestors", CStruct [mem: ]);
      ("ancestors", CArr (CPtr "struct cgroup") 0) ]);
    ("", CStruct [mem:
      ("_root_ancestor", CPtr "struct cgroup");
      ("", CStruct [mem:
        ("__empty__low_ancestors", CStruct [mem: ]);
        ("_low_ancestors", CArr (CPtr "struct cgroup") 0) ]) ]) ]);
  ("", CBits 8 64);
  ("", CBits 8 64);
  ("", CBits 8 64) ].

Definition struct_rlimit : ctype := CStruct [mem:
  ("rlim_cur", __kernel_ulong_t);
  ("rlim_max", __kernel_ulong_t) ].

Definition struct_linux_binprm : ctype := CStruct [mem:
  ("vma", CPtr "struct vm_area_struct");
  ("vma_pages", CInt 8);
  ("argmin", CInt 8);
  ("mm", CPtr "struct mm_struct");
  ("p", CInt 8);
  ("have_execfd", CBits 4 1);
  ("execfd_creds", CBits 4 1);
  ("secureexec", CBits 4 1);
  ("point_of_no_return", CBits 4 1);
  ("comm_from_dentry", CBits 4 1);
  ("is_check", CBits 4 1);
  ("executable", CPtr "struct file");
  ("interpreter", CPtr "struct file");
  ("file", CPtr "struct file");
  ("cred", CPtr "struct cred");
  ("unsafe", CInt 4);
  ("per_clear", CInt 4);
  ("argc", CInt 4);
  ("envc", CInt 4);
  ("filename", CPtr "char");
  ("interp", CPtr "char");
  ("fdpath", CPtr "char");
  ("interp_flags", CInt 4);
  ("execfd", CInt 4);
  ("exec", CInt 8);
  ("rlim_stack", struct_rlimit);
  ("buf", CArr (CInt 1) 256) ].

Definition struct_seq_file : ctype := CStruct [mem:
  ("buf", CPtr "char");
  ("size", size_t);
  ("from", size_t);
  ("count", size_t);
  ("pad_until", size_t);
  ("index", loff_t);
  ("read_pos", loff_t);
  ("lock", struct_mutex);
  ("op", CPtr "struct seq_operations");
  ("poll_event", CInt 4);
  ("file", CPtr "struct file");
  ("private", CPtr "void") ].
