(* ===== verification/VmlinuxDrm.v ===== *)
(** * More of [bpf/vmlinux.h]

    The DRM objects behind the file the traced [drm_ioctl] is called on.
    Transcribed like [Vmlinux], closed under by-value containment; a pointee is
    a name. Unnamed bit-fields are the padding the header spells out. *)

From S2P Require Import Prelude.
From S2P Require Import CLayout.
From S2P Require Import Vmlinux.
From S2P Require Import VmlinuxBpf.
From S2P Require Import VmlinuxNet.
From S2P Require Import VmlinuxTask.

Local Open Scope Z_scope.

Definition drm_magic_t : ctype := CInt 4.

Definition struct_idr : ctype := CStruct [mem:
  ("idr_rt", struct_xarray);
  ("idr_base", CInt 4);
  ("idr_next", CInt 4) ].

Definition struct_drm_prime_file_private : ctype := CStruct [mem:
  ("lock", struct_mutex);
  ("dmabufs", struct_rb_root);
  ("handles", struct_rb_root) ].

Definition struct_drm_file : ctype := CStruct [mem:
  ("authenticated", CBool);
  ("stereo_allowed", CBool);
  ("universal_planes", CBool);
  ("atomic", CBool);
  ("aspect_ratio_allowed", CBool);
  ("writeback_connectors", CBool);
  ("plane_color_pipeline", CBool);
  ("was_master", CBool);
  ("is_master", CBool);
  ("supports_virtualized_cursor_plane", CBool);
  ("master", CPtr "struct drm_master");
  ("master_lookup_lock", spinlock_t);
  ("pid", CPtr "struct pid");
  ("client_id", u64);
  ("magic", drm_magic_t);
  ("lhead", struct_list_head);
  ("minor", CPtr "struct drm_minor");
  ("object_idr", struct_idr);
  ("table_lock", spinlock_t);
  ("syncobj_xa", struct_xarray);
  ("filp", CPtr "struct file");
  ("driver_priv", CPtr "void");
  ("fbs", struct_list_head);
  ("fbs_lock", struct_mutex);
  ("blobs", struct_list_head);
  ("event_wait", wait_queue_head_t);
  ("pending_event_list", struct_list_head);
  ("event_list", struct_list_head);
  ("event_space", CInt 4);
  ("event_read_lock", struct_mutex);
  ("prime", struct_drm_prime_file_private);
  ("client_name", CPtr "char");
  ("client_name_lock", struct_mutex);
  ("debugfs_client", CPtr "struct dentry") ].

Definition struct_drm_minor : ctype := CStruct [mem:
  ("index", CInt 4);
  ("type", CInt 4);
  ("kdev", CPtr "struct device");
  ("dev", CPtr "struct drm_device");
  ("debugfs_symlink", CPtr "struct dentry");
  ("debugfs_root", CPtr "struct dentry") ].

Definition struct_kref : ctype := CStruct [mem:
  ("refcount", refcount_t) ].

Definition struct_ww_mutex : ctype := CStruct [mem:
  ("base", struct_mutex);
  ("ctx", CPtr "struct ww_acquire_ctx") ].

Definition struct_drm_modeset_lock : ctype := CStruct [mem:
  ("mutex", struct_ww_mutex);
  ("head", struct_list_head) ].

Definition struct_ida : ctype := CStruct [mem:
  ("xa", struct_xarray) ].

Definition struct_delayed_work : ctype := CStruct [mem:
  ("work", struct_work_struct);
  ("timer", struct_timer_list);
  ("wq", CPtr "struct workqueue_struct");
  ("cpu", CInt 4) ].

Definition uint32_t : ctype := u32.

Definition struct_drm_mode_config : ctype := CStruct [mem:
  ("mutex", struct_mutex);
  ("connection_mutex", struct_drm_modeset_lock);
  ("acquire_ctx", CPtr "struct drm_modeset_acquire_ctx");
  ("idr_mutex", struct_mutex);
  ("object_idr", struct_idr);
  ("tile_idr", struct_idr);
  ("fb_lock", struct_mutex);
  ("num_fb", CInt 4);
  ("fb_list", struct_list_head);
  ("connector_list_lock", spinlock_t);
  ("num_connector", CInt 4);
  ("connector_ida", struct_ida);
  ("connector_list", struct_list_head);
  ("connector_free_list", struct_llist_head);
  ("connector_free_work", struct_work_struct);
  ("num_encoder", CInt 4);
  ("encoder_list", struct_list_head);
  ("num_total_plane", CInt 4);
  ("plane_list", struct_list_head);
  ("panic_lock", struct_raw_spinlock);
  ("num_colorop", CInt 4);
  ("colorop_list", struct_list_head);
  ("num_crtc", CInt 4);
  ("crtc_list", struct_list_head);
  ("property_list", struct_list_head);
  ("privobj_list", struct_list_head);
  ("min_width", CInt 4);
  ("min_height", CInt 4);
  ("max_width", CInt 4);
  ("max_height", CInt 4);
  ("funcs", CPtr "struct drm_mode_config_funcs");
  ("poll_enabled", CBool);
  ("poll_running", CBool);
  ("delayed_event", CBool);
  ("output_poll_work", struct_delayed_work);
  ("blob_lock", struct_mutex);
  ("property_blob_list", struct_list_head);
  ("edid_property", CPtr "struct drm_property");
  ("dpms_property", CPtr "struct drm_property");
  ("path_property", CPtr "struct drm_property");
  ("tile_property", CPtr "struct drm_property");
  ("panel_type_property", CPtr "struct drm_property");
  ("link_status_property", CPtr "struct drm_property");
  ("plane_type_property", CPtr "struct drm_property");
  ("prop_src_x", CPtr "struct drm_property");
  ("prop_src_y", CPtr "struct drm_property");
  ("prop_src_w", CPtr "struct drm_property");
  ("prop_src_h", CPtr "struct drm_property");
  ("prop_crtc_x", CPtr "struct drm_property");
  ("prop_crtc_y", CPtr "struct drm_property");
  ("prop_crtc_w", CPtr "struct drm_property");
  ("prop_crtc_h", CPtr "struct drm_property");
  ("prop_fb_id", CPtr "struct drm_property");
  ("prop_in_fence_fd", CPtr "struct drm_property");
  ("prop_out_fence_ptr", CPtr "struct drm_property");
  ("prop_crtc_id", CPtr "struct drm_property");
  ("prop_fb_damage_clips", CPtr "struct drm_property");
  ("prop_active", CPtr "struct drm_property");
  ("prop_mode_id", CPtr "struct drm_property");
  ("prop_vrr_enabled", CPtr "struct drm_property");
  ("dvi_i_subconnector_property", CPtr "struct drm_property");
  ("dvi_i_select_subconnector_property", CPtr "struct drm_property");
  ("dp_subconnector_property", CPtr "struct drm_property");
  ("tv_subconnector_property", CPtr "struct drm_property");
  ("tv_select_subconnector_property", CPtr "struct drm_property");
  ("legacy_tv_mode_property", CPtr "struct drm_property");
  ("tv_mode_property", CPtr "struct drm_property");
  ("tv_left_margin_property", CPtr "struct drm_property");
  ("tv_right_margin_property", CPtr "struct drm_property");
  ("tv_top_margin_property", CPtr "struct drm_property");
  ("tv_bottom_margin_property", CPtr "struct drm_property");
  ("tv_brightness_property", CPtr "struct drm_property");
  ("tv_contrast_property", CPtr "struct drm_property");
  ("tv_flicker_reduction_property", CPtr "struct drm_property");
  ("tv_overscan_property", CPtr "struct drm_property");
  ("tv_saturation_property", CPtr "struct drm_property");
  ("tv_hue_property", CPtr "struct drm_property");
  ("scaling_mode_property", CPtr "struct drm_property");
  ("aspect_ratio_property", CPtr "struct drm_property");
  ("content_type_property", CPtr "struct drm_property");
  ("degamma_lut_property", CPtr "struct drm_property");
  ("degamma_lut_size_property", CPtr "struct drm_property");
  ("ctm_property", CPtr "struct drm_property");
  ("gamma_lut_property", CPtr "struct drm_property");
  ("gamma_lut_size_property", CPtr "struct drm_property");
  ("suggested_x_property", CPtr "struct drm_property");
  ("suggested_y_property", CPtr "struct drm_property");
  ("non_desktop_property", CPtr "struct drm_property");
  ("panel_orientation_property", CPtr "struct drm_property");
  ("writeback_fb_id_property", CPtr "struct drm_property");
  ("writeback_pixel_formats_property", CPtr "struct drm_property");
  ("writeback_out_fence_ptr_property", CPtr "struct drm_property");
  ("hdr_output_metadata_property", CPtr "struct drm_property");
  ("content_protection_property", CPtr "struct drm_property");
  ("hdcp_content_type_property", CPtr "struct drm_property");
  ("preferred_depth", uint32_t);
  ("prefer_shadow", uint32_t);
  ("quirk_addfb_prefer_xbgr_30bpp", CBool);
  ("quirk_addfb_prefer_host_byte_order", CBool);
  ("async_page_flip", CBool);
  ("fb_modifiers_not_supported", CBool);
  ("normalize_zpos", CBool);
  ("modifiers_property", CPtr "struct drm_property");
  ("async_modifiers_property", CPtr "struct drm_property");
  ("size_hints_property", CPtr "struct drm_property");
  ("cursor_width", uint32_t);
  ("cursor_height", uint32_t);
  ("suspend_state", CPtr "struct drm_atomic_state");
  ("helper_private", CPtr "struct drm_mode_config_helper_funcs") ].

Definition enum_switch_power_state : enum := Enum 4 [
  ("DRM_SWITCH_POWER_ON", 0);
  ("DRM_SWITCH_POWER_OFF", 1);
  ("DRM_SWITCH_POWER_CHANGING", 2);
  ("DRM_SWITCH_POWER_DYNAMIC_OFF", 3)].

Definition struct_drm_device : ctype := CStruct [mem:
  ("if_version", CInt 4);
  ("ref", struct_kref);
  ("dev", CPtr "struct device");
  ("dma_dev", CPtr "struct device");
  ("managed", CStruct [mem:
    ("resources", struct_list_head);
    ("final_kfree", CPtr "void");
    ("lock", spinlock_t) ]);
  ("driver", CPtr "struct drm_driver");
  ("dev_private", CPtr "void");
  ("primary", CPtr "struct drm_minor");
  ("render", CPtr "struct drm_minor");
  ("accel", CPtr "struct drm_minor");
  ("registered", CBool);
  ("master", CPtr "struct drm_master");
  ("huge_mnt", CPtr "struct vfsmount");
  ("driver_features", u32);
  ("unplugged", CBool);
  ("anon_inode", CPtr "struct inode");
  ("unique", CPtr "char");
  ("master_mutex", struct_mutex);
  ("open_count", atomic_t);
  ("filelist_mutex", struct_mutex);
  ("filelist", struct_list_head);
  ("filelist_internal", struct_list_head);
  ("clientlist_mutex", struct_mutex);
  ("clientlist", struct_list_head);
  ("client_sysrq_list", struct_list_head);
  ("vblank_disable_immediate", CBool);
  ("vblank", CPtr "struct drm_vblank_crtc");
  ("vblank_time_lock", spinlock_t);
  ("vbl_lock", spinlock_t);
  ("max_vblank_count", u32);
  ("vblank_event_list", struct_list_head);
  ("event_lock", spinlock_t);
  ("num_crtcs", CInt 4);
  ("mode_config", struct_drm_mode_config);
  ("object_name_lock", struct_mutex);
  ("object_name_idr", struct_idr);
  ("vma_offset_manager", CPtr "struct drm_vma_offset_manager");
  ("vram_mm", CPtr "struct drm_vram_mm");
  ("switch_power_state", enum_type enum_switch_power_state);
  ("fb_helper", CPtr "struct drm_fb_helper");
  ("debugfs_root", CPtr "struct dentry");
  ("gem_lru_mutex", struct_mutex) ].

Definition struct_drm_driver : ctype := CStruct [mem:
  ("load", CPtr "int (*)(struct drm_device *, long unsigned int)");
  ("open", CPtr "int (*)(struct drm_device *, struct drm_file *)");
  ("postclose", CPtr "void (*)(struct drm_device *, struct drm_file *)");
  ("unload", CPtr "void (*)(struct drm_device *)");
  ("release", CPtr "void (*)(struct drm_device *)");
  ("master_set", CPtr "void (*)(struct drm_device *, struct drm_file *, bool)");
  ("master_drop", CPtr "void (*)(struct drm_device *, struct drm_file *)");
  ("debugfs_init", CPtr "void (*)(struct drm_minor *)");
  ("gem_create_object", CPtr "struct drm_gem_object * (*)(struct drm_device *, size_t)");
  ("prime_handle_to_fd", CPtr "int (*)(struct drm_device *, struct drm_file *, uint32_t, uint32_t, int *)");
  ("prime_fd_to_handle", CPtr "int (*)(struct drm_device *, struct drm_file *, int, uint32_t *)");
  ("gem_prime_import", CPtr "struct drm_gem_object * (*)(struct drm_device *, struct dma_buf *)");
  ("gem_prime_import_sg_table", CPtr "struct drm_gem_object * (*)(struct drm_device *, struct dma_buf_attachment *, struct sg_table *)");
  ("dumb_create", CPtr "int (*)(struct drm_file *, struct drm_device *, struct drm_mode_create_dumb *)");
  ("dumb_map_offset", CPtr "int (*)(struct drm_file *, struct drm_device *, uint32_t, uint64_t *)");
  ("fbdev_probe", CPtr "int (*)(struct drm_fb_helper *, struct drm_fb_helper_surface_size *)");
  ("show_fdinfo", CPtr "void (*)(struct drm_printer *, struct drm_file *)");
  ("major", CInt 4);
  ("minor", CInt 4);
  ("patchlevel", CInt 4);
  ("name", CPtr "char");
  ("desc", CPtr "char");
  ("driver_features", u32);
  ("ioctls", CPtr "struct drm_ioctl_desc");
  ("num_ioctls", CInt 4);
  ("fops", CPtr "struct file_operations") ].

Definition enum_drm_ioctl_flags : enum := Enum 4 [
  ("DRM_AUTH", 1);
  ("DRM_MASTER", 2);
  ("DRM_ROOT_ONLY", 4);
  ("DRM_RENDER_ALLOW", 32)].

Definition struct_drm_ioctl_desc : ctype := CStruct [mem:
  ("cmd", CInt 4);
  ("flags", enum_type enum_drm_ioctl_flags);
  ("func", CPtr "drm_ioctl_t");
  ("name", CPtr "char") ].

Definition struct_drm_mm_node : ctype := CStruct [mem:
  ("color", CInt 8);
  ("start", u64);
  ("size", u64);
  ("mm", CPtr "struct drm_mm");
  ("node_list", struct_list_head);
  ("hole_stack", struct_list_head);
  ("rb", struct_rb_node);
  ("rb_hole_size", struct_rb_node);
  ("rb_hole_addr", struct_rb_node);
  ("__subtree_last", u64);
  ("hole_size", u64);
  ("subtree_max_hole", u64);
  ("flags", CInt 8) ].

Definition struct_drm_vma_offset_node : ctype := CStruct [mem:
  ("vm_lock", rwlock_t);
  ("vm_node", struct_drm_mm_node);
  ("vm_files", struct_rb_root);
  ("driver_private", CPtr "void") ].

Definition struct_dma_resv : ctype := CStruct [mem:
  ("lock", struct_ww_mutex);
  ("fences", CPtr "struct dma_resv_list") ].

Definition struct_drm_gem_object : ctype := CStruct [mem:
  ("refcount", struct_kref);
  ("handle_count", CInt 4);
  ("dev", CPtr "struct drm_device");
  ("filp", CPtr "struct file");
  ("vma_node", struct_drm_vma_offset_node);
  ("size", size_t);
  ("name", CInt 4);
  ("dma_buf", CPtr "struct dma_buf");
  ("import_attach", CPtr "struct dma_buf_attachment");
  ("resv", CPtr "struct dma_resv");
  ("_resv", struct_dma_resv);
  ("gpuva", CStruct [mem:
    ("list", struct_list_head);
    ("lock", struct_mutex) ]);
  ("funcs", CPtr "struct drm_gem_object_funcs");
  ("lru_node", struct_list_head);
  ("lru", CPtr "struct drm_gem_lru") ].
