(* ===== verification/VmlinuxFs.v ===== *)
(** * More of [bpf/vmlinux.h]

    The structs behind the pointers of [struct file] and [struct inode] that the compiled program records (its BTF section names them): file operations, I/O control blocks, memory areas, locks, pipes. A line that is only a tag, like [union pipe_index;] in [struct pipe_inode_info], declares no member: the compiler is not asked for the Microsoft extension that would make it one ([gen.go]).
    Transcribed like [Vmlinux], closed under by-value containment; a pointee is
    a name. Unnamed bit-fields are the padding the header spells out. *)

From S2P Require Import Prelude.
From S2P Require Import CLayout.
From S2P Require Import Vmlinux.
From S2P Require Import VmlinuxBpf.
From S2P Require Import VmlinuxNet.
From S2P Require Import VmlinuxTask.
From S2P Require Import VmlinuxDrm.

Local Open Scope Z_scope.

Definition fop_flags_t : ctype := CInt 4.

Definition struct_file_operations : ctype := CStruct [mem:
  ("owner", CPtr "struct module");
  ("fop_flags", fop_flags_t);
  ("llseek", CPtr "loff_t (*)(struct file *, loff_t, int)");
  ("read", CPtr "ssize_t (*)(struct file *, char *, size_t, loff_t *)");
  ("write", CPtr "ssize_t (*)(struct file *, const char *, size_t, loff_t *)");
  ("read_iter", CPtr "ssize_t (*)(struct kiocb *, struct iov_iter *)");
  ("write_iter", CPtr "ssize_t (*)(struct kiocb *, struct iov_iter *)");
  ("iopoll", CPtr "int (*)(struct kiocb *, struct io_comp_batch *, unsigned int)");
  ("iterate_shared", CPtr "int (*)(struct file *, struct dir_context *)");
  ("poll", CPtr "__poll_t (*)(struct file *, struct poll_table_struct *)");
  ("unlocked_ioctl", CPtr "long int (*)(struct file *, unsigned int, long unsigned int)");
  ("compat_ioctl", CPtr "long int (*)(struct file *, unsigned int, long unsigned int)");
  ("mmap", CPtr "int (*)(struct file *, struct vm_area_struct *)");
  ("open", CPtr "int (*)(struct inode *, struct file *)");
  ("flush", CPtr "int (*)(struct file *, fl_owner_t)");
  ("release", CPtr "int (*)(struct inode *, struct file *)");
  ("fsync", CPtr "int (*)(struct file *, loff_t, loff_t, int)");
  ("fasync", CPtr "int (*)(int, struct file *, int)");
  ("lock", CPtr "int (*)(struct file *, int, struct file_lock *)");
  ("get_unmapped_area", CPtr "long unsigned int (*)(struct file *, long unsigned int, long unsigned int, long unsigned int, long unsigned int)");
  ("check_flags", CPtr "int (*)(int)");
  ("flock", CPtr "int (*)(struct file *, int, struct file_lock *)");
  ("splice_write", CPtr "ssize_t (*)(struct pipe_inode_info *, struct file *, loff_t *, size_t, unsigned int)");
  ("splice_read", CPtr "ssize_t (*)(struct file *, loff_t *, struct pipe_inode_info *, size_t, unsigned int)");
  ("splice_eof", CPtr "void (*)(struct file *)");
  ("setlease", CPtr "int (*)(struct file *, int, struct file_lease **, void **)");
  ("fallocate", CPtr "long int (*)(struct file *, int, loff_t, loff_t)");
  ("show_fdinfo", CPtr "void (*)(struct seq_file *, struct file *)");
  ("copy_file_range", CPtr "ssize_t (*)(struct file *, loff_t, struct file *, loff_t, size_t, unsigned int)");
  ("remap_file_range", CPtr "loff_t (*)(struct file *, loff_t, struct file *, loff_t, loff_t, unsigned int)");
  ("fadvise", CPtr "int (*)(struct file *, loff_t, loff_t, int)");
  ("uring_cmd", CPtr "int (*)(struct io_uring_cmd *, unsigned int)");
  ("uring_cmd_iopoll", CPtr "int (*)(struct io_uring_cmd *, struct io_comp_batch *, unsigned int)");
  ("mmap_prepare", CPtr "int (*)(struct vm_area_desc *)") ].

Definition struct_kiocb : ctype := CStruct [mem:
  ("ki_filp", CPtr "struct file");
  ("ki_pos", loff_t);
  ("ki_complete", CPtr "void (*)(struct kiocb *, long int)");
  ("private", CPtr "void");
  ("ki_flags", CInt 4);
  ("ki_ioprio", u16);
  ("ki_write_stream", u8);
  ("ki_waitq", CPtr "struct wait_page_queue") ].

Definition struct_iovec : ctype := CStruct [mem:
  ("iov_base", CPtr "void");
  ("iov_len", __kernel_size_t) ].

Definition struct_iov_iter : ctype := CStruct [mem:
  ("iter_type", u8);
  ("nofault", CBool);
  ("data_source", CBool);
  ("iov_offset", size_t);
  ("", CUnion [mem:
    ("__ubuf_iovec", struct_iovec);
    ("", CStruct [mem:
      ("", CUnion [mem:
        ("__iov", CPtr "struct iovec");
        ("kvec", CPtr "struct kvec");
        ("bvec", CPtr "struct bio_vec");
        ("folioq", CPtr "struct folio_queue");
        ("xarray", CPtr "struct xarray");
        ("ubuf", CPtr "void") ]);
      ("count", size_t) ]) ]);
  ("", CUnion [mem:
    ("nr_segs", CInt 8);
    ("folioq_slot", u8);
    ("xarray_start", loff_t) ]) ].

Definition struct_rq_list : ctype := CStruct [mem:
  ("head", CPtr "struct request");
  ("tail", CPtr "struct request") ].

Definition struct_io_comp_batch : ctype := CStruct [mem:
  ("req_list", struct_rq_list);
  ("need_ts", CBool);
  ("complete", CPtr "void (*)(struct io_comp_batch *)");
  ("poll_ctx", CPtr "void") ].

Definition filldir_t : ctype := CPtr "function".

Definition struct_dir_context : ctype := CStruct [mem:
  ("actor", filldir_t);
  ("pos", loff_t);
  ("count", CInt 4);
  ("dt_flags_mask", CInt 4) ].

Definition poll_queue_proc : ctype := CPtr "function".

Definition __poll_t : ctype := CInt 4.

Definition struct_poll_table_struct : ctype := CStruct [mem:
  ("_qproc", poll_queue_proc);
  ("_key", __poll_t) ].

Definition pgprotval_t : ctype := CInt 8.

Definition struct_pgprot : ctype := CStruct [mem:
  ("pgprot", pgprotval_t) ].

Definition pgprot_t : ctype := struct_pgprot.

Definition vm_flags_t : ctype := CInt 8.

Definition vma_flags_t : ctype := CStruct [mem:
  ("__vma_flags", CArr (CInt 8) 1) ].

Definition struct_vm_userfaultfd_ctx : ctype := CStruct [mem:
  ("ctx", CPtr "struct userfaultfd_ctx") ].

Definition struct_vm_area_struct : ctype := CStruct [mem:
  ("", CUnion [mem:
    ("", CStruct [mem:
      ("vm_start", CInt 8);
      ("vm_end", CInt 8) ]);
    ("vm_freeptr", freeptr_t) ]);
  ("vm_mm", CPtr "struct mm_struct");
  ("vm_page_prot", pgprot_t);
  ("", CUnion [mem:
    ("vm_flags", vm_flags_t);
    ("flags", vma_flags_t) ]);
  ("vm_lock_seq", CInt 4);
  ("anon_vma_chain", struct_list_head);
  ("anon_vma", CPtr "struct anon_vma");
  ("vm_ops", CPtr "struct vm_operations_struct");
  ("vm_pgoff", CInt 8);
  ("vm_file", CPtr "struct file");
  ("vm_private_data", CPtr "void");
  ("swap_readahead_info", atomic_long_t);
  ("vm_policy", CPtr "struct mempolicy");
  ("numab_state", CPtr "struct vma_numab_state");
  ("vm_refcnt", refcount_t);
  ("shared", CStruct [mem:
    ("rb", struct_rb_node);
    ("rb_subtree_last", CInt 8) ]);
  ("anon_name", CPtr "struct anon_vma_name");
  ("vm_userfaultfd_ctx", struct_vm_userfaultfd_ctx);
  ("pfnmap_track_ctx", CPtr "struct pfnmap_track_ctx") ].

Definition fl_owner_t : ctype := CPtr "void".

Definition struct_file_lock_core : ctype := CStruct [mem:
  ("flc_blocker", CPtr "struct file_lock_core");
  ("flc_list", struct_list_head);
  ("flc_link", struct_hlist_node);
  ("flc_blocked_requests", struct_list_head);
  ("flc_blocked_member", struct_list_head);
  ("flc_owner", fl_owner_t);
  ("flc_flags", CInt 4);
  ("flc_type", CInt 1);
  ("flc_pid", pid_t);
  ("flc_link_cpu", CInt 4);
  ("flc_wait", wait_queue_head_t);
  ("flc_file", CPtr "struct file") ].

Definition struct_nfs_lock_info : ctype := CStruct [mem:
  ("state", u32);
  ("owner", CPtr "struct nlm_lockowner");
  ("list", struct_list_head) ].

Definition struct_nfs4_lock_info : ctype := CStruct [mem:
  ("owner", CPtr "struct nfs4_lock_state") ].

Definition struct_file_lock : ctype := CStruct [mem:
  ("c", struct_file_lock_core);
  ("fl_start", loff_t);
  ("fl_end", loff_t);
  ("fl_ops", CPtr "struct file_lock_operations");
  ("fl_lmops", CPtr "struct lock_manager_operations");
  ("fl_u", CUnion [mem:
    ("nfs_fl", struct_nfs_lock_info);
    ("nfs4_fl", struct_nfs4_lock_info);
    ("afs", CStruct [mem:
      ("link", struct_list_head);
      ("state", CInt 4);
      ("debug_id", CInt 4) ]);
    ("ceph", CStruct [mem:
      ("inode", CPtr "struct inode") ]) ]) ].

Definition struct_pipe_inode_info : ctype := CStruct [mem:
  ("mutex", struct_mutex);
  ("rd_wait", wait_queue_head_t);
  ("wr_wait", wait_queue_head_t);
  ("max_usage", CInt 4);
  ("ring_size", CInt 4);
  ("nr_accounted", CInt 4);
  ("readers", CInt 4);
  ("writers", CInt 4);
  ("files", CInt 4);
  ("r_counter", CInt 4);
  ("w_counter", CInt 4);
  ("poll_usage", CBool);
  ("note_loss", CBool);
  ("tmp_page", CArr (CPtr "struct page") 2);
  ("fasync_readers", CPtr "struct fasync_struct");
  ("fasync_writers", CPtr "struct fasync_struct");
  ("bufs", CPtr "struct pipe_buffer");
  ("user", CPtr "struct user_struct");
  ("watch_queue", CPtr "struct watch_queue") ].

Definition memdesc_flags_t : ctype := CStruct [mem:
  ("f", CInt 8) ].

Definition struct_page : ctype := CStruct [mem:
  ("flags", memdesc_flags_t);
  ("", CUnion [mem:
    ("", CStruct [mem:
      ("", CUnion [mem:
        ("lru", struct_list_head);
        ("buddy_list", struct_list_head);
        ("pcp_list", struct_list_head);
        ("pcp_llist", struct_llist_node) ]);
      ("mapping", CPtr "struct address_space");
      ("", CUnion [mem:
        ("__folio_index", CInt 8);
        ("share", CInt 8) ]);
      ("private", CInt 8) ]);
    ("", CStruct [mem:
      ("pp_magic", CInt 8);
      ("pp", CPtr "struct page_pool");
      ("_pp_mapping_pad", CInt 8);
      ("dma_addr", CInt 8);
      ("pp_ref_count", atomic_long_t) ]);
    ("", CStruct [mem:
      ("compound_head", CInt 8) ]);
    ("", CStruct [mem:
      ("_unused_pgmap_compound_head", CPtr "void");
      ("zone_device_data", CPtr "void") ]);
    ("callback_head", struct_callback_head) ]);
  ("", CUnion [mem:
    ("page_type", CInt 4);
    ("_mapcount", atomic_t) ]);
  ("_refcount", atomic_t);
  ("memcg_data", CInt 8) ].

Definition struct_file_lease : ctype := CStruct [mem:
  ("c", struct_file_lock_core);
  ("fl_fasync", CPtr "struct fasync_struct");
  ("fl_break_time", CInt 8);
  ("fl_downgrade_time", CInt 8);
  ("fl_lmops", CPtr "struct lease_manager_operations") ].

Definition struct_io_uring_cmd : ctype := CStruct [mem:
  ("file", CPtr "struct file");
  ("sqe", CPtr "struct io_uring_sqe");
  ("cmd_op", u32);
  ("flags", u32);
  ("pdu", CArr u8 32);
  ("unused", CArr u8 8) ].

Definition enum_mmap_action_type : enum := Enum 4 [
  ("MMAP_NOTHING", 0);
  ("MMAP_REMAP_PFN", 1);
  ("MMAP_IO_REMAP_PFN", 2)].

Definition struct_mmap_action : ctype := CStruct [mem:
  ("", CUnion [mem:
    ("remap", CStruct [mem:
      ("start", CInt 8);
      ("start_pfn", CInt 8);
      ("size", CInt 8);
      ("pgprot", pgprot_t) ]) ]);
  ("type", enum_type enum_mmap_action_type);
  ("success_hook", CPtr "int (*)(const struct vm_area_struct *)");
  ("error_hook", CPtr "int (*)(int)");
  ("hide_from_rmap_until_complete", CBits 1 1) ].

Definition struct_vm_area_desc : ctype := CStruct [mem:
  ("mm", CPtr "struct mm_struct");
  ("file", CPtr "struct file");
  ("start", CInt 8);
  ("end", CInt 8);
  ("pgoff", CInt 8);
  ("vm_file", CPtr "struct file");
  ("vma_flags", vma_flags_t);
  ("page_prot", pgprot_t);
  ("vm_ops", CPtr "struct vm_operations_struct");
  ("private_data", CPtr "void");
  ("action", struct_mmap_action) ].

Definition struct_vm_operations_struct : ctype := CStruct [mem:
  ("open", CPtr "void (*)(struct vm_area_struct *)");
  ("close", CPtr "void (*)(struct vm_area_struct *)");
  ("may_split", CPtr "int (*)(struct vm_area_struct *, long unsigned int)");
  ("mremap", CPtr "int (*)(struct vm_area_struct *)");
  ("mprotect", CPtr "int (*)(struct vm_area_struct *, long unsigned int, long unsigned int, long unsigned int)");
  ("fault", CPtr "vm_fault_t (*)(struct vm_fault *)");
  ("huge_fault", CPtr "vm_fault_t (*)(struct vm_fault *, unsigned int)");
  ("map_pages", CPtr "vm_fault_t (*)(struct vm_fault *, long unsigned int, long unsigned int)");
  ("pagesize", CPtr "long unsigned int (*)(struct vm_area_struct *)");
  ("page_mkwrite", CPtr "vm_fault_t (*)(struct vm_fault *)");
  ("pfn_mkwrite", CPtr "vm_fault_t (*)(struct vm_fault *)");
  ("access", CPtr "int (*)(struct vm_area_struct *, long unsigned int, void *, int, int)");
  ("name", CPtr "const char * (*)(struct vm_area_struct *)");
  ("set_policy", CPtr "int (*)(struct vm_area_struct *, struct mempolicy *)");
  ("get_policy", CPtr "struct mempolicy * (*)(struct vm_area_struct *, long unsigned int, long unsigned int *)");
  ("find_normal_page", CPtr "struct page * (*)(struct vm_area_struct *, long unsigned int)") ].

Definition enum_fault_flag : enum := Enum 4 [
  ("FAULT_FLAG_WRITE", 1);
  ("FAULT_FLAG_MKWRITE", 2);
  ("FAULT_FLAG_ALLOW_RETRY", 4);
  ("FAULT_FLAG_RETRY_NOWAIT", 8);
  ("FAULT_FLAG_KILLABLE", 16);
  ("FAULT_FLAG_TRIED", 32);
  ("FAULT_FLAG_USER", 64);
  ("FAULT_FLAG_REMOTE", 128);
  ("FAULT_FLAG_INSTRUCTION", 256);
  ("FAULT_FLAG_INTERRUPTIBLE", 512);
  ("FAULT_FLAG_UNSHARE", 1024);
  ("FAULT_FLAG_ORIG_PTE_VALID", 2048);
  ("FAULT_FLAG_VMA_LOCK", 4096)].

Definition pteval_t : ctype := CInt 8.

Definition pte_t : ctype := CStruct [mem:
  ("pte", pteval_t) ].

Definition pmdval_t : ctype := CInt 8.

Definition pmd_t : ctype := CStruct [mem:
  ("pmd", pmdval_t) ].

Definition pgtable_t : ctype := CPtr "struct page".

Definition struct_vm_fault : ctype := CStruct [mem:
  ("", CStruct [mem:
    ("vma", CPtr "struct vm_area_struct");
    ("gfp_mask", gfp_t);
    ("pgoff", CInt 8);
    ("address", CInt 8);
    ("real_address", CInt 8) ]);
  ("flags", enum_type enum_fault_flag);
  ("pmd", CPtr "pmd_t");
  ("pud", CPtr "pud_t");
  ("", CUnion [mem:
    ("orig_pte", pte_t);
    ("orig_pmd", pmd_t) ]);
  ("cow_page", CPtr "struct page");
  ("page", CPtr "struct page");
  ("pte", CPtr "pte_t");
  ("ptl", CPtr "spinlock_t");
  ("prealloc_pte", pgtable_t) ].

Definition struct_mempolicy : ctype := CStruct [mem:
  ("refcnt", atomic_t);
  ("mode", CInt 2);
  ("flags", CInt 2);
  ("nodes", nodemask_t);
  ("home_node", CInt 4);
  ("w", CUnion [mem:
    ("cpuset_mems_allowed", nodemask_t);
    ("user_nodemask", nodemask_t) ]);
  ("rcu", struct_callback_head) ].
