(* ===== verification/PtRegs.v ===== *)
(** * Register access and the probe macros: [bpf/bpf/bpf_tracing.h]

    The header picks a target architecture from predefined macros, names the
    registers that carry arguments, return value and pointers on each, and
    builds on them the argument macros of kprobes and system-call probes.
    A register name is a member expression of the target's [struct pt_regs];
    [vmlinux.h] declares the x86 one, to which the theorems apply the macros:
    a kprobe sees the arguments the fentry program of the same function sees. *)

From S2P Require Import Prelude.
From S2P Require Import GoStrings.
From S2P Require Import CLayout.
From S2P Require Import Tracing.
From S2P Require Import Vmlinux.
From S2P Require Import VmlinuxBpf.

Local Open Scope Z_scope.

(** ** The target *)

Inductive target : Type :=
  | x86 | s390 | arm | arm64 | mips | powerpc | sparc | riscv | arc | loongarch.

#[export] Instance target_eq_dec : EqDecision target.
Proof. solve_decision. Defined.

(** The first [#if] chain: [__TARGET_ARCH_xxx] given to the compiler, and what
    the compiler says otherwise. [defined] tells the predefined macros. *)
Definition target_arch (defined : string → bool) : option target :=
  if defined "__TARGET_ARCH_x86" then Some x86
  else if defined "__TARGET_ARCH_s390" then Some s390
  else if defined "__TARGET_ARCH_arm" then Some arm
  else if defined "__TARGET_ARCH_arm64" then Some arm64
  else if defined "__TARGET_ARCH_mips" then Some mips
  else if defined "__TARGET_ARCH_powerpc" then Some powerpc
  else if defined "__TARGET_ARCH_sparc" then Some sparc
  else if defined "__TARGET_ARCH_riscv" then Some riscv
  else if defined "__TARGET_ARCH_arc" then Some arc
  else if defined "__TARGET_ARCH_loongarch" then Some loongarch
  else None.

Definition compiler_arch (defined : string → bool) (riscv_xlen : Z) : option target :=
  if defined "__x86_64__" then Some x86
  else if defined "__s390__" then Some s390
  else if defined "__arm__" then Some arm
  else if defined "__aarch64__" then Some arm64
  else if defined "__mips__" then Some mips
  else if defined "__powerpc__" then Some powerpc
  else if defined "__sparc__" then Some sparc
  else if defined "__riscv" && bool_decide (riscv_xlen = 64) then Some riscv
  else if defined "__arc__" then Some arc
  else if defined "__loongarch__" then Some loongarch
  else None.

Definition bpf_target (defined : string → bool) (riscv_xlen : Z) : option target :=
  match target_arch defined with
  | Some t => Some t
  | None => compiler_arch defined riscv_xlen
  end.

(** ** The registers of a target *)

Definition unsupported : string := "__unsupported__".

(** The macros one branch of the header defines; the lists hold
    [__PT_PARM1_REG], [__PT_PARM2_REG], ... as far as the branch goes. *)
Record target_regs : Type := TargetRegs {
  PT_REGS_CAST : option string;          (** the struct [__PT_REGS_CAST] casts to *)
  PT_PARM_REGS : list string;
  PT_SYSCALL_REGS : list string;
  PT_REGS_PARM1_SYSCALL_CAST : option string;  (** its own cast, where it has one *)
  PT_RET_REG : string;
  PT_FP_REG : string;
  PT_RC_REG : string;
  PT_SP_REG : string;
  PT_IP_REG : string;
  PT_REGS_SYSCALL_REGS_is_ctx : bool;
}.

(** [__PT_PARM<n>_REG], [__PT_PARM<n>_SYSCALL_REG], with the defaults the
    header gives to those a branch leaves undefined. *)
Definition nth_reg (regs : list string) (n : nat) : string :=
  default unsupported (regs !! (n - 1)%nat).

Definition x86_kernel_regs : target_regs :=
  let parms := ["di"; "si"; "dx"; "cx"; "r8"; "r9"] in
  {| PT_REGS_CAST := None; PT_PARM_REGS := parms;
     PT_SYSCALL_REGS := [nth_reg parms 1; nth_reg parms 2; nth_reg parms 3; "r10";
                         nth_reg parms 5; nth_reg parms 6];
     PT_REGS_PARM1_SYSCALL_CAST := None;
     PT_RET_REG := "sp"; PT_FP_REG := "bp"; PT_RC_REG := "ax"; PT_SP_REG := "sp";
     PT_IP_REG := "ip"; PT_REGS_SYSCALL_REGS_is_ctx := false |}.

Definition i386_user_regs : target_regs :=
  {| PT_REGS_CAST := None; PT_PARM_REGS := ["eax"; "edx"; "ecx"];
     PT_SYSCALL_REGS := ["ebx"; "ecx"; "edx"; "esi"; "edi"; "ebp"];
     PT_REGS_PARM1_SYSCALL_CAST := None;
     PT_RET_REG := "esp"; PT_FP_REG := "ebp"; PT_RC_REG := "eax"; PT_SP_REG := "esp";
     PT_IP_REG := "eip"; PT_REGS_SYSCALL_REGS_is_ctx := false |}.

Definition x86_64_user_regs : target_regs :=
  let parms := ["rdi"; "rsi"; "rdx"; "rcx"; "r8"; "r9"] in
  {| PT_REGS_CAST := None; PT_PARM_REGS := parms;
     PT_SYSCALL_REGS := [nth_reg parms 1; nth_reg parms 2; nth_reg parms 3; "r10";
                         nth_reg parms 5; nth_reg parms 6];
     PT_REGS_PARM1_SYSCALL_CAST := None;
     PT_RET_REG := "rsp"; PT_FP_REG := "rbp"; PT_RC_REG := "rax"; PT_SP_REG := "rsp";
     PT_IP_REG := "rip"; PT_REGS_SYSCALL_REGS_is_ctx := false |}.

Definition x86_regs (defined : string → bool) : target_regs :=
  if defined "__KERNEL__" || defined "__VMLINUX_H__" then x86_kernel_regs
  else if defined "__i386__" then i386_user_regs
  else x86_64_user_regs.

Definition s390_regs : target_regs :=
  let parms := ["gprs[2]"; "gprs[3]"; "gprs[4]"; "gprs[5]"; "gprs[6]"] in
  {| PT_REGS_CAST := Some "user_pt_regs"; PT_PARM_REGS := parms;
     PT_SYSCALL_REGS := ["orig_gpr2"; nth_reg parms 2; nth_reg parms 3; nth_reg parms 4;
                         nth_reg parms 5; "gprs[7]"];
     PT_REGS_PARM1_SYSCALL_CAST := Some "struct pt_regs___s390";
     PT_RET_REG := "gprs[14]"; PT_FP_REG := "gprs[11]"; PT_RC_REG := "gprs[2]";
     PT_SP_REG := "gprs[15]"; PT_IP_REG := "psw.addr"; PT_REGS_SYSCALL_REGS_is_ctx := false |}.

Definition arm_regs : target_regs :=
  let parms := ["uregs[0]"; "uregs[1]"; "uregs[2]"; "uregs[3]"] in
  {| PT_REGS_CAST := None; PT_PARM_REGS := parms;
     PT_SYSCALL_REGS := [nth_reg parms 1; nth_reg parms 2; nth_reg parms 3; nth_reg parms 4;
                         "uregs[4]"; "uregs[5]"; "uregs[6]"];
     PT_REGS_PARM1_SYSCALL_CAST := None;
     PT_RET_REG := "uregs[14]"; PT_FP_REG := "uregs[11]"; PT_RC_REG := "uregs[0]";
     PT_SP_REG := "uregs[13]"; PT_IP_REG := "uregs[12]";
     PT_REGS_SYSCALL_REGS_is_ctx := false |}.

Definition arm64_regs : target_regs :=
  let parms := ["regs[0]"; "regs[1]"; "regs[2]"; "regs[3]";
                "regs[4]"; "regs[5]"; "regs[6]"; "regs[7]"] in
  {| PT_REGS_CAST := Some "struct user_pt_regs"; PT_PARM_REGS := parms;
     PT_SYSCALL_REGS := ["orig_x0"; nth_reg parms 2; nth_reg parms 3; nth_reg parms 4;
                         nth_reg parms 5; nth_reg parms 6];
     PT_REGS_PARM1_SYSCALL_CAST := Some "struct pt_regs___arm64";
     PT_RET_REG := "regs[30]"; PT_FP_REG := "regs[29]"; PT_RC_REG := "regs[0]";
     PT_SP_REG := "sp"; PT_IP_REG := "pc"; PT_REGS_SYSCALL_REGS_is_ctx := false |}.

Definition mips_regs : target_regs :=
  let parms := ["regs[4]"; "regs[5]"; "regs[6]"; "regs[7]";
                "regs[8]"; "regs[9]"; "regs[10]"; "regs[11]"] in
  {| PT_REGS_CAST := None; PT_PARM_REGS := parms; PT_SYSCALL_REGS := take 6 parms;
     PT_REGS_PARM1_SYSCALL_CAST := None;
     PT_RET_REG := "regs[31]"; PT_FP_REG := "regs[30]"; PT_RC_REG := "regs[2]";
     PT_SP_REG := "regs[29]"; PT_IP_REG := "cp0_epc"; PT_REGS_SYSCALL_REGS_is_ctx := false |}.

Definition powerpc_regs (defined : string → bool) : target_regs :=
  let parms := ["gpr[3]"; "gpr[4]"; "gpr[5]"; "gpr[6]";
                "gpr[7]"; "gpr[8]"; "gpr[9]"; "gpr[10]"] in
  {| PT_REGS_CAST := None; PT_PARM_REGS := parms;
     PT_SYSCALL_REGS := ["orig_gpr3"; nth_reg parms 2; nth_reg parms 3; nth_reg parms 4;
                         nth_reg parms 5; nth_reg parms 6] ++
                        (if defined "__arch64__" then [] else [nth_reg parms 7]);
     PT_REGS_PARM1_SYSCALL_CAST := None;
     PT_RET_REG := "regs[31]"; PT_FP_REG := unsupported; PT_RC_REG := "gpr[3]";
     PT_SP_REG := "gpr[1]"; PT_IP_REG := "nip"; PT_REGS_SYSCALL_REGS_is_ctx := true |}.

Definition sparc_regs (defined : string → bool) : target_regs :=
  let parms := ["u_regs[UREG_I0]"; "u_regs[UREG_I1]"; "u_regs[UREG_I2]";
                "u_regs[UREG_I3]"; "u_regs[UREG_I4]"; "u_regs[UREG_I5]"] in
  {| PT_REGS_CAST := None; PT_PARM_REGS := parms; PT_SYSCALL_REGS := parms;
     PT_REGS_PARM1_SYSCALL_CAST := None;
     PT_RET_REG := "u_regs[UREG_I7]"; PT_FP_REG := unsupported;
     PT_RC_REG := "u_regs[UREG_I0]"; PT_SP_REG := "u_regs[UREG_FP]";
     PT_IP_REG := if defined "__arch64__" then "tpc" else "pc";
     PT_REGS_SYSCALL_REGS_is_ctx := false |}.

Definition riscv_regs : target_regs :=
  let parms := ["a0"; "a1"; "a2"; "a3"; "a4"; "a5"; "a6"; "a7"] in
  {| PT_REGS_CAST := Some "struct user_regs_struct"; PT_PARM_REGS := parms;
     PT_SYSCALL_REGS := ["orig_a0"; nth_reg parms 2; nth_reg parms 3; nth_reg parms 4;
                         nth_reg parms 5; nth_reg parms 6];
     PT_REGS_PARM1_SYSCALL_CAST := Some "struct pt_regs___riscv";
     PT_RET_REG := "ra"; PT_FP_REG := "s0"; PT_RC_REG := "a0"; PT_SP_REG := "sp";
     PT_IP_REG := "pc"; PT_REGS_SYSCALL_REGS_is_ctx := false |}.

Definition arc_regs : target_regs :=
  let parms := ["scratch.r0"; "scratch.r1"; "scratch.r2"; "scratch.r3";
                "scratch.r4"; "scratch.r5"; "scratch.r6"; "scratch.r7"] in
  {| PT_REGS_CAST := Some "struct user_regs_struct"; PT_PARM_REGS := parms;
     PT_SYSCALL_REGS := take 6 parms; PT_REGS_PARM1_SYSCALL_CAST := None;
     PT_RET_REG := "scratch.blink"; PT_FP_REG := "scratch.fp"; PT_RC_REG := "scratch.r0";
     PT_SP_REG := "scratch.sp"; PT_IP_REG := "scratch.ret";
     PT_REGS_SYSCALL_REGS_is_ctx := true |}.

Definition loongarch_regs : target_regs :=
  let parms := ["regs[4]"; "regs[5]"; "regs[6]"; "regs[7]";
                "regs[8]"; "regs[9]"; "regs[10]"; "regs[11]"] in
  {| PT_REGS_CAST := Some "struct user_pt_regs"; PT_PARM_REGS := parms;
     PT_SYSCALL_REGS := take 6 parms; PT_REGS_PARM1_SYSCALL_CAST := None;
     PT_RET_REG := "regs[1]"; PT_FP_REG := "regs[22]"; PT_RC_REG := "regs[4]";
     PT_SP_REG := "regs[3]"; PT_IP_REG := "csr_era"; PT_REGS_SYSCALL_REGS_is_ctx := true |}.

Definition regs_of (defined : string → bool) (t : target) : target_regs :=
  match t with
  | x86 => x86_regs defined
  | s390 => s390_regs
  | arm => arm_regs
  | arm64 => arm64_regs
  | mips => mips_regs
  | powerpc => powerpc_regs defined
  | sparc => sparc_regs defined
  | riscv => riscv_regs
  | arc => arc_regs
  | loongarch => loongarch_regs
  end.

(** ** Reading registers *)

Section Access.

(** The value of member expression [f] of the struct of the given cast (the
    target's [struct pt_regs] without one) at an address; [None] when the struct
    has no such member, which the compiler rejects. *)
Variable member : option string → Z → string → option Z.

Variable r : target_regs.

Definition PT_REGS (reg : string) (x : Z) : option Z := member (PT_REGS_CAST r) x reg.

Definition PT_REGS_PARM (n : nat) (x : Z) : option Z := PT_REGS (nth_reg (PT_PARM_REGS r) n) x.
Definition PT_REGS_RET (x : Z) : option Z := PT_REGS (PT_RET_REG r) x.
Definition PT_REGS_FP (x : Z) : option Z := PT_REGS (PT_FP_REG r) x.
Definition PT_REGS_RC (x : Z) : option Z := PT_REGS (PT_RC_REG r) x.
Definition PT_REGS_SP (x : Z) : option Z := PT_REGS (PT_SP_REG r) x.
Definition PT_REGS_IP (x : Z) : option Z := PT_REGS (PT_IP_REG r) x.

(** [PT_REGS_PARM<n>_SYSCALL] and its CO-RE form, which differ in how they
    reach the memory; three targets give the first its own cast. *)
Definition PT_REGS_PARM_SYSCALL (n : nat) (x : Z) : option Z :=
  let reg := nth_reg (PT_SYSCALL_REGS r) n in
  match PT_REGS_PARM1_SYSCALL_CAST r with
  | Some c => if bool_decide (n = 1%nat) then member (Some c) x reg else PT_REGS reg x
  | None => PT_REGS reg x
  end.

Definition PT_REGS_SYSCALL_REGS (ctx : Z) : option Z :=
  if PT_REGS_SYSCALL_REGS_is_ctx r then Some ctx else PT_REGS_PARM 1 ctx.

(** The return address at the entry of a function: [BPF_KPROBE_READ_RET_IP]
    and [BPF_KRETPROBE_READ_RET_IP]; [probe_read] is the 8-byte
    [bpf_probe_read_kernel]. *)
Definition BPF_KPROBE_READ_RET_IP (probe_read : Z → option Z) (t : target) (ctx : Z) : option Z :=
  if bool_decide (t = powerpc) then member None ctx "link"
  else if bool_decide (t = sparc) || bool_decide (t = arm64) then PT_REGS_RET ctx
  else a ← PT_REGS_RET ctx; probe_read a.

Definition BPF_KRETPROBE_READ_RET_IP (probe_read : Z → option Z) (t : target) (ctx : Z) :
    option Z :=
  if bool_decide (t = powerpc) || bool_decide (t = sparc) || bool_decide (t = arm64)
  then BPF_KPROBE_READ_RET_IP probe_read t ctx
  else a ← PT_REGS_FP ctx; probe_read (wrap 64 (a + 8)).

(** ** The argument macros *)

(** The expressions of the expansions: the context, a parameter register, the
    return value, a system call's parameter register. *)
Inductive reg_expr : Type := RCtx | RParm (n : nat) | RRc | RSyscall (n : nat).

(** [___bpf_kprobe_args0] to [___bpf_kprobe_args8]. *)
Fixpoint ___bpf_kprobe_argsN (n : nat) : list reg_expr :=
  match n with
  | O => [RCtx]
  | S n => ___bpf_kprobe_argsN n ++ [RParm (S n)]
  end.

Definition ___bpf_kprobe_args {A} (args : list A) : option (list reg_expr) :=
  ___bpf_apply (λ n, if bool_decide (n ≤ 8)%nat then Some (___bpf_kprobe_argsN n) else None)
    (___bpf_narg args).

Definition ___bpf_kretprobe_args {A} (args : list A) : option (list reg_expr) :=
  ___bpf_apply (λ n, match n with O => Some [RCtx] | 1 => Some [RCtx; RRc] | _ => None end%nat)
    (___bpf_narg args).

(** [___bpf_syscall_args0] to [7], and [___bpf_syswrap_args0] to [7]. *)
Fixpoint ___bpf_syscall_argsN (n : nat) : list reg_expr :=
  match n with
  | O => [RCtx]
  | S n => ___bpf_syscall_argsN n ++ [RSyscall (S n)]
  end.

Definition ___bpf_syscall_args {A} (args : list A) : option (list reg_expr) :=
  ___bpf_apply (λ n, if bool_decide (n ≤ 7)%nat then Some (___bpf_syscall_argsN n) else None)
    (___bpf_narg args).

(** [(unsigned long long)] of the register, converted to the parameter. *)
Definition reg_arg (x : Z) (a : reg_expr * ctype) : option Z :=
  v ← match a.1 with
      | RCtx => None
      | RParm n => PT_REGS_PARM n x
      | RRc => PT_REGS_RC x
      | RSyscall n => PT_REGS_PARM_SYSCALL n x
      end;
  convert a.2 (wrap 64 v).

(** The arguments [____name] is called with after [ctx]; [regs] is where the
    expressions find their registers. *)
Definition expand (es : option (list reg_expr)) (args : list (string * ctype)) (regs : Z) :
    option (list Z) :=
  match es with
  | Some (RCtx :: es) => mapM (reg_arg regs) (zip es args.*2)
  | _ => None
  end.

Definition BPF_KPROBE (args : list (string * ctype)) (ctx : Z) : option (list Z) :=
  expand (___bpf_kprobe_args args) args ctx.

Definition BPF_KRETPROBE (args : list (string * ctype)) (ctx : Z) : option (list Z) :=
  expand (___bpf_kretprobe_args args) args ctx.

Definition BPF_UPROBE := BPF_KPROBE.
Definition BPF_URETPROBE := BPF_KRETPROBE.

(** With a system-call wrapper the arguments are in the [struct pt_regs] the
    wrapper's first parameter points to. *)
Definition BPF_KSYSCALL (LINUX_HAS_SYSCALL_WRAPPER : bool) (args : list (string * ctype))
    (ctx : Z) : option (list Z) :=
  regs ← (if LINUX_HAS_SYSCALL_WRAPPER then PT_REGS_PARM 1 ctx else Some ctx);
  expand (___bpf_syscall_args args) args regs.

Definition BPF_KPROBE_SYSCALL := BPF_KSYSCALL.

End Access.

(** ** The access macros as a header

    What the header defines for the target it has found: [PT_REGS_*(x)], the
    same with [_CORE], and the system-call forms. Without a target each of them
    is a compile error ([__BPF_TARGET_MISSING]), reported where it is used. *)

Inductive access_macro : Type :=
  | MParm (n : nat) | MRet | MFp | MRc | MSp | MIp | MParmSyscall (n : nat)
  | MKprobeRetIp | MKretprobeRetIp.

(** The names both branches of [#if defined(bpf_target_defined)] define. *)
Definition access_macros : list access_macro :=
  (MParm <$> seq 1 8) ++ [MRet; MFp; MRc; MSp; MIp; MKprobeRetIp; MKretprobeRetIp] ++
  (MParmSyscall <$> seq 1 7).

Definition target_access (member : option string → Z → string → option Z)
    (probe_read : Z → option Z) (t : target) (r : target_regs) (m : access_macro) (x : Z) :
    option Z :=
  match m with
  | MParm n => PT_REGS_PARM member r n x
  | MRet => PT_REGS_RET member r x
  | MFp => PT_REGS_FP member r x
  | MRc => PT_REGS_RC member r x
  | MSp => PT_REGS_SP member r x
  | MIp => PT_REGS_IP member r x
  | MParmSyscall n => PT_REGS_PARM_SYSCALL member r n x
  | MKprobeRetIp => BPF_KPROBE_READ_RET_IP member r probe_read t x
  | MKretprobeRetIp => BPF_KRETPROBE_READ_RET_IP member r probe_read t x
  end.

Definition BPF_TARGET_MISSING : string := "Must specify a BPF target arch via __TARGET_ARCH_xxx".

(** A use of a macro: what it reads (nothing, when the target's struct has no
    such member, which does not compile), or the error the header reports. *)
Definition access (defined : string → bool) (riscv_xlen : Z)
    (member : option string → Z → string → option Z) (probe_read : Z → option Z)
    (m : access_macro) (x : Z) : option Z + string :=
  match bpf_target defined riscv_xlen with
  | Some t => inl (target_access member probe_read t (regs_of defined t) m x)
  | None => inr BPF_TARGET_MISSING
  end.

(** The x86 accessor: [struct pt_regs] of [vmlinux.h], in memory that maps
    addresses to the objects there. *)
Definition x86_member (memory : Z → bytes) (cast : option string) (x : Z) (f : string) :
    option Z :=
  match cast with
  | None => load_field struct_pt_regs f (memory x)
  | Some _ => None
  end.

(** ** Lemmas *)

Lemma kprobe_argsN_regs n : ___bpf_kprobe_argsN n = RCtx :: ((λ i, RParm (S i)) <$> seq 0 n).
Proof.
  induction n as [|n IH]; [done|]. cbn [___bpf_kprobe_argsN].
  by rewrite IH, seq_S, fmap_app.
Qed.

Lemma syscall_argsN_regs n : ___bpf_syscall_argsN n = RCtx :: ((λ i, RSyscall (S i)) <$> seq 0 n).
Proof.
  induction n as [|n IH]; [done|]. cbn [___bpf_syscall_argsN].
  by rewrite IH, seq_S, fmap_app.
Qed.

Lemma BPF_KPROBE_expand member r args ctx :
  (length args ≤ 8)%nat →
  BPF_KPROBE member r args ctx =
  expand member r (Some (RCtx :: ((λ i, RParm (S i)) <$> seq 0 (length args)))) args ctx.
Proof.
  intros H. unfold BPF_KPROBE, ___bpf_kprobe_args.
  rewrite narg_length by lia. cbn [___bpf_apply].
  by rewrite bool_decide_eq_true_2, kprobe_argsN_regs.
Qed.

Lemma syscall_args_expand {A} (args : list A) :
  (length args ≤ 7)%nat →
  ___bpf_syscall_args args = Some (RCtx :: ((λ i, RSyscall (S i)) <$> seq 0 (length args))).
Proof.
  intros H. unfold ___bpf_syscall_args. rewrite narg_length by lia. cbn [___bpf_apply].
  by rewrite bool_decide_eq_true_2, syscall_argsN_regs.
Qed.

Lemma mapM_Forall2 {A A' B} (f : A → option B) (g : A' → option B) l k :
  Forall2 (λ x y, f x = g y) l k → mapM f l = mapM g k.
Proof. induction 1 as [|x y l k E _ IH]; [done|]. cbn. by rewrite E, IH. Qed.

Lemma mapM_None_at {A B} (f : A → option B) l i a :
  l !! i = Some a → f a = None → mapM f l = None.
Proof.
  intros Hi Hf. destruct (mapM f l) as [k|] eqn:E; [|done].
  apply mapM_Some in E. destruct (Forall2_lookup_l _ _ _ _ _ E Hi) as (b & _ & Hb). congruence.
Qed.

(** A struct without the placeholder member rejects a parameter beyond the
    target's registers. *)
Lemma BPF_KPROBE_limit member r args ctx :
  (∀ c x, member c x unsupported = None) →
  (length (PT_PARM_REGS r) < length args ≤ 8)%nat → BPF_KPROBE member r args ctx = None.
Proof.
  intros Hu H. rewrite BPF_KPROBE_expand by lia. cbn [expand].
  destruct (args !! length (PT_PARM_REGS r)) as [a|] eqn:E.
  2: { apply lookup_ge_None in E. lia. }
  apply (mapM_None_at _ _ (length (PT_PARM_REGS r)) (RParm (S (length (PT_PARM_REGS r))), a.2)).
  - apply lookup_zip_Some. cbn. rewrite !list_lookup_fmap, E. split; [|done].
    by rewrite lookup_seq_lt by lia.
  - unfold reg_arg, PT_REGS_PARM, PT_REGS, nth_reg. cbn [fst Nat.sub].
    rewrite Nat.sub_0_r, lookup_ge_None_2 by done. cbn. by rewrite Hu.
Qed.

Lemma x86_member_width memory c x f v :
  x86_member memory c x f = Some v → wf_type struct_pt_regs = true →
  (∀ o ft, offset_in 0 struct_pt_regs f = Some (o, ft) → 0 ≤ sizeof ft ≤ 8) → in_width 64 v.
Proof.
  unfold x86_member, load_field. destruct c; [done|].
  destruct (offset_in 0 struct_pt_regs f) as [[o ft]|]; [|done]. opt_cbn. intros [= <-] _ H.
  specialize (H o ft eq_refl).
  eapply in_width_mono; [|apply le_value_width]. split; [lia|].
  unfold peek. rewrite length_take. lia.
Qed.

(** [slots] are the values of the registers [regs] of the object at [x]. *)
Definition holds_regs (memory : Z → bytes) (x : Z) (regs : list string) (slots : list Z) : Prop :=
  ∀ i reg, regs !! i = Some reg → slots !! i = x86_member memory None x reg.

(** The six registers of either convention are 8-byte members. *)
Lemma x86_regs_members :
  Forall (λ f, bool_decide (offset_in 0 struct_pt_regs f = None) = false ∧
               snd <$> offset_in 0 struct_pt_regs f = Some (CInt 8))
    (PT_PARM_REGS x86_kernel_regs ++ PT_SYSCALL_REGS x86_kernel_regs).
Proof. repeat constructor. Qed.

Lemma reg_convert memory x regs slots t i reg :
  regs ⊆ PT_PARM_REGS x86_kernel_regs ++ PT_SYSCALL_REGS x86_kernel_regs →
  holds_regs memory x regs slots → regs !! i = Some reg →
  (v ← x86_member memory None x reg; convert t (wrap 64 v)) = slot_arg slots (ESlot i, t).
Proof.
  intros Hsub Hs Hi. unfold slot_arg. cbn [fst snd]. rewrite (Hs _ _ Hi).
  destruct (x86_member memory None x reg) as [v|] eqn:E; [|done]. opt_cbn.
  rewrite wrap_id; [done|]. apply (x86_member_width _ _ _ _ _ E); [reflexivity|].
  intros o ft Ho. pose proof x86_regs_members as HF. rewrite Forall_forall in HF.
  destruct (HF reg) as [_ Hsz]; [by apply Hsub, (list_elem_of_lookup_2 _ i)|].
  rewrite Ho in Hsz. injection Hsz as ->. cbn. lia.
Qed.

(** Both kinds of probe expand to the expansion of [BPF_PROG] over the slots. *)
Lemma expand_slots memory x regs slots (e : nat → reg_expr) (args : list (string * ctype)) :
  regs ⊆ PT_PARM_REGS x86_kernel_regs ++ PT_SYSCALL_REGS x86_kernel_regs →
  (length args ≤ length regs)%nat → (length args ≤ 12)%nat → holds_regs memory x regs slots →
  (∀ i t, (i < length regs)%nat →
     reg_arg (x86_member memory) x86_kernel_regs x (e i, t) =
     (v ← x86_member memory None x (nth_reg regs (S i)); convert t (wrap 64 v))) →
  expand (x86_member memory) x86_kernel_regs
    (Some (RCtx :: (e <$> seq 0 (length args)))) args x = BPF_PROG args slots.
Proof.
  intros Hsub Hl Hl' Hs He. unfold BPF_PROG, ___bpf_ctx_cast, expand.
  rewrite narg_length by done. cbn [___bpf_apply]. rewrite ctx_castN_slots.
  apply mapM_Forall2, Forall2_same_length_lookup_2.
  { by rewrite !length_zip, !length_fmap. }
  intros i [a t] [b t'] [Ha Ht]%lookup_zip_Some [Hb Ht']%lookup_zip_Some.
  cbn in Ha, Ht, Hb, Ht'. rewrite Ht in Ht'. injection Ht' as <-.
  apply list_lookup_fmap_Some in Ha as (j & -> & [-> Hj]%lookup_seq).
  apply list_lookup_fmap_Some in Hb as (j & -> & [-> _]%lookup_seq). cbn [Nat.add].
  rewrite He by lia. destruct (lookup_lt_is_Some_2 regs i) as [reg Hreg]; [lia|].
  unfold nth_reg. cbn [Nat.sub]. rewrite Nat.sub_0_r, Hreg. cbn [default].
  by apply (reg_convert _ _ regs).
Qed.

(** ** Properties *)

(** The registers of the System V calling convention, and of system calls. *)
Definition call_regs : list string := ["di"; "si"; "dx"; "cx"; "r8"; "r9"].
Definition syscall_regs : list string := ["di"; "si"; "dx"; "r10"; "r8"; "r9"].

(** C38: On x86 the three kinds of probe hand a handler the same arguments:
    with up to six parameters, [BPF_KPROBE] on saved registers and
    [BPF_KSYSCALL] on a system call's registers, direct or behind a wrapper,
    yield exactly what [BPF_PROG] yields on a context whose slots hold the
    registers of the calling convention; a seventh parameter has no register and
    does not compile. *)
Theorem probes_agree (memory : Z → bytes) (args : list (string * ctype)) ctx slots :
  ((length args ≤ 6)%nat → holds_regs memory ctx call_regs slots →
     BPF_KPROBE (x86_member memory) x86_kernel_regs args ctx = BPF_PROG args slots) ∧
  (∀ (wrapper : bool) regs,
     (length args ≤ 6)%nat →
     (if wrapper then x86_member memory None ctx "di" = Some regs else regs = ctx) →
     holds_regs memory regs syscall_regs slots →
     BPF_KSYSCALL (x86_member memory) x86_kernel_regs wrapper args ctx = BPF_PROG args slots) ∧
  ((6 < length args ≤ 8)%nat →
     BPF_KPROBE (x86_member memory) x86_kernel_regs args ctx = None).
Proof.
  split_and!.
  - intros Hl Hs. rewrite BPF_KPROBE_expand by lia.
    apply (expand_slots memory ctx (PT_PARM_REGS x86_kernel_regs)); try done; try lia.
    by apply list_subseteq_app_l.
  - intros wrapper regs Hl Hr Hs. unfold BPF_KSYSCALL.
    assert (E : (if wrapper then PT_REGS_PARM (x86_member memory) x86_kernel_regs 1 ctx
                 else Some ctx) = Some regs) by (destruct wrapper; [done|by subst]).
    rewrite E. opt_cbn. rewrite syscall_args_expand by lia.
    apply (expand_slots memory regs (PT_SYSCALL_REGS x86_kernel_regs)); try done; try lia.
    by apply list_subseteq_app_r.
  - intros Hl. apply BPF_KPROBE_limit; [|done]. by intros [].
Qed.

(** Twenty-one saved registers holding 100, 101, ...: [di] holds 114. *)
Definition sample_regs : bytes := mjoin ((λ i, le_bytes 8 (100 + Z.of_nat i)) <$> seq 0 21).

Lemma probes_agree_witness :
  BPF_KPROBE (x86_member (λ _, sample_regs)) x86_kernel_regs
    [("filp", CPtr "struct file"); ("cmd", CInt 4); ("arg", CInt 8)] 0 =
  BPF_PROG [("filp", CPtr "struct file"); ("cmd", CInt 4); ("arg", CInt 8)]
    [114; 113; 112; 111; 109; 108].
Proof.
  apply (probes_agree (λ _, sample_regs)); [cbn; lia|].
  intros i reg. do 6 (destruct i as [|i]; [intros [= <-]; reflexivity|]). done.
Defined.

(** On every target the argument registers are distinct and real. *)
Lemma argument_registers_distinct defined t :
  NoDup (PT_PARM_REGS (regs_of defined t)) ∧ NoDup (PT_SYSCALL_REGS (regs_of defined t)) ∧
  unsupported ∉ PT_PARM_REGS (regs_of defined t) ++ PT_SYSCALL_REGS (regs_of defined t) ∧
  (3 ≤ length (PT_PARM_REGS (regs_of defined t)) ≤ 8)%nat ∧
  (6 ≤ length (PT_SYSCALL_REGS (regs_of defined t)) ≤ 7)%nat.
Proof.
  destruct t; cbn [regs_of]; unfold x86_regs, powerpc_regs, sparc_regs;
    repeat match goal with |- context [if ?b then _ else _] => destruct b end; by_decide.
Qed.

(** Only powerpc names its return-address register after an array its other
    registers are not in. *)
Lemma powerpc_ret_reg defined :
  PT_RET_REG (powerpc_regs defined) = "regs[31]" ∧
  Forall (λ f, HasPrefix f "gpr[" = true) (PT_PARM_REGS (powerpc_regs defined)).
Proof. split; [done|]. by repeat constructor. Qed.

(** Compiled as [gen.go] does, for amd64 with [vmlinux.h], every macro of the
    header reads a register that [struct pt_regs] has, except the seventh and
    eighth parameter and the seventh of a system call; without a target every
    one is the error. *)
Theorem access_macros_compile defined riscv_xlen memory read m x :
  m ∈ access_macros →
  (defined "__TARGET_ARCH_x86" = true → defined "__VMLINUX_H__" = true →
   (∃ v, access defined riscv_xlen (x86_member memory) (λ a, Some (read a)) m x = inl (Some v)) ↔
   m ∉ [MParm 7; MParm 8; MParmSyscall 7]) ∧
  (bpf_target defined riscv_xlen = None →
   access defined riscv_xlen (x86_member memory) (λ a, Some (read a)) m x = inr BPF_TARGET_MISSING).
Proof.
  intros Hm. split.
  - intros Hx86 Hvm. unfold access, bpf_target, target_arch. rewrite Hx86.
    cbn [regs_of]. unfold x86_regs. rewrite Hvm, orb_true_r.
    unfold access_macros in Hm. cbn in Hm.
    repeat (apply elem_of_cons in Hm as [->|Hm]; [split; [intros [v Hv] Hin; set_solver|]|]);
      try (by apply not_elem_of_nil in Hm); intros Hin;
      try (by eexists; cbn); set_solver.
  - intros Hno. unfold access. by rewrite Hno.
Qed.
