(* ===== verification/BpfHelpers.v ===== *)
(** * The helper prototypes of libbpf's generated header

    [bpf/bpf/bpf_helper_defs.h] declares each BPF helper as a constant
    function pointer whose value is the helper's number: a call compiles to
    [call <number>]. The table below transcribes every prototype of the header
    with its number, its parameters and the errno names its documentation
    block lists, in the order of the header. The theorems say that the table
    is consistent with the kernel's own numbering [enum bpf_func_id] of
    [bpf/vmlinux.h]. *)

From S2P Require Import Prelude.
From S2P Require Import GoStrings.
From S2P Require Import CLayout.
From S2P Require Import Vmlinux.

Local Open Scope Z_scope.

(** The C types of the prototypes: [CPtrTo c t] is a pointer to [t], to
    [const t] when [c]. *)
Inductive proto_type : Type :=
  | CVoid
  | CNum (name : string)
  | CTag (tag : string)
  | CPtrTo (const : bool) (t : proto_type).

#[export] Instance proto_type_eq_dec : EqDecision proto_type.
Proof. solve_decision. Defined.

Record helper : Type := Helper {
  h_name : string;
  h_ret : proto_type;
  h_params : list (string * proto_type);
  h_variadic : bool;
  h_fastcall : bool;      (** declared [__bpf_fastcall] *)
  h_id : Z;
  h_errnos : list string; (** errno names of its documentation block *)
}.

(** [bpf_map_lookup_elem] to [bpf_get_prandom_u32]: [bpf/bpf/bpf_helper_defs.h], lines 55-201. *)
Definition helpers_1_7 : list helper := [
  Helper "bpf_map_lookup_elem" (CPtrTo false (CVoid))
    [("map", CPtrTo false (CVoid)); ("key", CPtrTo true (CVoid))]
    false false 1 [];
  Helper "bpf_map_update_elem" (CNum "long")
    [("map", CPtrTo false (CVoid)); ("key", CPtrTo true (CVoid)); ("value", CPtrTo true (CVoid)); ("flags", CNum "__u64")]
    false false 2 [];
  Helper "bpf_map_delete_elem" (CNum "long")
    [("map", CPtrTo false (CVoid)); ("key", CPtrTo true (CVoid))]
    false false 3 [];
  Helper "bpf_probe_read" (CNum "long")
    [("dst", CPtrTo false (CVoid)); ("size", CNum "__u32"); ("unsafe_ptr", CPtrTo true (CVoid))]
    false false 4 [];
  Helper "bpf_ktime_get_ns" (CNum "__u64")
    []
    false false 5 [];
  Helper "bpf_trace_printk" (CNum "long")
    [("fmt", CPtrTo true (CNum "char")); ("fmt_size", CNum "__u32")]
    true false 6 ["EINVAL"];
  Helper "bpf_get_prandom_u32" (CNum "__u32")
    []
    false false 7 []].

(** [bpf_get_smp_processor_id] to [bpf_tail_call]: [bpf/bpf/bpf_helper_defs.h], lines 203-340. *)
Definition helpers_8_12 : list helper := [
  Helper "bpf_get_smp_processor_id" (CNum "__u32")
    []
    false true 8 [];
  Helper "bpf_skb_store_bytes" (CNum "long")
    [("skb", CPtrTo false (CTag "__sk_buff")); ("offset", CNum "__u32"); ("from", CPtrTo true (CVoid)); ("len", CNum "__u32"); ("flags", CNum "__u64")]
    false false 9 [];
  Helper "bpf_l3_csum_replace" (CNum "long")
    [("skb", CPtrTo false (CTag "__sk_buff")); ("offset", CNum "__u32"); ("from", CNum "__u64"); ("to", CNum "__u64"); ("size", CNum "__u64")]
    false false 10 [];
  Helper "bpf_l4_csum_replace" (CNum "long")
    [("skb", CPtrTo false (CTag "__sk_buff")); ("offset", CNum "__u32"); ("from", CNum "__u64"); ("to", CNum "__u64"); ("flags", CNum "__u64")]
    false false 11 [];
  Helper "bpf_tail_call" (CNum "long")
    [("ctx", CPtrTo false (CVoid)); ("prog_array_map", CPtrTo false (CVoid)); ("index", CNum "__u32")]
    false false 12 []].

(** [bpf_clone_redirect] to [bpf_skb_vlan_pop]: [bpf/bpf/bpf_helper_defs.h], lines 342-475. *)
Definition helpers_13_19 : list helper := [
  Helper "bpf_clone_redirect" (CNum "long")
    [("skb", CPtrTo false (CTag "__sk_buff")); ("ifindex", CNum "__u32"); ("flags", CNum "__u64")]
    false false 13 [];
  Helper "bpf_get_current_pid_tgid" (CNum "__u64")
    []
    false false 14 [];
  Helper "bpf_get_current_uid_gid" (CNum "__u64")
    []
    false false 15 [];
  Helper "bpf_get_current_comm" (CNum "long")
    [("buf", CPtrTo false (CVoid)); ("size_of_buf", CNum "__u32")]
    false false 16 [];
  Helper "bpf_get_cgroup_classid" (CNum "__u32")
    [("skb", CPtrTo false (CTag "__sk_buff"))]
    false false 17 [];
  Helper "bpf_skb_vlan_push" (CNum "long")
    [("skb", CPtrTo false (CTag "__sk_buff")); ("vlan_proto", CNum "__be16"); ("vlan_tci", CNum "__u16")]
    false false 18 [];
  Helper "bpf_skb_vlan_pop" (CNum "long")
    [("skb", CPtrTo false (CTag "__sk_buff"))]
    false false 19 []].

(** [bpf_skb_get_tunnel_key] to [bpf_perf_event_read]: [bpf/bpf/bpf_helper_defs.h], lines 477-607. *)
Definition helpers_20_22 : list helper := [
  Helper "bpf_skb_get_tunnel_key" (CNum "long")
    [("skb", CPtrTo false (CTag "__sk_buff")); ("key", CPtrTo false (CTag "bpf_tunnel_key")); ("size", CNum "__u32"); ("flags", CNum "__u64")]
    false false 20 [];
  Helper "bpf_skb_set_tunnel_key" (CNum "long")
    [("skb", CPtrTo false (CTag "__sk_buff")); ("key", CPtrTo false (CTag "bpf_tunnel_key")); ("size", CNum "__u32"); ("flags", CNum "__u64")]
    false false 21 [];
  Helper "bpf_perf_event_read" (CNum "__u64")
    [("map", CPtrTo false (CVoid)); ("flags", CNum "__u64")]
    false false 22 []].

(** [bpf_redirect] to [bpf_skb_load_bytes]: [bpf/bpf/bpf_helper_defs.h], lines 609-732. *)
Definition helpers_23_26 : list helper := [
  Helper "bpf_redirect" (CNum "long")
    [("ifindex", CNum "__u32"); ("flags", CNum "__u64")]
    false false 23 [];
  Helper "bpf_get_route_realm" (CNum "__u32")
    [("skb", CPtrTo false (CTag "__sk_buff"))]
    false false 24 [];
  Helper "bpf_perf_event_output" (CNum "long")
    [("ctx", CPtrTo false (CVoid)); ("map", CPtrTo false (CVoid)); ("flags", CNum "__u64"); ("data", CPtrTo false (CVoid)); ("size", CNum "__u64")]
    false false 25 [];
  Helper "bpf_skb_load_bytes" (CNum "long")
    [("skb", CPtrTo true (CVoid)); ("offset", CNum "__u32"); ("to", CPtrTo false (CVoid)); ("len", CNum "__u32")]
    false false 26 []].

(** [bpf_get_stackid] to [bpf_skb_change_proto]: [bpf/bpf/bpf_helper_defs.h], lines 734-876. *)
Definition helpers_27_31 : list helper := [
  Helper "bpf_get_stackid" (CNum "long")
    [("ctx", CPtrTo false (CVoid)); ("map", CPtrTo false (CVoid)); ("flags", CNum "__u64")]
    false false 27 [];
  Helper "bpf_csum_diff" (CNum "__s64")
    [("from", CPtrTo false (CNum "__be32")); ("from_size", CNum "__u32"); ("to", CPtrTo false (CNum "__be32")); ("to_size", CNum "__u32"); ("seed", CNum "__wsum")]
    false false 28 [];
  Helper "bpf_skb_get_tunnel_opt" (CNum "long")
    [("skb", CPtrTo false (CTag "__sk_buff")); ("opt", CPtrTo false (CVoid)); ("size", CNum "__u32")]
    false false 29 [];
  Helper "bpf_skb_set_tunnel_opt" (CNum "long")
    [("skb", CPtrTo false (CTag "__sk_buff")); ("opt", CPtrTo false (CVoid)); ("size", CNum "__u32")]
    false false 30 [];
  Helper "bpf_skb_change_proto" (CNum "long")
    [("skb", CPtrTo false (CTag "__sk_buff")); ("proto", CNum "__be16"); ("flags", CNum "__u64")]
    false false 31 []].

(** [bpf_skb_change_type] to [bpf_skb_change_tail]: [bpf/bpf/bpf_helper_defs.h], lines 878-1019. *)
Definition helpers_32_38 : list helper := [
  Helper "bpf_skb_change_type" (CNum "long")
    [("skb", CPtrTo false (CTag "__sk_buff")); ("type", CNum "__u32")]
    false false 32 [];
  Helper "bpf_skb_under_cgroup" (CNum "long")
    [("skb", CPtrTo false (CTag "__sk_buff")); ("map", CPtrTo false (CVoid)); ("index", CNum "__u32")]
    false false 33 [];
  Helper "bpf_get_hash_recalc" (CNum "__u32")
    [("skb", CPtrTo false (CTag "__sk_buff"))]
    false false 34 [];
  Helper "bpf_get_current_task" (CNum "__u64")
    []
    false false 35 [];
  Helper "bpf_probe_write_user" (CNum "long")
    [("dst", CPtrTo false (CVoid)); ("src", CPtrTo true (CVoid)); ("len", CNum "__u32")]
    false false 36 [];
  Helper "bpf_current_task_under_cgroup" (CNum "long")
    [("map", CPtrTo false (CVoid)); ("index", CNum "__u32")]
    false false 37 [];
  Helper "bpf_skb_change_tail" (CNum "long")
    [("skb", CPtrTo false (CTag "__sk_buff")); ("len", CNum "__u32"); ("flags", CNum "__u64")]
    false false 38 []].

(** [bpf_skb_pull_data] to [bpf_probe_read_str]: [bpf/bpf/bpf_helper_defs.h], lines 1021-1166. *)
Definition helpers_39_45 : list helper := [
  Helper "bpf_skb_pull_data" (CNum "long")
    [("skb", CPtrTo false (CTag "__sk_buff")); ("len", CNum "__u32")]
    false false 39 [];
  Helper "bpf_csum_update" (CNum "__s64")
    [("skb", CPtrTo false (CTag "__sk_buff")); ("csum", CNum "__wsum")]
    false false 40 [];
  Helper "bpf_set_hash_invalid" CVoid
    [("skb", CPtrTo false (CTag "__sk_buff"))]
    false false 41 [];
  Helper "bpf_get_numa_node_id" (CNum "long")
    []
    false false 42 [];
  Helper "bpf_skb_change_head" (CNum "long")
    [("skb", CPtrTo false (CTag "__sk_buff")); ("len", CNum "__u32"); ("flags", CNum "__u64")]
    false false 43 [];
  Helper "bpf_xdp_adjust_head" (CNum "long")
    [("xdp_md", CPtrTo false (CTag "xdp_md")); ("delta", CNum "int")]
    false false 44 [];
  Helper "bpf_probe_read_str" (CNum "long")
    [("dst", CPtrTo false (CVoid)); ("size", CNum "__u32"); ("unsafe_ptr", CPtrTo true (CVoid))]
    false false 45 []].

(** [bpf_get_socket_cookie] to [bpf_skb_adjust_room]: [bpf/bpf/bpf_helper_defs.h], lines 1168-1309. *)
Definition helpers_46_50 : list helper := [
  Helper "bpf_get_socket_cookie" (CNum "__u64")
    [("ctx", CPtrTo false (CVoid))]
    false false 46 [];
  Helper "bpf_get_socket_uid" (CNum "__u32")
    [("skb", CPtrTo false (CTag "__sk_buff"))]
    false false 47 [];
  Helper "bpf_set_hash" (CNum "long")
    [("skb", CPtrTo false (CTag "__sk_buff")); ("hash", CNum "__u32")]
    false false 48 [];
  Helper "bpf_setsockopt" (CNum "long")
    [("bpf_socket", CPtrTo false (CVoid)); ("level", CNum "int"); ("optname", CNum "int"); ("optval", CPtrTo false (CVoid)); ("optlen", CNum "int")]
    false false 49 [];
  Helper "bpf_skb_adjust_room" (CNum "long")
    [("skb", CPtrTo false (CTag "__sk_buff")); ("len_diff", CNum "__s32"); ("mode", CNum "__u32"); ("flags", CNum "__u64")]
    false false 50 []].

(** [bpf_redirect_map] to [bpf_xdp_adjust_meta]: [bpf/bpf/bpf_helper_defs.h], lines 1311-1409. *)
Definition helpers_51_54 : list helper := [
  Helper "bpf_redirect_map" (CNum "long")
    [("map", CPtrTo false (CVoid)); ("key", CNum "__u64"); ("flags", CNum "__u64")]
    false false 51 [];
  Helper "bpf_sk_redirect_map" (CNum "long")
    [("skb", CPtrTo false (CTag "__sk_buff")); ("map", CPtrTo false (CVoid)); ("key", CNum "__u32"); ("flags", CNum "__u64")]
    false false 52 [];
  Helper "bpf_sock_map_update" (CNum "long")
    [("skops", CPtrTo false (CTag "bpf_sock_ops")); ("map", CPtrTo false (CVoid)); ("key", CPtrTo false (CVoid)); ("flags", CNum "__u64")]
    false false 53 [];
  Helper "bpf_xdp_adjust_meta" (CNum "long")
    [("xdp_md", CPtrTo false (CTag "xdp_md")); ("delta", CNum "int")]
    false false 54 []].

(** [bpf_perf_event_read_value] to [bpf_override_return]: [bpf/bpf/bpf_helper_defs.h], lines 1411-1530. *)
Definition helpers_55_58 : list helper := [
  Helper "bpf_perf_event_read_value" (CNum "long")
    [("map", CPtrTo false (CVoid)); ("flags", CNum "__u64"); ("buf", CPtrTo false (CTag "bpf_perf_event_value")); ("buf_size", CNum "__u32")]
    false false 55 [];
  Helper "bpf_perf_prog_read_value" (CNum "long")
    [("ctx", CPtrTo false (CTag "bpf_perf_event_data")); ("buf", CPtrTo false (CTag "bpf_perf_event_value")); ("buf_size", CNum "__u32")]
    false false 56 [];
  Helper "bpf_getsockopt" (CNum "long")
    [("bpf_socket", CPtrTo false (CVoid)); ("level", CNum "int"); ("optname", CNum "int"); ("optval", CPtrTo false (CVoid)); ("optlen", CNum "int")]
    false false 57 [];
  Helper "bpf_override_return" (CNum "long")
    [("regs", CPtrTo false (CTag "pt_regs")); ("rc", CNum "__u64")]
    false false 58 []].

(** [bpf_sock_ops_cb_flags_set] to [bpf_msg_cork_bytes]: [bpf/bpf/bpf_helper_defs.h], lines 1532-1656. *)
Definition helpers_59_62 : list helper := [
  Helper "bpf_sock_ops_cb_flags_set" (CNum "long")
    [("bpf_sock", CPtrTo false (CTag "bpf_sock_ops")); ("argval", CNum "int")]
    false false 59 ["EINVAL"];
  Helper "bpf_msg_redirect_map" (CNum "long")
    [("msg", CPtrTo false (CTag "sk_msg_md")); ("map", CPtrTo false (CVoid)); ("key", CNum "__u32"); ("flags", CNum "__u64")]
    false false 60 [];
  Helper "bpf_msg_apply_bytes" (CNum "long")
    [("msg", CPtrTo false (CTag "sk_msg_md")); ("bytes", CNum "__u32")]
    false false 61 [];
  Helper "bpf_msg_cork_bytes" (CNum "long")
    [("msg", CPtrTo false (CTag "sk_msg_md")); ("bytes", CNum "__u32")]
    false false 62 []].

(** [bpf_msg_pull_data] to [bpf_get_stack]: [bpf/bpf/bpf_helper_defs.h], lines 1658-1798. *)
Definition helpers_63_67 : list helper := [
  Helper "bpf_msg_pull_data" (CNum "long")
    [("msg", CPtrTo false (CTag "sk_msg_md")); ("start", CNum "__u32"); ("end", CNum "__u32"); ("flags", CNum "__u64")]
    false false 63 [];
  Helper "bpf_bind" (CNum "long")
    [("ctx", CPtrTo false (CTag "bpf_sock_addr")); ("addr", CPtrTo false (CTag "sockaddr")); ("addr_len", CNum "int")]
    false false 64 [];
  Helper "bpf_xdp_adjust_tail" (CNum "long")
    [("xdp_md", CPtrTo false (CTag "xdp_md")); ("delta", CNum "int")]
    false false 65 [];
  Helper "bpf_skb_get_xfrm_state" (CNum "long")
    [("skb", CPtrTo false (CTag "__sk_buff")); ("index", CNum "__u32"); ("xfrm_state", CPtrTo false (CTag "bpf_xfrm_state")); ("size", CNum "__u32"); ("flags", CNum "__u64")]
    false false 66 [];
  Helper "bpf_get_stack" (CNum "long")
    [("ctx", CPtrTo false (CVoid)); ("buf", CPtrTo false (CVoid)); ("size", CNum "__u32"); ("flags", CNum "__u64")]
    false false 67 []].

(** [bpf_skb_load_bytes_relative] to [bpf_sk_redirect_hash]: [bpf/bpf/bpf_helper_defs.h], lines 1800-1939. *)
Definition helpers_68_72 : list helper := [
  Helper "bpf_skb_load_bytes_relative" (CNum "long")
    [("skb", CPtrTo true (CVoid)); ("offset", CNum "__u32"); ("to", CPtrTo false (CVoid)); ("len", CNum "__u32"); ("start_header", CNum "__u32")]
    false false 68 [];
  Helper "bpf_fib_lookup" (CNum "long")
    [("ctx", CPtrTo false (CVoid)); ("params", CPtrTo false (CTag "bpf_fib_lookup")); ("plen", CNum "int"); ("flags", CNum "__u32")]
    false false 69 [];
  Helper "bpf_sock_hash_update" (CNum "long")
    [("skops", CPtrTo false (CTag "bpf_sock_ops")); ("map", CPtrTo false (CVoid)); ("key", CPtrTo false (CVoid)); ("flags", CNum "__u64")]
    false false 70 [];
  Helper "bpf_msg_redirect_hash" (CNum "long")
    [("msg", CPtrTo false (CTag "sk_msg_md")); ("map", CPtrTo false (CVoid)); ("key", CPtrTo false (CVoid)); ("flags", CNum "__u64")]
    false false 71 [];
  Helper "bpf_sk_redirect_hash" (CNum "long")
    [("skb", CPtrTo false (CTag "__sk_buff")); ("map", CPtrTo false (CVoid)); ("key", CPtrTo false (CVoid)); ("flags", CNum "__u64")]
    false false 72 []].

(** [bpf_lwt_push_encap] to [bpf_rc_repeat]: [bpf/bpf/bpf_helper_defs.h], lines 1941-2075. *)
Definition helpers_73_77 : list helper := [
  Helper "bpf_lwt_push_encap" (CNum "long")
    [("skb", CPtrTo false (CTag "__sk_buff")); ("type", CNum "__u32"); ("hdr", CPtrTo false (CVoid)); ("len", CNum "__u32")]
    false false 73 [];
  Helper "bpf_lwt_seg6_store_bytes" (CNum "long")
    [("skb", CPtrTo false (CTag "__sk_buff")); ("offset", CNum "__u32"); ("from", CPtrTo true (CVoid)); ("len", CNum "__u32")]
    false false 74 [];
  Helper "bpf_lwt_seg6_adjust_srh" (CNum "long")
    [("skb", CPtrTo false (CTag "__sk_buff")); ("offset", CNum "__u32"); ("delta", CNum "__s32")]
    false false 75 [];
  Helper "bpf_lwt_seg6_action" (CNum "long")
    [("skb", CPtrTo false (CTag "__sk_buff")); ("action", CNum "__u32"); ("param", CPtrTo false (CVoid)); ("param_len", CNum "__u32")]
    false false 76 [];
  Helper "bpf_rc_repeat" (CNum "long")
    [("ctx", CPtrTo false (CVoid))]
    false false 77 []].

(** [bpf_rc_keydown] to [bpf_skb_ancestor_cgroup_id]: [bpf/bpf/bpf_helper_defs.h], lines 2077-2194. *)
Definition helpers_78_83 : list helper := [
  Helper "bpf_rc_keydown" (CNum "long")
    [("ctx", CPtrTo false (CVoid)); ("protocol", CNum "__u32"); ("scancode", CNum "__u64"); ("toggle", CNum "__u32")]
    false false 78 [];
  Helper "bpf_skb_cgroup_id" (CNum "__u64")
    [("skb", CPtrTo false (CTag "__sk_buff"))]
    false false 79 [];
  Helper "bpf_get_current_cgroup_id" (CNum "__u64")
    []
    false false 80 [];
  Helper "bpf_get_local_storage" (CPtrTo false (CVoid))
    [("map", CPtrTo false (CVoid)); ("flags", CNum "__u64")]
    false false 81 [];
  Helper "bpf_sk_select_reuseport" (CNum "long")
    [("reuse", CPtrTo false (CTag "sk_reuseport_md")); ("map", CPtrTo false (CVoid)); ("key", CPtrTo false (CVoid)); ("flags", CNum "__u64")]
    false false 82 [];
  Helper "bpf_skb_ancestor_cgroup_id" (CNum "__u64")
    [("skb", CPtrTo false (CTag "__sk_buff")); ("ancestor_level", CNum "int")]
    false false 83 []].

(** [bpf_sk_lookup_tcp] to [bpf_msg_push_data]: [bpf/bpf/bpf_helper_defs.h], lines 2196-2342. *)
Definition helpers_84_90 : list helper := [
  Helper "bpf_sk_lookup_tcp" (CPtrTo false (CTag "bpf_sock"))
    [("ctx", CPtrTo false (CVoid)); ("tuple", CPtrTo false (CTag "bpf_sock_tuple")); ("tuple_size", CNum "__u32"); ("netns", CNum "__u64"); ("flags", CNum "__u64")]
    false false 84 [];
  Helper "bpf_sk_lookup_udp" (CPtrTo false (CTag "bpf_sock"))
    [("ctx", CPtrTo false (CVoid)); ("tuple", CPtrTo false (CTag "bpf_sock_tuple")); ("tuple_size", CNum "__u32"); ("netns", CNum "__u64"); ("flags", CNum "__u64")]
    false false 85 [];
  Helper "bpf_sk_release" (CNum "long")
    [("sock", CPtrTo false (CVoid))]
    false false 86 [];
  Helper "bpf_map_push_elem" (CNum "long")
    [("map", CPtrTo false (CVoid)); ("value", CPtrTo true (CVoid)); ("flags", CNum "__u64")]
    false false 87 [];
  Helper "bpf_map_pop_elem" (CNum "long")
    [("map", CPtrTo false (CVoid)); ("value", CPtrTo false (CVoid))]
    false false 88 [];
  Helper "bpf_map_peek_elem" (CNum "long")
    [("map", CPtrTo false (CVoid)); ("value", CPtrTo false (CVoid))]
    false false 89 [];
  Helper "bpf_msg_push_data" (CNum "long")
    [("msg", CPtrTo false (CTag "sk_msg_md")); ("start", CNum "__u32"); ("len", CNum "__u32"); ("flags", CNum "__u64")]
    false false 90 []].

(** [bpf_msg_pop_data] to [bpf_get_listener_sock]: [bpf/bpf/bpf_helper_defs.h], lines 2344-2489. *)
Definition helpers_91_98 : list helper := [
  Helper "bpf_msg_pop_data" (CNum "long")
    [("msg", CPtrTo false (CTag "sk_msg_md")); ("start", CNum "__u32"); ("len", CNum "__u32"); ("flags", CNum "__u64")]
    false false 91 ["ENOMEM"];
  Helper "bpf_rc_pointer_rel" (CNum "long")
    [("ctx", CPtrTo false (CVoid)); ("rel_x", CNum "__s32"); ("rel_y", CNum "__s32")]
    false false 92 [];
  Helper "bpf_spin_lock" (CNum "long")
    [("lock", CPtrTo false (CTag "bpf_spin_lock"))]
    false false 93 [];
  Helper "bpf_spin_unlock" (CNum "long")
    [("lock", CPtrTo false (CTag "bpf_spin_lock"))]
    false false 94 [];
  Helper "bpf_sk_fullsock" (CPtrTo false (CTag "bpf_sock"))
    [("sk", CPtrTo false (CTag "bpf_sock"))]
    false false 95 [];
  Helper "bpf_tcp_sock" (CPtrTo false (CTag "bpf_tcp_sock"))
    [("sk", CPtrTo false (CTag "bpf_sock"))]
    false false 96 [];
  Helper "bpf_skb_ecn_set_ce" (CNum "long")
    [("skb", CPtrTo false (CTag "__sk_buff"))]
    false false 97 ["ECT"];
  Helper "bpf_get_listener_sock" (CPtrTo false (CTag "bpf_sock"))
    [("sk", CPtrTo false (CTag "bpf_sock"))]
    false false 98 []].

(** [bpf_skc_lookup_tcp] to [bpf_sysctl_set_new_value]: [bpf/bpf/bpf_helper_defs.h], lines 2491-2617. *)
Definition helpers_99_104 : list helper := [
  Helper "bpf_skc_lookup_tcp" (CPtrTo false (CTag "bpf_sock"))
    [("ctx", CPtrTo false (CVoid)); ("tuple", CPtrTo false (CTag "bpf_sock_tuple")); ("tuple_size", CNum "__u32"); ("netns", CNum "__u64"); ("flags", CNum "__u64")]
    false false 99 [];
  Helper "bpf_tcp_check_syncookie" (CNum "long")
    [("sk", CPtrTo false (CVoid)); ("iph", CPtrTo false (CVoid)); ("iph_len", CNum "__u32"); ("th", CPtrTo false (CTag "tcphdr")); ("th_len", CNum "__u32")]
    false false 100 [];
  Helper "bpf_sysctl_get_name" (CNum "long")
    [("ctx", CPtrTo false (CTag "bpf_sysctl")); ("buf", CPtrTo false (CNum "char")); ("buf_len", CNum "unsigned long"); ("flags", CNum "__u64")]
    false false 101 ["E2BIG"];
  Helper "bpf_sysctl_get_current_value" (CNum "long")
    [("ctx", CPtrTo false (CTag "bpf_sysctl")); ("buf", CPtrTo false (CNum "char")); ("buf_len", CNum "unsigned long")]
    false false 102 ["E2BIG"; "EINVAL"];
  Helper "bpf_sysctl_get_new_value" (CNum "long")
    [("ctx", CPtrTo false (CTag "bpf_sysctl")); ("buf", CPtrTo false (CNum "char")); ("buf_len", CNum "unsigned long")]
    false false 103 ["E2BIG"; "EINVAL"];
  Helper "bpf_sysctl_set_new_value" (CNum "long")
    [("ctx", CPtrTo false (CTag "bpf_sysctl")); ("buf", CPtrTo true (CNum "char")); ("buf_len", CNum "unsigned long")]
    false false 104 ["E2BIG"; "EINVAL"]].

(** [bpf_strtol] to [bpf_send_signal]: [bpf/bpf/bpf_helper_defs.h], lines 2619-2739. *)
Definition helpers_105_109 : list helper := [
  Helper "bpf_strtol" (CNum "long")
    [("buf", CPtrTo true (CNum "char")); ("buf_len", CNum "unsigned long"); ("flags", CNum "__u64"); ("res", CPtrTo false (CNum "long"))]
    false false 105 ["EINVAL"; "ERANGE"];
  Helper "bpf_strtoul" (CNum "long")
    [("buf", CPtrTo true (CNum "char")); ("buf_len", CNum "unsigned long"); ("flags", CNum "__u64"); ("res", CPtrTo false (CNum "unsigned long"))]
    false false 106 ["EINVAL"; "ERANGE"];
  Helper "bpf_sk_storage_get" (CPtrTo false (CVoid))
    [("map", CPtrTo false (CVoid)); ("sk", CPtrTo false (CVoid)); ("value", CPtrTo false (CVoid)); ("flags", CNum "__u64")]
    false false 107 [];
  Helper "bpf_sk_storage_delete" (CNum "long")
    [("map", CPtrTo false (CVoid)); ("sk", CPtrTo false (CVoid))]
    false false 108 ["ENOENT"; "EINVAL"];
  Helper "bpf_send_signal" (CNum "long")
    [("sig", CNum "__u32")]
    false false 109 ["EBUSY"; "EINVAL"; "EPERM"; "EAGAIN"]].

(** [bpf_tcp_gen_syncookie] to [bpf_probe_read_kernel_str]: [bpf/bpf/bpf_helper_defs.h], lines 2741-2880. *)
Definition helpers_110_115 : list helper := [
  Helper "bpf_tcp_gen_syncookie" (CNum "__s64")
    [("sk", CPtrTo false (CVoid)); ("iph", CPtrTo false (CVoid)); ("iph_len", CNum "__u32"); ("th", CPtrTo false (CTag "tcphdr")); ("th_len", CNum "__u32")]
    false false 110 ["EINVAL"; "ENOENT"; "EOPNOTSUPP"; "EPROTONOSUPPORT"];
  Helper "bpf_skb_output" (CNum "long")
    [("ctx", CPtrTo false (CVoid)); ("map", CPtrTo false (CVoid)); ("flags", CNum "__u64"); ("data", CPtrTo false (CVoid)); ("size", CNum "__u64")]
    false false 111 [];
  Helper "bpf_probe_read_user" (CNum "long")
    [("dst", CPtrTo false (CVoid)); ("size", CNum "__u32"); ("unsafe_ptr", CPtrTo true (CVoid))]
    false false 112 [];
  Helper "bpf_probe_read_kernel" (CNum "long")
    [("dst", CPtrTo false (CVoid)); ("size", CNum "__u32"); ("unsafe_ptr", CPtrTo true (CVoid))]
    false false 113 [];
  Helper "bpf_probe_read_user_str" (CNum "long")
    [("dst", CPtrTo false (CVoid)); ("size", CNum "__u32"); ("unsafe_ptr", CPtrTo true (CVoid))]
    false false 114 [];
  Helper "bpf_probe_read_kernel_str" (CNum "long")
    [("dst", CPtrTo false (CVoid)); ("size", CNum "__u32"); ("unsafe_ptr", CPtrTo true (CVoid))]
    false false 115 []].

(** [bpf_tcp_send_ack] to [bpf_get_current_ancestor_cgroup_id]: [bpf/bpf/bpf_helper_defs.h], lines 2882-3025. *)
Definition helpers_116_123 : list helper := [
  Helper "bpf_tcp_send_ack" (CNum "long")
    [("tp", CPtrTo false (CVoid)); ("rcv_nxt", CNum "__u32")]
    false false 116 [];
  Helper "bpf_send_signal_thread" (CNum "long")
    [("sig", CNum "__u32")]
    false false 117 ["EBUSY"; "EINVAL"; "EPERM"; "EAGAIN"];
  Helper "bpf_jiffies64" (CNum "__u64")
    []
    false false 118 [];
  Helper "bpf_read_branch_records" (CNum "long")
    [("ctx", CPtrTo false (CTag "bpf_perf_event_data")); ("buf", CPtrTo false (CVoid)); ("size", CNum "__u32"); ("flags", CNum "__u64")]
    false false 119 ["EINVAL"; "ENOENT"];
  Helper "bpf_get_ns_current_pid_tgid" (CNum "long")
    [("dev", CNum "__u64"); ("ino", CNum "__u64"); ("nsdata", CPtrTo false (CTag "bpf_pidns_info")); ("size", CNum "__u32")]
    false false 120 ["EINVAL"; "ENOENT"];
  Helper "bpf_xdp_output" (CNum "long")
    [("ctx", CPtrTo false (CVoid)); ("map", CPtrTo false (CVoid)); ("flags", CNum "__u64"); ("data", CPtrTo false (CVoid)); ("size", CNum "__u64")]
    false false 121 [];
  Helper "bpf_get_netns_cookie" (CNum "__u64")
    [("ctx", CPtrTo false (CVoid))]
    false false 122 [];
  Helper "bpf_get_current_ancestor_cgroup_id" (CNum "__u64")
    [("ancestor_level", CNum "int")]
    false false 123 []].

(** [bpf_sk_assign] to [bpf_sk_ancestor_cgroup_id]: [bpf/bpf/bpf_helper_defs.h], lines 3027-3156. *)
Definition helpers_124_129 : list helper := [
  Helper "bpf_sk_assign" (CNum "long")
    [("ctx", CPtrTo false (CVoid)); ("sk", CPtrTo false (CVoid)); ("flags", CNum "__u64")]
    false false 124 ["EINVAL"; "ENOENT"; "ENETUNREACH"; "EOPNOTSUPP"];
  Helper "bpf_ktime_get_boot_ns" (CNum "__u64")
    []
    false false 125 [];
  Helper "bpf_seq_printf" (CNum "long")
    [("m", CPtrTo false (CTag "seq_file")); ("fmt", CPtrTo true (CNum "char")); ("fmt_size", CNum "__u32"); ("data", CPtrTo true (CVoid)); ("data_len", CNum "__u32")]
    false false 126 ["EBUSY"; "EINVAL"; "E2BIG"; "EOVERFLOW"];
  Helper "bpf_seq_write" (CNum "long")
    [("m", CPtrTo false (CTag "seq_file")); ("data", CPtrTo true (CVoid)); ("len", CNum "__u32")]
    false false 127 ["EOVERFLOW"];
  Helper "bpf_sk_cgroup_id" (CNum "__u64")
    [("sk", CPtrTo false (CVoid))]
    false false 128 [];
  Helper "bpf_sk_ancestor_cgroup_id" (CNum "__u64")
    [("sk", CPtrTo false (CVoid)); ("ancestor_level", CNum "int")]
    false false 129 []].

(** [bpf_ringbuf_output] to [bpf_skc_to_tcp_sock]: [bpf/bpf/bpf_helper_defs.h], lines 3158-3304. *)
Definition helpers_130_137 : list helper := [
  Helper "bpf_ringbuf_output" (CNum "long")
    [("ringbuf", CPtrTo false (CVoid)); ("data", CPtrTo false (CVoid)); ("size", CNum "__u64"); ("flags", CNum "__u64")]
    false false 130 [];
  Helper "bpf_ringbuf_reserve" (CPtrTo false (CVoid))
    [("ringbuf", CPtrTo false (CVoid)); ("size", CNum "__u64"); ("flags", CNum "__u64")]
    false false 131 [];
  Helper "bpf_ringbuf_submit" CVoid
    [("data", CPtrTo false (CVoid)); ("flags", CNum "__u64")]
    false false 132 [];
  Helper "bpf_ringbuf_discard" CVoid
    [("data", CPtrTo false (CVoid)); ("flags", CNum "__u64")]
    false false 133 [];
  Helper "bpf_ringbuf_query" (CNum "__u64")
    [("ringbuf", CPtrTo false (CVoid)); ("flags", CNum "__u64")]
    false false 134 [];
  Helper "bpf_csum_level" (CNum "long")
    [("skb", CPtrTo false (CTag "__sk_buff")); ("level", CNum "__u64")]
    false false 135 [];
  Helper "bpf_skc_to_tcp6_sock" (CPtrTo false (CTag "tcp6_sock"))
    [("sk", CPtrTo false (CVoid))]
    false false 136 [];
  Helper "bpf_skc_to_tcp_sock" (CPtrTo false (CTag "tcp_sock"))
    [("sk", CPtrTo false (CVoid))]
    false false 137 []].

(** [bpf_skc_to_tcp_timewait_sock] to [bpf_load_hdr_opt]: [bpf/bpf/bpf_helper_defs.h], lines 3306-3440. *)
Definition helpers_138_142 : list helper := [
  Helper "bpf_skc_to_tcp_timewait_sock" (CPtrTo false (CTag "tcp_timewait_sock"))
    [("sk", CPtrTo false (CVoid))]
    false false 138 [];
  Helper "bpf_skc_to_tcp_request_sock" (CPtrTo false (CTag "tcp_request_sock"))
    [("sk", CPtrTo false (CVoid))]
    false false 139 [];
  Helper "bpf_skc_to_udp6_sock" (CPtrTo false (CTag "udp6_sock"))
    [("sk", CPtrTo false (CVoid))]
    false false 140 [];
  Helper "bpf_get_task_stack" (CNum "long")
    [("task", CPtrTo false (CTag "task_struct")); ("buf", CPtrTo false (CVoid)); ("size", CNum "__u32"); ("flags", CNum "__u64")]
    false false 141 [];
  Helper "bpf_load_hdr_opt" (CNum "long")
    [("skops", CPtrTo false (CTag "bpf_sock_ops")); ("searchby_res", CPtrTo false (CVoid)); ("len", CNum "__u32"); ("flags", CNum "__u64")]
    false false 142 ["EINVAL"; "ENOMSG"; "ENOENT"; "ENOSPC"; "EFAULT"; "EPERM"]].

(** [bpf_store_hdr_opt] to [bpf_copy_from_user]: [bpf/bpf/bpf_helper_defs.h], lines 3442-3574. *)
Definition helpers_143_148 : list helper := [
  Helper "bpf_store_hdr_opt" (CNum "long")
    [("skops", CPtrTo false (CTag "bpf_sock_ops")); ("from", CPtrTo true (CVoid)); ("len", CNum "__u32"); ("flags", CNum "__u64")]
    false false 143 ["EINVAL"; "ENOSPC"; "EEXIST"; "EFAULT"; "EPERM"];
  Helper "bpf_reserve_hdr_opt" (CNum "long")
    [("skops", CPtrTo false (CTag "bpf_sock_ops")); ("len", CNum "__u32"); ("flags", CNum "__u64")]
    false false 144 ["EINVAL"; "ENOSPC"; "EPERM"];
  Helper "bpf_inode_storage_get" (CPtrTo false (CVoid))
    [("map", CPtrTo false (CVoid)); ("inode", CPtrTo false (CVoid)); ("value", CPtrTo false (CVoid)); ("flags", CNum "__u64")]
    false false 145 [];
  Helper "bpf_inode_storage_delete" (CNum "int")
    [("map", CPtrTo false (CVoid)); ("inode", CPtrTo false (CVoid))]
    false false 146 ["ENOENT"];
  Helper "bpf_d_path" (CNum "long")
    [("path", CPtrTo true (CTag "path")); ("buf", CPtrTo false (CNum "char")); ("sz", CNum "__u32")]
    false false 147 [];
  Helper "bpf_copy_from_user" (CNum "long")
    [("dst", CPtrTo false (CVoid)); ("size", CNum "__u32"); ("user_ptr", CPtrTo true (CVoid))]
    false false 148 []].

(** [bpf_snprintf_btf] to [bpf_this_cpu_ptr]: [bpf/bpf/bpf_helper_defs.h], lines 3576-3701. *)
Definition helpers_149_154 : list helper := [
  Helper "bpf_snprintf_btf" (CNum "long")
    [("str", CPtrTo false (CNum "char")); ("str_size", CNum "__u32"); ("ptr", CPtrTo false (CTag "btf_ptr")); ("btf_ptr_size", CNum "__u32"); ("flags", CNum "__u64")]
    false false 149 [];
  Helper "bpf_seq_printf_btf" (CNum "long")
    [("m", CPtrTo false (CTag "seq_file")); ("ptr", CPtrTo false (CTag "btf_ptr")); ("ptr_size", CNum "__u32"); ("flags", CNum "__u64")]
    false false 150 [];
  Helper "bpf_skb_cgroup_classid" (CNum "__u64")
    [("skb", CPtrTo false (CTag "__sk_buff"))]
    false false 151 [];
  Helper "bpf_redirect_neigh" (CNum "long")
    [("ifindex", CNum "__u32"); ("params", CPtrTo false (CTag "bpf_redir_neigh")); ("plen", CNum "int"); ("flags", CNum "__u64")]
    false false 152 [];
  Helper "bpf_per_cpu_ptr" (CPtrTo false (CVoid))
    [("percpu_ptr", CPtrTo true (CVoid)); ("cpu", CNum "__u32")]
    false false 153 [];
  Helper "bpf_this_cpu_ptr" (CPtrTo false (CVoid))
    [("percpu_ptr", CPtrTo true (CVoid))]
    false false 154 []].

(** [bpf_redirect_peer] to [bpf_sock_from_file]: [bpf/bpf/bpf_helper_defs.h], lines 3703-3836. *)
Definition helpers_155_162 : list helper := [
  Helper "bpf_redirect_peer" (CNum "long")
    [("ifindex", CNum "__u32"); ("flags", CNum "__u64")]
    false false 155 [];
  Helper "bpf_task_storage_get" (CPtrTo false (CVoid))
    [("map", CPtrTo false (CVoid)); ("task", CPtrTo false (CTag "task_struct")); ("value", CPtrTo false (CVoid)); ("flags", CNum "__u64")]
    false false 156 [];
  Helper "bpf_task_storage_delete" (CNum "long")
    [("map", CPtrTo false (CVoid)); ("task", CPtrTo false (CTag "task_struct"))]
    false false 157 ["ENOENT"];
  Helper "bpf_get_current_task_btf" (CPtrTo false (CTag "task_struct"))
    []
    false false 158 [];
  Helper "bpf_bprm_opts_set" (CNum "long")
    [("bprm", CPtrTo false (CTag "linux_binprm")); ("flags", CNum "__u64")]
    false false 159 ["EINVAL"];
  Helper "bpf_ktime_get_coarse_ns" (CNum "__u64")
    []
    false false 160 [];
  Helper "bpf_ima_inode_hash" (CNum "long")
    [("inode", CPtrTo false (CTag "inode")); ("dst", CPtrTo false (CVoid)); ("size", CNum "__u32")]
    false false 161 ["EOPNOTSUPP"; "EINVAL"];
  Helper "bpf_sock_from_file" (CPtrTo false (CTag "socket"))
    [("file", CPtrTo false (CTag "file"))]
    false false 162 []].

(** [bpf_check_mtu] to [bpf_sys_bpf]: [bpf/bpf/bpf_helper_defs.h], lines 3838-3982. *)
Definition helpers_163_166 : list helper := [
  Helper "bpf_check_mtu" (CNum "long")
    [("ctx", CPtrTo false (CVoid)); ("ifindex", CNum "__u32"); ("mtu_len", CPtrTo false (CNum "__u32")); ("len_diff", CNum "__s32"); ("flags", CNum "__u64")]
    false false 163 [];
  Helper "bpf_for_each_map_elem" (CNum "long")
    [("map", CPtrTo false (CVoid)); ("callback_fn", CPtrTo false (CVoid)); ("callback_ctx", CPtrTo false (CVoid)); ("flags", CNum "__u64")]
    false false 164 ["EINVAL"];
  Helper "bpf_snprintf" (CNum "long")
    [("str", CPtrTo false (CNum "char")); ("str_size", CNum "__u32"); ("fmt", CPtrTo true (CNum "char")); ("data", CPtrTo false (CNum "__u64")); ("data_len", CNum "__u32")]
    false false 165 ["EBUSY"];
  Helper "bpf_sys_bpf" (CNum "long")
    [("cmd", CNum "__u32"); ("attr", CPtrTo false (CVoid)); ("attr_size", CNum "__u32")]
    false false 166 []].

(** [bpf_btf_find_by_name_kind] to [bpf_get_attach_cookie]: [bpf/bpf/bpf_helper_defs.h], lines 3984-4125. *)
Definition helpers_167_174 : list helper := [
  Helper "bpf_btf_find_by_name_kind" (CNum "long")
    [("name", CPtrTo false (CNum "char")); ("name_sz", CNum "int"); ("kind", CNum "__u32"); ("flags", CNum "int")]
    false false 167 [];
  Helper "bpf_sys_close" (CNum "long")
    [("fd", CNum "__u32")]
    false false 168 [];
  Helper "bpf_timer_init" (CNum "long")
    [("timer", CPtrTo false (CTag "bpf_timer")); ("map", CPtrTo false (CVoid)); ("flags", CNum "__u64")]
    false false 169 ["EBUSY"; "EINVAL"; "EPERM"];
  Helper "bpf_timer_set_callback" (CNum "long")
    [("timer", CPtrTo false (CTag "bpf_timer")); ("callback_fn", CPtrTo false (CVoid))]
    false false 170 ["EINVAL"; "EPERM"];
  Helper "bpf_timer_start" (CNum "long")
    [("timer", CPtrTo false (CTag "bpf_timer")); ("nsecs", CNum "__u64"); ("flags", CNum "__u64")]
    false false 171 ["EINVAL"];
  Helper "bpf_timer_cancel" (CNum "long")
    [("timer", CPtrTo false (CTag "bpf_timer"))]
    false false 172 ["EINVAL"; "EDEADLK"];
  Helper "bpf_get_func_ip" (CNum "__u64")
    [("ctx", CPtrTo false (CVoid))]
    false false 173 [];
  Helper "bpf_get_attach_cookie" (CNum "__u64")
    [("ctx", CPtrTo false (CVoid))]
    false false 174 []].

(** [bpf_task_pt_regs] to [bpf_strncmp]: [bpf/bpf/bpf_helper_defs.h], lines 4127-4268. *)
Definition helpers_175_182 : list helper := [
  Helper "bpf_task_pt_regs" (CNum "long")
    [("task", CPtrTo false (CTag "task_struct"))]
    false false 175 [];
  Helper "bpf_get_branch_snapshot" (CNum "long")
    [("entries", CPtrTo false (CVoid)); ("size", CNum "__u32"); ("flags", CNum "__u64")]
    false false 176 ["EINVAL"; "ENOENT"];
  Helper "bpf_trace_vprintk" (CNum "long")
    [("fmt", CPtrTo true (CNum "char")); ("fmt_size", CNum "__u32"); ("data", CPtrTo true (CVoid)); ("data_len", CNum "__u32")]
    false false 177 [];
  Helper "bpf_skc_to_unix_sock" (CPtrTo false (CTag "unix_sock"))
    [("sk", CPtrTo false (CVoid))]
    false false 178 [];
  Helper "bpf_kallsyms_lookup_name" (CNum "long")
    [("name", CPtrTo true (CNum "char")); ("name_sz", CNum "int"); ("flags", CNum "int"); ("res", CPtrTo false (CNum "__u64"))]
    false false 179 ["EINVAL"; "ENOENT"; "EPERM"];
  Helper "bpf_find_vma" (CNum "long")
    [("task", CPtrTo false (CTag "task_struct")); ("addr", CNum "__u64"); ("callback_fn", CPtrTo false (CVoid)); ("callback_ctx", CPtrTo false (CVoid)); ("flags", CNum "__u64")]
    false false 180 ["ENOENT"; "EBUSY"; "EINVAL"];
  Helper "bpf_loop" (CNum "long")
    [("nr_loops", CNum "__u32"); ("callback_fn", CPtrTo false (CVoid)); ("callback_ctx", CPtrTo false (CVoid)); ("flags", CNum "__u64")]
    false false 181 ["EINVAL"; "E2BIG"];
  Helper "bpf_strncmp" (CNum "long")
    [("s1", CPtrTo true (CNum "char")); ("s1_sz", CNum "__u32"); ("s2", CPtrTo true (CNum "char"))]
    false false 182 []].

(** [bpf_get_func_arg] to [bpf_copy_from_user_task]: [bpf/bpf/bpf_helper_defs.h], lines 4270-4390. *)
Definition helpers_183_191 : list helper := [
  Helper "bpf_get_func_arg" (CNum "long")
    [("ctx", CPtrTo false (CVoid)); ("n", CNum "__u32"); ("value", CPtrTo false (CNum "__u64"))]
    false false 183 ["EINVAL"];
  Helper "bpf_get_func_ret" (CNum "long")
    [("ctx", CPtrTo false (CVoid)); ("value", CPtrTo false (CNum "__u64"))]
    false false 184 ["EOPNOTSUPP"];
  Helper "bpf_get_func_arg_cnt" (CNum "long")
    [("ctx", CPtrTo false (CVoid))]
    false false 185 [];
  Helper "bpf_get_retval" (CNum "int")
    []
    false false 186 [];
  Helper "bpf_set_retval" (CNum "int")
    [("retval", CNum "int")]
    false false 187 [];
  Helper "bpf_xdp_get_buff_len" (CNum "__u64")
    [("xdp_md", CPtrTo false (CTag "xdp_md"))]
    false false 188 [];
  Helper "bpf_xdp_load_bytes" (CNum "long")
    [("xdp_md", CPtrTo false (CTag "xdp_md")); ("offset", CNum "__u32"); ("buf", CPtrTo false (CVoid)); ("len", CNum "__u32")]
    false false 189 [];
  Helper "bpf_xdp_store_bytes" (CNum "long")
    [("xdp_md", CPtrTo false (CTag "xdp_md")); ("offset", CNum "__u32"); ("buf", CPtrTo false (CVoid)); ("len", CNum "__u32")]
    false false 190 [];
  Helper "bpf_copy_from_user_task" (CNum "long")
    [("dst", CPtrTo false (CVoid)); ("size", CNum "__u32"); ("user_ptr", CPtrTo true (CVoid)); ("tsk", CPtrTo false (CTag "task_struct")); ("flags", CNum "__u64")]
    false false 191 []].

(** [bpf_skb_set_tstamp] to [bpf_ringbuf_discard_dynptr]: [bpf/bpf/bpf_helper_defs.h], lines 4392-4535. *)
Definition helpers_192_200 : list helper := [
  Helper "bpf_skb_set_tstamp" (CNum "long")
    [("skb", CPtrTo false (CTag "__sk_buff")); ("tstamp", CNum "__u64"); ("tstamp_type", CNum "__u32")]
    false false 192 ["EINVAL"; "EOPNOTSUPP"];
  Helper "bpf_ima_file_hash" (CNum "long")
    [("file", CPtrTo false (CTag "file")); ("dst", CPtrTo false (CVoid)); ("size", CNum "__u32")]
    false false 193 ["EOPNOTSUPP"; "EINVAL"];
  Helper "bpf_kptr_xchg" (CPtrTo false (CVoid))
    [("dst", CPtrTo false (CVoid)); ("ptr", CPtrTo false (CVoid))]
    false false 194 [];
  Helper "bpf_map_lookup_percpu_elem" (CPtrTo false (CVoid))
    [("map", CPtrTo false (CVoid)); ("key", CPtrTo true (CVoid)); ("cpu", CNum "__u32")]
    false false 195 [];
  Helper "bpf_skc_to_mptcp_sock" (CPtrTo false (CTag "mptcp_sock"))
    [("sk", CPtrTo false (CVoid))]
    false false 196 [];
  Helper "bpf_dynptr_from_mem" (CNum "long")
    [("data", CPtrTo false (CVoid)); ("size", CNum "__u64"); ("flags", CNum "__u64"); ("ptr", CPtrTo false (CTag "bpf_dynptr"))]
    false false 197 [];
  Helper "bpf_ringbuf_reserve_dynptr" (CNum "long")
    [("ringbuf", CPtrTo false (CVoid)); ("size", CNum "__u32"); ("flags", CNum "__u64"); ("ptr", CPtrTo false (CTag "bpf_dynptr"))]
    false false 198 [];
  Helper "bpf_ringbuf_submit_dynptr" CVoid
    [("ptr", CPtrTo false (CTag "bpf_dynptr")); ("flags", CNum "__u64")]
    false false 199 [];
  Helper "bpf_ringbuf_discard_dynptr" CVoid
    [("ptr", CPtrTo false (CTag "bpf_dynptr")); ("flags", CNum "__u64")]
    false false 200 []].

(** [bpf_dynptr_read] to [bpf_tcp_raw_check_syncookie_ipv6]: [bpf/bpf/bpf_helper_defs.h], lines 4537-4682. *)
Definition helpers_201_207 : list helper := [
  Helper "bpf_dynptr_read" (CNum "long")
    [("dst", CPtrTo false (CVoid)); ("len", CNum "__u64"); ("src", CPtrTo true (CTag "bpf_dynptr")); ("offset", CNum "__u64"); ("flags", CNum "__u64")]
    false false 201 [];
  Helper "bpf_dynptr_write" (CNum "long")
    [("dst", CPtrTo true (CTag "bpf_dynptr")); ("offset", CNum "__u64"); ("src", CPtrTo false (CVoid)); ("len", CNum "__u64"); ("flags", CNum "__u64")]
    false false 202 [];
  Helper "bpf_dynptr_data" (CPtrTo false (CVoid))
    [("ptr", CPtrTo true (CTag "bpf_dynptr")); ("offset", CNum "__u64"); ("len", CNum "__u64")]
    false false 203 [];
  Helper "bpf_tcp_raw_gen_syncookie_ipv4" (CNum "__s64")
    [("iph", CPtrTo false (CTag "iphdr")); ("th", CPtrTo false (CTag "tcphdr")); ("th_len", CNum "__u32")]
    false false 204 ["EINVAL"];
  Helper "bpf_tcp_raw_gen_syncookie_ipv6" (CNum "__s64")
    [("iph", CPtrTo false (CTag "ipv6hdr")); ("th", CPtrTo false (CTag "tcphdr")); ("th_len", CNum "__u32")]
    false false 205 ["EINVAL"; "EPROTONOSUPPORT"];
  Helper "bpf_tcp_raw_check_syncookie_ipv4" (CNum "long")
    [("iph", CPtrTo false (CTag "iphdr")); ("th", CPtrTo false (CTag "tcphdr"))]
    false false 206 ["EACCES"];
  Helper "bpf_tcp_raw_check_syncookie_ipv6" (CNum "long")
    [("iph", CPtrTo false (CTag "ipv6hdr")); ("th", CPtrTo false (CTag "tcphdr"))]
    false false 207 ["EACCES"; "EPROTONOSUPPORT"]].

(** [bpf_ktime_get_tai_ns] to [bpf_cgrp_storage_delete]: [bpf/bpf/bpf_helper_defs.h], lines 4684-4785. *)
Definition helpers_208_211 : list helper := [
  Helper "bpf_ktime_get_tai_ns" (CNum "__u64")
    []
    false false 208 [];
  Helper "bpf_user_ringbuf_drain" (CNum "long")
    [("map", CPtrTo false (CVoid)); ("callback_fn", CPtrTo false (CVoid)); ("ctx", CPtrTo false (CVoid)); ("flags", CNum "__u64")]
    false false 209 ["EBUSY"; "EINVAL"; "E2BIG"];
  Helper "bpf_cgrp_storage_get" (CPtrTo false (CVoid))
    [("map", CPtrTo false (CVoid)); ("cgroup", CPtrTo false (CTag "cgroup")); ("value", CPtrTo false (CVoid)); ("flags", CNum "__u64")]
    false false 210 [];
  Helper "bpf_cgrp_storage_delete" (CNum "long")
    [("map", CPtrTo false (CVoid)); ("cgroup", CPtrTo false (CTag "cgroup"))]
    false false 211 ["ENOENT"]].

(** The whole header, in order. *)
Definition helper_table : list helper :=
  (helpers_1_7 ++
  helpers_8_12 ++
  helpers_13_19 ++
  helpers_20_22 ++
  helpers_23_26 ++
  helpers_27_31 ++
  helpers_32_38 ++
  helpers_39_45 ++
  helpers_46_50 ++
  helpers_51_54 ++
  helpers_55_58 ++
  helpers_59_62 ++
  helpers_63_67 ++
  helpers_68_72 ++
  helpers_73_77 ++
  helpers_78_83 ++
  helpers_84_90 ++
  helpers_91_98 ++
  helpers_99_104 ++
  helpers_105_109 ++
  helpers_110_115 ++
  helpers_116_123 ++
  helpers_124_129 ++
  helpers_130_137 ++
  helpers_138_142 ++
  helpers_143_148 ++
  helpers_149_154 ++
  helpers_155_162 ++
  helpers_163_166 ++
  helpers_167_174 ++
  helpers_175_182 ++
  helpers_183_191 ++
  helpers_192_200 ++
  helpers_201_207 ++
  helpers_208_211)%list.

(** ** Calls against the table *)

Definition find_helper (name : string) : option helper :=
  find (λ h, String.eqb (h_name h) name) helper_table.

(** May a value of the first type be passed or assigned to the second without
    a cast? Integers convert; a pointer converts to and from [void *]; a
    [const] pointee stays [const]. *)
Definition assignable (from to : proto_type) : bool :=
  match from, to with
  | CNum _, CNum _ => true
  | CPtrTo c t, CPtrTo c' t' =>
      implb c c' && (bool_decide (t = t') || bool_decide (t = CVoid) || bool_decide (t' = CVoid))
  | _, _ => false
  end.

(** A call site: the helper, the types of its arguments, and the type its
    result is used at ([CVoid] when there is none). *)
Record call_site : Type := CallSite {
  cs_helper : string;
  cs_args : list proto_type;
  cs_result : proto_type;
}.

Definition call_ok (c : call_site) : bool :=
  match find_helper (cs_helper c) with
  | None => false
  | Some h =>
      bool_decide (length (cs_args c) = length (h_params h)) &&
      forallb (λ '(a, p), assignable a p) (zip (cs_args c) (h_params h).*2) &&
      (bool_decide (cs_result c = CVoid) || assignable (h_ret h) (cs_result c))
  end.

(** ** Properties *)

Definition uapi_name (h : helper) : string :=
  String.append "BPF_FUNC_" (default (h_name h) (CutPrefix (h_name h) "bpf_")).

Lemma table_prefixed : Forall (λ h, ∃ n, h_name h = String.append "bpf_" n) helper_table.
Proof.
  apply List.Forall_forall. intros h Hh. apply HasPrefix_spec.
  revert h Hh. apply List.forallb_forall. vm_compute. reflexivity.
Qed.

Lemma func_id_NoDup : NoDup (enumerators enum_bpf_func_id).*1.
Proof. by_decide. Qed.

Lemma table_ids : Forall (λ h, h_id h ≠ 0) helper_table.
Proof. by_decide. Qed.

Lemma func_id_split :
  enumerators enum_bpf_func_id =
  ("BPF_FUNC_unspec", 0) :: ((λ h, (uapi_name h, h_id h)) <$> helper_table)
    ++ [("__BPF_FUNC_MAX_ID", 212)].
Proof. vm_compute. reflexivity. Qed.

(** C37: The numbers the header compiles the helper calls to are the kernel's:
    the header declares a helper [bpf_<n>] with number [i] exactly when
    [enum bpf_func_id] of [vmlinux.h] gives [BPF_FUNC_<n>] the nonzero value
    [i], and the numbers are 1 to 211, each used once. *)
Theorem helper_numbers_match_uapi n i :
  ((∃ h, h ∈ helper_table ∧ h_name h = String.append "bpf_" n ∧ h_id h = i) ↔
   enum_value enum_bpf_func_id (String.append "BPF_FUNC_" n) = Some i ∧ i ≠ 0) ∧
  map h_id helper_table = seqZ 1 211.
Proof.
  split; [|vm_compute; reflexivity].
  rewrite enum_value_spec by apply func_id_NoDup. rewrite func_id_split.
  rewrite elem_of_cons, elem_of_app, list_elem_of_singleton.
  pose proof table_ids as Hid. rewrite Forall_forall in Hid.
  split.
  - intros (h & Hh & Hn & <-). split; [|by apply Hid]. right; left.
    apply list_elem_of_fmap. exists h. split; [|done].
    unfold uapi_name. by rewrite Hn, CutPrefix_app.
  - intros [[[= _ ->]|[(h & [= Hn ->] & Hh)%list_elem_of_fmap|E]] Hi]; [done| |].
    + exists h. split_and!; [done| |done].
      pose proof table_prefixed as HP. rewrite Forall_forall in HP.
      destruct (HP h Hh) as [n' Hn']. rewrite Hn' in Hn |- *.
      cbn in Hn. by rewrite Hn.
    + exfalso. by injection E.
Qed.
