(* ===== verification/HelperTypes.v ===== *)
(** * The struct types of the helper prototypes

    [bpf/bpf/bpf_helper_defs.h] forward-declares the structs its prototypes
    mention; their definitions come from [bpf/vmlinux.h]. The theorem says that
    the two headers fit: what a helper points to is declared before it is used
    and is a complete type with a sound layout. *)

From S2P Require Import Prelude.
From S2P Require Import CLayout.
From S2P Require Import Vmlinux.
From S2P Require Import VmlinuxBpf.
From S2P Require Import VmlinuxNet.
From S2P Require Import VmlinuxTask.
From S2P Require Import VmlinuxDrm.
From S2P Require Import BpfHelpers.

Local Open Scope Z_scope.

(** The forward declarations at the top of [bpf_helper_defs.h]. *)
Definition forward_declared : list string := [
  "bpf_fib_lookup"; "bpf_sk_lookup"; "bpf_perf_event_data"; "bpf_perf_event_value";
  "bpf_pidns_info"; "bpf_redir_neigh"; "bpf_sock"; "bpf_sock_addr"; "bpf_sock_ops";
  "bpf_sock_tuple"; "bpf_spin_lock"; "bpf_sysctl"; "bpf_tcp_sock"; "bpf_tunnel_key";
  "bpf_xfrm_state"; "linux_binprm"; "pt_regs"; "sk_reuseport_md"; "sockaddr"; "tcphdr";
  "seq_file"; "tcp6_sock"; "tcp_sock"; "tcp_timewait_sock"; "tcp_request_sock";
  "udp6_sock"; "unix_sock"; "task_struct"; "cgroup"; "__sk_buff"; "sk_msg_md"; "xdp_md";
  "path"; "btf_ptr"; "inode"; "socket"; "file"; "bpf_timer"; "mptcp_sock"; "bpf_dynptr";
  "iphdr"; "ipv6hdr"].

(** The definitions [vmlinux.h] gives these tags. *)
Definition struct_types : list (string * ctype) := [
  ("bpf_fib_lookup", struct_bpf_fib_lookup); ("bpf_sk_lookup", struct_bpf_sk_lookup);
  ("bpf_perf_event_data", struct_bpf_perf_event_data);
  ("bpf_perf_event_value", struct_bpf_perf_event_value);
  ("bpf_pidns_info", struct_bpf_pidns_info); ("bpf_redir_neigh", struct_bpf_redir_neigh);
  ("bpf_sock", struct_bpf_sock); ("bpf_sock_addr", struct_bpf_sock_addr);
  ("bpf_sock_ops", struct_bpf_sock_ops); ("bpf_sock_tuple", struct_bpf_sock_tuple);
  ("bpf_spin_lock", struct_bpf_spin_lock); ("bpf_sysctl", struct_bpf_sysctl);
  ("bpf_tcp_sock", struct_bpf_tcp_sock); ("bpf_tunnel_key", struct_bpf_tunnel_key);
  ("bpf_xfrm_state", struct_bpf_xfrm_state); ("linux_binprm", struct_linux_binprm);
  ("pt_regs", struct_pt_regs); ("sk_reuseport_md", struct_sk_reuseport_md);
  ("sockaddr", struct_sockaddr); ("tcphdr", struct_tcphdr); ("seq_file", struct_seq_file);
  ("tcp6_sock", struct_tcp6_sock); ("tcp_sock", struct_tcp_sock);
  ("tcp_timewait_sock", struct_tcp_timewait_sock);
  ("tcp_request_sock", struct_tcp_request_sock); ("udp6_sock", struct_udp6_sock);
  ("unix_sock", struct_unix_sock); ("task_struct", struct_task_struct);
  ("cgroup", struct_cgroup); ("__sk_buff", struct___sk_buff);
  ("sk_msg_md", struct_sk_msg_md); ("xdp_md", struct_xdp_md); ("path", struct_path);
  ("btf_ptr", struct_btf_ptr); ("inode", struct_inode); ("socket", struct_socket);
  ("file", struct_file); ("bpf_timer", struct_bpf_timer);
  ("mptcp_sock", struct_mptcp_sock); ("bpf_dynptr", struct_bpf_dynptr);
  ("iphdr", struct_iphdr); ("ipv6hdr", struct_ipv6hdr)].

(** The objects [drm_ioctl] works on, from the file it is called with. *)
Definition drm_types : list (string * ctype) := [
  ("drm_file", struct_drm_file); ("drm_minor", struct_drm_minor);
  ("drm_device", struct_drm_device); ("drm_driver", struct_drm_driver);
  ("drm_ioctl_desc", struct_drm_ioctl_desc); ("drm_gem_object", struct_drm_gem_object)].

Definition struct_type (tag : string) : option ctype :=
  snd <$> find (λ '(t, _), String.eqb t tag) struct_types.

(** The struct tags of a prototype. *)
Fixpoint type_tags (t : proto_type) : list string :=
  match t with
  | CVoid | CNum _ => []
  | CTag tag => [tag]
  | CPtrTo _ t => type_tags t
  end.

Definition helper_tags (h : helper) : list string :=
  type_tags (h_ret h) ++ mjoin (type_tags <$> (h_params h).*2).

(** ** Lemmas *)

(** A complete struct: well formed and not empty. *)
Definition complete (t : ctype) : bool :=
  match t with
  | CStruct ms => wf_type t && bool_decide (0 < sizeof t)
  | _ => false
  end.

Definition tag_ok (tag : string) : bool :=
  bool_decide (tag ∈ forward_declared) &&
  match struct_type tag with Some t => complete t | None => false end.

Lemma helper_tags_ok : forallb (λ h, forallb tag_ok (helper_tags h)) helper_table = true.
Proof. vm_compute. reflexivity. Qed.

Lemma drm_types_complete : forallb (λ a, complete a.2) drm_types = true.
Proof. vm_compute. reflexivity. Qed.

Lemma complete_spec t :
  complete t = true → ∃ ms, t = CStruct ms ∧ 0 < sizeof (CStruct ms) ∧ sound_layout ms.
Proof.
  destruct t as [| | | |ms| |]; try done. intros [Hwf Hs%bool_decide_eq_true]%andb_true_iff.
  exists ms. split_and!; [done|done|by apply wf_sound_layout].
Qed.

Lemma tag_ok_spec tag :
  tag_ok tag = true →
  tag ∈ forward_declared ∧
  ∃ ms, struct_type tag = Some (CStruct ms) ∧ 0 < sizeof (CStruct ms) ∧ sound_layout ms.
Proof.
  unfold tag_ok. rewrite andb_true_iff, bool_decide_eq_true. intros [Hd Ht]. split; [done|].
  destruct (struct_type tag) as [t|]; [|discriminate Ht].
  destruct (complete_spec t Ht) as (ms & -> & ?). by exists ms.
Qed.

(** ** Properties *)

(** C39: The two headers fit: every struct a helper prototype points to is
    forward-declared by the header that uses it and defined by [vmlinux.h] as a
    complete type, in whose layout every member, bit-fields included, lies
    inside the object at a place its type allows and shares no bit with
    another; and so are the objects of the traced DRM call. *)
Theorem helper_types_sound :
  Forall (λ h, Forall (λ tag,
      tag ∈ forward_declared ∧
      ∃ ms, struct_type tag = Some (CStruct ms) ∧ 0 < sizeof (CStruct ms) ∧ sound_layout ms)
    (helper_tags h)) helper_table ∧
  Forall (λ a, ∃ ms, a.2 = CStruct ms ∧ 0 < sizeof (CStruct ms) ∧ sound_layout ms) drm_types.
Proof.
  split.
  2: { apply List.Forall_forall. intros a Ha. apply complete_spec.
       pose proof drm_types_complete as H. rewrite List.forallb_forall in H. by apply H. }
  apply List.Forall_forall. intros h Hh. apply List.Forall_forall. intros tag Ht.
  apply tag_ok_spec. pose proof helper_tags_ok as H. rewrite List.forallb_forall in H.
  specialize (H h Hh). rewrite List.forallb_forall in H. by apply H.
Qed.
