(* ===== verification/BpfMacros.v ===== *)
(** * The convenience macros of libbpf: [bpf/bpf/bpf_helpers.h]

    Version numbers, member arithmetic, and the macros that turn a call with
    any number of arguments into a helper call with at most five: filling an
    array of 64-bit parameters, and choosing between the two forms of
    [bpf_printk]. A macro is its expansion; one whose expansion does not
    compile gives [None]. The loop macros are in [BpfLoops]. The declaration
    macros are the types they spell out, which [ObjectFile] finds again in the
    compiled program; compiler barriers and inlining attributes have no meaning
    of their own. *)

From S2P Require Import Prelude.
From S2P Require Import GoStrings.
From S2P Require Import CLayout.
From S2P Require Import Tracing.
From S2P Require Import Vmlinux.
From S2P Require Import BpfHelpers.

Local Open Scope Z_scope.

(** ** Declarations

    A map is declared as a struct whose members carry numbers and types in
    their own types: a pointer to an array of [val] integers, a pointer to the
    type, an array of pointers to it. The loader reads them from the BTF of the object
    file. *)
Inductive decl : Type :=
  | PtrToArray (elem : ctype) (n : Z)
  | PtrTo (t : ctype)
  | PtrsTo (t : ctype).        (** a flexible array of pointers *)

Definition __uint (name : string) (val : Z) : string * decl := (name, PtrToArray (CInt 4) val).
Definition __type (name : string) (t : ctype) : string * decl := (name, PtrTo t).
Definition __array (name : string) (t : ctype) : string * decl := (name, PtrsTo t).

(** The sections and tags of the attribute macros: where [__kconfig] and
    [__ksym] put an extern, and what the others record in the BTF. *)
Definition __kconfig : string := ".kconfig".
Definition __ksym : string := ".ksyms".
Definition btf_type_tags : list (string * string) := [
  ("__kptr_untrusted", "kptr_untrusted"); ("__kptr", "kptr");
  ("__percpu_kptr", "percpu_kptr"); ("__uptr", "uptr")].
Definition btf_decl_tags : list (string * string) := [
  ("__arg_ctx", "arg:ctx"); ("__arg_nonnull", "arg:nonnull"); ("__arg_nullable", "arg:nullable");
  ("__arg_trusted", "arg:trusted"); ("__arg_untrusted", "arg:untrusted");
  ("__arg_arena", "arg:arena")].

(** [!!(x)], with the compiler's expectation; the address of a weak symbol. *)
Definition likely (x : Z) : Z := if bool_decide (x = 0) then 0 else 1.
Definition unlikely (x : Z) : Z := if bool_decide (x = 0) then 0 else 1.
Definition NULL : Z := 0.
Definition bpf_ksym_exists (sym : Z) : Z := if bool_decide (sym = NULL) then 0 else 1.

(** ** Versions and members *)

Definition KERNEL_VERSION (a b c : Z) : Z :=
  Z.shiftl a 16 + Z.shiftl b 8 + (if bool_decide (c > 255) then 255 else c).

(** [((unsigned long)&((type *\)0)->member)] *)
Definition offsetof (type : ctype) (member : string) : option Z :=
  '(o, _) ← offset_in 0 type member; Some (wrap 64 o).

(** [&ptr->member] and its inverse. *)
Definition member_address (ptr : Z) (type : ctype) (member : string) : option Z :=
  '(o, _) ← offset_in 0 type member; Some (wrap 64 (ptr + o)).

Definition container_of (ptr : Z) (type : ctype) (member : string) : option Z :=
  o ← offsetof type member; Some (wrap 64 (ptr - o)).

Definition enum_libbpf_pin_type : enum := Enum 4 [
  ("LIBBPF_PIN_NONE", 0);
  ("LIBBPF_PIN_BY_NAME", 1)].

Definition enum_libbpf_tristate : enum := Enum 4 [
  ("TRI_NO", 0);
  ("TRI_YES", 1);
  ("TRI_MODULE", 2)].

(** ** Helper calls *)

(** A call instruction with the registers [r1], [r2], ... it sets. *)
Record helper_call : Type := HelperCall { hc_id : Z; hc_regs : list Z }.

(** The inline assembly of [bpf_tail_call_static]; without a constant [slot]
    the function does not build. *)
Definition bpf_tail_call_static (ctx map : Z) (slot : option Z) : option helper_call :=
  slot ← slot; Some (HelperCall 12 [ctx; map; wrap 32 slot]).

(** ** Filling parameters *)

(** [___bpf_fill0] to [___bpf_fill12]: [arr[p] = x], then the rest at [p + 1]. *)
Fixpoint ___bpf_fillN (n : nat) (arr : list Z) (p : nat) (args : list Z) : option (list Z) :=
  match n, args with
  | O, _ => Some arr
  | S n, x :: args =>
      if bool_decide (p < length arr)%nat then ___bpf_fillN n (<[p := wrap 64 x]> arr) (p + 1) args
      else None
  | S _, [] => None
  end.

Definition ___bpf_fill (arr args : list Z) : option (list Z) :=
  ___bpf_apply (λ n, ___bpf_fillN n arr 0 args) (___bpf_narg args).

(** [unsigned long long ___param[___bpf_narg(args)]] after [___bpf_fill];
    [garbage] is what the fresh array held. *)
Definition params (garbage : nat → Z) (args : list Z) : option (list Z) :=
  ___bpf_apply (λ n, ___bpf_fill (garbage <$> seq 0 n) args) (___bpf_narg args).

(** What the printing macros hand to their helper: the format with its
    terminator, the direct arguments, or an array and its size in bytes. *)
Inductive print_call : Type :=
  | Direct (helper : string) (fmt_size : Z) (args : list Z)
  | Array (helper : string) (fmt_size : option Z) (param : list Z) (param_size : Z).

Definition fmt_sizeof (fmt : string) : Z := Z.of_nat (String.length fmt) + 1.

Section Printing.

Variable garbage : nat → Z.

Definition BPF_SEQ_PRINTF (fmt : string) (args : list Z) : option print_call :=
  p ← params garbage args;
  Some (Array "bpf_seq_printf" (Some (fmt_sizeof fmt)) p (8 * Z.of_nat (length p))).

Definition BPF_SNPRINTF (fmt : string) (args : list Z) : option print_call :=
  p ← params garbage args; Some (Array "bpf_snprintf" None p (8 * Z.of_nat (length p))).

Definition __bpf_printk (fmt : string) (args : list Z) : option print_call :=
  Some (Direct "bpf_trace_printk" (fmt_sizeof fmt) args).

Definition __bpf_vprintk (fmt : string) (args : list Z) : option print_call :=
  p ← params garbage args;
  Some (Array "bpf_trace_vprintk" (Some (fmt_sizeof fmt)) p (8 * Z.of_nat (length p))).

Definition bpf_stream_printk (fmt : string) (args : list Z) : option print_call :=
  p ← params garbage args;
  Some (Array "bpf_stream_vprintk" None p (8 * Z.of_nat (length p))).

(** [___bpf_pick_printk]: [true] stands for [__bpf_vprintk], [false] for
    [__bpf_printk]; the choice is a position in the same list as
    [___bpf_narg]'s. *)
Definition ___bpf_pick_printk {A} (args : list A) : option (token A + bool) :=
  ((inl TUnderscore :: (inl ∘ TArg <$> args)) ++
   (inr <$> [true; true; true; true; true; true; true; true; true;
             false; false; false; false])) !! 13%nat.

Definition bpf_printk (fmt : string) (args : list Z) : option print_call :=
  match ___bpf_pick_printk args with
  | Some (inr true) => __bpf_vprintk fmt args
  | Some (inr false) => __bpf_printk fmt args
  | _ => None
  end.

End Printing.

(** ** Lemmas *)

Lemma fillN_app n pre rest args :
  length args = n → (n ≤ length rest)%nat →
  ___bpf_fillN n (pre ++ rest) (length pre) args =
  Some (pre ++ (wrap 64 <$> args) ++ drop n rest).
Proof.
  revert pre rest args. induction n as [|n IH]; intros pre [|y rest] [|x args] Hn Hp; try done;
    cbn in Hn, Hp; try lia.
  cbn [___bpf_fillN].
  rewrite bool_decide_eq_true_2 by (rewrite length_app; cbn; lia).
  assert (E : <[length pre := wrap 64 x]> (pre ++ y :: rest) = (pre ++ [wrap 64 x]) ++ rest).
  { rewrite insert_app_r_alt, Nat.sub_diag by done. cbn. by rewrite <- (assoc_L (++)). }
  rewrite E. replace (length pre + 1)%nat with (length (pre ++ [wrap 64 x]))
    by (rewrite length_app; done).
  rewrite IH by lia. by rewrite <- (assoc_L (++)).
Qed.

(** The array holds the arguments, whatever it held before. *)
Lemma params_args garbage args :
  (length args ≤ 12)%nat → params garbage args = Some (wrap 64 <$> args).
Proof.
  intros H. unfold params, ___bpf_fill. rewrite narg_length by done. cbn [___bpf_apply].
  pose proof (fillN_app (length args) [] (garbage <$> seq 0 (length args)) args eq_refl) as E.
  rewrite length_fmap, length_seq in E. cbn [app length] in E. rewrite E by done.
  by rewrite drop_ge, app_nil_r by (by rewrite length_fmap, length_seq).
Qed.

Lemma pick_printk_length {A} (args : list A) :
  (length args ≤ 12)%nat →
  ___bpf_pick_printk args = Some (inr (bool_decide (3 < length args)%nat)).
Proof.
  intros H. do 13 (destruct args as [|? args]; [reflexivity|]). cbn in H. lia.
Qed.

(** Versions compare as triples whose last component stops at 255. *)
Lemma KERNEL_VERSION_order a b c a' b' c' :
  0 ≤ a → 0 ≤ b < 256 → 0 ≤ c → 0 ≤ a' → 0 ≤ b' < 256 → 0 ≤ c' →
  KERNEL_VERSION a b c ≤ KERNEL_VERSION a' b' c' ↔
  a < a' ∨ (a = a' ∧ (b < b' ∨ (b = b' ∧ Z.min c 255 ≤ Z.min c' 255))).
Proof.
  intros. unfold KERNEL_VERSION. rewrite !Z.shiftl_mul_pow2 by lia.
  repeat case_bool_decide; lia.
Qed.

Lemma container_of_member ptr type member a :
  in_width 64 ptr → member_address ptr type member = Some a →
  container_of a type member = Some ptr.
Proof.
  unfold member_address, container_of, offsetof. intros Hp.
  destruct (offset_in 0 type member) as [[o t]|]; [|done]. opt_cbn. intros [= <-]. f_equal.
  unfold wrap. rewrite Zminus_mod_idemp_l, Zminus_mod_idemp_r.
  replace (ptr + o - o) with ptr by lia. by apply wrap_id.
Qed.

(** The assembly calls the helper the header declares under that number. *)
Lemma tail_call_helper ctx map slot c :
  bpf_tail_call_static ctx map slot = Some c →
  ∃ h, find_helper "bpf_tail_call" = Some h ∧ hc_id c = h_id h ∧
       length (hc_regs c) = length (h_params h).
Proof. destruct slot; [|done]. intros [= <-]. by eexists. Qed.

(** ** Properties *)

(** The argument registers a printing call takes, [None] when the header does
    not declare its helper or the helper takes no further arguments. *)
Definition call_registers (c : print_call) : option nat :=
  match c with
  | Direct helper _ args =>
      h ← find_helper helper;
      if h_variadic h then Some (length (h_params h) + length args)%nat else None
  | Array helper _ _ _ => h ← find_helper helper; Some (length (h_params h))
  end.

(** [bpf_printk] passes up to three values directly and four to twelve
    through an array that holds exactly them, 8 bytes each, whatever the array
    held before; either way the call is to a declared helper and fits the five
    argument registers of the calling convention. Thirteen values do not
    compile. *)
Theorem bpf_printk_arguments (garbage : nat → Z) fmt args :
  ((length args ≤ 3)%nat →
     bpf_printk garbage fmt args = Some (Direct "bpf_trace_printk" (fmt_sizeof fmt) args)) ∧
  ((4 ≤ length args ≤ 12)%nat →
     bpf_printk garbage fmt args =
     Some (Array "bpf_trace_vprintk" (Some (fmt_sizeof fmt)) (wrap 64 <$> args)
             (8 * Z.of_nat (length args)))) ∧
  (length args = 13%nat → bpf_printk garbage fmt args = None) ∧
  (∀ c, (length args ≤ 12)%nat → bpf_printk garbage fmt args = Some c →
     ∃ n, call_registers c = Some n ∧ (n ≤ 5)%nat).
Proof.
  assert (H3 : (length args ≤ 3)%nat →
    bpf_printk garbage fmt args = Some (Direct "bpf_trace_printk" (fmt_sizeof fmt) args)).
  { intros H. unfold bpf_printk. by rewrite pick_printk_length, bool_decide_eq_false_2 by lia. }
  assert (H12 : (4 ≤ length args ≤ 12)%nat →
    bpf_printk garbage fmt args =
    Some (Array "bpf_trace_vprintk" (Some (fmt_sizeof fmt)) (wrap 64 <$> args)
            (8 * Z.of_nat (length args)))).
  { intros H. unfold bpf_printk. rewrite pick_printk_length, bool_decide_eq_true_2 by lia.
    unfold __bpf_vprintk. rewrite params_args by lia. opt_cbn. by rewrite length_fmap. }
  split_and!; [done|done| |].
  - intros H. do 14 (destruct args as [|? args]; [try discriminate H|]); [done|discriminate H].
  - intros c Hl Hc. destruct (decide (length args ≤ 3)%nat) as [Hs|Hs].
    + rewrite H3 in Hc by done. injection Hc as <-. eexists. split; [reflexivity|]. cbn. lia.
    + rewrite H12 in Hc by lia. injection Hc as <-. eexists. split; [reflexivity|]. cbn. lia.
Qed.
