(* ===== verification/BpfLoops.v ===== *)
(** * The loop macros of libbpf: [bpf/bpf/bpf_helpers.h]

    [bpf_for_each], [bpf_for] and [bpf_repeat] are [for] statements over an
    open-coded iterator of the kernel. The iterator's functions are kernel code:
    a type class with the documented behaviour of the numeric iterator as laws,
    which [Model] instantiates. The expressions a macro is used with have C
    integer types of their own, and what the macro does with them converts
    them: to [int] for [bpf_iter_num_new], to the type of the loop variable, and
    to a common type where two are compared. A macro is a loop with fuel; the
    theorem says that the loop ends, which values the body sees and that the
    iterator is destroyed however the loop is left. *)

From S2P Require Import Prelude.

Local Open Scope Z_scope.

(** ** Integer types and conversions *)

(** An integer type of C other than [_Bool], as the BPF target has it. *)
Record int_type : Type := IntType { it_bits : Z; it_signed : bool }.

Definition c_int : int_type := IntType 32 true.
Definition c_uint : int_type := IntType 32 false.
Definition c_long : int_type := IntType 64 true.
Definition c_ulong : int_type := IntType 64 false.

Definition int_min (t : int_type) : Z := if it_signed t then - 2 ^ (it_bits t - 1) else 0.

Definition fits (t : int_type) (v : Z) : Prop := int_min t ≤ v < int_min t + 2 ^ it_bits t.

(** The conversion of a number to [t]: the representable one that is equal to
    it modulo the width. *)
Definition conv (t : int_type) (v : Z) : Z := wrap (it_bits t) (v - int_min t) + int_min t.

(** Types narrower than [int] are promoted to it. *)
Definition promote (t : int_type) : int_type :=
  if bool_decide (it_bits t < 32) then c_int else t.

(** The usual arithmetic conversions: the wider type wins, and of two of the
    same width the unsigned one. *)
Definition usual (t1 t2 : int_type) : int_type :=
  let t1 := promote t1 in let t2 := promote t2 in
  if bool_decide (it_bits t1 = it_bits t2)
  then IntType (it_bits t1) (it_signed t1 && it_signed t2)
  else if bool_decide (it_bits t1 < it_bits t2) then t2 else t1.

(** [x >= y] and [x < y] for operands of the types [t1] and [t2]. *)
Definition c_ge (t1 t2 : int_type) (x y : Z) : bool :=
  bool_decide (conv (usual t1 t2) y ≤ conv (usual t1 t2) x).
Definition c_lt (t1 t2 : int_type) (x y : Z) : bool :=
  bool_decide (conv (usual t1 t2) x < conv (usual t1 t2) y).

(** ** Iterators *)

(** [bpf_iter_<type>_next] and [bpf_iter_<type>_destroy]. *)
Class BpfIter (I A : Type) : Type := {
  iter_next : I → option A * I;
  iter_destroy : I → I;
}.

(** What [bpf_iter_num_new] makes of two [int]s. *)
Class BpfIterNum (I : Type) `{!BpfIter I Z} : Type := {
  iter_num_new : Z → Z → I;
}.

(** The kernel's bound on the iterations of one loop. *)
Definition BPF_MAX_LOOPS : Z := 8 * 1024 * 1024.

(** What the numeric iterator promises: the values from start to end, in
    order; none when the range is inverted or too long; each iterator knows
    whether it has been destroyed. *)
Class BpfIterNumOk (I : Type) `{BpfIterNum I} : Type := {
  iter_rest : I → list Z;
  iter_live : I → bool;
  iter_next_nil it : iter_rest it = [] → (iter_next it).1 = None;
  iter_next_cons it v l :
    iter_rest it = v :: l → (iter_next it).1 = Some v ∧ iter_rest (iter_next it).2 = l;
  iter_next_live it : iter_live (iter_next it).2 = iter_live it;
  iter_destroy_live it : iter_live (iter_destroy it) = false;
  iter_new_live start stop : iter_live (iter_num_new start stop) = true;
  iter_new_range start stop :
    fits c_int start → fits c_int stop →
    start ≤ stop → stop - start ≤ BPF_MAX_LOOPS →
    iter_rest (iter_num_new start stop) = seqZ start (stop - start);
  iter_new_error start stop :
    fits c_int start → fits c_int stop →
    stop < start ∨ BPF_MAX_LOOPS < stop - start → iter_rest (iter_num_new start stop) = [];
}.

Section Loops.

Context {I A St : Type} `{!BpfIter I A}.

(** The [for] statement: [step] is the iteration step with its check, the body
    says whether to go on ([false] for [break]). *)
Fixpoint for_loop (fuel : nat) (step : I → option A * I) (body : A → St → St * bool) (it : I)
    (s : St) : option (I * St) :=
  match fuel with
  | O => None
  | S fuel =>
      match step it with
      | (Some v, it) =>
          match body v s with
          | (s, true) => for_loop fuel step body it s
          | (s, false) => Some (it, s)
          end
      | (None, it) => Some (it, s)
      end
  end.

(** [cleanup(bpf_iter_<type>_destroy)] runs when the iterator goes out of
    scope. *)
Definition cleanup (r : option (I * St)) : option (I * St) :=
  '(it, s) ← r; Some (iter_destroy it, s).

Definition bpf_for_each (fuel : nat) (new : I) (body : A → St → St * bool) (s : St) :
    option (I * St) :=
  cleanup (for_loop fuel iter_next body new s).

End Loops.

Section Num.

Context {I St : Type} `{!BpfIter I Z, !BpfIterNum I}.

(** A call [bpf_iter_num_new(&it, start, end)]: its prototype takes [int]s. *)
Definition bpf_iter_num_new (start stop : Z) : I :=
  iter_num_new (conv c_int start) (conv c_int stop).

(** The bounds check of [bpf_for], for a loop variable, a start and an end of
    the types [Ti], [Ts] and [Te]. *)
Definition bpf_for_check (Ti Ts Te : int_type) (start stop i : Z) : bool :=
  c_ge Ti Ts i start && c_lt Ti Te i stop.

(** The step of [bpf_for]: assign the loop variable, then check it. *)
Definition bpf_for_step (Ti Ts Te : int_type) (start stop : Z) (it : I) : option Z * I :=
  match iter_next it with
  | (Some t, it) =>
      let i := conv Ti t in (if bpf_for_check Ti Ts Te start stop i then Some i else None, it)
  | (None, it) => (None, it)
  end.

Definition bpf_for (fuel : nat) (Ti Ts Te : int_type) (start stop : Z)
    (body : Z → St → St * bool) (s : St) : option (I * St) :=
  cleanup (for_loop fuel (bpf_for_step Ti Ts Te start stop) body (bpf_iter_num_new start stop) s).

Definition bpf_repeat (fuel : nat) (N : Z) (body : St → St * bool) (s : St) : option (I * St) :=
  cleanup (for_loop fuel iter_next (λ _, body) (bpf_iter_num_new 0 N) s).

End Num.

(** ** Instance *)

Module Model.

(** Current value, end, and whether the iterator is live. *)
Record iter_num : Type := IterNum { it_cur : Z; it_end : Z; it_live : bool }.

Definition next (it : iter_num) : option Z * iter_num :=
  if bool_decide (it_cur it < it_end it)
  then (Some (it_cur it), IterNum (it_cur it + 1) (it_end it) (it_live it))
  else (None, it).

Definition new (start stop : Z) : iter_num :=
  if bool_decide (stop < start ∨ BPF_MAX_LOOPS < stop - start) then IterNum 0 0 true
  else IterNum start stop true.

#[global] Instance iter_num_iter : BpfIter iter_num Z :=
  {| iter_next := next; iter_destroy it := IterNum (it_cur it) (it_end it) false |}.
#[global] Instance iter_num_num : BpfIterNum iter_num := {| iter_num_new := new |}.

Definition rest (it : iter_num) : list Z := seqZ (it_cur it) (it_end it - it_cur it).

Lemma rest_nil it : rest it = [] → (next it).1 = None.
Proof.
  unfold rest, next. case_bool_decide; [|done]. intros E.
  rewrite seqZ_cons in E by lia. done.
Qed.

Lemma rest_cons it v l : rest it = v :: l → (next it).1 = Some v ∧ rest (next it).2 = l.
Proof.
  unfold rest, next. case_bool_decide as Hlt.
  - rewrite seqZ_cons by lia. intros [= <- <-]. split; [done|]. cbn. f_equal; lia.
  - rewrite seqZ_nil by lia. done.
Qed.

#[global] Program Instance iter_num_ok : BpfIterNumOk iter_num :=
  {| iter_rest := rest; iter_live := it_live |}.
Next Obligation. exact rest_nil. Qed.
Next Obligation. exact rest_cons. Qed.
Next Obligation. intros it. cbn. unfold next. by case_bool_decide. Qed.
Next Obligation. done. Qed.
Next Obligation. intros start stop. cbn. unfold new. by case_bool_decide. Qed.
Next Obligation.
  intros start stop _ _ ? ?. cbn. unfold new. rewrite bool_decide_eq_false_2; [done|lia].
Qed.
Next Obligation. intros start stop _ _ ?. cbn. unfold new. by rewrite bool_decide_eq_true_2. Qed.

End Model.

(** ** Lemmas *)

(** The body over a list of values, up to the first [break]. *)
Fixpoint visit {A St} (body : A → St → St * bool) (l : list A) (s : St) : St :=
  match l with
  | [] => s
  | v :: l => let '(s, go) := body v s in if go then visit body l s else s
  end.

(** The longest prefix whose elements pass a check. *)
Fixpoint take_while {A} (p : A → bool) (l : list A) : list A :=
  match l with
  | [] => []
  | x :: l => if p x then x :: take_while p l else []
  end.

Lemma take_while_length {A} (p : A → bool) l : (length (take_while p l) ≤ length l)%nat.
Proof. induction l as [|x l IH]; cbn; [done|]. destruct (p x); cbn; lia. Qed.

Lemma take_while_all {A} (p : A → bool) l : (∀ x, x ∈ l → p x = true) → take_while p l = l.
Proof.
  induction l as [|x l IH]; intros Hp; cbn; [done|].
  rewrite (Hp x) by by left. f_equal. apply IH. intros y Hy. apply Hp. by right.
Qed.

Lemma conv_fits t v : 0 ≤ it_bits t → fits t (conv t v).
Proof. intros. unfold fits, conv. pose proof (wrap_in_width (it_bits t) (v - int_min t)) as H1. unfold in_width in H1. lia. Qed.

Lemma conv_id t v : fits t v → conv t v = v.
Proof.
  unfold fits, conv. intros Hv. rewrite wrap_id; [lia|]. unfold in_width. lia.
Qed.

Lemma fits_between t a b v : fits t a → fits t b → a ≤ v ≤ b → fits t v.
Proof. unfold fits. lia. Qed.

(** The values of a new iterator. *)
Definition num_values (start stop : Z) : list Z :=
  if bool_decide (start ≤ stop ∧ stop - start ≤ BPF_MAX_LOOPS)
  then seqZ start (stop - start) else [].

Lemma num_values_length start stop :
  (length (num_values start stop) ≤ Z.to_nat (stop - start))%nat ∧
  (length (num_values start stop) ≤ Z.to_nat BPF_MAX_LOOPS)%nat.
Proof.
  unfold num_values. case_bool_decide; [|cbn; lia]. rewrite length_seqZ. lia.
Qed.

Lemma num_values_bounds start stop v : v ∈ num_values start stop → start ≤ v < stop.
Proof.
  unfold num_values. case_bool_decide; [|by intros ?%not_elem_of_nil]. rewrite elem_of_seqZ. lia.
Qed.

(** The values of the loop variable of [bpf_for] that pass its check. *)
Definition for_values (Ti Ts Te : int_type) (start stop : Z) : list Z :=
  take_while (bpf_for_check Ti Ts Te start stop)
    (conv Ti <$> num_values (conv c_int start) (conv c_int stop)).

(** The types hold the range: the ends are [int]s, the loop variable has every
    value, and the comparisons convert nothing away. *)
Definition for_exact (Ti Ts Te : int_type) (start stop : Z) : Prop :=
  fits c_int start ∧ fits c_int stop ∧
  (start < stop →
   Forall (λ T, fits T start) [Ti; usual Ti Ts; usual Ti Te] ∧
   Forall (λ T, fits T (stop - 1)) [Ti; usual Ti Ts; usual Ti Te] ∧ fits (usual Ti Te) stop).

Lemma for_values_exact Ti Ts Te start stop :
  for_exact Ti Ts Te start stop → for_values Ti Ts Te start stop = num_values start stop.
Proof.
  intros (Hs & He & Hx). unfold for_values. rewrite !conv_id by done.
  destruct (decide (start < stop)) as [Hlt|Hge].
  - destruct (Hx Hlt) as (H1 & H2 & H3). rewrite !Forall_cons in H1, H2.
    destruct H1 as (Hi1 & Hs1 & He1 & _), H2 as (Hi2 & Hs2 & He2 & _).
    assert (Hid : conv Ti <$> num_values start stop = num_values start stop).
    { rewrite <- (list_fmap_id (num_values start stop)) at 2. apply list_fmap_ext.
      intros i v Hv%list_elem_of_lookup_2%num_values_bounds. unfold id. apply conv_id.
      apply (fits_between _ start (stop - 1)); [done|done|lia]. }
    rewrite Hid. apply take_while_all. intros v Hv%num_values_bounds.
    assert (fits (usual Ti Ts) v) by (apply (fits_between _ start (stop - 1)); [done|done|lia]).
    assert (fits (usual Ti Te) v) by (apply (fits_between _ start (stop - 1)); [done|done|lia]).
    unfold bpf_for_check, c_ge, c_lt. rewrite !conv_id by done.
    rewrite !bool_decide_eq_true_2 by lia. done.
  - assert (num_values start stop = []) as ->; [|done].
    unfold num_values. case_bool_decide; [|done]. apply seqZ_nil. lia.
Qed.

Section Facts.

Context {I St : Type} `{BpfIterNumOk I}.

(** The step of [bpf_for_each] is the iterator's. *)
Lemma for_loop_next fuel (body : Z → St → St * bool) it s :
  (length (iter_rest it) < fuel)%nat →
  ∃ it', for_loop fuel iter_next body it s = Some (it', visit body (iter_rest it) s).
Proof.
  revert it s. induction fuel as [|fuel IH]; intros it s Hf; [lia|]. cbn [for_loop].
  destruct (iter_rest it) as [|v l] eqn:Hr.
  - pose proof (iter_next_nil it Hr) as E. destruct (iter_next it) as [o it'].
    cbn in E. subst o. by eexists.
  - destruct (iter_next_cons it v l Hr) as [E Hl]. destruct (iter_next it) as [o it'].
    cbn in E, Hl. subst o. cbn [visit]. destruct (body v s) as [s' []]; [|by eexists].
    rewrite <- Hl. apply IH. rewrite Hl. cbn in Hf. lia.
Qed.

(** The step of [bpf_for] ends the loop at the first value that fails the
    check. *)
Lemma for_loop_check fuel Ti Ts Te start stop (body : Z → St → St * bool) it s :
  (length (iter_rest it) < fuel)%nat →
  ∃ it', for_loop fuel (bpf_for_step Ti Ts Te start stop) body it s =
    Some (it', visit body (take_while (bpf_for_check Ti Ts Te start stop)
                             (conv Ti <$> iter_rest it)) s).
Proof.
  revert it s. induction fuel as [|fuel IH]; intros it s Hf; [lia|]. cbn [for_loop].
  unfold bpf_for_step at 1. destruct (iter_rest it) as [|v l] eqn:Hr.
  - pose proof (iter_next_nil it Hr) as E. destruct (iter_next it) as [o it'].
    cbn in E. subst o. by eexists.
  - destruct (iter_next_cons it v l Hr) as [E Hl]. destruct (iter_next it) as [o it'].
    cbn in E, Hl. subst o. cbn [fmap list_fmap take_while].
    destruct (bpf_for_check Ti Ts Te start stop (conv Ti v)); [|by eexists]. cbn [visit].
    destruct (body (conv Ti v) s) as [s' []]; [|by eexists].
    rewrite <- Hl. apply IH. rewrite Hl. cbn in Hf. lia.
Qed.

(** A new iterator hands out the range of its ends, converted to [int]. *)
Lemma num_values_rest start stop :
  iter_rest (bpf_iter_num_new start stop) = num_values (conv c_int start) (conv c_int stop).
Proof.
  unfold bpf_iter_num_new, num_values.
  pose proof (conv_fits c_int start ltac:(done)). pose proof (conv_fits c_int stop ltac:(done)).
  case_bool_decide as Hb; [destruct Hb; by apply iter_new_range|].
  apply iter_new_error; [done|done|lia].
Qed.

(** Leaving a loop destroys its iterator. *)
Lemma cleanup_dead (r : option (I * St)) (s : St) :
  (∃ it, r = Some (it, s)) → ∃ it, cleanup r = Some (it, s) ∧ iter_live it = false.
Proof. intros [it ->]. eexists. split; [done|]. apply iter_destroy_live. Qed.

(** C40: The loop macros terminate: with fuel for the length of the range,
    converted to [int], they end, the iterator is destroyed however the loop
    was left, and the body has run, until it broke, on: for [bpf_for_each] the
    range of the [int]s start and end became — no number when it is inverted or
    longer than the kernel's bound, which limits the iterations; for [bpf_for]
    these numbers, converted to the type of the loop variable, up to the first
    that fails the bounds check, which are the integers from start to before
    end when the types hold them; for [bpf_repeat] it has run as many times as
    the [int] that [N] became. *)
Theorem bpf_loops_terminate (fuel : nat) (body : Z → St → St * bool) (body' : St → St * bool)
    Ti Ts Te start stop N s :
  (length (num_values (conv c_int start) (conv c_int stop)) < fuel)%nat →
  (length (num_values 0 (conv c_int N)) < fuel)%nat →
  (∃ it, bpf_for fuel Ti Ts Te start stop body s =
           Some (it, visit body (for_values Ti Ts Te start stop) s) ∧ iter_live it = false) ∧
  (for_exact Ti Ts Te start stop →
   for_values Ti Ts Te start stop = num_values start stop) ∧
  (∃ it, bpf_for_each fuel (bpf_iter_num_new start stop) body s =
           Some (it, visit body (num_values (conv c_int start) (conv c_int stop)) s) ∧
         iter_live it = false) ∧
  (∃ it, bpf_repeat fuel N body' s =
           Some (it, visit (λ _, body') (num_values 0 (conv c_int N)) s) ∧ iter_live it = false) ∧
  (length (num_values (conv c_int start) (conv c_int stop)) ≤ Z.to_nat BPF_MAX_LOOPS)%nat.
Proof.
  intros Hf HN. pose proof (num_values_rest start stop) as Hr.
  pose proof (num_values_rest 0 N) as HrN. change (conv c_int 0) with 0 in HrN. split_and!.
  - apply cleanup_dead. unfold for_values. rewrite <- Hr. apply for_loop_check. by rewrite Hr.
  - apply for_values_exact.
  - apply cleanup_dead. rewrite <- Hr. apply for_loop_next. by rewrite Hr.
  - apply cleanup_dead. rewrite <- HrN. apply for_loop_next. by rewrite HrN.
  - apply num_values_length.
Qed.

End Facts.

(** Summing 3, 4, 5 and stopping at 5 of 10; repeating 2^32 + 5 times, which is
    5 times. *)
Lemma bpf_loops_terminate_witness :
  (∃ it, bpf_for (I:=Model.iter_num) 8 c_int c_int c_int 3 10
           (λ v s, (s + v, bool_decide (v < 5))) 0 = Some (it, 12) ∧ iter_live it = false) ∧
  (∃ it, bpf_repeat (I:=Model.iter_num) 8 (2 ^ 32 + 5) (λ s, (s + 1, true)) 0 = Some (it, 5) ∧
         iter_live it = false).
Proof.
  destruct (bpf_loops_terminate (I:=Model.iter_num) 8 (λ v s, (s + v, bool_decide (v < 5)))
    (λ s : Z, (s + 1, true)) c_int c_int c_int 3 10 (2 ^ 32 + 5) 0)
    as ((it & E & Hlive) & _ & _ & (it' & E' & Hlive') & _).
  - vm_compute. lia.
  - vm_compute. lia.
  - split.
    + exists it. split; [|exact Hlive]. rewrite E. reflexivity.
    + exists it'. split; [|exact Hlive']. rewrite E'. reflexivity.
Defined.

(** With a negative start and an unsigned loop variable or end the check fails
    at once; a byte counts as far as it can. *)
Lemma bpf_for_conversions :
  for_values c_int c_int c_uint (-2) 3 = [] ∧ for_values c_uint c_int c_int (-2) 3 = [] ∧
  for_values (IntType 8 false) c_int c_int 254 258 = [254; 255] ∧
  for_exact c_int c_int c_int (-2) 3 ∧ for_exact c_uint c_int c_ulong 0 3.
Proof.
  split_and!; try by vm_compute. all: unfold for_exact, fits; repeat constructor; done.
Qed.
