(* ===== verification/Kernel.v ===== *)
(** * What the program relies on from the kernel: BPF maps and buffers

    BPF maps and the ring buffer are kernel objects the repository only calls.
    They are type classes here: the operations a component uses, and the
    documented behaviour it relies on as laws. [BpfProgram] and [Loader] are
    written and verified against the classes; the instances at the end (a
    finite map with a capacity, a queue with a byte budget, a row of counters)
    show that the laws can hold together and let the witnesses run. *)

From S2P Require Import Prelude.
From S2P Require Import GoStrings.

Local Open Scope Z_scope.

(** [BPF_MAP_TYPE_HASH]: keys and values are the bytes of the caller's
    objects. [hash_update] is [bpf_map_update_elem] with [BPF_ANY] and fails
    with an errno. *)
Class BpfHash (M : Type) := {
  hash_lookup : M → bytes → option bytes;
  hash_update : M → bytes → bytes → option M;
}.

Class BpfHashOk (M : Type) `{!BpfHash M} : Prop := {
  hash_lookup_update_eq m k v m' :
    hash_update m k v = Some m' → hash_lookup m' k = Some v;
  hash_lookup_update_ne m k v m' k' :
    hash_update m k v = Some m' → k ≠ k' → hash_lookup m' k' = hash_lookup m k';
}.

(** The capacity contract: an update fails only when the key is new and the
    map holds [max_entries] entries already. *)
Class BpfHashCap (M : Type) `{!BpfHash M} := {
  hash_max : M → nat;
  hash_count : M → nat;
}.

Class BpfHashCapOk (M : Type) `{!BpfHash M, !BpfHashCap M} : Prop := {
  hash_max_update m k v m' :
    hash_update m k v = Some m' → hash_max m' = hash_max m;
  hash_count_update m k v m' :
    hash_update m k v = Some m' →
    hash_count m' =
      (if hash_lookup m k then hash_count m else S (hash_count m));
  hash_update_room m k v :
    is_Some (hash_lookup m k) ∨ (hash_count m < hash_max m)%nat →
    is_Some (hash_update m k v);
  hash_update_full m k v :
    hash_lookup m k = None → (hash_max m ≤ hash_count m)%nat →
    hash_update m k v = None;
}.

(** [BPF_MAP_TYPE_RINGBUF]. A reservation hands out memory with arbitrary
    content; a submitted record becomes the newest one; [ring_read] takes the
    oldest. *)
Class BpfRingbuf (R : Type) := {
  ring_reserve : R → Z → option (bytes * R);
  ring_submit : R → bytes → R;
  ring_read : R → option (bytes * R);
  ring_records : R → list bytes;
}.

Class BpfRingbufOk (R : Type) `{!BpfRingbuf R} : Prop := {
  ring_reserve_length r n b r' :
    ring_reserve r n = Some (b, r') → Z.of_nat (length b) = n;
  ring_reserve_records r n b r' :
    ring_reserve r n = Some (b, r') → ring_records r' = ring_records r;
  ring_submit_records r b : ring_records (ring_submit r b) = ring_records r ++ [b];
  ring_read_nil r : ring_records r = [] → ring_read r = None;
  ring_read_cons r b bs :
    ring_records r = b :: bs →
    ∃ r', ring_read r = Some (b, r') ∧ ring_records r' = bs;
}.

(** [BPF_MAP_TYPE_PERCPU_ARRAY] with [__u64] values: a program sees the slot
    of its own CPU, user space reads the slots of all CPUs. *)
Class BpfPercpu (P : Type) := {
  pcpu_lookup : P → nat → Z → option Z;
  pcpu_store : P → nat → Z → Z → P;
  pcpu_values : P → Z → option (list Z);
}.

Class BpfPercpuOk (P : Type) `{!BpfPercpu P} : Prop := {
  pcpu_values_lookup p k vs cpu :
    pcpu_values p k = Some vs → pcpu_lookup p cpu k = vs !! cpu;
  pcpu_values_store p k vs cpu v :
    pcpu_values p k = Some vs → (cpu < length vs)%nat →
    pcpu_values (pcpu_store p cpu k v) k = Some (<[cpu:=v]> vs);
}.

(** ** Instances *)

Module Model.

(** A hash map with a capacity. *)
Record hash : Type := Hash { h_max : nat; h_map : gmap bytes bytes }.

Definition hash_put (m : hash) (k v : bytes) : option hash :=
  if bool_decide (is_Some (h_map m !! k) ∨ (size (h_map m) < h_max m)%nat)
  then Some (Hash (h_max m) (<[k:=v]> (h_map m))) else None.

#[global] Instance hash_bpf : BpfHash hash := {|
  hash_lookup m k := h_map m !! k;
  hash_update := hash_put;
|}.

#[global] Instance hash_cap : BpfHashCap hash := {|
  hash_max := h_max;
  hash_count m := size (h_map m);
|}.

#[global] Instance hash_bpf_ok : BpfHashOk hash.
Proof.
  split; intros m k v m'; cbn; unfold hash_put; case_bool_decide; intros;
    simplify_eq/=.
  - apply lookup_insert_eq.
  - by apply lookup_insert_ne.
Qed.

#[global] Instance hash_cap_ok : BpfHashCapOk hash.
Proof.
  split; cbn; unfold hash_put.
  - intros m k v m'. case_bool_decide; intros; by simplify_eq/=.
  - intros m k v m'. case_bool_decide; intros; simplify_eq/=.
    rewrite map_size_insert. by destruct (h_map m !! k).
  - intros m k v H. rewrite bool_decide_eq_true_2 by done. eauto.
  - intros m k v Hn Hf. rewrite bool_decide_eq_false_2; [done|].
    rewrite Hn. intros [[? ?]|?]; [done|lia].
Qed.

(** A ring buffer with room for [r_room] more bytes; a record costs its size
    and an 8-byte header. Reserved memory is full of 0xaa. *)
Record ring : Type := Ring { r_room : Z; r_queue : list bytes }.

#[global] Instance ring_bpf : BpfRingbuf ring := {|
  ring_reserve r n :=
    if bool_decide (0 ≤ n ∧ n + 8 ≤ r_room r)
    then Some (replicate (Z.to_nat n) Byte.xaa, Ring (r_room r - (n + 8)) (r_queue r))
    else None;
  ring_submit r b := Ring (r_room r) (r_queue r ++ [b]);
  ring_read r := match r_queue r with
                 | [] => None
                 | b :: bs => Some (b, Ring (r_room r + Z.of_nat (length b) + 8) bs)
                 end;
  ring_records := r_queue;
|}.

#[global] Instance ring_bpf_ok : BpfRingbufOk ring.
Proof.
  split; cbn.
  - intros r n b r'. case_bool_decide; intros; simplify_eq.
    rewrite length_replicate. lia.
  - intros r n b r'. case_bool_decide; intros; by simplify_eq.
  - done.
  - by intros r ->.
  - intros r b bs ->. eauto.
Qed.

(** One [__u64] counter per CPU under key 0. *)
#[global] Instance counters_bpf : BpfPercpu (list Z) := {|
  pcpu_lookup p cpu k := if bool_decide (k = 0) then p !! cpu else None;
  pcpu_store p cpu k v := if bool_decide (k = 0) then <[cpu:=v]> p else p;
  pcpu_values p k := if bool_decide (k = 0) then Some p else None;
|}.

#[global] Instance counters_bpf_ok : BpfPercpuOk (list Z).
Proof.
  split; cbn; intros; repeat case_bool_decide; by simplify_eq.
Qed.

End Model.
