(* ===== verification/BpfProgram.v ===== *)
(** * The eBPF program: [bpf/common.h] and [bpf/drm_common.bpf.c]

    The types and constants the program shares with user space, its four maps,
    and [kubenpu_ioctl], the fentry program on [drm_ioctl], statement by
    statement. Field accesses of kernel structs go through the layout of the
    running kernel (CO-RE), a parameter. The theorems relate the program to an
    abstract specification: which calls become events, and with which
    content. *)

From S2P Require Import Prelude.
From S2P Require Import GoStrings.
From S2P Require Import CLayout.
From S2P Require Import Tracing.
From S2P Require Import Vmlinux.
From S2P Require Import BpfHelpers.
From S2P Require Import BpfMacros.
From S2P Require Import Kernel.

Local Open Scope Z_scope.

(** ** [bpf/common.h] *)

Definition KindUnknown : Z := 0.
Definition KindSubmit : Z := 1.
Definition KindAlloc : Z := 2.
Definition KindWait : Z := 3.

Definition struct_device_key : ctype := CStruct [mem:
  ("major", __u32);
  ("minor", __u32) ].

Definition struct_ioctl_key : ctype := CStruct [mem:
  ("vendor_id", __u32);
  ("nr", __u32) ].

Definition struct_event : ctype := CStruct [mem:
  ("timestamp", __u64);
  ("cgroup_id", __u64);
  ("tgid", __u32);
  ("cmd", __u32);
  ("minor", __u32);
  ("major", __u16);
  ("kind", __u8);
  ("_pad", CArr __u8 1) ].

(** ** [bpf/drm_common.bpf.c]: the maps *)

Definition MAX_ENTRIES_DEVICES : Z := 32.
Definition MAX_ENTRIES_IOCTLS : Z := 640.
Definition MAX_ENTRIES_EVENTS : Z := 256 * 1024.

(** In section [license]. *)
Definition LICENSE : string := "GPL".

(** A pointer that only makes the compiler record [struct event]. *)
Definition unused_event : string * ctype := ("unused_event", CPtr "struct event").

Record map_def : Type := MapDef {
  md_type : string;              (** an enumerator of [enum bpf_map_type] *)
  md_max_entries : Z;
  md_key : option ctype;
  md_value : option ctype;
}.

Definition devices : map_def := {|
  md_type := "BPF_MAP_TYPE_HASH";
  md_max_entries := MAX_ENTRIES_DEVICES;
  md_key := Some struct_device_key;
  md_value := Some __u32;
|}.

Definition ioctls : map_def := {|
  md_type := "BPF_MAP_TYPE_HASH";
  md_max_entries := MAX_ENTRIES_IOCTLS;
  md_key := Some struct_ioctl_key;
  md_value := Some __u8;
|}.

Definition events : map_def := {|
  md_type := "BPF_MAP_TYPE_RINGBUF";
  md_max_entries := MAX_ENTRIES_EVENTS;
  md_key := None;
  md_value := None;
|}.

Definition dropped : map_def := {|
  md_type := "BPF_MAP_TYPE_PERCPU_ARRAY";
  md_max_entries := 1;
  md_key := Some __u32;
  md_value := Some __u64;
|}.

(** The members of the struct a definition declares, in the order of the source. *)
Definition map_members (d : map_def) : list (string * decl) :=
  [__uint "type" (default 0 (enum_value enum_bpf_map_type (md_type d)));
   __uint "max_entries" (md_max_entries d)] ++
  option_list (__type "key" <$> md_key d) ++ option_list (__type "value" <$> md_value d).

(** An object of a struct type, assigned member by member: a designated
    initialiser starts from zeroes, a reserved record from what was there. *)
Definition zeroed (t : ctype) : bytes := replicate (Z.to_nat (sizeof t)) Byte.x00.

Definition assign (t : ctype) (f : string) (v : Z) (obj : bytes) : bytes :=
  default obj (store_field t f v obj).

Definition assign_elem (t : ctype) (f : string) (i : nat) (v : Z) (obj : bytes) :
    bytes :=
  default obj (store_elem t f i v obj).

(** [struct device_key dkey = {.major = major, .minor = minor}] *)
Definition make_device_key (major minor : Z) : bytes :=
  assign struct_device_key "minor" minor
    (assign struct_device_key "major" major (zeroed struct_device_key)).

(** [struct ioctl_key ikey = {.vendor_id = vendor_id, .nr = nr}] *)
Definition make_ioctl_key (vendor_id nr : Z) : bytes :=
  assign struct_ioctl_key "nr" nr
    (assign struct_ioctl_key "vendor_id" vendor_id (zeroed struct_ioctl_key)).

(** What one execution of the program reads from its surroundings: the CPU it
    runs on and the values of the context helpers. *)
Record exec_ctx : Type := {
  cpu : nat;
  ktime_tai_ns : Z;
  current_cgroup_id : Z;
  current_pid_tgid : Z;
}.

(** The member assignments to [poll_event], in the order of the source. *)
Definition fill_event (x : exec_ctx) (cmd minor major kind : Z) (poll_event : bytes) :
    bytes :=
  let e := assign struct_event "timestamp" (ktime_tai_ns x) poll_event in
  let e := assign struct_event "cgroup_id" (current_cgroup_id x) e in
  let e := assign struct_event "tgid" (Z.shiftr (current_pid_tgid x) 32) e in
  let e := assign struct_event "cmd" cmd e in
  let e := assign struct_event "minor" minor e in
  let e := assign struct_event "major" major e in
  let e := assign struct_event "kind" kind e in
  assign_elem struct_event "_pad" 0 0 e.

(** The helper calls of [kubenpu_ioctl], in program order, with the types the
    source gives their arguments and results. *)
Definition helper_calls : list call_site := [
  CallSite "bpf_map_lookup_elem"
    [CPtrTo false (CTag "devices"); CPtrTo false (CTag "device_key")]
    (CPtrTo false (CNum "__u32"));
  CallSite "bpf_map_lookup_elem"
    [CPtrTo false (CTag "ioctls"); CPtrTo false (CTag "ioctl_key")]
    (CPtrTo false (CNum "__u8"));
  CallSite "bpf_ringbuf_reserve"
    [CPtrTo false (CTag "events"); CNum "unsigned long"; CNum "int"]
    (CPtrTo false (CTag "event"));
  CallSite "bpf_map_lookup_elem"
    [CPtrTo false (CTag "dropped"); CPtrTo false (CNum "__u32")]
    (CPtrTo false (CNum "__u64"));
  CallSite "bpf_ktime_get_tai_ns" [] (CNum "__u64");
  CallSite "bpf_get_current_cgroup_id" [] (CNum "__u64");
  CallSite "bpf_get_current_pid_tgid" [] (CNum "__u64");
  CallSite "bpf_ringbuf_submit" [CPtrTo false (CTag "event"); CNum "int"] CVoid].

Section Program.

Context {H R P : Type} `{!BpfHash H, !BpfRingbuf R, !BpfPercpu P}.

(** The four maps while the program is loaded. *)
Record bpf_state : Type := BpfState {
  st_devices : H;
  st_ioctls : H;
  st_events : R;
  st_dropped : P;
}.

(** The running kernel: the bytes at an address, and the relocated offset and
    size of a struct member (CO-RE). *)
Variable kernel_bytes : Z → Z → bytes.
Variable relo : string → string → option (Z * Z).

(** A relocated load of member [f] of the [struct s] at [addr]. *)
Definition core_read (s f : string) (addr : Z) : Z :=
  match relo s f with
  | Some (off, size) => le_value (kernel_bytes (addr + off) size)
  | None => 0
  end.

(** [*lost += 1] when the counter exists, on the slot of this CPU. *)
Definition count_drop (x : exec_ctx) (s : bpf_state) : bpf_state :=
  let zero := 0 in
  match pcpu_lookup (st_dropped s) (cpu x) zero with
  | Some lost =>
      BpfState (st_devices s) (st_ioctls s) (st_events s)
        (pcpu_store (st_dropped s) (cpu x) zero (wrap 64 (lost + 1)))
  | None => s
  end.

(** [SEC("fentry/drm_ioctl") kubenpu_ioctl] *)
Definition kubenpu_ioctl (x : exec_ctx) (filp cmd arg : Z) (s : bpf_state) :
    bpf_state * Z :=
  let rdev := wrap 64 (core_read "inode" "i_rdev" (core_read "file" "f_inode" filp)) in
  let minor := wrap 32 (Z.land rdev 0xFFFFF) in
  let major := wrap 32 (Z.shiftr rdev 20) in
  let dkey := make_device_key major minor in
  match hash_lookup (st_devices s) dkey with
  | None => (s, 0)
  | Some devices_data =>
      let nr := wrap 32 (Z.land cmd 0xFF) in
      let ikey := make_ioctl_key (le_value devices_data) nr in
      match hash_lookup (st_ioctls s) ikey with
      | None => (s, 0)
      | Some ioctls_data =>
          match ring_reserve (st_events s) (sizeof struct_event) with
          | None => (count_drop x s, 0)
          | Some (poll_event, events) =>
              let e := fill_event x cmd minor major (le_value ioctls_data) poll_event in
              (BpfState (st_devices s) (st_ioctls s) (ring_submit events e) (st_dropped s), 0)
          end
      end
  end.

(** The entry point the kernel calls with its array of slots: the wrapper of
    [BPF_PROG(kubenpu_ioctl, ...)]. *)
Definition kubenpu_ioctl_params : list (string * ctype) := [
  ("filp", CPtr "struct file");
  ("cmd", CInt 4);
  ("arg", CInt 8)].

Definition kubenpu_ioctl_entry (x : exec_ctx) (ctx : list Z) (s : bpf_state) :
    option (bpf_state * Z) :=
  match BPF_PROG kubenpu_ioctl_params ctx with
  | Some [filp; cmd; arg] => Some (kubenpu_ioctl x filp cmd arg s)
  | _ => None
  end.

End Program.

Arguments bpf_state : clear implicits.
Arguments BpfState {H R P}.
Arguments st_devices {H R P}.
Arguments st_ioctls {H R P}.
Arguments st_events {H R P}.
Arguments st_dropped {H R P}.

(** ** Objects written member by member *)

(** Storing right after a prefix extends the prefix. *)
Lemma poke_prefix (p rest bs : bytes) o :
  o = Z.of_nat (length p) → poke (p ++ rest) o bs = (p ++ bs) ++ drop (length bs) rest.
Proof.
  intros ->. unfold poke. rewrite Nat2Z.id, take_app_length.
  rewrite drop_app_ge by lia. rewrite <- app_assoc. repeat f_equal. lia.
Qed.

Lemma assign_prefix t f v p rest o ft n :
  offset_in 0 t f = Some (o, ft) → Z.to_nat (sizeof ft) = n →
  o = Z.of_nat (length p) →
  assign t f v (p ++ rest) = (p ++ le_bytes n v) ++ drop n rest.
Proof.
  intros Ho <- Hp. unfold assign, store_field. rewrite Ho. cbn.
  rewrite poke_prefix by done. by rewrite length_le_bytes.
Qed.

(** Assign the next member of a struct, whose declared offset and size are
    computed from its declaration. *)
Ltac assign_next :=
  erewrite assign_prefix;
    [|vm_compute; reflexivity|vm_compute; reflexivity
     |rewrite ?length_app, ?length_le_bytes; reflexivity].

Lemma make_device_key_bytes major minor :
  make_device_key major minor = le_bytes 4 major ++ le_bytes 4 minor.
Proof.
  unfold make_device_key.
  change (zeroed struct_device_key) with ([] ++ replicate 8 Byte.x00).
  do 2 assign_next. apply app_nil_r.
Qed.

Lemma make_ioctl_key_bytes vendor nr :
  make_ioctl_key vendor nr = le_bytes 4 vendor ++ le_bytes 4 nr.
Proof.
  unfold make_ioctl_key.
  change (zeroed struct_ioctl_key) with ([] ++ replicate 8 Byte.x00).
  do 2 assign_next. apply app_nil_r.
Qed.

Lemma le_bytes_pair_inj a b a' b' :
  in_width 32 a → in_width 32 b → in_width 32 a' → in_width 32 b' →
  le_bytes 4 a ++ le_bytes 4 b = le_bytes 4 a' ++ le_bytes 4 b' → a = a' ∧ b = b'.
Proof.
  intros ???? E. apply app_inj_1 in E as [E1 E2]; [|by rewrite !length_le_bytes].
  by split; eapply (le_bytes_inj 4).
Qed.

(** An event as the program means it, and the 32 bytes of its record. *)
Record event : Type := Event {
  ev_timestamp : Z;
  ev_cgroup_id : Z;
  ev_tgid : Z;
  ev_cmd : Z;
  ev_minor : Z;
  ev_major : Z;
  ev_kind : Z;
}.

Definition event_bytes (e : event) : bytes :=
  le_bytes 8 (ev_timestamp e) ++ le_bytes 8 (ev_cgroup_id e) ++
  le_bytes 4 (ev_tgid e) ++ le_bytes 4 (ev_cmd e) ++ le_bytes 4 (ev_minor e) ++
  le_bytes 2 (ev_major e) ++ le_bytes 1 (ev_kind e) ++ [Byte.x00].

(** The event one execution describes. *)
Definition event_of (x : exec_ctx) (cmd minor major kind : Z) : event := {|
  ev_timestamp := ktime_tai_ns x;
  ev_cgroup_id := current_cgroup_id x;
  ev_tgid := Z.shiftr (current_pid_tgid x) 32;
  ev_cmd := cmd;
  ev_minor := minor;
  ev_major := major;
  ev_kind := kind;
|}.

Lemma struct_event_size : sizeof struct_event = 32.
Proof. reflexivity. Qed.

Lemma fill_event_eq x cmd minor major kind buf :
  length buf = 32%nat →
  fill_event x cmd minor major kind buf =
  event_bytes (event_of x cmd minor major kind).
Proof.
  intros Hlen. unfold fill_event. change buf with ([] ++ buf).
  do 7 assign_next. rewrite !drop_drop. cbn [Nat.add].
  unfold assign_elem, store_elem.
  change (offset_in 0 struct_event "_pad") with (Some (31, CArr __u8 1)).
  cbn [mbind option_bind]. rewrite bool_decide_eq_true_2 by lia. cbn [default].
  rewrite poke_prefix by (by rewrite !length_app, !length_le_bytes).
  rewrite drop_drop, length_le_bytes.
  rewrite (drop_ge buf) by (change (Z.to_nat (sizeof __u8)) with 1%nat; lia).
  rewrite app_nil_r, <- !app_assoc. reflexivity.
Qed.

(** The values at the offsets of the record, whichever declaration computes
    those offsets. *)
Lemma event_bytes_values e rest :
  let v o n := le_value (peek (event_bytes e ++ rest) o n) in
  v 0 8 = wrap 64 (ev_timestamp e) ∧ v 8 8 = wrap 64 (ev_cgroup_id e) ∧
  v 16 4 = wrap 32 (ev_tgid e) ∧ v 20 4 = wrap 32 (ev_cmd e) ∧
  v 24 4 = wrap 32 (ev_minor e) ∧ v 28 2 = wrap 16 (ev_major e) ∧
  v 30 1 = wrap 8 (ev_kind e) ∧ peek (event_bytes e ++ rest) 31 1 = [Byte.x00] ∧
  length (event_bytes e) = 32%nat.
Proof.
  cbn zeta. rewrite <- !(le_value_bytes 8), <- !(le_value_bytes 4),
    <- (le_value_bytes 2), <- (le_value_bytes 1).
  split_and!; reflexivity.
Qed.

(** ** What the program promises *)

(** The kernel packs a device number as [MKDEV(major, minor)]: 12 bits of
    major above 20 bits of minor. *)
Definition MKDEV (major minor : Z) : Z := Z.lor (Z.shiftl major 20) minor.

(** The abstract filter: the device must be known, and the number of the call
    must be in the table of its vendor. *)
Definition tracked (devs tbl : gmap (Z * Z) Z) (rdev cmd : Z) : option (Z * Z * Z) :=
  let major := rdev `div` 2 ^ 20 in
  let minor := rdev `mod` 2 ^ 20 in
  vendor ← devs !! (major, minor);
  kind ← tbl !! (vendor, cmd `mod` 2 ^ 8);
  Some (major, minor, kind).

Lemma land_ones_mod z n m : 0 ≤ n → m = Z.ones n → Z.land z m = z `mod` 2 ^ n.
Proof. intros ? ->. by apply Z.land_ones. Qed.

(** The program's bit operations are division and remainder. *)
Lemma rdev_split rdev :
  in_width 32 rdev →
  wrap 32 (Z.land (wrap 64 rdev) 0xFFFFF) = rdev `mod` 2 ^ 20 ∧
  wrap 32 (Z.shiftr (wrap 64 rdev) 20) = rdev `div` 2 ^ 20 ∧
  0 ≤ rdev `mod` 2 ^ 20 < 2 ^ 20 ∧ 0 ≤ rdev `div` 2 ^ 20 < 2 ^ 12.
Proof.
  intros Hr. rewrite (wrap_id 64) by (by eapply in_width_mono; [|done]).
  rewrite (land_ones_mod _ 20) by done.
  rewrite Z.shiftr_div_pow2 by done.
  assert (0 ≤ rdev `mod` 2 ^ 20 < 2 ^ 20) by (by apply Z.mod_pos_bound).
  assert (0 ≤ rdev `div` 2 ^ 20 < 2 ^ 12).
  { destruct Hr. split; [by apply Z.div_pos|]. by apply Z.div_lt_upper_bound. }
  split_and!; try lia; apply wrap_id; width_lia.
Qed.

Lemma nr_split cmd :
  wrap 32 (Z.land cmd 0xFF) = cmd `mod` 2 ^ 8 ∧ 0 ≤ cmd `mod` 2 ^ 8 < 2 ^ 8.
Proof.
  rewrite (land_ones_mod _ 8) by done.
  assert (0 ≤ cmd `mod` 2 ^ 8 < 2 ^ 8) by (by apply Z.mod_pos_bound).
  split; [|done]. apply wrap_id. width_lia.
Qed.

Section Refinement.

Context {H R P : Type} `{!BpfHash H, !BpfRingbuf R, !BpfPercpu P}.
Context `{!BpfRingbufOk R}.

(** A hash map holds a finite map of device nodes to vendor ids, or of
    (vendor, number) pairs to kinds. *)
Definition holds_devices (m : H) (devs : gmap (Z * Z) Z) : Prop :=
  map_Forall (λ _ v, in_width 32 v) devs ∧
  ∀ major minor, in_width 32 major → in_width 32 minor →
    hash_lookup m (make_device_key major minor) = le_bytes 4 <$> devs !! (major, minor).

Definition holds_ioctls (m : H) (tbl : gmap (Z * Z) Z) : Prop :=
  map_Forall (λ _ v, in_width 8 v) tbl ∧
  ∀ vendor nr, in_width 32 vendor → in_width 32 nr →
    hash_lookup m (make_ioctl_key vendor nr) = le_bytes 1 <$> tbl !! (vendor, nr).

(** The abstract effect of one call on a device with number [rdev]: nothing,
    one submitted event, or one counted drop. *)
Definition ioctl_spec (devs tbl : gmap (Z * Z) Z) (x : exec_ctx) (rdev cmd : Z)
    (s s' : bpf_state H R P) : Prop :=
  match tracked devs tbl rdev cmd with
  | None => s' = s
  | Some (major, minor, kind) =>
      match ring_reserve (st_events s) (sizeof struct_event) with
      | Some _ =>
          st_devices s' = st_devices s ∧ st_ioctls s' = st_ioctls s ∧
          st_dropped s' = st_dropped s ∧
          ring_records (st_events s') =
            ring_records (st_events s) ++ [event_bytes (event_of x cmd minor major kind)]
      | None => s' = count_drop x s
      end
  end.

Variable kernel_bytes : Z → Z → bytes.
Variable relo : string → string → option (Z * Z).
Hypothesis kernel_bytes_length : ∀ a n, 0 ≤ n → Z.of_nat (length (kernel_bytes a n)) = n.

Definition rdev_of (filp : Z) : Z :=
  core_read kernel_bytes relo "inode" "i_rdev"
    (core_read kernel_bytes relo "file" "f_inode" filp).

Lemma core_read_width s f off size addr :
  relo s f = Some (off, size) → 0 ≤ size →
  in_width (8 * size) (core_read kernel_bytes relo s f addr).
Proof.
  intros Hr Hs. unfold core_read. rewrite Hr.
  pose proof (le_value_width (kernel_bytes (addr + off) size)) as Hw.
  by rewrite kernel_bytes_length in Hw.
Qed.

Lemma rdev_of_width off filp :
  relo "inode" "i_rdev" = Some (off, 4) → in_width 32 (rdev_of filp).
Proof. intros. by eapply (core_read_width _ _ _ 4). Qed.

Lemma kubenpu_ioctl_entry_call x filp cmd arg post s :
  kubenpu_ioctl_entry kernel_bytes relo x (filp :: cmd :: arg :: post) s =
  Some (kubenpu_ioctl kernel_bytes relo x (wrap 64 filp) (wrap 32 cmd) (wrap 64 arg) s).
Proof.
  unfold kubenpu_ioctl_entry. by rewrite BPF_PROG_expand by (cbn; lia).
Qed.

Lemma kubenpu_ioctl_tracked devs tbl x filp cmd arg s off :
  holds_devices (st_devices s) devs → holds_ioctls (st_ioctls s) tbl →
  relo "inode" "i_rdev" = Some (off, 4) →
  kubenpu_ioctl kernel_bytes relo x filp cmd arg s =
  match tracked devs tbl (rdev_of filp) cmd with
  | None => (s, 0)
  | Some (major, minor, kind) =>
      match ring_reserve (st_events s) (sizeof struct_event) with
      | None => (count_drop x s, 0)
      | Some (_, events) =>
          (BpfState (st_devices s) (st_ioctls s)
             (ring_submit events (event_bytes (event_of x cmd minor major kind)))
             (st_dropped s), 0)
      end
  end.
Proof.
  intros [Hdw Hd] [Hiw Hi] Hrelo. unfold kubenpu_ioctl. fold (rdev_of filp).
  destruct (rdev_split (rdev_of filp)) as (-> & -> & Hmin & Hmaj);
    [by eapply rdev_of_width|].
  destruct (nr_split cmd) as [-> Hnr]. unfold tracked.
  rewrite Hd by width_lia.
  destruct (devs !! _) as [vendor|] eqn:Ev; [|done]. opt_cbn.
  rewrite (le_value_bytes_id 4) by (by eapply (map_Forall_lookup_1 _ _ _ _ Hdw)).
  rewrite Hi by first [width_lia|by eapply (map_Forall_lookup_1 _ _ _ _ Hdw)].
  destruct (tbl !! _) as [kind|] eqn:Ek; [|done]. opt_cbn.
  rewrite (le_value_bytes_id 1) by (by eapply (map_Forall_lookup_1 _ _ _ _ Hiw)).
  destruct (ring_reserve _ _) as [[buf r]|] eqn:Er; [|done].
  rewrite fill_event_eq; [done|].
  apply ring_reserve_length in Er. rewrite struct_event_size in Er. lia.
Qed.

End Refinement.

(** ** CO-RE: the program reads the right bytes under any layout *)

(** Memory holds an object at an address. *)
Definition holds_at (kernel_bytes : Z → Z → bytes) (addr : Z) (obj : bytes) : Prop :=
  ∀ off n, 0 ≤ off → 0 ≤ n → off + n ≤ Z.of_nat (length obj) →
    kernel_bytes (addr + off) n = peek obj off n.

(** The relocations against the type declarations of a kernel. *)
Definition relo_of (types : string → option ctype) (s f : string) : option (Z * Z) :=
  t ← types s; '(o, ft) ← offset_in 0 t f; Some (o, sizeof ft).

(** The declarations of [bpf/vmlinux.h] itself. *)
Definition vmlinux_types (s : string) : option ctype :=
  if String.eqb s "file" then Some struct_file
  else if String.eqb s "inode" then Some struct_inode else None.

Lemma core_read_object kernel_bytes types s t f o ft addr obj :
  types s = Some t → offset_in 0 t f = Some (o, ft) →
  0 ≤ o → 0 ≤ sizeof ft → o + sizeof ft ≤ Z.of_nat (length obj) →
  holds_at kernel_bytes addr obj →
  Some (core_read kernel_bytes (relo_of types) s f addr) = load_field t f obj.
Proof.
  intros Ht Ho H0 Hs Hl Hm. unfold core_read, relo_of, load_field.
  rewrite Ht. opt_cbn. rewrite Ho. opt_cbn. by rewrite Hm.
Qed.

Lemma MKDEV_split major minor :
  0 ≤ major < 2 ^ 12 → 0 ≤ minor < 2 ^ 20 →
  in_width 32 (MKDEV major minor) ∧
  MKDEV major minor `div` 2 ^ 20 = major ∧ MKDEV major minor `mod` 2 ^ 20 = minor.
Proof.
  intros Hmaj Hmin. unfold MKDEV. rewrite lor_shiftl_add by lia.
  split_and!; [width_lia| |].
  - rewrite Z.div_add_l by lia. rewrite (Z.div_small minor) by lia. lia.
  - rewrite Z.add_comm, Z_mod_plus_full. apply Z.mod_small. lia.
Qed.

(** ** Filling the maps one entry at a time *)

Section Filling.

Context {H : Type} `{!BpfHash H, !BpfHashOk H}.

Lemma holds_devices_update (m m' : H) devs major minor v :
  in_width 32 major → in_width 32 minor → in_width 32 v →
  holds_devices m devs →
  hash_update m (make_device_key major minor) (le_bytes 4 v) = Some m' →
  holds_devices m' (<[(major, minor) := v]> devs).
Proof.
  intros Ha Hb Hv [Hw Hd] Hu. split; [by apply map_Forall_insert_2|].
  intros a b Ha' Hb'. destruct (decide ((major, minor) = (a, b))) as [E|E].
  - simplify_eq. rewrite lookup_insert_eq. by eapply hash_lookup_update_eq.
  - rewrite lookup_insert_ne by done. rewrite <- Hd by done.
    eapply hash_lookup_update_ne; [done|]. rewrite !make_device_key_bytes.
    intros E'%le_bytes_pair_inj; [|done..]. naive_solver.
Qed.

Lemma holds_ioctls_update (m m' : H) tbl vendor nr k :
  in_width 32 vendor → in_width 32 nr → in_width 8 k →
  holds_ioctls m tbl →
  hash_update m (make_ioctl_key vendor nr) (le_bytes 1 k) = Some m' →
  holds_ioctls m' (<[(vendor, nr) := k]> tbl).
Proof.
  intros Ha Hb Hv [Hw Hd] Hu. split; [by apply map_Forall_insert_2|].
  intros a b Ha' Hb'. destruct (decide ((vendor, nr) = (a, b))) as [E|E].
  - simplify_eq. rewrite lookup_insert_eq. by eapply hash_lookup_update_eq.
  - rewrite lookup_insert_ne by done. rewrite <- Hd by done.
    eapply hash_lookup_update_ne; [done|]. rewrite !make_ioctl_key_bytes.
    intros E'%le_bytes_pair_inj; [|done..]. naive_solver.
Qed.

Lemma holds_devices_empty (m : H) :
  (∀ k, hash_lookup m k = None) → holds_devices m ∅.
Proof. intros E. split; [apply map_Forall_empty|]. intros. by rewrite E, lookup_empty. Qed.

Lemma holds_ioctls_empty (m : H) :
  (∀ k, hash_lookup m k = None) → holds_ioctls m ∅.
Proof. intros E. split; [apply map_Forall_empty|]. intros. by rewrite E, lookup_empty. Qed.

End Filling.

(** ** A node with one i915 device 226:128, for the witnesses *)

Module Sample.

Definition empty_hash (n : nat) : Model.hash := Model.Hash n ∅.

Definition devs : gmap (Z * Z) Z := <[(226, 128) := 1]> ∅.
Definition tbl : gmap (Z * Z) Z := <[(1, 105) := KindSubmit]> ∅.

Definition devices_map : Model.hash :=
  Model.Hash 32 (<[make_device_key 226 128 := le_bytes 4 1]> ∅).
Definition ioctls_map : Model.hash :=
  Model.Hash 640 (<[make_ioctl_key 1 105 := le_bytes 1 KindSubmit]> ∅).

Definition state (room : Z) : bpf_state Model.hash Model.ring (list Z) :=
  BpfState devices_map ioctls_map (Model.Ring room []) [0; 0].

(** An execution on CPU 1, of process 4242, in cgroup 117316. *)
Definition ctx : exec_ctx := {|
  cpu := 1%nat;
  ktime_tai_ns := 1000;
  current_cgroup_id := 117316;
  current_pid_tgid := Z.shiftl 4242 32 + 4243;
|}.

(** Kernel memory in which every struct file points to itself as inode and
    every 4-byte word is the device number 226:128. *)
Definition memory (addr n : Z) : bytes := le_bytes (Z.to_nat n) (MKDEV 226 128).

Definition relo : string → string → option (Z * Z) := relo_of vmlinux_types.

Lemma memory_length a n : 0 ≤ n → Z.of_nat (length (memory a n)) = n.
Proof. intros. unfold memory. rewrite length_le_bytes. lia. Qed.

Lemma devices_held : holds_devices devices_map devs.
Proof.
  eapply (holds_devices_update (empty_hash 32)); [done..| |by vm_compute].
  by apply holds_devices_empty.
Qed.

Lemma ioctls_held : holds_ioctls ioctls_map tbl.
Proof.
  eapply (holds_ioctls_update (empty_hash 640)); [done..| |by vm_compute].
  by apply holds_ioctls_empty.
Qed.

End Sample.

(** ** Properties *)

Section Properties.

Context {H R P : Type} `{!BpfHash H, !BpfRingbuf R, !BpfPercpu P, !BpfRingbufOk R}.

(** C8: On every branch the program implements the abstract filter: entered
    with the three argument slots of a [drm_ioctl] call, whatever the high half
    of the [cmd] slot holds, and with maps that hold the device and ioctl
    tables, it either leaves the state alone (untracked device or number), or
    submits exactly the event of this call, or, with the ring buffer full,
    counts exactly one drop; it always returns 0. *)
Theorem kubenpu_ioctl_refines (kernel_bytes : Z → Z → bytes) relo off devs tbl x
    filp cmd arg post (s : bpf_state H R P) :
  (∀ a n, 0 ≤ n → Z.of_nat (length (kernel_bytes a n)) = n) →
  relo "inode" "i_rdev" = Some (off, 4) →
  holds_devices (st_devices s) devs → holds_ioctls (st_ioctls s) tbl →
  in_width 64 filp →
  ∃ s', kubenpu_ioctl_entry kernel_bytes relo x (filp :: cmd :: arg :: post) s = Some (s', 0) ∧
        ioctl_spec devs tbl x (rdev_of kernel_bytes relo filp) (wrap 32 cmd) s s'.
Proof.
  intros Hlen Hrelo Hd Hi Hf. rewrite kubenpu_ioctl_entry_call, (wrap_id 64 filp) by done.
  rewrite (kubenpu_ioctl_tracked _ _ Hlen devs tbl) with (off := off) by done.
  unfold ioctl_spec. destruct (tracked _ _ _ _) as [[[major minor] kind]|]; [|by eexists].
  destruct (ring_reserve _ _) as [[buf r]|] eqn:E; eexists; split; [done| |done|done].
  split_and!; [done..|].
  cbn. rewrite ring_submit_records. by rewrite (ring_reserve_records _ _ _ _ E).
Qed.

(** A device number the kernel packs with [MKDEV] is taken apart into
    exactly its major and minor, and the 16-bit [major] member of the event
    loses nothing: an emitted event names the device the call was made on. *)
Theorem kubenpu_ioctl_device_exact (kernel_bytes : Z → Z → bytes) relo off devs tbl x
    filp cmd arg (s : bpf_state H R P) major minor kind vendor :
  (∀ a n, 0 ≤ n → Z.of_nat (length (kernel_bytes a n)) = n) →
  relo "inode" "i_rdev" = Some (off, 4) →
  holds_devices (st_devices s) devs → holds_ioctls (st_ioctls s) tbl →
  0 ≤ major < 2 ^ 12 → 0 ≤ minor < 2 ^ 20 →
  rdev_of kernel_bytes relo filp = MKDEV major minor →
  devs !! (major, minor) = Some vendor →
  tbl !! (vendor, cmd `mod` 2 ^ 8) = Some kind →
  is_Some (ring_reserve (st_events s) (sizeof struct_event)) →
  ∃ e, ring_records (st_events (kubenpu_ioctl kernel_bytes relo x filp cmd arg s).1) =
         ring_records (st_events s) ++ [e] ∧
       load_field struct_event "major" e = Some major ∧
       load_field struct_event "minor" e = Some minor.
Proof.
  intros Hlen Hrelo Hd Hi Hmaj Hmin Hrdev Hv Hk [[buf r] Hr].
  destruct (MKDEV_split major minor Hmaj Hmin) as (Hw & Ediv & Emod).
  rewrite (kubenpu_ioctl_tracked _ _ Hlen devs tbl) with (off := off) by done.
  unfold tracked. rewrite Hrdev, Ediv, Emod, Hv. opt_cbn. rewrite Hk. opt_cbn.
  rewrite Hr. eexists. split.
  - cbn [fst st_events]. by rewrite ring_submit_records, (ring_reserve_records _ _ _ _ Hr).
  - destruct (event_bytes_values (event_of x cmd minor major kind) [])
      as (_ & _ & _ & _ & Emin & Emaj & _).
    rewrite app_nil_r in Emin, Emaj.
    unfold load_field.
    change (offset_in 0 struct_event "major") with (Some (28, __u16)).
    change (offset_in 0 struct_event "minor") with (Some (24, __u32)).
    opt_cbn. change (sizeof __u16) with 2. change (sizeof __u32) with 4.
    rewrite Emin, Emaj. cbn [ev_minor ev_major event_of].
    rewrite !wrap_id by width_lia. done.
Qed.

End Properties.

(** C31: The record is fully initialised: whatever bytes the reserved memory
    held, the submitted record is the same, so no kernel memory reaches user
    space (the padding byte included). *)
Theorem fill_event_no_leak x cmd minor major kind buf :
  length buf = Z.to_nat (sizeof struct_event) →
  fill_event x cmd minor major kind buf = event_bytes (event_of x cmd minor major kind).
Proof. intros Hl. by apply fill_event_eq. Qed.

Lemma fill_event_no_leak_witness :
  fill_event Sample.ctx 7 128 226 1 (replicate 32 Byte.xaa) =
  event_bytes (event_of Sample.ctx 7 128 226 1).
Proof. apply fill_event_no_leak. reflexivity. Defined.

Lemma kubenpu_ioctl_refines_witness :
  ∃ s', kubenpu_ioctl_entry Sample.memory Sample.relo Sample.ctx
          [7; 2 ^ 40 + 0xC0406469; 0; -1] (Sample.state 64) = Some (s', 0) ∧
        ioctl_spec Sample.devs Sample.tbl Sample.ctx (rdev_of Sample.memory Sample.relo 7)
          (wrap 32 (2 ^ 40 + 0xC0406469)) (Sample.state 64) s'.
Proof.
  apply (kubenpu_ioctl_refines Sample.memory Sample.relo 76).
  - exact Sample.memory_length.
  - vm_compute. reflexivity.
  - exact Sample.devices_held.
  - exact Sample.ioctls_held.
  - unfold in_width. lia.
Defined.

Lemma kubenpu_ioctl_device_exact_witness :
  ∃ e, ring_records (st_events (kubenpu_ioctl Sample.memory Sample.relo Sample.ctx 7
         0xC0406469 0 (Sample.state 64)).1) =
         ring_records (st_events (Sample.state 64)) ++ [e] ∧
       load_field struct_event "major" e = Some 226 ∧
       load_field struct_event "minor" e = Some 128.
Proof.
  apply (kubenpu_ioctl_device_exact Sample.memory Sample.relo 76 Sample.devs Sample.tbl
           Sample.ctx 7 0xC0406469 0 (Sample.state 64) 226 128 1 1).
  - exact Sample.memory_length.
  - vm_compute. reflexivity.
  - exact Sample.devices_held.
  - exact Sample.ioctls_held.
  - lia.
  - lia.
  - vm_compute. reflexivity.
  - reflexivity.
  - reflexivity.
  - vm_compute. eauto.
Defined.

(** The program runs: a tracked submit is recorded, an untracked number is
    ignored, a full buffer counts a drop on this CPU. *)
Example kubenpu_ioctl_runs :
  (λ '(cmd, room),
     let s := (kubenpu_ioctl Sample.memory Sample.relo Sample.ctx 7 cmd 0
                 (Sample.state room)).1 in
     (length (ring_records (st_events s)), st_dropped s))
    <$> [(0xC0406469, 64); (0xC0406469, 8); (0x6468, 64)]
  = [(1%nat, [0; 0]); (0%nat, [0; 1]); (0%nat, [0; 0])].
Proof. vm_compute. reflexivity. Qed.

(** C25: CO-RE portability: whatever layout the running kernel gives [struct
    file] and [struct inode], as long as it declares [f_inode] as a pointer and
    [i_rdev] as a 32-bit member, the relocated loads of
    [filp->f_inode->i_rdev] return the device number stored in the file's
    inode; the declarations of [bpf/vmlinux.h] are one such layout, with
    [f_inode] at offset 32 and [i_rdev] at offset 76. *)
Theorem core_read_any_layout kernel_bytes types tf ti of' oi fp filp file_obj inode
    inode_obj rdev :
  types "file" = Some tf → types "inode" = Some ti →
  offset_in 0 tf "f_inode" = Some (of', CPtr fp) → 0 ≤ of' →
  offset_in 0 ti "i_rdev" = Some (oi, CInt 4) → 0 ≤ oi →
  of' + 8 ≤ Z.of_nat (length file_obj) → oi + 4 ≤ Z.of_nat (length inode_obj) →
  holds_at kernel_bytes filp file_obj → holds_at kernel_bytes inode inode_obj →
  load_field tf "f_inode" file_obj = Some inode →
  load_field ti "i_rdev" inode_obj = Some rdev →
  rdev_of kernel_bytes (relo_of types) filp = rdev ∧
  relo_of vmlinux_types "file" "f_inode" = Some (32, 8) ∧
  relo_of vmlinux_types "inode" "i_rdev" = Some (76, 4).
Proof.
  intros Htf Hti Hof H0f Hoi H0i Hlf Hli Hmf Hmi Hinode Hrdev.
  split; [|by split; vm_compute].
  assert (E : core_read kernel_bytes (relo_of types) "file" "f_inode" filp = inode).
  { pose proof (core_read_object _ _ _ _ _ _ _ filp file_obj Htf Hof H0f
      ltac:(cbn; lia) ltac:(cbn; lia) Hmf) as E. congruence. }
  unfold rdev_of. rewrite E.
  pose proof (core_read_object _ _ _ _ _ _ _ inode inode_obj Hti Hoi H0i
    ltac:(cbn; lia) ltac:(cbn; lia) Hmi) as E'. congruence.
Qed.

(** A kernel whose [struct file] is just the pointer and whose [struct inode]
    starts with the device number, both at address 0. *)
Definition tiny_types (s : string) : option ctype :=
  if String.eqb s "file" then Some (CStruct [mem: ("f_inode", CPtr "struct inode")])
  else Some (CStruct [mem: ("pad", CInt 8); ("i_rdev", CInt 4)]).

Definition tiny_object : bytes := le_bytes 8 0 ++ le_bytes 4 (MKDEV 226 128).

Lemma core_read_any_layout_witness :
  rdev_of (peek tiny_object) (relo_of tiny_types) 0 = MKDEV 226 128.
Proof.
  apply (core_read_any_layout (peek tiny_object) tiny_types
    (CStruct [mem: ("f_inode", CPtr "struct inode")])
    (CStruct [mem: ("pad", CInt 8); ("i_rdev", CInt 4)]) 0 8 "struct inode" 0
    tiny_object 0 tiny_object).
  1-4: reflexivity.
  all: try done.
  all: vm_compute; done.
Defined.

(** Every helper call of the program names a declared helper, passes as
    many arguments as its prototype has, of types that convert to the
    parameters' without a cast, and uses the result at a type it converts to;
    and the four maps have kinds the kernel header numbers. *)
Theorem program_declarations_typed :
  Forall (λ c, call_ok c = true) helper_calls ∧
  Forall (λ m, is_Some (enum_value enum_bpf_map_type (md_type m)))
    [devices; ioctls; events; dropped].
Proof. split; by_decide. Qed.
