(* ===== verification/Concurrent.v ===== *)
(** * Executions of the BPF program side by side

    [BpfProgram] runs one execution of [kubenpu_ioctl] as one step. On a real
    machine the CPUs execute the program at the same time, and what they share —
    the ring buffer and the maps — changes between any two of its accesses.
    Here an execution is a sequence of small steps, one per access to shared
    memory: each map lookup, entering the reservation and reserving, every
    assignment to a member of the reserved record, the submission, and the load
    and the store of [*lost += 1]. The CPUs and the reader in user space
    interleave freely.

    The kernel's contribution is the concurrent ring buffer as documented: space
    is reserved in order, a reserved record is private to whoever reserved it
    until it is submitted, and the reader stops at a record that is not.
    Reservations are serialised by the ring's spinlock: an execution that enters
    [bpf_ringbuf_reserve] while another is inside waits. The lookups and the
    submission take no lock. On one CPU there is one execution of the program at
    a time (the kernel refuses to enter a tracing program that is running there).

    The theorems: every interleaving is one of atomic executions, each at one
    point between its call and its return; an execution waits for another only
    to enter the reservation, and then for one step of the one inside. *)

From S2P Require Import Prelude.
From S2P Require Import CLayout.
From S2P Require Import Vmlinux.
From S2P Require Import Kernel.
From S2P Require Import BpfProgram.

Local Open Scope Z_scope.

(** ** The ring buffer *)

(** A reserved record: its address, its content, whether it is submitted. *)
Record slot : Type := Slot { sl_id : Z; sl_mem : bytes; sl_done : bool }.

Definition at_slot (id : Z) (f : slot → slot) (l : list slot) : list slot :=
  (λ s, if bool_decide (sl_id s = id) then f s else s) <$> l.

Definition write_slot (f : bytes → bytes) (s : slot) : slot := Slot (sl_id s) (f (sl_mem s)) (sl_done s).
Definition submit_slot (s : slot) : slot := Slot (sl_id s) (sl_mem s) true.

Class ConcRing (R : Type) := {
  cr_reserve : R → Z → option (Z * R);
  cr_write : R → Z → (bytes → bytes) → R;   (** through the pointer, at an address *)
  cr_submit : R → Z → R;
  cr_read : R → option (bytes * R);
  cr_slots : R → list slot;                 (** oldest reservation first *)
}.

Class ConcRingOk (R : Type) `{!ConcRing R} : Prop := {
  cr_reserve_slots r n id r' :
    cr_reserve r n = Some (id, r') →
    (id ∉ sl_id <$> cr_slots r) ∧
    ∃ mem, Z.of_nat (length mem) = n ∧ cr_slots r' = cr_slots r ++ [Slot id mem false];
  cr_write_slots r id f : cr_slots (cr_write r id f) = at_slot id (write_slot f) (cr_slots r);
  cr_submit_slots r id : cr_slots (cr_submit r id) = at_slot id submit_slot (cr_slots r);
  cr_read_done r id mem l :
    cr_slots r = Slot id mem true :: l → ∃ r', cr_read r = Some (mem, r') ∧ cr_slots r' = l;
  cr_read_busy r id mem l : cr_slots r = Slot id mem false :: l → cr_read r = None;
  cr_read_empty r : cr_slots r = [] → cr_read r = None;
}.

(** ** Executions *)

(** Where an execution is: what it does next, with its local variables. *)
Inductive pc : Type :=
  | PStart                                       (** look the device up *)
  | PVendor (minor major vendor : Z)             (** look the number up *)
  | PReserve (minor major : Z) (ikey : bytes)    (** take the ring buffer's lock *)
  | PLocked (minor major : Z) (ikey : bytes)     (** reserve a record, release the lock *)
  | PFill (minor major : Z) (ikey : bytes) (poll_event : Z) (n : nat)
                                                 (** assign member [n], or submit *)
  | PCount                                       (** look the counter up and load it *)
  | PStore (lost : Z).                           (** store it *)

Record frame : Type := Frame {
  fr_ctx : exec_ctx;
  fr_filp : Z;
  fr_cmd : Z;
  fr_arg : Z;
  fr_pc : pc;
}.

Definition set_pc (p : pc) (f : frame) : frame :=
  Frame (fr_ctx f) (fr_filp f) (fr_cmd f) (fr_arg f) p.

Record cstate (H R P : Type) : Type := CState {
  cs_devices : H;
  cs_ioctls : H;
  cs_ring : R;
  cs_dropped : P;
  cs_frames : gmap nat frame;    (** the execution on each CPU that has one *)
}.
Arguments CState {H R P}.
Arguments cs_devices {H R P}.
Arguments cs_ioctls {H R P}.
Arguments cs_ring {H R P}.
Arguments cs_dropped {H R P}.
Arguments cs_frames {H R P}.

(** The assignments to the members of [poll_event], in the order of the source. *)
Definition assignments (x : exec_ctx) (cmd minor major kind : Z) : list (bytes → bytes) := [
  assign struct_event "timestamp" (ktime_tai_ns x);
  assign struct_event "cgroup_id" (current_cgroup_id x);
  assign struct_event "tgid" (Z.shiftr (current_pid_tgid x) 32);
  assign struct_event "cmd" cmd;
  assign struct_event "minor" minor;
  assign struct_event "major" major;
  assign struct_event "kind" kind;
  assign_elem struct_event "_pad" 0 0].

Definition apply_all (fs : list (bytes → bytes)) (mem : bytes) : bytes := foldl (λ m f, f m) mem fs.

Lemma assignments_fill x cmd minor major kind mem :
  apply_all (assignments x cmd minor major kind) mem = fill_event x cmd minor major kind mem.
Proof. reflexivity. Qed.

Lemma assign_length t f v o ft mem :
  offset_in 0 t f = Some (o, ft) → 0 ≤ o → 0 ≤ sizeof ft →
  o + sizeof ft ≤ Z.of_nat (length mem) → length (assign t f v mem) = length mem.
Proof.
  intros Ho ???. unfold assign, store_field. rewrite Ho. opt_cbn. unfold Datatypes.id.
  apply length_poke; rewrite ?length_le_bytes; lia.
Qed.

Lemma assignments_length x cmd minor major kind :
  Forall (λ g, ∀ mem, length mem = 32%nat → length (g mem) = 32%nat)
    (assignments x cmd minor major kind).
Proof.
  repeat constructor; intros mem Hlen.
  1-7: erewrite assign_length; [exact Hlen|vm_compute; reflexivity|..]; try rewrite Hlen; by cbn.
  unfold assign_elem, store_elem.
  change (offset_in 0 struct_event "_pad") with (Some (31, CArr __u8 1)). opt_cbn.
  rewrite bool_decide_eq_true_2 by lia. unfold default, from_option, Datatypes.id.
  rewrite length_poke; [done|done|]. rewrite Hlen, length_le_bytes. by cbn.
Qed.

(** After all of them the record is the event's, whatever it held. *)
Lemma assignments_all x cmd minor major kind mem n :
  length mem = 32%nat → (8 ≤ n)%nat →
  apply_all (take n (assignments x cmd minor major kind)) mem =
  event_bytes (event_of x cmd minor major kind).
Proof.
  intros Hlen Hn. rewrite take_ge by done. by rewrite assignments_fill, fill_event_eq.
Qed.

(** A call of [drm_ioctl], and what can be seen of a run: a call taking effect,
    and a record read. *)
Definition call : Type := exec_ctx * Z * Z * Z.
Definition call_of (f : frame) : call := (fr_ctx f, fr_filp f, fr_cmd f, fr_arg f).

Inductive effect : Type :=
  | ECall (c : call)
  | ERead (record : bytes).

Inductive caction : Type :=
  | CCall (x : exec_ctx) (filp cmd arg : Z)   (** the kernel enters the program *)
  | CRun (k : nat)                            (** CPU [k] takes its next step *)
  | CRead.                                    (** the reader takes a record *)

#[export] Instance exec_ctx_eq_dec : EqDecision exec_ctx.
Proof. solve_decision. Defined.
#[export] Instance caction_eq_dec : EqDecision caction.
Proof. solve_decision. Defined.

Section Steps.

Context {H R P : Type} `{!BpfHash H, !ConcRing R, !BpfPercpu P}.
Variable kernel_bytes : Z → Z → bytes.
Variable relo : string → string → option (Z * Z).

Abbreviation cstate := (cstate H R P).

(** One step of an execution: the ring buffer and the counters after it, and
    where the execution is then ([None]: it has returned 0). *)
Definition advance (c : cstate) (f : frame) : R * P * option pc :=
  let x := fr_ctx f in
  let ring := cs_ring c in
  let drops := cs_dropped c in
  match fr_pc f with
  | PStart =>
      let rdev := wrap 64 (core_read kernel_bytes relo "inode" "i_rdev"
                    (core_read kernel_bytes relo "file" "f_inode" (fr_filp f))) in
      let minor := wrap 32 (Z.land rdev 0xFFFFF) in
      let major := wrap 32 (Z.shiftr rdev 20) in
      match hash_lookup (cs_devices c) (make_device_key major minor) with
      | None => (ring, drops, None)
      | Some devices_data => (ring, drops, Some (PVendor minor major (le_value devices_data)))
      end
  | PVendor minor major vendor =>
      let ikey := make_ioctl_key vendor (wrap 32 (Z.land (fr_cmd f) 0xFF)) in
      match hash_lookup (cs_ioctls c) ikey with
      | None => (ring, drops, None)
      | Some _ => (ring, drops, Some (PReserve minor major ikey))
      end
  | PReserve minor major ikey => (ring, drops, Some (PLocked minor major ikey))
  | PLocked minor major ikey =>
      match cr_reserve ring (sizeof struct_event) with
      | Some (poll_event, ring) => (ring, drops, Some (PFill minor major ikey poll_event 0))
      | None => (ring, drops, Some PCount)
      end
  | PFill minor major ikey poll_event n =>
      let ioctls_data := default [] (hash_lookup (cs_ioctls c) ikey) in
      match assignments x (fr_cmd f) minor major (le_value ioctls_data) !! n with
      | Some g => (cr_write ring poll_event g, drops, Some (PFill minor major ikey poll_event (S n)))
      | None => (cr_submit ring poll_event, drops, None)
      end
  | PCount =>
      match pcpu_lookup drops (cpu x) 0 with
      | Some lost => (ring, drops, Some (PStore lost))
      | None => (ring, drops, None)
      end
  | PStore lost => (ring, pcpu_store drops (cpu x) 0 (wrap 64 (lost + 1)), None)
  end.

(** The lock of the ring buffer is held while an execution is inside its
    reservation, and one that is to enter it cannot go on. *)
Definition wants_ring (p : pc) : bool := match p with PReserve _ _ _ => true | _ => false end.
Definition in_ring (p : pc) : bool := match p with PLocked _ _ _ => true | _ => false end.

Definition ring_held (frames : gmap nat frame) : bool :=
  negb (bool_decide (map_Forall (λ _ f, in_ring (fr_pc f) = false) frames)).

Definition blocked (c : cstate) (f : frame) : bool :=
  wants_ring (fr_pc f) && ring_held (cs_frames c).

(** Whether the call takes effect with the next step of its execution: when a
    lookup misses, when the record is reserved, or when the drop is counted. *)
Definition takes_effect (c : cstate) (f : frame) : bool :=
  match fr_pc f, (advance c f).2 with
  | PLocked _ _ _, Some (PFill _ _ _ _ _) => true
  | PFill _ _ _ _ _, _ => false
  | _, Some _ => false
  | _, None => true
  end.

Definition cstep (a : caction) (c : cstate) : option (cstate * list effect) :=
  match a with
  | CCall x filp cmd arg =>
      match cs_frames c !! cpu x with
      | Some _ => None
      | None =>
          Some (CState (cs_devices c) (cs_ioctls c) (cs_ring c) (cs_dropped c)
                  (<[cpu x := Frame x filp cmd arg PStart]> (cs_frames c)), [])
      end
  | CRun k =>
      f ← cs_frames c !! k;
      if blocked c f then None
      else
        let '(ring, drops, p) := advance c f in
        Some (CState (cs_devices c) (cs_ioctls c) ring drops
                match p with
                | Some p => <[k := set_pc p f]> (cs_frames c)
                | None => delete k (cs_frames c)
                end,
              if takes_effect c f then [ECall (call_of f)] else [])
  | CRead =>
      '(record, ring) ← cr_read (cs_ring c);
      Some (CState (cs_devices c) (cs_ioctls c) ring (cs_dropped c) (cs_frames c),
            [ERead record])
  end.

Fixpoint crun (acts : list caction) (c : cstate) : option (cstate * list effect) :=
  match acts with
  | [] => Some (c, [])
  | a :: acts =>
      '(c, es) ← cstep a c; '(c, es') ← crun acts c; Some (c, es ++ es')
  end.

End Steps.

(** ** The specification: atomic calls

    What the reader has not taken yet, oldest first, and how many calls were
    lost. A call on a tracked device with a tracked number appends its event or
    is lost, any other call does nothing; the reader takes the oldest event. *)

Definition abs : Type := list event * Z.

Inductive spec_step (devs tbl : gmap (Z * Z) Z) (rdev : Z → Z) : effect → abs → abs → Prop :=
  | spec_skip x filp cmd arg s :
      tracked devs tbl (rdev filp) cmd = None →
      spec_step devs tbl rdev (ECall (x, filp, cmd, arg)) s s
  | spec_submit x filp cmd arg major minor kind pending lost :
      tracked devs tbl (rdev filp) cmd = Some (major, minor, kind) →
      spec_step devs tbl rdev (ECall (x, filp, cmd, arg)) (pending, lost)
        (pending ++ [event_of x cmd minor major kind], lost)
  | spec_lose x filp cmd arg pending lost :
      is_Some (tracked devs tbl (rdev filp) cmd) →
      spec_step devs tbl rdev (ECall (x, filp, cmd, arg)) (pending, lost) (pending, lost + 1)
  | spec_read e pending lost :
      spec_step devs tbl rdev (ERead (event_bytes e)) (e :: pending, lost) (pending, lost).

Inductive spec_run (devs tbl : gmap (Z * Z) Z) (rdev : Z → Z) : list effect → abs → abs → Prop :=
  | spec_run_nil s : spec_run devs tbl rdev [] s s
  | spec_run_cons e es s1 s2 s3 :
      spec_step devs tbl rdev e s1 s2 → spec_run devs tbl rdev es s2 s3 →
      spec_run devs tbl rdev (e :: es) s1 s3.

Lemma spec_run_app devs tbl rdev es es' s1 s2 s3 :
  spec_run devs tbl rdev es s1 s2 → spec_run devs tbl rdev es' s2 s3 →
  spec_run devs tbl rdev (es ++ es') s1 s3.
Proof. induction 1; [done|]. intros. econstructor; eauto. Qed.

Lemma spec_run_one devs tbl rdev e s1 s2 :
  spec_step devs tbl rdev e s1 s2 → spec_run devs tbl rdev [e] s1 s2.
Proof. intros. econstructor; [done|constructor]. Qed.

(** The calls that have taken effect, the calls a schedule starts, and the
    calls that were started and have not taken effect. *)
Definition effect_calls (es : list effect) : list call :=
  omap (λ e, match e with ECall c => Some c | ERead _ => None end) es.

Definition started (acts : list caction) : list call :=
  omap (λ a, match a with
             | CCall x filp cmd arg => Some (x, filp, cmd, arg)
             | _ => None
             end) acts.

(** The record an execution is filling. *)
Definition fill_id (p : pc) : option Z :=
  match p with PFill _ _ _ id _ => Some id | _ => None end.

Definition pending_call (f : frame) : list call :=
  match fill_id (fr_pc f) with Some _ => [] | None => [call_of f] end.

Definition waiting (frames : gmap nat frame) : list call :=
  (map_to_list frames).*2 ≫= pending_call.

Lemma waiting_delete frames k f :
  frames !! k = Some f → waiting frames ≡ₚ pending_call f ++ waiting (delete k frames).
Proof.
  intros E. unfold waiting. rewrite <- (map_to_list_delete _ _ _ E). by rewrite fmap_cons, bind_cons.
Qed.

Lemma waiting_insert frames k f :
  waiting (<[k := f]> frames) ≡ₚ pending_call f ++ waiting (delete k frames).
Proof.
  rewrite (waiting_delete _ k f) by apply lookup_insert_eq. by rewrite delete_insert_eq.
Qed.

(** ** The invariant *)

Section Invariant.

Context {H R P : Type} `{!BpfHash H, !ConcRing R, !BpfPercpu P}.
Context `{!ConcRingOk R, !BpfPercpuOk P}.
Variable kernel_bytes : Z → Z → bytes.
Variable relo : string → string → option (Z * Z).
Variable devs tbl : gmap (Z * Z) Z.
Variable ncpus : nat.

Abbreviation cstate := (cstate H R P).
Abbreviation rdev := (rdev_of kernel_bytes relo).
Abbreviation spec_step := (spec_step devs tbl rdev).
Abbreviation spec_run := (spec_run devs tbl rdev).
Abbreviation advance := (advance kernel_bytes relo).
Abbreviation takes_effect := (takes_effect kernel_bytes relo).
Abbreviation cstep := (cstep kernel_bytes relo).
Abbreviation crun := (crun kernel_bytes relo).

(** The records in the ring buffer, each with the event it is to carry. *)
Definition slot_ok (p : slot * event) : Prop :=
  length (sl_mem p.1) = 32%nat ∧ (sl_done p.1 = true → sl_mem p.1 = event_bytes p.2).

(** The variables of an execution past its second lookup. *)
Definition vars_ok (ioctls : H) (f : frame) (minor major : Z) (ikey : bytes) (kind : Z) : Prop :=
  tracked devs tbl (rdev (fr_filp f)) (fr_cmd f) = Some (major, minor, kind) ∧
  hash_lookup ioctls ikey = Some (le_bytes 1 kind) ∧ in_width 8 kind.

Definition frame_ok (ioctls : H) (g : list (slot * event)) (vs : list Z) (k : nat)
    (f : frame) : Prop :=
  cpu (fr_ctx f) = k ∧ (k < ncpus)%nat ∧
  match fr_pc f with
  | PStart => True
  | PVendor minor major vendor =>
      minor = rdev (fr_filp f) `mod` 2 ^ 20 ∧ major = rdev (fr_filp f) `div` 2 ^ 20 ∧
      devs !! (major, minor) = Some vendor
  | PReserve minor major ikey | PLocked minor major ikey =>
      ∃ kind, vars_ok ioctls f minor major ikey kind
  | PFill minor major ikey id n =>
      ∃ kind base,
        vars_ok ioctls f minor major ikey kind ∧ length base = 32%nat ∧ (n ≤ 8)%nat ∧
        (Slot id (apply_all (take n (assignments (fr_ctx f) (fr_cmd f) minor major kind)) base)
           false, event_of (fr_ctx f) (fr_cmd f) minor major kind) ∈ g
  | PCount => is_Some (tracked devs tbl (rdev (fr_filp f)) (fr_cmd f))
  | PStore lost =>
      is_Some (tracked devs tbl (rdev (fr_filp f)) (fr_cmd f)) ∧ vs !! k = Some lost
  end.

Record sim (c : cstate) (g : list (slot * event)) (lost : Z) (vs : list Z) : Prop := {
  sim_devices : holds_devices (cs_devices c) devs;
  sim_ioctls : holds_ioctls (cs_ioctls c) tbl;
  sim_slots : cr_slots (cs_ring c) = g.*1;
  sim_slots_ok : Forall slot_ok g;
  sim_ids : NoDup (sl_id <$> g.*1);
  sim_frames : map_Forall (frame_ok (cs_ioctls c) g vs) (cs_frames c);
  sim_owner k k' f f' id :
    cs_frames c !! k = Some f → cs_frames c !! k' = Some f' →
    fill_id (fr_pc f) = Some id → fill_id (fr_pc f') = Some id → k = k';
  sim_busy id mem e :
    (Slot id mem false, e) ∈ g →
    ∃ k f, cs_frames c !! k = Some f ∧ fill_id (fr_pc f) = Some id;
  sim_values : pcpu_values (cs_dropped c) 0 = Some vs;
  sim_cpus : length vs = ncpus;
  sim_lost : wrap 64 (foldr Z.add 0 vs) = wrap 64 lost;
}.

(** A change of the frames that touches no filling execution. *)
Lemma sim_quiet c g lost vs frames :
  sim c g lost vs →
  (∀ k f, frames !! k = Some f →
     cs_frames c !! k = Some f ∨
     (frame_ok (cs_ioctls c) g vs k f ∧ fill_id (fr_pc f) = None)) →
  (∀ k f, cs_frames c !! k = Some f → is_Some (fill_id (fr_pc f)) → frames !! k = Some f) →
  sim (CState (cs_devices c) (cs_ioctls c) (cs_ring c) (cs_dropped c) frames) g lost vs.
Proof.
  intros S Hnew Hkeep. destruct S as [Hd Hi Hs Hok Hids Hf Ho Hb Hv Hc Hl].
  split; cbn [cs_devices cs_ioctls cs_ring cs_dropped cs_frames]; try done.
  - intros k f E. destruct (Hnew k f E) as [E'|[? _]]; [|done]. by apply (Hf k f).
  - intros k k' f f' id E E' Ef Ef'.
    destruct (Hnew k f E) as [E1|[_ ?]], (Hnew k' f' E') as [E2|[_ ?]]; try congruence. eauto.
  - intros id mem e Hin. destruct (Hb id mem e Hin) as (k & f & E & Ef).
    exists k, f. split; [|done]. apply Hkeep; [done|]. by rewrite Ef.
Qed.

(** The execution on CPU [k] goes on to [p], or returns. *)
Definition next_frames (frames : gmap nat frame) (k : nat) (f : frame) (p : option pc) :
    gmap nat frame :=
  match p with Some p => <[k := set_pc p f]> frames | None => delete k frames end.

Lemma next_frames_ne frames k f p k' :
  k ≠ k' → next_frames frames k f p !! k' = frames !! k'.
Proof.
  intros. destruct p; cbn; [by rewrite lookup_insert_ne|by rewrite lookup_delete_ne].
Qed.

Lemma next_frames_eq frames k f p :
  next_frames frames k f p !! k = (λ p, set_pc p f) <$> p.
Proof. destruct p; cbn; [apply lookup_insert_eq|apply lookup_delete_eq]. Qed.

Lemma sim_next c g lost vs k f p :
  sim c g lost vs → cs_frames c !! k = Some f → fill_id (fr_pc f) = None →
  match p with
  | Some p => frame_ok (cs_ioctls c) g vs k (set_pc p f) ∧ fill_id p = None
  | None => True
  end →
  sim (CState (cs_devices c) (cs_ioctls c) (cs_ring c) (cs_dropped c)
         (next_frames (cs_frames c) k f p)) g lost vs.
Proof.
  intros S E Ef Hp. apply sim_quiet; [done|..].
  - intros k' f'. destruct (decide (k = k')) as [<-|]; [|rewrite next_frames_ne by done; eauto].
    rewrite next_frames_eq. destruct p as [p|]; cbn; [intros [= <-]; by right|done].
  - intros k' f' E' [id Ef']. destruct (decide (k = k')) as [<-|]; [congruence|].
    by rewrite next_frames_ne.
Qed.

(** A record is identified by its address. *)
Lemma slot_unique (g : list (slot * event)) s s' e e' :
  NoDup (sl_id <$> g.*1) → (s, e) ∈ g → (s', e') ∈ g → sl_id s = sl_id s' → s = s' ∧ e = e'.
Proof.
  rewrite <- list_fmap_compose. intros Hnd [i Hi]%list_elem_of_lookup [j Hj]%list_elem_of_lookup E.
  assert (i = j) as ->; [|naive_solver].
  eapply (NoDup_lookup _ _ _ (sl_id s) Hnd); rewrite list_lookup_fmap; [by rewrite Hi|].
  rewrite Hj. cbn. by rewrite E.
Qed.

(** Working on the record at an address. *)
Definition upd_slot (id : Z) (h : slot → slot) (p : slot * event) : slot * event :=
  (if bool_decide (sl_id p.1 = id) then h p.1 else p.1, p.2).

Lemma upd_slot_slots id h (g : list (slot * event)) : at_slot id h g.*1 = (upd_slot id h <$> g).*1.
Proof. unfold at_slot. by rewrite <- !list_fmap_compose. Qed.

Lemma upd_slot_events id h (g : list (slot * event)) : (upd_slot id h <$> g).*2 = g.*2.
Proof. by rewrite <- list_fmap_compose. Qed.

Lemma upd_slot_ids id h (g : list (slot * event)) :
  (∀ s, sl_id (h s) = sl_id s) →
  sl_id <$> (upd_slot id h <$> g).*1 = sl_id <$> g.*1.
Proof.
  intros Hh. rewrite <- !list_fmap_compose. apply list_fmap_ext. intros i [s e] _. cbn.
  by case_bool_decide; rewrite ?Hh.
Qed.

Lemma upd_slot_ne id h (g : list (slot * event)) s e : sl_id s ≠ id → (s, e) ∈ g → (s, e) ∈ upd_slot id h <$> g.
Proof.
  intros Hne Hin. apply list_elem_of_fmap. exists (s, e). split; [|done]. unfold upd_slot. cbn.
  by rewrite bool_decide_eq_false_2.
Qed.

Lemma upd_slot_eq h (g : list (slot * event)) s e : (s, e) ∈ g → (h s, e) ∈ upd_slot (sl_id s) h <$> g.
Proof.
  intros Hin. apply list_elem_of_fmap. exists (s, e). split; [|done]. unfold upd_slot. cbn.
  by rewrite bool_decide_eq_true_2.
Qed.

Lemma frame_ok_records ioctls g g' vs k f :
  (∀ id mem e, fill_id (fr_pc f) = Some id → (Slot id mem false, e) ∈ g →
     (Slot id mem false, e) ∈ g') →
  frame_ok ioctls g vs k f → frame_ok ioctls g' vs k f.
Proof.
  unfold frame_ok. intros Hg (? & ? & Hf). split_and!; [done..|].
  destruct (fr_pc f) as [| | | |minor major ikey id n| |]; try done.
  destruct Hf as (kind & base & ? & ? & ? & Hin). exists kind, base. split_and!; try done.
  by apply Hg.
Qed.

(** A step of an execution on the record it is filling. *)
Lemma sim_record c g lost vs k f id s e h ring p :
  sim c g lost vs → cs_frames c !! k = Some f → fill_id (fr_pc f) = Some id →
  (s, e) ∈ g → sl_id s = id →
  cr_slots ring = at_slot id h (cr_slots (cs_ring c)) →
  (∀ s, sl_id (h s) = sl_id s) → slot_ok (h s, e) →
  match p with
  | Some p => fill_id p = Some id ∧
              frame_ok (cs_ioctls c) (upd_slot id h <$> g) vs k (set_pc p f)
  | None => ∀ s, sl_done (h s) = true
  end →
  sim (CState (cs_devices c) (cs_ioctls c) ring (cs_dropped c)
         (next_frames (cs_frames c) k f p)) (upd_slot id h <$> g) lost vs.
Proof.
  intros S E Ef Hin Es Hring Hh Hs Hp.
  destruct S as [Hd Hi Hsl Hok Hids Hf Ho Hb Hv Hc Hl].
  split; cbn [cs_devices cs_ioctls cs_ring cs_dropped cs_frames]; try done.
  - by rewrite Hring, Hsl, upd_slot_slots.
  - apply Forall_fmap, Forall_forall. intros [s1 e1] Hin1. cbn. unfold upd_slot; cbn.
    case_bool_decide as E1; [|by eapply Forall_forall in Hin1; [|exact Hok]].
    destruct (slot_unique g s1 s e1 e) as [-> ->]; [done..|congruence|done].
  - by rewrite upd_slot_ids.
  - intros k' f' E'. destruct (decide (k = k')) as [<-|Hne].
    + rewrite next_frames_eq in E'. destruct p as [p|]; cbn in E'; simplify_eq. apply Hp.
    + rewrite next_frames_ne in E' by done. eapply frame_ok_records; [|by apply (Hf k' f')].
      intros id' mem' e' Ef' Hin'. apply upd_slot_ne; [|done]. cbn. intros ->.
      by destruct Hne; eapply Ho.
  - assert (Hof : ∀ k' f', next_frames (cs_frames c) k f p !! k' = Some f' →
      ∃ f0, cs_frames c !! k' = Some f0 ∧ (fill_id (fr_pc f') = fill_id (fr_pc f0))).
    { intros k' f'. destruct (decide (k = k')) as [<-|]; [|rewrite next_frames_ne; eauto].
      rewrite next_frames_eq. destruct p as [p|]; cbn; [|done]. intros [= <-].
      exists f. split; [done|]. cbn. destruct Hp. congruence. }
    intros k1 k2 f1 f2 id' E1 E2 Ef1 Ef2.
    destruct (Hof k1 f1 E1) as (f1' & E1' & Eq1), (Hof k2 f2 E2) as (f2' & E2' & Eq2).
    apply (Ho k1 k2 f1' f2' id' E1' E2'); [by rewrite <- Eq1|by rewrite <- Eq2].
  - intros id' mem' e' ([s1 e1] & E1 & Hin1)%list_elem_of_fmap. unfold upd_slot in E1. cbn in E1.
    case_bool_decide as E2.
    + destruct p as [p|]; [|specialize (Hp s1); injection E1 as E1 _; by rewrite <- E1 in Hp].
      exists k, (set_pc p f). rewrite next_frames_eq. split; [done|].
      destruct Hp as [Hp _]. cbn. rewrite Hp. rewrite <- E2, <- Hh.
      by injection E1 as E1 _; rewrite <- E1.
    + injection E1 as <- <-. destruct (Hb id' mem' e' Hin1) as (k' & f' & E' & Ef').
      exists k', f'. split; [|done]. rewrite next_frames_ne; [done|].
      intros <-. rewrite E in E'. injection E' as <-. rewrite Ef in Ef'. injection Ef' as Ef'.
      by apply E2.
Qed.

(** Reserving a record. *)
Lemma sim_reserve c g lost vs k f minor major ikey kind id ring :
  sim c g lost vs → cs_frames c !! k = Some f →
  fill_id (fr_pc f) = None → vars_ok (cs_ioctls c) f minor major ikey kind →
  cr_reserve (cs_ring c) (sizeof struct_event) = Some (id, ring) →
  ∃ s, sim (CState (cs_devices c) (cs_ioctls c) ring (cs_dropped c)
              (<[k := set_pc (PFill minor major ikey id 0) f]> (cs_frames c)))
         (g ++ [(s, event_of (fr_ctx f) (fr_cmd f) minor major kind)]) lost vs.
Proof.
  intros S E Ef Hvars Hr. destruct S as [Hd Hi Hsl Hok Hids Hf Ho Hb Hv Hc Hl].
  apply cr_reserve_slots in Hr as (Hfresh & mem & Hlen & Hring).
  rewrite struct_event_size in Hlen. assert (length mem = 32%nat) by lia.
  exists (Slot id mem false).
  assert (Hmono : ∀ p, p ∈ g → p ∈ g ++ [(Slot id mem false,
    event_of (fr_ctx f) (fr_cmd f) minor major kind)]) by set_solver.
  assert (Hold : ∀ k' f', cs_frames c !! k' = Some f' → fill_id (fr_pc f') ≠ Some id).
  { intros k' f' E' Ef'. destruct (Hf k' f' E') as (_ & _ & Hf').
    destruct (fr_pc f') as [| | | |? ? ? id' n| |]; try done. cbn in Ef'. injection Ef' as ->.
    destruct Hf' as (? & ? & _ & _ & _ & Hin). destruct Hfresh. rewrite Hsl.
    apply (list_elem_of_fmap_2 (sl_id ∘ fst)) in Hin. by rewrite list_fmap_compose in Hin. }
  split; cbn [cs_devices cs_ioctls cs_ring cs_dropped cs_frames]; try done.
  - by rewrite Hring, Hsl, fmap_app.
  - apply Forall_app_2; [done|]. by repeat constructor.
  - rewrite fmap_app, fmap_app. cbn. apply NoDup_app. rewrite <- Hsl. split_and!.
    + by rewrite Hsl.
    + intros i Hin ->%list_elem_of_singleton. done.
    + apply NoDup_singleton.
  - apply map_Forall_insert_2.
    + destruct (Hf k f E) as (? & ? & _). split_and!; [done..|]. cbn.
      exists kind, mem. split_and!; [done|done|lia|]. set_solver.
    + intros k' f' E'. eapply frame_ok_records; [|by apply (Hf k' f')]. intros. by apply Hmono.
  - intros k1 k2 f1 f2 id'. rewrite !lookup_insert_Some. cbn.
    intros [[<- <-]|[? E1]] [[<- <-]|[? E2]] Ef1 Ef2; cbn in *; [done| | |by eauto].
    + injection Ef1 as <-. by destruct (Hold k2 f2).
    + injection Ef2 as <-. by destruct (Hold k1 f1).
  - intros id' mem' e' [Hin|Hin]%elem_of_app.
    + destruct (Hb id' mem' e' Hin) as (k' & f' & E' & Ef'). exists k', f'. split; [|done].
      rewrite lookup_insert_ne; [done|]. intros <-. by rewrite E' in E; simplify_eq.
    + apply list_elem_of_singleton in Hin. injection Hin as -> -> ->.
      eexists k, _. split; [apply lookup_insert_eq|done].
Qed.

(** Counting a lost call. *)
Lemma sim_store c g lost vs k f n :
  sim c g lost vs → cs_frames c !! k = Some f → fr_pc f = PStore n →
  sim (CState (cs_devices c) (cs_ioctls c) (cs_ring c)
         (pcpu_store (cs_dropped c) (cpu (fr_ctx f)) 0 (wrap 64 (n + 1)))
         (delete k (cs_frames c)))
    g (lost + 1) (<[k := wrap 64 (n + 1)]> vs).
Proof.
  intros S E Ef.
  assert (Hq : sim (CState (cs_devices c) (cs_ioctls c) (cs_ring c) (cs_dropped c)
    (delete k (cs_frames c))) g lost vs).
  { apply (sim_next _ _ _ _ k f None); [done..|by rewrite Ef|done]. }
  pose proof (sim_frames _ _ _ _ S k f E) as (-> & Hk & Hf). rewrite Ef in Hf.
  destruct Hf as [_ Hn]. destruct Hq as [Hd Hi Hsl Hok Hids Hf Ho Hb Hv Hc Hl].
  cbn [cs_devices cs_ioctls cs_ring cs_dropped cs_frames] in *.
  split; cbn [cs_devices cs_ioctls cs_ring cs_dropped cs_frames]; try done.
  - intros k' f' E'. destruct (Hf k' f' E') as (? & ? & Hf'). split_and!; [done..|].
    destruct (fr_pc f') as [| | | | | |n']; try done. destruct Hf' as [? Hn']. split; [done|].
    rewrite list_lookup_insert_ne; [done|]. intros <-. by rewrite lookup_delete_eq in E'.
  - apply pcpu_values_store; [done|]. by rewrite Hc.
  - by rewrite length_insert.
  - rewrite (sum_insert _ _ n) by done. rewrite wrap_add_r.
    replace (foldr Z.add 0 vs - n + (n + 1)) with (foldr Z.add 0 vs + 1) by lia.
    by rewrite <- wrap_add_l, Hl, wrap_add_l.
Qed.

(** Reading the oldest record. *)
Lemma sim_read c g lost vs record ring :
  sim c g lost vs → cr_read (cs_ring c) = Some (record, ring) →
  ∃ p g', g = p :: g' ∧ record = event_bytes p.2 ∧
    sim (CState (cs_devices c) (cs_ioctls c) ring (cs_dropped c) (cs_frames c)) g' lost vs.
Proof.
  intros S Hr. destruct S as [Hd Hi Hsl Hok Hids Hf Ho Hb Hv Hc Hl].
  destruct g as [|[[id mem [|]] e] g].
  - by rewrite cr_read_empty in Hr.
  - destruct (cr_read_done _ _ _ _ Hsl) as (ring' & Hr' & Hsl'). rewrite Hr in Hr'. simplify_eq.
    apply Forall_cons in Hok as [[_ Hm] Hok]. cbn in Hm. rewrite Hm by done.
    apply NoDup_cons in Hids as [_ Hids].
    eexists _, g. split_and!; [done..|].
    split; cbn [cs_devices cs_ioctls cs_ring cs_dropped cs_frames]; try done.
    + intros k f E. eapply frame_ok_records; [|by apply (Hf k f)].
      intros id' mem' e' _. by intros [[=]|?]%elem_of_cons.
    + intros id' mem' e' Hin. eapply Hb. by right.
  - by erewrite cr_read_busy in Hr.
Qed.

(** Every step of the machine is no step or one step of the specification. *)
Definition matched (s : abs) (c' : cstate) (es : list effect) : Prop :=
  ∃ g lost vs, sim c' g lost vs ∧ spec_run es s (g.*2, lost).

Lemma matched_quiet c g lost vs : sim c g lost vs → matched (g.*2, lost) c [].
Proof. intros. exists g, lost, vs. split; [done|constructor]. Qed.

Lemma matched_effect c g lost vs s e :
  sim c g lost vs → spec_step e s (g.*2, lost) → matched s c [e].
Proof. intros. exists g, lost, vs. split; [done|]. by apply spec_run_one. Qed.

Variable off : Z.
Hypothesis kernel_bytes_length : ∀ a n, 0 ≤ n → Z.of_nat (length (kernel_bytes a n)) = n.
Hypothesis relo_rdev : relo "inode" "i_rdev" = Some (off, 4).

(** The state after a step of CPU [k], and what is seen of it. *)
Definition run_cpu (c : cstate) (k : nat) (f : frame) : cstate * list effect :=
  let '(ring, drops, p) := advance c f in
  (CState (cs_devices c) (cs_ioctls c) ring drops (next_frames (cs_frames c) k f p),
   if takes_effect c f then [ECall (call_of f)] else []).

Lemma cstep_run c k f :
  cs_frames c !! k = Some f →
  cstep (CRun k) c = if blocked c f then None else Some (run_cpu c k f).
Proof.
  intros E. unfold cstep, run_cpu. rewrite E. opt_cbn. destruct (blocked c f); [done|].
  by destruct (advance c f) as [[ring drops] p].
Qed.

Lemma cstep_run_inv c k c' es :
  cstep (CRun k) c = Some (c', es) →
  ∃ f, cs_frames c !! k = Some f ∧ blocked c f = false ∧ run_cpu c k f = (c', es).
Proof.
  destruct (cs_frames c !! k) as [f|] eqn:E.
  - rewrite (cstep_run _ _ _ E). destruct (blocked c f) eqn:Eb; [done|]. intros [= ?].
    by exists f.
  - unfold cstep. by rewrite E.
Qed.

(** The lookup of the device. *)
Lemma step_start c g lost vs k f :
  sim c g lost vs → cs_frames c !! k = Some f → fr_pc f = PStart →
  matched (g.*2, lost) (run_cpu c k f).1 (run_cpu c k f).2.
Proof.
  intros S E Ef. unfold run_cpu, takes_effect, advance. rewrite Ef.
  fold (rdev (fr_filp f)).
  destruct (rdev_split (rdev (fr_filp f))) as (-> & -> & Hmin & Hmaj);
    [by eapply rdev_of_width|].
  destruct (sim_devices _ _ _ _ S) as [Hdw Hd]. rewrite Hd by width_lia.
  pose proof (sim_frames _ _ _ _ S k f E) as (? & ? & _).
  destruct (devs !! _) as [vendor|] eqn:Ev; opt_cbn; cbn [fst snd].
  - rewrite (le_value_bytes_id 4) by (by eapply (map_Forall_lookup_1 _ _ _ _ Hdw)).
    eapply matched_quiet, sim_next; [done|done|by rewrite Ef|]. by split_and!.
  - eapply matched_effect; [apply sim_next; [done|done|by rewrite Ef|done]|].
    apply spec_skip. unfold tracked. by rewrite Ev.
Qed.

(** The lookup of the number. *)
Lemma step_vendor c g lost vs k f minor major vendor :
  sim c g lost vs → cs_frames c !! k = Some f → fr_pc f = PVendor minor major vendor →
  matched (g.*2, lost) (run_cpu c k f).1 (run_cpu c k f).2.
Proof.
  intros S E Ef. unfold run_cpu, takes_effect, advance. rewrite Ef.
  pose proof (sim_frames _ _ _ _ S k f E) as (? & ? & Hf). rewrite Ef in Hf.
  destruct Hf as (Emin & Emaj & Ev). destruct (nr_split (fr_cmd f)) as [-> Hnr].
  destruct (sim_devices _ _ _ _ S) as [Hdw _], (sim_ioctls _ _ _ _ S) as [Hiw Hi].
  rewrite Hi by first [width_lia|by eapply (map_Forall_lookup_1 _ _ _ _ Hdw)].
  assert (Ht : tracked devs tbl (rdev (fr_filp f)) (fr_cmd f) =
    kind ← tbl !! (vendor, fr_cmd f `mod` 2 ^ 8); Some (major, minor, kind)).
  { unfold tracked. by rewrite <- Emin, <- Emaj, Ev. }
  destruct (tbl !! _) as [kind|] eqn:Ek; opt_cbn; cbn [fst snd].
  - eapply matched_quiet, sim_next; [done|done|by rewrite Ef|].
    split; [|done]. split_and!; [done..|]. exists kind. split_and!; [done| |].
    + rewrite Hi, Ek by first [width_lia|by eapply (map_Forall_lookup_1 _ _ _ _ Hdw)]. done.
    + by eapply (map_Forall_lookup_1 _ _ _ _ Hiw).
  - eapply matched_effect; [apply sim_next; [done|done|by rewrite Ef|done]|].
    by apply spec_skip.
Qed.

(** The reservation. *)
Lemma step_enter c g lost vs k f minor major ikey :
  sim c g lost vs → cs_frames c !! k = Some f → fr_pc f = PReserve minor major ikey →
  matched (g.*2, lost) (run_cpu c k f).1 (run_cpu c k f).2.
Proof.
  intros S E Ef. unfold run_cpu, takes_effect, advance. rewrite Ef.
  pose proof (sim_frames _ _ _ _ S k f E) as (? & ? & Hf). rewrite Ef in Hf. cbn [fst snd].
  eapply matched_quiet, sim_next; [done|done|by rewrite Ef|]. by split.
Qed.

Lemma step_reserve c g lost vs k f minor major ikey :
  sim c g lost vs → cs_frames c !! k = Some f → fr_pc f = PLocked minor major ikey →
  matched (g.*2, lost) (run_cpu c k f).1 (run_cpu c k f).2.
Proof.
  intros S E Ef. unfold run_cpu, takes_effect, advance. rewrite Ef.
  pose proof (sim_frames _ _ _ _ S k f E) as (? & ? & Hf). rewrite Ef in Hf.
  destruct Hf as (kind & Hvars).
  destruct (cr_reserve _ _) as [[id ring]|] eqn:Er; cbn [fst snd].
  - destruct (sim_reserve _ _ _ _ _ _ _ _ _ _ _ _ S E ltac:(by rewrite Ef) Hvars Er) as [s S'].
    eapply matched_effect; [exact S'|]. rewrite fmap_app. apply spec_submit, Hvars.
  - eapply matched_quiet, sim_next; [done|done|by rewrite Ef|].
    split; [|done]. split_and!; [done..|]. cbn. eexists. apply Hvars.
Qed.

(** An assignment to the record, and its submission. *)
Lemma step_fill c g lost vs k f minor major ikey id n :
  sim c g lost vs → cs_frames c !! k = Some f → fr_pc f = PFill minor major ikey id n →
  matched (g.*2, lost) (run_cpu c k f).1 (run_cpu c k f).2.
Proof.
  intros Hsim E Ef.
  pose proof (sim_frames _ _ _ _ Hsim k f E) as (Hk & Hn & Hf). rewrite Ef in Hf.
  destruct Hf as (kind & base & Hvars & Hb & Hle & Hin).
  pose proof Hvars as (_ & Hl & Hw).
  unfold run_cpu, takes_effect, advance. rewrite Ef, Hl. unfold from_option, Datatypes.id. cbn [fst snd].
  rewrite (le_value_bytes_id 1) by done.
  destruct (assignments _ _ _ _ _ !! n) as [h|] eqn:Eh; cbn [fst snd].
  - assert (n < 8)%nat by (apply lookup_lt_Some in Eh; done).
    assert (Hstep : apply_all (take (S n) (assignments (fr_ctx f) (fr_cmd f) minor major kind)) base =
      h (apply_all (take n (assignments (fr_ctx f) (fr_cmd f) minor major kind)) base)).
    { rewrite (take_S_r _ _ _ Eh). unfold apply_all. by rewrite foldl_app. }
    pose proof (sim_slots_ok _ _ _ _ Hsim) as Hok. rewrite Forall_forall in Hok.
    pose proof (Hok _ Hin) as [Hlen _]. cbn [fst sl_mem] in Hlen.
    assert (Hlen' : length (h (apply_all (take n (assignments (fr_ctx f) (fr_cmd f) minor major
      kind)) base)) = 32%nat).
    { pose proof (assignments_length (fr_ctx f) (fr_cmd f) minor major kind) as Ha.
      by apply (Forall_lookup_1 _ _ _ _ Ha Eh). }
    rewrite <- (upd_slot_events id (write_slot h) g).
    eapply matched_quiet, (sim_record _ _ _ _ _ _ id _ _ (write_slot h) _
      (Some (PFill minor major ikey id (S n))));
      [exact Hsim|exact E|by rewrite Ef|exact Hin|done|by rewrite cr_write_slots|done|done|].
    split; [done|]. split_and!; [done..|]. exists kind, base.
    split_and!; [done|done|lia|]. cbn [fr_ctx fr_cmd set_pc]. rewrite Hstep.
    exact (upd_slot_eq (write_slot h) _ _ _ Hin).
  - apply lookup_ge_None in Eh.
    rewrite <- (upd_slot_events id submit_slot g).
    eapply matched_quiet, (sim_record _ _ _ _ _ _ id _ _ submit_slot _ None);
      [exact Hsim|exact E|by rewrite Ef|exact Hin|done|by rewrite cr_submit_slots|done| |done].
    rewrite assignments_all by done. split; done.
Qed.

(** The counting of a lost call. *)
Lemma step_count c g lost vs k f :
  sim c g lost vs → cs_frames c !! k = Some f → fr_pc f = PCount →
  matched (g.*2, lost) (run_cpu c k f).1 (run_cpu c k f).2.
Proof.
  intros S E Ef. unfold run_cpu, takes_effect, advance. rewrite Ef.
  pose proof (sim_frames _ _ _ _ S k f E) as (<- & Hk & Hf). rewrite Ef in Hf.
  rewrite (pcpu_values_lookup _ _ _ _ (sim_values _ _ _ _ S)).
  destruct (lookup_lt_is_Some_2 vs (cpu (fr_ctx f))) as [n En].
  { by rewrite (sim_cpus _ _ _ _ S). }
  rewrite En. cbn [fst snd].
  eapply matched_quiet, sim_next; [done|done|by rewrite Ef|].
  split; [|done]. by split_and!.
Qed.

Lemma step_store c g lost vs k f n :
  sim c g lost vs → cs_frames c !! k = Some f → fr_pc f = PStore n →
  matched (g.*2, lost) (run_cpu c k f).1 (run_cpu c k f).2.
Proof.
  intros S E Ef. unfold run_cpu, takes_effect, advance. rewrite Ef. cbn [fst snd].
  pose proof (sim_frames _ _ _ _ S k f E) as (_ & _ & Hf). rewrite Ef in Hf.
  eapply matched_effect; [exact (sim_store _ _ _ _ _ _ _ S E Ef)|]. apply spec_lose, Hf.
Qed.

Lemma step_cpu c g lost vs k f :
  sim c g lost vs → cs_frames c !! k = Some f →
  matched (g.*2, lost) (run_cpu c k f).1 (run_cpu c k f).2.
Proof.
  intros S E. destruct (fr_pc f) eqn:Ef;
    eauto using step_start, step_vendor, step_enter, step_reserve, step_fill, step_count, step_store.
Qed.

(** The kernel enters the program on the CPUs the counters are for. *)
Definition on_cpus (a : caction) : Prop :=
  match a with CCall x _ _ _ => (cpu x < ncpus)%nat | _ => True end.

Lemma cstep_matched c g lost vs a c' es :
  sim c g lost vs → on_cpus a → cstep a c = Some (c', es) → matched (g.*2, lost) c' es.
Proof.
  intros S Ha. destruct a as [x filp cmd arg|k|].
  - cbn. destruct (cs_frames c !! cpu x) eqn:Ec; [done|]. intros [= <- <-].
    eapply matched_quiet, sim_quiet; [done|..].
    + intros k f [[<- <-]|[? ?]]%lookup_insert_Some; [by right|by left].
    + intros k f E _. rewrite lookup_insert_ne; [done|]. congruence.
  - intros (f & E & _ & E1)%cstep_run_inv. pose proof (step_cpu c g lost vs k f S E) as M. by rewrite E1 in M.
  - cbn. destruct (cr_read _) as [[record ring]|] eqn:Er; [|done]. opt_cbn. intros [= <- <-].
    destruct (sim_read _ _ _ _ _ _ S Er) as (p & g' & -> & -> & S').
    eapply matched_effect; [done|]. apply spec_read.
Qed.

Lemma crun_matched acts c g lost vs c' es :
  sim c g lost vs → Forall on_cpus acts → crun acts c = Some (c', es) →
  matched (g.*2, lost) c' es.
Proof.
  revert c g lost vs es. induction acts as [|a acts IH]; intros c g lost vs es S Ha.
  - intros [= <- <-]. by apply matched_quiet with vs.
  - apply Forall_cons in Ha as [Ha Hacts]. cbn [Concurrent.crun].
    destruct (cstep a c) as [[c1 es1]|] eqn:E1; opt_cbn; [|done].
    destruct (crun acts c1) as [[c2 es2]|] eqn:E2; opt_cbn; [|done]. intros [= <- <-].
    destruct (cstep_matched _ _ _ _ _ _ _ S Ha E1) as (g1 & lost1 & vs1 & S1 & R1).
    destruct (IH _ _ _ _ _ S1 Hacts E2) as (g2 & lost2 & vs2 & S2 & R2).
    exists g2, lost2, vs2. split; [done|]. by eapply spec_run_app.
Qed.

(** No call is lost between its start and its effect, and none happens twice. *)
Lemma waiting_next frames k f p :
  frames !! k = Some f →
  waiting (next_frames frames k f p) ≡ₚ
  (default [] ((λ p, pending_call (set_pc p f)) <$> p)) ++ waiting (delete k frames).
Proof. intros E. destruct p as [p|]; cbn; [apply waiting_insert|done]. Qed.

Lemma cstep_calls c a c' es :
  cstep a c = Some (c', es) →
  effect_calls es ++ waiting (cs_frames c') ≡ₚ started [a] ++ waiting (cs_frames c).
Proof.
  destruct a as [x filp cmd arg|k|].
  - cbn. destruct (cs_frames c !! cpu x) eqn:Ec; [done|]. intros [= <- <-]. cbn [cs_frames].
    rewrite waiting_insert, (delete_id _ (cpu x)) by done. done.
  - intros (f & E & _ & E1)%cstep_run_inv. unfold run_cpu in E1. cbn [started omap list_omap app].
    rewrite (waiting_delete _ k f E).
    unfold takes_effect in E1. destruct (advance c f) as [[ring drops] p] eqn:Ea.
    injection E1 as <- <-. cbn [cs_frames fst snd]. rewrite (waiting_next _ _ _ _ E), app_assoc.
    apply Permutation_app_tail. unfold advance in Ea. unfold pending_call.
    destruct (fr_pc f); split_cases.
  - cbn. destruct (cr_read _) as [[record ring]|] eqn:Er; [|done]. opt_cbn. by intros [= <- <-].
Qed.

Lemma crun_calls acts c c' es :
  crun acts c = Some (c', es) →
  effect_calls es ++ waiting (cs_frames c') ≡ₚ started acts ++ waiting (cs_frames c).
Proof.
  revert c es. induction acts as [|a acts IH]; intros c es; cbn [Concurrent.crun].
  - by intros [= <- <-].
  - destruct (cstep a c) as [[c1 es1]|] eqn:E1; opt_cbn; [|done].
    destruct (crun acts c1) as [[c2 es2]|] eqn:E2; opt_cbn; [|done]. intros [= <- <-].
    apply cstep_calls in E1. apply IH in E2.
    unfold effect_calls, started in *. rewrite omap_app, <- app_assoc, E2.
    rewrite Permutation_app_swap_app, E1, Permutation_app_swap_app, app_assoc, <- omap_app.
    done.
Qed.

(** ** Progress *)

(** How many steps an execution has left at most. *)
Definition steps_left (p : pc) : nat :=
  match p with
  | PStart => 13
  | PVendor _ _ _ => 12
  | PReserve _ _ _ => 11
  | PLocked _ _ _ => 10
  | PFill _ _ _ _ n => S (8 - n)
  | PCount => 2
  | PStore _ => 1
  end.

Lemma advance_left c f :
  match (advance c f).2 with
  | Some p => (steps_left p < steps_left (fr_pc f))%nat
  | None => True
  end.
Proof.
  unfold advance. destruct (fr_pc f) as [| | | |minor major ikey id n| |];
    repeat case_match; cbn; simplify_eq/=; try lia.
  match goal with E : assignments _ _ _ _ _ !! n = Some _ |- _ =>
    apply lookup_lt_Some in E; cbn in E end. lia.
Qed.

Definition runs (k : nat) (acts : list caction) : nat :=
  length (omap (λ a, match a with
                     | CRun k' => if decide (k' = k) then Some a else None
                     | _ => None
                     end) acts).

(** The lock of the ring buffer has one holder at most. *)
Definition exclusive (frames : gmap nat frame) : Prop :=
  ∀ k k' f f', frames !! k = Some f → frames !! k' = Some f' →
    in_ring (fr_pc f) = true → in_ring (fr_pc f') = true → k = k'.

Lemma ring_held_false frames :
  ring_held frames = false ↔ ∀ k f, frames !! k = Some f → in_ring (fr_pc f) = false.
Proof. unfold ring_held. rewrite negb_false_iff, bool_decide_eq_true. done. Qed.

Lemma ring_held_true frames :
  ring_held frames = true → ∃ k f, frames !! k = Some f ∧ in_ring (fr_pc f) = true.
Proof.
  unfold ring_held. rewrite negb_true_iff, bool_decide_eq_false.
  intros (k & f & E & Hf)%map_not_Forall; [|apply _]. exists k, f. split; [done|].
  by apply not_false_is_true.
Qed.

(** An execution gets inside only from before the lock, and leaves with its
    next step. *)
Lemma advance_in_ring c f p :
  (advance c f).2 = Some p → in_ring p = true → wants_ring (fr_pc f) = true.
Proof. unfold advance. destruct (fr_pc f); repeat case_match; cbn; intros; simplify_eq/=; done. Qed.

Lemma advance_leaves c f p :
  in_ring (fr_pc f) = true → (advance c f).2 = Some p → in_ring p = false.
Proof. unfold advance. destruct (fr_pc f); repeat case_match; cbn; intros; simplify_eq/=; done. Qed.

Lemma next_frames_in_ring c k f k' f' :
  next_frames (cs_frames c) k f (advance c f).2 !! k' = Some f' → in_ring (fr_pc f') = true →
  (k = k' ∧ wants_ring (fr_pc f) = true) ∨ (k ≠ k' ∧ cs_frames c !! k' = Some f').
Proof.
  intros E Hr. destruct (decide (k = k')) as [<-|]; [|rewrite next_frames_ne in E by done; by right].
  rewrite next_frames_eq in E. destruct (advance c f).2 as [p|] eqn:Ea; [|done].
  injection E as <-. left. split; [done|]. by apply (advance_in_ring c f p).
Qed.

Lemma run_cpu_frames c k f :
  cs_frames (run_cpu c k f).1 = next_frames (cs_frames c) k f (advance c f).2.
Proof. unfold run_cpu. by destruct (advance c f) as [[ring drops] p]. Qed.

Lemma cstep_exclusive c a c' es :
  exclusive (cs_frames c) → cstep a c = Some (c', es) → exclusive (cs_frames c').
Proof.
  intros Hx. destruct a as [x filp cmd arg|k|].
  - cbn. destruct (cs_frames c !! cpu x) eqn:Ec; [done|]. intros [= <- <-]. cbn [cs_frames].
    intros k k' f f' [[<- <-]|[_ E]]%lookup_insert_Some [[<- <-]|[_ E']]%lookup_insert_Some; try done.
    by apply Hx.
  - intros (f & E & Eb & E1)%cstep_run_inv.
    assert (cs_frames c' = next_frames (cs_frames c) k f (advance c f).2) as ->
      by (rewrite <- run_cpu_frames, E1; done).
    assert (Hfree : wants_ring (fr_pc f) = true → ring_held (cs_frames c) = false).
    { intros Hw. unfold blocked in Eb. by rewrite Hw in Eb. }
    setoid_rewrite ring_held_false in Hfree.
    intros k1 k2 f1 f2 E1' E2' H1 H2.
    destruct (next_frames_in_ring _ _ _ _ _ E1' H1) as [[<- Hw]|[? E3]],
      (next_frames_in_ring _ _ _ _ _ E2' H2) as [[<- Hw']|[? E4]]; [done|..].
    + by rewrite (Hfree Hw _ _ E4) in H2.
    + by rewrite (Hfree Hw' _ _ E3) in H1.
    + by eapply Hx.
  - cbn. destruct (cr_read _) as [[record ring]|]; [|done]. opt_cbn. by intros [= <- <-].
Qed.

Lemma crun_exclusive acts c c' es :
  exclusive (cs_frames c) → crun acts c = Some (c', es) → exclusive (cs_frames c').
Proof.
  revert c es. induction acts as [|a acts IH]; intros c es Hx; cbn [Concurrent.crun].
  - by intros [= <- <-].
  - destruct (cstep a c) as [[c1 es1]|] eqn:E1; opt_cbn; [|done].
    destruct (crun acts c1) as [[c2 es2]|] eqn:E2; opt_cbn; [|done]. intros [= <- <-].
    eapply IH; [|exact E2]. by eapply cstep_exclusive.
Qed.

(** A step of the execution inside the reservation lets the next one in. *)
Lemma holder_releases c k f k' f' :
  exclusive (cs_frames c) → cs_frames c !! k = Some f → wants_ring (fr_pc f) = true →
  cs_frames c !! k' = Some f' → in_ring (fr_pc f') = true →
  ∃ c1 es1, cstep (CRun k') c = Some (c1, es1) ∧ is_Some (cstep (CRun k) c1).
Proof.
  intros Hx E Hw E' Hr.
  assert (k' ≠ k) by (intros ->; rewrite E in E'; injection E' as ->; by destruct (fr_pc f')).
  exists (run_cpu c k' f').1, (run_cpu c k' f').2. split.
  - rewrite (cstep_run _ _ _ E'). unfold blocked.
    assert (wants_ring (fr_pc f') = false) as -> by (by destruct (fr_pc f')).
    by destruct (run_cpu c k' f').
  - assert (E1 : cs_frames (run_cpu c k' f').1 !! k = Some f)
      by (by rewrite run_cpu_frames, next_frames_ne).
    rewrite (cstep_run _ _ _ E1). unfold blocked. rewrite Hw.
    assert (ring_held (cs_frames (run_cpu c k' f').1) = false) as ->; [|done].
    apply ring_held_false. intros k2 f2. rewrite run_cpu_frames.
    destruct (in_ring (fr_pc f2)) eqn:E2; [|done]. intros Ek2.
    destruct (next_frames_in_ring _ _ _ _ _ Ek2 E2) as [[<- Hw']|[Hne E3]].
    + by destruct (fr_pc f').
    + by destruct Hne; eapply Hx.
Qed.

(** Other actions leave the execution on CPU [k] where it is. *)
Lemma cstep_other c a c' es k f :
  cs_frames c !! k = Some f → a ≠ CRun k → cstep a c = Some (c', es) →
  cs_frames c' !! k = Some f.
Proof.
  intros E Hne. destruct a as [x filp cmd arg|k'|].
  - cbn. destruct (cs_frames c !! cpu x) eqn:Ec; [done|]. intros [= <- <-]. cbn [cs_frames].
    rewrite lookup_insert_ne; [done|]. congruence.
  - intros (f' & E' & _ & E1)%cstep_run_inv. unfold run_cpu in E1.
    destruct (advance c f') as [[ring drops] p]. injection E1 as <- <-.
    cbn [cs_frames]. rewrite next_frames_ne; [done|]. congruence.
  - cbn. destruct (cr_read _) as [[record ring]|]; [|done]. opt_cbn. by intros [= <- <-].
Qed.

Lemma crun_returns acts c c' es k f :
  crun acts c = Some (c', es) → cs_frames c !! k = Some f →
  (steps_left (fr_pc f) ≤ runs k acts)%nat →
  ∃ acts1 acts2 c1 es1, acts = acts1 ++ acts2 ∧ crun acts1 c = Some (c1, es1) ∧
    cs_frames c1 !! k = None.
Proof.
  revert c es f. induction acts as [|a acts IH]; intros c es f Hrun E Hleft.
  { destruct (fr_pc f); cbn in Hleft; lia. }
  cbn [Concurrent.crun] in Hrun.
  destruct (cstep a c) as [[c1 es1]|] eqn:E1; [|done]. cbn in Hrun.
  destruct (crun acts c1) as [[c2 es2]|] eqn:E2; [|done]. injection Hrun as <- <-.
  assert (Hcons : ∀ f1, cs_frames c1 !! k = Some f1 →
    (steps_left (fr_pc f1) ≤ runs k acts)%nat →
    ∃ acts1 acts2 c1 es1, a :: acts = acts1 ++ acts2 ∧ crun acts1 c = Some (c1, es1) ∧
      cs_frames c1 !! k = None).
  { intros f1 Ef1 Hl. destruct (IH c1 es2 f1 E2 Ef1 Hl) as (a1 & a2 & c3 & es3 & -> & E3 & ?).
    exists (a :: a1), a2, c3, (es1 ++ es3). split_and!; [done| |done].
    cbn [Concurrent.crun]. rewrite E1. opt_cbn. by rewrite E3. }
  destruct (decide (a = CRun k)) as [->|Hne].
  - assert (Er : runs k (CRun k :: acts) = S (runs k acts)).
    { unfold runs. cbn. by rewrite decide_True. }
    pose proof E1 as E1'. apply cstep_run_inv in E1 as (f' & E' & Eb & E1).
    rewrite E in E'. injection E' as <-. pose proof (advance_left c f) as Hl. unfold run_cpu in E1.
    destruct (advance c f) as [[ring drops] p] eqn:Ea. cbn [snd] in Hl.
    pose proof (next_frames_eq (cs_frames c) k f p) as En.
    destruct p as [p|]; injection E1 as <- <-.
    + apply (Hcons (set_pc p f)); [exact En|]. cbn [fr_pc set_pc]. lia.
    + exists [CRun k], acts. do 2 eexists. split_and!; [done| |].
      * cbn [Concurrent.crun]. rewrite E1'. done.
      * exact En.
  - apply (Hcons f); [by eapply cstep_other|]. unfold runs in *. cbn in Hleft.
    destruct a as [|k'|]; try done. rewrite decide_False in Hleft; [done|congruence].
Qed.

Lemma crun_run acts c k f :
  cs_frames c !! k = Some f → blocked c f = false → is_Some (crun acts (run_cpu c k f).1) →
  is_Some (crun (CRun k :: acts) c).
Proof.
  intros E Eb [[c2 es2] E2]. cbn [Concurrent.crun]. rewrite (cstep_run _ _ _ E), Eb. destruct (run_cpu c k f) as [c1 es1]. cbn in *.
  rewrite E2. cbn. eauto.
Qed.

(** The reader waits for at most the steps that are left of one execution. *)
Lemma drain c k f minor major ikey id n mem l :
  cs_frames c !! k = Some f → fr_pc f = PFill minor major ikey id n →
  cr_slots (cs_ring c) = Slot id mem false :: l →
  is_Some (crun (replicate (steps_left (fr_pc f)) (CRun k) ++ [CRead]) c).
Proof.
  intros E Ef. rewrite Ef. cbn [steps_left]. remember (8 - n)%nat as m eqn:Em.
  revert c f n mem l E Ef Em. induction m as [|m IH]; intros c f n mem l E Ef Em Hs;
    apply (crun_run _ _ _ _ E); try (by unfold blocked; rewrite Ef); unfold run_cpu, takes_effect, Concurrent.advance; rewrite Ef.
  - rewrite lookup_ge_None_2 by (cbn; lia). cbn.
    destruct (cr_read_done (cr_submit (cs_ring c) id) id mem (at_slot id submit_slot l))
      as (r & -> & _); [|cbn; eauto].
    rewrite cr_submit_slots, Hs. unfold at_slot. cbn. by rewrite bool_decide_eq_true_2.
  - match goal with |- context [assignments ?x ?cmd ?mi ?ma ?kd !! n] =>
      destruct (lookup_lt_is_Some_2 (assignments x cmd mi ma kd) n) as [h ->]; [cbn; lia|] end.
    cbn [fst]. eapply IH.
    + exact (next_frames_eq _ _ _ (Some _)).
    + done.
    + lia.
    + cbn [cs_ring]. rewrite cr_write_slots, Hs. unfold at_slot. rewrite fmap_cons.
      cbn [sl_id]. by rewrite bool_decide_eq_true_2.
Qed.

Lemma sim_init c :
  holds_devices (cs_devices c) devs → holds_ioctls (cs_ioctls c) tbl →
  cr_slots (cs_ring c) = [] → cs_frames c = ∅ →
  pcpu_values (cs_dropped c) 0 = Some (replicate ncpus 0) →
  sim c [] 0 (replicate ncpus 0).
Proof.
  intros Hd Hi Hs Hf Hv. split; [done|done|done|constructor|constructor|..].
  - rewrite Hf. apply map_Forall_empty.
  - intros k k' f f' id E. by rewrite Hf, lookup_empty in E.
  - intros id mem e Hin. by apply not_elem_of_nil in Hin.
  - done.
  - apply length_replicate.
  - f_equal. clear. by induction ncpus as [|n IH].
Qed.

(** What the invariant says of the ring buffer. *)
Lemma sim_records c g lost vs :
  sim c g lost vs →
  Forall2 (λ s e, if sl_done s then sl_mem s = event_bytes e
                  else ∃ k f, cs_frames c !! k = Some f ∧ fill_id (fr_pc f) = Some (sl_id s))
    (cr_slots (cs_ring c)) g.*2.
Proof.
  intros S. rewrite (sim_slots _ _ _ _ S). pose proof (sim_slots_ok _ _ _ _ S) as Hok.
  pose proof (sim_busy _ _ _ _ S) as Hb. rewrite Forall_forall in Hok. clear S.
  rewrite Forall2_fmap. apply Forall_Forall2_diag, Forall_forall. intros [[id mem d] e] Hin.
  cbn. destruct (Hok _ Hin) as [_ Hm]. destruct d; [by apply Hm|]. by eapply Hb.
Qed.

Lemma steps_left_le p : (steps_left p ≤ 13)%nat.
Proof. destruct p; cbn; lia. Qed.

Lemma sim_reader c g lost vs :
  sim c g lost vs → cr_slots (cs_ring c) ≠ [] →
  ∃ k m, (m ≤ 9)%nat ∧ is_Some (crun (replicate m (CRun k) ++ [CRead]) c).
Proof.
  intros S Hne. pose proof (sim_slots _ _ _ _ S) as Hs.
  destruct g as [|[[id mem d] e] g]; [done|]. cbn in Hs. destruct d.
  - destruct (cr_read_done _ _ _ _ Hs) as (r & Hr & _). exists 0%nat, 0%nat. split; [lia|].
    cbn. rewrite Hr. cbn. eauto.
  - destruct (sim_busy _ _ _ _ S id mem e) as (k & f & E & Ef); [by left|].
    exists k, (steps_left (fr_pc f)).
    destruct (fr_pc f) as [| | | |minor major ikey id' n| |] eqn:Epc; try done.
    cbn in Ef. injection Ef as ->. split; [cbn; lia|].
    rewrite <- Epc. by eapply drain.
Qed.

End Invariant.

(** ** A ring buffer that satisfies the laws

    Room for [q_room] more bytes; a record's address is above those in use and
    its memory is full of 0xaa. *)

Module Sample.

Record ring : Type := Ring { q_room : Z; q_slots : list slot }.

Definition fresh_address (l : list slot) : Z := 1 + foldr Z.max 0 (sl_id <$> l).

#[global] Instance ring_conc : ConcRing ring := {|
  cr_reserve r n :=
    if bool_decide (0 ≤ n ∧ n + 8 ≤ q_room r)
    then Some (fresh_address (q_slots r),
               Ring (q_room r - (n + 8))
                 (q_slots r ++ [Slot (fresh_address (q_slots r))
                                  (replicate (Z.to_nat n) Byte.xaa) false]))
    else None;
  cr_write r id f := Ring (q_room r) (at_slot id (write_slot f) (q_slots r));
  cr_submit r id := Ring (q_room r) (at_slot id submit_slot (q_slots r));
  cr_read r := match q_slots r with
               | Slot _ mem true :: l => Some (mem, Ring (q_room r + Z.of_nat (length mem) + 8) l)
               | _ => None
               end;
  cr_slots := q_slots;
|}.

Lemma fresh_address_not_in l : fresh_address l ∉ sl_id <$> l.
Proof.
  assert (Hb : ∀ i ids, i ∈ ids → i ≤ foldr Z.max 0 ids).
  { intros i ids. induction 1; cbn; lia. }
  intros Hin%Hb. unfold fresh_address in Hin. lia.
Qed.

#[global] Instance ring_conc_ok : ConcRingOk ring.
Proof.
  split; cbn.
  - intros r n id r'. case_bool_decide; intros; simplify_eq. split; [apply fresh_address_not_in|].
    eexists. split; [|done]. rewrite length_replicate. lia.
  - done.
  - done.
  - intros r id mem l ->. eauto.
  - by intros r id mem l ->.
  - by intros r ->.
Qed.

(** The node of [BpfProgram.Sample]: two CPUs, the device 226:128. *)
Definition init : cstate Model.hash ring (list Z) :=
  CState BpfProgram.Sample.devices_map BpfProgram.Sample.ioctls_map (Ring 64 []) [0; 0] ∅.

Definition on_cpu (k : nat) (pid : Z) : exec_ctx := {|
  cpu := k;
  ktime_tai_ns := 1000 + pid;
  current_cgroup_id := 117316;
  current_pid_tgid := Z.shiftl pid 32 + pid;
|}.

(** CPU 0 is interrupted inside its record: CPU 1 finds no room and counts a
    drop, the reader finds nothing until CPU 0 is done; then CPU 1 makes an
    untracked call and is cut off inside a tracked one. *)
Definition acts : list caction :=
  [CCall (on_cpu 0 7) 7 0xC0406469 0; CCall (on_cpu 1 8) 7 0xC0406469 0] ++
  replicate 7 (CRun 0) ++ replicate 6 (CRun 1) ++ replicate 6 (CRun 0) ++
  [CRead; CCall (on_cpu 1 9) 7 0x6468 0] ++ replicate 2 (CRun 1) ++
  [CCall (on_cpu 1 9) 7 0xC0406469 0] ++ replicate 6 (CRun 1).

Definition run := crun BpfProgram.Sample.memory BpfProgram.Sample.relo.

Example acts_run :
  (λ '(c, es), (es, sl_done <$> cr_slots (cs_ring c), cs_dropped c, size (cs_frames c)))
    <$> run acts init
  = Some ([ECall (on_cpu 0 7, 7, 0xC0406469, 0); ECall (on_cpu 1 8, 7, 0xC0406469, 0);
           ERead (event_bytes (event_of (on_cpu 0 7) 0xC0406469 128 226 KindSubmit));
           ECall (on_cpu 1 9, 7, 0x6468, 0); ECall (on_cpu 1 9, 7, 0xC0406469, 0)],
          [false], [0; 1], 1%nat).
Proof. vm_compute. reflexivity. Qed.

(** Before CPU 0 has submitted, the reader has to wait; CPU 1 cannot enter the
    reservation while CPU 0 is inside it, and can when it has left. *)
Example reader_waits : run (take 9 acts ++ [CRead]) init = None.
Proof. vm_compute. reflexivity. Qed.

Definition contended : list caction := take 2 acts ++ replicate 3 (CRun 0) ++ replicate 2 (CRun 1).

Example reservation_waits :
  run (contended ++ [CRun 1]) init = None ∧ is_Some (run (contended ++ [CRun 0; CRun 1]) init).
Proof. vm_compute. eauto. Qed.

End Sample.

(** ** Properties *)

Section Properties.

Context {H R P : Type} `{!BpfHash H, !ConcRing R, !BpfPercpu P}.
Context `{!ConcRingOk R, !BpfPercpuOk P}.

(** What the program's maps hold before the first call, on a machine with
    [ncpus] CPUs. *)
Definition fresh (devs tbl : gmap (Z * Z) Z) (ncpus : nat) (c : cstate H R P) : Prop :=
  holds_devices (cs_devices c) devs ∧ holds_ioctls (cs_ioctls c) tbl ∧
  cr_slots (cs_ring c) = [] ∧ cs_frames c = ∅ ∧
  pcpu_values (cs_dropped c) 0 = Some (replicate ncpus 0).

(** C6: Whatever the interleaving of the CPUs' accesses to shared memory with
    each other and with the reader, the run is one of atomic calls: at one
    point between its start and its return, each call on a tracked device and
    number appends exactly its own event or adds one to the lost calls, every
    other call does nothing, and the reader receives the events in that order,
    complete, none twice. No call that was started is missing from the order
    except those an execution has yet to decide; the per-CPU counters add up
    (modulo 2^64) to the lost calls; a submitted record holds its event, and
    one that is not submitted belongs to an execution still running. *)
Theorem interleavings_refine kernel_bytes relo off devs tbl ncpus acts (c0 c : cstate H R P) es :
  (∀ a n, 0 ≤ n → Z.of_nat (length (kernel_bytes a n)) = n) →
  relo "inode" "i_rdev" = Some (off, 4) →
  fresh devs tbl ncpus c0 → Forall (on_cpus ncpus) acts →
  crun kernel_bytes relo acts c0 = Some (c, es) →
  ∃ pending lost counts,
    spec_run devs tbl (rdev_of kernel_bytes relo) es ([], 0) (pending, lost) ∧
    effect_calls es ++ waiting (cs_frames c) ≡ₚ started acts ∧
    pcpu_values (cs_dropped c) 0 = Some counts ∧ wrap 64 (foldr Z.add 0 counts) = wrap 64 lost ∧
    Forall2 (λ s e, if sl_done s then sl_mem s = event_bytes e
                    else ∃ k f, cs_frames c !! k = Some f ∧ fill_id (fr_pc f) = Some (sl_id s))
      (cr_slots (cs_ring c)) pending.
Proof.
  intros Hlen Hrelo (Hd & Hi & Hs & Hf & Hv) Hon Hrun.
  pose proof (sim_init kernel_bytes relo devs tbl ncpus c0 Hd Hi Hs Hf Hv) as S0.
  destruct (crun_matched kernel_bytes relo devs tbl ncpus off Hlen Hrelo _ _ _ _ _ _ _
    S0 Hon Hrun) as (g & lost & vs & S & R1).
  exists g.*2, lost, vs. split_and!; [exact R1| |apply S|apply S|by eapply sim_records].
  pose proof (crun_calls kernel_bytes relo _ _ _ _ Hrun) as Hc.
  rewrite Hf in Hc. by rewrite app_nil_r in Hc.
Qed.

(** C13: An execution waits for another CPU in one place and for one step: in
    [bpf_ringbuf_reserve], while exactly one other execution is inside it, which
    can go on and lets it in with its next step; everywhere else, the store to a
    counter and the submission included, it can go on whatever the others and
    the reader do. It returns: one that has taken as many steps as it has left
    (13 from the start) is gone, whatever ran in between. And the reader waits
    for one execution at most: whenever it has to, it can go on after at most
    nine steps of the CPU that is filling the oldest record. *)
Theorem executions_wait_for_reservation kernel_bytes relo off devs tbl ncpus acts
    (c0 c : cstate H R P) es :
  (∀ a n, 0 ≤ n → Z.of_nat (length (kernel_bytes a n)) = n) →
  relo "inode" "i_rdev" = Some (off, 4) →
  fresh devs tbl ncpus c0 → Forall (on_cpus ncpus) acts →
  crun kernel_bytes relo acts c0 = Some (c, es) →
  (∀ k f, cs_frames c !! k = Some f →
     (is_Some (cstep kernel_bytes relo (CRun k) c) ∨
      wants_ring (fr_pc f) = true ∧
      ∃ k' f', k' ≠ k ∧ cs_frames c !! k' = Some f' ∧ in_ring (fr_pc f') = true ∧
        (∀ k2 f2, cs_frames c !! k2 = Some f2 → in_ring (fr_pc f2) = true → k2 = k') ∧
        ∃ c1 es1, cstep kernel_bytes relo (CRun k') c = Some (c1, es1) ∧
                  is_Some (cstep kernel_bytes relo (CRun k) c1)) ∧
     ∀ acts' c' es', crun kernel_bytes relo acts' c = Some (c', es') → (13 ≤ runs k acts')%nat →
       ∃ before after c1 es1, acts' = before ++ after ∧
         crun kernel_bytes relo before c = Some (c1, es1) ∧ cs_frames c1 !! k = None) ∧
  (cr_slots (cs_ring c) ≠ [] →
   ∃ k m, (m ≤ 9)%nat ∧
     is_Some (crun kernel_bytes relo (replicate m (CRun k) ++ [CRead]) c)).
Proof.
  intros Hlen Hrelo (Hd & Hi & Hs & Hf & Hv) Hon Hrun.
  pose proof (sim_init kernel_bytes relo devs tbl ncpus c0 Hd Hi Hs Hf Hv) as S0.
  destruct (crun_matched kernel_bytes relo devs tbl ncpus off Hlen Hrelo _ _ _ _ _ _ _
    S0 Hon Hrun) as (g & lost & vs & S & _).
  assert (Hx : exclusive (cs_frames c)).
  { eapply crun_exclusive; [|exact Hrun]. rewrite Hf. intros k k' f f' Ek. by rewrite lookup_empty in Ek. }
  split; [|intros Hne; by eapply sim_reader].
  intros k f E. split.
  - destruct (blocked c f) eqn:Eb; [right|left; rewrite (cstep_run _ _ _ _ _ E), Eb; eauto].
    unfold blocked in Eb. apply andb_true_iff in Eb as [Hw (k' & f' & E' & Hr)%ring_held_true].
    split; [done|]. exists k', f'.
    split_and!; [|done|done|intros k2 f2 E2 H2; by eapply Hx|by eapply holder_releases].
    intros ->. rewrite E in E'. injection E' as <-. by destruct (fr_pc f).
  - intros acts' c' es' Hrun' Hk. eapply crun_returns; [exact Hrun'|exact E|].
    etrans; [apply steps_left_le|exact Hk].
Qed.

End Properties.

Lemma init_fresh : fresh BpfProgram.Sample.devs BpfProgram.Sample.tbl 2 Sample.init.
Proof.
  split_and!; [exact BpfProgram.Sample.devices_held|exact BpfProgram.Sample.ioctls_held|done..].
Qed.

Lemma interleavings_refine_witness :
  match Sample.run Sample.acts Sample.init with
  | Some (c, es) =>
      ∃ pending lost counts,
        spec_run BpfProgram.Sample.devs BpfProgram.Sample.tbl
          (rdev_of BpfProgram.Sample.memory BpfProgram.Sample.relo) es ([], 0) (pending, lost) ∧
        effect_calls es ++ waiting (cs_frames c) ≡ₚ started Sample.acts ∧
        pcpu_values (cs_dropped c) 0 = Some counts ∧
        wrap 64 (foldr Z.add 0 counts) = wrap 64 lost ∧
        Forall2 (λ s e, if sl_done s then sl_mem s = event_bytes e
                        else ∃ k f, cs_frames c !! k = Some f ∧
                               fill_id (fr_pc f) = Some (sl_id s))
          (cr_slots (cs_ring c)) pending
  | None => False
  end.
Proof.
  destruct (Sample.run Sample.acts Sample.init) as [[c es]|] eqn:E.
  - apply (interleavings_refine BpfProgram.Sample.memory BpfProgram.Sample.relo 76
      BpfProgram.Sample.devs BpfProgram.Sample.tbl 2 Sample.acts Sample.init c es).
    + exact BpfProgram.Sample.memory_length.
    + vm_compute. reflexivity.
    + exact init_fresh.
    + repeat constructor.
    + exact E.
  - assert (Hs : bool_decide (is_Some (Sample.run Sample.acts Sample.init)) = true)
      by (vm_compute; reflexivity).
    rewrite E in Hs. discriminate Hs.
Defined.

(** From the state in which CPU 0 is inside the reservation and CPU 1 is to
    enter it. *)
Lemma executions_wait_for_reservation_witness :
  match Sample.run Sample.contended Sample.init with
  | Some (c, es) =>
      ∃ f, cs_frames c !! 1%nat = Some f ∧ wants_ring (fr_pc f) = true ∧
      ∃ k' c1 es1, k' ≠ 1%nat ∧ Sample.run [CRun k'] c = Some (c1, es1) ∧
        is_Some (Sample.run [CRun 1] c1)
  | None => False
  end.
Proof.
  destruct (Sample.run Sample.contended Sample.init) as [[c es]|] eqn:E.
  - assert (Hs : (λ '(c, _), (λ f, (wants_ring (fr_pc f), blocked c f)) <$> cs_frames c !! 1%nat) <$>
        Sample.run Sample.contended Sample.init = Some (Some (true, true))) by (vm_compute; reflexivity).
    rewrite E in Hs. cbn [fmap option_fmap option_map] in Hs.
    destruct (cs_frames c !! 1%nat) as [f|] eqn:Ef; [|discriminate Hs]. injection Hs as Hw Hb.
    exists f. split; [done|]. split; [exact Hw|].
    destruct (executions_wait_for_reservation BpfProgram.Sample.memory BpfProgram.Sample.relo 76
      BpfProgram.Sample.devs BpfProgram.Sample.tbl 2 Sample.contended Sample.init c es) as [Hk _].
    + exact BpfProgram.Sample.memory_length.
    + vm_compute. reflexivity.
    + exact init_fresh.
    + repeat constructor.
    + exact E.
    + destruct (Hk 1%nat f Ef) as [[Hgo|(_ & k' & f' & Hne & _ & _ & _ & c1 & es1 & E1 & [[c2 es2] E2])] _].
      * rewrite (cstep_run _ _ _ _ _ Ef), Hb in Hgo. by destruct Hgo.
      * exists k', c1, (es1 ++ []). split; [done|]. unfold Sample.run. cbn [Concurrent.crun].
        rewrite E1. split; [done|]. rewrite E2. cbn. eauto.
  - assert (Hs : bool_decide (is_Some (Sample.run Sample.contended Sample.init)) = true)
      by (vm_compute; reflexivity).
    rewrite E in Hs. discriminate Hs.
Defined.
