(* ===== verification/Bytecode.v ===== *)
(** * The eBPF instruction set, as far as the program's object code uses it

    What the kernel runs is not the C source but the instructions the compiler
    made of it, embedded in the agent ([pkg/loader/bpf_x86_bpfel.o]). This file
    has the instructions of the eBPF instruction set that occur there: their
    encoding, and a machine that executes them on the program's maps. The
    machine has what an fentry program can see: eleven registers, the context
    (the argument slots), a stack of 512 bytes, map values, a reserved record of
    the ring buffer, and kernel memory to read. An access outside of these, or
    an instruction the machine does not have, is [Stuck], so that a theorem that
    a program exits also says that it is memory safe.

    [ObjectFile] reads the instructions from the bytes of the object file and
    [ObjectCode] proves that they do what [BpfProgram.kubenpu_ioctl] does. *)

From S2P Require Import Prelude.
From S2P Require Import GoStrings.
From S2P Require Import CLayout.
From S2P Require Import BpfHelpers.
From S2P Require Import Kernel.
From S2P Require Import BpfProgram.

Local Open Scope Z_scope.

(** ** Instructions *)

Inductive operand : Type :=
  | Reg (r : nat)
  | Imm (z : Z).

Inductive alu_op : Type := Add | And | Rsh | Mov.

(** A jump is relative to the instruction after it; the 64-bit immediate takes
    two slots. *)
Inductive insn : Type :=
  | Alu64 (op : alu_op) (dst : nat) (src : operand)
  | Ldx (size : Z) (dst src : nat) (off : Z)     (** [dst] gets the [size] bytes at [src + off] *)
  | Stx (size : Z) (dst src : nat) (off : Z)     (** the [size] bytes at [dst + off] get [src] *)
  | LdMap (dst : nat) (map : string)             (** [dst = &map] *)
  | LdPad                                        (** the second slot of [LdMap] *)
  | Ja (off : Z)
  | Jeq (dst : nat) (src : operand) (off : Z)
  | Jne (dst : nat) (src : operand) (off : Z)
  | Call (helper : Z)
  | Exit.

(** *** Encoding *)

(** A field as a signed number of [w] bits. *)
Definition signed (w z : Z) : Z := if bool_decide (z < 2 ^ (w - 1)) then z else z - 2 ^ w.

(** The fields of a slot of eight bytes: opcode, destination and source
    register, offset, immediate. *)
Record fields : Type := Fields {
  fl_op : Z; fl_dst : nat; fl_src : nat; fl_off : Z; fl_imm : Z }.

Definition slot_fields (b : bytes) : fields :=
  let at_ o n := le_value (peek b o n) in
  Fields (at_ 0 1) (Z.to_nat (Z.land (at_ 1 1) 15)) (Z.to_nat (Z.shiftr (at_ 1 1) 4))
    (signed 16 (at_ 2 2)) (signed 32 (at_ 4 4)).

(** The size bits of a load or store. *)
Definition mem_size (op : Z) : Z :=
  match Z.land (Z.shiftr op 3) 3 with 0 => 4 | 1 => 2 | 2 => 1 | _ => 8 end.

(** The source bit: a register or the immediate. *)
Definition source (f : fields) : operand :=
  if Z.testbit (fl_op f) 3 then Reg (fl_src f) else Imm (fl_imm f).

(** One slot; [reloc] is the symbol the slot is relocated against. *)
Definition decode_slot (b : bytes) (reloc : option string) : option insn :=
  let f := slot_fields b in
  let op := fl_op f in
  match Z.land op 7 with
  | 7 =>                                                     (* BPF_ALU64 *)
      match Z.shiftr op 4 with
      | 0 => Some (Alu64 Add (fl_dst f) (source f))
      | 5 => Some (Alu64 And (fl_dst f) (source f))
      | 7 => Some (Alu64 Rsh (fl_dst f) (source f))
      | 11 => Some (Alu64 Mov (fl_dst f) (source f))
      | _ => None
      end
  | 1 => if bool_decide (Z.shiftr op 5 = 3)                  (* BPF_LDX | BPF_MEM *)
         then Some (Ldx (mem_size op) (fl_dst f) (fl_src f) (fl_off f)) else None
  | 3 => if bool_decide (Z.shiftr op 5 = 3)                  (* BPF_STX | BPF_MEM *)
         then Some (Stx (mem_size op) (fl_dst f) (fl_src f) (fl_off f)) else None
  | 0 => match op, reloc with                                (* BPF_LD *)
         | 0x18, Some map => Some (LdMap (fl_dst f) map)
         | 0, None => Some LdPad
         | _, _ => None
         end
  | 5 =>                                                     (* BPF_JMP *)
      match Z.shiftr op 4 with
      | 0 => Some (Ja (fl_off f))
      | 1 => Some (Jeq (fl_dst f) (source f) (fl_off f))
      | 5 => Some (Jne (fl_dst f) (source f) (fl_off f))
      | 8 => Some (Call (fl_imm f))
      | 9 => Some Exit
      | _ => None
      end
  | _ => None
  end.

(** The slots of a section; [reloc i] is the symbol of slot [i]. *)
Fixpoint decode_slots (n : nat) (i : nat) (reloc : nat → option string) (b : bytes) :
    option (list insn) :=
  match n with
  | O => Some []
  | S n =>
      insn ← decode_slot (take 8 b) (reloc i);
      rest ← decode_slots n (S i) reloc (drop 8 b);
      Some (insn :: rest)
  end.

Definition decode (reloc : nat → option string) (b : bytes) : option (list insn) :=
  if bool_decide (Z.of_nat (length b) mod 8 = 0)
  then decode_slots (length b / 8) 0 reloc b else None.

(** ** The machine *)

(** A register holds a 64-bit number (an address of the kernel included), or a
    pointer with its offset: to the context, to the stack (from its top), to the
    value of a key in a hash map, to the counter of this CPU, to the reserved
    record; or it is a map. *)
Inductive val : Type :=
  | VInt (z : Z)
  | VCtx (off : Z)
  | VStack (off : Z)
  | VElem (map : string) (key : bytes) (off : Z)
  | VCount (key : Z) (off : Z)
  | VRecord (off : Z)
  | VMap (map : string).

Definition stack_size : Z := 512.

(** Arithmetic on numbers, kept apart from the arithmetic on offsets. *)
Definition add64 (a b : Z) : Z := wrap 64 (a + b).
Definition and64 (a b : Z) : Z := Z.land a (wrap 64 b).
Definition rsh64 (a b : Z) : Z := Z.shiftr a (Z.land b 63).
Definition address (a off : Z) : Z := a + off.

(** A pointer moves by a constant. *)
Definition moved (v : val) (off : Z) : option val :=
  match v with
  | VInt a => Some (VInt (add64 a off))
  | VCtx b => Some (VCtx (b + off))
  | VStack b => Some (VStack (b + off))
  | VElem m k b => Some (VElem m k (b + off))
  | VCount k b => Some (VCount k (b + off))
  | VRecord b => Some (VRecord (b + off))
  | VMap _ => None
  end.

(** [size] bytes at [off] lie inside an object of [n] bytes. *)
Definition inside (off size n : Z) : bool :=
  bool_decide (0 ≤ off) && bool_decide (off + size ≤ n).

Inductive result (A : Type) : Type :=
  | Timeout
  | Stuck
  | Exited (a : A).
Arguments Timeout {A}.
Arguments Stuck {A}.
Arguments Exited {A}.

Section Machine.

Context {H R P : Type} `{!BpfHash H, !BpfRingbuf R, !BpfPercpu P}.

Record machine : Type := Machine {
  m_pc : nat;
  m_regs : list (option val);     (** [None]: not initialised *)
  m_stack : bytes;
  m_record : option bytes;        (** the record reserved and not yet submitted *)
  m_maps : bpf_state H R P;
}.

(** The surroundings of a run. *)
Variable kernel_bytes : Z → Z → bytes.
Variable x : exec_ctx.
Variable ctx : list Z.

Definition hash_of (s : bpf_state H R P) (map : string) : option (H * map_def) :=
  if String.eqb map "devices" then Some (st_devices s, devices)
  else if String.eqb map "ioctls" then Some (st_ioctls s, ioctls) else None.

Definition load (m : machine) (size : Z) (v : val) (off : Z) : option Z :=
  match v with
  | VInt a => Some (le_value (kernel_bytes (address a off) size))
  | VCtx b =>
      if bool_decide (size = 8) && bool_decide ((b + off) mod 8 = 0) && bool_decide (0 ≤ b + off)
      then ctx !! Z.to_nat ((b + off) / 8) else None
  | VStack b =>
      let o := stack_size + b + off in
      if inside o size stack_size then Some (le_value (peek (m_stack m) o size)) else None
  | VElem map k b =>
      '(h, d) ← hash_of (m_maps m) map;
      t ← md_value d;
      if inside (b + off) size (sizeof t)
      then (λ v, le_value (peek v (b + off) size)) <$> hash_lookup h k else None
  | VCount k b =>
      if bool_decide (size = 8) && bool_decide (b + off = 0)
      then pcpu_lookup (st_dropped (m_maps m)) (cpu x) k else None
  | VRecord b =>
      r ← m_record m;
      if inside (b + off) size (Z.of_nat (length r))
      then Some (le_value (peek r (b + off) size)) else None
  | VMap _ => None
  end.

Definition set_reg (d : nat) (v : val) (m : machine) : machine :=
  Machine (S (m_pc m)) (<[d := Some v]> (m_regs m)) (m_stack m) (m_record m) (m_maps m).

Definition jump (off : Z) (m : machine) : machine :=
  Machine (Z.to_nat (Z.of_nat (m_pc m) + 1 + off)) (m_regs m) (m_stack m) (m_record m) (m_maps m).

Definition store (m : machine) (size : Z) (v : val) (off z : Z) : option machine :=
  let pc := S (m_pc m) in
  let bs := le_bytes (Z.to_nat size) z in
  match v with
  | VStack b =>
      let o := stack_size + b + off in
      if inside o size stack_size
      then Some (Machine pc (m_regs m) (poke (m_stack m) o bs) (m_record m) (m_maps m)) else None
  | VRecord b =>
      r ← m_record m;
      if inside (b + off) size (sizeof struct_event)
      then Some (Machine pc (m_regs m) (m_stack m) (Some (poke r (b + off) bs)) (m_maps m))
      else None
  | VCount k b =>
      if bool_decide (size = 8) && bool_decide (b + off = 0)
      then Some (Machine pc (m_regs m) (m_stack m) (m_record m)
             (BpfState (st_devices (m_maps m)) (st_ioctls (m_maps m)) (st_events (m_maps m))
                (pcpu_store (st_dropped (m_maps m)) (cpu x) k z)))
      else None
  | _ => None
  end.

Definition reg (m : machine) (r : nat) : option val := mjoin (m_regs m !! r).

(** *** Helper calls

    The arguments are in r1 to r5, which the call leaves uninitialised; the
    result is in r0. The null pointer is the number 0. *)
Definition after_call (r0 : val) (record : option bytes) (s : bpf_state H R P) (m : machine) :
    machine :=
  Machine (S (m_pc m)) (Some r0 :: replicate 5 None ++ drop 6 (m_regs m)) (m_stack m) record s.

(** The key argument of a map helper: a pointer to the stack. *)
Definition key_arg (m : machine) (t : ctype) : option bytes :=
  match reg m 2 with
  | Some (VStack b) =>
      if inside (stack_size + b) (sizeof t) stack_size
      then Some (peek (m_stack m) (stack_size + b) (sizeof t)) else None
  | _ => None
  end.

Definition map_lookup_elem (m : machine) : option val :=
  match reg m 1 with
  | Some (VMap map) =>
      if String.eqb map "dropped" then
        t ← md_key dropped; k ← key_arg m t;
        Some (match pcpu_lookup (st_dropped (m_maps m)) (cpu x) (le_value k) with
              | Some _ => VCount (le_value k) 0
              | None => VInt 0
              end)
      else
        '(h, d) ← hash_of (m_maps m) map; t ← md_key d; k ← key_arg m t;
        Some (match hash_lookup h k with Some _ => VElem map k 0 | None => VInt 0 end)
  | _ => None
  end.

Definition helper_name (n : Z) : option string :=
  h_name <$> find (λ h, bool_decide (h_id h = n)) helper_table.

Definition call_helper (name : string) (m : machine) : option machine :=
  let s := m_maps m in
  let num z := Some (after_call (VInt (wrap 64 z)) (m_record m) s m) in
  if String.eqb name "bpf_map_lookup_elem" then
    r ← map_lookup_elem m; Some (after_call r (m_record m) s m)
  else if String.eqb name "bpf_ringbuf_reserve" then
    match reg m 1, reg m 2, reg m 3, m_record m with
    | Some (VMap "events"), Some (VInt n), Some (VInt 0), None =>
        Some match ring_reserve (st_events s) n with
             | None => after_call (VInt 0) None s m
             | Some (record, events) =>
                 after_call (VRecord 0) (Some record)
                   (BpfState (st_devices s) (st_ioctls s) events (st_dropped s)) m
             end
    | _, _, _, _ => None
    end
  else if String.eqb name "bpf_ringbuf_submit" then
    match reg m 1, reg m 2, m_record m with
    | Some (VRecord 0), Some (VInt 0), Some record =>
        Some (after_call (VInt 0) None
          (BpfState (st_devices s) (st_ioctls s) (ring_submit (st_events s) record)
             (st_dropped s)) m)
    | _, _, _ => None
    end
  else if String.eqb name "bpf_ktime_get_tai_ns" then num (ktime_tai_ns x)
  else if String.eqb name "bpf_get_current_cgroup_id" then num (current_cgroup_id x)
  else if String.eqb name "bpf_get_current_pid_tgid" then num (current_pid_tgid x)
  else None.

(** *** Steps *)

Definition number (m : machine) (o : operand) : option Z :=
  match o with
  | Imm z => Some z
  | Reg r => match reg m r with Some (VInt z) => Some z | _ => None end
  end.

(** Immediates are extended to 64 bits with their sign. *)
Definition alu (m : machine) (op : alu_op) (d : nat) (o : operand) : option val :=
  match op, o with
  | Mov, Reg r => reg m r
  | Mov, Imm z => Some (VInt (z mod 2 ^ 64))
  | Add, Imm z => v ← reg m d; moved v z
  | _, _ =>
      b ← number m o;
      match reg m d with
      | Some (VInt a) =>
          Some (VInt match op with
                     | Add => add64 a b
                     | And => and64 a b
                     | Rsh => rsh64 a b
                     | Mov => b
                     end)
      | _ => None
      end
  end.

(** Equality with a number; a pointer that is not null is not 0. *)
Definition equal (v : val) (b : Z) : option bool :=
  match v with
  | VInt a => Some (bool_decide (a = b mod 2 ^ 64))
  | VMap _ => None
  | _ => if bool_decide (b = 0) then Some false else None
  end.

Definition branch (m : machine) (b : bool) (off : Z) : machine :=
  jump (if b then off else 0) m.

Definition exec (i : insn) (m : machine) : option machine :=
  match i with
  | Alu64 op d s => v ← alu m op d s; Some (set_reg d v m)
  | Ldx size d s off => v ← reg m s; z ← load m size v off; Some (set_reg d (VInt z) m)
  | Stx size d s off =>
      v ← reg m d;
      match reg m s with Some (VInt z) => store m size v off z | _ => None end
  | LdMap d map => Some (jump 0 (set_reg d (VMap map) m))
  | LdPad => None
  | Ja off => Some (jump off m)
  | Jeq d s off => v ← reg m d; z ← number m s; b ← equal v z; Some (branch m b off)
  | Jne d s off => v ← reg m d; z ← number m s; b ← equal v z; Some (branch m (negb b) off)
  | Call n => name ← helper_name n; call_helper name m
  | Exit => None
  end.

(** Run until the program exits with a number, holding no record. *)
Fixpoint run (fuel : nat) (code : list insn) (m : machine) : result (bpf_state H R P * Z) :=
  match fuel with
  | O => Timeout
  | S fuel =>
      match code !! m_pc m with
      | Some Exit =>
          match reg m 0, m_record m with
          | Some (VInt r0), None => Exited (m_maps m, r0)
          | _, _ => Stuck
          end
      | Some i => match exec i m with Some m => run fuel code m | None => Stuck end
      | None => Stuck
      end
  end.

(** On entry r1 points to the context, r10 to the top of the stack. *)
Definition enter (stack : bytes) (s : bpf_state H R P) : machine :=
  Machine 0 ([None; Some (VCtx 0)] ++ replicate 8 None ++ [Some (VStack 0)]) stack None s.

End Machine.

Arguments machine : clear implicits.
