(* ===== verification/ObjectBytes.v ===== *)
(** * The bytes of [pkg/loader/bpf_x86_bpfel.o]

    The object file the agent embeds ([//go:embed bpf_x86_bpfel.o] in
    [pkg/loader/bpf_x86_bpfel.go]): 23312 bytes, written as little-endian words of
    eight. [ObjectFile] reads it. *)

From S2P Require Import Prelude.

Local Open Scope Z_scope.

Definition bpf_x86_bpfel_o : list Z := [
  0x10102464c457f; 0x0; 0x100f70001; 0x0; 0x0;
  0x5790; 0x4000000000; 0x1000e00400000; 0x1279; 0x202279;
  0x4c2961; 0x81779; 0x98bf; 0xfffff00000857; 0xfffc8a63;
  0x1400000977; 0xfff89a63; 0xa2bf; 0xfffffff800000207; 0x118;
  0x0; 0x100000085; 0x320015; 0x161; 0x72bf;
  0xff00000257; 0xfff42a63; 0xfff01a63; 0xa2bf; 0xfffffff000000207;
  0x118; 0x0; 0x100000085; 0x6bf; 0x260615;
  0xffe07a7b; 0x118; 0x0; 0x20000002b7; 0x3b7;
  0x8300000085; 0x7bf; 0xc0755; 0x1b7; 0xffec1a63;
  0xa2bf; 0xffffffec00000207; 0x118; 0x0; 0x100000085;
  0x160015; 0x179; 0x100000107; 0x107b; 0x120005;
  0xd000000085; 0x77b; 0x5000000085; 0x8077b; 0xe00000085;
  0x1c976b; 0x188763; 0xffe0a179; 0x141763; 0x2000000077;
  0x100763; 0x6171; 0x1e1773; 0x1b7; 0x1f1773;
  0x71bf; 0x2b7; 0x8400000085; 0xb7; 0x95;
  0x4c5047; 0x0; 0x0; 0x0; 0x0;
  0x0; 0x0; 0x0; 0x0; 0x0;
  0x0; 0x0; 0x0; 0x0; 0x0;
  0x180001eb9f; 0x319c00000000; 0x1b820000319c; 0x200000000000000; 0x100000003;
  0x401000000; 0x1000020; 0x3000000; 0x400000002; 0x500000001;
  0x401000000; 0x20; 0x602000000; 0x300000000000000; 0x200000000;
  0x2000000004; 0x200000000000000; 0x1900000008; 0x804000002; 0x900000024;
  0x2a00000000; 0x2000000009; 0x800000000000030; 0x360000000a; 0x401000000;
  0x20; 0x902000000; 0x400000400000000; 0x4300000020; 0x1;
  0x500000048; 0x5400000040; 0x8000000007; 0xb00000058; 0x5e000000c0;
  0xc0e000000; 0x1; 0xf02000000; 0x300000000000000; 0x200000000;
  0x28000000004; 0x200000000000000; 0x6600000011; 0x804000002; 0x900000070;
  0x7a00000000; 0x2000000009; 0x200000000000000; 0x7d00000013; 0x1408000000;
  0x100000000000082; 0x800000001; 0x400000400000000; 0x4300000020; 0x1;
  0xe00000048; 0x5400000040; 0x8000000010; 0x1200000058; 0x90000000c0;
  0x150e000000; 0x1; 0x1802000000; 0x300000000000000; 0x200000000;
  0x1b00000004; 0x200000000000000; 0x1a; 0x3000000; 0x400000002;
  0x40000; 0x1004000002; 0x1700000043; 0x4800000000; 0x4000000019;
  0xe00000000000097; 0x10000001b; 0x200000000000000; 0x1e; 0x3000000;
  0x400000002; 0x6; 0x2002000000; 0x80000000000009e; 0xa400000021;
  0x801000000; 0x40; 0x2004000004; 0x1d00000043; 0x4800000000;
  0x4000000001; 0xb00000054; 0x5800000080; 0xc00000001f; 0xe000000000000b7;
  0x100000022; 0x200000000000000; 0x21; 0x20d000001; 0x24000000bf;
  0xc000001000000c3; 0x15300000025; 0xb804000013; 0x2800000158; 0x15f00000000;
  0x2000000037; 0x3800000166; 0x16b00000040; 0x800000003a; 0x3b00000175;
  0x182000000c0; 0x1000000003c; 0xa0000018a; 0x19200000140; 0x1600000000a;
  0x3d0000019f; 0x1a600000180; 0x1c00000003f; 0x4000000000; 0x200;
  0x28000000045; 0x52000001ae; 0x1b400000380; 0x3c00000003b; 0x54000001bf;
  0x1c800000400; 0x42000000054; 0x56000001d1; 0x440; 0x48000000057;
  0x62000001d6; 0x1dc00000580; 0x2908000000; 0x4000001000001e7; 0x4;
  0x2a; 0x500000100000000; 0x1f000000004; 0x2b; 0x4000001000001f6;
  0x20300000004; 0x2c; 0x80000000000020c; 0x21c0000002d; 0x404000001;
  0x2e00000000; 0x0; 0x405000003; 0x2f00000226; 0x0;
  0x31; 0x3300000000; 0x22a00000000; 0x3008000000; 0x400000100000000;
  0x23300000004; 0x2; 0x400000200000000; 0x23b00000002; 0x32;
  0x3200000242; 0x24a00000008; 0x1308000000; 0x400000200000000; 0x24d00000004;
  0x34; 0x340000025c; 0x26100000010; 0x3508000000; 0x800000000000265;
  0x26b00000036; 0x201000000; 0x27a00000010; 0xa08000000; 0x200000000000000;
  0x39; 0x830a000000; 0x200000000000000; 0x190; 0x2000000;
  0x200000000000000; 0x64; 0x3e02000000; 0xa00000000000000; 0x1af;
  0x1ae02000000; 0x500000200000000; 0x28200000010; 0x41; 0x4200000289;
  0x0; 0x420a000000; 0x400000200000292; 0x29700000010; 0x43;
  0x440000029b; 0x40; 0x1c302000000; 0x200000000000000; 0x1c2;
  0x2005000002; 0x46000002a2; 0x2ad00000000; 0x51; 0x4000004000002b4;
  0x2ba00000020; 0x47; 0x4d000002c0; 0x2ca00000040; 0x600000004e;
  0x4f000002ce; 0x2d800000080; 0x4808000000; 0x8000000000002e6; 0x49;
  0x804000001; 0x4a00000233; 0x2f100000000; 0x4b08000000; 0x8000000000002f5;
  0x2fb0000004c; 0x801000000; 0x30501000040; 0x2b08000000; 0x400000100000314;
  0x25c00000004; 0x2f; 0x40000020000032a; 0x33400000010; 0x50;
  0x5000000339; 0x40; 0x4f02000000; 0x80000000000033e; 0x34200000020;
  0x5308000000; 0x800000000000349; 0x3590000004c; 0x5508000000; 0x800000000000362;
  0x9; 0x8102000000; 0x500000400000000; 0x36600000020; 0x58;
  0x5c00000372; 0x37a00000000; 0x5e; 0x600000037f; 0x38900000000;
  0x1004000002; 0x5900000334; 0x39700000000; 0x400000005a; 0x200000000000000;
  0x58; 0x5b02000000; 0xd00000100000000; 0x0; 0x39c00000059;
  0x804000001; 0x5d00000334; 0x0; 0x5c02000000; 0x4000007000003a7;
  0x3b500000020; 0x5f; 0xa000003bb; 0x3c000000040; 0x600000000a;
  0xa000003cb; 0x3d400000080; 0xa000000036; 0x36000003da; 0x3e4000000b0;
  0xc000000052; 0x1000000000003ed; 0x4000000008; 0x8000000000003fb; 0x61;
  0x804000001; 0x5f00000405; 0x40700000000; 0x6308000000; 0x400000100000000;
  0x41200000008; 0x48; 0x400003700000443; 0x44900000260; 0x65;
  0x3600000450; 0x45a00000010; 0x200000000a; 0x6600000462; 0x46800000040;
  0x8000000066; 0x6700000476; 0x47c000000c0; 0xe00000006b; 0x6f00000482;
  0x48700000100; 0x14000000071; 0x3a0000048c; 0x49600000180; 0x1c00000003b;
  0x5f000004a1; 0x200; 0x24000000072; 0x74000004a7; 0x4ae00000260;
  0x28000000052; 0x76000004b5; 0x4c1000002c0; 0x30000000076; 0x76000004cd;
  0x4d900000340; 0x38000000055; 0x55000004e6; 0x4f3000003a0; 0x3c000000055;
  0x5500000500; 0x50d000003e0; 0x40000000028; 0x3600000514; 0x51c00000420;
  0x43000000032; 0x7700000526; 0x53300000438; 0x44000000078; 0x790000053c;
  0x54400000480; 0x4c00000007b; 0x5f0000054c; 0x55900000600; 0x6400000005f;
  0x7c0000056b; 0x57200000680; 0x7000000004f; 0x7f0000057c; 0x58100000780;
  0x7c000000002; 0x3400000591; 0x5a3000007e0; 0x7f000000034; 0x4f000005b4;
  0x5ba00000800; 0x8800000004f; 0x4f000005c4; 0x900; 0x98000000080;
  0x48000005ce; 0x5d800000a00; 0xa4000000048; 0x2f000005e3; 0x5eb00000a80;
  0xaa00000002f; 0x2f000005f7; 0x60400000ac0; 0xae00000002f; 0x8200000000;
  0x61000000b00; 0xb400000018f; 0x19000000618; 0xb80; 0x118000000196;
  0x19700000000; 0x61f00001200; 0x124000000009; 0x1990000062f; 0x64000001280;
  0x12c00000003b; 0x80000000000064a; 0x36; 0x1c002000000; 0x800000000000652;
  0x68; 0x404000001; 0x6900000226; 0x65900000000; 0x6a08000000;
  0x80000000000065f; 0x6700000000a; 0x6c08000000; 0x400000100000000; 0x22600000004;
  0x6d; 0x800000000000677; 0x67d0000006e; 0xa08000000; 0x200000000000000;
  0x70; 0x1c10a000000; 0x200000000000000; 0x1c4; 0x405000002;
  0x730000068e; 0x69600000000; 0xa; 0xa00000000000000; 0x6a00000000a;
  0x7508000000; 0x8000000000006a6; 0x6b500000055; 0x4b08000000; 0x86000007000006be;
  0x6c600000001; 0x6d900000000; 0x6e900000001; 0x6fa00000002; 0x70c00000003;
  0x71c00000004; 0x72f00000005; 0x74200000006; 0x5108000000; 0x40000010000074b;
  0x75d00000004; 0x7a; 0x600001200000765; 0x77c00000004; 0x78200000001;
  0x78900000002; 0x79900000004; 0x7a600000010; 0x7b700000020; 0x7c500000040;
  0x7d100000080; 0x7db00000100; 0x7e300000200; 0x7f000000400; 0x7fb00000800;
  0x80800001000; 0x81400002000; 0x82000004000; 0x82b00008000; 0x83700010000;
  0x84500020000; 0x85800040000; 0x2804000005; 0x4700000865; 0x2ba00000000;
  0x4000000047; 0x4e000002ca; 0x2c000000080; 0xa00000004d; 0x4f000002ce;
  0x86b000000c0; 0x1004000002; 0x7d00000334; 0x87600000000; 0x400000007e;
  0x200000000000000; 0x7c; 0x7d02000000; 0x200000000000000; 0x1a6;
  0x1005000002; 0x810000087c; 0x88500000000; 0x58; 0x40000010000088b;
  0x89600000008; 0x7d; 0x500000200000000; 0x89c00000008; 0x38;
  0x18d000008a2; 0x8ad00000000; 0x11004000022; 0x84000002ba; 0x8bd00000000;
  0x4000000085; 0x86000008c7; 0x8ce00000080; 0xc000000089; 0x95000008d3;
  0x8d900000100; 0x14000000099; 0x99000008e3; 0x8ee00000180; 0x1c0000000b2;
  0xba000008f5; 0x90400000200; 0x240000000c1; 0xcc00000909; 0x91800000280;
  0x2c0000000cc; 0xce00000925; 0x92a00000300; 0x340000000ec; 0xee0000092f;
  0x93500000380; 0x3c0000000ec; 0xf10000093d; 0x94300000400; 0x440000000f3;
  0xf50000094a; 0x94f00000480; 0x4c000000109; 0x10b00000961; 0x96d00000500;
  0x540000000f5; 0x10d00000973; 0x98000000580; 0x5c000000123; 0x1250000098c;
  0x99700000600; 0x64000000127; 0x12f000009a0; 0x9aa00000680; 0x6c000000131;
  0x139000009b6; 0x9c600000700; 0x7400000013b; 0xf1000009d7; 0x9df00000780;
  0x7c00000013d; 0x145000009e9; 0x9fa00000800; 0x84000000147; 0x200000000000000;
  0xa07000001bf; 0xa08000000; 0x200000000000000; 0x87; 0x520d000003;
  0x8800000000; 0x5200000000; 0x200000000; 0x200000000000000; 0x27;
  0x8a02000000; 0xd00000400000000; 0x8b; 0x88; 0x8f;
  0x91; 0xa1300000094; 0x8c08000000; 0x800000000000a1b; 0xa2c0000008d;
  0x8e08000000; 0x100000000000a3c; 0x100004000000008; 0x200000000000000; 0xa4100000090;
  0x101000000; 0xa4601000008; 0x9208000000; 0x800000000000a4d; 0xa5d00000093;
  0x5f08000000; 0x200000000000000; 0x52; 0x9602000000; 0xd00000400000000;
  0x8b; 0x88; 0x97; 0x91; 0x94;
  0x9802000000; 0xa00000000000000; 0x90; 0x9a02000000; 0xd00000200000000;
  0x8b; 0x9b; 0xa0; 0x9c02000000; 0x400000800000a6e;
  0xa7400000030; 0x88; 0x5200000a7c; 0xa8300000040; 0x800000009d;
  0x3b00000a8f; 0xa97000000c0; 0x10000000002; 0x3400000aa0; 0xaaa00000120;
  0x13000000032; 0x9f00000aba; 0x140; 0x9e02000000; 0xd00000200000000;
  0x0; 0x9b; 0x8e; 0x1b202000000; 0x200000000000000;
  0xac3000000a1; 0x2804000006; 0x3200000acc; 0xad600000000; 0x8000000a2;
  0xa200000ade; 0xaea00000010; 0x4000000091; 0xa400000000; 0x80;
  0x100000000b1; 0x800000000000af5; 0xafa000000a3; 0x101000000; 0x4000008;
  0x1005000002; 0xa500000b00; 0x0; 0xa6; 0x400000200000b0d;
  0xb1300000010; 0x3b; 0x9200000b1c; 0x40; 0x1004000002;
  0xa700000000; 0x86500000000; 0x4000000091; 0x500000600000000; 0xb2400000008;
  0xa8; 0xaa00000b2a; 0xb2f00000000; 0xac; 0xae00000b34;
  0xb3b00000000; 0xb0; 0x3b00000b42; 0x0; 0xa902000000;
  0xa00000000000000; 0xa5; 0xab02000000; 0xa00000000000000; 0x1b3;
  0xad02000000; 0xa00000000000000; 0x1b4; 0xaf02000000; 0xa00000000000000;
  0x1b5; 0x19102000000; 0x500000300000000; 0xb4700000008; 0x5f;
  0x3200000b4f; 0xb5b00000000; 0x52; 0x200000000000000; 0xb3;
  0x20d000003; 0x9b00000000; 0xb400000000; 0xa00000000; 0x200000000000000;
  0xb68000000b5; 0x2804000004; 0xb600000b76; 0xb7f00000000; 0x80000000a2;
  0xb800000b87; 0xb90000000c0; 0x1000000003b; 0x400000200000b99; 0xba100000010;
  0xb7; 0xb70000025c; 0x40; 0x1a502000000; 0x200000000000000;
  0xb9; 0xd000001; 0xb400000000; 0x200000000000000; 0xbb;
  0x20d000002; 0x8800000000; 0xbc00000000; 0x200000000000000; 0xba6000000bd;
  0x1804000004; 0xbe00000bb2; 0xbb800000000; 0x4000000052; 0x200000865;
  0xbbc00000080; 0xa00000000a; 0x800000000000bca; 0xbf; 0xc002000000;
  0xd00000600000000; 0xa2; 0xbc; 0x97; 0x2;
  0x52; 0x51; 0xa; 0xc202000000; 0xd00000200000000;
  0xc3; 0x88; 0xbd4000000c4; 0xa08000000; 0x200000000000000;
  0xbdd000000c5; 0x1004000002; 0xc600000bef; 0xbf600000000; 0x40000000c3;
  0x800000000000bfb; 0xc7; 0xc802000000; 0xd00000300000000; 0x0;
  0x88; 0xc9; 0xc4; 0xca02000000; 0x800000000000c0b;
  0xc1d000000cb; 0x1804000002; 0x280000094a; 0xba100000000; 0x400000004f;
  0x200000000000000; 0xcd; 0x8e0d000003; 0x8800000000; 0xa00000000;
  0x5f00000000; 0x200000000000000; 0xcf; 0x20d000002; 0x8800000000;
  0xd000000000; 0x200000000000000; 0xc2d000000d1; 0xc004000013; 0xd200000000;
  0xc3c00000000; 0x80000000d4; 0xd500000c42; 0xc0; 0x100000000d8;
  0xa00000c4f; 0xc5b00000140; 0x1800000004f; 0xde00000c6a; 0xc7300000200;
  0x240000000df; 0x5f00000c7a; 0xc8300000280; 0x2c000000088; 0x3b00000c8b;
  0xc9b00000300; 0x34000000047; 0xe100000caf; 0xcb900000380; 0x3c0000000e2;
  0xe300000cc5; 0xccf00000400; 0x440000000e5; 0xe800000cd6; 0xce000000540;
  0x580000000e9; 0xeb00000cf3; 0x5c0; 0x1005000002; 0xd300000000;
  0xd0400000000; 0x60; 0x400000200000000; 0xd0f00000010; 0x5f;
  0x5f00000d18; 0x40; 0x1c602000000; 0x800000000000d1f; 0xd28000000d6;
  0x804000001; 0xd700000d28; 0xd2f00000000; 0x5f08000000; 0x500000200000000;
  0xd3b00000008; 0xd9; 0xdb00000d44; 0x0; 0xda0a000000;
  0x800000000000d4a; 0xd550000005f; 0xdc08000000; 0x400000100000000; 0xd6100000008;
  0xdd; 0x300000000000000; 0x5f00000000; 0x100000004; 0x200000000000000;
  0x1ba; 0xe002000000; 0xa00000000000000; 0x14f; 0x17b02000000;
  0x200000000000000; 0xd6d000001bb; 0xe408000000; 0x400000100000d78; 0xd8800000004;
  0x2f; 0x400000200000000; 0xd8d00000020; 0xe6; 0x5f00000d90;
  0xda0000000c0; 0x1804000003; 0x5f00000da8; 0xdba00000000; 0x40000000e7;
  0xe700000dc3; 0x80; 0xe602000000; 0x200000000000000; 0xce0000001bc;
  0x804000001; 0xea000000bf; 0x0; 0x1bd02000000; 0x200000000000000;
  0x1be; 0xed02000000; 0xd00000200000000; 0x2; 0x3c;
  0x88; 0xef02000000; 0xd00000200000000; 0x2; 0x88;
  0xdcb000000f0; 0x3b08000000; 0x200000000000000; 0xf2; 0x20d000004;
  0x8800000000; 0x5200000000; 0x5200000000; 0x200000000; 0x200000000000000;
  0xf4; 0x20d000003; 0x200000000; 0x8800000000; 0x200000000;
  0x200000000000000; 0xf6; 0x20d000003; 0x8800000000; 0x200000000;
  0xf700000000; 0x200000000000000; 0xdd6000000f8; 0xc004000006; 0xf900000de0;
  0xde200000000; 0x40000000052; 0x5200000deb; 0xdf200000440; 0x480000000fd;
  0xff00000df9; 0xe02000004c0; 0x50000000101; 0x400000c00000e07; 0xe1600000080;
  0xfa; 0x4f00000e22; 0xe2b00000040; 0xc00000007c; 0x4f00000e34;
  0xe4900000140; 0x1c00000004f; 0xf000000e5c; 0xe6600000240; 0x2800000000a;
  0x1400000e70; 0xe79000002a0; 0x2c0000000fb; 0x200000e81; 0xe8e000002e0;
  0x300000000ca; 0x8800000e97; 0x3c0; 0xf902000000; 0x800000000000ea0;
  0xea6000000fc; 0x208000000; 0x200000000000000; 0xfe; 0x1aa0a000000;
  0x200000000000000; 0x100; 0x1ab0a000000; 0x500000400000000; 0xeb500000020;
  0x102; 0x10500000ebc; 0xec400000000; 0x107; 0x10800000ec8;
  0xecd00000000; 0x2004000003; 0x5500000edb; 0x2ba00000000; 0x4000000103;
  0x4f00000ee1; 0x80; 0x10402000000; 0x700000000000ee6; 0xef400000000;
  0x804000001; 0x106000002ba; 0x0; 0x1ac02000000; 0x400000300000000;
  0xf0300000018; 0x4f; 0x200000edb; 0xf0800000080; 0xa00000000a;
  0x400000100000000; 0x44300000008; 0x3c; 0x200000000000000; 0x10a;
  0x5f0d000005; 0x8800000000; 0x5f00000000; 0x5f00000000; 0x5f00000000;
  0x5f00000000; 0x200000000000000; 0x10c; 0x20d000001; 0x200000000;
  0x200000000000000; 0x10e; 0x8b0d000005; 0x10f00000000; 0x8800000000;
  0x9400000000; 0x9100000000; 0xa00000000; 0x200000000000000; 0xf1100000110;
  0xb004000013; 0x46000002b4; 0xf2100000000; 0x100000000ca; 0xca00000f29;
  0xf31000001c0; 0x2800000000a; 0xa00000f3b; 0xf45000002a0; 0x2c00000000a;
  0xa00000f52; 0xf5a000002e0; 0x3000000000a; 0xa00000f62; 0xf6800000320;
  0x3400000000a; 0xa00000f72; 0xf7c00000360; 0x380000000a2; 0xa200000f87;
  0xf9100000388; 0x3c00000011e; 0x11f00000f9a; 0xfa900000440; 0x4800000011f;
  0x12000000fb8; 0xfbd000004c0; 0x50000000121; 0x12200000fc2; 0x540;
  0x11202000000; 0x400000500000fce; 0xd4400000040; 0x113; 0x11500000000;
  0x40; 0x1800000011d; 0x2f00000fd3; 0xfdd000001a0; 0x1c00000005f;
  0x800000000000fe8; 0x114; 0x804000001; 0x5f00000ff8; 0x0;
  0x2805000005; 0x11600000000; 0x0; 0x119; 0x11b00000000;
  0x0; 0x11c; 0x5800000389; 0x0; 0x2804000004;
  0x11700000000; 0xffa00000000; 0x800000003a; 0x11800000000; 0xa8f000000c0;
  0x1000000005f; 0x500000400000000; 0x100200000010; 0x4f; 0x4f00001006;
  0x101100000000; 0x4f; 0x5c0000101a; 0x0; 0x805000002;
  0x5f00001024; 0x103200000000; 0x5f; 0x400000500000000; 0x103800000028;
  0x5f; 0x11a00001041; 0x104400000040; 0x800000005f; 0x5f00001054;
  0x105d000000c0; 0x10000000047; 0x200000000000000; 0x1b1; 0x804000001;
  0x5f0000106a; 0x0; 0x1004000002; 0x3b00001078; 0x109400000000;
  0x400000003b; 0x500000200000000; 0x10a500000004; 0xa; 0x2f000010af;
  0x0; 0x3000000; 0x400000111; 0x2; 0x1b802000000;
  0x200000000000000; 0x1b9; 0x1b602000000; 0x200000000000000; 0x1b0;
  0x12402000000; 0xd00000500000000; 0x8b; 0x88; 0x94;
  0x10f; 0x91; 0xa; 0x12602000000; 0xd00000100000000;
  0x0; 0x88; 0x12802000000; 0xd00000400000000; 0x2;
  0x88; 0x2; 0x129; 0x12e; 0x12a02000000;
  0x200000000000000; 0x10b90000012b; 0xa004000005; 0xf900000de0; 0x10c400000000;
  0x4000000011f; 0x5f000010ce; 0x10dc00000440; 0x4800000005f; 0x12c00000df9;
  0x4c0; 0x12d02000000; 0xa00000000000000; 0x1ad; 0x3b02000000;
  0x200000000000000; 0x130; 0x8e0d000004; 0x8800000000; 0x200000000;
  0x5200000000; 0x5200000000; 0x200000000000000; 0x132; 0xd000002;
  0x13300000000; 0x8800000000; 0x200000000000000; 0x10ee00000134; 0x780400000c;
  0x8f000010f7; 0x3bb00000000; 0x4000000091; 0x91000010fb; 0x86500000080;
  0xc000000091; 0x9100001100; 0x110a00000100; 0x14000000052; 0x5200001110;
  0x94a00000180; 0x1c000000046; 0x13500001119; 0x111c000002c0; 0x30000000002;
  0x13700000153; 0xa8f00000340; 0x3800000003b; 0x200000000000000; 0x136;
  0x1c50a000000; 0x200000000000000; 0x138; 0x270a000000; 0x200000000000000;
  0x13a; 0x8b0d000006; 0x8800000000; 0x5200000000; 0x8800000000;
  0x5200000000; 0x9100000000; 0xa00000000; 0x200000000000000; 0x13c;
  0x520d000006; 0x8800000000; 0x5200000000; 0x8800000000; 0x5200000000;
  0x5200000000; 0xa00000000; 0x200000000000000; 0x13e; 0x20d000002;
  0x13f00000000; 0xa00000000; 0x200000000000000; 0x112700000140; 0x4004000006;
  0x8800000153; 0x113400000000; 0x4000000141; 0x5500001138; 0xd4400000080;
  0xa000000055; 0x1430000113f; 0x1143000000c0; 0x1c000000144; 0x200000000000000;
  0x142; 0x1a40a000000; 0x300000000000000; 0x3200000000; 0x2000000004;
  0x300000000000000; 0x3200000000; 0x800000004; 0x200000000000000; 0x146;
  0x20d000003; 0x13f00000000; 0xb400000000; 0xa00000000; 0x200000000000000;
  0x148; 0x20d000001; 0x14900000000; 0x200000000000000; 0x114a0000014a;
  0x900400000b; 0x14b00001157; 0x15300000000; 0x400000014e; 0x5f000003b5;
  0x115a00000080; 0xc00000005f; 0x5f0000115e; 0xc8300000100; 0x14000000088;
  0xdb00001164; 0x116e00000180; 0x1c0000000d5; 0xdf00000c73; 0x17500000200;
  0x2400000003b; 0x18500001178; 0x280; 0x14c0a000000; 0x200000000000000;
  0x14d; 0x1c60a000000; 0xa00000000000000; 0x117f00000088; 0x8004000010;
  0x1500000092a; 0x119400000000; 0x4000000150; 0x1520000119a; 0x11a400000080;
  0xc000000154; 0x156000011ab; 0x11b400000100; 0x14000000158; 0x16f000011ba;
  0x11c500000180; 0x1c000000171; 0x173000011cf; 0x11d800000200; 0x24000000158;
  0x158000011e5; 0x11f100000280; 0x2c000000175; 0x177000011f8; 0x11fd00000300;
  0x34000000179; 0x18000001208; 0x121300000380; 0x3c000000183; 0x200000000000000;
  0x151; 0xd000001; 0xd000000000; 0x200000000000000; 0x153;
  0x20d000002; 0xd000000000; 0x5f00000000; 0x200000000000000; 0x155;
  0x20d000001; 0xd000000000; 0x200000000000000; 0x157; 0x20d000004;
  0xd000000000; 0x5f00000000; 0x5f00000000; 0x5f00000000; 0x200000000000000;
  0x159; 0x15a0d000001; 0x15b00000000; 0x800000000001224; 0xa;
  0x15c02000000; 0x400000a0000122f; 0x70; 0x15d; 0x15f00000d44;
  0x123800000140; 0x18000000160; 0x1640000123c; 0x1c0; 0x20000000168;
  0x11100001240; 0xfce00000240; 0x28000000111; 0x16c00001249; 0x124d000002c0;
  0x3000000016d; 0x16e00001251; 0x340; 0x2804000005; 0xd00000125e;
  0x126200000000; 0x400000015e; 0x5f0000115e; 0x126b00000080; 0xc00000005f;
  0x5f00001273; 0x128000000100; 0xa08000000; 0x600000d00001286; 0x129100000004;
  0x12a200000001; 0x12b500000002; 0x12cc00000004; 0x12e400000008; 0x12f800000010;
  0x130900000020; 0x131900000040; 0x132b00000080; 0x134200000100; 0x135b00000200;
  0x136e00000400; 0x138800000800; 0x1000; 0x16102000000; 0x80000000000139c;
  0x162; 0x804000001; 0x16300001238; 0x13a200000000; 0x5f08000000;
  0x200000000000000; 0x13ab00000165; 0x16608000000; 0x400000100000000; 0x123c00000008;
  0x167; 0x8000000000013b1; 0x5f; 0x805000002; 0x169000013ba;
  0x13c300000000; 0x161; 0x8000000000013cc; 0x16a; 0x804000001;
  0x16b00001249; 0x13d200000000; 0x5f08000000; 0x200000000000000; 0x169;
  0x2802000000; 0x8000000000013db; 0x111; 0x17002000000; 0xd00000200000000;
  0x15a; 0x15b; 0xa; 0x17202000000; 0xd00000300000000;
  0x15a; 0x15b; 0x5f; 0x5f; 0x17402000000;
  0xd00000100000000; 0x5f; 0xd0; 0x17602000000; 0xd00000500000000;
  0x2; 0xd0; 0x5f; 0x3b; 0x2;
  0x2; 0x17802000000; 0xd00000100000000; 0x97; 0xd0;
  0x17a02000000; 0xd00000200000000; 0x2; 0xd0; 0x13e5000000e1;
  0x12004000007; 0x2f00000412; 0x13ef00000000; 0x2000000036; 0x3600000d44;
  0x13f400000030; 0x400000017c; 0x2000013fa; 0x140400000440; 0x4800000017f;
  0x5800001406; 0x140a00000880; 0x17d08000000; 0x400000100000000; 0x141500000080;
  0x17e; 0x300000000000000; 0x5f00000000; 0x1000000004; 0x500000200000000;
  0x141a00000080; 0x17c; 0x17c0000142e; 0x0; 0x18102000000;
  0xd00000300000000; 0xe1; 0xd0; 0x5f; 0x182;
  0x5f02000000; 0x200000000000000; 0x184; 0x1110d000002; 0xd000000000;
  0x5f00000000; 0x840000050000143c; 0x40; 0x186; 0x18800000043;
  0x144800000100; 0x14000000189; 0x10b00001455; 0x146000000180; 0x10001c0000000a2;
  0x500000100000000; 0x147e00000020; 0x187; 0x400000400000000; 0x3b500000020;
  0x5f; 0x5f00001484; 0x3bb00000040; 0x800000005f; 0xd500000d28;
  0x148e000000c0; 0x406000003; 0x149f; 0x1000014ac; 0x2000014bb;
  0x200000000000000; 0x18a; 0x20d000001; 0x18b00000000; 0x200000000000000;
  0x18c; 0xd10a000000; 0x200000000000000; 0x18e; 0xd000001;
  0x3c00000000; 0x200000000000000; 0x14cd000001a8; 0xc00400000f; 0x3c000014db;
  0x14e000000000; 0x4000000191; 0x7b000014e8; 0x1262000000c0; 0x2000000015e;
  0x2f000014f8; 0x150800000220; 0x24000000192; 0x5f0000150f; 0x1517000002c0;
  0x3000000005f; 0x19400001527; 0xd4400000340; 0x3800000005f; 0x540000152d;
  0x1534000003c0; 0x3e000000028; 0x4f00001543; 0x155200000400; 0x4800000007b;
  0x3b0000155f; 0xb3b000005c0; 0x1004000003; 0x280000156e; 0x157600000000;
  0x200000015e; 0x3b0000157f; 0x158700000040; 0x1004000002; 0x19300001596;
  0x159e00000000; 0x40000000e7; 0x400000100001596; 0xda000000008; 0xe7;
  0x200000000000000; 0x195; 0x1a90a000000; 0x500000200000000; 0x15aa00000010;
  0x4f; 0x2000015b4; 0x0; 0x805000004; 0x10f000015be;
  0x15c500000000; 0x198; 0x8f000015cc; 0x15d300000000; 0xa;
  0x200000000000000; 0x1b7; 0x1a702000000; 0x300000000000000; 0x9000000000;
  0x400000004; 0xe00000000001989; 0x10000019a; 0x200000000000000; 0x19d;
  0x19e0a000000; 0x400000800001991; 0x199700000020; 0x20; 0x20000019a1;
  0x19ab00000040; 0x8000000009; 0x9000019b0; 0x2a000000a0; 0xc000000009;
  0x3500000024; 0x19b4000000e0; 0xf000000013; 0x19f000019b9; 0xf8;
  0x3000000; 0x400000013; 0x19be00000001; 0x19c0e000000; 0x19cb00000001;
  0xf000001; 0x1a0; 0x19d000000008; 0xf000004; 0xd;
  0x1600000020; 0x2000000000; 0x1c; 0x2300000010; 0x2000000000;
  0xf000001000019d6; 0x19b00000000; 0x400000000; 0x7000000000019de; 0x19eb00000000;
  0x7000000; 0x7000000000019f3; 0x1a0100000000; 0x7000000; 0x700000000001a19;
  0x1a2b00000000; 0x7000000; 0x700000000001a44; 0x1a5900000000; 0x7000000;
  0x700000000001a71; 0x1a8100000000; 0x7000000; 0x700000000001a9a; 0x1aa600000000;
  0x7000000; 0x700000000000fc2; 0x1aab00000000; 0x7000000; 0x700000000001ab5;
  0xb2a00000000; 0x7000000; 0x700000000001ac5; 0x1acd00000000; 0x7000000;
  0x700000000001ad9; 0x1ae500000000; 0x7000000; 0x700000000001aea; 0x1af800000000;
  0x7000000; 0x700000000000c6a; 0x1b0400000000; 0x7000000; 0x700000000001b14;
  0x1b2200000000; 0x7000000; 0x700000000000cf3; 0x1b3200000000; 0x7000000;
  0x700000000001b39; 0x1b4300000000; 0x7000000; 0x70000000000029b; 0x1b5400000000;
  0x7000000; 0x700000000001b5d; 0x1b6900000000; 0x7000000; 0x700000000001b78;
  0x746e690000000000; 0x59415252415f5f00; 0x59545f455a49535f; 0x766564005f5f4550; 0x79656b5f656369;
  0x696d00726f6a616d; 0x33755f5f00726f6e; 0x6e6769736e750032; 0x7400746e69206465; 0x5f78616d00657079;
  0x73656972746e65; 0x756c61760079656b; 0x6563697665640065; 0x5f6c74636f690073; 0x646e65760079656b;
  0x726e0064695f726f; 0x6e750038755f5f00; 0x632064656e676973; 0x74636f6900726168; 0x746e65766500736c;
  0x3436755f5f0073; 0x64656e6769736e75; 0x6f6c20676e6f6c20; 0x70706f726400676e; 0x6b00787463006465;
  0x695f75706e656275; 0x6e6566006c74636f; 0x5f6d72642f797274; 0x2e2e006c74636f69; 0x2f6670622f2e2e2f;
  0x6d6d6f635f6d7264; 0x632e6670622e6e6f; 0x46504220746e6900; 0x756b28474f52505f; 0x6f695f75706e6562;
  0x727473202c6c7463; 0x656c696620746375; 0x202c706c69662a20; 0x64656e6769736e75; 0x646d6320746e6920;
  0x6e6769736e75202c; 0x20676e6f6c206465; 0x66007b2029677261; 0x6f6c5f6600656c69; 0x646f6d5f66006b63;
  0x6600706f5f660065; 0x676e697070616d5f; 0x6574617669727000; 0x5f6600617461645f; 0x5f660065646f6e69;
  0x5f66007367616c66; 0x616c665f62636f69; 0x6572635f66007367; 0x656e776f5f660064; 0x736f705f660072;
  0x6972756365735f66; 0x5f62775f66007974; 0x62735f6600727265; 0x655f66007272655f; 0x6665725f660070;
  0x6b636f6c6e697073; 0x6c6e69707300745f; 0x636f6c72006b636f; 0x70735f776172006b; 0x72006b636f6c6e69;
  0x6b636f6c5f7761; 0x6970735f68637261; 0x745f6b636f6c6e; 0x636f6c6e69707371; 0x7461006c6176006b;
  0x6300745f63696d6f; 0x6c007265746e756f; 0x65700064656b636f; 0x387500676e69646e; 0x5f64656b636f6c00;
  0x676e69646e6570; 0x363175006c696174; 0x75003631755f5f00; 0x2064656e6769736e; 0x6d660074726f6873;
  0x5f6600745f65646f; 0x665f5f0068746170; 0x617000687461705f; 0x6400746e6d006874; 0x5f66007972746e65;
  0x6b636f6c5f736f70; 0x657069705f6600; 0x776f00786574756d; 0x746961770072656e; 0x736f006b636f6c5f;
  0x6c5f746961770071; 0x6d6f746100747369; 0x5f676e6f6c5f6369; 0x63696d6f74610074; 0x34367300745f3436;
  0x6c003436735f5f00; 0x676e6f6c20676e6f; 0x6970735f77617200; 0x745f6b636f6c6e; 0x7473696d6974706f;
  0x5f6e6970735f6369; 0x696c006575657571; 0x646165685f7473; 0x657270007478656e; 0x6f6c003436750076;
  0x6b5f5f00745f6666; 0x6f6c5f6c656e7265; 0x72726500745f6666; 0x337500745f716573; 0x6b7361745f660032;
  0x5f66006b726f775f; 0x5f66007473696c6c; 0x6572665f66006172; 0x6c61630072747065; 0x65685f6b6361626c;
  0x636e7566006461; 0x6f6e5f7473696c6c; 0x5f656c6966006564; 0x65746174735f6172; 0x7300747261747300;
  0x6e79736100657a69; 0x7200657a69735f63; 0x73656761705f61; 0x6d6d00726564726f; 0x7373696d5f7061;
  0x736f705f76657270; 0x656e6769736e7500; 0x6600676e6f6c2064; 0x745f727470656572; 0x5f656c6966007600;
  0x657200745f666572; 0x353a3000746e6366; 0x3436755f5f202000; 0x203d207665647220; 0x5f663e2d706c6966;
  0x693e2d65646f6e69; 0x69003b766564725f; 0x6d5f690065646f6e; 0x706f5f690065646f; 0x5f69007367616c66;
  0x5f69007367616c66; 0x65645f69006c6361; 0x63615f746c756166; 0x6469755f69006c; 0x5f69006469675f69;
  0x62735f6900706f; 0x6e697070616d5f69; 0x756365735f690067; 0x695f690079746972; 0x6564725f69006f6e;
  0x657a69735f690076; 0x656d6974615f6900; 0x6d5f69006365735f; 0x6365735f656d6974; 0x656d6974635f6900;
  0x615f69006365735f; 0x65736e5f656d6974; 0x6d69746d5f690063; 0x69006365736e5f65; 0x6e5f656d6974635f;
  0x65675f6900636573; 0x6e6f69746172656e; 0x6b636f6c5f6900; 0x73657479625f69; 0x7469626b6c625f69;
  0x746972775f690073; 0x6900746e69685f65; 0x736b636f6c625f; 0x65746174735f69; 0x6d657377725f69;
  0x5f64656974726964; 0x726964006e656877; 0x6d69745f64656974; 0x69006e6568775f65; 0x5f6900687361685f;
  0x7473696c5f6f69; 0x775f690062775f69; 0x69775f6e72665f62; 0x775f690072656e6e; 0x76615f6e72665f62;
  0x6900656d69745f67; 0x5f6e72665f62775f; 0x79726f74736968; 0x5f690075726c5f69; 0x7473696c5f6273;
  0x73696c5f62775f69; 0x737265765f690074; 0x65735f69006e6f69; 0x690065636e657571; 0x6900746e756f635f;
  0x756f635f6f69645f; 0x6972775f6900746e; 0x746e756f636574; 0x6f63646165725f69; 0x6c665f6900746e75;
  0x61645f6900787463; 0x6e73665f69006174; 0x616d5f796669746f; 0x6e73665f69006b73; 0x616d5f796669746f;
  0x72705f6900736b72; 0x6d75006574617669; 0x756b00745f65646f; 0x64697500745f6469; 0x72656b5f5f00745f;
  0x336469755f6c656e; 0x6469676b00745f32; 0x745f64696700745f; 0x656e72656b5f5f00; 0x5f32336469675f6c;
  0x6e696c6e5f690074; 0x6c6e5f695f5f006b; 0x5f766564006b6e69; 0x6e72656b5f5f0074; 0x745f7665645f6c65;
  0x5f3436656d697400; 0x6e69685f77720074; 0x5f45544952570074; 0x544f4e5f4546494c; 0x495257005445535f;
  0x5f4546494c5f4554; 0x49525700454e4f4e; 0x5f4546494c5f4554; 0x52570054524f4853; 0x4546494c5f455449;
  0x4d554944454d5f; 0x494c5f4554495257; 0x474e4f4c5f4546; 0x494c5f4554495257; 0x45525458455f4546;
  0x455449525700454d; 0x49485f4546494c5f; 0x6c6200524e5f544e; 0x6900745f746e636b; 0x6174735f65646f6e;
  0x7367616c665f6574; 0x65746174735f5f00; 0x735f65646f6e6900; 0x616c665f65746174; 0x6d756e655f7367;
  0x5f490057454e5f49; 0x4c5f4900434e5953; 0x414c4f53495f5552; 0x445f4900474e4954; 0x4e59535f59545249;
  0x545249445f490043; 0x5953415441445f59; 0x5249445f4900434e; 0x53454741505f5954; 0x5f4c4c49575f4900;
  0x465f490045455246; 0x4900474e49454552; 0x49005241454c435f; 0x4e4552454645525f; 0x494c5f4900444543;
  0x4900454c42414b4e; 0x545f59545249445f; 0x42575f4900454d49; 0x4843544957535f; 0x4e495f4c564f5f49;
  0x52435f4900455355; 0x4900474e49544145; 0x434143544e4f445f; 0x4e59535f49004548; 0x4445554555515f43;
  0x494e4e49505f4900; 0x534654454e5f474e; 0x735f77720042575f; 0x65726f6870616d65; 0x6800746e756f6300;
  0x646f6e5f7473696c; 0x76657270700065; 0x7972746e65645f69; 0x68007563725f6900; 0x6165685f7473696c;
  0x74737269660064; 0x726600706f665f69; 0x65646f6e695f6565; 0x706f5f656c696600; 0x736e6f6974617265;
  0x616c665f706f6600; 0x6565736c6c007367; 0x770064616572006b; 0x6165720065746972; 0x7700726574695f64;
  0x6574695f65746972; 0x6c6c6f706f690072; 0x6574617265746900; 0x6465726168735f; 0x6c6e75006c6c6f70;
  0x6f695f64656b636f; 0x706d6f63006c7463; 0x6c74636f695f7461; 0x706f0070616d6d00; 0x6873756c66006e65;
  0x657361656c657200; 0x6600636e79736600; 0x6f6c00636e797361; 0x755f746567006b63; 0x5f64657070616d6e;
  0x6568630061657261; 0x7367616c665f6b63; 0x73006b636f6c6600; 0x72775f6563696c70; 0x696c707300657469;
  0x646165725f6563; 0x655f6563696c7073; 0x656c74657300666f; 0x6c6c616600657361; 0x687300657461636f;
  0x666e6964665f776f; 0x665f79706f63006f; 0x676e61725f656c69; 0x5f70616d65720065; 0x6e61725f656c6966;
  0x6976646166006567; 0x676e697275006573; 0x69727500646d635f; 0x695f646d635f676e; 0x6d6d006c6c6f706f;
  0x61706572705f7061; 0x665f706f66006572; 0x7300745f7367616c; 0x5f00745f657a6973; 0x5f6c656e72656b5f;
  0x745f657a697373; 0x6c656e72656b5f5f; 0x745f676e6f6c5f; 0x61686300676e6f6c; 0x745f657a69730072;
  0x656e72656b5f5f00; 0x745f657a69735f6c; 0x656e72656b5f5f00; 0x5f676e6f6c755f6c; 0x62636f696b0074;
  0x706c69665f696b; 0x6b00736f705f696b; 0x656c706d6f635f69; 0x6176697270006574; 0x6c665f696b006574;
  0x695f696b00736761; 0x696b006f6972706f; 0x735f65746972775f; 0x696b006d61657274; 0x690071746961775f;
  0x726574695f766f; 0x7079745f72657469; 0x6c7561666f6e0065; 0x735f617461640074; 0x6f6900656372756f;
  0x74657366666f5f76; 0x425f006c6f6f6200; 0x62755f5f006c6f6f; 0x6365766f695f6675; 0x69006365766f6900;
  0x657361625f766f; 0x6e656c5f766f69; 0x766b00766f695f5f; 0x63657662006365; 0x7800716f696c6f66;
  0x6275007961727261; 0x65735f726e006675; 0x6f696c6f66007367; 0x7800746f6c735f71; 0x74735f7961727261;
  0x635f6f6900747261; 0x637461625f706d6f; 0x696c5f7165720068; 0x5f6465656e007473; 0x6c706d6f63007374;
  0x6c6c6f7000657465; 0x5f7172007874635f; 0x616568007473696c; 0x6f635f7269640064; 0x636100747865746e;
  0x736f7000726f74; 0x7367616c665f7464; 0x6966006b73616d5f; 0x745f7269646c6c; 0x745f6c6c6f705f5f;
  0x61745f6c6c6f7000; 0x757274735f656c62; 0x6f7270715f007463; 0x700079656b5f0063; 0x756575715f6c6c6f;
  0x7700636f72705f65; 0x756575715f746961; 0x745f646165685f65; 0x75715f7469617700; 0x646165685f657565;
  0x616572615f6d7600; 0x7463757274735f; 0x6d76006d6d5f6d76; 0x72705f656761705f; 0x6f6c5f6d7600746f;
  0x61007165735f6b63; 0x5f616d765f6e6f6e; 0x6e61006e69616863; 0x7600616d765f6e6f; 0x6d760073706f5f6d;
  0x760066666f67705f; 0x7600656c69665f6d; 0x7461766972705f6d; 0x7300617461645f65; 0x646165725f706177;
  0x6e695f6461656861; 0x6f705f6d76006f66; 0x6d756e007963696c; 0x65746174735f6261; 0x636665725f6d7600;
  0x657261687300746e; 0x6e5f6e6f6e610064; 0x755f6d7600656d61; 0x746c756166726573; 0x70007874635f6466;
  0x72745f70616d6e66; 0x7874635f6b6361; 0x70656572665f6d76; 0x74735f6d76007274; 0x655f6d7600747261;
  0x6f7270677000646e; 0x7270677000745f74; 0x6f7270677000746f; 0x7600745f6c617674; 0x7367616c665f6d;
  0x6d76007367616c66; 0x745f7367616c665f; 0x616c665f616d7600; 0x765f5f00745f7367; 0x7367616c665f616d;
  0x6e756f6366657200; 0x6366657200745f74; 0x7274735f746e756f; 0x7366657200746375; 0x735f627200627200;
  0x6c5f656572746275; 0x6e5f627200747361; 0x62725f5f0065646f; 0x5f746e657261705f; 0x627200726f6c6f63;
  0x720074686769725f; 0x66007466656c5f62; 0x5f72656e776f5f6c; 0x6c5f656c69660074; 0x6c660063006b636f;
  0x660074726174735f; 0x6c6600646e655f6c; 0x5f6c660073706f5f; 0x6c660073706f6d6c; 0x5f656c696600755f;
  0x726f635f6b636f6c; 0x6c625f636c660065; 0x6c660072656b636f; 0x66007473696c5f63; 0x6b6e696c5f636c;
  0x636f6c625f636c66; 0x757165725f64656b; 0x636c660073747365; 0x64656b636f6c625f; 0x7265626d656d5f;
  0x656e776f5f636c66; 0x6c665f636c660072; 0x5f636c6600736761; 0x636c660065707974; 0x636c66006469705f;
  0x70635f6b6e696c5f; 0x61775f636c660075; 0x665f636c66007469; 0x5f64697000656c69; 0x6e72656b5f5f0074;
  0x745f6469705f6c65; 0x6c665f73666e00; 0x6c665f3473666e; 0x6870656300736661; 0x636f6c5f73666e00;
  0x73006f666e695f6b; 0x73696c0065746174; 0x6f6c5f6d6c6e0074; 0x72656e776f6b63; 0x636f6c5f3473666e;
  0x6c006f666e695f6b; 0x75626564006b6e69; 0x7069700064695f67; 0x5f65646f6e695f65; 0x5f6472006f666e69;
  0x5f72770074696177; 0x78616d0074696177; 0x720065676173755f; 0x657a69735f676e69; 0x6f6363615f726e00;
  0x6572006465746e75; 0x7277007372656461; 0x6966007372657469; 0x6f635f720073656c; 0x5f77007265746e75;
  0x7265746e756f63; 0x6173755f6c6c6f70; 0x5f65746f6e006567; 0x706d740073736f6c; 0x616600656761705f;
  0x6165725f636e7973; 0x7361660073726564; 0x746972775f636e79; 0x7366756200737265; 0x6177007265737500;
  0x756575715f686374; 0x5f00656761700065; 0x746e756f63666572; 0x645f67636d656d00; 0x646d656d00617461;
  0x67616c665f637365; 0x616d006600745f73; 0x726c00676e697070; 0x5f79646475620075; 0x706370007473696c;
  0x6370007473696c5f; 0x7473696c6c5f70; 0x5f6f696c6f665f5f; 0x6873007865646e69; 0x6d5f707000657261;
  0x70700063696761; 0x7070616d5f70705f; 0x6461705f676e69; 0x726464615f616d64; 0x5f6665725f707000;
  0x6f6300746e756f63; 0x685f646e756f706d; 0x756e755f00646165; 0x616d67705f646573; 0x756f706d6f635f70;
  0x646165685f646e; 0x7665645f656e6f7a; 0x617461645f656369; 0x79745f6567617000; 0x6370616d5f006570;
  0x6c696600746e756f; 0x657361656c5f65; 0x6e797361665f6c66; 0x6572625f6c660063; 0x656d69745f6b61;
  0x676e776f645f6c66; 0x6d69745f65646172; 0x69665f7165730065; 0x660066756200656c; 0x5f646170006d6f72;
  0x6e69006c69746e75; 0x6461657200786564; 0x706f00736f705f; 0x6576655f6c6c6f70; 0x72755f6f6900746e;
  0x646d635f676e69; 0x5f646d6300657173; 0x750075647000706f; 0x6d7600646573756e; 0x65645f616572615f;
  0x6e65006d6d006373; 0x66666f67700064; 0x67616c665f616d76; 0x705f656761700073; 0x6974636100746f72;
  0x706f5f6d76006e6f; 0x736e6f6974617265; 0x7463757274735f; 0x616d0065736f6c63; 0x74696c70735f79;
  0x6d0070616d65726d; 0x746365746f7270; 0x756800746c756166; 0x746c7561665f6567; 0x6761705f70616d00;
  0x7365676170007365; 0x6567617000657a69; 0x65746972776b6d5f; 0x776b6d5f6e667000; 0x6363610065746972;
  0x656d616e00737365; 0x6c6f705f74657300; 0x5f74656700796369; 0x66007963696c6f70; 0x6d726f6e5f646e69;
  0x656761705f6c61; 0x746c7561665f6d76; 0x61665f6d7600745f; 0x646d7000746c75; 0x5f776f6300647570;
  0x6574700065676170; 0x657270006c747000; 0x74705f636f6c6c61; 0x666700616d760065; 0x61006b73616d5f70;
  0x7200737365726464; 0x726464615f6c6165; 0x5f70666700737365; 0x5f746c7561660074; 0x5541460067616c66;
  0x5f47414c465f544c; 0x4146004554495257; 0x47414c465f544c55; 0x45544952574b4d5f; 0x465f544c55414600;
  0x4f4c4c415f47414c; 0x59525445525f57; 0x4c465f544c554146; 0x59525445525f4741; 0x544941574f4e5f;
  0x4c465f544c554146; 0x414c4c494b5f4741; 0x4c55414600454c42; 0x545f47414c465f54; 0x5541460044454952;
  0x5f47414c465f544c; 0x5541460052455355; 0x5f47414c465f544c; 0x460045544f4d4552; 0x414c465f544c5541;
  0x555254534e495f47; 0x4146004e4f495443; 0x47414c465f544c55; 0x55525245544e495f; 0x4600454c42495450;
  0x414c465f544c5541; 0x524148534e555f47; 0x5f544c5541460045; 0x49524f5f47414c46; 0x41565f4554505f47;
  0x4c5541460044494c; 0x565f47414c465f54; 0x4b434f4c5f414d; 0x6d7000745f646d70; 0x7000745f6c617664;
  0x64757000745f6475; 0x726f00745f6c6176; 0x6f006574705f6769; 0x646d705f676972; 0x747000745f657470;
  0x7000745f6c617665; 0x745f656c62617467; 0x696c6f706d656d00; 0x65646f6d007963; 0x6f68007365646f6e;
  0x65646f6e5f656d; 0x6f6e007563720077; 0x745f6b73616d6564; 0x7063007374696200; 0x6d656d5f74657375;
  0x65776f6c6c615f73; 0x6e5f726573750064; 0x6b73616d65646f; 0x7463615f70616d6d; 0x63637573006e6f69;
  0x6b6f6f685f737365; 0x685f726f72726500; 0x65646968006b6f6f; 0x6d725f6d6f72665f; 0x6c69746e755f7061;
  0x74656c706d6f635f; 0x70616d65720065; 0x66705f7472617473; 0x615f70616d6d006e; 0x79745f6e6f697463;
  0x5f50414d4d006570; 0x474e4948544f4e; 0x4d45525f50414d4d; 0x4d004e46505f5041; 0x525f4f495f50414d;
  0x4e46505f50414d45; 0x7373657264646100; 0x680065636170735f; 0x61705f690074736f; 0x61766e6900736567;
  0x6c5f65746164696c; 0x6d6d5f69006b636f; 0x61746972775f7061; 0x6d6d5f6900656c62; 0x676170726e007061;
  0x6574697277007365; 0x646e695f6b636162; 0x73706f5f61007865; 0x7272655f627700; 0x7461766972705f69;
  0x69006b636f6c5f65; 0x657461766972705f; 0x5f69007473696c5f; 0x7377725f70616d6d; 0x6972705f69006d65;
  0x7461645f65746176; 0x636f6c5f61780061; 0x616c665f6178006b; 0x65685f6178007367; 0x6f725f6272006461;
  0x65686361635f746f; 0x6f6f725f62720064; 0x66656c5f62720074; 0x5f690074736f6d74; 0x73656369766564;
  0x656c6b6e696c5f69; 0x657069705f69006e; 0x766564635f6900; 0x69006b6e696c5f69; 0x7165735f7269645f;
  0x20200033313a3000; 0x696d203233755f5f; 0x6472203d20726f6e; 0x4678302026207665; 0x2020003b46464646;
  0x6420746375727473; 0x656b5f6563697665; 0x3d2079656b642079; 0x726f6a616d2e7b20; 0x726f6a616d203d20;
  0x726f6e696d2e202c; 0x726f6e696d203d20; 0x755f5f2020003b7d; 0x726f6a616d203233; 0x2076656472203d20;
  0x20003b3032203e3e; 0x2a203233755f5f20; 0x5f73656369766564; 0x62203d2061746164; 0x6c5f70616d5f6670;
  0x6c655f70756b6f6f; 0x6976656426286d65; 0x6b6426202c736563; 0x692020003b297965; 0x6976656421282066;
  0x617461645f736563; 0x74732020007b2029; 0x636f692074637572; 0x692079656b5f6c74; 0x2e7b203d2079656b;
  0x695f726f646e6576; 0x7665642a203d2064; 0x7461645f73656369; 0x3d20726e2e202c61; 0x2020003b7d726e20;
  0x726e203233755f5f; 0x2620646d63203d20; 0x20003b4646783020; 0x692a2038755f5f20; 0x61645f736c74636f;
  0x667062203d206174; 0x6f6f6c5f70616d5f; 0x6d656c655f70756b; 0x736c74636f692628; 0x2979656b6926202c;
  0x282066692020003b; 0x5f736c74636f6921; 0x7b202961746164; 0x7463757274732020; 0x202a746e65766520;
  0x6576655f6c6c6f70; 0x667062203d20746e; 0x667562676e69725f; 0x657672657365725f; 0x73746e6576652628;
  0x666f657a6973202c; 0x2074637572747328; 0x202c29746e657665; 0x66692020003b2930; 0x5f6c6c6f70212820;
  0x7b2029746e657665; 0x755f5f2020202000; 0x206f72657a203233; 0x202020003b30203d; 0x2a203436755f5f20;
  0x62203d2074736f6c; 0x6c5f70616d5f6670; 0x6c655f70756b6f6f; 0x706f726426286d65; 0x657a26202c646570;
  0x202020003b296f72; 0x736f6c2820666920; 0x202020007b202974; 0x74736f6c2a202020; 0x20003b31203d2b20;
  0x76655f6c6c6f7020; 0x6d69743e2d746e65; 0x3d20706d61747365; 0x69746b5f66706220; 0x745f7465675f656d;
  0x3b2928736e5f6961; 0x5f6c6c6f70202000; 0x633e2d746e657665; 0x64695f70756f7267; 0x675f667062203d20;
  0x65727275635f7465; 0x756f7267635f746e; 0x3b292864695f70; 0x655f6c6c6f702020; 0x67743e2d746e6576;
  0x667062203d206469; 0x7275635f7465675f; 0x6469705f746e6572; 0x202928646967745f; 0x20003b3233203e3e;
  0x76655f6c6c6f7020; 0x6a616d3e2d746e65; 0x6a616d203d20726f; 0x6f702020003b726f; 0x746e6576655f6c6c;
  0x20726f6e696d3e2d; 0x3b726f6e696d203d; 0x5f6c6c6f70202000; 0x633e2d746e657665; 0x646d63203d20646d;
  0x6c6c6f702020003b; 0x3e2d746e6576655f; 0x2a203d20646e696b; 0x645f736c74636f69; 0x702020003b617461;
  0x6e6576655f6c6c6f; 0x5b6461705f3e2d74; 0x3b30203d205d30; 0x69725f6670622020; 0x75735f667562676e;
  0x6c6f702874696d62; 0x2c746e6576655f6c; 0x43494c003b293020; 0x6576650045534e45; 0x73656d697400746e;
  0x72676300706d6174; 0x740064695f70756f; 0x646d6300646967; 0x61705f00646e696b; 0x646573756e750064;
  0x2e00746e6576655f; 0x70616d2e00737362; 0x736e6563696c0073; 0x6972755f6f690065; 0x72006571735f676e;
  0x6200747365757165; 0x65746972775f6964; 0x6e7366006b636162; 0x616d5f796669746f; 0x656e6e6f635f6b72;
  0x6c696600726f7463; 0x635f6b636f6c5f65; 0x6100747865746e6f; 0x735f737365726464; 0x65706f5f65636170;
  0x736e6f69746172; 0x636f6c5f656c6966; 0x74617265706f5f6b; 0x636f6c00736e6f69; 0x6567616e616d5f6b;
  0x74617265706f5f72; 0x73666e00736e6f69; 0x735f6b636f6c5f34; 0x61656c0065746174; 0x67616e616d5f6573;
  0x617265706f5f7265; 0x6f6600736e6f6974; 0x63757274735f6e77; 0x7000646572630074; 0x6c6f6f705f656761;
  0x61705f7469617700; 0x65756575715f6567; 0x6365765f6f696200; 0x715f6f696c6f6600; 0x6573750065756575;
  0x7463757274735f72; 0x6166007665646300; 0x7274735f636e7973; 0x6570697000746375; 0x7265666675625f;
  0x616d756e5f616d76; 0x65746174735f62; 0x616d765f6e6f6e61; 0x737500656d616e5f; 0x66746c7561667265;
  0x6f6d007874635f64; 0x736f7000656c7564; 0x69006c63615f7869; 0x65706f5f65646f6e; 0x736e6f69746172;
  0x746e756f6d736676; 0x625f726570757300; 0x716573006b636f6c; 0x6974617265706f5f; 0x735f6d6d00736e6f;
  0x7463757274; 0x200001eb9f; 0x1400000000; 0x26c00000014; 0x2c00000280;
  0xd100000008; 0x1; 0x1000000026; 0x26000000d1; 0xe200000000;
  0xb805000000fd; 0xe200000008; 0xbc160000041d; 0xe200000010; 0xbc1f0000041d;
  0xe200000018; 0xb805000000fd; 0xe200000020; 0xc016000015e2; 0xe200000030;
  0xcc1c00001602; 0xe200000038; 0xc4160000163f; 0xe200000040; 0xcc1c00001602;
  0xe200000058; 0xd4190000165b; 0xe200000070; 0xd80700001699; 0xe200000078;
  0xf029000016b0; 0xe200000080; 0xe812000016f2; 0xe200000090; 0xf01b000016b0;
  0xe2000000b0; 0xf4170000170b; 0xe2000000d0; 0xf80700001746; 0xe2000000e0;
  0x1081e0000175c; 0xe200000110; 0x10c07000017b0; 0xe200000118; 0x1100b000017c5;
  0xe200000138; 0x11413000017d9; 0xe200000150; 0x1180900001811; 0xe200000158;
  0x11c0d00001821; 0xe200000160; 0x11c0d00001821; 0xe200000168; 0x11c0d00001821;
  0xe200000178; 0x1301b00001833; 0xe200000180; 0x1301900001833; 0xe200000188;
  0x1341b00001865; 0xe200000190; 0x1341900001865; 0xe200000198; 0x138160000189c;
  0xe2000001a0; 0x14415000018d3; 0xe2000001a8; 0x14015000018f0; 0xe2000001b0;
  0x13c130000190d; 0xe2000001c0; 0x138310000189c; 0xe2000001c8; 0x138140000189c;
  0xe2000001d0; 0x1481600001926; 0xe2000001d8; 0x1481400001926; 0xe2000001e0;
  0x14c1700001949; 0xe2000001f0; 0x1500300001964; 0xe200000208; 0xb805000000fd;
  0xd100000010; 0x800000002; 0x41900000027; 0x1000000000; 0x15dd00000064;
  0x0; 0x0; 0x0; 0x0; 0x3000300000000;
  0x0; 0x0; 0x3001200000042; 0x0; 0x218;
  0x700110000003a; 0x0; 0x20; 0x7001100000033; 0x20;
  0x20; 0x7001100000021; 0x40; 0x10; 0x700110000007b;
  0x50; 0x20; 0x500110000009c; 0x0; 0x4;
  0x6001100000014; 0x0; 0x8; 0x58; 0x300000001;
  0xb0; 0x400000001; 0xe0; 0x500000001; 0x138;
  0x600000001; 0x2fb4; 0x800000004; 0x2fcc; 0x300000004;
  0x2fd8; 0x400000004; 0x2fe4; 0x500000004; 0x2ff0;
  0x600000004; 0x3008; 0x700000004; 0x2c; 0x100000004;
  0x40; 0x100000004; 0x50; 0x100000004; 0x60;
  0x100000004; 0x70; 0x100000004; 0x80; 0x100000004;
  0x90; 0x100000004; 0xa0; 0x100000004; 0xb0;
  0x100000004; 0xc0; 0x100000004; 0xd0; 0x100000004;
  0xe0; 0x100000004; 0xf0; 0x100000004; 0x100;
  0x100000004; 0x110; 0x100000004; 0x120; 0x100000004;
  0x130; 0x100000004; 0x140; 0x100000004; 0x150;
  0x100000004; 0x160; 0x100000004; 0x170; 0x100000004;
  0x180; 0x100000004; 0x190; 0x100000004; 0x1a0;
  0x100000004; 0x1b0; 0x100000004; 0x1c0; 0x100000004;
  0x1d0; 0x100000004; 0x1e0; 0x100000004; 0x1f0;
  0x100000004; 0x200; 0x100000004; 0x210; 0x100000004;
  0x220; 0x100000004; 0x230; 0x100000004; 0x240;
  0x100000004; 0x250; 0x100000004; 0x260; 0x100000004;
  0x270; 0x100000004; 0x280; 0x100000004; 0x290;
  0x100000004; 0x2ac; 0x100000004; 0x2bc; 0x100000004;
  0x2e00100f0e0d110c; 0x65722e0074786574; 0x78652e4654422e6c; 0x646573756e750074; 0x6500746e6576655f;
  0x622e0073746e6576; 0x7370616d2e007373; 0x736c74636f6900; 0x73656369766564; 0x5f75706e6562756b;
  0x722e006c74636f69; 0x7972746e65666c65; 0x636f695f6d72642f; 0x6d766c6c2e006c74; 0x676973726464615f;
  0x65736e6563696c00; 0x646570706f726400; 0x6261747274732e00; 0x6261746d79732e00; 0x54422e6c65722e00;
  0x534e4543494c0046; 0x45; 0x0; 0x0; 0x0;
  0x0; 0x0; 0x0; 0x0; 0x0;
  0x300000083; 0x0; 0x0; 0x56e6; 0xa4;
  0x0; 0x1; 0x0; 0x100000001; 0x6;
  0x0; 0x40; 0x0; 0x0; 0x4;
  0x0; 0x100000054; 0x6; 0x0; 0x40;
  0x218; 0x0; 0x8; 0x0; 0x900000050;
  0x40; 0x0; 0x53b0; 0x40; 0x30000000d;
  0x8; 0x10; 0x100000073; 0x3; 0x0;
  0x258; 0x4; 0x0; 0x1; 0x0;
  0x800000028; 0x3; 0x0; 0x260; 0x8;
  0x0; 0x8; 0x0; 0x10000002d; 0x3;
  0x0; 0x260; 0x70; 0x0; 0x8;
  0x0; 0x100000097; 0x0; 0x0; 0x2d0;
  0x4d36; 0x0; 0x4; 0x0; 0x900000093;
  0x40; 0x0; 0x53f0; 0x60; 0x80000000d;
  0x8; 0x10; 0x10000000b; 0x0; 0x0;
  0x5008; 0x2cc; 0x0; 0x4; 0x0;
  0x900000007; 0x40; 0x0; 0x5450; 0x290;
  0xa0000000d; 0x8; 0x10; 0x6fff4c0300000065; 0x80000000;
  0x0; 0x56e0; 0x6; 0x0; 0x1;
  0x0; 0x20000008b; 0x0; 0x0; 0x52d8;
  0xd8; 0x200000001; 0x8; 0x18].

Definition _BpfBytes : bytes := bpf_x86_bpfel_o ≫= le_bytes 8.
