(* ===== verification/ObjectFile.v ===== *)
(** * The embedded object file and the code generated around it

    [pkg/loader/bpf_x86_bpfel.go] embeds the compiled program, hands its bytes
    to the eBPF library and declares, by struct tags, which of its maps and
    programs the loader wants. Here the bytes are read as what they are — an
    ELF file with a BTF section, by the published formats — and compared with
    the sources: the map definitions, the layout of every struct both know, the
    relocations, and the names in the generated tags. The instructions are
    decoded by [Bytecode]; what they do is the subject of [ObjectCode]. *)

From S2P Require Import Prelude.
From S2P Require Import GoStrings.
From S2P Require Import CLayout.
From S2P Require Import Vmlinux.
From S2P Require Import VmlinuxBpf.
From S2P Require Import VmlinuxNet.
From S2P Require Import VmlinuxTask.
From S2P Require Import VmlinuxDrm.
From S2P Require Import VmlinuxFs.
From S2P Require Import BpfMacros.
From S2P Require Import BpfProgram.
From S2P Require Import Bytecode.
From S2P Require Import ObjectBytes.

Local Open Scope Z_scope.

(** ** Reading bytes *)

Definition u (n : Z) (b : bytes) (o : Z) : Z := le_value (peek b o n).

Fixpoint until_nul (b : bytes) : string :=
  match b with
  | [] => ""
  | Byte.x00 :: _ => ""
  | c :: b => String (Ascii.ascii_of_byte c) (until_nul b)
  end.

Definition cstring (b : bytes) (o : Z) : string := until_nul (drop (Z.to_nat o) b).

(** [n] records of [size] bytes from offset [o]. *)
Definition table {A} (f : bytes → A) (size : Z) (n : Z) (o : Z) (b : bytes) : list A :=
  (λ i, f (peek b (o + size * Z.of_nat i) size)) <$> seq 0 (Z.to_nat n).

(** ** ELF *)

Record section : Type := Section_ {
  sh_name : string;
  sh_type : Z;
  sh_link : Z;
  sh_data : bytes;       (** empty for a section that occupies no space *)
}.

Definition SHT_SYMTAB : Z := 2.
Definition SHT_NOBITS : Z := 8.
Definition SHT_REL : Z := 9.

(** A relocatable little-endian 64-bit file for the eBPF machine. *)
Definition elf_header_ok (b : bytes) : bool :=
  bool_decide (peek b 0 4 = [Byte.x7f; Byte.x45; Byte.x4c; Byte.x46]) &&
  bool_decide (u 1 b 4 = 2) && bool_decide (u 1 b 5 = 1) &&
  bool_decide (u 2 b 16 = 1) && bool_decide (u 2 b 18 = 247).

Definition raw_sections (b : bytes) : list section :=
  table (λ h, Section_ "" (u 4 h 4) (u 4 h 40)
                (if bool_decide (u 4 h 4 = SHT_NOBITS) then [] else peek b (u 8 h 24) (u 8 h 32)))
    64 (u 2 b 60) (u 8 b 40) b.

Definition section_names (b : bytes) : list string :=
  let strtab := from_option sh_data [] (raw_sections b !! Z.to_nat (u 2 b 62)) in
  table (λ h, cstring strtab (u 4 h 0)) 64 (u 2 b 60) (u 8 b 40) b.

Definition sections (b : bytes) : list section :=
  zip_with (λ name s, Section_ name (sh_type s) (sh_link s) (sh_data s))
    (section_names b) (raw_sections b).

Definition find_section (ss : list section) (name : string) : option bytes :=
  sh_data <$> find (λ s, String.eqb (sh_name s) name) ss.

(** A symbol: its name, the section it is in, its place and size there. *)
Record symbol : Type := Symbol {
  sym_name : string; sym_section : string; sym_value : Z; sym_size : Z }.

Definition symbols (ss : list section) : list symbol :=
  match find (λ s, bool_decide (sh_type s = SHT_SYMTAB)) ss with
  | None => []
  | Some symtab =>
      let strtab := from_option sh_data [] (ss !! Z.to_nat (sh_link symtab)) in
      table (λ e, Symbol (cstring strtab (u 4 e 0))
                    (from_option sh_name "" (ss !! Z.to_nat (u 2 e 6))) (u 8 e 8) (u 8 e 16))
        24 (Z.of_nat (length (sh_data symtab)) / 24) 0 (sh_data symtab)
  end.

(** The relocations of a section: the offset and the symbol of each. *)
Definition relocations (ss : list section) (name : string) : list (Z * string) :=
  match find (λ s, String.eqb (sh_name s) (".rel" ++ name)%string) ss with
  | None => []
  | Some rel =>
      table (λ e, (u 8 e 0, from_option sym_name "" (symbols ss !! Z.to_nat (u 4 e 12))))
        16 (Z.of_nat (length (sh_data rel)) / 16) 0 (sh_data rel)
  end.

(** ** BTF: the types the compiler recorded *)

Inductive btf_type : Type :=
  | BtfInt (name : string) (size : Z)
  | BtfPtr (to : Z)
  | BtfArray (elem : Z) (n : Z)
  | BtfStruct (union : bool) (name : string) (size : Z) (ms : list (string * Z * Z * Z))
      (** members: name, type, first bit, width in bits if it is a bit-field *)
  | BtfEnum (name : string) (size : Z)
  | BtfFwd (name : string)
  | BtfAlias (name : string) (to : Z)       (** a typedef, [const], ... *)
  | BtfFunc (name : string) (proto : Z)
  | BtfProto
  | BtfVar (name : string) (t : Z)
  | BtfDatasec (name : string) (vars : list Z).

(** One type of the type section, and the bytes after it. *)
Definition btf_entry (strs b : bytes) : option (btf_type * bytes) :=
  let name := cstring strs (u 4 b 0) in
  let info := u 4 b 4 in
  let size := u 4 b 8 in
  let vlen := Z.land info 0xffff in
  let kflag := Z.testbit info 31 in
  let body := drop 12 b in
  let after n := drop (Z.to_nat n) body in
  match Z.land (Z.shiftr info 24) 31 with
  | 1 => Some (BtfInt name size, after 4)
  | 2 => Some (BtfPtr size, body)
  | 3 => Some (BtfArray (u 4 body 0) (u 4 body 8), after 12)
  | (4 | 5) as k =>
      Some (BtfStruct (bool_decide (k = 5)) name size
              (table (λ e, (cstring strs (u 4 e 0), u 4 e 4,
                            if kflag then Z.land (u 4 e 8) 0xffffff else u 4 e 8,
                            if kflag then Z.shiftr (u 4 e 8) 24 else 0)) 12 vlen 0 body),
            after (12 * vlen))
  | 6 => Some (BtfEnum name size, after (8 * vlen))
  | 7 => Some (BtfFwd name, body)
  | 8 | 9 | 10 | 11 => Some (BtfAlias name size, body)
  | 12 => Some (BtfFunc name size, body)
  | 13 => Some (BtfProto, after (8 * vlen))
  | 14 => Some (BtfVar name size, after 4)
  | 15 => Some (BtfDatasec name (table (λ e, u 4 e 0) 12 vlen 0 body), after (12 * vlen))
  | _ => None
  end.

Fixpoint btf_entries (fuel : nat) (strs b : bytes) : option (list btf_type) :=
  match fuel, b with
  | _, [] => Some []
  | O, _ => None
  | S fuel, _ => '(t, b) ← btf_entry strs b; ts ← btf_entries fuel strs b; Some (t :: ts)
  end.

Definition btf_strings (b : bytes) : bytes := drop (Z.to_nat (u 4 b 4 + u 4 b 16)) b.

(** Every type takes at least twelve bytes. *)
Definition btf_types (b : bytes) : option (list btf_type) :=
  if bool_decide (u 2 b 0 = 0xeb9f) then
    let ts := peek b (u 4 b 4 + u 4 b 8) (u 4 b 12) in
    btf_entries (length ts) (btf_strings b) ts
  else None.

(** Type ids count from 1; 0 is [void]. *)
Definition btf (ts : list btf_type) (id : Z) : option btf_type :=
  if bool_decide (0 < id) then ts !! Z.to_nat (id - 1) else None.

(** The CO-RE relocations of [.BTF.ext]: the instruction slot, the struct and
    the index of the member it accesses. *)
Definition digit (c : ascii) : Z := Z.of_N (Ascii.N_of_ascii c) - 48.

(** The member index of an access string ["0:<index>"]. *)
Definition access_index (s : string) : option Z :=
  match s with
  | String "0" (String ":" (String a "")) => Some (digit a)
  | String "0" (String ":" (String a (String b ""))) => Some (10 * digit a + digit b)
  | _ => None
  end.

Definition core_relo (strs : bytes) (ts : list btf_type) (e : bytes) :
    option (nat * string * string) :=
  match btf ts (u 4 e 4), access_index (cstring strs (u 4 e 8)), u 4 e 12 with
  | Some (BtfStruct _ name _ ms), Some i, 0 =>      (* the byte offset of a field *)
      '(f, _, _, _) ← ms !! Z.to_nat i; Some (Z.to_nat (u 4 e 0 / 8), name, f)
  | _, _, _ => None
  end.

Definition core_relos (strs : bytes) (ts : list btf_type) (ext : bytes) :
    option (list (nat * string * string)) :=
  let o := u 4 ext 4 + u 4 ext 24 in
  mapM (core_relo strs ts) (table id (u 4 ext o) (u 4 ext (o + 8)) (o + 12) ext).

(** ** Agreement with the sources *)

Fixpoint members_list (ms : members) : list ctype :=
  match ms with MNil => [] | MCons _ t ms => t :: members_list ms end.

(** What a declaration says of each member: name, first bit, and the width of a
    bit-field. *)
Definition declared_members (t : ctype) : list (string * Z * Z) :=
  match t with
  | CStruct ms =>
      (λ '(f, t, p, w), (f, p, if is_bits t then w else 0)) <$> layout_bits 0 ms
  | CUnion ms =>
      (λ '(f, t, _, _), (f, 0, match t with CBits _ w => w | _ => 0 end)) <$> layout_bits 0 ms
  | _ => []
  end.

(** The compiler's type [id] is the declared type [t]: the same kind and size,
    and for a struct or union the same members at the same bits, each of the
    declared type, to any depth. Pointers end the comparison. *)
Fixpoint agrees (fuel : nat) (ts : list btf_type) (id : Z) (t : ctype) : bool :=
  match fuel with
  | O => false
  | S fuel =>
      match btf ts id, t with
      | Some (BtfAlias _ to), _ => agrees fuel ts to t
      | Some (BtfInt _ size), (CInt n | CBits n _) => bool_decide (size = n)
      | Some (BtfInt _ size), CBool => bool_decide (size = 1)
      | Some (BtfEnum _ size), (CInt n | CBits n _) => bool_decide (size = n)
      | Some (BtfPtr _), CPtr _ => true
      | Some (BtfArray elem n), CArr e m => bool_decide (n = Z.of_nat m) && agrees fuel ts elem e
      | Some (BtfStruct union _ size ms), (CStruct ds | CUnion ds) =>
          bool_decide (union = match t with CUnion _ => true | _ => false end) &&
          bool_decide (size = sizeof t) &&
          bool_decide (((λ '(f, _, p, w), (f, p, w)) <$> ms) = declared_members t) &&
          forallb (λ '((_, i, _, _), d), agrees fuel ts i d) (zip ms (members_list ds))
      | _, _ => false
      end
  end.

(** The struct with a tag. *)
Fixpoint find_id (p : btf_type → bool) (i : Z) (ts : list btf_type) : option Z :=
  match ts with
  | [] => None
  | t :: ts => if p t then Some i else find_id p (i + 1) ts
  end.

Definition struct_id (ts : list btf_type) (tag : string) : option Z :=
  find_id (λ t, match t with BtfStruct false n _ _ => String.eqb n tag | _ => false end) 1 ts.

Definition struct_agrees (ts : list btf_type) (d : string * ctype) : bool :=
  match struct_id ts d.1 with Some id => agrees 20 ts id d.2 | None => false end.

(** A member of a map definition: its type is the one the macro spells out. *)
Definition decl_agrees (ts : list btf_type) (id : Z) (d : decl) : bool :=
  match btf ts id with
  | Some (BtfPtr to) =>
      match d with
      | PtrTo t => agrees 20 ts to t
      | PtrToArray e n =>
          match btf ts to with
          | Some (BtfArray elem m) => bool_decide (n = m) && agrees 20 ts elem e
          | _ => false
          end
      | PtrsTo _ => false
      end
  | _ => false
  end.

(** A map definition: the variable of its name has a struct type with exactly
    the declared members, in order. *)
Definition map_agrees (ts : list btf_type) (d : string * map_def) : bool :=
  match find (λ t, match t with BtfVar n _ => String.eqb n d.1 | _ => false end) ts with
  | Some (BtfVar _ id) =>
      match btf ts id with
      | Some (BtfStruct false _ _ ms) =>
          bool_decide (((λ '(f, _, _, _), f) <$> ms) = (map_members d.2).*1) &&
          forallb (λ '((_, i, _, _), (_, t)), decl_agrees ts i t) (zip ms (map_members d.2))
      | _ => false
      end
  | _ => false
  end.

Definition source_maps : list (string * map_def) :=
  [("devices", devices); ("ioctls", ioctls); ("events", events); ("dropped", dropped)].

(** The structs of the sources that the compiler recorded: those of [common.h],
    and those of [vmlinux.h] it met on the way to [i_rdev]. *)
Definition source_structs : list (string * ctype) := [
  ("device_key", struct_device_key); ("ioctl_key", struct_ioctl_key); ("event", struct_event);
  ("file", struct_file); ("inode", struct_inode);
  ("spinlock", struct_spinlock); ("raw_spinlock", struct_raw_spinlock);
  ("qspinlock", struct_qspinlock); ("path", struct_path); ("mutex", struct_mutex);
  ("optimistic_spin_queue", struct_optimistic_spin_queue); ("list_head", struct_list_head);
  ("callback_head", struct_callback_head); ("llist_node", struct_llist_node);
  ("file_ra_state", struct_file_ra_state); ("inode_state_flags", struct_inode_state_flags);
  ("rw_semaphore", struct_rw_semaphore); ("hlist_node", struct_hlist_node);
  ("hlist_head", struct_hlist_head); ("file_operations", struct_file_operations);
  ("kiocb", struct_kiocb); ("iov_iter", struct_iov_iter); ("iovec", struct_iovec);
  ("io_comp_batch", struct_io_comp_batch); ("rq_list", struct_rq_list);
  ("dir_context", struct_dir_context); ("poll_table_struct", struct_poll_table_struct);
  ("wait_queue_head", struct_wait_queue_head); ("vm_area_struct", struct_vm_area_struct);
  ("pgprot", struct_pgprot); ("refcount_struct", struct_refcount_struct);
  ("rb_node", struct_rb_node); ("vm_userfaultfd_ctx", struct_vm_userfaultfd_ctx);
  ("file_lock", struct_file_lock); ("file_lock_core", struct_file_lock_core);
  ("nfs_lock_info", struct_nfs_lock_info); ("nfs4_lock_info", struct_nfs4_lock_info);
  ("pipe_inode_info", struct_pipe_inode_info); ("page", struct_page);
  ("file_lease", struct_file_lease); ("seq_file", struct_seq_file);
  ("io_uring_cmd", struct_io_uring_cmd); ("vm_area_desc", struct_vm_area_desc);
  ("vm_operations_struct", struct_vm_operations_struct); ("vm_fault", struct_vm_fault);
  ("mempolicy", struct_mempolicy); ("mmap_action", struct_mmap_action);
  ("address_space", struct_address_space); ("xarray", struct_xarray);
  ("rb_root_cached", struct_rb_root_cached); ("rb_root", struct_rb_root)].

(** ** What the file holds *)

Record program : Type := Program {
  pr_section : string;                          (** what it attaches to *)
  pr_code : list insn;
  pr_core : list (nat * string * string);       (** CO-RE relocations *)
}.

(** The slots of a section, relocated against the symbols of the maps. *)
Definition section_code (ss : list section) (name : string) : option (list insn) :=
  data ← find_section ss name;
  decode (λ i, snd <$> find (λ '(o, _), bool_decide (o = 8 * Z.of_nat i)) (relocations ss name))
    data.

Definition find_symbol (ss : list section) (name : string) : option symbol :=
  find (λ s, String.eqb (sym_name s) name) (symbols ss).

(** The program of a name: the whole of its section. *)
Definition find_program (b : bytes) (name : string) : option program :=
  let ss := sections b in
  sym ← find_symbol ss name;
  code ← section_code ss (sym_section sym);
  types ← find_section ss ".BTF";
  ext ← find_section ss ".BTF.ext";
  ts ← btf_types types;
  core ← core_relos (btf_strings types) ts ext;
  if bool_decide (sym_value sym = 0) && bool_decide (sym_size sym = 8 * Z.of_nat (length code))
  then Some (Program (sym_section sym) code core) else None.

Definition object_types (b : bytes) : list btf_type :=
  default [] (find_section (sections b) ".BTF" ≫= btf_types).

(** The symbols of a section. *)
Definition section_symbols (b : bytes) (name : string) : list string :=
  sym_name <$> filter (λ s, sym_section s = name ∧ sym_name s ≠ "") (symbols (sections b)).

(** ** The generated code *)

(** The names of the objects in the file. *)
Definition bpfMapDevices : string := "devices".
Definition bpfMapDropped : string := "dropped".
Definition bpfMapEvents : string := "events".
Definition bpfMapIoctls : string := "ioctls".
Definition bpfProgKubenpuIoctl : string := "kubenpu_ioctl".
Definition bpfVarUnusedEvent : string := "unused_event".

(** The members of the structs that are filled by name: field and tag. *)
Definition bpfProgramSpecs : list (string * string) := [("KubenpuIoctl", "kubenpu_ioctl")].
Definition bpfMapSpecs : list (string * string) :=
  [("Devices", "devices"); ("Dropped", "dropped"); ("Events", "events"); ("Ioctls", "ioctls")].
Definition bpfVariableSpecs : list (string * string) := [("UnusedEvent", "unused_event")].

Definition bpfSpecs : list (string * string) := bpfProgramSpecs ++ bpfMapSpecs ++ bpfVariableSpecs.

Definition bpfMaps : list (string * string) :=
  [("Devices", "devices"); ("Dropped", "dropped"); ("Events", "events"); ("Ioctls", "ioctls")].
Definition bpfVariables : list (string * string) := [("UnusedEvent", "unused_event")].
Definition bpfPrograms : list (string * string) := [("KubenpuIoctl", "kubenpu_ioctl")].

Definition bpfObjects : list (string * string) := bpfPrograms ++ bpfMaps ++ bpfVariables.

Section Loading.

Context {Spec Objects Options : Type}.

(** The library: parse an object file; create in the kernel what the tags ask
    for. *)
Variable LoadCollectionSpecFromReader : bytes → res Spec.
Variable LoadAndAssign : Spec → list (string * string) → Options → res Objects.

Definition loadBpf : res Spec :=
  wrap_err "can't load bpf: %w" (LoadCollectionSpecFromReader _BpfBytes).

Definition loadBpfObjects (obj : list (string * string)) (opts : Options) : res Objects :=
  spec ← loadBpf; LoadAndAssign spec obj opts.

End Loading.

(** ** Properties *)

(** The named structs among the recorded types. *)
Definition recorded_structs (ts : list btf_type) : list string :=
  omap (λ t, match t with
             | BtfStruct false name _ _ => if String.eqb name "" then None else Some name
             | _ => None
             end) ts.

(** Everything the generated code names, by the section the object is in. *)
Definition object_names (b : bytes) : list (string * list string) :=
  (λ s, (s, section_symbols b s)) <$> ["fentry/drm_ioctl"; ".maps"; ".bss"; "license"].

Lemma struct_agrees_all :
  forallb (struct_agrees (object_types _BpfBytes)) source_structs = true ∧
  forallb (map_agrees (object_types _BpfBytes)) source_maps = true ∧
  forallb (λ n, bool_decide (n ∈ source_structs.*1)) (recorded_structs (object_types _BpfBytes)) = true.
Proof. by vm_compute. Qed.

(** C16: The embedded object file is the compiled form of these sources: it is a
    little-endian eBPF ELF file; its four maps have the types, capacities, keys
    and values of the definitions in [drm_common.bpf.c]; every struct the
    compiler recorded is declared by [common.h] or [vmlinux.h] with exactly the
    layout this development gives the declaration, to any depth; the two loads
    it may relocate are those of [f_inode] and [i_rdev]; the licence is the
    declared one; and
    the tags of the generated Go structs name its program, maps and variable,
    each once; the variable has the size of its type. *)
Theorem object_matches_sources :
  let ts := object_types _BpfBytes in
  elf_header_ok _BpfBytes = true ∧
  Forall (λ d, map_agrees ts d = true) source_maps ∧
  Forall (λ d, struct_agrees ts d = true) source_structs ∧
  Forall (λ n, n ∈ source_structs.*1) (recorded_structs ts) ∧
  pr_core <$> find_program _BpfBytes bpfProgKubenpuIoctl =
    Some [(1%nat, "file", "f_inode"); (2%nat, "inode", "i_rdev")] ∧
  cstring (default [] (find_section (sections _BpfBytes) "license")) 0 = LICENSE ∧
  object_names _BpfBytes =
    [("fentry/drm_ioctl", [bpfProgKubenpuIoctl]);
     (".maps", [bpfMapDevices; bpfMapIoctls; bpfMapEvents; bpfMapDropped]);
     (".bss", [bpfVarUnusedEvent]); ("license", ["LICENSE"])] ∧
  bpfObjects = bpfSpecs ∧ NoDup bpfObjects.*2 ∧
  bpfPrograms.*2 = [bpfProgKubenpuIoctl] ∧
  bpfMaps.*2 ≡ₚ [bpfMapDevices; bpfMapIoctls; bpfMapEvents; bpfMapDropped] ∧
  bpfVariables.*2 = [bpfVarUnusedEvent] ∧
  (sym_section <$> find_symbol (sections _BpfBytes) unused_event.1,
   sym_size <$> find_symbol (sections _BpfBytes) unused_event.1) =
    (Some ".bss", Some (sizeof unused_event.2)).
Proof.
  destruct struct_agrees_all as (Hs & Hm & Hn). cbn zeta. split_and!.
  - by vm_compute.
  - apply List.Forall_forall, List.forallb_forall. exact Hm.
  - apply List.Forall_forall, List.forallb_forall. exact Hs.
  - rewrite List.forallb_forall in Hn. apply List.Forall_forall. intros n Hin.
    by apply (bool_decide_unpack _), Is_true_true_2, Hn.
  - by vm_compute.
  - by vm_compute.
  - by vm_compute.
  - done.
  - by_decide.
  - done.
  - by_decide.
  - done.
  - by vm_compute.
Qed.
