(* ===== verification/ObjectCode.v ===== *)
(** * The compiled program does what its source says

    The instructions in the embedded object file, as [ObjectFile] decodes them,
    run on the machine of [Bytecode]: for every state of the maps and every call
    the run ends, without an access outside of what it may touch, in the state
    and with the result of [BpfProgram.kubenpu_ioctl]. So what the other files
    prove of the C program holds of what the agent loads. *)

From S2P Require Import Prelude.
From S2P Require Import GoStrings.
From S2P Require Import CLayout.
From S2P Require Import BpfHelpers.
From S2P Require Import Kernel.
From S2P Require Import BpfProgram.
From S2P Require Import Bytecode.
From S2P Require Import ObjectBytes.
From S2P Require Import ObjectFile.

Local Open Scope Z_scope.

(** ** Loading *)

(** The library patches the offset of each relocated load with the one of the
    running kernel; the size has to be the one the program was compiled for. *)
Definition relocate_one (relo : string → string → option (Z * Z)) (r : nat * string * string)
    (code : list insn) : option (list insn) :=
  let '(i, s, f) := r in
  '(o, n) ← relo s f;
  match code !! i with
  | Some (Ldx size d src _) =>
      if bool_decide (n = size) then Some (<[i := Ldx size d src o]> code) else None
  | _ => None
  end.

Fixpoint relocate (relo : string → string → option (Z * Z)) (rs : list (nat * string * string))
    (code : list insn) : option (list insn) :=
  match rs with
  | [] => Some code
  | r :: rs => code ← relocate_one relo r code; relocate relo rs code
  end.

(** The instructions, with the offsets of [f_inode] and [i_rdev] open. *)
Definition ioctl_code (f_inode i_rdev : Z) : list insn := [
  (* filp->f_inode->i_rdev; minor and major *)
  Ldx 8 2 1 0; Ldx 8 2 2 f_inode; Ldx 4 9 2 i_rdev; Ldx 8 7 1 8;
  Alu64 Mov 8 (Reg 9); Alu64 And 8 (Imm 0xFFFFF); Stx 4 10 8 (-4);
  Alu64 Rsh 9 (Imm 20); Stx 4 10 9 (-8);
  (* bpf_map_lookup_elem(&devices, &dkey) *)
  Alu64 Mov 2 (Reg 10); Alu64 Add 2 (Imm (-8)); LdMap 1 "devices"; LdPad; Call 1;
  Jeq 0 (Imm 0) 50;
  (* bpf_map_lookup_elem(&ioctls, &ikey) *)
  Ldx 4 1 0 0; Alu64 Mov 2 (Reg 7); Alu64 And 2 (Imm 0xFF); Stx 4 10 2 (-12);
  Stx 4 10 1 (-16); Alu64 Mov 2 (Reg 10); Alu64 Add 2 (Imm (-16)); LdMap 1 "ioctls"; LdPad;
  Call 1; Alu64 Mov 6 (Reg 0); Jeq 6 (Imm 0) 38;
  (* bpf_ringbuf_reserve(&events, 32, 0) *)
  Stx 8 10 7 (-32); LdMap 1 "events"; LdPad; Alu64 Mov 2 (Imm 32); Alu64 Mov 3 (Imm 0);
  Call 131; Alu64 Mov 7 (Reg 0); Jne 7 (Imm 0) 12;
  (* *lost += 1 *)
  Alu64 Mov 1 (Imm 0); Stx 4 10 1 (-20); Alu64 Mov 2 (Reg 10); Alu64 Add 2 (Imm (-20));
  LdMap 1 "dropped"; LdPad; Call 1; Jeq 0 (Imm 0) 22;
  Ldx 8 1 0 0; Alu64 Add 1 (Imm 1); Stx 8 0 1 0; Ja 18;
  (* the record *)
  Call 208; Stx 8 7 0 0; Call 80; Stx 8 7 0 8; Call 14; Stx 2 7 9 28; Stx 4 7 8 24;
  Ldx 8 1 10 (-32); Stx 4 7 1 20; Alu64 Rsh 0 (Imm 32); Stx 4 7 0 16;
  Ldx 1 1 6 0; Stx 1 7 1 30; Alu64 Mov 1 (Imm 0); Stx 1 7 1 31;
  Alu64 Mov 1 (Reg 7); Alu64 Mov 2 (Imm 0); Call 132;
  (* return 0 *)
  Alu64 Mov 0 (Imm 0); Exit].

(** As compiled, the offsets are those of [bpf/vmlinux.h]. *)
Lemma object_program :
  find_program _BpfBytes bpfProgKubenpuIoctl =
  Some (Program "fentry/drm_ioctl" (ioctl_code 32 76)
          [(1%nat, "file", "f_inode"); (2%nat, "inode", "i_rdev")]).
Proof. vm_compute. reflexivity. Qed.

Lemma relocate_code relo f_inode i_rdev :
  relo "file" "f_inode" = Some (f_inode, 8) → relo "inode" "i_rdev" = Some (i_rdev, 4) →
  relocate relo [(1%nat, "file", "f_inode"); (2%nat, "inode", "i_rdev")] (ioctl_code 32 76) =
  Some (ioctl_code f_inode i_rdev).
Proof. intros E1 E2. unfold relocate, relocate_one. rewrite E1. cbn. by rewrite E2. Qed.

(** ** The stack and the record *)

Lemma poke_comm buf o1 bs1 o2 bs2 :
  0 ≤ o1 → o1 + Z.of_nat (length bs1) ≤ o2 →
  o2 + Z.of_nat (length bs2) ≤ Z.of_nat (length buf) →
  poke (poke buf o2 bs2) o1 bs1 = poke (poke buf o1 bs1) o2 bs2.
Proof.
  intros H1 H12 H2. apply list_eq. intros i.
  rewrite !lookup_poke by (rewrite ?length_poke; lia). repeat case_decide; try done; lia.
Qed.

Lemma peek_app buf o n m :
  0 ≤ o → 0 ≤ n → 0 ≤ m → peek buf o (n + m) = peek buf o n ++ peek buf (o + n) m.
Proof.
  intros. unfold peek. rewrite !Z2Nat.inj_add, <- drop_drop by done.
  by rewrite take_take_drop.
Qed.

Lemma peek_pair buf o o' a b :
  o' = o + 4 → 0 ≤ o → o + 8 ≤ Z.of_nat (length buf) → length a = 4%nat → length b = 4%nat →
  peek (poke (poke buf o' b) o a) o 8 = a ++ b.
Proof.
  intros -> Ho Hl Ha Hb. change 8 with (4 + 4). rewrite peek_app by lia. f_equal.
  - change 4 with (Z.of_nat 4). rewrite <- Ha. apply peek_poke_eq; rewrite ?length_poke; lia.
  - rewrite peek_poke_ne by (rewrite ?length_poke; lia).
    change 4 with (Z.of_nat 4). rewrite <- Hb at 3. apply peek_poke_eq; lia.
Qed.

Lemma peek_all buf n : Z.of_nat (length buf) = n → peek buf 0 n = buf.
Proof. intros <-. unfold peek. cbn. rewrite Nat2Z.id. by apply take_ge. Qed.

(** The length of an object after stores inside of it. *)
Ltac poke_len :=
  rewrite ?length_le_bytes; first [lia|rewrite length_poke by poke_len; poke_len].

Lemma spilled o z buf :
  0 ≤ o → o + 8 ≤ Z.of_nat (length buf) →
  le_value (peek (poke buf o (le_bytes 8 z)) o 8) = wrap 64 z.
Proof.
  intros. change 64 with (8 * Z.of_nat 8). rewrite <- le_value_bytes. f_equal.
  apply (peek_poke_eq buf o (le_bytes 8 z)); rewrite ?length_le_bytes; lia.
Qed.

(** Narrowing in two steps, before or after a shift. *)
Lemma wrap_wrap_le w w' z : 0 ≤ w ≤ w' → wrap w (wrap w' z) = wrap w z.
Proof.
  intros [??]. unfold wrap. replace w' with (w + (w' - w)) by lia.
  rewrite Z.pow_add_r, Z.rem_mul_r by lia.
  rewrite Z.add_mod, (Z.mul_comm (2 ^ w)), Z_mod_mult by (apply Z.pow_nonzero; lia).
  by rewrite Z.add_0_r, !Z.mod_mod by (apply Z.pow_nonzero; lia).
Qed.

Lemma le_bytes_8 z : le_bytes 8 (wrap 64 z) = le_bytes 8 z.
Proof. apply (le_bytes_wrap 8). Qed.

Lemma le_bytes_4 w z : 32 ≤ w → le_bytes 4 (wrap w z) = le_bytes 4 z.
Proof.
  intros. rewrite <- (le_bytes_wrap 4 (wrap w z)), <- (le_bytes_wrap 4 z).
  change (8 * Z.of_nat 4) with 32. by rewrite wrap_wrap_le by lia.
Qed.

Lemma le_bytes_4_shiftr z : le_bytes 4 (rsh64 (wrap 64 z) 32) = le_bytes 4 (Z.shiftr z 32).
Proof.
  rewrite <- (le_bytes_wrap 4), <- (le_bytes_wrap 4 (Z.shiftr z 32)).
  change (8 * Z.of_nat 4) with 32. unfold rsh64, wrap. change (Z.land 32 63) with 32.
  f_equal. rewrite <- !Z.land_ones by lia. apply Z.bits_inj'. intros i Hi.
  rewrite !Z.land_spec, !Z.shiftr_spec, Z.land_spec by lia.
  rewrite !Z.testbit_ones_nonneg by lia.
  destruct (Z.ltb_spec i 32); [|by rewrite !andb_false_r].
  by rewrite (proj2 (Z.ltb_lt _ _)), !andb_true_r by lia.
Qed.

(** The assignments of the compiled program, in its order, make the record of
    the source. *)
Lemma record_pokes x cmd minor major kind buf :
  length buf = 32%nat →
  poke (poke (poke (poke (poke (poke (poke (poke buf 0 (le_bytes 8 (ktime_tai_ns x)))
    8 (le_bytes 8 (current_cgroup_id x))) 28 (le_bytes 2 major)) 24 (le_bytes 4 minor))
    20 (le_bytes 4 cmd)) 16 (le_bytes 4 (Z.shiftr (current_pid_tgid x) 32)))
    30 (le_bytes 1 kind)) 31 (le_bytes 1 0) =
  fill_event x cmd minor major kind buf.
Proof.
  intros Hl.
  repeat match goal with
  | |- context [poke (poke ?b ?o2 ?bs2) ?o1 ?bs1] =>
      lazymatch eval vm_compute in (o1 <? o2) with true =>
        rewrite (poke_comm b o1 bs1 o2 bs2) by poke_len end
  end.
  reflexivity.
Qed.

(** ** Executing the code *)

Section Steps.

Context {H R P : Type} `{!BpfHash H, !BpfRingbuf R, !BpfPercpu P}.
Variable kernel_bytes : Z → Z → bytes.
Variable x : exec_ctx.
Variable ctx : list Z.

Lemma run_step fuel code (m : machine H R P) i m' :
  code !! m_pc m = Some i → i ≠ Exit → exec kernel_bytes x ctx i m = Some m' →
  run kernel_bytes x ctx (S fuel) code m = run kernel_bytes x ctx fuel code m'.
Proof. intros E Hi Ee. cbn [run]. rewrite E. destruct i; try done; by rewrite Ee. Qed.

Lemma exec_call n name (m : machine H R P) m' :
  helper_name n = Some name → call_helper x name m = Some m' →
  exec kernel_bytes x ctx (Call n) m = Some m'.
Proof. intros E ?. cbn [exec]. by rewrite E. Qed.

Lemma run_exit fuel code (m : machine H R P) r0 :
  code !! m_pc m = Some Exit → reg m 0 = Some (VInt r0) → m_record m = None →
  run kernel_bytes x ctx (S fuel) code m = Exited (m_maps m, r0).
Proof. intros E E0 Er. cbn [run]. by rewrite E, E0, Er. Qed.

End Steps.

(** Execute one instruction symbolically; [facts] rewrites what memory and the
    helpers return. *)
Ltac machine_eval :=
  lazy -[add64 and64 rsh64 address peek poke le_value le_bytes wrap hash_lookup
         ring_reserve ring_submit pcpu_lookup pcpu_store ktime_tai_ns current_cgroup_id
         current_pid_tgid cpu make_device_key make_ioctl_key].

Ltac step_with facts :=
  erewrite run_step;
    [|reflexivity|discriminate
     |first [eapply exec_call; [vm_compute; reflexivity|]|idtac];
      machine_eval; facts; reflexivity].

Ltac step := step_with idtac.

Ltac open_state s :=
  destruct s as [dm im ev dr]; cbn [st_devices st_ioctls st_events st_dropped] in *.

Ltac exit_run := erewrite run_exit; [|reflexivity|reflexivity|reflexivity].

Section Run.

Context {H R P : Type} `{!BpfHash H, !BpfRingbuf R, !BpfPercpu P, !BpfRingbufOk R}.
Variable kernel_bytes : Z → Z → bytes.
Variable f_inode i_rdev : Z.
Variable x : exec_ctx.
Variable filp cmd arg : Z.
Variable post : list Z.
Variable stack : bytes.
Hypothesis stack_length : length stack = 512%nat.

Abbreviation machine := (machine H R P).
Abbreviation ctx := (filp :: cmd :: arg :: post).
Abbreviation run := (run kernel_bytes x ctx).
Abbreviation code := (ioctl_code f_inode i_rdev).

(** The device number, as the second load leaves it in r9. *)
Abbreviation loaded_rdev := (le_value (kernel_bytes
  (address (le_value (kernel_bytes (address filp f_inode) 8)) i_rdev) 4)).

(** A pair of 32-bit numbers on the stack. *)
Definition pair_at (o : Z) (a b : Z) (stk : bytes) : bytes :=
  poke (poke stk (o + 4) (le_bytes 4 b)) o (le_bytes 4 a).

Lemma pair_on_stack o a b stk :
  length stk = 512%nat → 0 ≤ o → o + 8 ≤ 512 →
  peek (pair_at o a b stk) o 8 = le_bytes 4 a ++ le_bytes 4 b.
Proof. intros. apply peek_pair; rewrite ?length_le_bytes; try done; lia. Qed.

Lemma length_pair_at o a b stk :
  length stk = 512%nat → 0 ≤ o → o + 8 ≤ 512 → length (pair_at o a b stk) = 512%nat.
Proof. intros. unfold pair_at. poke_len. Qed.

(** The machine at the test of the first lookup: the key is on the stack, the
    numbers are in r8 and r9, the argument in r7. *)
Definition at_device (minor major : Z) (stk : bytes) (r0 : val) (s : bpf_state H R P) : machine :=
  Machine 14 [Some r0; None; None; None; None; None; None; Some (VInt cmd); Some (VInt minor);
              Some (VInt major); Some (VStack 0)] stk None s.

Lemma run_to_device n minor major dkey s :
  minor = and64 loaded_rdev 0xFFFFF → major = rsh64 loaded_rdev 20 →
  dkey = make_device_key major minor →
  run (13 + n) code (enter stack s) =
  run n code (at_device minor major (pair_at 504 major minor stack)
    (match hash_lookup (st_devices s) dkey with
     | Some _ => VElem "devices" dkey 0
     | None => VInt 0
     end) s).
Proof.
  intros Emin Emaj Ek. rewrite make_device_key_bytes in Ek. cbn [Nat.add].
  do 3 step. rewrite <- (pair_on_stack 504 _ _ stack) in Ek by (done || lia).
  unfold pair_at in *. change (504 + 4) with 508 in *. do 9 step.
  rewrite <- Emin, <- Emaj. step_with ltac:(rewrite <- Ek). done.
Qed.

Lemma run_no_device n minor major stk s :
  run (3 + n) code (at_device minor major stk (VInt 0) s) = Exited (s, 0).
Proof. cbn [Nat.add]. do 2 step. by exit_run. Qed.

(** At the assignment of the second lookup's result to r6. *)
Definition at_ioctl (minor major : Z) (stk : bytes) (r0 : val) (s : bpf_state H R P) : machine :=
  Machine 25 [Some r0; None; None; None; None; None; None; Some (VInt cmd); Some (VInt minor);
              Some (VInt major); Some (VStack 0)] stk None s.

Lemma run_to_ioctl n minor major dkey v nr ikey stk s :
  length stk = 512%nat →
  hash_lookup (st_devices s) dkey = Some v → length v = 4%nat →
  nr = and64 cmd 0xFF → ikey = make_ioctl_key (le_value v) nr →
  run (10 + n) code (at_device minor major stk (VElem "devices" dkey 0) s) =
  run n code (at_ioctl minor major (pair_at 496 (le_value v) nr stk)
    (match hash_lookup (st_ioctls s) ikey with
     | Some _ => VElem "ioctls" ikey 0
     | None => VInt 0
     end) s).
Proof.
  open_state s. intros Hstk Ev Hv Enr Ek. rewrite make_ioctl_key_bytes in Ek.
  rewrite <- (pair_on_stack 496 _ _ stk) in Ek by (done || lia).
  unfold pair_at in *. change (496 + 4) with 500 in *.
  assert (Hp : peek v 0 4 = v) by (apply peek_all; lia).
  cbn [Nat.add]. step. step_with ltac:(rewrite Ev, Hp). do 2 step. rewrite <- Enr. do 5 step.
  step_with ltac:(rewrite <- Ek). done.
Qed.

Lemma run_no_ioctl n minor major stk s :
  run (4 + n) code (at_ioctl minor major stk (VInt 0) s) = Exited (s, 0).
Proof. cbn [Nat.add]. do 3 step. by exit_run. Qed.

(** At the assignment of the reservation's result to r7. *)
Definition at_reserve (minor major : Z) (ikey stk : bytes) (r0 : val) (record : option bytes)
    (s : bpf_state H R P) : machine :=
  Machine 33 [Some r0; None; None; None; None; None; Some (VElem "ioctls" ikey 0);
              Some (VInt cmd); Some (VInt minor); Some (VInt major); Some (VStack 0)]
    stk record s.

Lemma run_to_reserve n minor major ikey stk s :
  run (7 + n) code (at_ioctl minor major stk (VElem "ioctls" ikey 0) s) =
  run n code
    match ring_reserve (st_events s) (sizeof struct_event) with
    | None => at_reserve minor major ikey (poke stk 480 (le_bytes 8 cmd)) (VInt 0) None s
    | Some (record, events) =>
        at_reserve minor major ikey (poke stk 480 (le_bytes 8 cmd)) (VRecord 0) (Some record)
          (BpfState (st_devices s) (st_ioctls s) events (st_dropped s))
    end.
Proof.
  open_state s. rewrite struct_event_size. cbn [Nat.add]. do 6 step.
  destruct (ring_reserve ev 32) as [[record events]|] eqn:Er;
    step_with ltac:(rewrite Er); done.
Qed.

(** No room: the counter of this CPU. *)
Lemma run_full n minor major ikey stk s :
  length stk = 512%nat →
  run (17 + n) code (at_reserve minor major ikey stk (VInt 0) None s) =
  Exited (count_drop x s, 0).
Proof.
  open_state s. intros Hstk. unfold count_drop. cbn [st_devices st_ioctls st_events st_dropped].
  assert (Hk : le_value (peek (poke stk 492 (le_bytes 4 0)) 492 4) = 0).
  { apply (f_equal le_value (peek_poke_eq stk 492 (le_bytes 4 0) ltac:(lia)
      ltac:(rewrite length_le_bytes; lia))). }
  cbn [Nat.add]. do 7 step.
  destruct (pcpu_lookup dr (cpu x) 0) as [lost|] eqn:El.
  - step_with ltac:(rewrite Hk, El). step. step_with ltac:(rewrite El). do 4 step. exit_run.
    reflexivity.
  - step_with ltac:(rewrite Hk, El). do 2 step. by exit_run.
Qed.

(** Room: the record is filled and submitted. *)
Lemma run_submit n minor major ikey w stk record s :
  le_value (peek stk 480 8) = wrap 64 cmd → length record = 32%nat →
  hash_lookup (st_ioctls s) ikey = Some w → length w = 1%nat →
  run (22 + n) code (at_reserve minor major ikey stk (VRecord 0) (Some record) s) =
  Exited (BpfState (st_devices s) (st_ioctls s)
            (ring_submit (st_events s) (fill_event x cmd minor major (le_value w) record))
            (st_dropped s), 0).
Proof.
  open_state s. intros Hcmd Hr Ew Hw.
  assert (Hp : peek w 0 1 = w) by (apply peek_all; lia).
  rewrite <- record_pokes by done.
  rewrite <- (le_bytes_8 (ktime_tai_ns x)), <- (le_bytes_8 (current_cgroup_id x)).
  rewrite <- (le_bytes_4 64 cmd), <- Hcmd, <- le_bytes_4_shiftr by lia.
  cbn [Nat.add]. do 13 step. step_with ltac:(rewrite Ew, Hp). do 7 step.
  exit_run. reflexivity.
Qed.

Variable relo : string → string → option (Z * Z).
Hypothesis kernel_bytes_length : ∀ a n, 0 ≤ n → Z.of_nat (length (kernel_bytes a n)) = n.
Hypothesis relo_inode : relo "file" "f_inode" = Some (f_inode, 8).
Hypothesis relo_rdev : relo "inode" "i_rdev" = Some (i_rdev, 4).

Lemma loaded_rdev_eq : loaded_rdev = rdev_of kernel_bytes relo filp.
Proof. unfold rdev_of, core_read. by rewrite relo_inode, relo_rdev. Qed.

Lemma and64_mod z n m : m = Z.ones n → 0 ≤ n ≤ 64 → and64 z m = z `mod` 2 ^ n.
Proof.
  intros -> Hn. unfold and64. rewrite wrap_id; [apply Z.land_ones; lia|].
  rewrite Z.ones_equiv. pose proof (Z.pow_pos_nonneg 2 n ltac:(lia) ltac:(lia)).
  pose proof (Z.pow_le_mono_r 2 n 64 ltac:(lia) ltac:(lia)). unfold in_width. lia.
Qed.

Lemma run_ioctl n devs tbl s :
  holds_devices (st_devices s) devs → holds_ioctls (st_ioctls s) tbl →
  run (52 + n) code (enter stack s) =
  Exited (kubenpu_ioctl kernel_bytes relo x filp (wrap 32 cmd) (wrap 64 arg) s).
Proof.
  intros Hd Hi.
  rewrite (kubenpu_ioctl_tracked kernel_bytes relo kernel_bytes_length devs tbl)
    with (off := i_rdev) by done.
  destruct Hd as [Hdw Hd], Hi as [Hiw Hi].
  set (rdev := rdev_of kernel_bytes relo filp).
  destruct (rdev_split rdev) as (_ & _ & Hmin & Hmaj); [by eapply rdev_of_width|].
  assert (Emin : and64 loaded_rdev 0xFFFFF = rdev `mod` 2 ^ 20).
  { rewrite loaded_rdev_eq. by apply and64_mod. }
  assert (Emaj : rsh64 loaded_rdev 20 = rdev `div` 2 ^ 20).
  { rewrite loaded_rdev_eq. apply Z.shiftr_div_pow2. lia. }
  assert (Enr : and64 cmd 0xFF = wrap 32 cmd `mod` 2 ^ 8).
  { rewrite (and64_mod _ 8) by done. symmetry. by apply (wrap_wrap_le 8 32). }
  assert (Hnr : 0 ≤ wrap 32 cmd `mod` 2 ^ 8 < 2 ^ 8) by (by apply Z.mod_pos_bound).
  change (52 + n)%nat with (13 + (39 + n))%nat.
  rewrite (run_to_device _ (rdev `mod` 2 ^ 20) (rdev `div` 2 ^ 20) _ s (eq_sym Emin)
    (eq_sym Emaj) eq_refl).
  rewrite Hd by width_lia. unfold tracked.
  destruct (devs !! _) as [vendor|] eqn:Ev; opt_cbn; [|apply (run_no_device (36 + n))].
  assert (Hv : in_width 32 vendor) by (by eapply (map_Forall_lookup_1 _ _ _ _ Hdw)).
  change (39 + n)%nat with (10 + (29 + n))%nat.
  rewrite (run_to_ioctl _ _ _ _ (le_bytes 4 vendor) (wrap 32 cmd `mod` 2 ^ 8) _ _ s
    (length_pair_at 504 _ _ _ stack_length ltac:(lia) ltac:(lia)))
    by first [done|by rewrite Hd, Ev by width_lia].
  rewrite (le_value_bytes_id 4), Hi by first [done|width_lia].
  destruct (tbl !! _) as [kind|] eqn:Ek; opt_cbn; [|apply (run_no_ioctl (25 + n))].
  assert (Hk : in_width 8 kind) by (by eapply (map_Forall_lookup_1 _ _ _ _ Hiw)).
  change (29 + n)%nat with (7 + (22 + n))%nat. rewrite run_to_reserve.
  destruct (ring_reserve _ _) as [[record events]|] eqn:Er.
  - apply ring_reserve_length in Er. rewrite struct_event_size in Er.
    rewrite (run_submit _ _ _ _ (le_bytes 1 kind)); cbn [st_devices st_ioctls st_events st_dropped].
    + rewrite (le_value_bytes_id 1), fill_event_eq by first [done|lia].
      unfold event_bytes, event_of. cbn [ev_timestamp ev_cgroup_id ev_tgid ev_cmd ev_minor
        ev_major ev_kind]. by rewrite (le_bytes_4 32 cmd) by lia.
    + apply spilled; [lia|]. rewrite !length_pair_at; rewrite ?length_pair_at; try done; lia.
    + lia.
    + by rewrite Hi, Ek by width_lia.
    + done.
  - apply (run_full (5 + n)). rewrite length_poke; rewrite ?length_le_bytes;
      rewrite ?length_pair_at; rewrite ?length_pair_at; try done; lia.
Qed.

End Run.

(** What the kernel executes: the program of the embedded file, patched for it
    and run until it exits; it has no loops, so as many steps as it has slots
    are enough. *)
Definition loaded_run {H R P : Type} `{!BpfHash H, !BpfRingbuf R, !BpfPercpu P}
    (kernel_bytes : Z → Z → bytes) (relo : string → string → option (Z * Z)) (x : exec_ctx)
    (ctx : list Z) (stack : bytes) (s : bpf_state H R P) : option (result (bpf_state H R P * Z)) :=
  pr ← find_program _BpfBytes bpfProgKubenpuIoctl;
  code ← relocate relo (pr_core pr) (pr_code pr);
  Some (run kernel_bytes x ctx (length code) code (enter stack s)).

Lemma loaded_run_ioctl {H R P : Type} `{!BpfHash H, !BpfRingbuf R, !BpfPercpu P, !BpfRingbufOk R}
    kernel_bytes relo f_inode i_rdev devs tbl x filp cmd arg post stack (s : bpf_state H R P) :
  (∀ a n, 0 ≤ n → Z.of_nat (length (kernel_bytes a n)) = n) →
  relo "file" "f_inode" = Some (f_inode, 8) → relo "inode" "i_rdev" = Some (i_rdev, 4) →
  holds_devices (st_devices s) devs → holds_ioctls (st_ioctls s) tbl →
  length stack = Z.to_nat stack_size →
  loaded_run kernel_bytes relo x (filp :: cmd :: arg :: post) stack s =
  Some (Exited (kubenpu_ioctl kernel_bytes relo x filp (wrap 32 cmd) (wrap 64 arg) s)).
Proof.
  intros Hlen Hinode Hrdev Hd Hi Hstack. unfold loaded_run. rewrite object_program. opt_cbn.
  cbn [pr_core pr_code]. rewrite (relocate_code _ f_inode i_rdev) by done. opt_cbn.
  change (length (ioctl_code f_inode i_rdev)) with (52 + 15)%nat. f_equal.
  by eapply run_ioctl.
Qed.

(** ** Properties *)

(** C5: The program the agent loads is the program of the source: read from the
    bytes it embeds, with the two CO-RE loads patched for the running kernel,
    and entered with the argument slots of a [drm_ioctl] call, the compiled code
    runs to its exit, never reading or writing outside of its stack, the
    context, a map value, the reserved record or kernel memory (to read) and
    never holding on to a record, and leaves the maps and returns the value
    exactly as [kubenpu_ioctl] does. *)
Theorem object_implements_source {H R P : Type} `{!BpfHash H, !BpfRingbuf R, !BpfPercpu P}
    `{!BpfRingbufOk R} kernel_bytes relo f_inode i_rdev devs tbl x filp cmd arg post stack
    (s : bpf_state H R P) :
  (∀ a n, 0 ≤ n → Z.of_nat (length (kernel_bytes a n)) = n) →
  relo "file" "f_inode" = Some (f_inode, 8) → relo "inode" "i_rdev" = Some (i_rdev, 4) →
  holds_devices (st_devices s) devs → holds_ioctls (st_ioctls s) tbl →
  in_width 64 filp → length stack = Z.to_nat stack_size →
  ∃ s',
    kubenpu_ioctl_entry kernel_bytes relo x (filp :: cmd :: arg :: post) s = Some (s', 0) ∧
    loaded_run kernel_bytes relo x (filp :: cmd :: arg :: post) stack s = Some (Exited (s', 0)).
Proof.
  intros Hlen Hinode Hrdev Hd Hi Hf Hstack.
  rewrite (loaded_run_ioctl kernel_bytes relo f_inode i_rdev devs tbl) by done.
  rewrite kubenpu_ioctl_entry_call, (wrap_id 64 filp) by done.
  rewrite (kubenpu_ioctl_tracked kernel_bytes relo Hlen devs tbl) with (off := i_rdev) by done.
  destruct (tracked _ _ _ _) as [[[major minor] kind]|]; [|eauto].
  destruct (ring_reserve _ _) as [[record events]|]; eauto.
Qed.

Lemma object_implements_source_witness :
  ∃ s',
    kubenpu_ioctl_entry Sample.memory Sample.relo Sample.ctx [7; 0xC0406469; 0; -1]
      (Sample.state 64) = Some (s', 0) ∧
    loaded_run Sample.memory Sample.relo Sample.ctx [7; 0xC0406469; 0; -1]
      (replicate 512 Byte.xaa) (Sample.state 64) = Some (Exited (s', 0)).
Proof.
  apply (object_implements_source Sample.memory Sample.relo 32 76 Sample.devs Sample.tbl).
  - exact Sample.memory_length.
  - vm_compute. reflexivity.
  - vm_compute. reflexivity.
  - exact Sample.devices_held.
  - exact Sample.ioctls_held.
  - unfold in_width. lia.
  - reflexivity.
Defined.

(** The compiled program runs, on a machine with room for one record and on one
    without: an event, or a drop on this CPU. *)
Example loaded_run_runs :
  (λ room,
     match loaded_run Sample.memory Sample.relo Sample.ctx [7; 0xC0406469; 0]
             (replicate 512 Byte.xaa) (Sample.state room) with
     | Some (Exited (s, r0)) => Some (ring_records (st_events s), st_dropped s, r0)
     | _ => None
     end) <$> [64; 8]
  = [Some ([event_bytes (event_of Sample.ctx 0xC0406469 128 226 KindSubmit)], [0; 0], 0);
     Some ([], [0; 1], 0)].
Proof. vm_compute. reflexivity. Qed.
