(* ===== verification/Hw.v ===== *)
(** * [pkg/hw]: kinds, vendors and the vendor registry

    The [Vendor] interface is a record of its methods, the two registered
    vendors are values of it, and [registeredVendors] is the list the packages'
    [init] functions build. The registry numbers vendors from 1 by position:
    the theorems say that a vendor and its number determine each other, which
    is what the kernel's [ioctls] map is keyed by. *)

From S2P Require Import Prelude.
From S2P Require Import GoStrings.
From S2P Require Import BpfProgram.

Local Open Scope Z_scope.

(** ** [pkg/discovery/device.go]: what discovery hands to the registry *)

Record Node : Type := MkNode {
  Minor : Z;
  Major : Z;
  Path : string;
}.

Record Device : Type := MkDevice {
  DriverName : string;
  SysfsPath : string;
  PciID : string;
  PciAddress : string;
  NumaNode : string;
  Nodes : list Node;
}.

(** ** [pkg/hw/kind.go] *)

Module Kind.
Definition KindUnknown : Z := 0.
Definition KindSubmit : Z := 1.
Definition KindAlloc : Z := 2.
Definition KindWait : Z := 3.

Definition String (k : Z) : string :=
  if bool_decide (k = KindSubmit) then "submit"
  else if bool_decide (k = KindAlloc) then "alloc"
  else if bool_decide (k = KindWait) then "wait"
  else "unknown".
End Kind.

(** ** [pkg/hw/vendor.go] *)

Record Stats : Type := MkStats { BusyNs : Z }.

Definition ErrNotSupported : error := Sentinel "hw.ErrNotSupported".

(** The interface; [Ioctls] is a Go map, here its entries in some iteration
  order. *)
Record Vendor : Type := MkVendor {
  Name : string;
  Match : Device → bool;
  Ioctls : list (Z * Z);
  Weight : Z → bytes → Z;
  DeviceStats : Device → res Stats;
}.

(** ** [pkg/hw/i915] and [pkg/hw/ivpu] *)

Module i915.
Definition Ioctls : list (Z * Z) := [
  (0x69, Kind.KindSubmit);  (** DRM_I915_GEM_EXECBUFFER2 *)
  (0x5b, Kind.KindAlloc);   (** DRM_I915_GEM_CREATE *)
  (0x6c, Kind.KindWait)].   (** DRM_I915_GEM_WAIT *)

Definition vendor : Vendor := {|
  Hw.Name := "i915";
  Hw.Match d := bool_decide (DriverName d = "i915");
  Hw.Ioctls := Ioctls;
  Hw.Weight _ _ := 0;
  Hw.DeviceStats _ := Err ErrNotSupported;
|}.
End i915.

Module ivpu.
Definition Ioctls : list (Z * Z) := [
  (0x4d, Kind.KindSubmit);  (** DRM_IVPU_CMDQ_SUBMIT *)
  (0x45, Kind.KindSubmit);  (** DRM_IVPU_SUBMIT *)
  (0x42, Kind.KindAlloc);   (** DRM_IVPU_BO_CREATE *)
  (0x46, Kind.KindWait)].   (** DRM_IVPU_BO_WAIT *)

Definition vendor : Vendor := {|
  Hw.Name := "ivpu";
  Hw.Match d := bool_decide (DriverName d = "intel_vpu");
  Hw.Ioctls := Ioctls;
  Hw.Weight _ _ := 0;
  Hw.DeviceStats _ := Err ErrNotSupported;
|}.
End ivpu.

(** ** [pkg/hw/registry.go] *)

(** [RegisterVendor] appends to [registeredVendors]. *)
Definition RegisterVendor (registeredVendors : list Vendor) (vendor : Vendor) :
    list Vendor :=
  registeredVendors ++ [vendor].

Fixpoint GetVendor (registeredVendors : list Vendor) (d : Device) : option Vendor :=
  match registeredVendors with
  | [] => None
  | vendor :: vs => if Match vendor d then Some vendor else GetVendor vs d
  end.

(** The loop of [GetVendorID] from index [i]; the result is a [uint32]. *)
Fixpoint GetVendorID_from (i : Z) (vendors : list Vendor) (vendorName : string) : Z :=
  match vendors with
  | [] => 0
  | vendor :: vs =>
      if bool_decide (Name vendor = vendorName) then wrap 32 (wrap 32 i + 1)
      else GetVendorID_from (i + 1) vs vendorName
  end.

Definition GetVendorID (registeredVendors : list Vendor) (vendorName : string) : Z :=
  GetVendorID_from 0 registeredVendors vendorName.

(** The registry of the two programs: Go initialises imported packages in
    import-path order, [hw/i915] before [hw/ivpu], and each [init] registers
    its vendor. *)
Definition registeredVendors : list Vendor :=
  RegisterVendor (RegisterVendor [] i915.vendor) ivpu.vendor.

(** ** Lemmas *)

Lemma GetVendor_Some vs d v :
  GetVendor vs d = Some v ↔
  ∃ i, vs !! i = Some v ∧ Match v d = true ∧
       ∀ j w, (j < i)%nat → vs !! j = Some w → Match w d = false.
Proof.
  induction vs as [|w vs IH]; cbn.
  { split; [done|]. by intros (i & Hi & _). }
  destruct (Match w d) eqn:E.
  - split.
    + intros [= <-]. exists 0%nat. split_and!; [done..|lia].
    + intros ([|i] & Hi & Hm & Hj); [by cbn in Hi; simplify_eq|].
      by rewrite (Hj 0%nat w) in E by (done || lia).
  - rewrite IH. split.
    + intros (i & Hi & Hm & Hj). exists (S i). split_and!; [done..|].
      intros [|j] w' Hlt Hw; cbn in Hw; [by simplify_eq|]. eapply Hj; [|done]. lia.
    + intros ([|i] & Hi & Hm & Hj); cbn in Hi; [simplify_eq; congruence|].
      exists i. split_and!; [done..|]. intros j w' Hlt Hw. apply (Hj (S j)); [lia|done].
Qed.

Lemma GetVendor_elem vs d v : GetVendor vs d = Some v → v ∈ vs ∧ Match v d = true.
Proof.
  intros (i & Hi & Hm & _)%GetVendor_Some. split; [|done].
  by eapply list_elem_of_lookup_2.
Qed.

Lemma GetVendorID_from_spec k vs i v :
  NoDup (Name <$> vs) → vs !! i = Some v → 0 ≤ k →
  k + Z.of_nat (length vs) < 2 ^ 32 →
  GetVendorID_from k vs (Name v) = k + Z.of_nat i + 1.
Proof.
  revert k i. induction vs as [|w vs IH]; intros k i; cbn [fmap list_fmap]; [done|].
  rewrite NoDup_cons. intros [Hw Hvs] Hi Hk Hlen. cbn [length GetVendorID_from] in *.
  destruct i as [|i]; cbn in Hi.
  - simplify_eq. rewrite bool_decide_eq_true_2 by done.
    rewrite (wrap_id 32 k) by width_lia. rewrite wrap_id by width_lia. lia.
  - rewrite bool_decide_eq_false_2; cycle 1.
    { intros E. apply Hw. rewrite E. apply list_elem_of_fmap.
      exists v. split; [done|]. by eapply list_elem_of_lookup_2. }
    rewrite (IH _ i) by (done || lia). lia.
Qed.

Lemma GetVendorID_lookup vs i v :
  NoDup (Name <$> vs) → vs !! i = Some v → Z.of_nat (length vs) < 2 ^ 32 →
  GetVendorID vs (Name v) = Z.of_nat i + 1.
Proof. intros. unfold GetVendorID. rewrite (GetVendorID_from_spec 0 vs i); done || lia. Qed.

Lemma GetVendorID_unknown vs name : name ∉ Name <$> vs → GetVendorID vs name = 0.
Proof.
  unfold GetVendorID. generalize 0 at 1. induction vs as [|w vs IH]; intros k; cbn; [done|].
  intros [Hn Hvs]%not_elem_of_cons. rewrite bool_decide_eq_false_2 by done. by apply IH.
Qed.

Lemma registered_names : NoDup (Name <$> registeredVendors).
Proof. by_decide. Qed.

(** A kind is one of the three the program counts. *)
Definition known_kind (k : Z) : Prop := k ∈ [Kind.KindSubmit; Kind.KindAlloc; Kind.KindWait].

#[export] Instance known_kind_dec k : Decision (known_kind k).
Proof. unfold known_kind. apply _. Defined.

(** ** Properties *)

(** A vendor and its id determine each other: in any registry of fewer
    than 2^32 vendors with distinct names, the id of a registered vendor is its
    position from 1 — never the 0 of an unknown name — so two vendors never
    share an id, and the vendor [GetVendor] selects for a device is the one its
    id stands for. *)
Theorem vendor_id_identifies vs d v :
  NoDup (Name <$> vs) → Z.of_nat (length vs) < 2 ^ 32 →
  GetVendor vs d = Some v →
  let id := GetVendorID vs (Name v) in
  1 ≤ id ≤ Z.of_nat (length vs) ∧ vs !! Z.to_nat (id - 1) = Some v ∧
  (∀ w, w ∈ vs → GetVendorID vs (Name w) = id → w = v) ∧
  (∀ name, GetVendorID vs name = 0 ↔ name ∉ Name <$> vs).
Proof.
  intros Hnd Hlen (i & Hi & _)%GetVendor_Some. cbn zeta.
  rewrite (GetVendorID_lookup vs i v) by done.
  apply lookup_lt_Some in Hi as Hlt. split_and!; [lia..| | |].
  - by replace (Z.to_nat _) with i by lia.
  - intros w [j Hj]%list_elem_of_lookup. rewrite (GetVendorID_lookup vs j w) by done.
    intros E. assert (i = j) as -> by lia. congruence.
  - intros name. split; [|apply GetVendorID_unknown].
    intros E (w & -> & [j Hj]%list_elem_of_lookup)%list_elem_of_fmap.
    rewrite (GetVendorID_lookup vs j w) in E by done. lia.
Qed.

Definition sample_device : Device :=
  MkDevice "intel_vpu" "/sys/devices/pci0000:00/0000:00:0b.0" "8086:ad1d"
    "0000:00:0b.0" "0" [MkNode 0 261 "/dev/accel/accel0"].

Lemma vendor_id_identifies_witness :
  let id := GetVendorID registeredVendors (Name ivpu.vendor) in
  1 ≤ id ≤ Z.of_nat (length registeredVendors) ∧
  registeredVendors !! Z.to_nat (id - 1) = Some ivpu.vendor ∧
  (∀ w, w ∈ registeredVendors →
     GetVendorID registeredVendors (Name w) = id → w = ivpu.vendor) ∧
  (∀ name, GetVendorID registeredVendors name = 0 ↔ name ∉ Name <$> registeredVendors).
Proof.
  apply (vendor_id_identifies registeredVendors sample_device ivpu.vendor).
  - exact registered_names.
  - reflexivity.
  - reflexivity.
Defined.
