(* ===== verification/Loader.v ===== *)
(** * [pkg/loader]: loading the program, filling its maps, reading its events

    [features.go] and [loader.go], with the Go mirror types of the generated
    [bpf_x86_bpfel.go]. The eBPF and ring-buffer packages are parameters: what
    one of their calls returns is an argument, and the calls that acquire or
    release a resource are recorded in the loader's [calls], so that the
    theorems can count them. *)

From S2P Require Import Prelude.
From S2P Require Import GoStrings.
From S2P Require Import CLayout.
From S2P Require Import Kernel.
From S2P Require Import BpfProgram.

Local Open Scope Z_scope.

(** ** [bpf_x86_bpfel.go]: the generated mirror types *)

(** [structs.HostLayout] is a zero-size marker; the integers are laid out as
    the host's C compiler does. *)
Definition HostLayout : ctype := CStruct [mem:].
Definition uint8 : ctype := CInt 1.
Definition uint16 : ctype := CInt 2.
Definition uint32 : ctype := CInt 4.
Definition uint64 : ctype := CInt 8.

Definition bpfDeviceKey : ctype := CStruct [mem:
  ("_", HostLayout);
  ("Major", uint32);
  ("Minor", uint32) ].

Definition bpfEvent : ctype := CStruct [mem:
  ("_", HostLayout);
  ("Timestamp", uint64);
  ("CgroupId", uint64);
  ("Tgid", uint32);
  ("Cmd", uint32);
  ("Minor", uint32);
  ("Major", uint16);
  ("Kind", uint8);
  ("Pad", CArr uint8 1) ].

Definition bpfIoctlKey : ctype := CStruct [mem:
  ("_", HostLayout);
  ("VendorId", uint32);
  ("Nr", uint32) ].

(** [_BpfClose]: close in order, stop at the first error. The result lists the
    objects on which [Close] was called. *)
Fixpoint BpfClose (obj_Close : string → option error) (closers : list string) :
    list string * option error :=
  match closers with
  | [] => ([], None)
  | c :: cs =>
      match obj_Close c with
      | Some err => ([c], Some err)
      | None => let '(called, err) := BpfClose obj_Close cs in (c :: called, err)
      end
  end.

(** [bpfPrograms.Close], [bpfMaps.Close] and [bpfObjects.Close]. *)
Definition bpfPrograms_Close (obj_Close : string → option error) :=
  BpfClose obj_Close ["kubenpu_ioctl"].

Definition bpfMaps_Close (obj_Close : string → option error) :=
  BpfClose obj_Close ["devices"; "dropped"; "events"; "ioctls"].

Definition bpfObjects_Close (obj_Close : string → option error) :
    list string * option error :=
  let '(called, err) := bpfPrograms_Close obj_Close in
  match err with
  | Some e => (called, Some e)
  | None => let '(called', err) := bpfMaps_Close obj_Close in (called ++ called', err)
  end.

(** ** [features.go] *)

(** The results of the probes [CheckKernel] makes; [None] is success. *)
Record kernel_probes : Type := {
  stat_cgroup_controllers : option error;
  load_kernel_spec : option error;
  have_tracing : option error;
  have_ringbuf : option error;
  have_ktime_tai : option error;
}.

Definition isCgroupV2 (k : kernel_probes) : bool :=
  bool_decide (stat_cgroup_controllers k = None).

Definition ErrNotSupported : string := "ebpf.ErrNotSupported".

(** One feature probe: a missing feature gets its own message, any other
    failure is wrapped. *)
Definition check_feature (probe : option error) (missing failed : string) : option error :=
  match probe with
  | None => None
  | Some err =>
      if errors_Is ErrNotSupported err then Some (errors_New missing)
      else Some (Errorf failed [err])
  end.

Definition CheckKernel (k : kernel_probes) : option error :=
  if negb (isCgroupV2 k) then Some (errors_New "cgroup v2 required")
  else match load_kernel_spec k with
  | Some err => Some (Errorf "kernel BTF is not available; required for CO-RE and fentry: %w" [err])
  | None =>
  match check_feature (have_tracing k)
          "fentry is not supported; required kernel version: 5.5+"
          "failed to check kernel support for fentry: %w" with
  | Some err => Some err
  | None =>
  match check_feature (have_ringbuf k)
          "ring buffer is not supported; required kernel version: 5.8+"
          "failed to check kernel support for ring buffer: %w" with
  | Some err => Some err
  | None =>
      check_feature (have_ktime_tai k)
        "bpf_ktime_get_tai_ns is not supported; required kernel version: 6.1+"
        "failed to check kernel support for bpf_ktime_get_tai_ns: %w"
  end end end.

(** ** [loader.go] *)

Record Event : Type := MkEvent {
  Timestamp : Z;
  CgroupID : Z;
  TGID : Z;
  Cmd : Z;
  Minor : Z;
  Major : Z;
  Kind : Z;
}.

Definition ErrClosed : string := "ringbuf.ErrClosed".

(** A member of the [bpfEvent] that [raw] points to. *)
Definition raw_field (f : string) (raw : bytes) : Z := default 0 (load_field bpfEvent f raw).

(** [ReadEvent], given what [l.rb.Read()] returned. *)
Definition ReadEvent (read : res bytes) : res Event :=
  match read with
  | Err err =>
      if errors_Is ErrClosed err then Err err
      else Err (Errorf "failed to read ring buffer: %w" [err])
  | Ok raw =>
      if bool_decide (Z.of_nat (length raw) < sizeof bpfEvent)
      then Err (errors_New "invalid event size: got %d bytes, want at least %d")
      else Ok {|
        Timestamp := raw_field "Timestamp" raw;
        CgroupID := raw_field "CgroupId" raw;
        TGID := raw_field "Tgid" raw;
        Cmd := raw_field "Cmd" raw;
        Minor := raw_field "Minor" raw;
        Major := raw_field "Major" raw;
        Kind := raw_field "Kind" raw;
      |}
  end.

(** The composite literals [bpfDeviceKey{...}] and [bpfIoctlKey{...}]. *)
Definition device_key (major minor : Z) : bytes :=
  assign bpfDeviceKey "Minor" minor
    (assign bpfDeviceKey "Major" major (zeroed bpfDeviceKey)).

Definition ioctl_key (vendorID nr : Z) : bytes :=
  assign bpfIoctlKey "Nr" nr
    (assign bpfIoctlKey "VendorId" vendorID (zeroed bpfIoctlKey)).

(** Calls that put an entry into a kernel map ([Devices.Put], [Ioctls.Put]), or
    acquire or release a resource. *)
Inductive call (link reader : Type) : Type :=
  | CallPutDevice (key value : bytes)
  | CallPutIoctl (key value : bytes)
  | CallAttach (h : link)
  | CallLinkClose (h : link)
  | CallNewReader (r : reader)
  | CallReaderClose (r : reader)
  | CallObjClose (name : string).
Arguments CallPutDevice {link reader}.
Arguments CallPutIoctl {link reader}.
Arguments CallAttach {link reader}.
Arguments CallLinkClose {link reader}.
Arguments CallNewReader {link reader}.
Arguments CallReaderClose {link reader}.
Arguments CallObjClose {link reader}.

Section Loader.

Context {H R P : Type} `{!BpfHash H, !BpfRingbuf R, !BpfPercpu P}.
Context {link reader : Type}.

Record Loader : Type := MkLoader {
  bpfObjects : bpf_state H R P;
  hook : option link;
  rb : option reader;
  closeOnce : bool;
  closeReaderOnce : bool;
  calls : list (call link reader);
}.

(** What the eBPF packages return. *)
Variable put_error : error.
Variable lookup_error : error.
Variable AttachTracing : res link.
Variable link_Close : link → option error.
Variable NewReader : res reader.
Variable reader_Close : reader → option error.
Variable obj_Close : string → option error.

(** [NewLoader(debug)], given the probes, the result of [RemoveMemlock], and
    what [loadBpfObjects] returns for the collection options; [as_verifier]
    is [errors.As] with a [*ebpf.VerifierError]. *)
Record options : Type := { LogInstructions : bool; LogSizeStart : Z }.

Definition NewLoader (k : kernel_probes) (RemoveMemlock : option error)
    (loadBpfObjects : option options → res (bpf_state H R P))
    (as_verifier : error → option error) (debug : bool) : res Loader :=
  match CheckKernel k with
  | Some err => Err err
  | None =>
      match RemoveMemlock with
      | Some err => Err (Errorf "failed to remove memlock rlimit: %w" [err])
      | None =>
          let opt := if debug
                     then Some {| LogInstructions := true; LogSizeStart := 64 * 1024 |}
                     else None in
          match loadBpfObjects opt with
          | Err err =>
              match as_verifier err with
              | Some verifierErr => Err verifierErr
              | None => Err (Errorf "failed to load bpf objects: %w" [err])
              end
          | Ok objs => Ok (MkLoader objs None None false false [])
          end
      end
  end.

Definition set_objects (o : bpf_state H R P) (l : Loader) : Loader :=
  MkLoader o (hook l) (rb l) (closeOnce l) (closeReaderOnce l) (calls l).
Definition set_hook (h : option link) (l : Loader) : Loader :=
  MkLoader (bpfObjects l) h (rb l) (closeOnce l) (closeReaderOnce l) (calls l).
Definition set_rb (r : option reader) (l : Loader) : Loader :=
  MkLoader (bpfObjects l) (hook l) r (closeOnce l) (closeReaderOnce l) (calls l).
Definition set_closeOnce (l : Loader) : Loader :=
  MkLoader (bpfObjects l) (hook l) (rb l) true (closeReaderOnce l) (calls l).
Definition set_closeReaderOnce (l : Loader) : Loader :=
  MkLoader (bpfObjects l) (hook l) (rb l) (closeOnce l) true (calls l).
Definition log_calls (cs : list (call link reader)) (l : Loader) : Loader :=
  MkLoader (bpfObjects l) (hook l) (rb l) (closeOnce l) (closeReaderOnce l) (calls l ++ cs).

Definition AddDevice (major minor vendorID : Z) (l : Loader) : Loader * option error :=
  let o := bpfObjects l in
  let l := log_calls [CallPutDevice (device_key major minor) (le_bytes 4 vendorID)] l in
  match hash_update (st_devices o) (device_key major minor) (le_bytes 4 vendorID) with
  | None => (l, Some (Errorf "failed to add device: %w" [put_error]))
  | Some m => (set_objects (BpfState m (st_ioctls o) (st_events o) (st_dropped o)) l, None)
  end.

Definition AddIoctl (vendorID nr kind : Z) (l : Loader) : Loader * option error :=
  let o := bpfObjects l in
  let l := log_calls [CallPutIoctl (ioctl_key vendorID nr) (le_bytes 1 kind)] l in
  match hash_update (st_ioctls o) (ioctl_key vendorID nr) (le_bytes 1 kind) with
  | None => (l, Some (Errorf "failed to add ioctl: %w" [put_error]))
  | Some m => (set_objects (BpfState (st_devices o) m (st_events o) (st_dropped o)) l, None)
  end.

(** The part of [Attach] after the previous hook is gone. *)
Definition attach_tracing (l : Loader) : Loader * option error :=
  match AttachTracing with
  | Err err => (l, Some (Errorf "failed to attach kubenpu_ioctl: %w" [err]))
  | Ok h => (set_hook (Some h) (log_calls [CallAttach h] l), None)
  end.

Definition Attach (l : Loader) : Loader * option error :=
  match hook l with
  | Some h =>
      let l := log_calls [CallLinkClose h] l in
      match link_Close h with
      | Some err => (l, Some (Errorf "failed to close previous hook: %w" [err]))
      | None => attach_tracing (set_hook None l)
      end
  | None => attach_tracing l
  end.

Definition CreateReader (l : Loader) : Loader * option error :=
  match NewReader with
  | Err err => (l, Some (Errorf "failed to create ring buffer reader: %w" [err]))
  | Ok r => (set_rb (Some r) (log_calls [CallNewReader r] l), None)
  end.

(** [sync.Once.Do] runs its function the first time only. *)
Definition CloseReader (l : Loader) : Loader * option error :=
  if closeReaderOnce l then (l, None)
  else
    let l := set_closeReaderOnce l in
    match rb l with
    | None => (l, None)
    | Some r =>
        (log_calls [CallReaderClose r] l,
         match reader_Close r with
         | Some cerr => Some (Errorf "failed to close ring buffer reader: %w" [cerr])
         | None => None
         end)
    end.

(** [errors.Join]. *)
Definition errors_Join (errs : list error) : option error :=
  match errs with [] => None | _ => Some (Errorf "join" errs) end.

Definition Close (l : Loader) : Loader * option error :=
  if closeOnce l then (l, errors_Join [])
  else
    let l := set_closeOnce l in
    let '(l, err) := CloseReader l in
    let errs := option_list err in
    let '(l, errs) :=
      match hook l with
      | None => (l, errs)
      | Some h =>
          (log_calls [CallLinkClose h] l,
           match link_Close h with
           | Some err => errs ++ [Errorf "failed to close hook: %w" [err]]
           | None => errs
           end)
      end in
    let '(closed, err) := bpfObjects_Close obj_Close in
    let l := log_calls (map CallObjClose closed) l in
    let errs := match err with
                | Some err => errs ++ [Errorf "failed to close bpf objects: %w" [err]]
                | None => errs
                end in
    (l, errors_Join errs).

(** [DroppedEvents]: the sum over the CPUs, at 64 bits. [Lookup] can fail with
    an error of the kernel, and does when the map has been closed ([failure]),
    or not find the key. *)
Definition DroppedEvents (failure : option error) (o : bpf_state H R P) : res Z :=
  match failure with
  | Some err => Err (Errorf "read dropped counter: %w" [err])
  | None =>
      match pcpu_values (st_dropped o) 0 with
      | None => Err (Errorf "read dropped counter: %w" [lookup_error])
      | Some perCPU => Ok (foldl (λ total v, wrap 64 (total + v)) 0 perCPU)
      end
  end.

(** What is closed: the [Once] has run, the closing call was made and it did
    not fail. Whatever a failing call of the eBPF packages has done, the loader
    does not call it again. *)
Definition succeeds (err : option error) : bool :=
  match err with None => true | Some _ => false end.

Definition reader_closed (l : Loader) : bool :=
  closeReaderOnce l && match rb l with Some r => succeeds (reader_Close r) | None => true end.

Definition hook_closed (l : Loader) : bool :=
  closeOnce l && match hook l with Some h => succeeds (link_Close h) | None => true end.

Definition object_closed (name : string) (l : Loader) : bool :=
  closeOnce l && bool_decide (name ∈ (bpfObjects_Close obj_Close).1) && succeeds (obj_Close name).

End Loader.

Arguments Loader : clear implicits.
Arguments MkLoader {H R P link reader}.

(** ** Keys and records agree across the two languages *)

Lemma device_key_eq major minor : device_key major minor = make_device_key major minor.
Proof.
  transitivity (le_bytes 4 major ++ le_bytes 4 minor);
    [|symmetry; apply make_device_key_bytes]. unfold device_key.
  change (zeroed bpfDeviceKey) with ([] ++ replicate 8 Byte.x00).
  do 2 assign_next. apply app_nil_r.
Qed.

Lemma ioctl_key_eq vendorID nr : ioctl_key vendorID nr = make_ioctl_key vendorID nr.
Proof.
  transitivity (le_bytes 4 vendorID ++ le_bytes 4 nr);
    [|symmetry; apply make_ioctl_key_bytes]. unfold ioctl_key.
  change (zeroed bpfIoctlKey) with ([] ++ replicate 8 Byte.x00).
  do 2 assign_next. apply app_nil_r.
Qed.

(** Offsets and sizes of the members, without the zero-size marker. *)
Definition member_slots (t : ctype) : list (Z * Z) :=
  match t with
  | CStruct ms =>
      filter (λ '(_, n), n ≠ 0) ((λ '(_, o, ft), (o, sizeof ft)) <$> layout_ms ms)
  | _ => []
  end.

(** The event a well-formed record carries. *)
Definition wf_event (e : event) : Prop :=
  in_width 64 (ev_timestamp e) ∧ in_width 64 (ev_cgroup_id e) ∧
  in_width 32 (ev_tgid e) ∧ in_width 32 (ev_cmd e) ∧ in_width 32 (ev_minor e) ∧
  in_width 16 (ev_major e) ∧ in_width 8 (ev_kind e).

Definition event_view (e : event) : Event := {|
  Timestamp := ev_timestamp e;
  CgroupID := ev_cgroup_id e;
  TGID := ev_tgid e;
  Cmd := ev_cmd e;
  Minor := ev_minor e;
  Major := ev_major e;
  Kind := ev_kind e;
|}.

Lemma ReadEvent_event e rest :
  wf_event e → ReadEvent (Ok (event_bytes e ++ rest)) = Ok (event_view e).
Proof.
  intros (? & ? & ? & ? & ? & ? & ?).
  destruct (event_bytes_values e rest)
    as (E1 & E2 & E3 & E4 & E5 & E6 & E7 & _ & El).
  unfold ReadEvent. rewrite bool_decide_eq_false_2; cycle 1.
  { rewrite length_app, El. change (sizeof bpfEvent) with 32. lia. }
  unfold raw_field, load_field, event_view.
  repeat match goal with |- context [offset_in 0 bpfEvent ?f] =>
    let r := eval vm_compute in (offset_in 0 bpfEvent f) in
    change (offset_in 0 bpfEvent f) with r end.
  opt_cbn. cbn [sizeof]. rewrite E1, E2, E3, E4, E5, E6, E7.
  by rewrite !wrap_id.
Qed.

(** ** Filling the maps *)

Section Filling.

Context {H R P link reader : Type} `{!BpfHash H, !BpfHashOk H}.
Variable put_error : error.

Lemma AddDevice_holds (l l' : Loader H R P link reader) devs major minor v :
  in_width 32 major → in_width 32 minor → in_width 32 v →
  holds_devices (st_devices (bpfObjects l)) devs →
  AddDevice put_error major minor v l = (l', None) →
  holds_devices (st_devices (bpfObjects l')) (<[(major, minor) := v]> devs) ∧
  st_ioctls (bpfObjects l') = st_ioctls (bpfObjects l) ∧
  st_events (bpfObjects l') = st_events (bpfObjects l) ∧
  st_dropped (bpfObjects l') = st_dropped (bpfObjects l) ∧
  hook l' = hook l ∧ rb l' = rb l ∧
  calls l' = calls l ++ [CallPutDevice (device_key major minor) (le_bytes 4 v)] ∧
  closeReaderOnce l' = closeReaderOnce l ∧ closeOnce l' = closeOnce l.
Proof.
  intros ??? Hd. unfold AddDevice.
  destruct (hash_update _ _ _) as [m|] eqn:E; [|done]; intros [= <-].
  split; [|done]. rewrite device_key_eq in E. by eapply holds_devices_update.
Qed.

Lemma AddIoctl_holds (l l' : Loader H R P link reader) tbl vendor nr k :
  in_width 32 vendor → in_width 32 nr → in_width 8 k →
  holds_ioctls (st_ioctls (bpfObjects l)) tbl →
  AddIoctl put_error vendor nr k l = (l', None) →
  holds_ioctls (st_ioctls (bpfObjects l')) (<[(vendor, nr) := k]> tbl) ∧
  st_devices (bpfObjects l') = st_devices (bpfObjects l) ∧
  st_events (bpfObjects l') = st_events (bpfObjects l) ∧
  st_dropped (bpfObjects l') = st_dropped (bpfObjects l) ∧
  hook l' = hook l ∧ rb l' = rb l ∧
  calls l' = calls l ++ [CallPutIoctl (ioctl_key vendor nr) (le_bytes 1 k)] ∧
  closeReaderOnce l' = closeReaderOnce l ∧ closeOnce l' = closeOnce l.
Proof.
  intros ??? Hd. unfold AddIoctl.
  destruct (hash_update _ _ _) as [m|] eqn:E; [|done]; intros [= <-].
  split; [|done]. rewrite ioctl_key_eq in E. by eapply holds_ioctls_update.
Qed.

End Filling.

(** ** Counting drops *)

Lemma foldl_wrap_sum t0 vs :
  foldl (λ total v, wrap 64 (total + v)) (wrap 64 t0) vs = wrap 64 (t0 + foldr Z.add 0 vs).
Proof.
  revert t0. induction vs as [|v vs IH]; intros t0; cbn [foldl foldr].
  - by rewrite Z.add_0_r.
  - rewrite wrap_add_l, IH. f_equal. lia.
Qed.

Section Drops.

Context {H R P : Type} `{!BpfHash H, !BpfRingbuf R, !BpfPercpu P, !BpfPercpuOk P}.
Variable lookup_error : error.

Lemma DroppedEvents_sum (o : bpf_state H R P) vs :
  pcpu_values (st_dropped o) 0 = Some vs →
  DroppedEvents lookup_error None o = Ok (wrap 64 (foldr Z.add 0 vs)).
Proof.
  intros E. unfold DroppedEvents. rewrite E.
  change 0 with (wrap 64 0) at 1. by rewrite foldl_wrap_sum.
Qed.

Lemma count_drop_values x (o : bpf_state H R P) vs v :
  pcpu_values (st_dropped o) 0 = Some vs → vs !! cpu x = Some v →
  pcpu_values (st_dropped (count_drop x o)) 0 = Some (<[cpu x := wrap 64 (v + 1)]> vs).
Proof.
  intros E Ev. unfold count_drop.
  rewrite (pcpu_values_lookup _ _ _ _ E), Ev. cbn.
  apply pcpu_values_store; [done|]. by eapply lookup_lt_Some.
Qed.

(** Drops counted by executions on any CPUs of the machine. *)
Lemma DroppedEvents_foldl xs (o : bpf_state H R P) vs n :
  pcpu_values (st_dropped o) 0 = Some vs →
  Forall (λ x, (cpu x < length vs)%nat) xs →
  wrap 64 (foldr Z.add 0 vs) = wrap 64 n →
  DroppedEvents lookup_error None (foldl (λ o x, count_drop x o) o xs) =
    Ok (wrap 64 (n + Z.of_nat (length xs))).
Proof.
  revert o vs n. induction xs as [|x xs IH]; intros o vs n E Hf Hn; cbn [foldl length].
  - rewrite (DroppedEvents_sum _ vs) by done. by rewrite Hn, Z.add_0_r.
  - inversion_clear Hf as [|? ? Hx Hxs].
    destruct (lookup_lt_is_Some_2 vs (cpu x) Hx) as [v Hv].
    rewrite (IH _ (<[cpu x := wrap 64 (v + 1)]> vs) (n + 1)).
    + f_equal. f_equal. lia.
    + by apply count_drop_values.
    + by rewrite length_insert.
    + rewrite (sum_insert _ _ v) by done. rewrite wrap_add_r.
      rewrite <- wrap_add_l, <- (wrap_add_l 64 n), <- Hn, wrap_add_l.
      rewrite wrap_add_l. f_equal. lia.
Qed.

End Drops.

(** ** Closing *)

Section Closing.

Context {H R P link reader : Type}.
Context (AttachTracing : res link) (link_Close : link → option error)
  (NewReader : res reader) (reader_Close : reader → option error)
  (obj_Close : string → option error).

Abbreviation loader := (Loader H R P link reader).

(** The lifecycle calls a user of the loader can make, in any order. *)
Inductive lifecycle : Type := OpAttach | OpCreateReader | OpCloseReader | OpClose.

Definition do_op (l : loader) (o : lifecycle) : loader :=
  match o with
  | OpAttach => (Attach AttachTracing link_Close l).1
  | OpCreateReader => (CreateReader NewReader l).1
  | OpCloseReader => (CloseReader reader_Close l).1
  | OpClose => (Close link_Close reader_Close obj_Close l).1
  end.

Definition is_reader_close (c : call link reader) : bool :=
  match c with CallReaderClose _ => true | _ => false end.
Definition is_obj_close (name : string) (c : call link reader) : bool :=
  match c with CallObjClose n => bool_decide (n = name) | _ => false end.

Definition count_calls (p : call link reader → bool) (cs : list (call link reader)) : nat :=
  length (List.filter p cs).

#[local] Arguments count_calls : simpl never.

Lemma count_calls_app p cs cs' :
  count_calls p (cs ++ cs') = (count_calls p cs + count_calls p cs')%nat.
Proof. unfold count_calls. by rewrite List.filter_app, length_app. Qed.

Lemma count_calls_one p c : count_calls p [c] = if p c then 1%nat else 0%nat.
Proof. unfold count_calls. cbn. by destruct (p c). Qed.

Definition bpf_object_names : list string :=
  ["kubenpu_ioctl"; "devices"; "dropped"; "events"; "ioctls"].

Lemma BpfClose_prefix cs : (BpfClose obj_Close cs).1 `prefix_of` cs.
Proof.
  induction cs as [|c cs IH]; cbn; [done|].
  destruct (obj_Close c); cbn; [by apply prefix_cons, prefix_nil|].
  destruct (BpfClose obj_Close cs) as [called err]. by apply prefix_cons.
Qed.

Lemma bpfObjects_Close_prefix : (bpfObjects_Close obj_Close).1 `prefix_of` bpf_object_names.
Proof.
  unfold bpfObjects_Close, bpfPrograms_Close, bpfMaps_Close.
  pose proof (BpfClose_prefix ["devices"; "dropped"; "events"; "ioctls"]) as Hm.
  cbn [BpfClose]. destruct (obj_Close "kubenpu_ioctl").
  - apply prefix_cons, prefix_nil.
  - destruct (BpfClose obj_Close ["devices"; _; _; _]) as [called err] eqn:E.
    cbn [BpfClose] in E. rewrite E. by apply prefix_cons.
Qed.

Lemma count_obj_names name (cs : list string) :
  count_calls (is_obj_close name) (map CallObjClose cs) =
    length (List.filter (λ c, bool_decide (c = name)) cs).
Proof.
  unfold count_calls. induction cs as [|c cs IH]; cbn; [done|].
  destruct (bool_decide (c = name)); cbn; by rewrite IH.
Qed.

Lemma count_reader_names (cs : list string) :
  count_calls is_reader_close (map CallObjClose cs) = 0%nat.
Proof. induction cs; [done|]. done. Qed.

Lemma count_names_le name (cs : list string) :
  cs `prefix_of` bpf_object_names →
  (length (List.filter (λ c, bool_decide (c = name)) cs) ≤ 1)%nat.
Proof.
  intros [k E]. transitivity
    (length (List.filter (λ c, bool_decide (c = name)) bpf_object_names)).
  { rewrite E, List.filter_app, length_app. lia. }
  cbn. repeat case_bool_decide; cbn; congruence || lia.
Qed.

(** Before its [Once] has run, a close has not been made; afterwards it has
    been made at most once. *)
Definition close_inv (l : loader) : Prop :=
  (count_calls is_reader_close (calls l) ≤ if closeReaderOnce l then 1 else 0)%nat ∧
  ∀ name, (count_calls (is_obj_close name) (calls l) ≤ if closeOnce l then 1 else 0)%nat.

Lemma close_inv_log cs (l : loader) :
  count_calls is_reader_close cs = 0%nat →
  (∀ name, count_calls (is_obj_close name) cs = 0%nat) →
  close_inv l → close_inv (log_calls cs l).
Proof.
  intros Hr Ho [Ir Io]. unfold close_inv, log_calls; cbn. split.
  - rewrite count_calls_app. lia.
  - intros name. rewrite count_calls_app, Ho, Nat.add_0_r. apply Io.
Qed.

Lemma CloseReader_inv (l : loader) :
  close_inv l → close_inv (CloseReader reader_Close l).1 ∧
  (∀ name, count_calls (is_obj_close name) (calls (CloseReader reader_Close l).1) =
           count_calls (is_obj_close name) (calls l)) ∧
  closeOnce (CloseReader reader_Close l).1 = closeOnce l ∧
  closeReaderOnce (CloseReader reader_Close l).1 = true ∧
  hook (CloseReader reader_Close l).1 = hook l.
Proof.
  intros Hl. pose proof Hl as [Ir Io]. unfold CloseReader.
  destruct (closeReaderOnce l) eqn:E; [by split_and!|].
  change (rb (set_closeReaderOnce l)) with (rb l).
  destruct (rb l) as [r|]; cbn; split.
  - unfold close_inv; cbn. rewrite count_calls_app, count_calls_one. cbn.
    split; [lia|]. intros name. rewrite count_calls_app, count_calls_one. cbn.
    rewrite Nat.add_0_r. apply Io.
  - split; [|done]. intros name. rewrite count_calls_app, count_calls_one. cbn. lia.
  - unfold close_inv; cbn. split; [lia|done].
  - done.
Qed.

Lemma Close_inv (l : loader) :
  close_inv l → close_inv (Close link_Close reader_Close obj_Close l).1.
Proof.
  intros Hl. unfold Close. destruct (closeOnce l) eqn:E; [done|].
  assert (Hz : ∀ name, count_calls (is_obj_close name) (calls l) = 0%nat).
  { intros name. destruct Hl as [_ Io]. specialize (Io name). rewrite E in Io. lia. }
  assert (Hl1 : close_inv (set_closeOnce l)).
  { split; [apply Hl|]. intros name. cbn. rewrite Hz. lia. }
  destruct (CloseReader_inv _ Hl1) as (Hl2 & Hc & Eo & _ & Eh).
  destruct (CloseReader reader_Close (set_closeOnce l)) as [l2 err]. cbn [fst] in *.
  pose proof bpfObjects_Close_prefix as Hp.
  destruct (bpfObjects_Close obj_Close) as [closed cerr]. cbn [fst] in *.
  assert (Hfin : ∀ l3 : loader, close_inv l3 → closeOnce l3 = true →
    (∀ name, count_calls (is_obj_close name) (calls l3) = 0%nat) →
    close_inv (log_calls (map CallObjClose closed) l3)).
  { intros l3 [Ir Io] E3 Hz3. unfold close_inv; cbn. rewrite E3. split.
    - rewrite count_calls_app, count_reader_names. lia.
    - intros name. rewrite count_calls_app, Hz3, count_obj_names.
      by apply count_names_le. }
  destruct (hook l2) as [h|]; cbn [fst].
  - apply Hfin; [by apply close_inv_log|done|]. intros name. cbn.
    rewrite count_calls_app, count_calls_one, Hc. cbn. by rewrite Hz.
  - apply Hfin; [done|done|]. intros name. by rewrite Hc, <- (Hz name).
Qed.

Lemma Attach_inv (l : loader) :
  close_inv l → close_inv (Attach AttachTracing link_Close l).1.
Proof.
  intros Hl. unfold Attach, attach_tracing.
  destruct (hook l) as [h|]; [|destruct AttachTracing as [h|]; [by apply close_inv_log|done]].
  assert (close_inv (log_calls [CallLinkClose h] l)) by by apply close_inv_log.
  destruct (link_Close h); [done|].
  destruct AttachTracing as [h'|]; [|done].
  by apply (close_inv_log [CallAttach h'] (log_calls [CallLinkClose h] l)).
Qed.

Lemma do_op_inv (l : loader) o : close_inv l → close_inv (do_op l o).
Proof.
  intros Hl. destruct o; cbn.
  - by apply Attach_inv.
  - unfold CreateReader. destruct NewReader; [by apply close_inv_log|done].
  - by apply CloseReader_inv.
  - by apply Close_inv.
Qed.

Lemma do_ops_inv (l : loader) ops : close_inv l → close_inv (foldl do_op l ops).
Proof.
  revert l. induction ops as [|o ops IH]; intros l Hl; cbn; [done|].
  by apply IH, do_op_inv.
Qed.

End Closing.

(** ** Properties *)

(** C24: The Go mirror types describe the memory of the C types: the map keys
    built by [AddDevice] and [AddIoctl] are byte for byte the keys the BPF
    program looks up, and [bpfEvent] has the size of [struct event] and its
    members at the same offsets with the same sizes. *)
Theorem mirror_types_agree :
  (∀ major minor, device_key major minor = make_device_key major minor) ∧
  (∀ vendorID nr, ioctl_key vendorID nr = make_ioctl_key vendorID nr) ∧
  sizeof bpfEvent = sizeof struct_event ∧
  member_slots bpfEvent = member_slots struct_event ∧
  member_slots bpfDeviceKey = member_slots struct_device_key ∧
  member_slots bpfIoctlKey = member_slots struct_ioctl_key.
Proof.
  split; [exact device_key_eq|]. split; [exact ioctl_key_eq|].
  split_and!; vm_compute; reflexivity.
Qed.

(** C10: [ReadEvent] is the inverse of the program's record writing: from a ring
    buffer sample that starts with the record of an event it returns exactly
    that event; a sample shorter than an event is an error, never a read out of
    bounds; [ErrClosed] passes through as it is and any other read error is
    wrapped so that it is still recognised. *)
Theorem ReadEvent_decodes e rest raw err target :
  wf_event e →
  ReadEvent (Ok (event_bytes e ++ rest)) = Ok (event_view e) ∧
  is_ok (ReadEvent (Ok raw)) = bool_decide (sizeof struct_event ≤ Z.of_nat (length raw)) ∧
  (errors_Is ErrClosed err = true → ReadEvent (Err err) = Err err) ∧
  (∃ err', ReadEvent (Err err) = Err err' ∧ errors_Is target err' = errors_Is target err).
Proof.
  intros He. split_and!.
  - by apply ReadEvent_event.
  - unfold ReadEvent. change (sizeof bpfEvent) with 32. change (sizeof struct_event) with 32.
    case_bool_decide; cbn; symmetry; [apply bool_decide_eq_false_2|apply bool_decide_eq_true_2]; lia.
  - unfold ReadEvent. by intros ->.
  - unfold ReadEvent. destruct (errors_Is ErrClosed err); eexists; split; try done.
    apply errors_Is_wrap.
Qed.

Definition sample_event : event := BpfProgram.Event 1000 117316 4242 0xC0406469 128 226 1.

Lemma sample_event_wf : wf_event sample_event.
Proof. unfold wf_event. cbn. unfold in_width. lia. Qed.

Lemma ReadEvent_decodes_witness :
  ReadEvent (Ok (event_bytes sample_event ++ [])) = Ok (event_view sample_event).
Proof.
  apply (ReadEvent_decodes sample_event [] [] (errors_New "x") "y"). exact sample_event_wf.
Defined.

(** Filling a map is one call. It either succeeds, and then the map holds
    exactly one more binding and nothing else of the loader changes, or fails
    with an error and changes nothing. *)
Theorem map_updates_exact {H R P link reader} `{!BpfHash H, !BpfHashOk H} put_error
    (l : Loader H R P link reader) devs tbl major minor vendor nr k :
  in_width 32 major → in_width 32 minor → in_width 32 vendor → in_width 32 nr →
  in_width 8 k →
  holds_devices (st_devices (bpfObjects l)) devs →
  holds_ioctls (st_ioctls (bpfObjects l)) tbl →
  (∀ l', AddDevice put_error major minor vendor l = (l', None) →
     holds_devices (st_devices (bpfObjects l')) (<[(major, minor) := vendor]> devs) ∧
     st_ioctls (bpfObjects l') = st_ioctls (bpfObjects l) ∧
     calls l' = calls l ++ [CallPutDevice (device_key major minor) (le_bytes 4 vendor)]) ∧
  (∀ l', AddIoctl put_error vendor nr k l = (l', None) →
     holds_ioctls (st_ioctls (bpfObjects l')) (<[(vendor, nr) := k]> tbl) ∧
     st_devices (bpfObjects l') = st_devices (bpfObjects l) ∧
     calls l' = calls l ++ [CallPutIoctl (ioctl_key vendor nr) (le_bytes 1 k)]) ∧
  (∀ l' err, AddDevice put_error major minor vendor l = (l', Some err) →
     l' = log_calls [CallPutDevice (device_key major minor) (le_bytes 4 vendor)] l) ∧
  (∀ l' err, AddIoctl put_error vendor nr k l = (l', Some err) →
     l' = log_calls [CallPutIoctl (ioctl_key vendor nr) (le_bytes 1 k)] l).
Proof.
  intros ????? Hd Hi. split_and!.
  - intros l' (? & ? & ? & ? & ? & ? & ? & ? & ?)%(AddDevice_holds _ _ _ devs); [done|done..].
  - intros l' (? & ? & ? & ? & ? & ? & ? & ? & ?)%(AddIoctl_holds _ _ _ tbl); [done|done..].
  - unfold AddDevice. intros l' err. destruct (hash_update _ _ _); [done|]. by intros [= <-].
  - unfold AddIoctl. intros l' err. destruct (hash_update _ _ _); [done|]. by intros [= <-].
Qed.

Definition sample_loader : Loader Model.hash Model.ring (list Z) unit unit :=
  MkLoader (Sample.state 64) None None false false [].

Lemma map_updates_exact_witness :
  let l' := (AddDevice (errors_New "full") 261 0 2 sample_loader).1 in
  holds_devices (st_devices (bpfObjects l')) (<[(261, 0) := 2]> Sample.devs) ∧
  st_ioctls (bpfObjects l') = st_ioctls (bpfObjects sample_loader) ∧
  calls l' = [CallPutDevice (device_key 261 0) (le_bytes 4 2)].
Proof.
  apply (map_updates_exact (errors_New "full") sample_loader Sample.devs Sample.tbl
           261 0 2 0x4d 1); try (unfold in_width; lia).
  - exact Sample.devices_held.
  - exact Sample.ioctls_held.
  - reflexivity.
Defined.

(** [CheckKernel] accepts exactly the kernels on which all five probes
    succeed (cgroup v2, BTF, fentry, ring buffer, [bpf_ktime_get_tai_ns]), and
    [NewLoader] never touches the eBPF objects on any other. *)
Theorem CheckKernel_spec {H R P link reader} (k : kernel_probes) memlock
    (load load' : option options → res (bpf_state H R P)) as_verifier debug :
  (CheckKernel k = None ↔
     stat_cgroup_controllers k = None ∧ load_kernel_spec k = None ∧
     have_tracing k = None ∧ have_ringbuf k = None ∧ have_ktime_tai k = None) ∧
  (CheckKernel k ≠ None →
     NewLoader (link := link) (reader := reader) k memlock load as_verifier debug =
     NewLoader k memlock load' as_verifier debug ∧
     is_ok (NewLoader (link := link) (reader := reader) k memlock load as_verifier debug) = false).
Proof.
  assert (Hf : ∀ p m f, check_feature p m f = None ↔ p = None).
  { intros [e|] m f; cbn; [|done]. by destruct (errors_Is _ _). }
  split.
  - unfold CheckKernel, isCgroupV2. destruct (stat_cgroup_controllers k); cbn; [naive_solver|].
    destruct (load_kernel_spec k); [naive_solver|].
    rewrite <- (Hf (have_ktime_tai k) "bpf_ktime_get_tai_ns is not supported; required kernel version: 6.1+"
        "failed to check kernel support for bpf_ktime_get_tai_ns: %w").
    rewrite <- (Hf (have_tracing k) "fentry is not supported; required kernel version: 5.5+"
        "failed to check kernel support for fentry: %w").
    rewrite <- (Hf (have_ringbuf k) "ring buffer is not supported; required kernel version: 5.8+"
        "failed to check kernel support for ring buffer: %w").
    destruct (check_feature (have_tracing k) _ _); [naive_solver|].
    destruct (check_feature (have_ringbuf k) _ _); naive_solver.
  - intros Hk. unfold NewLoader. by destruct (CheckKernel k).
Qed.

Lemma CheckKernel_spec_witness :
  is_ok (NewLoader (link := unit) (reader := unit)
    (Build_kernel_probes None (Some (errors_New "no BTF")) None None None) None
    (λ _, Ok (Sample.state 64)) Some true) = false.
Proof.
  refine (proj2 (proj2 (CheckKernel_spec (Build_kernel_probes None
    (Some (errors_New "no BTF")) None None None) None (λ _, Ok (Sample.state 64))
    (λ _, Ok (Sample.state 64)) Some true) _)).
  discriminate.
Defined.

(** C30: Nothing is closed twice: in any sequence of attaching, reader creation
    and closing, the ring buffer reader is closed at most once and so is each
    BPF object; a second [Close] makes no call and returns no error. *)
Theorem loader_closes_once {H R P link reader} (AttachTracing : res link) link_Close
    (NewReader : res reader) reader_Close obj_Close (o : bpf_state H R P) ops :
  let l := foldl (do_op AttachTracing link_Close NewReader reader_Close obj_Close)
             (MkLoader o None None false false []) ops in
  let l' := (Close link_Close reader_Close obj_Close l).1 in
  (count_calls is_reader_close (calls l') ≤ 1)%nat ∧
  (∀ name, count_calls (is_obj_close name) (calls l') ≤ 1)%nat ∧
  Close link_Close reader_Close obj_Close l' = (l', None).
Proof.
  cbn zeta.
  assert (Hi : close_inv (foldl (do_op AttachTracing link_Close NewReader reader_Close obj_Close)
             (MkLoader o None None false false []) ops)) by by apply do_ops_inv.
  set (l := foldl _ _ ops) in *. clearbody l.
  destruct (Close_inv link_Close reader_Close obj_Close l Hi) as [Hr Ho].
  split_and!.
  - by destruct (closeReaderOnce _) in Hr; lia.
  - intros name. specialize (Ho name). destruct (closeOnce _) in Ho; lia.
  - assert (closeOnce (Close link_Close reader_Close obj_Close l).1 = true) as E.
    { unfold Close. destruct (closeOnce l) eqn:E; [done|].
      destruct (CloseReader reader_Close (set_closeOnce l)) as [l2 err] eqn:E2.
      assert (closeOnce l2 = true).
      { revert E2. unfold CloseReader. cbn. repeat case_match; intros; by simplify_eq. }
      destruct (hook l2), (bpfObjects_Close obj_Close); done. }
    unfold Close at 1. by rewrite E.
Qed.

(** The drop counter user space reads is the number of drops: after any
    executions that found the buffer full, on any CPUs of the machine,
    [DroppedEvents] has grown by exactly their number, modulo the 64 bits of
    the counters, when the lookup succeeds. *)
Theorem DroppedEvents_counts {H R P} `{!BpfPercpu P, !BpfPercpuOk P} lookup_error
    (o : bpf_state H R P) xs vs n :
  pcpu_values (st_dropped o) 0 = Some vs →
  Forall (λ x, (cpu x < length vs)%nat) xs →
  DroppedEvents lookup_error None o = Ok n →
  DroppedEvents lookup_error None (foldl (λ o x, count_drop x o) o xs) =
    Ok (wrap 64 (n + Z.of_nat (length xs))).
Proof.
  intros E Hx Hn. apply (DroppedEvents_foldl _ _ _ vs); [done..|].
  rewrite (DroppedEvents_sum _ _ vs) in Hn by done. injection Hn as <-.
  by rewrite wrap_wrap.
Qed.

Lemma DroppedEvents_counts_witness :
  DroppedEvents (errors_New "e") None
    (foldl (λ o x, count_drop x o) (Sample.state 0) [Sample.ctx; Sample.ctx]) =
    Ok (wrap 64 (0 + Z.of_nat (length [Sample.ctx; Sample.ctx]))).
Proof.
  apply (DroppedEvents_counts (errors_New "e") (Sample.state 0) [Sample.ctx; Sample.ctx] [0; 0] 0).
  - reflexivity.
  - repeat constructor.
  - vm_compute. reflexivity.
Defined.
