(* ===== verification/Discovery.v ===== *)
(** * [pkg/discovery]: finding accelerator devices through /dev and sysfs

    [sysfs.go] and [discovery.go]. The file system is a record of queries; a
    call of [log.Printf] for a skipped directory entry is recorded. The map of
    discovered devices is keyed by PCI address and its values are mutated
    through pointers that only the map holds, so it is a finite map of
    records. The theorems say what one [uevent] file parses to, and which
    devices and nodes a directory listing turns into. *)

From S2P Require Import Prelude.
From S2P Require Import GoStrings.
From S2P Require Import Hw.

Local Open Scope Z_scope.

Record DirEntry : Type := MkDirEntry {
  de_Name : string;
  de_IsDir : bool;
  de_CharDevice : bool;   (** [Type() & os.ModeCharDevice != 0] *)
}.

(** The file system and the two functions of [golang.org/x/sys/unix] that take
    a device number apart. [OpenRead] gives the bytes a file delivers and the
    error, if any, that ends the reading. *)
Record system : Type := System {
  ReadDir : string → res (list DirEntry);
  Stat_Rdev : string → res Z;
  OpenRead : string → res (string * option error);
  ReadFile : string → res string;
  EvalSymlinks : string → res string;
  unix_Major : Z → Z;
  unix_Minor : Z → Z;
}.

Definition fs_ErrNotExist : string := "fs.ErrNotExist".
Definition ErrTooLong : error := Sentinel "bufio.ErrTooLong".

(** ** [sysfs.go] *)

(** The body of the scanner loop: [key, value, ok := strings.Cut(line, "=")]. *)
Definition parse_line (uevent : gmap string string) (line : string) : gmap string string :=
  match Cut line "=" with
  | None => uevent
  | Some (key, value) => <[key := value]> uevent
  end.

Section Sysfs.

Variable sys : system.

Definition GetDeviceAddress (path : string) : res (string * string) :=
  let devicePath := path_Join [path; "device"] in
  match EvalSymlinks sys devicePath with
  | Err err => Err (Errorf "resolve %s: %w" [err])
  | Ok retDevicePath => Ok (Base retDevicePath, retDevicePath)
  end.

Definition ReadUevent (drmPath : string) : res (gmap string string) :=
  let devicePath := path_Join [drmPath; "device"] in
  let ueventPath := path_Join [devicePath; "uevent"] in
  match OpenRead sys ueventPath with
  | Err err => Err (Errorf "failed to open %s: %w" [err])
  | Ok (content, read_err) =>
      let '(lines, too_long) := scanner_lines content in
      let uevent := foldl parse_line ∅ lines in
      match (if too_long then Some ErrTooLong else read_err) with
      | Some err => Err (Errorf "failed to scan %s: %w" [err])
      | None =>
          if bool_decide (default "" (uevent !! "DRIVER") = "")
          then Err (errors_New "%s does not contain required field: DRIVER")
          else Ok uevent
      end
  end.

Definition ReadNumaNode (deviceSysfsPath : string) : string :=
  match ReadFile sys (path_Join [deviceSysfsPath; "numa_node"]) with
  | Err _ => "-1"
  | Ok data => TrimSpace data
  end.

End Sysfs.

(** ** [discovery.go] *)

Record Paths : Type := MkPaths {
  DriPath : string;
  AccelPath : string;
  SysfsDriPath : string;
  SysfsAccelPath : string;
}.

(** The messages of the entries that are skipped with a log line. *)
Inductive log_line : Type :=
  | LogStat (path : string) (err : error)
  | LogUevent (path : string) (err : error)
  | LogAddress (path : string) (err : error).

Record progress : Type := Progress {
  found : gmap string Device;
  logged : list log_line;
}.

Definition append_node (n : Node) (d : Device) : Device :=
  MkDevice (DriverName d) (SysfsPath d) (PciID d) (PciAddress d) (NumaNode d)
    (Nodes d ++ [n]).

Section Discover.

Variable sys : system.

(** One iteration of the loop of [discoverDevices]. *)
Definition discover_entry (devPath sysfsPath : string) (st : progress) (file : DirEntry) :
    progress :=
  if de_IsDir file then st
  else if negb (de_CharDevice file) then st
  else
    let fileFullPath := path_Join [devPath; de_Name file] in
    let sysfsFullPath := path_Join [sysfsPath; de_Name file] in
    match Stat_Rdev sys fileFullPath with
    | Err err => Progress (found st) (logged st ++ [LogStat fileFullPath err])
    | Ok rdev =>
        let major := wrap 32 (unix_Major sys rdev) in
        let minor := wrap 32 (unix_Minor sys rdev) in
        match ReadUevent sys sysfsFullPath with
        | Err err => Progress (found st) (logged st ++ [LogUevent sysfsFullPath err])
        | Ok uevent =>
            match GetDeviceAddress sys sysfsFullPath with
            | Err err => Progress (found st) (logged st ++ [LogAddress sysfsFullPath err])
            | Ok (deviceAddress, deviceSysfsPath) =>
                let n := MkNode minor major fileFullPath in
                match found st !! deviceAddress with
                | None =>
                    let device :=
                      MkDevice (default "" (uevent !! "DRIVER")) deviceSysfsPath
                        (default "" (uevent !! "PCI_ID")) deviceAddress
                        (ReadNumaNode sys deviceSysfsPath) [n] in
                    Progress (<[deviceAddress := device]> (found st)) (logged st)
                | Some device =>
                    Progress (<[deviceAddress := append_node n device]> (found st)) (logged st)
                end
            end
        end
    end.

Definition discoverDevices (devPath sysfsPath : string) (st : progress) :
    progress * option error :=
  match ReadDir sys devPath with
  | Err err => (st, Some err)
  | Ok files => (foldl (discover_entry devPath sysfsPath) st files, None)
  end.

(** An error other than a missing directory ends [Discover]. *)
Definition fatal (err : option error) : option error :=
  match err with
  | None => None
  | Some e => if errors_Is fs_ErrNotExist e then None else Some e
  end.

(** [range_order] is the order in which [range devices] visits the map. *)
Definition Discover (range_order : list Device → list Device) (paths : Paths) :
    res (list Device) * list log_line :=
  let '(st, err) := discoverDevices (DriPath paths) (SysfsDriPath paths) (Progress ∅ []) in
  match fatal err with
  | Some e => (Err e, logged st)
  | None =>
      let '(st, err) := discoverDevices (AccelPath paths) (SysfsAccelPath paths) st in
      match fatal err with
      | Some e => (Err e, logged st)
      | None => (Ok (range_order (map_to_list (found st)).*2), logged st)
      end
  end.

End Discover.

(** ** What a uevent file parses to *)

Definition line_value (k line : string) : option string :=
  '(key, value) ← Cut line "="; if bool_decide (key = k) then Some value else None.

(** The last line for a key wins. *)
Lemma parse_lines_lookup m ls k :
  foldl parse_line m ls !! k =
  match last (omap (line_value k) ls) with Some v => Some v | None => m !! k end.
Proof.
  revert m. induction ls as [|l ls IH]; intros m; cbn [foldl omap list_omap]; [done|].
  rewrite IH. unfold line_value at 2, parse_line.
  destruct (Cut l "=") as [[key value]|]; opt_cbn; [|done].
  case_bool_decide as E; [subst|].
  - rewrite last_cons, lookup_insert_eq. by destruct (last _).
  - by rewrite lookup_insert_ne.
Qed.

Definition uevent_line (kv : string * string) : string := String.append kv.1 (String.append "=" kv.2).

(** A key and value that fit on one line of a uevent file. *)
Definition plain (kv : string * string) : Prop :=
  no_char "=" kv.1 = true ∧ no_char newline kv.1 = true ∧ no_char newline kv.2 = true ∧
  CutSuffix (uevent_line kv) (String "013" "") = None ∧
  Z.of_nat (String.length (uevent_line kv)) < max_token_size.

(** The file with one line per pair. *)
Definition uevent_text (kvs : list (string * string)) : string :=
  Join (map uevent_line kvs ++ [""]) (String newline "").

Lemma scan_plain kvs :
  Forall plain kvs →
  scan_lines max_token_size (map uevent_line kvs ++ [""]) = (map uevent_line kvs, false).
Proof.
  induction 1 as [|kv kvs (_ & _ & _ & Hcr & Hlen) Hkvs IH]; [done|].
  cbn [map app]. destruct (map uevent_line kvs ++ [""])%list as [|l ls] eqn:E.
  { by destruct (map uevent_line kvs). }
  cbn [scan_lines]. rewrite bool_decide_eq_false_2 by lia.
  cbn [scan_lines] in IH. rewrite IH. unfold drop_cr, TrimSuffix. by rewrite Hcr.
Qed.

Lemma Split_uevent_text kvs :
  Forall plain kvs → Split (uevent_text kvs) newline = (map uevent_line kvs ++ [""])%list.
Proof.
  intros H. unfold uevent_text. apply Split_Join.
  - by destruct (map uevent_line kvs).
  - apply Forall_app. split; [|by repeat constructor].
    apply Forall_map. eapply Forall_impl; [exact H|].
    intros kv (_ & Hk & Hv & _). unfold no_char, uevent_line in *. cbn.
    rewrite all_chars_app, Hk. cbn. by rewrite Hv.
Qed.

Lemma parse_plain m kvs :
  Forall plain kvs → NoDup kvs.*1 →
  (∀ k, k ∈ kvs.*1 → m !! k = None) →
  foldl parse_line m (map uevent_line kvs) = list_to_map kvs ∪ m.
Proof.
  revert m. induction kvs as [|[k v] kvs IH]; intros m; cbn [map foldl].
  { intros. cbn. by rewrite (left_id_L ∅ (∪)). }
  rewrite Forall_cons. intros [(Heq & _) Hkvs] [Hk Hnd]%NoDup_cons Hm.
  assert (parse_line m (uevent_line (k, v)) = <[k := v]> m) as ->.
  { unfold parse_line. change (uevent_line (k, v)) with
      (String.append k (String.append (String "=" "") v)).
    by rewrite (Cut_first "=" "" k v). }
  rewrite IH; [|done..|].
  - cbn [list_to_map foldr]. rewrite <- insert_union_r; [|by apply not_elem_of_list_to_map_1].
    by rewrite insert_union_l.
  - intros k' Hk'. rewrite lookup_insert_ne by (intros ->; done).
    apply Hm. by right.
Qed.

(** ** Which devices a listing turns into *)

Section Grouping.

Variable sys : system.

(** What a directory entry contributes: the one-node device it would create,
    or nothing when it is skipped. *)
Definition contribution (devPath sysfsPath : string) (file : DirEntry) : option Device :=
  if de_IsDir file || negb (de_CharDevice file) then None
  else
    let full := path_Join [devPath; de_Name file] in
    let sysfs := path_Join [sysfsPath; de_Name file] in
    match Stat_Rdev sys full, ReadUevent sys sysfs, GetDeviceAddress sys sysfs with
    | Ok rdev, Ok uevent, Ok (address, path) =>
        Some (MkDevice (default "" (uevent !! "DRIVER")) path
                (default "" (uevent !! "PCI_ID")) address (ReadNumaNode sys path)
                [MkNode (wrap 32 (unix_Minor sys rdev)) (wrap 32 (unix_Major sys rdev)) full])
    | _, _, _ => None
    end.

(** Contributions to one address accumulate: the first gives the description,
    every one its nodes. *)
Definition accumulate (o : option Device) (d : Device) : option Device :=
  Some match o with
       | None => d
       | Some d0 => MkDevice (DriverName d0) (SysfsPath d0) (PciID d0) (PciAddress d0)
                      (NumaNode d0) (Nodes d0 ++ Nodes d)
       end.

Definition at_address (addr : string) (ds : list Device) : list Device :=
  filter (λ d, PciAddress d = addr) ds.

Lemma discover_entry_found devPath sysfsPath st file addr :
  found (discover_entry sys devPath sysfsPath st file) !! addr =
  foldl accumulate (found st !! addr)
    (at_address addr (option_list (contribution devPath sysfsPath file))).
Proof.
  unfold discover_entry, contribution. cbv zeta.
  destruct (de_IsDir file); [done|]. destruct (de_CharDevice file); [|done]. cbn [negb orb].
  destruct (Stat_Rdev _ _) as [rdev|]; [|done].
  destruct (ReadUevent _ _) as [uevent|]; [|done].
  destruct (GetDeviceAddress _ _) as [[a p]|]; [|done].
  unfold option_list, at_address; cbn [option_rect]. rewrite filter_cons. cbn [PciAddress].
  destruct (found st !! a) as [d|] eqn:E; cbn [found]; case_decide as Ha.
  - subst. rewrite lookup_insert_eq. cbn. by rewrite E.
  - by rewrite lookup_insert_ne.
  - subst. rewrite lookup_insert_eq. cbn. by rewrite E.
  - by rewrite lookup_insert_ne.
Qed.

Lemma discover_entries_found devPath sysfsPath st files addr :
  found (foldl (discover_entry sys devPath sysfsPath) st files) !! addr =
  foldl accumulate (found st !! addr)
    (at_address addr (omap (contribution devPath sysfsPath) files)).
Proof.
  revert st. induction files as [|file files IH]; intros st; cbn [foldl]; [done|].
  rewrite IH, discover_entry_found, <- foldl_app. f_equal.
  unfold at_address. rewrite <- filter_app. f_equal. cbn.
  by destruct (contribution _ _ file).
Qed.

(** The contributions of one directory; a listing that fails gives none. *)
Definition dir_contributions (devPath sysfsPath : string) : list Device :=
  match ReadDir sys devPath with
  | Ok files => omap (contribution devPath sysfsPath) files
  | Err _ => []
  end.

Definition contributions (paths : Paths) : list Device :=
  dir_contributions (DriPath paths) (SysfsDriPath paths) ++
  dir_contributions (AccelPath paths) (SysfsAccelPath paths).

Definition grouped (paths : Paths) (addr : string) : option Device :=
  foldl accumulate None (at_address addr (contributions paths)).

Lemma discoverDevices_found devPath sysfsPath st st' err addr :
  discoverDevices sys devPath sysfsPath st = (st', err) →
  found st' !! addr =
  foldl accumulate (found st !! addr) (at_address addr (dir_contributions devPath sysfsPath)).
Proof.
  unfold discoverDevices, dir_contributions.
  destruct (ReadDir sys devPath) as [files|e]; intros [= <- _]; [|done].
  apply discover_entries_found.
Qed.

Lemma accumulate_address addr o ds d :
  foldl accumulate o (at_address addr ds) = Some d →
  (∀ d0, o = Some d0 → PciAddress d0 = addr) → PciAddress d = addr.
Proof.
  revert o. induction ds as [|d' ds IH]; intros o; [naive_solver|].
  unfold at_address. rewrite filter_cons. case_decide as Hd; [|apply IH].
  intros H Ho. eapply IH; [exact H|]. intros d0 [= <-].
  destruct o; [cbn; by apply Ho|done].
Qed.

Lemma Discover_found range_order paths ds logs :
  (∀ l, range_order l ≡ₚ l) →
  Discover sys range_order paths = (Ok ds, logs) →
  ∃ m : gmap string Device, ds ≡ₚ (map_to_list m).*2 ∧
    ∀ addr, m !! addr = grouped paths addr.
Proof.
  intros Hr. unfold Discover.
  destruct (discoverDevices sys _ _ _) as [st1 e1] eqn:E1.
  destruct (fatal e1); [done|].
  destruct (discoverDevices sys (AccelPath paths) _ st1) as [st2 e2] eqn:E2.
  destruct (fatal e2); [done|]. intros [= <- <-].
  exists (found st2). split; [apply Hr|]. intros addr.
  rewrite (discoverDevices_found _ _ _ _ _ addr E2),
    (discoverDevices_found _ _ _ _ _ addr E1). cbn [found].
  rewrite lookup_empty, <- foldl_app. unfold grouped, contributions, at_address.
  by rewrite filter_app.
Qed.

(** What every contributed node satisfies, every discovered node satisfies. *)
Lemma accumulate_nodes (Pr : Node → Prop) o ds d :
  foldl accumulate o ds = Some d →
  (∀ d0, o = Some d0 → Forall Pr (Nodes d0)) → Forall (λ d, Forall Pr (Nodes d)) ds →
  Forall Pr (Nodes d).
Proof.
  revert o. induction ds as [|d' ds IH]; intros o; cbn [foldl].
  { intros E Ho _. by apply Ho. }
  intros E Ho [Hd' Hds]%Forall_cons. eapply IH; [exact E| |done].
  intros d0 [= <-]. destruct o as [d1|]; [|done]. cbn. apply Forall_app. split; auto.
Qed.

(** The node has the numbers [Stat] reports for its path. *)
Definition statted (n : Node) : Prop :=
  ∃ rdev, Stat_Rdev sys (Path n) = Ok rdev ∧
    Major n = wrap 32 (unix_Major sys rdev) ∧ Minor n = wrap 32 (unix_Minor sys rdev).

Lemma contribution_nodes devPath sysfsPath file d :
  contribution devPath sysfsPath file = Some d → Forall statted (Nodes d).
Proof.
  unfold contribution. destruct (_ || _); [done|]. cbv zeta.
  destruct (Stat_Rdev _ _) as [rdev|] eqn:Es; [|done]. destruct (ReadUevent _ _) as [uevent|]; [|done].
  destruct (GetDeviceAddress _ _) as [[a p]|]; [|done]. intros [= <-]. cbn [Nodes].
  apply Forall_singleton. by exists rdev.
Qed.

Lemma Discover_statted range_order paths ds logs d n :
  (∀ l, range_order l ≡ₚ l) →
  Discover sys range_order paths = (Ok ds, logs) → d ∈ ds → n ∈ Nodes d → statted n.
Proof.
  intros Hr (m & Hds & Hm)%(Discover_found _ _ _ _ Hr) Hd Hn.
  rewrite Hds in Hd. apply list_elem_of_fmap in Hd as ([addr d'] & -> & Hi).
  apply elem_of_map_to_list in Hi. rewrite Hm in Hi. unfold grouped in Hi.
  revert n Hn. apply Forall_forall. eapply accumulate_nodes; [exact Hi|done|].
  apply Forall_forall. intros d [_ Hd]%list_elem_of_filter.
  unfold contributions, dir_contributions in Hd. apply elem_of_app in Hd.
  destruct Hd as [Hd|Hd]; (destruct (ReadDir _ _); [|by apply not_elem_of_nil in Hd]);
    apply list_elem_of_omap in Hd as (file & _ & Hc); by eapply contribution_nodes.
Qed.

Lemma Discover_nodes range_order paths ds logs d n :
  (∀ l, range_order l ≡ₚ l) →
  Discover sys range_order paths = (Ok ds, logs) → d ∈ ds → n ∈ Nodes d →
  in_width 32 (Major n) ∧ in_width 32 (Minor n).
Proof.
  intros Hr Hds Hd Hn. destruct (Discover_statted _ _ _ _ _ _ Hr Hds Hd Hn) as (rdev & _ & -> & ->).
  split; apply wrap_in_width; lia.
Qed.

End Grouping.

(** ** Properties *)

(** [ReadUevent] inverts the uevent format: on a file with one
    [KEY=VALUE] line per pair, keys distinct and without "=" (values may
    contain "="), it returns exactly these pairs, and an error when [DRIVER] is
    missing or empty. *)
Theorem ReadUevent_roundtrip sys path kvs :
  OpenRead sys (path_Join [path_Join [path; "device"]; "uevent"]) =
    Ok (uevent_text kvs, None) →
  Forall plain kvs → NoDup kvs.*1 →
  ReadUevent sys path =
    (if bool_decide (default "" ((list_to_map kvs : gmap string string) !! "DRIVER") = "")
     then Err (errors_New "%s does not contain required field: DRIVER")
     else Ok (list_to_map kvs)).
Proof.
  intros Ho Hp Hnd. unfold ReadUevent. rewrite Ho. unfold scanner_lines.
  rewrite Split_uevent_text, scan_plain by done. cbv beta iota zeta.
  rewrite parse_plain by (done || by intros; apply lookup_empty).
  by rewrite (right_id_L ∅ (∪)).
Qed.

(** The last line for a key wins, whatever else the file holds: when
    [ReadUevent] succeeds, [DRIVER] is present and not empty, no line was too
    long and the file was read to its end, and each key is bound to the value
    of the last line that starts with it and "=". *)
Theorem ReadUevent_last_wins sys path uevent :
  ReadUevent sys path = Ok uevent →
  ∃ content, OpenRead sys (path_Join [path_Join [path; "device"]; "uevent"]) =
      Ok (content, None) ∧
    (scanner_lines content).2 = false ∧
    (∀ k, uevent !! k = last (omap (line_value k) (scanner_lines content).1)) ∧
    ∃ driver, uevent !! "DRIVER" = Some driver ∧ driver ≠ "".
Proof.
  unfold ReadUevent. destruct (OpenRead _ _) as [[content read_err]|]; [|done].
  destruct (scanner_lines content) as [lines too_long] eqn:E.
  destruct too_long; [done|]. destruct read_err; [done|]. cbv zeta.
  case_bool_decide as Hd; [done|]. intros [= <-].
  exists content. rewrite E. split_and!; [done..| |].
  - intros k. rewrite parse_lines_lookup, lookup_empty. by destruct (last _).
  - destruct (foldl parse_line ∅ lines !! "DRIVER") as [d|]; [|done]. by exists d.
Qed.

(** C27: [Discover] groups by PCI address: each address appears at most once in
    the result, a device is in the result exactly when it is the grouping of
    the usable directory entries with its address, its description comes from
    the first of them, and its nodes are theirs, in directory order, the DRI
    directory before the accel directory. *)
Theorem Discover_groups sys range_order paths ds logs :
  (∀ l, range_order l ≡ₚ l) →
  Discover sys range_order paths = (Ok ds, logs) →
  NoDup (PciAddress <$> ds) ∧
  ∀ d, d ∈ ds ↔ grouped sys paths (PciAddress d) = Some d.
Proof.
  intros Hr (m & Hds & Hm)%(Discover_found _ _ _ _ _ Hr).
  assert (Hk : ∀ addr d, m !! addr = Some d → PciAddress d = addr).
  { intros addr d. rewrite Hm. intros H. eapply accumulate_address; [exact H|done]. }
  split.
  - rewrite Hds. rewrite <- list_fmap_compose.
    rewrite (list_fmap_ext _ fst); [apply NoDup_fst_map_to_list|].
    intros i [addr d] Hi%list_elem_of_lookup_2%elem_of_map_to_list. by apply Hk.
  - intros d. rewrite Hds, list_elem_of_fmap. split.
    + intros ([addr d'] & -> & Hi%elem_of_map_to_list). cbn.
      by rewrite (Hk addr d' Hi), <- Hm.
    + rewrite <- Hm. intros Hd. exists (PciAddress d, d). split; [done|].
      by apply elem_of_map_to_list.
Qed.

(** A missing device directory is not an error and leaves the other
    directory's devices; any other failure to list a directory ends
    [Discover] with that error and no devices. *)
Theorem Discover_errors sys range_order paths :
  let dir_error p := match ReadDir sys p with Ok _ => None | Err e => fatal (Some e) end in
  match dir_error (DriPath paths), dir_error (AccelPath paths) with
  | Some e, _ => (Discover sys range_order paths).1 = Err e
  | None, Some e => (Discover sys range_order paths).1 = Err e
  | None, None => is_ok (Discover sys range_order paths).1 = true
  end.
Proof.
  cbn zeta. unfold Discover, discoverDevices.
  destruct (ReadDir sys (DriPath paths)) as [f1|e1];
    destruct (ReadDir sys (AccelPath paths)) as [f2|e2]; cbn;
    repeat (destruct (errors_Is _ _); cbn); done.
Qed.

(** ** A node with one iGPU, for the witnesses *)

Module SampleFs.

Definition i915_uevent : list (string * string) := [
  ("DRIVER", "i915");
  ("PCI_CLASS", "30000");
  ("PCI_ID", "8086:5917");
  ("PCI_SUBSYS_ID", "1028:081A");
  ("PCI_SLOT_NAME", "0000:00:02.0");
  ("MODALIAS", "pci:v00008086d00005917sv00001028sd0000081Abc03sc00i00")].

Definition not_exist : error := Errorf "open" [Sentinel fs_ErrNotExist].

(** [unix.Major] and [unix.Minor] as the Linux userspace encoding has them. *)
Definition major_of (dev : Z) : Z :=
  Z.lor (Z.shiftr (Z.land dev 0xfff00) 8) (Z.shiftr (Z.land dev 0xfffff00000000000) 32).
Definition minor_of (dev : Z) : Z :=
  Z.lor (Z.land dev 0xff) (Z.shiftr (Z.land dev 0xffffff00000) 12).

Definition sys : system := {|
  ReadDir p :=
    if String.eqb p "/dev/dri"
    then Ok [MkDirEntry "by-path" true false; MkDirEntry "card1" false true;
             MkDirEntry "renderD128" false true]
    else Err not_exist;
  Stat_Rdev p :=
    if String.eqb p "/dev/dri/card1" then Ok (226 * 256 + 1)
    else if String.eqb p "/dev/dri/renderD128" then Ok (226 * 256 + 128)
    else Err not_exist;
  OpenRead p :=
    if HasSuffix p "/device/uevent" then Ok (uevent_text i915_uevent, None) else Err not_exist;
  ReadFile p :=
    if HasSuffix p "/numa_node" then Ok (String.append "-1" (String newline "")) else Err not_exist;
  EvalSymlinks p := Ok "/sys/devices/pci0000:00/0000:00:02.0";
  unix_Major := major_of;
  unix_Minor := minor_of;
|}.

Definition paths : Paths := MkPaths "/dev/dri" "/dev/accel" "/sys/class/drm" "/sys/class/accel".

Definition device : Device :=
  MkDevice "i915" "/sys/devices/pci0000:00/0000:00:02.0" "8086:5917" "0000:00:02.0" "-1"
    [MkNode 1 226 "/dev/dri/card1"; MkNode 128 226 "/dev/dri/renderD128"].

Lemma i915_plain : Forall plain i915_uevent.
Proof. unfold plain. by_decide. Qed.

(** The listing becomes one device with two nodes. *)
Example Discover_runs : Discover sys id paths = (Ok [device], []).
Proof. vm_compute. reflexivity. Qed.

End SampleFs.

Lemma ReadUevent_roundtrip_witness :
  ReadUevent SampleFs.sys "/sys/class/drm/card1" = Ok (list_to_map SampleFs.i915_uevent).
Proof.
  apply (ReadUevent_roundtrip SampleFs.sys "/sys/class/drm/card1" SampleFs.i915_uevent).
  - vm_compute. reflexivity.
  - exact SampleFs.i915_plain.
  - by_decide.
Defined.

Lemma ReadUevent_last_wins_witness :
  ∃ content, OpenRead SampleFs.sys
      (path_Join [path_Join ["/sys/class/drm/card1"; "device"]; "uevent"]) = Ok (content, None) ∧
    (scanner_lines content).2 = false ∧
    (∀ k, (list_to_map SampleFs.i915_uevent : gmap string string) !! k =
       last (omap (line_value k) (scanner_lines content).1)) ∧
    ∃ driver, (list_to_map SampleFs.i915_uevent : gmap string string) !! "DRIVER" = Some driver
      ∧ driver ≠ "".
Proof.
  apply (ReadUevent_last_wins SampleFs.sys "/sys/class/drm/card1").
  vm_compute. reflexivity.
Defined.

Lemma Discover_groups_witness :
  NoDup (PciAddress <$> [SampleFs.device]) ∧
  ∀ d, d ∈ [SampleFs.device] ↔ grouped SampleFs.sys SampleFs.paths (PciAddress d) = Some d.
Proof.
  apply (Discover_groups SampleFs.sys id SampleFs.paths [SampleFs.device] []).
  - reflexivity.
  - vm_compute. reflexivity.
Defined.
