(* ===== verification/DiscoveryTest.v ===== *)
(** * [pkg/discovery/discovery_test.go]: the repository's tests, run on the model

    Each test of the source is a closed boolean over the definitions of
    [Discovery], on the file system the test builds; the [testdata] files are
    written out. The kernel evaluates all of them to true, as [go test] finds
    them passing. *)

From S2P Require Import Prelude.
From S2P Require Import GoStrings.
From S2P Require Import Hw.
From S2P Require Import Discovery.

Local Open Scope Z_scope.

(** ** A file system for the tests *)

Inductive file : Type :=
  | Regular (content : string)
  | Directory (entries : list DirEntry)
  | Symlink (target : string).

Definition files : Type := list (string * file).

Definition file_at (fs : files) (path : string) : option file :=
  snd <$> find (λ '(p, _), String.eqb p path) fs.

Definition not_exist : error := Errorf "open: %w" [Sentinel fs_ErrNotExist].
Definition ENOTDIR : error := Sentinel "syscall.ENOTDIR".
Definition EISDIR : error := Sentinel "syscall.EISDIR".

Definition content_at (fs : files) (path : string) : res string :=
  match file_at fs path with
  | Some (Regular content) => Ok content
  | Some _ => Err EISDIR
  | None => Err not_exist
  end.

(** The calls on files whose parents are not links; a test opens no device. *)
Definition system_of (fs : files) : system := {|
  ReadDir path :=
    match file_at fs path with
    | Some (Directory entries) => Ok entries
    | Some _ => Err ENOTDIR
    | None => Err not_exist
    end;
  Stat_Rdev path := match file_at fs path with Some _ => Ok 0 | None => Err not_exist end;
  OpenRead path := (λ content, (content, None)) <$> content_at fs path;
  ReadFile := content_at fs;
  EvalSymlinks path :=
    match file_at fs path with
    | Some (Symlink target) =>
        match file_at fs target with Some _ => Ok target | None => Err not_exist end
    | Some _ => Ok path
    | None => Err not_exist
    end;
  unix_Major rdev := rdev / 256;
  unix_Minor rdev := rdev mod 256;
|}.

(** ** The files under [testdata] *)

Definition text_of (ls : list string) : string := Join (ls ++ [""]) (String newline "").

Definition testdata : files := [
  ("testdata/i915/device/uevent", Regular (text_of [
     "DRIVER=i915"; "PCI_CLASS=30000"; "PCI_ID=8086:5917"; "PCI_SUBSYS_ID=1028:081A";
     "PCI_SLOT_NAME=0000:00:02.0";
     "MODALIAS=pci:v00008086d00005917sv00001028sd0000081Abc03sc00i00"]));
  ("testdata/missing-driver/device/uevent", Regular (text_of [
     "PCI_CLASS=30000"; "PCI_ID=8086:5917"; "PCI_SUBSYS_ID=1028:081A";
     "PCI_SLOT_NAME=0000:00:02.0"]));
  ("testdata/no-pci-id/device/uevent", Regular (text_of [
     "DRIVER=panthor"; "OF_NAME=gpu"; "OF_FULLNAME=/soc/gpu@fb000000";
     "OF_COMPATIBLE_0=rockchip,rk3588-mali"; "MODALIAS=of:NgpuT(null)Crockchip,rk3588-mali"]));
  ("testdata/equals-in-value/device/uevent", Regular (text_of [
     "DRIVER=i915"; "PCI_ID=8086:5917"; "MODALIAS=pci:v00008086d00005917=extra"]))].

(** [got, want := uevent[key], value] of a uevent that was read without error. *)
Definition has_value (r : res (gmap string string)) (key value : string) : bool :=
  match r with Ok uevent => String.eqb (default "" (uevent !! key)) value | Err _ => false end.

(** ** The tests *)

Definition TestReadUevent : list bool :=
  let read path := ReadUevent (system_of testdata) path in [
  (* reads i915 uevent *)
  has_value (read "testdata/i915") "DRIVER" "i915" &&
  has_value (read "testdata/i915") "PCI_ID" "8086:5917";
  (* missing DRIVER returns error *)
  match read "testdata/missing-driver" with Err _ => true | Ok _ => false end;
  (* missing PCI_ID is allowed *)
  has_value (read "testdata/no-pci-id") "DRIVER" "panthor" &&
  match read "testdata/no-pci-id" with
  | Ok uevent => match uevent !! "PCI_ID" with None => true | Some _ => false end
  | Err _ => false
  end;
  (* value containing equals is preserved *)
  has_value (read "testdata/equals-in-value") "MODALIAS" "pci:v00008086d00005917=extra"].

Definition TestGetDeviceAddress : list bool := [
  (* resolves device symlink *)
  (let root := [("/tmp/001/i915", Directory []); ("/tmp/001/0000:02:00.0", Directory []);
                ("/tmp/001/i915/device", Symlink "/tmp/001/0000:02:00.0")] in
   match GetDeviceAddress (system_of root) "/tmp/001/i915" with
   | Ok (address, sysfsPath) =>
       String.eqb address "0000:02:00.0" && String.eqb sysfsPath "/tmp/001/0000:02:00.0"
   | Err _ => false
   end);
  (* missing device symlink returns error *)
  (let root := [("/tmp/001", Directory [])] in
   match GetDeviceAddress (system_of root) "/tmp/001" with Err _ => true | Ok _ => false end)].

Section TestDiscover.

Variable range_order : list Device → list Device.

Definition empty_result (fs : files) (paths : Paths) : bool :=
  match fst (Discover (system_of fs) range_order paths) with
  | Ok devices => Nat.eqb (length devices) 0
  | Err _ => false
  end.

Definition TestDiscover : list bool := [
  (* missing dri and accel paths returns empty result *)
  empty_result []
    (MkPaths "/tmp/001/dri" "/tmp/002/accel" "/tmp/003/sysfs-dri" "/tmp/004/sysfs-accel");
  (* unreadable dri path returns error *)
  match fst (Discover (system_of [("/tmp/001/dri", Regular "")]) range_order
               (MkPaths "/tmp/001/dri" "/tmp/001/missing-accel" "/tmp/001/sysfs-dri"
                        "/tmp/001/missing-sysfs-accel")) with
  | Err err => negb (errors_Is fs_ErrNotExist err)
  | Ok _ => false
  end;
  (* empty dri and missing accel returns empty result *)
  empty_result [("/tmp/001/dri", Directory []); ("/tmp/001/sysfs-dri", Directory [])]
    (MkPaths "/tmp/001/dri" "/tmp/001/missing-accel" "/tmp/001/sysfs-dri"
             "/tmp/001/missing-sysfs-accel")].

End TestDiscover.

Definition TestReadNumaNode : list bool := [
  (* reads numa node *)
  String.eqb (ReadNumaNode (system_of [("/tmp/001/numa_node", Regular (text_of ["1"]))])
                "/tmp/001") "1";
  (* missing file returns -1 *)
  String.eqb (ReadNumaNode (system_of []) "/tmp/001") "-1"].

(** ** Properties *)

(** Every test of the package passes on the model, whatever order the map of
    devices is ranged in, as long as no device comes from an empty map. *)
Theorem tests_pass range_order :
  range_order [] = [] →
  forallb id TestReadUevent = true ∧ forallb id TestGetDeviceAddress = true ∧
  forallb id (TestDiscover range_order) = true ∧ forallb id TestReadNumaNode = true.
Proof.
  intros H. split_and!; [by vm_compute|by vm_compute| |by vm_compute].
  assert (Hl : (map_to_list (∅ : gmap string Device)).*2 = []) by by vm_compute.
  unfold TestDiscover, empty_result, Discover, discoverDevices.
  cbn -[map_to_list]. by rewrite Hl, H.
Qed.

Lemma tests_pass_witness : forallb id (TestDiscover id) = true.
Proof. apply (tests_pass id eq_refl). Defined.
