(* ===== verification/Cgroup.v ===== *)
(** * [pkg/podmap/cgroup.go]: from a cgroup id to pod and container ids

    The parser of cgroup paths, and the index from cgroup inode numbers to
    paths that is built by walking the cgroup file system. Time is an explicit
    monotonic clock in nanoseconds. The theorems give the two path formats of
    the kubelet's cgroup drivers as round trips, classify the errors, and say
    what the walk indexes. *)

From S2P Require Import Prelude.
From S2P Require Import GoStrings.

Local Open Scope Z_scope.

Definition ErrNotPod : error := Sentinel "podmap.ErrNotPod".
Definition ErrNotIndexed : error := Sentinel "podmap.ErrNotIndexed".

Record ToIDs : Type := MkToIDs {
  PodUID : string;
  ContainerID : string;
}.

(** ** Parsing *)

Definition is_hex_char (c : ascii) : bool :=
  let n := nat_of_ascii c in
  negb ((bool_decide (n < 48) || bool_decide (57 < n)) &&
        (bool_decide (n < 97) || bool_decide (102 < n)))%nat.

Definition isHex (s : string) : bool :=
  if String.eqb s "" then false else all_chars is_hex_char s.

Definition podUIDFromPart (part : string) : option string :=
  if HasPrefix part "kubepods-" && HasSuffix part ".slice" then
    match Cut (TrimSuffix part ".slice") "-pod" with
    | None => None
    | Some (_, uid) => if String.eqb uid "" then None else Some (ReplaceAll uid "_" "-")
    end
  else
    match CutPrefix part "pod" with
    | None => None
    | Some uid => if String.eqb uid "" then None else Some uid
    end.

Definition containerIDFromPart (part : string) : res string :=
  let id := TrimSuffix part ".scope" in
  let id := match LastIndex id "-" with
            | Some idx => slice_from (idx + 1) id
            | None => id
            end in
  if negb (isHex id) then Err (errors_New "invalid container cgroup %q") else Ok id.

(** The loop of [parseCgroupPath] over the remaining parts. *)
Fixpoint scan_parts (isKubepods : bool) (parts : list string) : res ToIDs :=
  match parts with
  | [] => Err (errors_New "pod UID not found in %q")
  | part :: rest =>
      if negb isKubepods && negb (HasPrefix part "kubepods") then scan_parts false rest
      else
        match podUIDFromPart part with
        | None => scan_parts true rest
        | Some podUID =>
            match rest with
            | [] => Err (errors_New "container ID not found in cgroup path %q")
            | next :: _ =>
                if String.eqb next ""
                then Err (errors_New "container ID not found in cgroup path %q")
                else
                  match containerIDFromPart next with
                  | Err err => Err (Errorf "%w in cgroup path %q" [err])
                  | Ok containerID => Ok (MkToIDs podUID containerID)
                  end
            end
        end
  end.

Definition parseCgroupPath (path : string) : res ToIDs :=
  if negb (Contains path "kubepods") then Err ErrNotPod
  else scan_parts false (Split (ToSlash path) "/").

(** ** The index *)

(** A file system tree as [WalkDir] meets it: a directory has a name, the
    inode its [Info()] gives ([None] when that fails), the entries its listing
    returned, and the error of the listing, if any. *)
Inductive fsnode : Type :=
  | FDir (name : string) (ino : option Z) (readdir_err : option error) (entries : list fsnode)
  | FOther (name : string).

Definition fs_name (n : fsnode) : string :=
  match n with FDir name _ _ _ | FOther name => name end.

(** [filepath.WalkDir] with a callback on a state: it stops at the first error
    the callback returns. [lstat] is the root's tree or the error of its
    [Lstat]. *)
Section WalkDir.

Context {M : Type}.
Variable fn : string → option fsnode → option error → M → M * option error.

Fixpoint walkDir (path : string) (d : fsnode) (m : M) {struct d} : M * option error :=
  match fn path (Some d) None m with
  | (m, Some err) => (m, Some err)
  | (m, None) =>
      match d with
      | FOther _ => (m, None)
      | FDir _ _ readdir_err entries =>
          match (match readdir_err with
                 | Some err => fn path (Some d) (Some err) m
                 | None => (m, None)
                 end) with
          | (m, Some err) => (m, Some err)
          | (m, None) =>
              (fix walk_entries (l : list fsnode) (m : M) : M * option error :=
                 match l with
                 | [] => (m, None)
                 | e :: l =>
                     match walkDir (path_Join [path; fs_name e]) e m with
                     | (m, Some err) => (m, Some err)
                     | (m, None) => walk_entries l m
                     end
                 end) entries m
          end
      end
  end.

Definition WalkDir (root : string) (lstat : res fsnode) (m : M) : M * option error :=
  match lstat with
  | Err err => fn root None (Some err) m
  | Ok d => walkDir root d m
  end.

End WalkDir.

(** The callback of [buildCgroupInodeMap]. *)
Definition index_entry (path : string) (d : option fsnode) (err : option error)
    (byInode : gmap Z string) : gmap Z string * option error :=
  match err with
  | Some _ => (byInode, None)
  | None =>
      match d with
      | Some (FDir _ ino _ _) =>
          match ino with
          | None => (byInode, None)
          | Some i => (<[i := path]> byInode, None)
          end
      | _ => (byInode, None)
      end
  end.

Definition buildCgroupInodeMap (root : string) (lstat : res fsnode) : res (gmap Z string) :=
  match WalkDir index_entry root lstat ∅ with
  | (_, Some err) => Err err
  | (byInode, None) => Ok byInode
  end.

Record Index : Type := MkIndex {
  byInode : gmap Z string;
  root : string;
  lastUpdated : Z;
  interval : Z;
}.

(** The cgroup file system and clock a call sees: the tree at a path, the time
    of its [time.Since] and the time of its [time.Now]. *)
Record moment : Type := Moment {
  tree : string → res fsnode;
  now_since : Z;
  now_after : Z;
}.

Definition BuildCgroupIndex (t : moment) (root : string) (interval : Z) : res Index :=
  match buildCgroupInodeMap root (tree t root) with
  | Err err => Err err
  | Ok byInode => Ok (MkIndex byInode root (now_after t) interval)
  end.

Definition RebuildCgroupIndex (t : moment) (idx : Index) : Index * res bool :=
  if bool_decide (now_since t - lastUpdated idx < interval idx) then (idx, Ok false)
  else
    match buildCgroupInodeMap (root idx) (tree t (root idx)) with
    | Err err => (idx, Err err)
    | Ok byInode => (MkIndex byInode (root idx) (now_after t) (interval idx), Ok true)
    end.

Definition Lookup (idx : Index) (inode : Z) : res string :=
  match byInode idx !! inode with
  | None => Err ErrNotIndexed
  | Some path => Ok path
  end.

Definition ParseCgroupToIDs (idx : Index) (cgroupID : Z) : res ToIDs :=
  match Lookup idx cgroupID with
  | Err err => Err err
  | Ok path => parseCgroupPath path
  end.

(** ** What the kubelet's cgroup drivers write *)

(** Quality-of-service classes: the guaranteed class has no directory of its
    own. *)
Inductive qos : Type := Guaranteed | Burstable | BestEffort.

(** The systemd driver: slices are named by their path from the root, a UID
    has its dashes escaped to underscores, a container is a scope named after
    its runtime. *)
Definition systemd_parts (q : qos) (uid runtime cid : string) : list string :=
  let pod := String.append (ReplaceAll uid "-" "_") ".slice" in
  let container := String.append runtime (String.append "-" (String.append cid ".scope")) in
  match q with
  | Guaranteed => ["kubepods.slice"; String.append "kubepods-pod" pod; container]
  | Burstable => ["kubepods.slice"; "kubepods-burstable.slice";
                  String.append "kubepods-burstable-pod" pod; container]
  | BestEffort => ["kubepods.slice"; "kubepods-besteffort.slice";
                   String.append "kubepods-besteffort-pod" pod; container]
  end.

(** The cgroupfs driver: plain directory names. *)
Definition cgroupfs_parts (q : qos) (uid cid : string) : list string :=
  match q with
  | Guaranteed => ["kubepods"; String.append "pod" uid; cid]
  | Burstable => ["kubepods"; "burstable"; String.append "pod" uid; cid]
  | BestEffort => ["kubepods"; "besteffort"; String.append "pod" uid; cid]
  end.

Definition path_of (root_parts parts below : list string) : string :=
  Join (root_parts ++ parts ++ below) "/".

(** ** Lemmas: characters and parts *)

Lemma is_hex_not (c x : ascii) :
  is_hex_char x = false → is_hex_char c = true → negb (Ascii.eqb c x) = true.
Proof. intros Hx Hc. destruct (Ascii.eqb_spec c x); [congruence|done]. Qed.

Lemma isHex_all s : isHex s = true ↔ s ≠ "" ∧ all_chars is_hex_char s = true.
Proof. unfold isHex. destruct (String.eqb_spec s ""); naive_solver. Qed.

Lemma isHex_no_char s x :
  is_hex_char x = false → isHex s = true → no_char x s = true.
Proof.
  intros Hx [_ Hs]%isHex_all. unfold no_char.
  eapply all_chars_impl; [|exact Hs]. intros c. by apply is_hex_not.
Qed.

Lemma isHex_no_suffix s x y :
  is_hex_char x = false → isHex s = true → CutSuffix s (String x y) = None.
Proof.
  intros Hx [_ Hs]%isHex_all. destruct (CutSuffix s _) as [r|] eqn:E; [|done].
  apply CutSuffix_Some in E as ->. rewrite all_chars_app in Hs. cbn in Hs.
  by rewrite Hx, andb_false_r in Hs.
Qed.

Lemma containerID_scope runtime cid :
  isHex cid = true →
  containerIDFromPart
    (String.append runtime (String.append "-" (String.append cid ".scope"))) = Ok cid.
Proof.
  intros Hc. unfold containerIDFromPart. cbn [String.append].
  assert (TrimSuffix (String.append runtime (String "-" (String.append cid ".scope"))) ".scope"
    = String.append runtime (String "-" cid)) as ->.
  { rewrite <- (TrimSuffix_app (String.append runtime (String "-" cid)) ".scope").
    f_equal. by rewrite append_assoc. }
  rewrite LastIndex_app by (by apply isHex_no_char). rewrite slice_from_app. by rewrite Hc.
Qed.

Lemma containerID_plain cid : isHex cid = true → containerIDFromPart cid = Ok cid.
Proof.
  intros Hc. unfold containerIDFromPart, TrimSuffix.
  rewrite isHex_no_suffix by done. cbn [default].
  rewrite LastIndex_None by (by apply isHex_no_char). by rewrite Hc.
Qed.

Lemma containerID_hex part cid :
  containerIDFromPart part = Ok cid → isHex cid = true.
Proof.
  unfold containerIDFromPart. cbv zeta.
  destruct (isHex _) eqn:E; [|done]. by intros [= <-].
Qed.

Lemma ReplaceAll_nonempty s old new : s ≠ "" → ReplaceAll s old new ≠ "".
Proof. by destruct s. Qed.

Lemma podUID_slice (q : qos) uid :
  uid ≠ "" → no_char "_" uid = true →
  podUIDFromPart (String.append
    match q with
    | Guaranteed => "kubepods-pod"
    | Burstable => "kubepods-burstable-pod"
    | BestEffort => "kubepods-besteffort-pod"
    end (String.append (ReplaceAll uid "-" "_") ".slice")) = Some uid.
Proof.
  intros Hne Hu. set (u := ReplaceAll uid "-" "_").
  assert (Hu' : u ≠ "") by by apply ReplaceAll_nonempty.
  assert (Hback : ReplaceAll u "_" "-" = uid) by by apply ReplaceAll_undo.
  clearbody u. unfold podUIDFromPart.
  rewrite <- append_assoc, TrimSuffix_app.
  assert (HasSuffix (String.append (String.append
    match q with
    | Guaranteed => "kubepods-pod"
    | Burstable => "kubepods-burstable-pod"
    | BestEffort => "kubepods-besteffort-pod"
    end u) ".slice") ".slice" = true) as ->.
  { apply HasSuffix_spec. eauto. }
  destruct q; cbn; (destruct (String.eqb_spec u ""); [done|]);
    exact (f_equal Some Hback).
Qed.

Lemma podUID_plain uid : uid ≠ "" → podUIDFromPart (String.append "pod" uid) = Some uid.
Proof.
  intros Hne. unfold podUIDFromPart. cbn.
  by destruct (String.eqb_spec uid "").
Qed.

(** ** Lemmas: the scan *)

Lemma scan_skip pre l :
  Forall (λ p, HasPrefix p "kubepods" = false) pre →
  scan_parts false (pre ++ l) = scan_parts false l.
Proof. induction 1 as [|p pre Hp _ IH]; cbn; [done|]. by rewrite Hp. Qed.

Lemma scan_found b p l uid next cid :
  (b = true ∨ HasPrefix p "kubepods" = true) →
  podUIDFromPart p = Some uid → next ≠ "" → containerIDFromPart next = Ok cid →
  scan_parts b (p :: next :: l) = Ok (MkToIDs uid cid).
Proof.
  intros Hb Hp Hn Hc. cbn. rewrite Hp, Hc.
  destruct (String.eqb_spec next ""); [done|]. by destruct b, Hb as [?| ->].
Qed.

Lemma scan_next b p l :
  (b = true ∨ HasPrefix p "kubepods" = true) →
  podUIDFromPart p = None → scan_parts b (p :: l) = scan_parts true l.
Proof. intros Hb Hp. cbn. rewrite Hp. by destruct b, Hb as [?| ->]. Qed.

Lemma Join_part p parts sep :
  p ∈ parts → ∃ b a, Join parts sep = String.append b (String.append p a).
Proof.
  induction parts as [|x parts IH]; [by intros ?%not_elem_of_nil|].
  intros [<-|Hp]%elem_of_cons.
  - exists "". destruct parts; cbn.
    + exists "". by rewrite append_nil_r.
    + eauto.
  - destruct (IH Hp) as (b & a & E).
    exists (String.append x (String.append sep b)), a.
    rewrite Join_cons by (by destruct parts; [apply not_elem_of_nil in Hp|]).
    rewrite E. by rewrite !append_assoc.
Qed.

(** A path whose components are given is scanned component by component. *)
Lemma parse_components parts p :
  Forall (λ c, no_char "/" c = true) parts → p ∈ parts →
  HasPrefix p "kubepods" = true →
  parseCgroupPath (Join parts "/") = scan_parts false parts.
Proof.
  intros Hs Hp [r Hr]%HasPrefix_spec. unfold parseCgroupPath, ToSlash.
  rewrite (Split_Join parts "/"); [|by intros ->; apply not_elem_of_nil in Hp|done].
  destruct (Join_part p parts "/" Hp) as (b & a & E).
  assert (Contains (Join parts "/") "kubepods" = true) as ->; [|done].
  apply Contains_spec. exists b, (String.append r a). by rewrite E, Hr, append_assoc.
Qed.

Lemma no_char_ReplaceAll x s old new :
  x ≠ new → no_char x s = true → no_char x (ReplaceAll s old new) = true.
Proof.
  intros Hn. unfold no_char. induction s as [|c s IH]; cbn; [done|].
  rewrite !andb_true_iff. intros [Hc Hs]. split; [|by apply IH].
  destruct (Ascii.eqb c old); [|done]. by destruct (Ascii.eqb_spec new x).
Qed.

Lemma no_char_append x a b :
  no_char x a = true → no_char x b = true → no_char x (String.append a b) = true.
Proof. unfold no_char. rewrite all_chars_app. by intros -> ->. Qed.

Lemma hex_ne_string s : isHex s = true → s ≠ "".
Proof. by intros [? _]%isHex_all. Qed.

Lemma append_ne_r a b : b ≠ "" → String.append a b ≠ "".
Proof. by destruct a. Qed.

(** ** Lemmas: the walk *)

(** The directories of a tree with their paths, parents first. *)
Fixpoint dirs (path : string) (d : fsnode) : list (Z * string) :=
  match d with
  | FOther _ => []
  | FDir _ ino _ entries =>
      (match ino with Some i => [(i, path)] | None => [] end) ++
      (fix dirs_list (l : list fsnode) : list (Z * string) :=
         match l with
         | [] => []
         | e :: l => dirs (path_Join [path; fs_name e]) e ++ dirs_list l
         end) entries
  end.

Definition index_all (m : gmap Z string) (l : list (Z * string)) : gmap Z string :=
  foldl (λ m '(i, p), <[i := p]> m) m l.

(** Induction over trees, entries included. *)
Fixpoint fsnode_ind' (Pr : fsnode → Prop)
    (Hd : ∀ name ino err entries, Forall Pr entries → Pr (FDir name ino err entries))
    (Ho : ∀ name, Pr (FOther name)) (d : fsnode) : Pr d :=
  match d with
  | FDir name ino err entries =>
      Hd name ino err entries
        ((fix go (l : list fsnode) : Forall Pr l :=
            match l with
            | [] => List.Forall_nil _
            | e :: l => List.Forall_cons _ e l (fsnode_ind' Pr Hd Ho e) (go l)
            end) entries)
  | FOther name => Ho name
  end.

(** The walk visits every directory and never fails. *)
Lemma walkDir_index d path m :
  walkDir index_entry path d m = (index_all m (dirs path d), None).
Proof.
  revert path m. induction d as [name ino err entries IH|name] using fsnode_ind';
    intros path m; [|done].
  cbn [walkDir dirs]. unfold index_entry at 1.
  set (m1 := match ino with Some i => <[i := path]> m | None => m end).
  assert (match ino with
          | Some i => (<[i := path]> m, None)
          | None => (m, None)
          end = (m1, @None error)) as -> by by destruct ino.
  assert (match err with
          | Some e => index_entry path (Some (FDir name ino err entries)) (Some e) m1
          | None => (m1, None)
          end = (m1, @None error)) as -> by by destruct err.
  unfold index_all. rewrite foldl_app.
  assert (foldl (λ m '(i, p), <[i:=p]> m) m
    match ino with Some i => [(i, path)] | None => [] end = m1) as -> by by destruct ino.
  clearbody m1. revert m1. induction IH as [|e l He _ IHl]; intros m1; [done|].
  rewrite He, IHl. unfold index_all. by rewrite foldl_app.
Qed.

Lemma index_all_lookup m l i p :
  NoDup l.*1 → (∀ j, j ∈ l.*1 → m !! j = None) →
  index_all m l !! i = Some p ↔ (i, p) ∈ l ∨ m !! i = Some p.
Proof.
  revert m. induction l as [|[j q] l IH]; intros m; cbn.
  { intros. split; [by right|]. by intros [?%not_elem_of_nil|?]. }
  intros [Hj Hnd]%NoDup_cons Hm. rewrite IH; [|done|].
  - rewrite elem_of_cons. destruct (decide (j = i)) as [->|Hne].
    + rewrite lookup_insert_eq. split.
      * intros [?|[= ->]]; [by left; right|by left; left].
      * intros [[[= ->]|?]|H]; [by right|by left|].
        rewrite Hm in H; [done|]. by left.
    + rewrite lookup_insert_ne by done. naive_solver.
  - intros k Hk. rewrite lookup_insert_ne by (intros ->; done). apply Hm. by right.
Qed.

Lemma buildCgroupInodeMap_eq root lstat :
  buildCgroupInodeMap root lstat =
  Ok (match lstat with Err _ => ∅ | Ok d => index_all ∅ (dirs root d) end).
Proof.
  unfold buildCgroupInodeMap, WalkDir. destruct lstat as [d|e]; [|done].
  by rewrite walkDir_index.
Qed.

Lemma RebuildCgroupIndex_eq t idx :
  RebuildCgroupIndex t idx =
  if bool_decide (now_since t - lastUpdated idx < interval idx) then (idx, Ok false)
  else (MkIndex (match tree t (root idx) with
                 | Err _ => ∅
                 | Ok d => index_all ∅ (dirs (root idx) d)
                 end) (root idx) (now_after t) (interval idx), Ok true).
Proof. unfold RebuildCgroupIndex. by rewrite buildCgroupInodeMap_eq. Qed.

(** ** Lemmas: errors of the parser *)

Lemma scan_parts_error b parts err :
  scan_parts b parts = Err err →
  errors_Is "podmap.ErrNotPod" err = false ∧ errors_Is "podmap.ErrNotIndexed" err = false ∧
  errors_Is "podmap.ErrContainerNotFound" err = false.
Proof.
  revert b. induction parts as [|p parts IH]; intros b; cbn; [by intros [= <-]|].
  destruct (negb b && _); [apply IH|].
  destruct (podUIDFromPart p); [|apply IH].
  destruct parts as [|next parts]; [by intros [= <-]|].
  destruct (String.eqb next ""); [by intros [= <-]|].
  unfold containerIDFromPart. cbv zeta. destruct (negb _); [|done].
  by intros [= <-].
Qed.

Lemma parseCgroupPath_error path err :
  parseCgroupPath path = Err err →
  errors_Is "podmap.ErrNotPod" err = negb (Contains path "kubepods") ∧
  errors_Is "podmap.ErrNotIndexed" err = false ∧
  errors_Is "podmap.ErrContainerNotFound" err = false.
Proof.
  unfold parseCgroupPath. destruct (Contains path "kubepods"); cbn [negb].
  - intros (-> & -> & ->)%scan_parts_error. done.
  - by intros [= <-].
Qed.

Lemma scan_parts_Ok b parts ids :
  scan_parts b parts = Ok ids → PodUID ids ≠ "" ∧ isHex (ContainerID ids) = true.
Proof.
  assert (Huid : ∀ p uid, podUIDFromPart p = Some uid → uid ≠ "").
  { intros p uid. unfold podUIDFromPart. destruct (_ && _).
    - destruct (Cut _ _) as [[? u]|]; [|done]. destruct (String.eqb_spec u ""); [done|].
      intros [= <-]. by apply ReplaceAll_nonempty.
    - destruct (CutPrefix _ _) as [u|]; [|done]. destruct (String.eqb_spec u ""); [done|].
      by intros [= <-]. }
  revert b. induction parts as [|p parts IH]; intros b; cbn; [done|].
  destruct (negb b && _); [apply IH|].
  destruct (podUIDFromPart p) as [uid|] eqn:E; [|apply IH].
  destruct parts as [|next parts]; [done|].
  destruct (String.eqb next ""); [done|].
  destruct (containerIDFromPart next) as [cid|] eqn:Ec; [|done]. intros [= <-]. split.
  - by eapply Huid.
  - by eapply containerID_hex.
Qed.

(** ** Properties *)

(** Step over the parts of a path that are known and hold no pod UID. *)
Ltac scan_known :=
  repeat (rewrite scan_next;
          [|first [by left | by right; vm_compute]|by vm_compute]).

(** Systemd driver round trip: for every QoS class, the path the kubelet's
    systemd driver gives a container — whatever the runtime prefix of the
    scope, and whatever cgroups the container creates below it — parses back
    to the pod UID with its dashes and to the container id. *)
Theorem parse_systemd_path q uid runtime cid root_parts below :
  uid ≠ "" → no_char "_" uid = true → no_char "/" uid = true →
  no_char "/" runtime = true → isHex cid = true →
  Forall (λ c, no_char "/" c = true ∧ HasPrefix c "kubepods" = false) root_parts →
  Forall (λ c, no_char "/" c = true) below →
  parseCgroupPath (path_of root_parts (systemd_parts q uid runtime cid) below) =
    Ok (MkToIDs uid cid).
Proof.
  intros Hne Hu Hus Hrs Hc Hroot Hbelow.
  assert (Hcs : no_char "/" cid = true) by by apply isHex_no_char.
  assert (Hus' : no_char "/" (ReplaceAll uid "-" "_") = true) by by apply no_char_ReplaceAll.
  unfold path_of. rewrite (parse_components _ "kubepods.slice"); cycle 1.
  - rewrite !Forall_app. split_and!; [|destruct q; cbn|done].
    + eapply Forall_impl; [exact Hroot|]. by intros c [? _].
    + repeat constructor; repeat apply (no_char_append "/"); done.
    + repeat constructor; repeat apply (no_char_append "/"); done.
    + repeat constructor; repeat apply (no_char_append "/"); done.
  - apply elem_of_app. right. apply elem_of_app. left. by destruct q; left.
  - done.
  - rewrite scan_skip; cycle 1.
    { eapply Forall_impl; [exact Hroot|]. by intros c [_ ?]. }
    pose proof (podUID_slice q uid Hne Hu) as Hp.
    destruct q; unfold systemd_parts; cbv zeta; cbn [app];
      scan_known;
      (apply scan_found; [by left|exact Hp| |by apply containerID_scope]);
      by apply append_ne_r.
Qed.

Lemma parse_systemd_path_witness :
  parseCgroupPath (path_of [""; "sys"; "fs"; "cgroup"]
    (systemd_parts Burstable "0a1b-2c" "cri-containerd" "079adc") ["init"]) =
    Ok (MkToIDs "0a1b-2c" "079adc").
Proof.
  apply (parse_systemd_path Burstable "0a1b-2c" "cri-containerd" "079adc").
  - done.
  - reflexivity.
  - reflexivity.
  - reflexivity.
  - reflexivity.
  - by_decide.
  - by_decide.
Defined.

(** Cgroupfs driver round trip: the plain directory layout of the kubelet's
    cgroupfs driver parses back to the pod UID and the container id. *)
Theorem parse_cgroupfs_path q uid cid root_parts below :
  uid ≠ "" → no_char "/" uid = true → isHex cid = true →
  Forall (λ c, no_char "/" c = true ∧ HasPrefix c "kubepods" = false) root_parts →
  Forall (λ c, no_char "/" c = true) below →
  parseCgroupPath (path_of root_parts (cgroupfs_parts q uid cid) below) =
    Ok (MkToIDs uid cid).
Proof.
  intros Hne Hus Hc Hroot Hbelow.
  assert (Hcs : no_char "/" cid = true) by by apply isHex_no_char.
  unfold path_of. rewrite (parse_components _ "kubepods"); cycle 1.
  - rewrite !Forall_app. split_and!; [|destruct q; cbn; by repeat constructor|done].
    eapply Forall_impl; [exact Hroot|]. by intros c [? _].
  - apply elem_of_app. right. apply elem_of_app. left. by destruct q; left.
  - done.
  - rewrite scan_skip; cycle 1.
    { eapply Forall_impl; [exact Hroot|]. by intros c [_ ?]. }
    pose proof (podUID_plain uid Hne) as Hp.
    destruct q; unfold cgroupfs_parts; cbn [app];
      scan_known;
      (apply scan_found; [by left|exact Hp|by apply hex_ne_string|by apply containerID_plain]).
Qed.

Lemma parse_cgroupfs_path_witness :
  parseCgroupPath (path_of [""; "sys"; "fs"; "cgroup"]
    (cgroupfs_parts Guaranteed "0a1b-2c" "079adc") []) = Ok (MkToIDs "0a1b-2c" "079adc").
Proof.
  apply (parse_cgroupfs_path Guaranteed "0a1b-2c" "079adc").
  - done.
  - reflexivity.
  - reflexivity.
  - by_decide.
  - by_decide.
Defined.

(** C23: Round trip for both cgroup drivers of the kubelet: for every QoS class,
    the path a driver gives a container — whatever the directories above the
    hierarchy, the runtime prefix of the systemd scope, and the cgroups the
    container creates below it — parses back to the pod UID, with its dashes,
    and to the container id. The systemd driver writes dashes as underscores,
    so its UIDs have none of their own. *)
Theorem parse_kubelet_path q uid cid root_parts below :
  uid ≠ "" → no_char "/" uid = true → isHex cid = true →
  Forall (λ c, no_char "/" c = true ∧ HasPrefix c "kubepods" = false) root_parts →
  Forall (λ c, no_char "/" c = true) below →
  parseCgroupPath (path_of root_parts (cgroupfs_parts q uid cid) below) = Ok (MkToIDs uid cid) ∧
  (no_char "_" uid = true → ∀ runtime, no_char "/" runtime = true →
   parseCgroupPath (path_of root_parts (systemd_parts q uid runtime cid) below) =
     Ok (MkToIDs uid cid)).
Proof.
  intros. split; [by apply parse_cgroupfs_path|]. intros. by apply parse_systemd_path.
Qed.

Lemma parse_kubelet_path_witness :
  parseCgroupPath (path_of [""; "sys"; "fs"; "cgroup"]
    (cgroupfs_parts Guaranteed "0a1b-2c" "079adc") ["init"]) = Ok (MkToIDs "0a1b-2c" "079adc") ∧
  parseCgroupPath (path_of [""; "sys"; "fs"; "cgroup"]
    (systemd_parts Guaranteed "0a1b-2c" "cri-containerd" "079adc") ["init"]) =
    Ok (MkToIDs "0a1b-2c" "079adc").
Proof.
  destruct (parse_kubelet_path Guaranteed "0a1b-2c" "079adc" [""; "sys"; "fs"; "cgroup"] ["init"])
    as [Hc Hs].
  - done.
  - reflexivity.
  - reflexivity.
  - by_decide.
  - by_decide.
  - exact (conj Hc (Hs eq_refl "cri-containerd" eq_refl)).
Defined.

(** What a parse means: an accepted path mentions [kubepods] and yields a
    non-empty pod UID and a non-empty lowercase hexadecimal container id; the
    error is [ErrNotPod] exactly for the paths that do not mention [kubepods],
    and never one of the other sentinels the agent distinguishes. *)
Theorem parseCgroupPath_results path :
  match parseCgroupPath path with
  | Ok ids => Contains path "kubepods" = true ∧ PodUID ids ≠ "" ∧
              ContainerID ids ≠ "" ∧ all_chars is_hex_char (ContainerID ids) = true
  | Err err => errors_Is "podmap.ErrNotPod" err = negb (Contains path "kubepods") ∧
               errors_Is "podmap.ErrNotIndexed" err = false ∧
               errors_Is "podmap.ErrContainerNotFound" err = false
  end.
Proof.
  destruct (parseCgroupPath path) as [ids|err] eqn:E; [|by apply parseCgroupPath_error].
  unfold parseCgroupPath in E. destruct (Contains path "kubepods"); [|done].
  apply scan_parts_Ok in E as [? [? ?]%isHex_all]. done.
Qed.

(** The walk indexes every directory and cannot fail: whatever listings,
    [Info] calls or the root's [Lstat] fail, [buildCgroupInodeMap] returns a
    map; when the inodes of the tree are distinct, an inode is bound to a path
    exactly when a directory with that inode is reachable at that path. *)
Theorem buildCgroupInodeMap_complete root lstat :
  match buildCgroupInodeMap root lstat with
  | Err _ => False
  | Ok m =>
      match lstat with
      | Err _ => m = ∅
      | Ok d => NoDup (dirs root d).*1 →
                ∀ ino path, m !! ino = Some path ↔ (ino, path) ∈ dirs root d
      end
  end.
Proof.
  rewrite buildCgroupInodeMap_eq. destruct lstat as [d|e]; [|done].
  intros Hnd ino path. rewrite index_all_lookup by (done || by intros; apply lookup_empty).
  rewrite lookup_empty. naive_solver.
Qed.

(** The rebuild is rate limited and otherwise always succeeds: before the
    interval has passed since the last build, [RebuildCgroupIndex] changes
    nothing and reports no rebuild; afterwards it replaces the map by that of
    the current tree, keeps root and interval, and stamps the time. *)
Theorem RebuildCgroupIndex_spec t idx :
  let '(idx', r) := RebuildCgroupIndex t idx in
  if bool_decide (now_since t - lastUpdated idx < interval idx)
  then idx' = idx ∧ r = Ok false
  else r = Ok true ∧ lastUpdated idx' = now_after t ∧
       root idx' = root idx ∧ interval idx' = interval idx ∧
       Ok (byInode idx') = buildCgroupInodeMap (root idx) (tree t (root idx)).
Proof.
  rewrite RebuildCgroupIndex_eq. case_bool_decide; [done|].
  split_and!; [done..|]. cbn. by rewrite buildCgroupInodeMap_eq.
Qed.
