(* ===== verification/PodMap.v ===== *)
(** * [pkg/podmap]: container names from the CRI, cached per cgroup

    [cri.go] and [podmap.go]. The CRI runtime is a parameter: what its
    [ContainerStatus] answers for a container id, and which of its errors carry
    the [NotFound] status. A lookup is a function of the map, the cgroup id and
    its surroundings: the clock readings it makes and the cgroup tree a rebuild
    would walk. The map is used by the single worker of the agent, and its
    locks protect single reads and writes, so a call is one step. *)

From S2P Require Import Prelude.
From S2P Require Import GoStrings.
From S2P Require Import Cgroup.

Local Open Scope Z_scope.

(** ** [cri.go] *)

Definition podNamespaceLabel : string := "io.kubernetes.pod.namespace".
Definition podNameLabel : string := "io.kubernetes.pod.name".
Definition containerNameLabel : string := "io.kubernetes.container.name".

Definition ErrContainerNotFound : error := Sentinel "podmap.ErrContainerNotFound".

Record ContainerInfo : Type := MkContainerInfo {
  Namespace : string;
  PodName : string;
  ContainerName : string;
}.

(** The runtime behind the socket. [ContainerStatus] answers a nil response, a
    response with a nil status, or the labels of the container. *)
Record runtime : Type := Runtime {
  ContainerStatus : string → res (option (option (gmap string string)));
  is_NotFound : error → bool;    (** [status.Code(err) == codes.NotFound] *)
}.

Definition ContainerNames (c : runtime) (containerID : string) : res ContainerInfo :=
  if String.eqb containerID "" then Err (errors_New "container ID is empty")
  else
    match ContainerStatus c containerID with
    | Err err =>
        if is_NotFound c err
        then Err (Errorf "%w: %s" [ErrContainerNotFound])
        else Err (Errorf "get status for container %q: %w" [err])
    | Ok None | Ok (Some None) =>
        Err (errors_New "CRI returned empty status for container %q")
    | Ok (Some (Some labels)) =>
        let info := MkContainerInfo
          (default "" (labels !! podNamespaceLabel))
          (default "" (labels !! podNameLabel))
          (default "" (labels !! containerNameLabel)) in
        if String.eqb (Namespace info) "" || String.eqb (PodName info) ""
           || String.eqb (ContainerName info) ""
        then Err (Errorf "%w: container %q has no Kubernetes labels" [ErrNotPod])
        else Ok info
    end.

(** [NewCRIClient]: the connection is closed again when the runtime does not
    answer [Version] within the timeout. The second result says whether
    [conn.Close] was called. *)
Definition NewCRIClient {conn : Type} (grpc_NewClient : res conn)
    (Version : Z → option error) (socket : string) (criTimeout : Z) : res conn * bool :=
  if String.eqb socket "" then (Err (errors_New "CRI socket is empty"), false)
  else
    match grpc_NewClient with
    | Err err => (Err (Errorf "create CRI client for socket %q: %w" [err]), false)
    | Ok c =>
        match Version criTimeout with
        | Some err => (Err (Errorf "connect to CRI socket %q: %w" [err]), true)
        | None => (Ok c, false)
        end
    end.

(** ** [podmap.go] *)

Record cacheEntry : Type := CacheEntry {
  info : ContainerInfo;
  storedAt : Z;
}.

Record PodMap : Type := MkPodMap {
  index : Index;
  cache : gmap Z cacheEntry;
  cacheTTL : Z;
  cgroupIndexRebuilds : Z;
}.

(** [NewPodMap]; [client] is what [NewCRIClient] returns for the socket and
    timeout. *)
Definition NewPodMap {conn : Type} (t : moment) (client : string → Z → res conn)
    (cgroupRoot criSocket : string) (interval criTimeout cacheTTL : Z) :
    res (PodMap * conn) :=
  if String.eqb cgroupRoot "" then Err (errors_New "cgroup root is empty")
  else if String.eqb criSocket "" then Err (errors_New "CRI socket is empty")
  else if bool_decide (interval ≤ 0) then Err (errors_New "interval must be positive")
  else if bool_decide (cacheTTL ≤ 0) then Err (errors_New "cache TTL must be positive")
  else
    match BuildCgroupIndex t cgroupRoot interval with
    | Err err => Err (Errorf "build cgroup index: %w" [err])
    | Ok index =>
        match client criSocket criTimeout with
        | Err err => Err (Errorf "create CRI client: %w" [err])
        | Ok cri => Ok (MkPodMap index ∅ cacheTTL 0, cri)
        end
    end.

Lemma NewPodMap_Ok {conn : Type} t (client : string → Z → res conn) cgroupRoot criSocket
    interval criTimeout ttl p c :
  NewPodMap t client cgroupRoot criSocket interval criTimeout ttl = Ok (p, c) →
  0 < interval ∧ 0 < ttl ∧ client criSocket criTimeout = Ok c ∧
  BuildCgroupIndex t cgroupRoot interval = Ok (index p) ∧
  cache p = ∅ ∧ cacheTTL p = ttl ∧ cgroupIndexRebuilds p = 0.
Proof.
  unfold NewPodMap. destruct (String.eqb cgroupRoot ""); [done|].
  destruct (String.eqb criSocket ""); [done|].
  case_bool_decide; [done|]. case_bool_decide; [done|].
  destruct (BuildCgroupIndex _ _ _) as [idx|]; [|done].
  destruct (client _ _) as [cl|] eqn:Ec; [|done]. intros [= <- <-].
  split_and!; try done; lia.
Qed.

(** The surroundings of one call: the clock at the cache check and at the cache
    store, the moment a rebuild would happen, and the runtime. *)
Record lookup_env : Type := LookupEnv {
  at_cache : Z;
  at_store : Z;
  at_rebuild : moment;
  cri : runtime;
}.

Section PodMap.

Variable e : lookup_env.

(** The tail of [ContainerInfo]: ask the CRI and cache a success. *)
Definition fetch_names (cgroupID : Z) (ids : ToIDs) (p : PodMap) :
    PodMap * res ContainerInfo :=
  match ContainerNames (cri e) (ContainerID ids) with
  | Err err => (p, Err (Errorf "get container info for cgroup %d: %w" [err]))
  | Ok i =>
      (MkPodMap (index p) (<[cgroupID := CacheEntry i (at_store e)]> (cache p))
         (cacheTTL p) (cgroupIndexRebuilds p), Ok i)
  end.

(** The cached answer, when there is one younger than the TTL. *)
Definition cached (cgroupID : Z) (p : PodMap) : option ContainerInfo :=
  entry ← cache p !! cgroupID;
  if bool_decide (at_cache e - storedAt entry < cacheTTL p) then Some (info entry) else None.

(** [PodMap.ContainerInfo] *)
Definition container_info (cgroupID : Z) (p : PodMap) : PodMap * res ContainerInfo :=
  if bool_decide (cgroupID = 0) then (p, Err (errors_New "cgroup ID is empty"))
  else
    match cached cgroupID p with
    | Some i => (p, Ok i)
    | None =>
        match ParseCgroupToIDs (index p) cgroupID with
        | Ok ids => fetch_names cgroupID ids p
        | Err err =>
            if errors_Is "podmap.ErrNotIndexed" err then
              match RebuildCgroupIndex (at_rebuild e) (index p) with
              | (idx, Err rerr) =>
                  (MkPodMap idx (cache p) (cacheTTL p) (cgroupIndexRebuilds p),
                   Err (Errorf "rebuild cgroup index: %w" [rerr]))
              | (idx, Ok false) =>
                  (MkPodMap idx (cache p) (cacheTTL p) (cgroupIndexRebuilds p), Err err)
              | (idx, Ok true) =>
                  let p := MkPodMap idx ∅ (cacheTTL p) (wrap 64 (cgroupIndexRebuilds p + 1)) in
                  match ParseCgroupToIDs idx cgroupID with
                  | Err err => (p, Err (Errorf "parse cgroup %d after rebuild: %w" [err]))
                  | Ok ids => fetch_names cgroupID ids p
                  end
              end
            else (p, Err (Errorf "parse cgroup %d: %w" [err]))
        end
    end.

End PodMap.

Definition CgroupIndexRebuilds (p : PodMap) : Z := cgroupIndexRebuilds p.

(** [PodMap.Close] and [CRIClient.Close], nil receivers and connections
    included. *)
Definition CRIClient_Close {conn : Type} (conn_Close : conn → option error)
    (c : option (option conn)) : option error :=
  match c with
  | Some (Some conn) => conn_Close conn
  | _ => None
  end.

Definition PodMap_Close {conn : Type} (conn_Close : conn → option error)
    (p : option (option (option conn))) : option error :=
  match p with
  | Some (Some c) => CRIClient_Close conn_Close (Some c)
  | _ => None
  end.

(** ** The rules of a lookup

    The specification of [container_info] as rules, one per way a lookup can
    end: what it answers and what state it leaves. *)

Definition named (i : ContainerInfo) : Prop :=
  Namespace i ≠ "" ∧ PodName i ≠ "" ∧ ContainerName i ≠ "".

#[export] Instance named_dec i : Decision (named i).
Proof. unfold named. apply _. Defined.

Definition wf_podmap (p : PodMap) : Prop := map_Forall (λ _ ent, named (info ent)) (cache p).

(** The state after a rebuild at [t]. *)
Definition rebuilt_at (t : moment) (p : PodMap) : PodMap :=
  MkPodMap (MkIndex (match tree t (root (index p)) with
                     | Err _ => ∅
                     | Ok d => index_all ∅ (dirs (root (index p)) d)
                     end) (root (index p)) (now_after t) (interval (index p)))
    ∅ (cacheTTL p) (wrap 64 (cgroupIndexRebuilds p + 1)).

Definition stored (cg : Z) (ent : cacheEntry) (p : PodMap) : PodMap :=
  MkPodMap (index p) (<[cg := ent]> (cache p)) (cacheTTL p) (cgroupIndexRebuilds p).

Definition rate_limited (e : lookup_env) (p : PodMap) : Prop :=
  now_since (at_rebuild e) - lastUpdated (index p) < interval (index p).

#[export] Instance rate_limited_dec e p : Decision (rate_limited e p).
Proof. unfold rate_limited. apply _. Defined.

(** The index in which the id is looked up for good: the current one, or that
    of the rebuild when the id is missing and a rebuild is due. *)
Inductive settles (e : lookup_env) (cg : Z) (p : PodMap) : PodMap → Prop :=
  | settles_indexed path :
      byInode (index p) !! cg = Some path → settles e cg p p
  | settles_rebuilt :
      byInode (index p) !! cg = None → ¬ rate_limited e p →
      settles e cg p (rebuilt_at (at_rebuild e) p).

Inductive answers (e : lookup_env) (cg : Z) (p : PodMap) :
    PodMap → res ContainerInfo → Prop :=
  | answers_zero :
      cg = 0 → answers e cg p p (Err (errors_New "cgroup ID is empty"))
  | answers_hit ent :
      cg ≠ 0 → cache p !! cg = Some ent → at_cache e - storedAt ent < cacheTTL p →
      answers e cg p p (Ok (info ent))
  | answers_rate_limited :
      cg ≠ 0 → cached e cg p = None → byInode (index p) !! cg = None →
      rate_limited e p → answers e cg p p (Err ErrNotIndexed)
  | answers_missing f :
      cg ≠ 0 → cached e cg p = None → byInode (index p) !! cg = None →
      ¬ rate_limited e p → byInode (index (rebuilt_at (at_rebuild e) p)) !! cg = None →
      answers e cg p (rebuilt_at (at_rebuild e) p) (Err (Errorf f [ErrNotIndexed]))
  | answers_unparsed p1 path err f :
      cg ≠ 0 → cached e cg p = None → settles e cg p p1 →
      byInode (index p1) !! cg = Some path → parseCgroupPath path = Err err →
      answers e cg p p1 (Err (Errorf f [err]))
  | answers_cri_error p1 path ids err f :
      cg ≠ 0 → cached e cg p = None → settles e cg p p1 →
      byInode (index p1) !! cg = Some path → parseCgroupPath path = Ok ids →
      ContainerNames (cri e) (ContainerID ids) = Err err →
      answers e cg p p1 (Err (Errorf f [err]))
  | answers_named p1 path ids i :
      cg ≠ 0 → cached e cg p = None → settles e cg p p1 →
      byInode (index p1) !! cg = Some path → parseCgroupPath path = Ok ids →
      ContainerNames (cri e) (ContainerID ids) = Ok i →
      answers e cg p (stored cg (CacheEntry i (at_store e)) p1) (Ok i).

Lemma cached_Some e cg p i :
  cached e cg p = Some i ↔
  ∃ ent, cache p !! cg = Some ent ∧ at_cache e - storedAt ent < cacheTTL p ∧ info ent = i.
Proof.
  unfold cached. destruct (cache p !! cg) as [ent|]; opt_cbn; [|naive_solver].
  case_bool_decide; naive_solver.
Qed.

Lemma fetch_answers e cg p p1 path ids :
  cg ≠ 0 → cached e cg p = None → settles e cg p p1 →
  byInode (index p1) !! cg = Some path → parseCgroupPath path = Ok ids →
  answers e cg p (fetch_names e cg ids p1).1 (fetch_names e cg ids p1).2.
Proof.
  intros. unfold fetch_names.
  destruct (ContainerNames _ _) as [i|err] eqn:E; cbn [fst snd].
  - by eapply answers_named.
  - by eapply answers_cri_error.
Qed.

Lemma ParseCgroupToIDs_eq idx cg :
  ParseCgroupToIDs idx cg =
  match byInode idx !! cg with None => Err ErrNotIndexed | Some path => parseCgroupPath path end.
Proof. unfold ParseCgroupToIDs, Lookup. by destruct (_ !! _). Qed.

(** The definition follows the rules. *)
Lemma container_info_answers e cg p :
  answers e cg p (container_info e cg p).1 (container_info e cg p).2.
Proof.
  unfold container_info. case_bool_decide as Hz; [by constructor|].
  destruct (cached e cg p) as [i|] eqn:Hc.
  { apply cached_Some in Hc as (ent & ? & ? & <-). by apply answers_hit. }
  rewrite !ParseCgroupToIDs_eq.
  destruct (byInode (index p) !! cg) as [path|] eqn:Hi.
  - assert (settles e cg p p) as Hs by by econstructor.
    destruct (parseCgroupPath path) as [ids|err] eqn:Hp.
    + by eapply fetch_answers.
    + destruct (parseCgroupPath_error _ _ Hp) as (_ & -> & _). by eapply answers_unparsed.
  - change (errors_Is "podmap.ErrNotIndexed" ErrNotIndexed) with true. cbv iota.
    rewrite RebuildCgroupIndex_eq. case_bool_decide as Hr.
    { destruct p. by apply answers_rate_limited. }
    set (p1 := rebuilt_at (at_rebuild e) p).
    assert (settles e cg p p1) as Hs by by constructor.
    change (MkIndex _ _ _ _) with (index p1). cbv zeta.
    change (MkPodMap _ _ _ _) with p1. rewrite ParseCgroupToIDs_eq.
    destruct (byInode (index p1) !! cg) as [path|] eqn:Hi1.
    + destruct (parseCgroupPath path) as [ids|err] eqn:Hp.
      * by eapply fetch_answers.
      * by eapply answers_unparsed.
    + by apply answers_missing.
Qed.

(** [container_info] as an equation from its two results. *)
Lemma container_info_inv e cg p p' r :
  container_info e cg p = (p', r) → answers e cg p p' r.
Proof. intros E. pose proof (container_info_answers e cg p) as H. by rewrite E in H. Qed.

Lemma container_info_settled e cg p p1 path ids i :
  cg ≠ 0 → cached e cg p = None → settles e cg p p1 →
  byInode (index p1) !! cg = Some path → parseCgroupPath path = Ok ids →
  ContainerNames (cri e) (ContainerID ids) = Ok i →
  container_info e cg p = (stored cg (CacheEntry i (at_store e)) p1, Ok i).
Proof.
  intros Hz Hc Hs Hi Hp Hn. unfold container_info.
  rewrite bool_decide_eq_false_2, Hc, !ParseCgroupToIDs_eq by done.
  destruct Hs as [path' Hi0|Hi0 Hr].
  - rewrite Hi, Hp. unfold fetch_names. by rewrite Hn.
  - rewrite Hi0. change (errors_Is "podmap.ErrNotIndexed" ErrNotIndexed) with true. cbv iota.
    rewrite RebuildCgroupIndex_eq, bool_decide_eq_false_2 by done.
    cbv zeta. rewrite ParseCgroupToIDs_eq. cbn in Hi. cbn [byInode].
    rewrite Hi, Hp. unfold fetch_names. by rewrite Hn.
Qed.

Lemma container_info_rate_limited e cg p :
  cg ≠ 0 → cached e cg p = None → byInode (index p) !! cg = None → rate_limited e p →
  container_info e cg p = (p, Err ErrNotIndexed).
Proof.
  intros Hz Hc Hi Hr. unfold container_info.
  rewrite bool_decide_eq_false_2, Hc, ParseCgroupToIDs_eq, Hi by done.
  change (errors_Is "podmap.ErrNotIndexed" ErrNotIndexed) with true. cbv iota.
  rewrite RebuildCgroupIndex_eq, bool_decide_eq_true_2 by done. by destruct p.
Qed.

Lemma container_info_hit e cg p ent :
  cg ≠ 0 → cache p !! cg = Some ent → at_cache e - storedAt ent < cacheTTL p →
  container_info e cg p = (p, Ok (info ent)).
Proof.
  intros Hz Hc Ht. unfold container_info. rewrite bool_decide_eq_false_2 by done.
  assert (cached e cg p = Some (info ent)) as ->; [|done].
  apply cached_Some. eauto.
Qed.

Lemma ContainerNames_named c cid i : ContainerNames c cid = Ok i → named i.
Proof.
  unfold ContainerNames. destruct (String.eqb cid ""); [done|].
  destruct (ContainerStatus c cid) as [[[labels|]|]|err]; [|done..|by destruct (is_NotFound c err)].
  cbv zeta. destruct (_ || _) eqn:E; [done|]. intros [= <-].
  rewrite !orb_false_iff, !String.eqb_neq in E. unfold named. tauto.
Qed.

(** The TTL is a constant of the map. *)
Lemma answers_cacheTTL e cg p p' r : answers e cg p p' r → cacheTTL p' = cacheTTL p.
Proof. by destruct 1; try done; match goal with H : settles _ _ _ _ |- _ => destruct H end. Qed.

Lemma answers_wf e cg p p' r : answers e cg p p' r → wf_podmap p → wf_podmap p'.
Proof.
  assert (Hs : ∀ p1, settles e cg p p1 → wf_podmap p → wf_podmap p1)
    by (by intros p1 []; [|intros _; apply map_Forall_empty]).
  destruct 1; intros Hwf; try done; eauto using map_Forall_empty.
  apply map_Forall_insert_2; [|by eapply Hs]. by eapply ContainerNames_named.
Qed.

Lemma answers_Ok_named e cg p p' i : answers e cg p p' (Ok i) → wf_podmap p → named i.
Proof.
  inversion 1; subst; intros Hwf.
  - by eapply Hwf.
  - by eapply ContainerNames_named.
Qed.

(** ** What the agent relies on: an interface to resolve cgroup ids *)

Class Resolver (St Env : Type) : Type :=
  resolve : Env → Z → St → St * res ContainerInfo.

Class ResolverOk (St Env : Type) `{!Resolver St Env} : Type := {
  resolver_inv : St → Prop;
  resolve_inv env cg s : resolver_inv s → resolver_inv (resolve env cg s).1;
  resolve_named env cg s i :
    resolver_inv s → (resolve env cg s).2 = Ok i → named i;
}.

#[export] Instance PodMap_Resolver : Resolver PodMap lookup_env := container_info.

#[export] Program Instance PodMap_ResolverOk : ResolverOk PodMap lookup_env :=
  {| resolver_inv := wf_podmap |}.
Next Obligation. intros e cg p. eapply answers_wf, container_info_answers. Qed.
Next Obligation.
  intros e cg p i Hwf Hr. eapply answers_Ok_named; [|done].
  rewrite <- Hr. apply container_info_answers.
Qed.

(** ** Histories of lookups *)

Definition run_lookups (calls : list (lookup_env * Z)) (p : PodMap) : PodMap :=
  foldl (λ p '(e, cg), (container_info e cg p).1) p calls.

(** The runtime of the call [e] gave these names for the container id in the
    path that [idx] binds to the cgroup. *)
Definition identified (e : lookup_env) (cg : Z) (idx : Index) (i : ContainerInfo) : Prop :=
  ∃ path ids, byInode idx !! cg = Some path ∧ parseCgroupPath path = Ok ids ∧
              ContainerNames (cri e) (ContainerID ids) = Ok i.

Definition vouched (past : list (lookup_env * Z)) (p : PodMap) : Prop :=
  ∀ cg ent, cache p !! cg = Some ent →
    ∃ e, (e, cg) ∈ past ∧ identified e cg (index p) (info ent) ∧ storedAt ent = at_store e.

Lemma vouched_more past past' p : vouched past p → vouched (past ++ past') p.
Proof.
  intros H cg ent (e & ? & ?)%H. exists e. rewrite elem_of_app. tauto.
Qed.

Lemma vouched_settles past e cg p p1 :
  settles e cg p p1 → vouched past p → vouched past p1.
Proof. destruct 1; [done|]. intros _ cg' ent Hc. cbn in Hc. by rewrite lookup_empty in Hc. Qed.

Lemma vouched_answers past e cg p p' r :
  answers e cg p p' r → vouched past p → vouched (past ++ [(e, cg)]) p'.
Proof.
  assert (He : vouched (past ++ [(e, cg)]) (rebuilt_at (at_rebuild e) p)).
  { intros cg' ent Hc. cbn in Hc. by rewrite lookup_empty in Hc. }
  assert (Hs : ∀ p1, settles e cg p p1 → vouched past p → vouched (past ++ [(e, cg)]) p1).
  { intros. eapply vouched_more, vouched_settles; eauto. }
  destruct 1 as [| | | |p1|p1|p1 path ids i]; intros Hv; auto using vouched_more.
  intros cg' ent. cbn [cache stored].
  rewrite lookup_insert_Some. intros [[<- <-]|[_ Hc]].
  - exists e. rewrite elem_of_app, elem_of_cons. split_and!; [auto| |done].
    exists path, ids. auto.
  - by apply (Hs p1).
Qed.

Lemma run_lookups_vouched calls p :
  cache p = ∅ → vouched calls (run_lookups calls p) ∧
                cacheTTL (run_lookups calls p) = cacheTTL p.
Proof.
  intros Hp. induction calls as [|[e cg] calls [IH Ht]] using rev_ind; cbn.
  - split; [|done]. intros cg ent. by rewrite Hp, lookup_empty.
  - unfold run_lookups in *. rewrite foldl_app. cbn.
    set (q := foldl _ p calls) in *. pose proof (container_info_answers e cg q) as Ha.
    split; [by eapply vouched_answers|]. rewrite <- Ht. by eapply answers_cacheTTL.
Qed.

(** A node with one container, [abc] of the pod [7], and a map that was built
    before it started. *)
Module Sample.

Definition d : fsnode :=
  FDir "cgroup" (Some 1) None
    [FDir "kubepods" (Some 2) None [FDir "pod7" (Some 3) None [FDir "abc" (Some 4) None []]]].

Definition path : string := "/cg/kubepods/pod7/abc".
Definition ids : ToIDs := MkToIDs "7" "abc".
Definition i : ContainerInfo := MkContainerInfo "ml" "trainer" "main".

Definition c : runtime :=
  Runtime
    (λ cid, if String.eqb cid "abc"
            then Ok (Some (Some (<[podNamespaceLabel := "ml"]> (<[podNameLabel := "trainer"]>
                                   {[containerNameLabel := "main"]}))))
            else Err (errors_New "rpc error: code = NotFound"))
    (λ _, true).

(** Lookups at time [t], rebuilds included. *)
Definition at_time (t : Z) : lookup_env := LookupEnv t t (Moment (λ _, Ok d) t t) c.

Definition before : PodMap := MkPodMap (MkIndex ∅ "/cg" 0 5) ∅ 60 0.

Definition after : PodMap := (container_info (at_time 7) 4 before).1.

End Sample.

(** ** Properties *)

(** C19: Every answer is current: in any history of lookups on a map whose
    cache starts empty, a lookup that answers names does so because the CRI
    runtime gave exactly these names — in this lookup, or in an earlier one for
    the same cgroup whose answer is younger than the TTL — for the container id
    in the path that the current index (the one after this lookup, rebuilds
    included) binds to the cgroup. No answer survives a rebuild or the TTL. *)
Theorem container_info_current calls p e cg p' i :
  cache p = ∅ → container_info e cg (run_lookups calls p) = (p', Ok i) →
  ∃ e', (e', cg) ∈ calls ++ [(e, cg)] ∧ identified e' cg (index p') i ∧
        (e' = e ∨ at_cache e - at_store e' < cacheTTL p).
Proof.
  intros Hp Ha%container_info_inv. destruct (run_lookups_vouched calls p Hp) as [Hv Ht].
  inversion Ha as [|ent _ Hc Hage| | | | |p1 path ids i' _ _ _ Hi Hparse Hn]; subst.
  - destruct (Hv _ _ Hc) as (e' & Hin & Hid & Hst). exists e'.
    rewrite elem_of_app, <- Ht, <- Hst. auto.
  - exists e. rewrite elem_of_app, elem_of_cons. split; [auto|]. split; [|auto].
    exists path, ids. auto.
Qed.

Lemma container_info_current_witness :
  ∃ e', (e', 4) ∈ [(Sample.at_time 7, 4); (Sample.at_time 9, 4)] ∧
        identified e' 4 (index Sample.after) Sample.i ∧
        (e' = Sample.at_time 9 ∨ 9 - at_store e' < 60).
Proof.
  apply (container_info_current [(Sample.at_time 7, 4)] Sample.before (Sample.at_time 9) 4
           Sample.after Sample.i); vm_compute; reflexivity.
Defined.

(** A cached answer is stable: once a lookup has answered names, every
    lookup of that cgroup within the TTL of the stored entry answers the same
    names and leaves the map as it is — whatever the runtime would say by then
    and whatever the cgroup tree has become. *)
Theorem container_info_stable e cg p p' i :
  container_info e cg p = (p', Ok i) →
  ∃ ent, cache p' !! cg = Some ent ∧ (storedAt ent = at_store e ∨ p' = p) ∧
    ∀ e', at_cache e' - storedAt ent < cacheTTL p → container_info e' cg p' = (p', Ok i).
Proof.
  intros Ha%container_info_inv. pose proof (answers_cacheTTL _ _ _ _ _ Ha) as Ht.
  inversion Ha as [|ent Hz Hc Hage| | | | |p1 path ids i' Hz]; subst.
  - exists ent. split_and!; [done|by right|]. intros e' He. by apply container_info_hit.
  - exists (CacheEntry i (at_store e)). split_and!.
    + apply lookup_insert_eq.
    + by left.
    + intros e' He. rewrite <- Ht in He.
      apply (container_info_hit e' cg _ (CacheEntry i (at_store e))); [done| |done].
      apply lookup_insert_eq.
Qed.

Lemma container_info_stable_witness :
  ∃ ent, cache Sample.after !! 4 = Some ent ∧
    (storedAt ent = 7 ∨ Sample.after = Sample.before) ∧
    ∀ e', at_cache e' - storedAt ent < 60 →
          container_info e' 4 Sample.after = (Sample.after, Ok Sample.i).
Proof.
  apply (container_info_stable (Sample.at_time 7) 4 Sample.before).
  vm_compute. reflexivity.
Defined.

(** A cgroup that is new since the index was built. *)
Record new_cgroup (e : lookup_env) (cg : Z) (p : PodMap) (path : string) (d : fsnode) :
    Prop := {
  new_id : cg ≠ 0;
  new_uncached : cache p !! cg = None;
  new_unindexed : byInode (index p) !! cg = None;
  new_tree : tree (at_rebuild e) (root (index p)) = Ok d;
  new_inodes : NoDup (dirs (root (index p)) d).*1;
  new_path : (cg, path) ∈ dirs (root (index p)) d;
}.

Lemma uncached e cg p : cache p !! cg = None → cached e cg p = None.
Proof. intros H. unfold cached. by rewrite H. Qed.

(** C21: A new container is named within one event — outside the rate limit: for
    a cgroup that the tree has and the index lacks, one lookup rebuilds the
    index once (counted, the cache cleared) and answers the runtime's names;
    but within the interval since the last build the lookup answers
    [ErrNotIndexed] and changes nothing, although the tree has the cgroup. *)
Theorem container_info_new_cgroup e cg p path d ids i :
  new_cgroup e cg p path d → parseCgroupPath path = Ok ids →
  ContainerNames (cri e) (ContainerID ids) = Ok i →
  (¬ rate_limited e p →
   ∃ p', container_info e cg p = (p', Ok i) ∧ byInode (index p') !! cg = Some path ∧
         cache p' = {[ cg := CacheEntry i (at_store e) ]} ∧
         CgroupIndexRebuilds p' = wrap 64 (CgroupIndexRebuilds p + 1) ∧
         lastUpdated (index p') = now_after (at_rebuild e)) ∧
  (rate_limited e p → container_info e cg p = (p, Err ErrNotIndexed)).
Proof.
  intros [Hz Hc Hu Ht Hnd Hd] Hp Hn. split; intros Hr.
  - assert (Hi : byInode (index (rebuilt_at (at_rebuild e) p)) !! cg = Some path).
    { cbn. rewrite Ht. apply index_all_lookup; [done|by intros; apply lookup_empty|by left]. }
    eexists. split; [|].
    { eapply container_info_settled; [done|by apply uncached| |exact Hi|exact Hp|exact Hn].
      by constructor. }
    split_and!; [exact Hi|done..].
  - apply container_info_rate_limited; auto using uncached.
Qed.

Lemma container_info_new_cgroup_witness :
  ∃ p', container_info (Sample.at_time 7) 4 Sample.before = (p', Ok Sample.i) ∧
        container_info (Sample.at_time 4) 4 Sample.before =
          (Sample.before, Err ErrNotIndexed).
Proof.
  assert (Hn : ∀ t, new_cgroup (Sample.at_time t) 4 Sample.before Sample.path Sample.d).
  { intros t. split; [done|done|done|done|by_decide|by_decide]. }
  destruct (container_info_new_cgroup (Sample.at_time 7) 4 Sample.before Sample.path Sample.d
              Sample.ids Sample.i (Hn 7)) as [[p' [H _]] _]; [done|done|by_decide|].
  destruct (container_info_new_cgroup (Sample.at_time 4) 4 Sample.before Sample.path Sample.d
              Sample.ids Sample.i (Hn 4)) as [_ H']; [done|done|].
  exists p'. split; [exact H|]. apply H'. by_decide.
Defined.

(** The errors of the runtime wrap none of the package's sentinels: they are
    made by the gRPC library, which does not know them. *)
Definition foreign_errors (c : runtime) : Prop :=
  ∀ cid err, ContainerStatus c cid = Err err →
    Forall (λ v, errors_Is v err = false)
      ["podmap.ErrNotPod"; "podmap.ErrNotIndexed"; "podmap.ErrContainerNotFound"].

Definition unlabelled (c : runtime) (cid : string) : Prop :=
  ∃ labels, ContainerStatus c cid = Ok (Some (Some labels)) ∧
    ¬ named (MkContainerInfo (default "" (labels !! podNamespaceLabel))
               (default "" (labels !! podNameLabel))
               (default "" (labels !! containerNameLabel))).

Definition not_found (c : runtime) (cid : string) : Prop :=
  ∃ err, ContainerStatus c cid = Err err ∧ is_NotFound c err = true.

(** What a failed lookup says, by the sentinel its error wraps. *)
Definition classified (c : runtime) (path : string) (err : error) : Prop :=
  (errors_Is "podmap.ErrNotIndexed" err = false) ∧
  (errors_Is "podmap.ErrNotPod" err = true ↔
     Contains path "kubepods" = false ∨
     ∃ ids, parseCgroupPath path = Ok ids ∧ unlabelled c (ContainerID ids)) ∧
  (errors_Is "podmap.ErrContainerNotFound" err = true ↔
     ∃ ids, parseCgroupPath path = Ok ids ∧ not_found c (ContainerID ids)).

Lemma ContainerNames_error c cid err :
  foreign_errors c → cid ≠ "" → ContainerNames c cid = Err err →
  errors_Is "podmap.ErrNotIndexed" err = false ∧
  (errors_Is "podmap.ErrNotPod" err = true ↔ unlabelled c cid) ∧
  (errors_Is "podmap.ErrContainerNotFound" err = true ↔ not_found c cid).
Proof.
  intros Hf Hne. unfold ContainerNames, unlabelled, not_found.
  destruct (String.eqb_spec cid ""); [done|].
  destruct (ContainerStatus c cid) as [[[labels|]|]|cerr] eqn:E.
  - cbv zeta. destruct (_ || _) eqn:El; [|done]. intros [= <-]. split_and!; [done| |].
    + split; [|done]. intros _. exists labels. split; [done|].
      rewrite !orb_true_iff, !String.eqb_eq in El. unfold named. tauto.
    + split; [done|]. by intros (? & ? & ?).
  - intros [= <-]. split_and!; [done| |]; (split; [done|]); by intros (? & ? & ?).
  - intros [= <-]. split_and!; [done| |]; (split; [done|]); by intros (? & ? & ?).
  - specialize (Hf _ _ E). rewrite !Forall_cons in Hf. destruct Hf as (Hp & Hi & Hn & _).
    destruct (is_NotFound c cerr) eqn:Ec; intros [= <-]; rewrite ?errors_Is_wrap.
    + split_and!; [done| |]; [split; [done|]|split; eauto].
      by intros (? & ? & ?).
    + rewrite Hp, Hi, Hn. split_and!; [done| |]; (split; [done|]).
      * by intros (? & ? & ?).
      * intros (err & [= <-] & ?). congruence.
Qed.

Lemma classified_parse c path err f :
  parseCgroupPath path = Err err → classified c path (Errorf f [err]).
Proof.
  intros Hp. unfold classified. rewrite !errors_Is_wrap.
  destruct (parseCgroupPath_error _ _ Hp) as (-> & -> & ->).
  split_and!; [done| |].
  - rewrite negb_true_iff, Hp. naive_solver.
  - rewrite Hp. naive_solver.
Qed.

Lemma classified_cri c path ids err f :
  foreign_errors c → parseCgroupPath path = Ok ids →
  ContainerNames c (ContainerID ids) = Err err → classified c path (Errorf f [err]).
Proof.
  intros Hf Hp Hn. unfold classified. rewrite !errors_Is_wrap.
  assert (Contains path "kubepods" = true ∧ ContainerID ids ≠ "") as [Hk Hid].
  { unfold parseCgroupPath in Hp. destruct (Contains path _); [|done].
    apply scan_parts_Ok in Hp as [_ ?%hex_ne_string]. done. }
  destruct (ContainerNames_error c _ err Hf Hid Hn) as (-> & -> & ->).
  rewrite Hk, Hp. split_and!; [done| |]; naive_solver.
Qed.

(** C20: Failed lookups are classified as the agent counts them: a lookup that
    fails leaves a cache of earlier answers only, and its error is
    [ErrNotIndexed] exactly when the current index does not have the cgroup;
    otherwise it is [ErrNotPod] exactly when the path is not a kubernetes path
    or the runtime's container has no complete labels, and
    [ErrContainerNotFound] exactly when the runtime answered [NotFound]. *)
Theorem container_info_failures e cg p p' err :
  foreign_errors (cri e) → cg ≠ 0 → container_info e cg p = (p', Err err) →
  cache p' ⊆ cache p ∧
  match byInode (index p') !! cg with
  | None => errors_Is "podmap.ErrNotIndexed" err = true ∧
            errors_Is "podmap.ErrNotPod" err = false ∧
            errors_Is "podmap.ErrContainerNotFound" err = false
  | Some path => classified (cri e) path err
  end.
Proof.
  intros Hf Hz Ha%container_info_inv.
  assert (Hs : ∀ p1, settles e cg p p1 → cache p1 ⊆ cache p).
  { destruct 1; [done|]. apply map_empty_subseteq. }
  inversion Ha as [| |? _ Hi|? _ _ _ _ Hi|p1 path err' f _ _ Hst Hi Hp
                  |p1 path ids err' f _ _ Hst Hi Hp Hn|]; subst.
  - done.
  - rewrite Hi. done.
  - rewrite Hi. split; [apply map_empty_subseteq|done].
  - rewrite Hi. split; [by apply Hs|]. by apply classified_parse.
  - rewrite Hi. split; [by apply Hs|]. by eapply classified_cri.
Qed.

Lemma sample_foreign : foreign_errors Sample.c.
Proof.
  intros cid err. cbn. destruct (String.eqb cid "abc"); [done|].
  intros [= <-]. repeat constructor.
Qed.

Lemma container_info_failures_witness :
  ∃ err, container_info (Sample.at_time 7) 3 Sample.before =
           (rebuilt_at (at_rebuild (Sample.at_time 7)) Sample.before, Err err) ∧
         classified Sample.c "/cg/kubepods/pod7" err.
Proof.
  eexists. split; [vm_compute; reflexivity|].
  refine (proj2 (container_info_failures (Sample.at_time 7) 3 Sample.before
    (rebuilt_at (at_rebuild (Sample.at_time 7)) Sample.before) _ sample_foreign _ _)).
  - done.
  - vm_compute. reflexivity.
Defined.
