(* ===== verification/Config.v ===== *)
(** * [pkg/config/config.go]: the configuration from the environment

    The environment is a function from variable names to values ([os.LookupEnv]);
    durations are signed 64-bit nanoseconds, and their multiplication wraps as
    Go's does. *)

From S2P Require Import Prelude.
From S2P Require Import GoStrings.

Local Open Scope Z_scope.

(** A signed 64-bit result. *)
Definition int64 (z : Z) : Z := (z + 2 ^ 63) mod 2 ^ 64 - 2 ^ 63.

Definition Second : Z := 1000000000.

Record Config : Type := MkConfig {
  Host : string;
  Port : Z;
  DriPath : string;
  AccelPath : string;
  SysfsDriPath : string;
  SysfsAccelPath : string;
  CgroupRootPath : string;
  CriSocketPath : string;
  Interval : Z;
  Debug : bool;
  AppVersion : string;
  ShutdownTimeout : Z;
  CriTimeout : Z;
  CacheTTL : Z;
  QueueSize : Z;
}.

Section Environment.

Variable LookupEnv : string → option string.

Definition getEnv (key fallback : string) : string :=
  match LookupEnv key with
  | Some v => if negb (String.eqb v "") then v else fallback
  | None => fallback
  end.

Definition getEnvInt (key : string) (fallback : Z) : Z :=
  match LookupEnv key with
  | None => fallback
  | Some v =>
      if String.eqb v "" then fallback
      else
        match Atoi v with
        | None => fallback
        | Some n =>
            if bool_decide (n ≤ 0) then fallback
            else if String.eqb key "KUBENPU_PORT" && bool_decide (65535 < n) then fallback
            else n
        end
  end.

Definition getEnvTimeDuration (key : string) (fallback : Z) : Z :=
  match LookupEnv key with
  | None => fallback
  | Some v =>
      if String.eqb v "" then fallback
      else
        match ParseInt v with
        | None => fallback
        | Some seconds => int64 (seconds * Second)
        end
  end.

Definition Load : Config := {|
  Host := getEnv "KUBENPU_HOST" "0.0.0.0";
  Port := getEnvInt "KUBENPU_PORT" 8080;
  DriPath := getEnv "KUBENPU_DRI_PATH" "/dev/dri";
  AccelPath := getEnv "KUBENPU_ACCEL_PATH" "/dev/accel";
  SysfsDriPath := getEnv "KUBENPU_SYSFS_DRI_PATH" "/sys/class/drm";
  SysfsAccelPath := getEnv "KUBENPU_SYSFS_ACCEL_PATH" "/sys/class/accel";
  CgroupRootPath := getEnv "KUBENPU_CGROUP_ROOT_PATH" "/sys/fs/cgroup";
  CriSocketPath := getEnv "KUBENPU_CRI_SOCKET_PATH" "/run/k3s/containerd/containerd.sock";
  Interval := getEnvTimeDuration "KUBENPU_INTERVAL" (5 * Second);
  Debug := negb (bool_decide (getEnvInt "KUBENPU_DEBUG" 0 = 0));
  AppVersion := getEnv "KUBENPU_APP_VERSION" "0.0.1";
  ShutdownTimeout := getEnvTimeDuration "KUBENPU_SHUTDOWN_TIMEOUT" (5 * Second);
  CriTimeout := getEnvTimeDuration "KUBENPU_CRI_TIMEOUT" (5 * Second);
  CacheTTL := getEnvTimeDuration "KUBENPU_CACHE_TTL" (60 * Second);
  QueueSize := getEnvInt "KUBENPU_QUEUE_SIZE" 4096;
|}.

(** ** Lemmas *)

Lemma getEnv_nonempty key fallback : fallback ≠ "" → getEnv key fallback ≠ "".
Proof.
  intros H. unfold getEnv. destruct (LookupEnv key) as [v|]; [|done].
  by destruct (String.eqb_spec v "").
Qed.

(** An integer variable is its fallback or a positive 64-bit value, for the
    port at most 65535. *)
Lemma getEnvInt_cases key fallback :
  getEnvInt key fallback = fallback ∨
  (0 < getEnvInt key fallback < 2 ^ 63 ∧
   (key = "KUBENPU_PORT" → getEnvInt key fallback ≤ 65535)).
Proof.
  unfold getEnvInt. destruct (LookupEnv key) as [v|]; [|by left].
  destruct (String.eqb v ""); [by left|].
  destruct (Atoi v) as [n|] eqn:E; [|by left]. apply ParseInt_range in E.
  case_bool_decide; [by left|]. destruct (String.eqb_spec key "KUBENPU_PORT"); cbn.
  - case_bool_decide; [by left|]. right. split; [lia|]. intros _. lia.
  - right. split; [lia|]. done.
Qed.

Lemma int64_range z : - 2 ^ 63 ≤ int64 z < 2 ^ 63.
Proof. unfold int64. pose proof (Z.mod_pos_bound (z + 2 ^ 63) (2 ^ 64)). lia. Qed.

Lemma int64_exact z : int64 z = z ↔ - 2 ^ 63 ≤ z < 2 ^ 63.
Proof.
  split; [intros <-; apply int64_range|].
  intros H. unfold int64. rewrite Z.mod_small by lia. lia.
Qed.

Lemma duration_range key fallback :
  - 2 ^ 63 ≤ fallback < 2 ^ 63 → - 2 ^ 63 ≤ getEnvTimeDuration key fallback < 2 ^ 63.
Proof.
  intros H. unfold getEnvTimeDuration. destruct (LookupEnv key) as [v|]; [|done].
  destruct (String.eqb v ""); [done|]. destruct (ParseInt v); [apply int64_range|done].
Qed.

Lemma Itoa_nonempty n : - 2 ^ 63 ≤ n < 2 ^ 63 → Itoa n ≠ "".
Proof. intros H E. pose proof (ParseInt_Itoa n H) as Hp. by rewrite E in Hp. Qed.

Lemma getEnvInt_Itoa key fallback n :
  LookupEnv key = Some (Itoa n) → - 2 ^ 63 ≤ n < 2 ^ 63 →
  getEnvInt key fallback =
    if bool_decide (0 < n ∧ (key = "KUBENPU_PORT" → n ≤ 65535)) then n else fallback.
Proof.
  intros Hk Hn. unfold getEnvInt, Atoi. rewrite Hk, ParseInt_Itoa by done.
  destruct (String.eqb_spec (Itoa n) ""); [by apply Itoa_nonempty in Hn|].
  case_bool_decide; [rewrite bool_decide_eq_false_2; [done|lia]|].
  destruct (String.eqb_spec key "KUBENPU_PORT") as [->|]; cbn.
  - case_bool_decide.
    + rewrite bool_decide_eq_false_2; [done|]. intros [_ Hp]. specialize (Hp eq_refl). lia.
    + rewrite bool_decide_eq_true_2; [done|]. split; [lia|]. intros _. lia.
  - rewrite bool_decide_eq_true_2; [done|]. split; [lia|]. done.
Qed.

End Environment.

(** ** Properties *)

(** Every environment gives a usable configuration: no path, address or
    version is empty, the port is between 1 and 65535, the queue size is a
    positive 64-bit integer, and every duration is a 64-bit integer. *)
Theorem Load_ranges env :
  let c := Load env in
  1 ≤ Port c ≤ 65535 ∧ 0 < QueueSize c < 2 ^ 63 ∧
  Forall (λ s, s ≠ "") [Host c; DriPath c; AccelPath c; SysfsDriPath c; SysfsAccelPath c;
                        CgroupRootPath c; CriSocketPath c; AppVersion c] ∧
  Forall (λ d, - 2 ^ 63 ≤ d < 2 ^ 63) [Interval c; ShutdownTimeout c; CriTimeout c; CacheTTL c].
Proof.
  cbv zeta. split_and!.
  - destruct (getEnvInt_cases env "KUBENPU_PORT" 8080) as [H|[H H']]; cbn; [by rewrite H|].
    specialize (H' eq_refl). lia.
  - destruct (getEnvInt_cases env "KUBENPU_PORT" 8080) as [H|[H H']]; cbn; [by rewrite H|].
    specialize (H' eq_refl). lia.
  - destruct (getEnvInt_cases env "KUBENPU_QUEUE_SIZE" 4096) as [H|[H _]]; cbn; [by rewrite H|lia].
  - destruct (getEnvInt_cases env "KUBENPU_QUEUE_SIZE" 4096) as [H|[H _]]; cbn; [by rewrite H|lia].
  - cbn. repeat constructor; by apply getEnv_nonempty.
  - cbn. repeat constructor; by apply duration_range.
Qed.

(** An integer variable set to a decimal takes effect exactly when it is
    positive and, for the port, at most 65535; otherwise the fallback does. A
    text that is no decimal 64-bit integer always gives the fallback. *)
Theorem getEnvInt_effective env key fallback v :
  env key = Some v →
  (∀ n, v = Itoa n → - 2 ^ 63 ≤ n < 2 ^ 63 →
     getEnvInt env key fallback =
       if bool_decide (0 < n ∧ (key = "KUBENPU_PORT" → n ≤ 65535)) then n else fallback) ∧
  (ParseInt v = None → getEnvInt env key fallback = fallback).
Proof.
  intros Hk. split.
  - intros n -> Hn. by apply getEnvInt_Itoa.
  - intros Hp. unfold getEnvInt, Atoi. rewrite Hk, Hp. by destruct (String.eqb v "").
Qed.

Lemma getEnvInt_effective_witness :
  getEnvInt (λ _, Some "65536") "KUBENPU_PORT" 8080 = 8080 ∧
  getEnvInt (λ _, Some "65536") "KUBENPU_QUEUE_SIZE" 4096 = 65536.
Proof.
  split.
  - destruct (getEnvInt_effective (λ _, Some "65536") "KUBENPU_PORT" 8080 "65536" eq_refl)
      as [H _].
    rewrite (H 65536); [|by vm_compute|lia].
    rewrite bool_decide_eq_false_2; [done|]. intros [_ Hp]. specialize (Hp eq_refl). lia.
  - destruct (getEnvInt_effective (λ _, Some "65536") "KUBENPU_QUEUE_SIZE" 4096 "65536" eq_refl)
      as [H _].
    rewrite (H 65536); [|by vm_compute|lia].
    rewrite bool_decide_eq_true_2; [done|]. split; [lia|done].
Defined.

(** C35: A duration variable is its number of seconds exactly between
    -9223372036 and 9223372036 seconds; beyond, the multiplication wraps, and
    9223372037 seconds (292 years) become a negative duration. Nothing refuses
    a negative or zero duration here. *)
Theorem getEnvTimeDuration_overflow env key fallback s :
  env key = Some (Itoa s) → - 2 ^ 63 ≤ s < 2 ^ 63 →
  (getEnvTimeDuration env key fallback = s * Second ↔ - 9223372036 ≤ s ≤ 9223372036) ∧
  (s = 9223372037 → getEnvTimeDuration env key fallback < 0).
Proof.
  intros Hk Hs. unfold getEnvTimeDuration. rewrite Hk, ParseInt_Itoa by done.
  destruct (String.eqb_spec (Itoa s) ""); [by apply Itoa_nonempty in Hs|].
  split; [rewrite int64_exact; unfold Second; lia|]. by intros ->.
Qed.

Lemma getEnvTimeDuration_overflow_witness :
  getEnvTimeDuration (λ _, Some "9223372037") "KUBENPU_INTERVAL" (5 * Second) < 0.
Proof.
  apply (getEnvTimeDuration_overflow (λ _, Some "9223372037") "KUBENPU_INTERVAL" (5 * Second)
           9223372037); [by vm_compute|lia|done].
Defined.
