(* ===== verification/Metrics.v ===== *)
(** * [pkg/metrics]: the collector and the HTTP server

    [metrics.go] keeps two counter maps and a set under one mutex, so every
    method is one step on the collector's state. Gathering is the list of
    [MustNewConstMetric] calls the method sends, for any iteration order of the
    maps. Counters are [uint64] (they wrap), and a scrape shows them as
    [float64]. [server.go] is the handler of the three endpoints and the error
    handling around [http.Server]. *)

From S2P Require Import Prelude.
From S2P Require Import GoStrings.

Local Open Scope Z_scope.

(** ** [range] over a map: some order of the entries *)

Class MapRange : Type := {
  range_map {K A} `{Countable K} : gmap K A → list (K * A);
  range_perm {K A} `{Countable K} (m : gmap K A) : range_map m ≡ₚ map_to_list m;
}.

#[export] Program Instance range_sorted : MapRange := {| range_map K A _ _ m := map_to_list m |}.
Next Obligation. done. Qed.

Lemma range_lookup `{!MapRange} {K A} `{Countable K} (m : gmap K A) k a :
  (k, a) ∈ range_map m ↔ m !! k = Some a.
Proof. rewrite range_perm. apply elem_of_map_to_list. Qed.

Lemma range_NoDup `{!MapRange} {K A} `{Countable K} (m : gmap K A) : NoDup (range_map m).*1.
Proof. rewrite range_perm. apply NoDup_fst_map_to_list. Qed.

(** ** [float64(value)] of an unsigned integer: round to 53 bits, ties to even *)

Definition float64 (v : Z) : Z :=
  if bool_decide (v < 2 ^ 53) then v
  else
    let ulp := 2 ^ (Z.log2 v - 52) in
    let q := v / ulp in
    let r := v mod ulp in
    (if bool_decide (2 * r < ulp) then q
     else if bool_decide (ulp < 2 * r) then q + 1
     else if Z.even q then q else q + 1) * ulp.

(** ** [metrics.go] *)

Definition ReasonDeviceUnknown : string := "device_unknown".
Definition ReasonNotPod : string := "not_pod".
Definition ReasonNotIndexed : string := "not_indexed".
Definition ReasonContainerNotFound : string := "container_not_found".
Definition ReasonQueueFull : string := "queue_full".
Definition ReasonRingbufFull : string := "ringbuf_full".

Definition dropReasons : list string :=
  [ReasonDeviceUnknown; ReasonNotPod; ReasonNotIndexed; ReasonContainerNotFound; ReasonQueueFull].

Record key : Type := Key {
  namespace : string;
  pod : string;
  container : string;
  device : string;
  vendor : string;
  kind : string;
}.

Record deviceKey : Type := DeviceKey {
  dk_device : string;
  dk_vendor : string;
  driver : string;
  pciID : string;
  numaNode : string;
}.

Definition key_labels (k : key) : list string :=
  [namespace k; pod k; container k; device k; vendor k; kind k].

Definition deviceKey_labels (k : deviceKey) : list string :=
  [dk_device k; dk_vendor k; driver k; pciID k; numaNode k].

#[export] Instance key_labels_inj : Inj (=) (=) key_labels.
Proof. intros [] []. cbn. by intros [= -> -> -> -> -> ->]. Qed.

#[export] Instance deviceKey_labels_inj : Inj (=) (=) deviceKey_labels.
Proof. intros [] []. cbn. by intros [= -> -> -> -> ->]. Qed.

#[export] Instance key_eq_dec : EqDecision key.
Proof. solve_decision. Defined.
#[export] Instance deviceKey_eq_dec : EqDecision deviceKey.
Proof. solve_decision. Defined.

#[export] Instance key_countable : Countable key.
Proof.
  refine (inj_countable' key_labels
    (λ l, match l with
          | [a; b; c; d; e; f] => Key a b c d e f
          | _ => Key "" "" "" "" "" ""
          end) _).
  by intros [].
Defined.

#[export] Instance deviceKey_countable : Countable deviceKey.
Proof.
  refine (inj_countable' deviceKey_labels
    (λ l, match l with
          | [a; b; c; d; e] => DeviceKey a b c d e
          | _ => DeviceKey "" "" "" "" ""
          end) _).
  by intros [].
Defined.

(** A [*prometheus.Desc] and a metric, as the arguments given to [NewDesc] and
    [MustNewConstMetric]. *)
Record Desc : Type := NewDesc { fqName : string; help : string; variableLabels : list string }.

Inductive valueType : Type := CounterValue | GaugeValue.

Record Metric : Type := ConstMetric {
  desc : Desc;
  type : valueType;
  value : Z;
  labels : list string;
}.

(** [W] is the state the two sources read when they are called. *)
Record Collector (W : Type) : Type := MkCollector {
  ioctlTotal : gmap key Z;
  eventsDroppedTotal : gmap string Z;
  deviceInfo : gset deviceKey;
  cgroupIndexRebuildsSource : option (W → Z);
  kernelDroppedSource : option (W → res Z);
  ioctlDesc : Desc;
  eventsDroppedDesc : Desc;
  cgroupRebuildsDesc : Desc;
  deviceInfoDesc : Desc;
}.
Arguments MkCollector {W} _ _ _ _ _ _ _ _ _.
Arguments ioctlTotal {W} _.
Arguments eventsDroppedTotal {W} _.
Arguments deviceInfo {W} _.
Arguments cgroupIndexRebuildsSource {W} _.
Arguments kernelDroppedSource {W} _.
Arguments ioctlDesc {W} _.
Arguments eventsDroppedDesc {W} _.
Arguments cgroupRebuildsDesc {W} _.
Arguments deviceInfoDesc {W} _.

Section Collector.

Context {W : Type} `{!MapRange}.

Abbreviation Collector := (Collector W).

Definition NewCollector : Collector :=
  MkCollector ∅ (foldl (λ dropped reason, <[reason := 0]> dropped) ∅ dropReasons) ∅ None None
    (NewDesc "kubenpu_ioctl_total" "Total number of ioctls"
       ["namespace"; "pod"; "container"; "device"; "vendor"; "kind"])
    (NewDesc "kubenpu_events_dropped_total" "Total number of dropped events" ["reason"])
    (NewDesc "kubenpu_cgroup_index_rebuilds_total" "Total number of cgroup index rebuilds" [])
    (NewDesc "kubenpu_device_info" "Device information"
       ["device"; "vendor"; "driver"; "pci_id"; "numa_node"]).

Definition Describe (c : Collector) : list Desc :=
  [ioctlDesc c; eventsDroppedDesc c; cgroupRebuildsDesc c; deviceInfoDesc c].

Definition Collect (w : W) (c : Collector) : list Metric :=
  ((λ '(k, v), ConstMetric (ioctlDesc c) CounterValue (float64 v)
                [namespace k; pod k; container k; device k; vendor k; kind k])
    <$> range_map (ioctlTotal c)) ++
  ((λ '(reason, v), ConstMetric (eventsDroppedDesc c) CounterValue (float64 v) [reason])
    <$> range_map (eventsDroppedTotal c)) ++
  match kernelDroppedSource c with
  | Some source =>
      match source w with
      | Ok lost => [ConstMetric (eventsDroppedDesc c) CounterValue (float64 lost)
                      [ReasonRingbufFull]]
      | Err _ => []
      end
  | None => []
  end ++
  [ConstMetric (cgroupRebuildsDesc c) CounterValue
     (float64 match cgroupIndexRebuildsSource c with
              | Some source => source w
              | None => 0
              end) []] ++
  ((λ '(k, _), ConstMetric (deviceInfoDesc c) GaugeValue 1
                 [dk_device k; dk_vendor k; driver k; pciID k; numaNode k])
    <$> range_map (gset_to_gmap tt (deviceInfo c))).

(** [m[k]++] on a map of [uint64]. *)
Definition incr {K} `{Countable K} (k : K) (m : gmap K Z) : gmap K Z :=
  <[k := wrap 64 (default 0 (m !! k) + 1)]> m.

Definition IncIoctl (namespace pod container device vendor kind : string) (c : Collector) :
    Collector :=
  MkCollector (incr (Key namespace pod container device vendor kind) (ioctlTotal c))
    (eventsDroppedTotal c) (deviceInfo c) (cgroupIndexRebuildsSource c) (kernelDroppedSource c)
    (ioctlDesc c) (eventsDroppedDesc c) (cgroupRebuildsDesc c) (deviceInfoDesc c).

Definition IncEventsDropped (reason : string) (c : Collector) : Collector :=
  MkCollector (ioctlTotal c) (incr reason (eventsDroppedTotal c)) (deviceInfo c)
    (cgroupIndexRebuildsSource c) (kernelDroppedSource c)
    (ioctlDesc c) (eventsDroppedDesc c) (cgroupRebuildsDesc c) (deviceInfoDesc c).

Definition SetCgroupIndexRebuildsSource (source : option (W → Z)) (c : Collector) : Collector :=
  MkCollector (ioctlTotal c) (eventsDroppedTotal c) (deviceInfo c) source (kernelDroppedSource c)
    (ioctlDesc c) (eventsDroppedDesc c) (cgroupRebuildsDesc c) (deviceInfoDesc c).

Definition SetKernelDroppedSource (source : option (W → res Z)) (c : Collector) : Collector :=
  MkCollector (ioctlTotal c) (eventsDroppedTotal c) (deviceInfo c) (cgroupIndexRebuildsSource c)
    source (ioctlDesc c) (eventsDroppedDesc c) (cgroupRebuildsDesc c) (deviceInfoDesc c).

Definition SetDeviceInfo (device vendor driver pciID numaNode : string) (c : Collector) :
    Collector :=
  MkCollector (ioctlTotal c) (eventsDroppedTotal c)
    ({[DeviceKey device vendor driver pciID numaNode]} ∪ deviceInfo c)
    (cgroupIndexRebuildsSource c) (kernelDroppedSource c)
    (ioctlDesc c) (eventsDroppedDesc c) (cgroupRebuildsDesc c) (deviceInfoDesc c).

End Collector.

(** ** [server.go] *)

Definition StatusOK : Z := 200.
Definition StatusServiceUnavailable : Z := 503.
Definition StatusNotFound : Z := 404.

Record response : Type := Response { status : Z; body : string }.

(** The handlers of the mux by pattern, and the server's settings. *)
Record Server (W : Type) : Type := MkServer {
  Addr : string;
  Handler : list (string * (W → response));
  ReadHeaderTimeout : Z;
}.
Arguments MkServer {W} _ _ _.
Arguments Addr {W} _.
Arguments Handler {W} _.
Arguments ReadHeaderTimeout {W} _.

Section Server.

Context {W : Type}.

(** [promhttp.HandlerFor(reg, ...)]. *)
Variable HandlerFor : W → response.

Definition NewServer (addr : string) (ready : option (W → bool)) : Server W := {|
  Addr := addr;
  Handler := [
    ("/healthz", λ _, Response StatusOK "ok");
    ("/readyz", λ w,
       if match ready with Some ready => ready w | None => false end
       then Response StatusOK "ok"
       else Response StatusServiceUnavailable (String.append "not ready" (String newline "")));
    ("/metrics", HandlerFor)];
  ReadHeaderTimeout := 5 * 1000000000;
|}.

(** The mux on a clean request path: the patterns name one path each. *)
Definition ServeHTTP (s : Server W) (path : string) (w : W) : response :=
  match list_find (λ p, p.1 = path) (Handler s) with
  | Some (_, (_, h)) => h w
  | None => Response StatusNotFound (String.append "404 page not found" (String newline ""))
  end.

(** [Run] on the result of [ListenAndServe]. *)
Definition Run (ListenAndServe : option error) : option error :=
  match ListenAndServe with
  | Some err => if errors_Is "http.ErrServerClosed" err then None else Some err
  | None => None
  end.

Definition Shutdown (server_Shutdown : option error) : option error :=
  match server_Shutdown with
  | Some err => Some (Errorf "shutdown metrics server: %w" [err])
  | None => None
  end.

Lemma readyz addr ready w :
  ServeHTTP (NewServer addr (Some ready)) "/readyz" w =
    if ready w then Response StatusOK "ok"
    else Response StatusServiceUnavailable (String.append "not ready" (String newline "")).
Proof. done. Qed.

Lemma healthz addr ready w :
  ServeHTTP (NewServer addr ready) "/healthz" w = Response StatusOK "ok".
Proof. done. Qed.

End Server.

(** ** Histories of method calls *)

Section History.

Context {W : Type} `{!MapRange}.

Inductive op : Type :=
  | OpIoctl (k : key)
  | OpDrop (reason : string)
  | OpDevice (k : deviceKey)
  | OpRebuildsSource (source : W → Z)
  | OpDroppedSource (source : W → res Z).

Definition apply_op (c : Collector W) (o : op) : Collector W :=
  match o with
  | OpIoctl k => IncIoctl (namespace k) (pod k) (container k) (device k) (vendor k) (kind k) c
  | OpDrop reason => IncEventsDropped reason c
  | OpDevice k => SetDeviceInfo (dk_device k) (dk_vendor k) (driver k) (pciID k) (numaNode k) c
  | OpRebuildsSource s => SetCgroupIndexRebuildsSource (Some s) c
  | OpDroppedSource s => SetKernelDroppedSource (Some s) c
  end.

Definition run_ops (ops : list op) : Collector W := foldl apply_op NewCollector ops.

Definition is_ioctl (k : key) (o : op) : bool :=
  match o with OpIoctl k' => bool_decide (k' = k) | _ => false end.

Definition is_drop (r : string) (o : op) : bool :=
  match o with OpDrop r' => bool_decide (r' = r) | _ => false end.

Definition is_device (k : deviceKey) (o : op) : bool :=
  match o with OpDevice k' => bool_decide (k' = k) | _ => false end.

Definition count (f : op → bool) (ops : list op) : Z := Z.of_nat (length (List.filter f ops)).

(** The source a collector ends up with: the last one set. *)
Definition rebuilds_source (ops : list op) : option (W → Z) :=
  foldl (λ s o, match o with OpRebuildsSource s' => Some s' | _ => s end) None ops.

Definition dropped_source (ops : list op) : option (W → res Z) :=
  foldl (λ s o, match o with OpDroppedSource s' => Some s' | _ => s end) None ops.

Lemma count_app f l l' : count f (l ++ l') = count f l + count f l'.
Proof. unfold count. rewrite List.filter_app, length_app. lia. Qed.

Lemma count_one f o : count f [o] = if f o then 1 else 0.
Proof. unfold count. cbn. by destruct (f o). Qed.

Lemma count_nonneg f l : 0 ≤ count f l.
Proof. unfold count. lia. Qed.

Lemma run_ops_snoc ops o : run_ops (ops ++ [o]) = apply_op (run_ops ops) o.
Proof. unfold run_ops. by rewrite foldl_app. Qed.

Lemma key_eta k : Key (namespace k) (pod k) (container k) (device k) (vendor k) (kind k) = k.
Proof. by destruct k. Qed.

Lemma deviceKey_eta k :
  DeviceKey (dk_device k) (dk_vendor k) (driver k) (pciID k) (numaNode k) = k.
Proof. by destruct k. Qed.

Lemma incr_wrap n : wrap 64 (wrap 64 n + 1) = wrap 64 (n + 1).
Proof. apply wrap_add_l. Qed.

(** A counter map counts: [fresh] says which keys exist before any increment. *)
Lemma incr_lookup {K} `{Countable K} (m : gmap K Z) (fresh : bool) k k' n :
  0 ≤ n →
  m !! k = (if bool_decide (n = 0) && negb fresh then None else Some (wrap 64 n)) →
  incr k' m !! k =
    (let n' := n + (if bool_decide (k' = k) then 1 else 0) in
     if bool_decide (n' = 0) && negb fresh then None else Some (wrap 64 n')).
Proof.
  intros Hn Hm. unfold incr. cbv zeta. destruct (decide (k' = k)) as [->|Hne].
  - rewrite lookup_insert_eq, (bool_decide_eq_true_2 (k = k)), Hm by done.
    rewrite (bool_decide_eq_false_2 (n + 1 = 0)) by lia. cbn [andb].
    destruct (bool_decide (n = 0) && negb fresh) eqn:E; opt_cbn.
    + apply andb_true_iff in E as [->%bool_decide_eq_true _]. done.
    + unfold id. by rewrite incr_wrap.
  - rewrite lookup_insert_ne, (bool_decide_eq_false_2 (k' = k)), Z.add_0_r by done. done.
Qed.

Lemma dropped_init reason :
  eventsDroppedTotal (NewCollector (W:=W)) !! reason =
    if bool_decide (reason ∈ dropReasons) then Some 0 else None.
Proof.
  case_bool_decide as Hr; cbn.
  - unfold dropReasons in Hr. rewrite !elem_of_cons in Hr.
    destruct_or! Hr; [subst; by vm_compute..|]. by apply not_elem_of_nil in Hr.
  - unfold dropReasons in Hr. rewrite !not_elem_of_cons in Hr.
    rewrite !lookup_insert_ne by (intros <-; tauto). apply lookup_empty.
Qed.

Lemma ioctl_count ops k :
  ioctlTotal (run_ops ops) !! k =
    let n := count (is_ioctl k) ops in
    if bool_decide (n = 0) && negb false then None else Some (wrap 64 n).
Proof.
  cbv zeta. induction ops as [|o ops IH] using rev_ind; [done|].
  rewrite run_ops_snoc, count_app, count_one.
  destruct o as [k'| | | |]; cbn [apply_op is_ioctl]; try by rewrite Z.add_0_r.
  unfold IncIoctl. cbn [ioctlTotal]. rewrite key_eta.
  by rewrite (incr_lookup _ false _ _ _ (count_nonneg _ _) IH).
Qed.

Lemma drop_count ops r :
  eventsDroppedTotal (run_ops ops) !! r =
    let n := count (is_drop r) ops in
    if bool_decide (n = 0) && negb (bool_decide (r ∈ dropReasons)) then None
    else Some (wrap 64 n).
Proof.
  cbv zeta. induction ops as [|o ops IH] using rev_ind.
  { unfold run_ops. cbn [foldl]. rewrite dropped_init. by case_bool_decide. }
  rewrite run_ops_snoc, count_app, count_one.
  destruct o as [|r'| | |]; cbn [apply_op is_drop]; try by rewrite Z.add_0_r.
  unfold IncEventsDropped. cbn [eventsDroppedTotal].
  by rewrite (incr_lookup _ _ _ _ _ (count_nonneg _ _) IH).
Qed.

Lemma device_set ops k : k ∈ deviceInfo (run_ops ops) ↔ OpDevice k ∈ ops.
Proof.
  induction ops as [|o ops IH] using rev_ind; [set_solver|].
  rewrite run_ops_snoc, elem_of_app, <- IH, list_elem_of_singleton.
  destruct o; cbn [apply_op]; try set_solver.
  unfold SetDeviceInfo. cbn [deviceInfo]. rewrite deviceKey_eta, elem_of_union, elem_of_singleton.
  split; [intros [->|?]; auto|]. intros [?|[= ->]]; auto.
Qed.

Lemma sources_set ops :
  cgroupIndexRebuildsSource (run_ops ops) = rebuilds_source ops ∧
  kernelDroppedSource (run_ops ops) = dropped_source ops.
Proof.
  induction ops as [|o ops [IH IH']] using rev_ind; [done|].
  unfold rebuilds_source, dropped_source in *. rewrite run_ops_snoc, !foldl_app.
  by destruct o; cbn.
Qed.

Lemma descs_set ops :
  ioctlDesc (run_ops ops) = ioctlDesc (NewCollector (W:=W)) ∧
  eventsDroppedDesc (run_ops ops) = eventsDroppedDesc (NewCollector (W:=W)) ∧
  cgroupRebuildsDesc (run_ops ops) = cgroupRebuildsDesc (NewCollector (W:=W)) ∧
  deviceInfoDesc (run_ops ops) = deviceInfoDesc (NewCollector (W:=W)).
Proof.
  induction ops as [|o ops (IH & IH1 & IH2 & IH3)] using rev_ind; [done|].
  rewrite run_ops_snoc. by destruct o.
Qed.

End History.

(** ** Lemmas: rounding *)

(** The rounding step of [float64] at a given unit in the last place. *)
Definition nearest (ulp v : Z) : Z :=
  let q := v / ulp in
  let r := v mod ulp in
  (if bool_decide (2 * r < ulp) then q
   else if bool_decide (ulp < 2 * r) then q + 1
   else if Z.even q then q else q + 1) * ulp.

Lemma float64_nearest v : 2 ^ 53 ≤ v → float64 v = nearest (2 ^ (Z.log2 v - 52)) v.
Proof. intros H. unfold float64. by rewrite bool_decide_eq_false_2 by lia. Qed.

Lemma nearest_error u v : 0 < u → - u ≤ 2 * (nearest u v - v) ≤ u.
Proof.
  intros Hu. unfold nearest. cbv zeta.
  pose proof (Z.div_mod v u ltac:(lia)). pose proof (Z.mod_pos_bound v u Hu).
  set (q := v / u) in *. set (r := v mod u) in *.
  repeat case_bool_decide; [nia..|]. destruct (Z.even q); nia.
Qed.

Lemma nearest_mono u v v' : 0 < u → v ≤ v' → nearest u v ≤ nearest u v'.
Proof.
  intros Hu Hv. unfold nearest. cbv zeta.
  pose proof (Z.div_mod v u ltac:(lia)). pose proof (Z.mod_pos_bound v u Hu).
  pose proof (Z.div_mod v' u ltac:(lia)). pose proof (Z.mod_pos_bound v' u Hu).
  pose proof (Z.div_le_mono v v' u Hu Hv).
  set (q := v / u) in *. set (r := v mod u) in *.
  set (q' := v' / u) in *. set (r' := v' mod u) in *.
  apply Z.mul_le_mono_nonneg_r; [lia|].
  destruct (decide (q = q')) as [<-|].
  - assert (r ≤ r') by lia. repeat case_bool_decide; destruct (Z.even q); lia.
  - repeat case_bool_decide; destruct (Z.even q), (Z.even q'); lia.
Qed.

(** Rounding stays between the powers of two around the value. *)
Lemma nearest_exact u k : 0 < u → nearest u (k * u) = k * u.
Proof.
  intros Hu. unfold nearest. cbv zeta.
  rewrite Z.div_mul, Z.mod_mul by lia. by rewrite bool_decide_eq_true_2 by lia.
Qed.

Lemma ulp_pow v : 2 ^ 53 ≤ v → 0 < 2 ^ (Z.log2 v - 52) ∧
  2 ^ Z.log2 v = 2 ^ 52 * 2 ^ (Z.log2 v - 52) ∧ 2 ^ Z.log2 v ≤ v < 2 * 2 ^ Z.log2 v.
Proof.
  intros Hv. assert (53 ≤ Z.log2 v) by (apply Z.log2_le_pow2; lia).
  pose proof (Z.log2_spec v ltac:(lia)) as [? Hlt]. rewrite Z.pow_succ_r in Hlt by lia.
  split; [apply Z.pow_pos_nonneg; lia|]. split; [|lia].
  rewrite <- Z.pow_add_r by lia. f_equal. lia.
Qed.

Lemma float64_between v :
  2 ^ 53 ≤ v → 2 ^ Z.log2 v ≤ float64 v ≤ 2 * 2 ^ Z.log2 v.
Proof.
  intros Hv. rewrite float64_nearest by done.
  destruct (ulp_pow v Hv) as (Hu & Hp & Hlo & Hhi).
  set (u := 2 ^ (Z.log2 v - 52)) in *. split.
  - rewrite Hp, <- nearest_exact by done. apply nearest_mono; lia.
  - rewrite Hp, Z.mul_assoc, <- nearest_exact by done. apply nearest_mono; lia.
Qed.

Lemma float64_small v : v ≤ 2 ^ 53 → float64 v = v.
Proof.
  intros Hv. destruct (decide (v = 2 ^ 53)) as [->|]; [by vm_compute|].
  unfold float64. by rewrite bool_decide_eq_true_2 by lia.
Qed.

Lemma float64_mono v v' : v ≤ v' → float64 v ≤ float64 v'.
Proof.
  intros Hv. destruct (decide (v' ≤ 2 ^ 53)); [by rewrite !float64_small by lia|].
  pose proof (float64_between v' ltac:(lia)).
  destruct (decide (v ≤ 2 ^ 53)).
  { rewrite float64_small by done.
    assert (2 ^ 53 ≤ 2 ^ Z.log2 v'); [|lia].
    apply Z.pow_le_mono_r; [lia|]. apply Z.log2_le_pow2; lia. }
  pose proof (float64_between v ltac:(lia)).
  pose proof (Z.log2_le_mono v v' Hv). destruct (decide (Z.log2 v = Z.log2 v')) as [E|].
  - rewrite !float64_nearest, E by lia. apply nearest_mono; [|done].
    by destruct (ulp_pow v' ltac:(lia)).
  - assert (2 * 2 ^ Z.log2 v ≤ 2 ^ Z.log2 v'); [|lia].
    rewrite <- Z.pow_succ_r by apply Z.log2_nonneg. apply Z.pow_le_mono_r; lia.
Qed.

(** ** Properties *)

Section Scrape.

Context {W : Type} `{!MapRange}.

(** The counters count: after any history of method calls a series of the
    ioctl counter exists exactly when the label set was incremented, and shows
    the number of increments modulo 2^64; a drop reason is present from the
    start when it is one of [dropReasons], and shows its increments; no
    increment touches another series; the device set is what was set. *)
Theorem counters_exact (ops : list (op (W:=W))) k r dk :
  ioctlTotal (run_ops ops) !! k =
    (if bool_decide (count (is_ioctl k) ops = 0) then None
     else Some (wrap 64 (count (is_ioctl k) ops))) ∧
  eventsDroppedTotal (run_ops ops) !! r =
    (if bool_decide (count (is_drop r) ops = 0 ∧ r ∉ dropReasons) then None
     else Some (wrap 64 (count (is_drop r) ops))) ∧
  (dk ∈ deviceInfo (run_ops ops) ↔ OpDevice dk ∈ ops).
Proof.
  split; [|split; [|apply device_set]].
  - rewrite ioctl_count. cbv zeta. by rewrite andb_true_r.
  - rewrite drop_count. cbv zeta. rewrite <- bool_decide_not, <- bool_decide_and.
    by repeat case_bool_decide.
Qed.

(** A scrape shows the counters in 53 bits: the number shown is the counter
    itself up to 2^53, is off by at most one part in 2^53 beyond, and never
    decreases when the counter grows. *)
Theorem float64_faithful v v' :
  0 ≤ v →
  (v ≤ 2 ^ 53 → float64 v = v) ∧
  Z.abs (float64 v - v) * 2 ^ 53 ≤ v ∧
  (v ≤ v' → float64 v ≤ float64 v').
Proof.
  intros Hv. split_and!; [apply float64_small| |apply float64_mono].
  destruct (decide (v ≤ 2 ^ 53)); [rewrite float64_small by done; lia|].
  destruct (ulp_pow v ltac:(lia)) as (Hu & Hp & Hlo & _). rewrite float64_nearest by lia.
  pose proof (nearest_error (2 ^ (Z.log2 v - 52)) v Hu). lia.
Qed.

(** The series of a scrape: metric name and label values. *)
Definition series (m : Metric) : string * list string := (fqName (desc m), labels m).

(** The histories of the agent use the reasons of [dropReasons] only. *)
Definition known_reasons (ops : list (op (W:=W))) : Prop :=
  ∀ r, OpDrop r ∈ ops → r ∈ dropReasons.

Lemma dropped_known ops r n :
  known_reasons ops → eventsDroppedTotal (run_ops ops) !! r = Some n → r ∈ dropReasons.
Proof.
  intros Hk. rewrite drop_count. cbv zeta. destruct (_ && _) eqn:E; [done|]. intros _.
  apply andb_false_iff in E as [E|E].
  - apply Hk. apply bool_decide_eq_false in E. unfold count in E.
    destruct (List.filter (is_drop r) ops) as [|o l] eqn:F; [done|].
    assert (Ho : In o (List.filter (is_drop r) ops)) by (rewrite F; by left).
    apply filter_In in Ho as [Ho Hr]. apply list_elem_of_In in Ho.
    destruct o; cbn in Hr; try done. by apply bool_decide_eq_true in Hr as ->.
  - by apply negb_false_iff, bool_decide_eq_true in E.
Qed.

Lemma NoDup_fmap_fst {K A B} (f : K * A → B) (l : list (K * A)) :
  (∀ x y, f x = f y → x.1 = y.1) → NoDup l.*1 → NoDup (f <$> l).
Proof.
  intros Hf. induction l as [|x l IH]; cbn; [constructor|].
  rewrite !NoDup_cons. intros [Hx Hl]. split; [|by apply IH].
  intros (y & E & Hy)%list_elem_of_fmap. apply Hx. apply Hf in E. rewrite E.
  apply list_elem_of_fmap. eauto.
Qed.

(** The five groups of a scrape. *)
Lemma elem_of_Collect w (c : Collector W) m :
  m ∈ Collect w c ↔
  (∃ k v, ioctlTotal c !! k = Some v ∧
          m = ConstMetric (ioctlDesc c) CounterValue (float64 v) (key_labels k)) ∨
  (∃ r v, eventsDroppedTotal c !! r = Some v ∧
          m = ConstMetric (eventsDroppedDesc c) CounterValue (float64 v) [r]) ∨
  (∃ source lost, kernelDroppedSource c = Some source ∧ source w = Ok lost ∧
          m = ConstMetric (eventsDroppedDesc c) CounterValue (float64 lost) [ReasonRingbufFull]) ∨
  m = ConstMetric (cgroupRebuildsDesc c) CounterValue
        (float64 match cgroupIndexRebuildsSource c with Some s => s w | None => 0 end) [] ∨
  (∃ k, k ∈ deviceInfo c ∧
        m = ConstMetric (deviceInfoDesc c) GaugeValue 1 (deviceKey_labels k)).
Proof.
  unfold Collect. rewrite !elem_of_app, !list_elem_of_fmap, list_elem_of_singleton.
  repeat apply Morphisms_Prop.or_iff_morphism.
  - split; [intros ([k v] & -> & Hk%range_lookup); eauto|].
    intros (k & v & Hk & ->). exists (k, v). by rewrite range_lookup.
  - split; [intros ([k v] & -> & Hk%range_lookup); eauto|].
    intros (k & v & Hk & ->). exists (k, v). by rewrite range_lookup.
  - destruct (kernelDroppedSource c) as [source|]; [|split; [by intros ?%not_elem_of_nil|naive_solver]].
    destruct (source w) as [lost|err] eqn:E.
    + rewrite list_elem_of_singleton. split; [intros ->; eauto|].
      intros (? & ? & [= <-] & E' & ->). congruence.
    + split; [by intros ?%not_elem_of_nil|]. intros (? & ? & [= <-] & E' & ->). congruence.
  - done.
  - split.
    + intros ([k []] & -> & Hk%range_lookup). apply lookup_gset_to_gmap_Some in Hk as [? _]. eauto.
    + intros (k & Hk & ->). exists (k, tt). by rewrite range_lookup, lookup_gset_to_gmap_Some.
Qed.

(** The metric names of a collector are those of [NewCollector], all distinct. *)
Lemma desc_names ops :
  fqName (ioctlDesc (run_ops (W:=W) ops)) = "kubenpu_ioctl_total" ∧
  fqName (eventsDroppedDesc (run_ops (W:=W) ops)) = "kubenpu_events_dropped_total" ∧
  fqName (cgroupRebuildsDesc (run_ops (W:=W) ops)) = "kubenpu_cgroup_index_rebuilds_total" ∧
  fqName (deviceInfoDesc (run_ops (W:=W) ops)) = "kubenpu_device_info".
Proof. by destruct (descs_set (W:=W) ops) as (-> & -> & -> & ->). Qed.

(** Lists whose elements carry the number of their list are disjoint. *)
Definition tagged {A} (tag : A → nat) (i : nat) (g : list A) : Prop :=
  NoDup g ∧ ∀ x, x ∈ g → tag x = i.

Lemma NoDup_tagged {A} (tag : A → nat) n (gs : list (list A)) :
  Forall2 (tagged tag) (seq n (length gs)) gs → NoDup (concat gs).
Proof.
  revert n. induction gs as [|g gs IH]; intros n; cbn; [constructor|].
  intros ([Hg Ht] & Hr)%Forall2_cons. apply NoDup_app. split_and!; [done| |by eapply IH].
  intros x Hx (g' & Hg' & Hx')%list_elem_of_In%in_concat.
  apply list_elem_of_In, list_elem_of_lookup in Hg' as [j Hj].
  destruct (Forall2_lookup_r _ _ _ _ _ Hr Hj) as (i & [-> _]%lookup_seq & _ & Ht').
  apply Ht in Hx. apply list_elem_of_In, Ht' in Hx'. lia.
Qed.

Lemma tagged_range {A K B} `{Countable K} (tag : A → nat) i (f : K * B → A) (m : gmap K B) :
  (∀ x y, f x = f y → x.1 = y.1) → (∀ k b, m !! k = Some b → tag (f (k, b)) = i) →
  tagged tag i (f <$> range_map m).
Proof.
  intros Hf Ht. split; [by apply NoDup_fmap_fst, range_NoDup|].
  intros ? ([k b] & -> & Hk%range_lookup)%list_elem_of_fmap. by apply Ht.
Qed.

Lemma tagged_one {A} (tag : A → nat) i x : tag x = i → tagged tag i [x].
Proof. intros <-. split; [apply NoDup_singleton|]. by intros y ->%list_elem_of_singleton. Qed.

Lemma tagged_nil {A} (tag : A → nat) i : tagged tag i [].
Proof. split; [constructor|]. by intros y ?%not_elem_of_nil. Qed.

(** The group a series belongs to. *)
Definition group (s : string * list string) : nat :=
  if bool_decide (s.1 = "kubenpu_ioctl_total") then 0
  else if bool_decide (s.1 = "kubenpu_events_dropped_total")
       then if bool_decide (s.2 = [ReasonRingbufFull]) then 2 else 1
  else if bool_decide (s.1 = "kubenpu_cgroup_index_rebuilds_total") then 3 else 4.

Lemma NoDup_five {A} (tag : A → nat) a b c d e :
  tagged tag 0 a → tagged tag 1 b → tagged tag 2 c → tagged tag 3 d → tagged tag 4 e →
  NoDup (a ++ b ++ c ++ d ++ e).
Proof.
  intros. replace (a ++ b ++ c ++ d ++ e) with (concat [a; b; c; d; e])
    by (cbn; by rewrite app_nil_r).
  apply (NoDup_tagged tag 0). repeat (apply Forall2_cons_2; [assumption|]). constructor.
Qed.

Lemma group_dropped r : r ∈ dropReasons → group ("kubenpu_events_dropped_total", [r]) = 1%nat.
Proof.
  unfold dropReasons. rewrite !elem_of_cons.
  intros Hr. destruct_or! Hr; [subst; by vm_compute..|]. by apply not_elem_of_nil in Hr.
Qed.

Lemma Collect_NoDup w ops :
  known_reasons ops → NoDup (series <$> Collect w (run_ops ops)).
Proof.
  intros Hk. destruct (desc_names ops) as (N1 & N2 & N3 & N4).
  unfold Collect. rewrite !fmap_app, <- !list_fmap_compose. apply (NoDup_five group).
  - apply tagged_range.
    + intros [k v] [k' v'] E. apply (f_equal snd) in E. by apply key_labels_inj in E.
    + intros k v _. unfold compose, series. cbn [desc labels]. by rewrite N1.
  - apply tagged_range.
    + intros [k v] [k' v'] E. apply (f_equal snd) in E. by injection E.
    + intros r v Hr. unfold compose, series. cbn [desc labels]. rewrite N2.
      by eapply group_dropped, dropped_known.
  - destruct (kernelDroppedSource _) as [source|]; [|apply tagged_nil].
    destruct (source w); [|apply tagged_nil].
    apply tagged_one. unfold series. cbn [desc labels]. by rewrite N2.
  - apply tagged_one. unfold series. cbn [desc labels]. by rewrite N3.
  - apply tagged_range.
    + intros [k v] [k' v'] E. apply (f_equal snd) in E. by apply deviceKey_labels_inj in E.
    + intros k v _. unfold compose, series. cbn [desc labels]. by rewrite N4.
Qed.

(** A scrape is a valid exposition: whatever order the maps are ranged
    over, no two of its metrics have the same name and labels — the kernel's
    drop reason never collides with a counted one — and each carries one of
    the described descriptors with as many label values as it has labels. *)
Theorem scrape_consistent w ops :
  known_reasons ops →
  NoDup (series <$> Collect w (run_ops ops)) ∧
  ∀ m, m ∈ Collect w (run_ops ops) →
    desc m ∈ Describe (run_ops ops) ∧
    length (labels m) = length (variableLabels (desc m)).
Proof.
  intros Hk. split; [by apply Collect_NoDup|]. intros m Hm%elem_of_Collect.
  destruct (descs_set ops) as (D1 & D2 & D3 & D4).
  unfold Describe. rewrite !elem_of_cons.
  destruct Hm as [(k & v & _ & ->)|[(r & v & _ & ->)|[(src & v & _ & _ & ->)|[->|(k & _ & ->)]]]];
    cbn [desc labels]; (split; [tauto|]); by rewrite ?D1, ?D2, ?D3, ?D4.
Qed.

Lemma same_name d d' t t' x x' l l' :
  ConstMetric d t x l = ConstMetric d' t' x' l' → fqName d = fqName d'.
Proof. by intros [= -> _ _ _]. Qed.

(** Split a member of a scrape into the group its name allows. *)
Ltac scrape_groups ops H :=
  let N1 := fresh in let N2 := fresh in let N3 := fresh in let N4 := fresh in
  destruct (desc_names ops) as (N1 & N2 & N3 & N4);
  destruct H as [(? & ? & ? & H)|[(? & ? & ? & H)|[(? & ? & ? & ? & H)|[H|(? & ? & H)]]]];
  try (apply same_name in H; rewrite ?N1, ?N2, ?N3, ?N4 in H; discriminate);
  clear N1 N2 N3 N4.

Lemma scrape_ioctl (w : W) (ops : list (op (W:=W))) v k :
  ConstMetric (ioctlDesc (run_ops ops)) CounterValue v (key_labels k) ∈ Collect w (run_ops ops) ↔
  0 < count (is_ioctl k) ops ∧ v = float64 (wrap 64 (count (is_ioctl k) ops)).
Proof.
  rewrite elem_of_Collect. pose proof (count_nonneg (is_ioctl k) ops). split.
  - intros E. scrape_groups ops E. pose proof (inj key_labels _ _ (f_equal labels E)) as <-.
    apply (f_equal value) in E. cbn in E. rewrite ioctl_count in *. cbv zeta in *.
    rewrite andb_true_r in *. case_bool_decide; [done|]. simplify_eq. split; [lia|done].
  - intros [Hc ->]. left. exists k, (wrap 64 (count (is_ioctl k) ops)).
    rewrite ioctl_count. cbv zeta. by rewrite bool_decide_eq_false_2 by lia.
Qed.

Lemma scrape_dropped w ops v r :
  known_reasons ops →
  ConstMetric (eventsDroppedDesc (run_ops ops)) CounterValue v [r] ∈ Collect w (run_ops ops) ↔
  (r ∈ dropReasons ∧ v = float64 (wrap 64 (count (is_drop r) ops))) ∨
  (r = ReasonRingbufFull ∧
   ∃ source lost, dropped_source ops = Some source ∧ source w = Ok lost ∧ v = float64 lost).
Proof.
  intros Hk. destruct (sources_set ops) as [_ S2]. rewrite elem_of_Collect, S2. split.
  - intros E. scrape_groups ops E; injection E as -> ->; [|by right; eauto 9].
    left. match goal with H : eventsDroppedTotal _ !! _ = _ |- _ =>
      pose proof (dropped_known _ _ _ Hk H) as Hin; rewrite drop_count in H; cbv zeta in H;
      rewrite (bool_decide_eq_true_2 (_ ∈ _)), andb_false_r in H by exact Hin
    end. by simplify_eq.
  - intros [[Hr ->]|(-> & src & lost & Hs & Hl & ->)]; [|eauto 9].
    right. left. exists r, (wrap 64 (count (is_drop r) ops)). split; [|done].
    rewrite drop_count. cbv zeta.
    by rewrite (bool_decide_eq_true_2 (r ∈ _)), andb_false_r by done.
Qed.

Lemma scrape_rebuilds (w : W) (ops : list (op (W:=W))) v :
  ConstMetric (cgroupRebuildsDesc (run_ops ops)) CounterValue v [] ∈ Collect w (run_ops ops) ↔
  v = float64 match rebuilds_source ops with Some s => s w | None => 0 end.
Proof.
  destruct (sources_set ops) as [S1 _]. rewrite elem_of_Collect, S1. split; [|by intros ->; auto].
  intros E. scrape_groups ops E. by injection E.
Qed.

(** C22: A scrape shows exactly what was counted: the ioctl series of a label
    set with its increments, every drop reason of [dropReasons] from the start
    with its increments, [ringbuf_full] exactly when the kernel's counter can
    be read, with its value, and always one rebuild counter, 0 while it has no
    source. *)
Theorem scrape_exact w ops v :
  known_reasons ops →
  let c := run_ops ops in
  (∀ k, ConstMetric (ioctlDesc c) CounterValue v (key_labels k) ∈ Collect w c ↔
        0 < count (is_ioctl k) ops ∧ v = float64 (wrap 64 (count (is_ioctl k) ops))) ∧
  (∀ r, ConstMetric (eventsDroppedDesc c) CounterValue v [r] ∈ Collect w c ↔
        (r ∈ dropReasons ∧ v = float64 (wrap 64 (count (is_drop r) ops))) ∨
        (r = ReasonRingbufFull ∧
         ∃ source lost, dropped_source ops = Some source ∧ source w = Ok lost ∧
                        v = float64 lost)) ∧
  (ConstMetric (cgroupRebuildsDesc c) CounterValue v [] ∈ Collect w c ↔
     v = float64 match rebuilds_source ops with Some s => s w | None => 0 end).
Proof.
  intros Hk c. split; [|split].
  - intros k. apply scrape_ioctl.
  - intros r. by apply scrape_dropped.
  - apply scrape_rebuilds.
Qed.

End Scrape.

(** A history: one batch submission counted, one event dropped. *)
Definition sample_key : key := Key "ml" "trainer" "main" "0000:00:02.0" "i915" "submit".
Definition sample_ops : list (op (W:=Z)) :=
  [OpDroppedSource (λ w, Ok w); OpIoctl sample_key; OpDrop ReasonNotPod; OpIoctl sample_key].

Lemma sample_known : known_reasons sample_ops.
Proof.
  intros r. unfold sample_ops. rewrite !elem_of_cons.
  intros [?|[?|[[= ->]|[?|[]%not_elem_of_nil]]]]; [done..| |done]. by_decide.
Qed.

Lemma float64_faithful_witness :
  float64 (2 ^ 53 + 1) ≤ float64 (2 ^ 53 + 3) ∧ float64 (2 ^ 53 + 3) = 2 ^ 53 + 4.
Proof.
  split; [|by vm_compute].
  apply (float64_faithful (2 ^ 53 + 1) (2 ^ 53 + 3)); lia.
Defined.

Lemma scrape_consistent_witness :
  NoDup (series <$> Collect 7 (run_ops sample_ops)).
Proof. apply (scrape_consistent 7 sample_ops). exact sample_known. Defined.

Lemma scrape_exact_witness :
  ConstMetric (ioctlDesc (run_ops sample_ops)) CounterValue 2 (key_labels sample_key)
    ∈ Collect 7 (run_ops sample_ops) ∧
  ConstMetric (eventsDroppedDesc (run_ops sample_ops)) CounterValue 7 [ReasonRingbufFull]
    ∈ Collect 7 (run_ops sample_ops).
Proof.
  split.
  - apply (scrape_exact 7 sample_ops 2 sample_known). by vm_compute.
  - apply (scrape_exact 7 sample_ops 7 sample_known). right. split; [done|].
    exists (λ w, Ok w), 7. by vm_compute.
Defined.
