(* ===== verification/Deploy.v ===== *)
(** * [deploy]: the manifests that start the agent

    The Helm chart, the Tanka library and the Kustomize base each render a
    DaemonSet. Of its one container this file has what the program depends on:
    the image, the user and the capabilities it runs with, the environment, the
    port, the probes, and the host directories that are mounted, as functions of
    the values a user sets. How the tools write a number as text is a parameter.
    The theorem says that the three agree with each other and with [pkg/config],
    [pkg/metrics] and the paths the agent reads. [NODE_NAME], which only the
    running node can fill, is a parameter as well.

    Not modelled: names, namespace, labels, annotations and selectors; the
    numbers of the probes ([initialDelaySeconds] and the like), resources, grace
    period, update strategy, priority, tolerations and affinity; the namespace,
    service and service monitor. *)

From S2P Require Import Prelude.
From S2P Require Import GoStrings.
From S2P Require Import Config.
From S2P Require Import Metrics.

Local Open Scope Z_scope.

(** ** What a manifest renders *)













Section Render.

(** A number as text: [quote] of a template, [std.toString]. *)
Variable text : Z → string.

(** The field [spec.nodeName] of the pod. *)
Variable nodeName : string.



End Render.





(** ** The agent in the container *)











(** ** Lemmas *)
























(** ** Property *)


