(* ===== verification/Setup.v ===== *)
(** * [cmd/agent/main.go], up to the main loop

    [main] fills the collector, the user-space device map and the two kernel
    maps from the discovered devices, then attaches the program, builds the pod
    map, creates the reader and becomes ready. Everything the process gets from
    outside is a field of [host]. [log.Fatal] ends the process at once, so a
    step that fails is an error of the whole. What a start that succeeds has
    called, and in which order, is its trace: the loader logs its calls, and
    [main] adds the others where it makes them. *)

From S2P Require Import Prelude.
From S2P Require Import GoStrings.
From S2P Require Import CLayout.
From S2P Require Import Kernel.
From S2P Require Import BpfProgram.
From S2P Require Import Hw.
From S2P Require Import Loader.
From S2P Require Import Discovery.
From S2P Require Import Cgroup.
From S2P Require Import PodMap.
From S2P Require Import Config.
From S2P Require Import Metrics.

Local Open Scope Z_scope.

(** ** Data *)

(** [deviceNode]: major and minor. *)
Definition deviceNode : Type := Z * Z.

Record deviceMeta : Type := DeviceMeta {
  meta_pciAddress : string;
  meta_vendor : string;
}.

(** What the metric sources read: the pod map, the kernel objects, and whether
    a lookup in the map of dropped events fails. *)
Record world (H R P : Type) : Type := World {
  w_podmap : PodMap;
  w_objects : bpf_state H R P;
  w_lookup : option error;
}.
Arguments World {H R P} _ _ _.
Arguments w_podmap {H R P} _.
Arguments w_objects {H R P} _.
Arguments w_lookup {H R P} _.

(** What [main] does to the outside on its way to the main loop. *)
Inductive startup (link reader : Type) : Type :=
  | StLoad                            (** [loader.NewLoader] *)
  | StDiscover                        (** [discovery.Discover] *)
  | StCall (c : call link reader)     (** a call of the loader *)
  | StPodMap                          (** [podmap.NewPodMap] *)
  | StServe                           (** [go srv.Run()] *)
  | StReady.                          (** [ready.Store(true)] *)
Arguments StLoad {link reader}.
Arguments StDiscover {link reader}.
Arguments StCall {link reader}.
Arguments StPodMap {link reader}.
Arguments StServe {link reader}.
Arguments StReady {link reader}.

(** [net.JoinHostPort]: a host with a colon is bracketed. *)
Definition JoinHostPort (host port : string) : string :=
  if Contains host ":"
  then String.append "[" (String.append host (String.append "]:" port))
  else String.append host (String.append ":" port).

(** A loop that ends at the first error. *)
Fixpoint fold_res {A St} (f : St → A → res St) (s : St) (l : list A) : res St :=
  match l with
  | [] => Ok s
  | a :: l => match f s a with Ok s => fold_res f s l | Err err => Err err end
  end.

Section Setup.

Context {H R P link reader conn : Type} `{!BpfHash H, !BpfRingbuf R, !BpfPercpu P}.

Record setup : Type := MkSetup {
  s_loader : Loader H R P link reader;
  s_collector : Collector (world H R P);
  s_deviceMap : gmap deviceNode deviceMeta;
  s_unknown : list Device;    (** "Found unknown device" log lines *)
}.

Variable put_error : error.
Variable lookup_error : error.

(** The order in which [range kinds] visits a vendor's table. *)
Variable range_kinds : list (Z * Z) → list (Z * Z).

Definition add_node (device : Device) (vendor : Vendor) (vendorID : Z) (st : setup)
    (node : Node) : res setup :=
  let deviceMap :=
    <[(Hw.Major node, Hw.Minor node) := DeviceMeta (PciAddress device) (Name vendor)]>
      (s_deviceMap st) in
  match AddDevice put_error (Hw.Major node) (Hw.Minor node) vendorID (s_loader st) with
  | (_, Some err) => Err err
  | (l, None) => Ok (MkSetup l (s_collector st) deviceMap (s_unknown st))
  end.

Definition add_ioctl (vendorID : Z) (st : setup) (kv : Z * Z) : res setup :=
  let '(key, val) := kv in
  match AddIoctl put_error vendorID key (wrap 8 val) (s_loader st) with
  | (_, Some err) => Err err
  | (l, None) => Ok (MkSetup l (s_collector st) (s_deviceMap st) (s_unknown st))
  end.

(** One iteration of [for _, device := range devices]. *)
Definition setup_device (st : setup) (device : Device) : res setup :=
  match GetVendor registeredVendors device with
  | None =>
      Ok (MkSetup (s_loader st) (s_collector st) (s_deviceMap st) (s_unknown st ++ [device]))
  | Some vendor =>
      let vendorID := GetVendorID registeredVendors (Name vendor) in
      let collector :=
        SetDeviceInfo (PciAddress device) (Name vendor) (DriverName device) (PciID device)
          (NumaNode device) (s_collector st) in
      let st := MkSetup (s_loader st) collector (s_deviceMap st) (s_unknown st) in
      match fold_res (add_node device vendor vendorID) st (Nodes device) with
      | Err err => Err err
      | Ok st => fold_res (add_ioctl vendorID) st (range_kinds (Ioctls vendor))
      end
  end.

Definition setup_devices (l : Loader H R P link reader) (collector : Collector (world H R P))
    (devices : list Device) : res setup :=
  fold_res setup_device (MkSetup l collector ∅ []) devices.

(** The command line: [-version] and [-debug]. *)
Record flags : Type := Flags { versionFlag : bool; debugFlag : option bool }.

Record host : Type := Host {
  h_env : string → option string;
  h_flags : flags;
  h_kernel : kernel_probes;
  h_RemoveMemlock : option error;
  h_loadBpfObjects : option options → res (bpf_state H R P);
  h_as_verifier : error → option error;
  h_sys : system;
  h_range_devices : list Device → list Device;
  h_AttachTracing : res link;
  h_link_Close : link → option error;
  h_cgroup : moment;
  h_NewCRIClient : string → Z → res conn;
  h_NewReader : res reader;
  h_metrics : world H R P → response;
}.

(** The agent when it enters its main loop. *)
Record running : Type := MkRunning {
  r_config : Config;
  r_setup : setup;
  r_podmap : PodMap;
  r_conn : conn;
  r_server : Server (world H R P * bool);
  r_ready : bool;
  r_trace : list (startup link reader);
}.

Inductive outcome : Type :=
  | PrintedVersion (version : string)
  | Fatal (err : error)
  | Running (r : running).

(** The calls the loader has made between two of its states. *)
Definition since (l l' : Loader H R P link reader) : list (startup link reader) :=
  StCall <$> drop (length (calls l)) (calls l').

(** [main], up to [fmt.Println("Starting agent")]. [ready.Load] is the second
    component of the state the server's handlers read. *)
Definition main (h : host) : outcome :=
  let appConfig := Load (h_env h) in
  let collector := NewCollector in
  if versionFlag (h_flags h) then PrintedVersion (AppVersion appConfig)
  else
    let debug := default (Debug appConfig) (debugFlag (h_flags h)) in
    match NewLoader (h_kernel h) (h_RemoveMemlock h) (h_loadBpfObjects h) (h_as_verifier h)
            debug with
    | Err err => Fatal err
    | Ok l =>
    let trace := [StLoad] in
    let paths := Discovery.MkPaths (Config.DriPath appConfig) (Config.AccelPath appConfig)
                   (Config.SysfsDriPath appConfig) (Config.SysfsAccelPath appConfig) in
    match (Discover (h_sys h) (h_range_devices h) paths).1 with
    | Err err => Fatal err
    | Ok devices =>
    let trace := trace ++ [StDiscover] in
    match setup_devices l collector devices with
    | Err err => Fatal err
    | Ok st =>
    let trace := trace ++ since l (s_loader st) in
    match Attach (h_AttachTracing h) (h_link_Close h) (s_loader st) with
    | (_, Some err) => Fatal err
    | (l, None) =>
    let trace := trace ++ since (s_loader st) l in
    match NewPodMap (h_cgroup h) (h_NewCRIClient h) (CgroupRootPath appConfig)
            (CriSocketPath appConfig) (Config.Interval appConfig) (CriTimeout appConfig)
            (CacheTTL appConfig) with
    | Err err => Fatal err
    | Ok (p, conn) =>
    let trace := trace ++ [StPodMap] in
    let collector :=
      SetCgroupIndexRebuildsSource (Some (λ w, CgroupIndexRebuilds (w_podmap w)))
        (s_collector st) in
    let collector :=
      SetKernelDroppedSource (Some (λ w, DroppedEvents lookup_error (w_lookup w) (w_objects w)))
        collector in
    let srv :=
      NewServer (λ w, h_metrics h w.1)
        (JoinHostPort (Config.Host appConfig) (Itoa (Port appConfig)))
        (Some snd) in
    let trace := trace ++ [StServe] in
    match CreateReader (h_NewReader h) l with
    | (_, Some err) => Fatal err
    | (l', None) =>
        let trace := trace ++ since l l' ++ [StReady] in
        Running (MkRunning appConfig
          (MkSetup l' collector (s_deviceMap st) (s_unknown st)) p conn srv true trace)
    end end end end end end.

End Setup.

Arguments setup : clear implicits.
Arguments MkSetup {H R P link reader}.
Arguments host : clear implicits.
Arguments running : clear implicits.
Arguments outcome : clear implicits.

(** ** Lemmas: maps filled in a loop *)

Definition insert_all {K A} `{Countable K} (l : list (K * A)) (m : gmap K A) : gmap K A :=
  foldl (λ m kv, <[kv.1 := kv.2]> m) m l.

Lemma insert_all_app {K A} `{Countable K} (l l' : list (K * A)) m :
  insert_all (l ++ l') m = insert_all l' (insert_all l m).
Proof. apply foldl_app. Qed.

(** A list of entries that binds each key to one value. *)
Definition functional {K A} (l : list (K * A)) : Prop :=
  ∀ k a a', (k, a) ∈ l → (k, a') ∈ l → a = a'.

Lemma insert_all_lookup {K A} `{Countable K} (l : list (K * A)) k a :
  functional l → insert_all l ∅ !! k = Some a ↔ (k, a) ∈ l.
Proof.
  induction l as [|[k' a'] l IH] using rev_ind; intros Hf.
  { unfold insert_all; cbn [foldl]. rewrite lookup_empty. split; [done|]. by intros ?%not_elem_of_nil. }
  rewrite insert_all_app. cbn. rewrite elem_of_app, list_elem_of_singleton.
  assert (functional l) as Hl.
  { intros k0 a0 a1 H0 H1. apply (Hf k0); apply elem_of_app; by left. }
  destruct (decide (k' = k)) as [->|Hne].
  - rewrite lookup_insert_eq. split; [intros [= ->]; by right|].
    intros [Hin|[= ->]]; [|done]. f_equal. apply (Hf k); apply elem_of_app.
    + right. by left.
    + by left.
  - rewrite lookup_insert_ne, (IH Hl) by done. naive_solver.
Qed.

Lemma insert_all_dom {K A} `{Countable K} (l : list (K * A)) k :
  is_Some (insert_all l ∅ !! k) ↔ k ∈ l.*1.
Proof.
  induction l as [|[k' a'] l IH] using rev_ind.
  { unfold insert_all; cbn [foldl]. rewrite lookup_empty. split; [by intros []|]. by intros ?%not_elem_of_nil. }
  rewrite insert_all_app, fmap_app, elem_of_app, <- IH. cbn.
  rewrite list_elem_of_singleton. destruct (decide (k' = k)) as [->|Hne].
  - rewrite lookup_insert_eq. split; eauto.
  - rewrite lookup_insert_ne by done. naive_solver.
Qed.

Lemma fold_res_ind {A St} (f : St → A → res St) (Inv : list A → St → Prop) l s s' :
  Inv [] s →
  (∀ l' a s1 s2, Inv l' s1 → a ∈ l → f s1 a = Ok s2 → Inv (l' ++ [a]) s2) →
  fold_res f s l = Ok s' → Inv l s'.
Proof.
  intros H0 Hs. assert (Hg : ∀ l2 l1 s1, l = l1 ++ l2 → Inv l1 s1 →
    fold_res f s1 l2 = Ok s' → Inv l s').
  { induction l2 as [|a l2 IH]; intros l1 s1 El Hi; cbn.
    - intros [= <-]. by rewrite El, app_nil_r.
    - destruct (f s1 a) as [s2|] eqn:E; [|done]. intros Hr.
      apply (IH (l1 ++ [a]) s2); [by rewrite <- app_assoc| |done].
      apply (Hs l1 a s1); [done| |done]. rewrite El, elem_of_app. right. by left. }
  by apply (Hg l []).
Qed.

(** ** What setup should leave in the maps *)

Definition vendor_id (v : Vendor) : Z := GetVendorID registeredVendors (Name v).

(** The usable devices with their vendors. *)
Definition supported (ds : list Device) : list (Device * Vendor) :=
  omap (λ d, pair d <$> GetVendor registeredVendors d) ds.

Definition node_key (n : Node) : Z * Z := (Hw.Major n, Hw.Minor n).

Definition device_entries (dv : Device * Vendor) : list ((Z * Z) * Z) :=
  (λ n, (node_key n, vendor_id dv.2)) <$> Nodes dv.1.

Definition meta_entries (dv : Device * Vendor) : list (deviceNode * deviceMeta) :=
  (λ n, (node_key n, DeviceMeta (PciAddress dv.1) (Name dv.2))) <$> Nodes dv.1.

Definition ioctl_entries (range_kinds : list (Z * Z) → list (Z * Z)) (v : Vendor) :
    list ((Z * Z) * Z) :=
  (λ kv : Z * Z, ((vendor_id v, kv.1), wrap 8 kv.2)) <$> range_kinds (Ioctls v).

(** The calls of [AddDevice] and [AddIoctl] that fill the maps, in order. *)
Definition node_call {link reader} (id : Z) (n : Node) : call link reader :=
  CallPutDevice (device_key (Hw.Major n) (Hw.Minor n)) (le_bytes 4 id).

Definition kind_call {link reader} (id : Z) (kv : Z * Z) : call link reader :=
  CallPutIoctl (ioctl_key id kv.1) (le_bytes 1 (wrap 8 kv.2)).

Definition setup_calls {link reader} (range_kinds : list (Z * Z) → list (Z * Z))
    (ds : list Device) : list (call link reader) :=
  supported ds ≫= λ dv,
    (node_call (vendor_id dv.2) <$> Nodes dv.1) ++
    (kind_call (vendor_id dv.2) <$> range_kinds (Ioctls dv.2)).

Definition devs_of (ds : list Device) : gmap (Z * Z) Z :=
  insert_all (supported ds ≫= device_entries) ∅.

Definition metas_of (ds : list Device) : gmap deviceNode deviceMeta :=
  insert_all (supported ds ≫= meta_entries) ∅.

Definition tbl_of (range_kinds : list (Z * Z) → list (Z * Z)) (ds : list Device) :
    gmap (Z * Z) Z :=
  insert_all (supported ds ≫= λ dv, ioctl_entries range_kinds dv.2) ∅.

Definition wf_node (n : Node) : Prop := in_width 32 (Hw.Major n) ∧ in_width 32 (Hw.Minor n).

Definition wf_devices (ds : list Device) : Prop := ∀ d n, d ∈ ds → n ∈ Nodes d → wf_node n.

Lemma registered_id v : v ∈ registeredVendors → in_width 32 (vendor_id v).
Proof.
  revert v. cut (Forall (λ v, in_width 32 (vendor_id v)) registeredVendors);
    [rewrite Forall_forall; auto|]. by_decide.
Qed.

Lemma registered_numbers v nr k :
  v ∈ registeredVendors → (nr, k) ∈ Ioctls v → in_width 32 nr ∧ wrap 8 k = k ∧ known_kind k.
Proof.
  cut (Forall (λ v, Forall (λ nk, in_width 32 nk.1 ∧ wrap 8 nk.2 = nk.2 ∧ known_kind nk.2)
                      (Ioctls v)) registeredVendors); [|by_decide].
  rewrite Forall_forall. intros Hf Hv Hin. specialize (Hf v Hv).
  rewrite Forall_forall in Hf. exact (Hf _ Hin).
Qed.

Lemma supported_elem ds d v :
  (d, v) ∈ supported ds ↔ d ∈ ds ∧ GetVendor registeredVendors d = Some v.
Proof.
  unfold supported. rewrite list_elem_of_omap. split.
  - intros (d' & Hd & E). destruct (GetVendor registeredVendors d') eqn:Ev; [|done].
    cbn in E. simplify_eq. done.
  - intros [Hd Hv]. exists d. by rewrite Hv.
Qed.

Lemma supported_app ds ds' : supported (ds ++ ds') = supported ds ++ supported ds'.
Proof. apply omap_app. Qed.

Lemma supported_one d :
  supported [d] =
    match GetVendor registeredVendors d with Some v => [(d, v)] | None => [] end.
Proof. unfold supported. cbn [omap list_omap]. by destruct (GetVendor _ d). Qed.

(** ** Lemmas: the loops of [main] *)

Section Loops.

Context {H R P link reader : Type} `{!BpfHash H, !BpfRingbuf R, !BpfPercpu P, !BpfHashOk H}.
Variable put_error : error.
Variable range_kinds : list (Z * Z) → list (Z * Z).
Hypothesis range_kinds_perm : ∀ l, range_kinds l ≡ₚ l.

Abbreviation setup := (setup H R P link reader).
Abbreviation Loader := (Loader H R P link reader).

(** Between these states of the loader only the map-filling calls [cs] have
    been made. *)
Definition untouched (cs : list (call link reader)) (l l' : Loader) : Prop :=
  st_events (bpfObjects l') = st_events (bpfObjects l) ∧
  st_dropped (bpfObjects l') = st_dropped (bpfObjects l) ∧
  hook l' = hook l ∧ rb l' = rb l ∧ calls l' = calls l ++ cs ∧
  closeReaderOnce l' = closeReaderOnce l ∧ closeOnce l' = closeOnce l.

Lemma untouched_refl l : untouched [] l l.
Proof. unfold untouched. by rewrite app_nil_r. Qed.

Lemma untouched_app cs cs' l l' l'' :
  untouched cs l l' → untouched cs' l' l'' → untouched (cs ++ cs') l l''.
Proof. unfold untouched. rewrite app_assoc. naive_solver congruence. Qed.

Definition devices_hold (st : setup) := holds_devices (st_devices (bpfObjects (s_loader st))).
Definition ioctls_hold (st : setup) := holds_ioctls (st_ioctls (bpfObjects (s_loader st))).

Lemma nodes_loop d v st st' m :
  v ∈ registeredVendors → (∀ n, n ∈ Nodes d → wf_node n) → devices_hold st m →
  fold_res (add_node put_error d v (vendor_id v)) st (Nodes d) = Ok st' →
  devices_hold st' (insert_all (device_entries (d, v)) m) ∧
  s_deviceMap st' = insert_all (meta_entries (d, v)) (s_deviceMap st) ∧
  st_ioctls (bpfObjects (s_loader st')) = st_ioctls (bpfObjects (s_loader st)) ∧
  s_collector st' = s_collector st ∧ s_unknown st' = s_unknown st ∧
  untouched (node_call (vendor_id v) <$> Nodes d) (s_loader st) (s_loader st').
Proof.
  intros Hv Hn Hd Hf. unfold device_entries, meta_entries. cbn [fst snd].
  pattern (Nodes d), st'. eapply fold_res_ind; [by split_and!; try apply untouched_refl| |exact Hf]. cbv beta.
  intros l' n s1 s2 (I1 & I2 & I3 & I4 & I5 & I6) Hin E. rewrite !fmap_app, !insert_all_app.
  unfold add_node in E. destruct (AddDevice _ _ _ _ _) as [l [err|]] eqn:Ea; [done|].
  injection E as <-. cbn. destruct (Hn n Hin) as [Hw Hw'].
  destruct (AddDevice_holds _ _ _ _ _ _ _ Hw Hw' (registered_id v Hv) I1 Ea)
    as (J1 & J2 & J).
  rewrite J2, I2. split_and!; try done. eapply untouched_app; [exact I6|]. unfold untouched. tauto.
Qed.

Lemma ioctls_loop v st st' m :
  v ∈ registeredVendors → ioctls_hold st m →
  fold_res (add_ioctl put_error (vendor_id v)) st (range_kinds (Ioctls v)) = Ok st' →
  ioctls_hold st' (insert_all (ioctl_entries range_kinds v) m) ∧
  st_devices (bpfObjects (s_loader st')) = st_devices (bpfObjects (s_loader st)) ∧
  s_deviceMap st' = s_deviceMap st ∧
  s_collector st' = s_collector st ∧ s_unknown st' = s_unknown st ∧
  untouched (kind_call (vendor_id v) <$> range_kinds (Ioctls v)) (s_loader st) (s_loader st').
Proof.
  intros Hv Hd Hf. unfold ioctl_entries.
  pattern (range_kinds (Ioctls v)), st'. eapply fold_res_ind; [by split_and!; try apply untouched_refl| |exact Hf]. cbv beta.
  intros l' [nr k] s1 s2 (I1 & I2 & I3 & I4 & I5 & I6) Hin E.
  rewrite !fmap_app, !insert_all_app.
  unfold add_ioctl in E. destruct (AddIoctl _ _ _ _ _) as [l [err|]] eqn:Ea; [done|].
  injection E as <-. cbn. rewrite range_kinds_perm in Hin.
  destruct (registered_numbers v nr k Hv Hin) as (Hw & _ & _).
  destruct (AddIoctl_holds _ _ _ _ _ _ _ (registered_id v Hv) Hw
    (wrap_in_width 8 k ltac:(lia)) I1 Ea) as (J1 & J2 & J).
  rewrite J2. split_and!; try done. eapply untouched_app; [exact I6|]. unfold untouched. tauto.
Qed.

(** The state of [main] after the devices [ds]. *)
Record filled (l : Loader) (c : Collector (world H R P)) (ds : list Device) (st : setup) :
    Prop := {
  filled_devices : devices_hold st (devs_of ds);
  filled_ioctls : ioctls_hold st (tbl_of range_kinds ds);
  filled_metas : s_deviceMap st = metas_of ds;
  filled_unknown :
    s_unknown st = filter (λ d, GetVendor registeredVendors d = None) ds;
  filled_collector :
    s_collector st =
      foldl (λ c dv, SetDeviceInfo (PciAddress dv.1) (Name dv.2) (DriverName dv.1) (PciID dv.1)
                       (NumaNode dv.1) c) c (supported ds);
  filled_rest : untouched (setup_calls range_kinds ds) l (s_loader st);
}.

Lemma setup_device_filled l c ds d st st' :
  (∀ n, n ∈ Nodes d → wf_node n) → filled l c ds st →
  setup_device put_error range_kinds st d = Ok st' → filled l c (ds ++ [d]) st'.
Proof.
  intros Hn [F1 F2 F3 F4 F5 F6]. unfold setup_device.
  unfold devs_of, tbl_of, metas_of in *.
  destruct (GetVendor registeredVendors d) as [v|] eqn:Ev.
  - assert (Hs : supported (ds ++ [d]) = supported ds ++ [(d, v)])
      by (rewrite supported_app, supported_one; by rewrite Ev).
    destruct (GetVendor_elem _ _ _ Ev) as [Hv _]. cbv zeta.
    set (st0 := MkSetup _ _ _ _). fold (vendor_id v).
    destruct (fold_res (add_node _ d v _) st0 _) as [st1|] eqn:E1; [|done]. intros E2.
    destruct (nodes_loop d v st0 st1 _ Hv Hn F1 E1) as (A1 & A2 & A3 & A4 & A5 & A6).
    assert (ioctls_hold st1 (insert_all (supported ds ≫= λ dv, ioctl_entries range_kinds dv.2) ∅))
      as F2' by (unfold ioctls_hold in *; by rewrite A3).
    destruct (ioctls_loop v st1 st' _ Hv F2' E2) as (B1 & B2 & B3 & B4 & B5 & B6).
    split; unfold devs_of, tbl_of, metas_of; rewrite ?Hs, ?bind_app, ?insert_all_app.
    + cbn. rewrite app_nil_r. unfold devices_hold in *. by rewrite B2.
    + cbn. by rewrite app_nil_r.
    + cbn. rewrite app_nil_r, B3, A2. cbn. by rewrite F3.
    + rewrite filter_app, filter_cons_False by congruence. cbn.
      by rewrite app_nil_r, B5, A5.
    + rewrite foldl_app, B4, A4. cbn. by rewrite F5.
    + unfold setup_calls. rewrite Hs, bind_app. eapply untouched_app; [exact F6|].
      cbn. rewrite app_nil_r. by eapply untouched_app.
  - intros [= <-].
    assert (Hs : supported (ds ++ [d]) = supported ds)
      by (rewrite supported_app, supported_one, Ev; apply app_nil_r).
    split; unfold devs_of, tbl_of, metas_of, setup_calls; rewrite ?Hs; try done.
    cbn. rewrite filter_app, filter_cons_True by done. cbn. by rewrite F4.
Qed.

Lemma setup_devices_filled l c ds st :
  wf_devices ds →
  (∀ k, hash_lookup (st_devices (bpfObjects l)) k = None) →
  (∀ k, hash_lookup (st_ioctls (bpfObjects l)) k = None) →
  setup_devices put_error range_kinds l c ds = Ok st → filled l c ds st.
Proof.
  intros Hwf Hd Hi. apply fold_res_ind.
  - split; try done. apply untouched_refl.
  - intros ds' d s1 s2 Hf Hin. apply setup_device_filled; [|done]. intros n. by apply Hwf.
Qed.

End Loops.

(** ** Lemmas: capacity of the kernel maps *)

Lemma fold_res_total {A St} (f : St → A → res St) (Inv : list A → St → Prop) l s :
  Inv [] s →
  (∀ l' a s1 s2, Inv l' s1 → a ∈ l → f s1 a = Ok s2 → Inv (l' ++ [a]) s2) →
  (∀ l' a s1, Inv l' s1 → a ∈ l → l' ++ [a] `prefix_of` l → is_ok (f s1 a) = true) →
  ∃ s', fold_res f s l = Ok s'.
Proof.
  intros H0 Hs Ht. assert (Hg : ∀ l2 l1 s1, l = l1 ++ l2 → Inv l1 s1 →
    ∃ s', fold_res f s1 l2 = Ok s').
  { induction l2 as [|a l2 IH]; intros l1 s1 El Hi; cbn; [by eexists|].
    assert (a ∈ l) as Ha by (rewrite El, elem_of_app; right; by left).
    specialize (Ht l1 a s1 Hi Ha). destruct (f s1 a) as [s2|] eqn:E.
    - apply (IH (l1 ++ [a])); [by rewrite <- app_assoc|]. by eapply Hs.
    - exfalso. discriminate Ht. exists l2. by rewrite <- app_assoc. }
  by apply (Hg l []).
Qed.

Lemma size_insert_le {K A} `{Countable K} (m : gmap K A) k a :
  (size m ≤ size (<[k := a]> m))%nat.
Proof.
  destruct (m !! k) as [b|] eqn:E.
  - by rewrite map_size_insert_Some by eauto.
  - rewrite map_size_insert_None by done. lia.
Qed.

Lemma insert_all_size {K A} `{Countable K} (l l' : list (K * A)) m :
  l `prefix_of` l' → (size (insert_all l m) ≤ size (insert_all l' m))%nat.
Proof.
  intros [r ->]. rewrite insert_all_app. generalize (insert_all l m). clear m.
  induction r as [|[k a] r IH]; intros m; [done|]. cbn.
  etransitivity; [apply (size_insert_le m k a)|apply IH].
Qed.

Lemma insert_all_step {K A B} `{Countable K} (f : B → K * A) l b l' m :
  l ++ [b] `prefix_of` l' →
  (size (<[(f b).1 := (f b).2]> (insert_all (f <$> l) m)) ≤ size (insert_all (f <$> l') m))%nat.
Proof.
  intros [r ->]. transitivity (size (insert_all (f <$> (l ++ [b])) m)).
  - by rewrite fmap_app, insert_all_app.
  - apply insert_all_size. rewrite (fmap_app f (l ++ [b])). by eexists.
Qed.

Section Capacity.

Context {H : Type} `{!BpfHash H, !BpfHashOk H, !BpfHashCap H, !BpfHashCapOk H}.

(** The number of entries is that of a finite map, within the capacity. *)
Definition counted {K} `{Countable K} (m : H) (g : gmap K Z) : Prop :=
  hash_count m = size g ∧ (size g ≤ hash_max m)%nat.

Lemma counted_update {K} `{Countable K} (m m' : H) key b (g : gmap K Z) k v :
  hash_update m key b = Some m' →
  (is_Some (hash_lookup m key) ↔ is_Some (g !! k)) →
  counted m g → counted m' (<[k := v]> g) ∧ hash_max m' = hash_max m.
Proof.
  intros Hu Hl [Hc Hm]. pose proof (hash_count_update _ _ _ _ Hu) as Hc'.
  pose proof (hash_max_update _ _ _ _ Hu) as Hm'. split; [|done]. unfold counted. rewrite Hm'.
  destruct (g !! k) as [a|] eqn:Eg.
  - rewrite map_size_insert_Some by eauto.
    destruct (hash_lookup m key); [by rewrite Hc'|]. by destruct (proj2 Hl).
  - rewrite map_size_insert_None by done.
    destruct (hash_lookup m key) eqn:El; [by destruct (proj1 Hl)|].
    rewrite Hc', Hc. split; [done|].
    destruct (decide (hash_max m ≤ hash_count m)%nat) as [Hf|]; [|lia].
    pose proof (hash_update_full m key b El Hf). congruence.
Qed.

Lemma counted_room {K} `{Countable K} (m : H) key b (g : gmap K Z) k v :
  (is_Some (hash_lookup m key) ↔ is_Some (g !! k)) → counted m g →
  (size (<[k := v]> g) ≤ hash_max m)%nat → is_Some (hash_update m key b).
Proof.
  intros Hl [Hc Hm] Hs. apply hash_update_room. destruct (g !! k) as [a|] eqn:Eg.
  - left. apply Hl. eauto.
  - right. rewrite map_size_insert_None in Hs by done. lia.
Qed.

Lemma holds_devices_key (m : H) devs major minor :
  in_width 32 major → in_width 32 minor → holds_devices m devs →
  is_Some (hash_lookup m (device_key major minor)) ↔ is_Some (devs !! (major, minor)).
Proof.
  intros ?? [_ Hd]. rewrite device_key_eq, Hd by done. by rewrite fmap_is_Some.
Qed.

Lemma holds_ioctls_key (m : H) tbl vendor nr :
  in_width 32 vendor → in_width 32 nr → holds_ioctls m tbl →
  is_Some (hash_lookup m (ioctl_key vendor nr)) ↔ is_Some (tbl !! (vendor, nr)).
Proof.
  intros ?? [_ Hd]. rewrite ioctl_key_eq, Hd by done. by rewrite fmap_is_Some.
Qed.

End Capacity.

Section SetupCapacity.

Context {H R P link reader : Type} `{!BpfHash H, !BpfRingbuf R, !BpfPercpu P}.
Context `{!BpfHashOk H, !BpfHashCap H, !BpfHashCapOk H}.
Variable put_error : error.
Variable range_kinds : list (Z * Z) → list (Z * Z).
Hypothesis range_kinds_perm : ∀ l, range_kinds l ≡ₚ l.

Abbreviation setup := (setup H R P link reader).

Record cap_inv (D I : nat) (m t : gmap (Z * Z) Z) (st : setup) : Prop := {
  cap_devices : devices_hold st m;
  cap_ioctls : ioctls_hold st t;
  cap_devices_count : counted (st_devices (bpfObjects (s_loader st))) m;
  cap_ioctls_count : counted (st_ioctls (bpfObjects (s_loader st))) t;
  cap_devices_max : hash_max (st_devices (bpfObjects (s_loader st))) = D;
  cap_ioctls_max : hash_max (st_ioctls (bpfObjects (s_loader st))) = I;
}.

Lemma add_node_cap D I m t d v n st st' :
  v ∈ registeredVendors → wf_node n → cap_inv D I m t st →
  add_node put_error d v (vendor_id v) st n = Ok st' →
  cap_inv D I (<[node_key n := vendor_id v]> m) t st'.
Proof.
  intros Hv [Hw Hw'] [C1 C2 C3 C4 C5 C6]. unfold add_node, AddDevice.
  pose proof (holds_devices_key _ _ _ _ Hw Hw' C1) as Hk.
  destruct (hash_update _ _ _) as [h|] eqn:E; [|done]. intros [= <-].
  destruct (counted_update _ _ _ _ _ _ (vendor_id v) E Hk C3) as [K1 K2].
  split; cbn [s_loader bpfObjects set_objects st_devices st_ioctls]; try done.
  - rewrite device_key_eq in E. eapply holds_devices_update; [| | |exact C1|exact E]; auto using registered_id.
  - by rewrite K2.
Qed.

Lemma add_node_ok D I m t d v n st :
  wf_node n → cap_inv D I m t st →
  (size (<[node_key n := vendor_id v]> m) ≤ D)%nat →
  is_ok (add_node put_error d v (vendor_id v) st n) = true.
Proof.
  intros [Hw Hw'] [C1 _ C3 _ C5 _] Hs. unfold add_node, AddDevice.
  pose proof (holds_devices_key _ _ _ _ Hw Hw' C1) as Hk. rewrite <- C5 in Hs.
  by destruct (counted_room _ _ (le_bytes 4 (vendor_id v)) _ _ _ Hk C3 Hs) as [h ->].
Qed.

Lemma add_ioctl_cap D I m t v nr k st st' :
  v ∈ registeredVendors → (nr, k) ∈ Ioctls v → cap_inv D I m t st →
  add_ioctl put_error (vendor_id v) st (nr, k) = Ok st' →
  cap_inv D I m (<[(vendor_id v, nr) := wrap 8 k]> t) st'.
Proof.
  intros Hv Hin [C1 C2 C3 C4 C5 C6]. unfold add_ioctl, AddIoctl.
  destruct (registered_numbers v nr k Hv Hin) as (Hw & _ & _).
  pose proof (holds_ioctls_key _ _ _ _ (registered_id v Hv) Hw C2) as Hk.
  destruct (hash_update _ _ _) as [h|] eqn:E; [|done]. intros [= <-].
  destruct (counted_update _ _ _ _ _ _ (wrap 8 k) E Hk C4) as [K1 K2].
  split; cbn [s_loader bpfObjects set_objects st_devices st_ioctls]; try done.
  - rewrite ioctl_key_eq in E. eapply holds_ioctls_update; [| | |exact C2|exact E];
      auto using registered_id. apply wrap_in_width. lia.
  - by rewrite K2.
Qed.

Lemma add_ioctl_ok D I m t v nr k st :
  v ∈ registeredVendors → (nr, k) ∈ Ioctls v → cap_inv D I m t st →
  (size (<[(vendor_id v, nr) := wrap 8 k]> t) ≤ I)%nat →
  is_ok (add_ioctl put_error (vendor_id v) st (nr, k)) = true.
Proof.
  intros Hv Hin [_ C2 _ C4 _ C6] Hs. unfold add_ioctl, AddIoctl.
  destruct (registered_numbers v nr k Hv Hin) as (Hw & _ & _).
  pose proof (holds_ioctls_key _ _ _ _ (registered_id v Hv) Hw C2) as Hk. rewrite <- C6 in Hs.
  by destruct (counted_room _ _ (le_bytes 1 (wrap 8 k)) _ _ _ Hk C4 Hs) as [h ->].
Qed.

Lemma nodes_cap D I m t d v st :
  v ∈ registeredVendors → (∀ n, n ∈ Nodes d → wf_node n) → cap_inv D I m t st →
  let run := fold_res (add_node put_error d v (vendor_id v)) st (Nodes d) in
  (∀ st', run = Ok st' → cap_inv D I (insert_all (device_entries (d, v)) m) t st') ∧
  ((size (insert_all (device_entries (d, v)) m) ≤ D)%nat → ∃ st', run = Ok st').
Proof.
  intros Hv Hn C. unfold device_entries. cbn [fst snd]. cbv zeta.
  set (Inv ns s := cap_inv D I
    (insert_all ((λ n, (node_key n, vendor_id v)) <$> ns) m) t s).
  assert (Hstep : ∀ l' n s1 s2, Inv l' s1 → n ∈ Nodes d →
    add_node put_error d v (vendor_id v) s1 n = Ok s2 → Inv (l' ++ [n]) s2).
  { intros l' n s1 s2 Hi Hin E. unfold Inv. rewrite fmap_app, insert_all_app.
    eapply add_node_cap; eauto. }
  split.
  - intros st'. by apply (fold_res_ind _ Inv).
  - intros Hs. apply (fold_res_total _ Inv); [done..|].
    intros l' n s1 Hi Hin Hp. eapply add_node_ok; [by apply Hn|exact Hi|].
    etransitivity; [|exact Hs].
    exact (insert_all_step (λ n, (node_key n, vendor_id v)) _ _ _ m Hp).
Qed.

Lemma ioctls_cap D I m t v st :
  v ∈ registeredVendors → cap_inv D I m t st →
  let run := fold_res (add_ioctl put_error (vendor_id v)) st (range_kinds (Ioctls v)) in
  (∀ st', run = Ok st' → cap_inv D I m (insert_all (ioctl_entries range_kinds v) t) st') ∧
  ((size (insert_all (ioctl_entries range_kinds v) t) ≤ I)%nat → ∃ st', run = Ok st').
Proof.
  intros Hv C. unfold ioctl_entries. cbv zeta.
  set (f := λ kv : Z * Z, ((vendor_id v, kv.1), wrap 8 kv.2)).
  set (Inv kvs s := cap_inv D I m (insert_all (f <$> kvs) t) s).
  assert (Hstep : ∀ l' kv s1 s2, Inv l' s1 → kv ∈ range_kinds (Ioctls v) →
    add_ioctl put_error (vendor_id v) s1 kv = Ok s2 → Inv (l' ++ [kv]) s2).
  { intros l' [nr k] s1 s2 Hi Hin E. unfold Inv. rewrite fmap_app, insert_all_app.
    rewrite range_kinds_perm in Hin. eapply add_ioctl_cap; eauto. }
  split.
  - intros st'. by apply (fold_res_ind _ Inv).
  - intros Hs. apply (fold_res_total _ Inv); [done..|].
    intros l' [nr k] s1 Hi Hin Hp. rewrite range_kinds_perm in Hin.
    eapply add_ioctl_ok; [done..|exact Hi|]. etransitivity; [|exact Hs].
    exact (insert_all_step f _ _ _ t Hp).
Qed.

Lemma device_cap D I m t d st :
  (∀ n, n ∈ Nodes d → wf_node n) → cap_inv D I m t st →
  let m' := insert_all (supported [d] ≫= device_entries) m in
  let t' := insert_all (supported [d] ≫= λ dv, ioctl_entries range_kinds dv.2) t in
  let run := setup_device put_error range_kinds st d in
  (∀ st', run = Ok st' → cap_inv D I m' t' st') ∧
  ((size m' ≤ D)%nat → (size t' ≤ I)%nat → is_ok run = true).
Proof.
  intros Hn C. cbv zeta. rewrite supported_one. unfold setup_device.
  destruct (GetVendor registeredVendors d) as [v|] eqn:Ev.
  - destruct (GetVendor_elem _ _ _ Ev) as [Hv _]. cbv zeta. fold (vendor_id v).
    set (st0 := MkSetup _ _ _ _). assert (C0 : cap_inv D I m t st0) by by destruct C.
    clearbody st0. change ([(d, v)] ≫= ?f) with (f (d, v) ++ []).
    rewrite !app_nil_r. cbn [snd].
    destruct (nodes_cap D I m t d v st0 Hv Hn C0) as [N1 N2].
    destruct (fold_res (add_node _ d v _) st0 _) as [st1|err].
    + destruct (ioctls_cap D I _ t v st1 Hv (N1 st1 eq_refl)) as [I1 I2].
      split; [exact I1|]. intros _ Ht. by destruct (I2 Ht) as [st' ->].
    + split; [done|]. intros Hs. by destruct (N2 Hs) as [? ?].
  - split; [|done]. intros st' [= <-]. by destruct C.
Qed.

Lemma devices_cap D I l c ds :
  wf_devices ds → cap_inv D I ∅ ∅ (MkSetup l c ∅ []) →
  let run := setup_devices put_error range_kinds l c ds in
  (∀ st, run = Ok st → cap_inv D I (devs_of ds) (tbl_of range_kinds ds) st) ∧
  ((size (devs_of ds) ≤ D)%nat → (size (tbl_of range_kinds ds) ≤ I)%nat → ∃ st, run = Ok st).
Proof.
  intros Hwf C. cbv zeta. unfold setup_devices.
  set (Inv ds s := cap_inv D I (devs_of ds) (tbl_of range_kinds ds) s).
  assert (Happ : ∀ ds' d,
    devs_of (ds' ++ [d]) = insert_all (supported [d] ≫= device_entries) (devs_of ds') ∧
    tbl_of range_kinds (ds' ++ [d]) =
      insert_all (supported [d] ≫= λ dv, ioctl_entries range_kinds dv.2) (tbl_of range_kinds ds')).
  { intros ds' d. unfold devs_of, tbl_of. by rewrite supported_app, !bind_app, !insert_all_app. }
  assert (Hpre : ∀ l' d, l' ++ [d] `prefix_of` ds →
    (size (devs_of (l' ++ [d])) ≤ size (devs_of ds))%nat ∧
    (size (tbl_of range_kinds (l' ++ [d])) ≤ size (tbl_of range_kinds ds))%nat).
  { intros l' d [r ->]. unfold devs_of, tbl_of. rewrite (supported_app (l' ++ [d]) r), !bind_app.
    split; apply insert_all_size; by eexists. }
  assert (Hstep : ∀ l' d s1 s2, Inv l' s1 → d ∈ ds →
    setup_device put_error range_kinds s1 d = Ok s2 → Inv (l' ++ [d]) s2).
  { intros l' d s1 s2 Hi Hin E. unfold Inv. destruct (Happ l' d) as [-> ->].
    apply (device_cap D I _ _ d s1); [intros n; by apply Hwf|exact Hi|exact E]. }
  split.
  - intros st. by apply (fold_res_ind _ Inv).
  - intros Hs Ht. apply (fold_res_total _ Inv); [done..|].
    intros l' d s1 Hi Hin Hp. destruct (Hpre l' d Hp) as [Hp1 Hp2].
    destruct (Happ l' d) as [E1 E2]. rewrite E1 in Hp1. rewrite E2 in Hp2.
    apply (device_cap D I _ _ d s1 ltac:(intros n; by apply Hwf) Hi); (etransitivity; [first [exact Hp1|exact Hp2]|done]).
Qed.

End SetupCapacity.

(** ** Lemmas: what the filled maps hold *)

(** No device node belongs to two devices. *)
Definition distinct_nodes (ds : list Device) : Prop :=
  ∀ d d' n n', d ∈ ds → d' ∈ ds → n ∈ Nodes d → n' ∈ Nodes d' →
    node_key n = node_key n' → d = d'.

Definition distinct_nodes_list (ds : list Device) : Prop :=
  Forall (λ d, Forall (λ d', Forall (λ n, Forall (λ n',
    node_key n = node_key n' → d = d') (Nodes d')) (Nodes d)) ds) ds.

Lemma distinct_nodes_forall ds : distinct_nodes_list ds → distinct_nodes ds.
Proof.
  intros Hf d d' n n' Hd Hd' Hn Hn'. unfold distinct_nodes_list in Hf.
  rewrite Forall_forall in Hf. specialize (Hf d Hd).
  rewrite Forall_forall in Hf. specialize (Hf d' Hd').
  rewrite Forall_forall in Hf. specialize (Hf n Hn).
  rewrite Forall_forall in Hf. exact (Hf n' Hn').
Qed.

Lemma supported_node {A} (f : Device * Vendor → Node → A) ds (k : deviceNode) a :
  (k, a) ∈ supported ds ≫= (λ dv, (λ n, (node_key n, f dv n)) <$> Nodes dv.1) ↔
  ∃ d v n, (d, v) ∈ supported ds ∧ n ∈ Nodes d ∧ k = node_key n ∧ a = f (d, v) n.
Proof.
  rewrite list_elem_of_bind. split.
  - intros ([d v] & (n & [= -> ->] & Hn)%list_elem_of_fmap & Hdv). cbn in *. eauto 9.
  - intros (d & v & n & Hdv & Hn & -> & ->). exists (d, v). split; [|done].
    apply list_elem_of_fmap. eauto.
Qed.

Lemma supported_functional {A} (f : Device * Vendor → A) ds :
  distinct_nodes ds →
  functional (supported ds ≫= (λ dv, (λ n, (node_key n, f dv)) <$> Nodes dv.1)).
Proof.
  intros Hd k a a'. rewrite !(supported_node (λ dv _, f dv)).
  intros (d & v & n & [Hin Hv]%supported_elem & Hn & -> & ->).
  intros (d' & v' & n' & [Hin' Hv']%supported_elem & Hn' & E & ->).
  assert (d = d') as <- by (by eapply Hd). congruence.
Qed.

Lemma NoDup_functional {K A} (l : list (K * A)) : NoDup l.*1 → functional l.
Proof.
  intros Hnd k a a'. induction l as [|[k0 a0] l IH]; [by intros ?%not_elem_of_nil|].
  apply NoDup_cons in Hnd as [Hk Hnd]. rewrite !elem_of_cons.
  assert (Hno : ∀ b, (k0, b) ∉ l) by (intros b Hb; apply Hk, list_elem_of_fmap; by exists (k0, b)).
  intros [E|Ha] [E'|Ha']; simplify_eq; [done|by apply Hno in Ha'|by apply Hno in Ha|auto].
Qed.

Lemma devs_of_lookup ds k id :
  distinct_nodes ds →
  devs_of ds !! k = Some id ↔
  ∃ d v n, (d, v) ∈ supported ds ∧ n ∈ Nodes d ∧ k = node_key n ∧ id = vendor_id v.
Proof.
  intros Hd. unfold devs_of, device_entries.
  rewrite insert_all_lookup by (by apply (supported_functional (λ dv, vendor_id dv.2))).
  apply (supported_node (λ dv _, vendor_id dv.2)).
Qed.

Lemma metas_of_lookup ds k meta :
  distinct_nodes ds →
  metas_of ds !! k = Some meta ↔
  ∃ d v n, (d, v) ∈ supported ds ∧ n ∈ Nodes d ∧ k = node_key n ∧
           meta = DeviceMeta (PciAddress d) (Name v).
Proof.
  intros Hd. unfold metas_of, meta_entries.
  rewrite insert_all_lookup
    by (by apply (supported_functional (λ dv, DeviceMeta (PciAddress dv.1) (Name dv.2)))).
  apply (supported_node (λ dv _, DeviceMeta (PciAddress dv.1) (Name dv.2))).
Qed.

Lemma vendor_id_inj v w :
  v ∈ registeredVendors → w ∈ registeredVendors → vendor_id v = vendor_id w → v = w.
Proof.
  intros [i Hi]%list_elem_of_lookup [j Hj]%list_elem_of_lookup. unfold vendor_id.
  rewrite (GetVendorID_lookup _ i v registered_names Hi) by done.
  rewrite (GetVendorID_lookup _ j w registered_names Hj) by done.
  intros E. assert (i = j) as -> by lia. congruence.
Qed.

Lemma registered_kinds_NoDup v : v ∈ registeredVendors → NoDup (Ioctls v).*1.
Proof. revert v. apply Forall_forall. by_decide. Qed.

Lemma supported_vendor ds d v : (d, v) ∈ supported ds → v ∈ registeredVendors.
Proof. intros [_ [? _]%GetVendor_elem]%supported_elem. done. Qed.

Section Tables.

Variable range_kinds : list (Z * Z) → list (Z * Z).
Hypothesis range_kinds_perm : ∀ l, range_kinds l ≡ₚ l.

Lemma ioctl_entry ds id nr k :
  ((id, nr), k) ∈ supported ds ≫= (λ dv, ioctl_entries range_kinds dv.2) ↔
  ∃ d v, (d, v) ∈ supported ds ∧ id = vendor_id v ∧ (nr, k) ∈ Ioctls v.
Proof.
  rewrite list_elem_of_bind. unfold ioctl_entries. split.
  - intros ([d v] & ([nr' k'] & [= -> -> ->] & Hn)%list_elem_of_fmap & Hdv).
    cbn [snd] in Hn. rewrite range_kinds_perm in Hn. exists d, v. split_and!; [done..|].
    by destruct (registered_numbers v nr' k' (supported_vendor _ _ _ Hdv) Hn) as (_ & -> & _).
  - intros (d & v & Hdv & -> & Hn). exists (d, v). split; [|done].
    apply list_elem_of_fmap. exists (nr, k). cbn [fst snd].
    destruct (registered_numbers v nr k (supported_vendor _ _ _ Hdv) Hn) as (_ & -> & _).
    by rewrite range_kinds_perm.
Qed.

Lemma tbl_of_lookup ds id nr k :
  tbl_of range_kinds ds !! (id, nr) = Some k ↔
  ∃ d v, (d, v) ∈ supported ds ∧ id = vendor_id v ∧ (nr, k) ∈ Ioctls v.
Proof.
  unfold tbl_of. rewrite insert_all_lookup; [apply ioctl_entry|].
  intros [id' nr'] a a'. rewrite !ioctl_entry.
  intros (d & v & Hdv & -> & Hn) (d' & v' & Hdv' & E & Hn').
  apply vendor_id_inj in E as <-; [|by eapply supported_vendor..].
  pose proof (registered_kinds_NoDup v (supported_vendor _ _ _ Hdv)) as Hnd.
  by eapply (NoDup_functional (Ioctls v)).
Qed.

(** All keys the registered vendors can put into the [ioctls] map. *)
Definition all_ioctl_keys : list (Z * Z) :=
  registeredVendors ≫= λ v, (λ nk, (vendor_id v, nk.1)) <$> Ioctls v.

Lemma tbl_of_size ds : (size (tbl_of range_kinds ds) ≤ length all_ioctl_keys)%nat.
Proof.
  rewrite <- size_dom. transitivity (size (list_to_set all_ioctl_keys : gset (Z * Z))).
  - apply subseteq_size. intros [id nr] [k (d & v & Hdv & -> & Hn)%tbl_of_lookup]%elem_of_dom.
    apply elem_of_list_to_set, list_elem_of_bind. exists v. split; [|by eapply supported_vendor].
    apply list_elem_of_fmap. by exists (nr, k).
  - rewrite size_list_to_set; [done|]. by_decide.
Qed.

End Tables.

(** ** Lemmas: the agent when it starts *)

(** The collector's history at the end of [main]'s setup. *)
Definition boot_ops {H R P} `{!BpfPercpu P} (lookup_error : error) (ds : list Device) :
    list (op (W:=world H R P)) :=
  ((λ dv, OpDevice (DeviceKey (PciAddress dv.1) (Name dv.2) (DriverName dv.1) (PciID dv.1)
                      (NumaNode dv.1))) <$> supported ds) ++
  [OpRebuildsSource (λ w, CgroupIndexRebuilds (w_podmap w));
   OpDroppedSource (λ w, DroppedEvents lookup_error (w_lookup w) (w_objects w))].

Lemma boot_ops_run {H R P} `{!BpfPercpu P} lookup_error ds :
  SetKernelDroppedSource (Some (λ w : world H R P, DroppedEvents lookup_error (w_lookup w) (w_objects w)))
    (SetCgroupIndexRebuildsSource (Some (λ w, CgroupIndexRebuilds (w_podmap w)))
      (foldl (λ c dv, SetDeviceInfo (PciAddress dv.1) (Name dv.2) (DriverName dv.1) (PciID dv.1)
                        (NumaNode dv.1) c) NewCollector (supported ds))) =
  run_ops (boot_ops lookup_error ds).
Proof.
  unfold boot_ops, run_ops. rewrite foldl_app. cbn [foldl apply_op]. do 2 f_equal.
  generalize (NewCollector (W:=world H R P)). induction (supported ds) as [|dv dvs IH];
    intros c; [done|]. cbn [foldl fmap list_fmap]. by rewrite IH.
Qed.

Lemma boot_ops_known {H R P} `{!BpfPercpu P} lookup_error ds :
  known_reasons (boot_ops (H:=H) (R:=R) (P:=P) lookup_error ds).
Proof.
  intros r. unfold boot_ops. rewrite elem_of_app, list_elem_of_fmap.
  intros [(dv & ? & _)|Hr]; [done|].
  by apply elem_of_cons in Hr as [?|[?|[]%not_elem_of_nil]%elem_of_cons].
Qed.

Lemma NewLoader_Ok {H R P link reader} k memlock (load : option options → res (bpf_state H R P))
    as_verifier debug (l : Loader H R P link reader) :
  NewLoader k memlock load as_verifier debug = Ok l →
  CheckKernel k = None ∧
  ∃ opt objs, load opt = Ok objs ∧ l = MkLoader objs None None false false [].
Proof.
  unfold NewLoader. destruct (CheckKernel k); [done|]. destruct memlock; [done|]. cbv zeta.
  destruct (load _) as [objs|err] eqn:E; [|by destruct (as_verifier err)].
  intros [= <-]. eauto.
Qed.

(** The agent has started on the devices [ds]. *)
Record started {H R P link reader conn : Type} `{!BpfHash H, !BpfRingbuf R, !BpfPercpu P}
    (lookup_error : error) (range_kinds : list (Z * Z) → list (Z * Z))
    (h : host H R P link reader conn) (ds : list Device)
    (r : running H R P link reader conn) : Prop := {
  started_config : r_config r = Load (h_env h);
  started_kernel : CheckKernel (h_kernel h) = None;
  started_discovered : ∃ logs,
    Discover (h_sys h) (h_range_devices h)
      (Discovery.MkPaths (Config.DriPath (r_config r)) (Config.AccelPath (r_config r))
         (Config.SysfsDriPath (r_config r)) (Config.SysfsAccelPath (r_config r))) = (Ok ds, logs);
  started_devices :
    holds_devices (st_devices (bpfObjects (s_loader (r_setup r)))) (devs_of ds);
  started_ioctls :
    holds_ioctls (st_ioctls (bpfObjects (s_loader (r_setup r)))) (tbl_of range_kinds ds);
  started_metas : s_deviceMap (r_setup r) = metas_of ds;
  started_collector : s_collector (r_setup r) = run_ops (boot_ops lookup_error ds);
  started_attached : ∃ hk rd,
    h_AttachTracing h = Ok hk ∧ h_NewReader h = Ok rd ∧
    hook (s_loader (r_setup r)) = Some hk ∧ rb (s_loader (r_setup r)) = Some rd ∧
    r_trace r =
      [StLoad; StDiscover] ++ (StCall <$> setup_calls range_kinds ds) ++ [StCall (CallAttach hk)] ++
      [StPodMap; StServe; StCall (CallNewReader rd); StReady];
  started_fresh : ∃ opt objs,
    h_loadBpfObjects h opt = Ok objs ∧
    st_events (bpfObjects (s_loader (r_setup r))) = st_events objs ∧
    st_dropped (bpfObjects (s_loader (r_setup r))) = st_dropped objs ∧
    closeReaderOnce (s_loader (r_setup r)) = false ∧ closeOnce (s_loader (r_setup r)) = false;
  started_podmap :
    cache (r_podmap r) = ∅ ∧ 0 < cacheTTL (r_podmap r) ∧ 0 < interval (index (r_podmap r)) ∧
    cgroupIndexRebuilds (r_podmap r) = 0;
  started_server : r_server r =
    NewServer (λ w, h_metrics h w.1)
      (JoinHostPort (Config.Host (r_config r)) (Itoa (Port (r_config r)))) (Some snd);
  started_ready : r_ready r = true;
}.

Lemma since_calls {H R P link reader} (l l' : Loader H R P link reader) cs :
  calls l' = calls l ++ cs → since l l' = StCall <$> cs.
Proof. intros E. unfold since. by rewrite E, drop_app_length. Qed.

Lemma main_started {H R P link reader conn} `{!BpfHash H, !BpfHashOk H, !BpfRingbuf R}
    `{!BpfPercpu P} put_error lookup_error range_kinds (h : host H R P link reader conn) r :
  (∀ kinds, range_kinds kinds ≡ₚ kinds) → (∀ ds, h_range_devices h ds ≡ₚ ds) →
  (∀ opt objs, h_loadBpfObjects h opt = Ok objs →
     (∀ k, hash_lookup (st_devices objs) k = None) ∧ ∀ k, hash_lookup (st_ioctls objs) k = None) →
  main put_error lookup_error range_kinds h = Running r →
  ∃ ds, started lookup_error range_kinds h ds r.
Proof.
  intros Hr Hd Hload. unfold main. cbv zeta. destruct (versionFlag _); [done|].
  destruct (NewLoader _ _ _ _ _) as [l|] eqn:El; [|done].
  apply NewLoader_Ok in El as (Hk & opt & objs & Eo & ->).
  destruct (Hload opt objs Eo) as [Hed Hei].
  destruct (Discover _ _ _) as [[ds|] logs] eqn:Ed; cbn [fst]; [|done].
  destruct (setup_devices _ _ _ _ _) as [st|] eqn:Es; [|done].
  assert (Hwf : wf_devices ds) by (intros d n; by eapply Discover_nodes).
  destruct (setup_devices_filled _ _ Hr (MkLoader objs None None false false [])
    _ _ _ Hwf Hed Hei Es) as [F1 F2 F3 _ F5 F6].
  rewrite (since_calls _ _ _ (proj1 (proj2 (proj2 (proj2 (proj2 F6)))))).
  destruct F6 as (F61 & F62 & F7 & F8 & F9 & F10 & F11).
  cbn [hook rb calls closeReaderOnce closeOnce] in *.
  unfold Attach, attach_tracing. rewrite F7. destruct (h_AttachTracing h) as [hk|] eqn:Ea; [|done].
  destruct (NewPodMap _ _ _ _ _ _ _) as [[p cn]|] eqn:Ep; [|done].
  apply NewPodMap_Ok in Ep as (Hi & Ht & _ & Hb & Hc & Hct & Hz).
  assert (interval (index p) = Config.Interval (Config.Load (h_env h))) as Hint.
  { unfold BuildCgroupIndex in Hb. destruct (buildCgroupInodeMap _ _); [|done]. injection Hb as Hb. by rewrite <- Hb. }
  unfold CreateReader. destruct (h_NewReader h) as [rd|] eqn:Er; [|done].
  rewrite (since_calls (s_loader st) (set_hook _ (log_calls [CallAttach hk] _)) _ eq_refl).
  rewrite (since_calls _ (set_rb _ (log_calls [CallNewReader rd] _)) _ eq_refl).
  intros [= <-].
  exists ds. split; cbn [r_config r_setup r_podmap r_server r_ready s_loader s_collector
    s_deviceMap set_hook set_rb log_calls bpfObjects hook rb calls]; try done.
  - eauto.
  - by rewrite F5, boot_ops_run.
  - exists hk, rd. split_and!; [done..|].
    by rewrite <- !app_assoc.
  - exists opt, objs. done.
  - rewrite Hct, Hint. done.
Qed.

(** ** Properties *)

(** C17: Setup fills the maps exactly: whatever order discovery lists the devices
    in and [range kinds] visits a table, when the loop succeeds the kernel's
    [devices] map binds exactly the nodes of the devices that have a vendor, to
    its id; the [ioctls] map exactly the numbers of these vendors' tables, to
    their kinds; the user-space map exactly the same nodes, to their PCI address
    and vendor name; devices without a vendor are only logged; and of the loader
    nothing else has been touched: its calls were one [Put] for each node and
    each number, and neither the ring buffer, the hook nor the reader changed. *)
Theorem setup_exact {H R P link reader} `{!BpfHash H, !BpfHashOk H, !BpfRingbuf R, !BpfPercpu P}
    put_error range_kinds (l : Loader H R P link reader) c ds st :
  (∀ kinds, range_kinds kinds ≡ₚ kinds) → wf_devices ds → distinct_nodes ds →
  (∀ k, hash_lookup (st_devices (bpfObjects l)) k = None) →
  (∀ k, hash_lookup (st_ioctls (bpfObjects l)) k = None) →
  setup_devices put_error range_kinds l c ds = Ok st →
  let vendor_of d v := d ∈ ds ∧ GetVendor registeredVendors d = Some v in
  ∃ devs tbl,
    holds_devices (st_devices (bpfObjects (s_loader st))) devs ∧
    holds_ioctls (st_ioctls (bpfObjects (s_loader st))) tbl ∧
    (∀ k id, devs !! k = Some id ↔
       ∃ d v n, vendor_of d v ∧ n ∈ Nodes d ∧ k = node_key n ∧ id = vendor_id v) ∧
    (∀ id nr k, tbl !! (id, nr) = Some k ↔
       ∃ d v, vendor_of d v ∧ id = vendor_id v ∧ (nr, k) ∈ Ioctls v) ∧
    (∀ k meta, s_deviceMap st !! k = Some meta ↔
       ∃ d v n, vendor_of d v ∧ n ∈ Nodes d ∧ k = node_key n ∧
                meta = DeviceMeta (PciAddress d) (Name v)) ∧
    (∀ d, d ∈ s_unknown st ↔ d ∈ ds ∧ GetVendor registeredVendors d = None) ∧
    untouched (setup_calls range_kinds ds) l (s_loader st).
Proof.
  intros Hr Hwf Hd Hed Hei Hs vendor_of.
  destruct (setup_devices_filled _ _ Hr l c ds st Hwf Hed Hei Hs) as [F1 F2 F3 F4 _ F6].
  exists (devs_of ds), (tbl_of range_kinds ds). split_and!; try done.
  - intros k id. rewrite devs_of_lookup by done. by setoid_rewrite supported_elem.
  - intros id nr k. rewrite tbl_of_lookup by done. by setoid_rewrite supported_elem.
  - intros k meta. rewrite F3, metas_of_lookup by done. by setoid_rewrite supported_elem.
  - intros d. rewrite F4, list_elem_of_filter. tauto.
Qed.

Definition empty_objects (D I : nat) : bpf_state Model.hash Model.ring (list Z) :=
  BpfState (BpfProgram.Sample.empty_hash D) (BpfProgram.Sample.empty_hash I)
    (Model.Ring 4096 []) [0].

Definition fresh_loader (D I : nat) : Loader Model.hash Model.ring (list Z) unit unit :=
  MkLoader (empty_objects D I) None None false false [].

Lemma sample_wf : wf_devices [SampleFs.device].
Proof.
  intros d n ->%list_elem_of_singleton Hn. revert n Hn. apply Forall_forall.
  unfold wf_node. by_decide.
Qed.

Lemma sample_distinct : distinct_nodes [SampleFs.device].
Proof. intros d d' n n' ->%list_elem_of_singleton ->%list_elem_of_singleton. done. Qed.

Lemma setup_exact_witness :
  ∃ st, setup_devices (errors_New "E2BIG") reverse (fresh_loader 32 640) NewCollector
          [SampleFs.device] = Ok st ∧
        s_deviceMap st !! (226, 128) = Some (DeviceMeta "0000:00:02.0" "i915").
Proof.
  assert (Hok : is_ok (setup_devices (errors_New "E2BIG") reverse (fresh_loader 32 640)
    NewCollector [SampleFs.device]) = true) by (vm_compute; reflexivity).
  destruct (setup_devices (errors_New "E2BIG") reverse (fresh_loader 32 640) NewCollector
              [SampleFs.device]) as [st|] eqn:E; [clear Hok|discriminate Hok].
  exists st. split; [done|].
  destruct (setup_exact (errors_New "E2BIG") reverse (fresh_loader 32 640) NewCollector
    [SampleFs.device] st reverse_Permutation sample_wf sample_distinct
    ltac:(done) ltac:(done) E) as (devs & tbl & _ & _ & _ & _ & Hm & _ & _).
  apply Hm. exists SampleFs.device, i915.vendor, (MkNode 128 226 "/dev/dri/renderD128").
  split_and!; [by left|done|by right; left|done|done].
Defined.

(** C28: Setup fails exactly when the kernel's [devices] map is too small: with
    fresh maps of the sizes the BPF program declares, the loop over the devices
    succeeds if and only if the supported devices have at most 32 distinct
    nodes; the [ioctls] map never runs full. *)
Theorem setup_capacity {H R P link reader} `{!BpfHash H, !BpfHashOk H, !BpfHashCap H}
    `{!BpfHashCapOk H, !BpfRingbuf R, !BpfPercpu P}
    put_error range_kinds (l : Loader H R P link reader) c ds :
  (∀ kinds, range_kinds kinds ≡ₚ kinds) → wf_devices ds →
  (∀ k, hash_lookup (st_devices (bpfObjects l)) k = None) →
  (∀ k, hash_lookup (st_ioctls (bpfObjects l)) k = None) →
  hash_count (st_devices (bpfObjects l)) = 0%nat →
  hash_count (st_ioctls (bpfObjects l)) = 0%nat →
  hash_max (st_devices (bpfObjects l)) = Z.to_nat MAX_ENTRIES_DEVICES →
  hash_max (st_ioctls (bpfObjects l)) = Z.to_nat MAX_ENTRIES_IOCTLS →
  (∃ st, setup_devices put_error range_kinds l c ds = Ok st) ↔
  (size (devs_of ds) ≤ 32)%nat.
Proof.
  intros Hr Hwf Hed Hei Hcd Hci Hmd Hmi.
  assert (C : cap_inv (Z.to_nat MAX_ENTRIES_DEVICES) (Z.to_nat MAX_ENTRIES_IOCTLS) ∅ ∅
                (MkSetup l c ∅ [])).
  { split; cbn [s_loader]; try done; (split; [done|rewrite map_size_empty; lia]). }
  destruct (devices_cap put_error range_kinds Hr _ _ l c ds Hwf C) as [Hok Hroom]. split.
  - intros [st Hst]. destruct (Hok st Hst) as [_ _ [_ Hle] _ Hm _]. rewrite Hm in Hle. exact Hle.
  - intros Hs. apply Hroom; [exact Hs|].
    etransitivity; [by apply tbl_of_size|]. vm_compute. lia.
Qed.

Lemma setup_capacity_witness :
  ∃ st, setup_devices (errors_New "E2BIG") id (fresh_loader 32 640) NewCollector
          [SampleFs.device] = Ok st.
Proof.
  apply (setup_capacity (errors_New "E2BIG") id (fresh_loader 32 640) NewCollector
           [SampleFs.device]); try done; [exact sample_wf|].
  vm_compute. lia.
Defined.

(** C26: The agent enters its main loop only when everything is in place: the
    kernel supports the program, discovery succeeded, both kernel maps, the
    device map and the device metrics are complete, the pod map has a cache with
    a positive TTL and rebuild interval, and the server's readiness is [ready].
    And it got there in this order, with no other call on the way: load the
    program, discover the devices, one [Put] for every node and number of every
    device that has a vendor, attach the program once, build the pod map, start
    the server, create the reader, become ready. *)
Theorem main_starts {H R P link reader conn} `{!BpfHash H, !BpfHashOk H, !BpfRingbuf R}
    `{!BpfPercpu P} put_error lookup_error range_kinds (h : host H R P link reader conn) r :
  (∀ kinds, range_kinds kinds ≡ₚ kinds) → (∀ ds, h_range_devices h ds ≡ₚ ds) →
  (∀ opt objs, h_loadBpfObjects h opt = Ok objs →
     (∀ k, hash_lookup (st_devices objs) k = None) ∧ ∀ k, hash_lookup (st_ioctls objs) k = None) →
  main put_error lookup_error range_kinds h = Running r →
  ∃ ds, started lookup_error range_kinds h ds r.
Proof. apply main_started. Qed.

(** A node with one iGPU, on which every call succeeds. *)
Definition sample_host : host Model.hash Model.ring (list Z) unit unit unit := {|
  h_env _ := None;
  h_flags := Flags false None;
  h_kernel := {| stat_cgroup_controllers := None; load_kernel_spec := None;
                 have_tracing := None; have_ringbuf := None; have_ktime_tai := None |};
  h_RemoveMemlock := None;
  h_loadBpfObjects _ := Ok (empty_objects 32 640);
  h_as_verifier _ := None;
  h_sys := SampleFs.sys;
  h_range_devices := id;
  h_AttachTracing := Ok tt;
  h_link_Close _ := None;
  h_cgroup := Moment (λ _, Ok PodMap.Sample.d) 0 0;
  h_NewCRIClient _ _ := Ok tt;
  h_NewReader := Ok tt;
  h_metrics _ := Response StatusOK "";
|}.

Definition is_running {H R P link reader conn} (o : outcome H R P link reader conn) : bool :=
  match o with Running _ => true | _ => false end.

Lemma main_starts_witness :
  ∃ r ds, main (errors_New "E2BIG") (errors_New "ENOENT") id sample_host = Running r ∧
          started (errors_New "ENOENT") id sample_host ds r.
Proof.
  assert (Hok : is_running (main (errors_New "E2BIG") (errors_New "ENOENT") id sample_host) = true)
    by (vm_compute; reflexivity).
  destruct (main (errors_New "E2BIG") (errors_New "ENOENT") id sample_host) as [|err|r] eqn:E;
    [discriminate Hok..|]. exists r.
  destruct (main_starts (errors_New "E2BIG") (errors_New "ENOENT") id sample_host r) as [ds Hs].
  - reflexivity.
  - reflexivity.
  - intros opt objs [= <-]. by split.
  - exact E.
  - exists ds. split; [reflexivity|exact Hs].
Defined.
