(* ===== verification/Agent.v ===== *)
(** * [cmd/agent/main.go], the main loop: kernel, reader, queue, worker, signal

    The running agent as a state machine. Its threads are the executions of the
    BPF program, the reader loop of [main], the worker goroutine and the signal
    goroutine; a step is one action of one of them that the others can see — a
    read of the ring buffer, an operation on the channel, a method of the
    collector, a closing call — and any interleaving of steps is a run. Calls
    that can fail do, as they please: a read of the open reader, and the closing
    of the reader, which then stays open. Steps are functions
    ([do_step]), so that runs execute; [reach] collects the runs together with
    what a run has done so far, as a list of observations the invariants count.

    The worker is written against the interface [Resolver] of the pod map. *)

From S2P Require Import Prelude.
From S2P Require Import GoStrings.
From S2P Require Import CLayout.
From S2P Require Import Kernel.
From S2P Require Import BpfProgram.
From S2P Require Import Hw.
From S2P Require Import Loader.
From S2P Require Import Cgroup.
From S2P Require Import PodMap.
From S2P Require Import Metrics.
From S2P Require Import Setup.

Local Open Scope Z_scope.

(** ** State *)

(** What the worker makes of an event: the method of the collector it calls, or
    the error it logs. *)
Inductive verdict : Type :=
  | Counted (k : key)
  | Dropped (reason : string)
  | Unclassified (err : error).

(** The [for] loop of [main], by what it does next: read, offer the event it
    has read to the channel, count an event the channel had no room for; after
    the loop, by what it has done: [close(queue)], the deferred closing of the
    pod map, that of the loader, and the end of the process. *)
Inductive main_state : Type :=
  | Reading
  | Offering (event : Event)
  | Overflowing (event : Event)
  | Draining
  | PodMapClosed
  | LoaderClosed
  | Returned.

Definition in_loop (m : main_state) : bool :=
  match m with Reading | Offering _ | Overflowing _ => true | _ => false end.

(** [workers.Wait()] has returned. *)
Definition closing (m : main_state) : bool :=
  match m with PodMapClosed | LoaderClosed | Returned => true | _ => false end.

(** The event [main] has read and neither queued nor counted. *)
Definition in_hand (m : main_state) : option Event :=
  match m with Offering event | Overflowing event => Some event | _ => None end.

(** The worker: at the head of its loop, with an event it has received, with an
    event whose container it has looked up. *)
Inductive worker_state : Type :=
  | Idle
  | Received (event : Event)
  | Judged (event : Event) (v : verdict).

Definition handled (w : worker_state) : option Event :=
  match w with Idle => None | Received event | Judged event _ => Some event end.

(** The signal goroutine, by the last thing it has done. *)
Inductive signal_state : Type := Waiting | NotReady | ServerDown | ReaderClosed.

#[export] Instance Event_eq_dec : EqDecision Event.
Proof. solve_decision. Defined.
#[export] Instance main_state_dec : EqDecision main_state.
Proof. solve_decision. Defined.
#[export] Instance signal_state_dec : EqDecision signal_state.
Proof. solve_decision. Defined.

Record agent (H R P link reader St W : Type) : Type := Agent {
  a_loader : Loader H R P link reader;
  a_collector : Collector W;
  a_podmap : St;
  a_queue : list Event;         (** the buffer of the channel *)
  a_worker : worker_state;
  a_main : main_state;
  a_worker_done : bool;         (** [workers.Done()] *)
  a_signal : signal_state;
  a_ready : bool;
  a_log : list error;
}.
Arguments Agent {H R P link reader St W}.
Arguments a_loader {H R P link reader St W}.
Arguments a_collector {H R P link reader St W}.
Arguments a_podmap {H R P link reader St W}.
Arguments a_queue {H R P link reader St W}.
Arguments a_worker {H R P link reader St W}.
Arguments a_main {H R P link reader St W}.
Arguments a_worker_done {H R P link reader St W}.
Arguments a_signal {H R P link reader St W}.
Arguments a_ready {H R P link reader St W}.
Arguments a_log {H R P link reader St W}.

(** The event the worker has in hand. *)
Definition a_handling {H R P link reader St W} (a : agent H R P link reader St W) : option Event :=
  handled (a_worker a).

(** The goroutines of the process. *)
Inductive thread : Type := ThMain | ThWorker | ThSignal.

#[export] Instance thread_eq_dec : EqDecision thread.
Proof. solve_decision. Defined.

(** One action of one thread, with what it gets from outside. *)
Inductive action (Env : Type) : Type :=
  | Ioctl (x : exec_ctx) (filp cmd arg : Z)   (** a [drm_ioctl] call in the kernel *)
  | Read                                      (** [ReadEvent] returns a record *)
  | ReadFails (err : error)                   (** [rb.Read] of an open reader fails *)
  | ReadClosed                                (** [rb.Read] finds the reader closed *)
  | Offer                                     (** [select]: send to the queue, or not *)
  | Overflow                                  (** [IncEventsDropped] of [main] *)
  | Receive                                   (** the worker receives from the queue *)
  | Judge (env : Env)                         (** it looks up the device and the container *)
  | Settle                                    (** it calls the collector, or logs *)
  | WorkerDone                                (** the queue is closed and empty *)
  | Signal                                    (** SIGINT or SIGTERM *)
  | ShutdownServer (err : option error)       (** [srv.Shutdown] *)
  | CloseRing                                 (** [l.CloseReader] *)
  | ClosePodMap                               (** [workers.Wait], [podMap.Close] *)
  | CloseLoader                               (** [loader.Close] *)
  | Return.                                   (** the end of the process *)
Arguments Ioctl {Env}. Arguments Read {Env}. Arguments ReadFails {Env}.
Arguments ReadClosed {Env}. Arguments Offer {Env}. Arguments Overflow {Env}.
Arguments Receive {Env}. Arguments Judge {Env}. Arguments Settle {Env}.
Arguments WorkerDone {Env}. Arguments Signal {Env}. Arguments ShutdownServer {Env}.
Arguments CloseRing {Env}. Arguments ClosePodMap {Env}. Arguments CloseLoader {Env}.
Arguments Return {Env}.

Section Agent.

Context {H R P link reader St Env W : Type}.
Context `{!BpfHash H, !BpfRingbuf R, !BpfPercpu P, !Resolver St Env}.

Abbreviation agent := (agent H R P link reader St W).
Abbreviation action := (action Env).

(** The running kernel, and the results of the closing calls. *)
Variable kernel_bytes : Z → Z → bytes.
Variable relo : string → string → option (Z * Z).
Variable link_Close : link → option error.
Variable reader_Close : reader → option error.
Variable obj_Close : string → option error.
Variable podmap_Close : option error.

(** What [main] captured: the device map and the size of the channel. *)
Variable deviceMap : gmap deviceNode deviceMeta.
Variable queueSize : nat.

(** ** The worker *)

(** The body of [for event := range queue], up to the call of the collector that
    ends each branch. *)
Definition judge (env : Env) (event : Event) (p : St) : verdict * St :=
  match deviceMap !! (wrap 32 (Loader.Major event), Loader.Minor event) with
  | None => (Dropped ReasonDeviceUnknown, p)
  | Some device =>
      match resolve env (CgroupID event) p with
      | (p, Err err) =>
          if errors_Is "podmap.ErrNotPod" err then (Dropped ReasonNotPod, p)
          else if errors_Is "podmap.ErrNotIndexed" err then (Dropped ReasonNotIndexed, p)
          else if errors_Is "podmap.ErrContainerNotFound" err
          then (Dropped ReasonContainerNotFound, p)
          else (Unclassified err, p)
      | (p, Ok cI) =>
          (Counted (Key (Namespace cI) (PodName cI) (ContainerName cI)
             (meta_pciAddress device) (meta_vendor device)
             (Kind.String (Loader.Kind event))), p)
      end
  end.

(** That call, or [log.Print]. *)
Definition settle (v : verdict) (c : Collector W) (log : list error) : Collector W * list error :=
  match v with
  | Counted k => (IncIoctl (namespace k) (pod k) (container k) (device k) (vendor k) (kind k) c, log)
  | Dropped reason => (IncEventsDropped reason c, log)
  | Unclassified err => (c, log ++ [err])
  end.

(** The whole body. *)
Definition handle_event (env : Env) (event : Event) (c : Collector W) (p : St)
    (log : list error) : Collector W * St * list error :=
  let '(v, p) := judge env event p in
  let '(c, log) := settle v c log in
  (c, p, log).

(** ** Steps *)

Definition set_ring (r : R) (l : Loader H R P link reader) : Loader H R P link reader :=
  let o := bpfObjects l in
  set_objects (BpfState (st_devices o) (st_ioctls o) r (st_dropped o)) l.

Definition with_loader (l : Loader H R P link reader) (a : agent) : agent :=
  Agent l (a_collector a) (a_podmap a) (a_queue a) (a_worker a) (a_main a)
    (a_worker_done a) (a_signal a) (a_ready a) (a_log a).

Definition with_signal (s : signal_state) (ready : bool) (log : list error) (a : agent) : agent :=
  Agent (a_loader a) (a_collector a) (a_podmap a) (a_queue a) (a_worker a) (a_main a)
    (a_worker_done a) s ready log.

Definition with_main (m : main_state) (a : agent) : agent :=
  Agent (a_loader a) (a_collector a) (a_podmap a) (a_queue a) (a_worker a) m
    (a_worker_done a) (a_signal a) (a_ready a) (a_log a).

Definition with_collector (c : Collector W) (a : agent) : agent :=
  Agent (a_loader a) c (a_podmap a) (a_queue a) (a_worker a) (a_main a)
    (a_worker_done a) (a_signal a) (a_ready a) (a_log a).

Definition with_worker (w : worker_state) (p : St) (a : agent) : agent :=
  Agent (a_loader a) (a_collector a) p (a_queue a) w (a_main a)
    (a_worker_done a) (a_signal a) (a_ready a) (a_log a).

Definition with_log (log : list error) (a : agent) : agent :=
  Agent (a_loader a) (a_collector a) (a_podmap a) (a_queue a) (a_worker a) (a_main a)
    (a_worker_done a) (a_signal a) (a_ready a) log.

(** What the loop of [main] does with the result of [ReadEvent]: [ErrClosed]
    ends it, and [close(queue)] follows; other errors are logged. *)
Definition take_read (event : res Event) (a : agent) : agent :=
  match event with
  | Err err =>
      if errors_Is ErrClosed err then with_main Draining a else with_log (a_log a ++ [err]) a
  | Ok event => with_main (Offering event) a
  end.

(** [select]: send the event if the channel has room, or take the default. *)
Definition offer (event : Event) (a : agent) : agent :=
  if bool_decide (length (a_queue a) < queueSize)%nat
  then Agent (a_loader a) (a_collector a) (a_podmap a) (a_queue a ++ [event]) (a_worker a)
         Reading (a_worker_done a) (a_signal a) (a_ready a) (a_log a)
  else with_main (Overflowing event) a.

(** The reader loop is at its head and its reader is open: it has not been
    closed, or closing it has failed. *)
Definition can_read (a : agent) : bool :=
  bool_decide (a_main a = Reading) && negb (reader_closed reader_Close (a_loader a)).

(** How a read of an open reader can fail: with [ErrClosed] only once closing
    it has been tried. *)
Definition read_error (err : error) (a : agent) : bool :=
  negb (errors_Is ErrClosed err) || closeReaderOnce (a_loader a).

(** The program is attached: until its hook has been closed, or the process has
    ended. *)
Definition attached (a : agent) : bool :=
  negb (bool_decide (a_main a = Returned)) && negb (hook_closed link_Close (a_loader a)).

Definition do_step (act : action) (a : agent) : option agent :=
  match act with
  | Ioctl x filp cmd arg =>
      if attached a then
        let '(o, _) := kubenpu_ioctl kernel_bytes relo x filp cmd arg (bpfObjects (a_loader a)) in
        Some (with_loader (set_objects o (a_loader a)) a)
      else None
  | Read =>
      if can_read a then
        match ring_read (st_events (bpfObjects (a_loader a))) with
        | Some (raw, r) =>
            Some (take_read (ReadEvent (Ok raw)) (with_loader (set_ring r (a_loader a)) a))
        | None => None
        end
      else None
  | ReadFails err =>
      if can_read a && read_error err a
      then Some (take_read (ReadEvent (Err err)) a) else None
  | ReadClosed =>
      if bool_decide (a_main a = Reading) && reader_closed reader_Close (a_loader a)
      then Some (with_main Draining a)
      else None
  | Offer => match a_main a with Offering event => Some (offer event a) | _ => None end
  | Overflow =>
      match a_main a with
      | Overflowing _ =>
          Some (with_collector (IncEventsDropped ReasonQueueFull (a_collector a))
                  (with_main Reading a))
      | _ => None
      end
  | Receive =>
      match a_queue a, a_worker a with
      | event :: queue, Idle =>
          Some (Agent (a_loader a) (a_collector a) (a_podmap a) queue (Received event) (a_main a)
                  (a_worker_done a) (a_signal a) (a_ready a) (a_log a))
      | _, _ => None
      end
  | Judge env =>
      match a_worker a with
      | Received event =>
          let '(v, p) := judge env event (a_podmap a) in Some (with_worker (Judged event v) p a)
      | _ => None
      end
  | Settle =>
      match a_worker a with
      | Judged _ v =>
          let '(c, log) := settle v (a_collector a) (a_log a) in
          Some (with_log log (with_collector c (with_worker Idle (a_podmap a) a)))
      | _ => None
      end
  | WorkerDone =>
      match a_main a, a_queue a, a_worker a, a_worker_done a with
      | Draining, [], Idle, false =>
          Some (Agent (a_loader a) (a_collector a) (a_podmap a) [] Idle Draining true
                  (a_signal a) (a_ready a) (a_log a))
      | _, _, _, _ => None
      end
  | Signal =>
      if bool_decide (a_signal a = Waiting)
      then Some (with_signal NotReady false (a_log a) a) else None
  | ShutdownServer err =>
      if bool_decide (a_signal a = NotReady)
      then Some (with_signal ServerDown (a_ready a)
                   (a_log a ++ option_list (Metrics.Shutdown err)) a)
      else None
  | CloseRing =>
      if bool_decide (a_signal a = ServerDown) then
        let '(l, err) := CloseReader reader_Close (a_loader a) in
        Some (with_signal ReaderClosed (a_ready a) (a_log a ++ option_list err)
                (with_loader l a))
      else None
  | ClosePodMap =>
      match a_main a, a_worker_done a with
      | Draining, true =>
          Some (with_main PodMapClosed (with_log (a_log a ++ option_list podmap_Close) a))
      | _, _ => None
      end
  | CloseLoader =>
      if bool_decide (a_main a = PodMapClosed) then
        let '(l, err) := Close link_Close reader_Close obj_Close (a_loader a) in
        Some (with_main LoaderClosed
                (with_log (a_log a ++ option_list err) (with_loader l a)))
      else None
  | Return => if bool_decide (a_main a = LoaderClosed) then Some (with_main Returned a) else None
  end.

(** The same steps as the rules of a transition system. *)
Inductive rule (a : agent) : action → agent → Prop :=
  | rule_ioctl x filp cmd arg o ret :
      attached a = true →
      kubenpu_ioctl kernel_bytes relo x filp cmd arg (bpfObjects (a_loader a)) = (o, ret) →
      rule a (Ioctl x filp cmd arg) (with_loader (set_objects o (a_loader a)) a)
  | rule_read raw r :
      a_main a = Reading → reader_closed reader_Close (a_loader a) = false →
      ring_read (st_events (bpfObjects (a_loader a))) = Some (raw, r) →
      rule a Read (take_read (ReadEvent (Ok raw)) (with_loader (set_ring r (a_loader a)) a))
  | rule_read_fails err :
      a_main a = Reading → reader_closed reader_Close (a_loader a) = false →
      read_error err a = true →
      rule a (ReadFails err) (take_read (ReadEvent (Err err)) a)
  | rule_read_closed :
      a_main a = Reading → reader_closed reader_Close (a_loader a) = true →
      rule a ReadClosed (with_main Draining a)
  | rule_offer event :
      a_main a = Offering event → rule a Offer (offer event a)
  | rule_overflow event :
      a_main a = Overflowing event →
      rule a Overflow
        (with_collector (IncEventsDropped ReasonQueueFull (a_collector a)) (with_main Reading a))
  | rule_receive event queue :
      a_queue a = event :: queue → a_worker a = Idle →
      rule a Receive
        (Agent (a_loader a) (a_collector a) (a_podmap a) queue (Received event) (a_main a)
           (a_worker_done a) (a_signal a) (a_ready a) (a_log a))
  | rule_judge env event v p :
      a_worker a = Received event → judge env event (a_podmap a) = (v, p) →
      rule a (Judge env) (with_worker (Judged event v) p a)
  | rule_settle event v c log :
      a_worker a = Judged event v → settle v (a_collector a) (a_log a) = (c, log) →
      rule a Settle (with_log log (with_collector c (with_worker Idle (a_podmap a) a)))
  | rule_worker_done :
      a_main a = Draining → a_queue a = [] → a_worker a = Idle → a_worker_done a = false →
      rule a WorkerDone
        (Agent (a_loader a) (a_collector a) (a_podmap a) [] Idle Draining true
           (a_signal a) (a_ready a) (a_log a))
  | rule_signal :
      a_signal a = Waiting → rule a Signal (with_signal NotReady false (a_log a) a)
  | rule_shutdown err :
      a_signal a = NotReady →
      rule a (ShutdownServer err)
        (with_signal ServerDown (a_ready a) (a_log a ++ option_list (Metrics.Shutdown err)) a)
  | rule_close_ring l err :
      a_signal a = ServerDown → CloseReader reader_Close (a_loader a) = (l, err) →
      rule a CloseRing
        (with_signal ReaderClosed (a_ready a) (a_log a ++ option_list err) (with_loader l a))
  | rule_close_podmap :
      a_main a = Draining → a_worker_done a = true →
      rule a ClosePodMap
        (with_main PodMapClosed (with_log (a_log a ++ option_list podmap_Close) a))
  | rule_close_loader l err :
      a_main a = PodMapClosed → Close link_Close reader_Close obj_Close (a_loader a) = (l, err) →
      rule a CloseLoader
        (with_main LoaderClosed (with_log (a_log a ++ option_list err) (with_loader l a)))
  | rule_return : a_main a = LoaderClosed → rule a Return (with_main Returned a).

Lemma do_step_rule act a a' : do_step act a = Some a' ↔ rule a act a'.
Proof.
  split.
  - destruct act; cbn [do_step]; unfold can_read; intros E;
      repeat match type of E with
      | context [match ?x with _ => _ end] => destruct x eqn:?; try discriminate E
      end;
      repeat match goal with
      | H : _ && _ = true |- _ => apply andb_true_iff in H as [? ?]
      | H : negb _ = true |- _ => apply negb_true_iff in H
      | H : bool_decide _ = true |- _ => apply bool_decide_eq_true in H
      | H : bool_decide _ = false |- _ => apply bool_decide_eq_false in H
      end; injection E as <-; by econstructor.
  - destruct 1; cbn [do_step]; unfold can_read;
      repeat match goal with
      | H : _ = _ |- _ => rewrite H
      end; done.
Qed.

(** ** Observations: what a step has done, for the accounts *)

Inductive observation : Type :=
  | Submitted (e : event)         (** a record was written to the ring buffer *)
  | Lost (x : exec_ctx)           (** the ring buffer was full *)
  | Pulled (e : Event)            (** the loop read an event *)
  | ReadError (err : error)
  | Queued (e : Event)
  | Overflowed (e : Event)        (** the queue was full, and this has been counted *)
  | Took (e : Event)              (** the worker received the event *)
  | Settled (e : Event) (v : verdict).

(** What the worker should make of an event, given how its cgroup resolves. *)
Definition verdict_of (event : Event) (r : res ContainerInfo) : verdict :=
  match deviceMap !! (wrap 32 (Loader.Major event), Loader.Minor event) with
  | None => Dropped ReasonDeviceUnknown
  | Some device =>
      match r with
      | Ok i => Counted (Key (Namespace i) (PodName i) (ContainerName i)
                  (meta_pciAddress device) (meta_vendor device)
                  (Kind.String (Loader.Kind event)))
      | Err err =>
          if errors_Is "podmap.ErrNotPod" err then Dropped ReasonNotPod
          else if errors_Is "podmap.ErrNotIndexed" err then Dropped ReasonNotIndexed
          else if errors_Is "podmap.ErrContainerNotFound" err then Dropped ReasonContainerNotFound
          else Unclassified err
      end
  end.

(** [devs] and [tbl] are the tables the kernel maps hold. *)
Variable devs tbl : gmap (Z * Z) Z.

Definition observe_read (r : res Event) : list observation :=
  match r with Err err => [ReadError err] | Ok e => [Pulled e] end.

Definition observe (act : action) (a : agent) : list observation :=
  match act with
  | Ioctl x filp cmd arg =>
      match tracked devs tbl (rdev_of kernel_bytes relo filp) cmd with
      | None => []
      | Some (major, minor, kind) =>
          match ring_reserve (st_events (bpfObjects (a_loader a))) (sizeof struct_event) with
          | Some _ => [Submitted (event_of x cmd minor major kind)]
          | None => [Lost x]
          end
      end
  | Read =>
      match ring_read (st_events (bpfObjects (a_loader a))) with
      | Some (raw, _) => observe_read (ReadEvent (Ok raw))
      | None => []
      end
  | ReadFails err => observe_read (ReadEvent (Err err))
  | Offer =>
      match a_main a with
      | Offering e => if bool_decide (length (a_queue a) < queueSize)%nat then [Queued e] else []
      | _ => []
      end
  | Overflow => match a_main a with Overflowing e => [Overflowed e] | _ => [] end
  | Receive => match a_queue a with e :: _ => [Took e] | [] => [] end
  | Settle => match a_worker a with Judged e v => [Settled e v] | _ => [] end
  | _ => []
  end.

(** The call of a collector method behind an observation. *)
Definition counted_op (o : observation) : option (op (W:=W)) :=
  match o with
  | Overflowed _ => Some (OpDrop ReasonQueueFull)
  | Settled _ (Counted k) => Some (OpIoctl k)
  | Settled _ (Dropped reason) => Some (OpDrop reason)
  | _ => None
  end.

Definition submitted (os : list observation) : list event :=
  omap (λ o, match o with Submitted e => Some e | _ => None end) os.
Definition lost (os : list observation) : list exec_ctx :=
  omap (λ o, match o with Lost x => Some x | _ => None end) os.
Definition pulled (os : list observation) : list Event :=
  omap (λ o, match o with Pulled e => Some e | _ => None end) os.
Definition queued (os : list observation) : list Event :=
  omap (λ o, match o with Queued e => Some e | _ => None end) os.
Definition overflowed (os : list observation) : list Event :=
  omap (λ o, match o with Overflowed e => Some e | _ => None end) os.
Definition took (os : list observation) : list Event :=
  omap (λ o, match o with Took e => Some e | _ => None end) os.
Definition settled (os : list observation) : list (Event * verdict) :=
  omap (λ o, match o with Settled e v => Some (e, v) | _ => None end) os.

(** ** Runs *)

Variable ncpus : nat.

(** The context helpers return 64-bit values, [cmd] is an [unsigned int]. *)
Definition wf_ctx (x : exec_ctx) : Prop :=
  (cpu x < ncpus)%nat ∧ in_width 64 (ktime_tai_ns x) ∧
  in_width 64 (current_cgroup_id x) ∧ in_width 64 (current_pid_tgid x).

Definition wf_action (act : action) : Prop :=
  match act with
  | Ioctl x _ cmd _ => wf_ctx x ∧ in_width 32 cmd
  | _ => True
  end.

#[export] Instance wf_action_dec act : Decision (wf_action act).
Proof. destruct act; unfold wf_action, wf_ctx; apply _. Defined.

Inductive reach (a0 : agent) : agent → list observation → Prop :=
  | reach_refl : reach a0 a0 []
  | reach_step a os act a' :
      reach a0 a os → wf_action act → do_step act a = Some a' →
      reach a0 a' (os ++ observe act a).

(** A run of given actions. *)
Fixpoint run (acts : list action) (a : agent) (os : list observation) :
    option (agent * list observation) :=
  match acts with
  | [] => Some (a, os)
  | act :: acts => a' ← do_step act a; run acts a' (os ++ observe act a)
  end.

Lemma run_reach a0 acts a os a' os' :
  reach a0 a os → Forall wf_action acts → run acts a os = Some (a', os') → reach a0 a' os'.
Proof.
  revert a os. induction acts as [|act acts IH]; intros a os Hr Hw; cbn.
  - by intros [= <- <-].
  - apply Forall_cons in Hw as [Hw Hws].
    destruct (do_step act a) as [a1|] eqn:E; [|done]. opt_cbn. apply IH; [|done].
    by eapply reach_step.
Qed.

End Agent.


(** ** Lemmas: the worker *)

Section Worker.

Context {St Env W : Type} `{!Resolver St Env}.
Variable deviceMap : gmap deviceNode deviceMeta.

(** The effect of a verdict on the collector and on the log. *)
Definition verdict_ops (v : verdict) : list (op (W:=W)) :=
  match v with
  | Counted k => [OpIoctl k]
  | Dropped reason => [OpDrop reason]
  | Unclassified _ => []
  end.

Definition verdict_log (v : verdict) : list error :=
  match v with Unclassified err => [err] | _ => [] end.

Lemma judge_verdict env event (p : St) :
  judge deviceMap env event p =
    (verdict_of deviceMap event (resolve env (CgroupID event) p).2,
     if bool_decide (is_Some (deviceMap !! (wrap 32 (Loader.Major event), Loader.Minor event)))
     then (resolve env (CgroupID event) p).1 else p).
Proof.
  unfold judge, verdict_of. destruct (deviceMap !! _) as [device|]; cbn; [|done].
  destruct (resolve env (CgroupID event) p) as [p' [i|err]]; cbn; [done|].
  by repeat case_match.
Qed.

Lemma settle_ops v (c : Collector W) log :
  settle v c log = (foldl apply_op c (verdict_ops v), log ++ verdict_log v).
Proof. by destruct v as [[]|reason|err]; cbn; rewrite ?app_nil_r. Qed.

End Worker.

(** ** Lemmas: runs *)

Section Runs.

Context {H R P link reader St Env W : Type}.
Context `{!BpfHash H, !BpfRingbuf R, !BpfPercpu P, !Resolver St Env}.
Context `{!BpfRingbufOk R, !BpfPercpuOk P}.
Context (kernel_bytes : Z → Z → bytes) (relo : string → string → option (Z * Z)).
Context (link_Close : link → option error) (reader_Close : reader → option error).
Context (obj_Close : string → option error) (podmap_Close : option error).
Context (deviceMap : gmap deviceNode deviceMeta) (queueSize : nat).
Context (devs tbl : gmap (Z * Z) Z) (ncpus : nat) (rdev_off : Z).
Hypothesis kernel_bytes_length : ∀ a n, 0 ≤ n → Z.of_nat (length (kernel_bytes a n)) = n.
Hypothesis relo_rdev : relo "inode" "i_rdev" = Some (rdev_off, 4).

Abbreviation agent := (agent H R P link reader St W).
Abbreviation step := (do_step (W:=W) kernel_bytes relo link_Close reader_Close obj_Close
  podmap_Close deviceMap queueSize).
Abbreviation obs := (observe (H:=H) (link:=link) (reader:=reader) (St:=St) (Env:=Env) (W:=W)
  kernel_bytes relo queueSize devs tbl).
Abbreviation reaches := (reach (W:=W) kernel_bytes relo link_Close reader_Close obj_Close
  podmap_Close deviceMap queueSize devs tbl ncpus).

(** *** Counters *)

Lemma take_read_same r (a : agent) :
  a_collector (take_read r a) = a_collector a ∧ a_podmap (take_read r a) = a_podmap a ∧
  a_queue (take_read r a) = a_queue a ∧ a_worker (take_read r a) = a_worker a ∧
  a_signal (take_read r a) = a_signal a ∧ a_loader (take_read r a) = a_loader a.
Proof. destruct r as [|err]; [done|]. unfold take_read. by destruct (errors_Is _ _). Qed.

Lemma offer_same e (a : agent) :
  a_collector (offer queueSize e a) = a_collector a ∧
  a_podmap (offer queueSize e a) = a_podmap a ∧
  a_worker (offer queueSize e a) = a_worker a ∧
  a_signal (offer queueSize e a) = a_signal a ∧ a_loader (offer queueSize e a) = a_loader a.
Proof. unfold offer. by case_bool_decide. Qed.

Lemma observe_read_uncounted r : omap (counted_op (W:=W)) (observe_read r) = [].
Proof. by destruct r. Qed.

Lemma step_counts act (a a' : agent) :
  step act a = Some a' →
  a_collector a' = foldl apply_op (a_collector a) (omap counted_op (obs act a)).
Proof.
  rewrite do_step_rule. destruct 1 as [|raw r _ _ Hr|err _ _ _| |e Hm|e Hm|e q Hq _|env e v p He Hj
    |e v c log He Hv| | | | | | |]; cbn [observe]; try reflexivity.
  - destruct (tracked _ _ _ _) as [[[? ?] ?]|]; [|done]. by destruct (ring_reserve _ _).
  - rewrite Hr, observe_read_uncounted. by destruct (take_read_same (ReadEvent (Ok raw))
      (with_loader (set_ring r (a_loader a)) a)) as [-> _].
  - rewrite observe_read_uncounted. by destruct (take_read_same (ReadEvent (Err err)) a) as [-> _].
  - rewrite Hm. destruct (offer_same e a) as [-> _]. by case_bool_decide.
  - by rewrite Hm.
  - by rewrite Hq.
  - rewrite He. rewrite settle_ops in Hv. injection Hv as <- _.
    cbn [with_log with_collector a_collector]. by destruct v.
Qed.

(** *** The queue and the worker *)

(** What has been taken from the ring goes through the queue, in order. *)
Record queue_inv (a : agent) (os : list observation) : Prop := {
  inv_queue : queued os = took os ++ a_queue a;
  inv_handling : took os = (settled os).*1 ++ option_list (a_handling a);
  inv_order : queued os ++ option_list (in_hand (a_main a)) `sublist_of` pulled os;
  inv_split : length (pulled os) =
    (length (queued os) + length (overflowed os) + length (option_list (in_hand (a_main a))))%nat;
  inv_bound : (length (a_queue a) ≤ queueSize)%nat;
}.

(** A step that leaves queue, worker and the event in hand alone and observes
    none of them. *)
Lemma queue_inv_same (a a' : agent) os os' :
  queue_inv a os → a_queue a' = a_queue a → a_worker a' = a_worker a →
  in_hand (a_main a') = in_hand (a_main a) →
  queued os' = [] → took os' = [] → settled os' = [] → pulled os' = [] → overflowed os' = [] →
  queue_inv a' (os ++ os').
Proof.
  intros [I1 I2 I3 I4 I5] Eq Eh Em E1 E2 E3 E4 E5.
  unfold queued, took, settled, pulled, overflowed, a_handling in *.
  split; unfold queued, took, settled, pulled, overflowed, a_handling;
    rewrite ?omap_app, ?E1, ?E2, ?E3, ?E4, ?E5, ?app_nil_r, ?Eq, ?Eh, ?Em; done.
Qed.

Ltac unfold_history :=
  unfold queued, took, settled, pulled, overflowed, a_handling in *; rewrite ?omap_app;
  cbn [omap list_omap a_queue a_worker a_main with_loader with_main with_worker with_collector
       with_log take_read set_ring observe_read handled in_hand option_list option_rect fmap
       list_fmap fst];
  rewrite ?app_nil_r.

Lemma queue_inv_read ev (a : agent) os :
  queue_inv a os → a_main a = Reading → queue_inv (take_read ev a) (os ++ observe_read ev).
Proof.
  intros I Hm. destruct ev as [e|err]; cycle 1.
  { unfold take_read. destruct (errors_Is _ _); apply (queue_inv_same a); cbn; rewrite ?Hm; done. }
  destruct I as [I1 I2 I3 I4 I5]. rewrite Hm in *. cbn [in_hand] in *. unfold option_list in I3, I4.
  cbn in I3, I4. rewrite app_nil_r in I3. split; unfold_history; try done.
  - by apply sublist_app.
  - rewrite length_app. cbn. lia.
Qed.

Lemma queue_inv_offer e (a : agent) os :
  queue_inv a os → a_main a = Offering e → 
  queue_inv (offer queueSize e a)
    (os ++ if bool_decide (length (a_queue a) < queueSize)%nat then [Queued e] else []).
Proof.
  intros I Hm. unfold offer. case_bool_decide as Hlen; [|apply (queue_inv_same a); by rewrite ?Hm].
  destruct I as [I1 I2 I3 I4 I5]. rewrite Hm in *. split; unfold_history; try done.
  - by rewrite I1, app_assoc.
  - cbn in I4. rewrite length_app. cbn. lia.
  - rewrite length_app. cbn. lia.
Qed.

Lemma step_queue act (a a' : agent) os :
  step act a = Some a' → queue_inv a os → queue_inv a' (os ++ obs act a).
Proof.
  rewrite do_step_rule. intros Hs I.
  destruct Hs as [x filp cmd arg o ret _ Ho|raw r Hm _ Hr|err Hm _ _|Hm _|e Hm|e Hm|e q Hq Hw
    |env e v p He Hj|e v c log He Hv|Hm Hq Hw _| | |l err _ Hc|Hm _|l err Hm Hc|Hm];
    cbn [observe]; try by apply (queue_inv_same a); rewrite ?Hm.
  - apply (queue_inv_same a); try done;
      destruct (tracked _ _ _ _) as [[[? ?] ?]|]; try done; by destruct (ring_reserve _ _).
  - rewrite Hr. generalize (ReadEvent (Ok raw)). intros ev.
    apply (queue_inv_read ev (with_loader (set_ring r (a_loader a)) a)); [|done].
    destruct I. by split.
  - by apply queue_inv_read.
  - rewrite Hm. by apply queue_inv_offer.
  - rewrite Hm. destruct I as [I1 I2 I3 I4 I5]. rewrite Hm in *. split; unfold_history; try done.
    + etransitivity; [|exact I3]. by apply sublist_inserts_r.
    + cbn in I4. rewrite length_app. cbn. lia.
  - destruct I as [I1 I2 I3 I4 I5]. rewrite Hq in *. split; unfold_history; try done.
    + by rewrite I1, <- app_assoc.
    + rewrite Hw in I2. rewrite I2. cbn. by rewrite app_nil_r.
    + cbn in I5. lia.
  - destruct I as [I1 I2 I3 I4 I5]. split; unfold_history; try done.
    rewrite He in I2. exact I2.
  - rewrite He. destruct I as [I1 I2 I3 I4 I5]. split; unfold_history; try done.
    rewrite He in I2. rewrite I2, fmap_app. done.
Qed.

(** *** The kernel side *)

Abbreviation objects a := (bpfObjects (a_loader a)).

(** The maps keep their tables; the ring holds what was submitted and not yet
    read, in order; the drop counters count the lost events. *)
Record kernel_inv (a : agent) (os : list observation) : Prop := {
  inv_devices : holds_devices (st_devices (objects a)) devs;
  inv_ioctls : holds_ioctls (st_ioctls (objects a)) tbl;
  inv_ring : ∃ pending,
    ring_records (st_events (objects a)) = event_bytes <$> pending ∧
    event_view <$> submitted os = pulled os ++ (event_view <$> pending) ∧
    Forall wf_event pending;
  inv_dropped : ∃ vs,
    pcpu_values (st_dropped (objects a)) 0 = Some vs ∧ length vs = ncpus ∧
    wrap 64 (foldr Z.add 0 vs) = wrap 64 (Z.of_nat (length (lost os)));
}.

Lemma kernel_inv_same (a a' : agent) os os' :
  kernel_inv a os → objects a' = objects a →
  submitted os' = [] → pulled os' = [] → lost os' = [] → kernel_inv a' (os ++ os').
Proof.
  intros [I1 I2 I3 I4] Eo E1 E2 E3. unfold submitted, pulled, lost in *.
  split; unfold submitted, pulled, lost; rewrite ?omap_app, ?E1, ?E2, ?E3, ?app_nil_r, ?Eo; done.
Qed.

Lemma tracked_width filp cmd major minor kind (a : agent) :
  holds_ioctls (st_ioctls (objects a)) tbl →
  tracked devs tbl (rdev_of kernel_bytes relo filp) cmd = Some (major, minor, kind) →
  in_width 32 minor ∧ in_width 16 major ∧ in_width 8 kind.
Proof.
  intros [Hw _]. unfold tracked.
  pose proof (rdev_of_width kernel_bytes relo kernel_bytes_length rdev_off filp relo_rdev) as Hr.
  destruct (devs !! _) as [v|]; [|done]. opt_cbn.
  destruct (tbl !! _) as [k|] eqn:Ek; [|done]. opt_cbn. intros [= <- <- <-].
  unfold in_width in *. split_and!.
  - pose proof (Z.mod_pos_bound (rdev_of kernel_bytes relo filp) (2 ^ 20)). lia.
  - pose proof (Z.mod_pos_bound (rdev_of kernel_bytes relo filp) (2 ^ 20)). lia.
  - apply Z.div_pos; lia.
  - apply Z.div_lt_upper_bound; lia.
  - by apply (map_Forall_lookup_1 _ _ _ _ Hw Ek).
  - by apply (map_Forall_lookup_1 _ _ _ _ Hw Ek).
Qed.

Lemma event_of_wf x cmd major minor kind :
  wf_ctx ncpus x → in_width 32 cmd → in_width 32 minor → in_width 16 major → in_width 8 kind →
  wf_event (event_of x cmd minor major kind).
Proof.
  intros (_ & Ht & Hc & Hp) Hcmd Hmin Hmaj Hk.
  refine (conj Ht (conj Hc (conj _ (conj Hcmd (conj Hmin (conj Hmaj Hk)))))).
  cbn [event_of ev_tgid]. unfold in_width in *. split; [apply Z.shiftr_nonneg; lia|].
  rewrite Z.shiftr_div_pow2 by lia. apply Z.div_lt_upper_bound; lia.
Qed.

Lemma kernel_inv_ioctl x filp cmd arg o ret (a : agent) os :
  wf_ctx ncpus x → in_width 32 cmd → kernel_inv a os →
  kubenpu_ioctl kernel_bytes relo x filp cmd arg (objects a) = (o, ret) →
  kernel_inv (with_loader (set_objects o (a_loader a)) a) (os ++ obs (Ioctl x filp cmd arg) a).
Proof.
  intros Hx Hcmd I Ho. pose proof I as [I1 I2 (pending & R1 & R2 & R3) (vs & D1 & D2 & D3)].
  rewrite (kubenpu_ioctl_tracked _ _ kernel_bytes_length devs tbl x filp cmd arg _ rdev_off I1 I2
             relo_rdev) in Ho. cbn [observe].
  destruct (tracked _ _ _ _) as [[[major minor] kind]|] eqn:Et.
  2: { injection Ho as <- _. by apply (kernel_inv_same a). }
  destruct (tracked_width _ _ _ _ _ _ I2 Et) as (Wmin & Wmaj & Wk).
  destruct (ring_reserve _ _) as [[buf r]|] eqn:Er; injection Ho as <- _;
    (split; unfold submitted, pulled, lost in *; rewrite ?omap_app;
      cbn [omap list_omap with_loader a_loader set_objects bpfObjects st_devices st_ioctls
           st_events st_dropped]; rewrite ?app_nil_r; try done).
  - exists (pending ++ [event_of x cmd minor major kind]). split_and!.
    + rewrite ring_submit_records, (ring_reserve_records _ _ _ _ Er), R1. by rewrite fmap_app.
    + rewrite !fmap_app, R2. by rewrite <- app_assoc.
    + apply Forall_app. split; [done|]. apply Forall_singleton. by apply event_of_wf.
  - by exists vs.
  - unfold count_drop. by destruct (pcpu_lookup _ _ _).
  - unfold count_drop. by destruct (pcpu_lookup _ _ _).
  - exists pending. unfold count_drop. by destruct (pcpu_lookup _ _ _).
  - destruct Hx as [Hcpu _]. rewrite <- D2 in Hcpu.
    destruct (lookup_lt_is_Some_2 vs (cpu x) Hcpu) as [v Hv].
    exists (<[cpu x := wrap 64 (v + 1)]> vs). split_and!.
    + by apply count_drop_values.
    + by rewrite length_insert.
    + rewrite (sum_insert _ _ v) by done. rewrite length_app. cbn [length].
      rewrite wrap_add_r. replace (foldr Z.add 0 vs - v + (v + 1)) with (foldr Z.add 0 vs + 1) by lia.
      rewrite <- wrap_add_l, D3, wrap_add_l. f_equal. lia.
Qed.

(** A read takes the oldest record, and it decodes to the event it was. *)
Lemma kernel_inv_read raw r (a : agent) os :
  kernel_inv a os → ring_read (st_events (objects a)) = Some (raw, r) →
  kernel_inv (take_read (ReadEvent (Ok raw)) (with_loader (set_ring r (a_loader a)) a))
    (os ++ obs Read a).
Proof.
  intros [I1 I2 (pending & R1 & R2 & R3) (vs & D)] Hr.
  destruct pending as [|e pending]; [by rewrite (ring_read_nil _ R1) in Hr|].
  destruct (ring_read_cons _ _ _ R1) as (r' & Hr' & R1').
  rewrite Hr' in Hr. injection Hr as <- <-. apply Forall_cons in R3 as [We R3].
  cbn [observe]. rewrite Hr'. rewrite <- (app_nil_r (event_bytes e)), (ReadEvent_event e [] We).
  split; unfold submitted, pulled, lost in *; rewrite ?omap_app;
    cbn [take_read observe_read omap list_omap with_loader with_main a_loader set_ring set_objects
         bpfObjects st_devices st_ioctls st_events st_dropped];
    rewrite ?app_nil_r; try done; [|by exists vs].
  exists pending. split_and!; [done| |done]. rewrite R2. cbn. by rewrite <- app_assoc.
Qed.

Lemma CloseReader_objects (l l' : Loader H R P link reader) err :
  CloseReader reader_Close l = (l', err) →
  bpfObjects l' = bpfObjects l ∧ closeReaderOnce l' = true.
Proof.
  unfold CloseReader. destruct (closeReaderOnce l) eqn:E; [by intros [= <- _]|].
  cbn [set_closeReaderOnce rb]. destruct (rb l); by intros [= <- _].
Qed.

Lemma Close_objects (l l' : Loader H R P link reader) err :
  Close link_Close reader_Close obj_Close l = (l', err) →
  bpfObjects l' = bpfObjects l ∧ (closeReaderOnce l = true → closeReaderOnce l' = true).
Proof.
  unfold Close. destruct (closeOnce l); [by intros [= <- _]|].
  destruct (CloseReader _ _) as [l1 err1] eqn:E1. apply CloseReader_objects in E1 as [Eo Ec].
  cbn in Eo. intros E. apply (f_equal fst) in E. cbn in E. subst l'.
  destruct (hook l1); cbn; (destruct (bpfObjects_Close obj_Close) as [closed cerr]); cbn;
    by rewrite Eo, Ec.
Qed.

Lemma step_kernel act (a a' : agent) os :
  wf_action ncpus act → step act a = Some a' → kernel_inv a os → kernel_inv a' (os ++ obs act a).
Proof.
  rewrite do_step_rule. intros Hw Hs I.
  destruct Hs as [x filp cmd arg o ret _ Ho|raw r _ _ Hr|err _ _ Hc| |e Hm|e Hm|e q Hq _
    |env e v p He Hj|e v c log He Hv| | | |l err _ Hc| |l err _ Hc|]; try by apply (kernel_inv_same a).
  - destruct Hw. by eapply kernel_inv_ioctl.
  - by apply kernel_inv_read.
  - destruct (take_read_same (ReadEvent (Err err)) a) as (_ & _ & _ & _ & _ & El).
    apply (kernel_inv_same a); rewrite ?El; try done; cbn [observe]; unfold ReadEvent;
      by destruct (errors_Is _ _).
  - destruct (offer_same e a) as (_ & _ & _ & _ & El).
    apply (kernel_inv_same a); rewrite ?El; try done; cbn [observe]; rewrite Hm; by case_bool_decide.
  - apply (kernel_inv_same a); try done; cbn [observe]; by rewrite Hm.
  - apply (kernel_inv_same a); try done; cbn [observe]; by rewrite Hq.
  - apply (kernel_inv_same a); try done; cbn [observe]; by rewrite He.
  - apply CloseReader_objects in Hc as [Hc _]. by apply (kernel_inv_same a).
  - apply Close_objects in Hc as [Hc _]. by apply (kernel_inv_same a).
Qed.

(** *** Control *)

Record control_inv (a : agent) : Prop := {
  inv_ready : a_ready a = bool_decide (a_signal a = Waiting);
  inv_reader : closeReaderOnce (a_loader a) = bool_decide (a_signal a = ReaderClosed);
  inv_main : in_loop (a_main a) = false → a_signal a = ReaderClosed;
  inv_done : a_worker_done a = true →
    in_loop (a_main a) = false ∧ a_queue a = [] ∧ a_worker a = Idle;
  inv_closing : closing (a_main a) = true → a_worker_done a = true;
}.

(** A step inside the loop of [main]. *)
Lemma control_loop m (a a' : agent) :
  control_inv a → in_loop (a_main a) = true → in_loop m = true →
  a_ready a' = a_ready a → a_signal a' = a_signal a → a_worker_done a' = a_worker_done a →
  closeReaderOnce (a_loader a') = closeReaderOnce (a_loader a) → a_main a' = m →
  control_inv a'.
Proof.
  intros [I1 I2 I3 I4 I5] Hin Hm E1 E2 E3 E4 E5. split; rewrite ?E1, ?E2, ?E3, ?E4, ?E5; try done.
  - congruence.
  - intros Hd. destruct (I4 Hd). congruence.
  - by destruct m.
Qed.

(** Only [ErrClosed] ends the loop, and only after [CloseReader]. *)
Lemma control_drain (a : agent) :
  control_inv a → a_main a = Reading → closeReaderOnce (a_loader a) = true →
  control_inv (with_main Draining a).
Proof.
  intros [I1 I2 I3 I4 I5] Hm Ho. split; cbn; try done.
  - intros _. rewrite I2 in Ho. by apply bool_decide_eq_true in Ho.
  - intros Hd. destruct (I4 Hd) as [Hl _]. by rewrite Hm in Hl.
Qed.

Lemma control_read raw (a : agent) :
  control_inv a → a_main a = Reading → control_inv (take_read (ReadEvent (Ok raw)) a).
Proof.
  intros I Hm. unfold ReadEvent. case_bool_decide; cbn [take_read].
  - rewrite errors_Is_New. by apply (control_loop Reading a); rewrite ?Hm.
  - match goal with |- control_inv (with_main (Offering ?e) a) =>
      by apply (control_loop (Offering e) a); rewrite ?Hm end.
Qed.

Lemma control_read_fails err (a : agent) :
  control_inv a → a_main a = Reading → read_error err a = true →
  control_inv (take_read (ReadEvent (Err err)) a).
Proof.
  intros I Hm He. unfold read_error in He. unfold ReadEvent.
  destruct (errors_Is ErrClosed err) eqn:Ec; cbn [take_read negb orb] in *; rewrite ?errors_Is_wrap, Ec.
  - by apply control_drain.
  - by apply (control_loop Reading a); rewrite ?Hm.
Qed.

Lemma control_offer e (a : agent) :
  control_inv a → a_main a = Offering e → control_inv (offer queueSize e a).
Proof.
  intros I Hm. unfold offer. case_bool_decide.
  - by apply (control_loop Reading a); rewrite ?Hm.
  - by apply (control_loop (Overflowing e) a); rewrite ?Hm.
Qed.

Lemma step_control act (a a' : agent) : step act a = Some a' → control_inv a → control_inv a'.
Proof.
  rewrite do_step_rule. intros Hs I. pose proof I as [I1 I2 I3 I4 I5].
  destruct Hs as [x filp cmd arg o ret _ Ho|raw r Hm _ Hr|err Hm _ Hc|Hm Ho|e Hm|e Hm|e q Hq Hw
    |env e v p He Hj|e v c log He Hv|Hm Hq Hw _|Hw|err Hw|l err Hw Hc|Hm Hd|l err Hm Hc|Hm].
  - by split.
  - apply control_read; [by split|done].
  - by apply control_read_fails.
  - apply control_drain; [done|done|]. unfold reader_closed in Ho.
    by destruct (closeReaderOnce (a_loader a)).
  - by apply control_offer.
  - apply (control_loop Reading a); try done. by rewrite Hm.
  - split; cbn; try done. intros Hd. destruct (I4 Hd) as (_ & Hq' & _). by rewrite Hq' in Hq.
  - split; cbn; try done. intros Hd. destruct (I4 Hd) as (_ & _ & Hh'). by rewrite Hh' in He.
  - split; cbn; try done. intros Hd. destruct (I4 Hd) as (_ & _ & Hh'). by rewrite Hh' in He.
  - split; cbn; try done. intros _. apply I3. by rewrite Hm.
  - rewrite Hw in I2. split; cbn; try done. intros Hm. by rewrite (I3 Hm) in Hw.
  - rewrite Hw in I1, I2. split; cbn; try done. intros Hm. by rewrite (I3 Hm) in Hw.
  - apply CloseReader_objects in Hc as [_ Hc]. rewrite Hw in I1. by split.
  - split; cbn; try done.
    + intros _. apply I3. by rewrite Hm.
    + intros _. by destruct (I4 Hd) as (_ & ? & ?).
  - assert (Ew : a_signal a = ReaderClosed) by (apply I3; by rewrite Hm).
    assert (Hd : a_worker_done a = true) by (apply I5; by rewrite Hm).
    split; cbn; try done.
    + rewrite Ew in I2 |- *. apply Close_objects in Hc as [_ Hc]. by apply Hc.
    + intros _. by destruct (I4 Hd) as (_ & ? & ?).
  - assert (Hd : a_worker_done a = true) by (apply I5; by rewrite Hm).
    split; cbn; try done.
    + intros _. apply I3. by rewrite Hm.
    + intros _. by destruct (I4 Hd) as (_ & ? & ?).
Qed.

(** *** From the start *)

(** The agent when [main] enters its loop. *)
Record initial (a0 : agent) : Prop := {
  init_devices : holds_devices (st_devices (objects a0)) devs;
  init_ioctls : holds_ioctls (st_ioctls (objects a0)) tbl;
  init_ring : ring_records (st_events (objects a0)) = [];
  init_dropped : ∃ vs, pcpu_values (st_dropped (objects a0)) 0 = Some vs ∧
                       length vs = ncpus ∧ wrap 64 (foldr Z.add 0 vs) = 0;
  init_queue : a_queue a0 = [];
  init_worker : a_worker a0 = Idle;
  init_main : a_main a0 = Reading;
  init_done : a_worker_done a0 = false;
  init_signal : a_signal a0 = Waiting;
  init_ready : a_ready a0 = true;
  init_reader : closeReaderOnce (a_loader a0) = false;
}.

Record invariants (a0 a : agent) (os : list observation) : Prop := {
  invs_counts : a_collector a = foldl apply_op (a_collector a0) (omap counted_op os);
  invs_queue : queue_inv a os;
  invs_kernel : kernel_inv a os;
  invs_control : control_inv a;
}.

Lemma initial_control a0 : initial a0 → control_inv a0.
Proof. intros []. split; rewrite ?init_signal0, ?init_main0, ?init_done0; try done. Qed.

Lemma reach_invariants a0 a os : initial a0 → reaches a0 a os → invariants a0 a os.
Proof.
  intros I0. induction 1 as [|a os act a' _ [J1 J2 J3 J4] Hw Hs].
  - pose proof (initial_control a0 I0). destruct I0. split; [done| | |done].
    + split; unfold a_handling; rewrite ?init_queue0, ?init_worker0, ?init_main0; cbn; try done. lia.
    + split; [done|done|by exists []|done].
  - split.
    + by rewrite omap_app, foldl_app, <- J1, (step_counts _ _ _ Hs).
    + by eapply step_queue.
    + by eapply step_kernel.
    + by eapply step_control.
Qed.

Lemma take_read_signal r (a : agent) : a_signal (take_read r a) = a_signal a.
Proof. by destruct (take_read_same r a) as (_ & _ & _ & _ & ? & _). Qed.

Lemma offer_signal e (a : agent) : a_signal (offer queueSize e a) = a_signal a.
Proof. by destruct (offer_same e a) as (_ & _ & _ & ? & _). Qed.

(** Every submitted record is that of a tracked call. *)
Definition tracked_event (e : event) : Prop :=
  ∃ x rdev cmd major minor kind,
    tracked devs tbl rdev cmd = Some (major, minor, kind) ∧ wf_ctx ncpus x ∧
    in_width 32 cmd ∧ e = event_of x cmd minor major kind.

Lemma reach_tracked a0 a os : reaches a0 a os → Forall tracked_event (submitted os).
Proof.
  induction 1 as [|a os act a' _ IH Hw Hs]; [constructor|].
  unfold submitted in *. rewrite omap_app. apply Forall_app. split; [done|].
  destruct act as [x filp cmd arg| |err| | | | |env| | | |err| | | |]; cbn [observe]; try constructor.
  - destruct (tracked _ _ _ _) as [[[major minor] kind]|] eqn:Et; [|constructor].
    destruct (ring_reserve _ _); [|constructor]. cbn. apply Forall_singleton.
    destruct Hw. exists x, (rdev_of kernel_bytes relo filp), cmd, major, minor, kind. done.
  - destruct (ring_read _) as [[raw r]|]; [|constructor]. by destruct (ReadEvent (Ok raw)).
  - by destruct (ReadEvent (Err err)).
  - destruct (a_main a); try constructor. by case_bool_decide.
  - destruct (a_main a); constructor.
  - destruct (a_queue a); constructor.
  - destruct (a_worker a); constructor.
Qed.

(** Every settled verdict is that of the worker's rules, on how some state of
    the resolver that its invariant admits resolves the event's cgroup. *)
Definition judged `{!ResolverOk St Env} (ev : Event * verdict) : Prop :=
  ∃ env p, resolver_inv p ∧
    ev.2 = verdict_of deviceMap ev.1 (resolve env (CgroupID ev.1) p).2.

(** The verdict the worker has in hand. *)
Definition pending_verdict (a : agent) : list (Event * verdict) :=
  match a_worker a with Judged e v => [(e, v)] | _ => [] end.

Lemma settled_quiet act (a : agent) :
  act ≠ Settle → settled (obs act a) = [].
Proof.
  intros Hc. destruct act as [x filp cmd arg| |err| | | | |env| | | |err| | | |]; try done; cbn [observe].
  - destruct (tracked _ _ _ _) as [[[? ?] ?]|]; [|done]. by destruct (ring_reserve _ _).
  - destruct (ring_read _) as [[raw r]|]; [|done]. by destruct (ReadEvent (Ok raw)).
  - by destruct (ReadEvent (Err err)).
  - destruct (a_main a); try done. by case_bool_decide.
  - by destruct (a_main a).
  - by destruct (a_queue a).
Qed.

(** Who judges and settles. *)
Lemma step_worker act (a a' : agent) :
  step act a = Some a' →
  (a_podmap a' = a_podmap a ∧ (settled (obs act a) ++ pending_verdict a' = pending_verdict a)) ∨
  ∃ env e, a_worker a = Received e ∧ settled (obs act a) = [] ∧
    pending_verdict a' = [(e, (judge deviceMap env e (a_podmap a)).1)] ∧
    a_podmap a' = (judge deviceMap env e (a_podmap a)).2.
Proof.
  intros Hs. assert (Hd : act = Settle ∨ act ≠ Settle) by (destruct act; auto).
  destruct Hd as [->|Hne].
  - left. apply do_step_rule in Hs.
    inversion Hs as [| | | | | | | |e v c log He Hv| | | | | | |]; subst.
    cbn [observe]. unfold pending_verdict. by rewrite He.
  - rewrite (settled_quiet act a Hne). rewrite do_step_rule in Hs.
    destruct Hs as [| | | |e Hm| |e q Hq Hw|env e v p He Hj|e v c log He Hv|Hm Hq Hw _| | | | | |];
      try by left.
    + left. unfold pending_verdict.
      destruct (take_read_same (ReadEvent (Ok raw)) (with_loader (set_ring r (a_loader a)) a))
        as (_ & -> & _ & -> & _). done.
    + left. unfold pending_verdict.
      destruct (take_read_same (ReadEvent (Err err)) a) as (_ & -> & _ & -> & _). done.
    + left. unfold pending_verdict. by destruct (offer_same e a) as (_ & -> & -> & _).
    + left. unfold pending_verdict. by rewrite Hw.
    + right. exists env, e. by rewrite Hj.
    + left. unfold pending_verdict. by rewrite Hw.
Qed.

Lemma reach_judged `{!ResolverOk St Env} a0 a os :
  reaches a0 a os → resolver_inv (a_podmap a0) → a_worker a0 = Idle →
  resolver_inv (a_podmap a) ∧ Forall judged (settled os ++ pending_verdict a).
Proof.
  intros Hr H0 Hw0. induction Hr as [|a os act a' _ [IH1 IH2] Hw Hs].
  - split; [done|]. unfold pending_verdict. rewrite Hw0. constructor.
  - unfold settled. rewrite omap_app, <- app_assoc. fold (settled os) (settled (obs act a)).
    apply Forall_app in IH2 as [IH2 IH3]. rewrite Forall_app.
    destruct (step_worker _ _ _ Hs) as [[-> ->]|(env & e & He & -> & -> & ->)]; [done|].
    rewrite judge_verdict. cbn [fst snd]. split.
    + case_bool_decide; [by apply resolve_inv|done].
    + split; [done|]. apply Forall_singleton. by exists env, (a_podmap a).
Qed.

(** *** Shutdown *)

(** Work left once the reader is closed: three steps of the worker for every
    event in the queue, one to end, and of [main] up to four more for an event
    it has in hand, one to leave the loop and three to close and end. *)
Definition remaining (a : agent) : nat :=
  3 * length (a_queue a) +
  match a_worker a with Idle => 0 | Received _ => 2 | Judged _ _ => 1 end +
  match a_main a with
  | Offering _ => 8 | Overflowing _ => 5 | Reading => 4
  | Draining => 3 | PodMapClosed => 2 | LoaderClosed => 1 | Returned => 0
  end +
  (if a_worker_done a then 0 else 1).

Definition is_kernel_action (act : action Env) : bool :=
  match act with Ioctl _ _ _ _ => true | _ => false end.

(** The goroutine that takes an action, and can when it is enabled; kernel,
    signals and failing reads come from outside. *)
Definition component (act : action Env) : option thread :=
  match act with
  | Read | ReadClosed | Offer | Overflow | ClosePodMap | CloseLoader | Return => Some ThMain
  | Receive | Judge _ | Settle | WorkerDone => Some ThWorker
  | ShutdownServer _ | CloseRing => Some ThSignal
  | Ioctl _ _ _ _ | ReadFails _ | Signal => None
  end.

(** Whose turn an action is: a failing read is one of [main]. *)
Definition turn (act : action Env) : option thread :=
  match act with ReadFails _ => Some ThMain | _ => component act end.

(** Who has to move next once the reader is closed. *)
Definition shutdown_helper (a : agent) : thread :=
  match a_main a with
  | Draining => if a_worker_done a then ThMain else ThWorker
  | _ => ThMain
  end.

Lemma remaining_bound (a : agent) os :
  queue_inv a os → (remaining a ≤ 3 * queueSize + 11)%nat.
Proof.
  intros [_ _ _ _ Q5]. unfold remaining.
  destruct (a_worker a), (a_main a), (a_worker_done a); lia.
Qed.

(** The signal goroutine has closed a closed reader, and it stays closed. *)
Lemma closed_signal (a : agent) :
  control_inv a → reader_closed reader_Close (a_loader a) = true → a_signal a = ReaderClosed.
Proof.
  intros [_ C2 _ _ _] Hcl. unfold reader_closed in Hcl. apply andb_true_iff in Hcl as [Ho _].
  rewrite C2 in Ho. by apply bool_decide_eq_true in Ho.
Qed.

Lemma CloseReader_rb (l : Loader H R P link reader) : rb (CloseReader reader_Close l).1 = rb l.
Proof.
  unfold CloseReader. destruct (closeReaderOnce l); [done|].
  change (rb (set_closeReaderOnce l)) with (rb l). by destruct (rb l) eqn:E.
Qed.

Lemma Close_rb (l : Loader H R P link reader) :
  rb (Close link_Close reader_Close obj_Close l).1 = rb l.
Proof.
  unfold Close. destruct (closeOnce l); [done|].
  pose proof (CloseReader_rb (set_closeOnce l)) as E.
  destruct (CloseReader _ _) as [l1 err]. cbn [fst] in E.
  destruct (hook l1); (destruct (bpfObjects_Close obj_Close) as [closed cerr]); exact E.
Qed.

Lemma step_rb act (a a' : agent) : step act a = Some a' → rb (a_loader a') = rb (a_loader a).
Proof.
  rewrite do_step_rule.
  destruct 1 as [x filp cmd arg o ret _ Ho|raw r _ _ _|err _ _ _| |e _| | | | | | | |l err _ Hc| |l err _ Hc|];
    try done.
  - by destruct (take_read_same (ReadEvent (Ok raw)) (with_loader (set_ring r (a_loader a)) a))
      as (_ & _ & _ & _ & _ & ->).
  - by destruct (take_read_same (ReadEvent (Err err)) a) as (_ & _ & _ & _ & _ & ->).
  - by destruct (offer_same e a) as (_ & _ & _ & _ & ->).
  - by rewrite <- (CloseReader_rb (a_loader a)), Hc.
  - by rewrite <- (Close_rb (a_loader a)), Hc.
Qed.

Lemma closed_stays act (a a' : agent) :
  control_inv a → reader_closed reader_Close (a_loader a) = true → step act a = Some a' →
  reader_closed reader_Close (a_loader a') = true.
Proof.
  intros C Hcl Hs. pose proof (step_control _ _ _ Hs C) as C'.
  assert (Hsig : a_signal a' = ReaderClosed).
  { pose proof (closed_signal a C Hcl) as Hsig. rewrite do_step_rule in Hs.
    destruct Hs; try done; rewrite ?take_read_signal, ?offer_signal; cbn in *; congruence. }
  unfold reader_closed in *. rewrite (step_rb _ _ _ Hs), (inv_reader a' C').
  rewrite bool_decide_eq_true_2 by done. by apply andb_true_iff in Hcl as [_ ->].
Qed.

(** When the signal goroutine has called it, either the reader is closed or
    closing it failed. *)
Lemma closed_or_failed (a : agent) :
  control_inv a → a_signal a = ReaderClosed →
  reader_closed reader_Close (a_loader a) = true ∨
  ∃ rd err, rb (a_loader a) = Some rd ∧ reader_Close rd = Some err.
Proof.
  intros [_ C2 _ _ _] Hsig. rewrite Hsig, bool_decide_eq_true_2 in C2 by done.
  unfold reader_closed. rewrite C2. destruct (rb (a_loader a)) as [rd|]; [|by left].
  destruct (reader_Close rd) as [err|] eqn:E; [right|by left]. by exists rd, err.
Qed.

(** Once the reader is closed, an action of the process uses up work; the
    kernel leaves it and the next to move alone. *)
Lemma remaining_step act (a a' : agent) :
  control_inv a → reader_closed reader_Close (a_loader a) = true → step act a = Some a' →
  if is_kernel_action act
  then remaining a' = remaining a ∧ shutdown_helper a' = shutdown_helper a
  else (remaining a' < remaining a)%nat.
Proof.
  intros C Hcl. pose proof (closed_signal a C Hcl) as Hsig. rewrite do_step_rule.
  destruct 1 as [x filp cmd arg o ret _ Ho|raw r _ Hc _|err _ Hc _|Hm _|e Hm|e Hm|e q Hq Hw
    |env e v p He Hj|e v c log He Hv|Hm Hq Hw Hd|Hw|err Hw|l err Hw _|Hm Hd|l err Hm _|Hm];
    cbn [is_kernel_action]; try congruence; try done; unfold remaining;
    cbn [a_queue a_worker a_main a_worker_done with_main with_worker with_log with_collector
         with_loader].
  - rewrite Hm. lia.
  - unfold offer. case_bool_decide; cbn [a_queue a_worker a_main a_worker_done with_main];
      rewrite Hm, ?length_app; cbn [length]; lia.
  - rewrite Hm. lia.
  - rewrite Hq, Hw. cbn [length]. lia.
  - rewrite He. lia.
  - rewrite He. lia.
  - rewrite Hm, Hq, Hw, Hd. lia.
  - rewrite Hm, Hd. lia.
  - rewrite Hm. lia.
  - rewrite Hm. lia.
Qed.

(** The worker always has a move while there is work for it. *)
Lemma worker_enabled (env : Env) (a : agent) :
  a_worker a ≠ Idle ∨ a_queue a ≠ [] →
  ∃ act a', component act = Some ThWorker ∧ wf_action ncpus act ∧
            is_kernel_action act = false ∧ step act a = Some a'.
Proof.
  intros Hwork. destruct (a_worker a) as [|e|e v] eqn:Ew.
  - destruct (a_queue a) as [|e q] eqn:Eq; [naive_solver|].
    eexists Receive, _. split_and!; [done|done|done|]. apply do_step_rule. by econstructor.
  - destruct (judge deviceMap env e (a_podmap a)) as [v p] eqn:E.
    eexists (Judge env), _. split_and!; [done|done|done|]. apply do_step_rule. by econstructor.
  - destruct (settle v (a_collector a) (a_log a)) as [c log] eqn:E.
    eexists Settle, _. split_and!; [done|done|done|]. apply do_step_rule. by econstructor.
Qed.

Lemma shutdown_enabled (env : Env) (a : agent) :
  control_inv a → reader_closed reader_Close (a_loader a) = true → a_main a ≠ Returned →
  ∃ act a', component act = Some (shutdown_helper a) ∧ wf_action ncpus act ∧
            is_kernel_action act = false ∧ step act a = Some a'.
Proof.
  intros C Hcl Hret. unfold shutdown_helper.
  destruct (a_main a) as [|e|e| | | |] eqn:Em; [| | | | | |done].
  - eexists ReadClosed, _. split_and!; [done|done|done|]. apply do_step_rule. by constructor.
  - eexists Offer, _. split_and!; [done|done|done|]. apply do_step_rule. by constructor.
  - eexists Overflow, _. split_and!; [done|done|done|]. apply do_step_rule. by econstructor.
  - destruct (a_worker_done a) eqn:Ed.
    { eexists ClosePodMap, _. split_and!; [done|done|done|]. apply do_step_rule. by constructor. }
    destruct (a_worker a) eqn:Ew; [|apply (worker_enabled env); left; congruence..].
    destruct (a_queue a) eqn:Eq; [|apply (worker_enabled env); right; congruence].
    eexists WorkerDone, _. split_and!; [done|done|done|]. apply do_step_rule. by constructor.
  - destruct (Close link_Close reader_Close obj_Close (a_loader a)) as [l err] eqn:El.
    eexists CloseLoader, _. split_and!; [done|done|done|]. apply do_step_rule. by econstructor.
  - eexists Return, _. split_and!; [done|done|done|]. apply do_step_rule. by constructor.
Qed.

(** While the reader is open, [main] reads on, whatever the reads return. *)
Lemma open_reads (a : agent) os :
  kernel_inv a os → reader_closed reader_Close (a_loader a) = false → a_main a = Reading →
  step ReadClosed a = None ∧
  (∀ err, errors_Is ErrClosed err = false →
     ∃ a', step (ReadFails err) a = Some a' ∧ a_main a' = Reading) ∧
  (ring_records (st_events (objects a)) ≠ [] →
     ∃ e a', step Read a = Some a' ∧ a_main a' = Offering e).
Proof.
  intros [_ _ (pending & R1 & _ & R3) _] Ho Hm. split_and!.
  - cbn [do_step]. by rewrite Ho, andb_false_r.
  - intros err Herr. eexists. split; [apply do_step_rule; constructor; try done|].
    + unfold read_error. by rewrite Herr.
    + unfold ReadEvent. rewrite Herr. cbn [take_read]. rewrite errors_Is_wrap, Herr. exact Hm.
  - intros Hne. destruct pending as [|e pending]; [done|].
    destruct (ring_read_cons _ _ _ R1) as (r & Hr & _). apply Forall_cons in R3 as [We _].
    exists (event_view e). eexists. split; [apply do_step_rule; by econstructor|].
    by rewrite <- (app_nil_r (event_bytes e)), (ReadEvent_event e [] We).
Qed.

(** A process that has returned has settled everything it queued. *)
Lemma returned_settled (a : agent) os :
  queue_inv a os → control_inv a → a_main a = Returned →
  (settled os).*1 = queued os ∧ a_queue a = [] ∧ a_worker a = Idle.
Proof.
  intros [Q1 Q2 _ _ _] [_ _ _ C4 C5] Hret.
  destruct (C4 (C5 ltac:(by rewrite Hret))) as (_ & Eq & Ew).
  split_and!; [|done..]. unfold a_handling in Q2. by rewrite Q1, Q2, Eq, Ew, !app_nil_r.
Qed.

End Runs.

(** ** Tallies *)

Definition is_counted (k : key) (ev : Event * verdict) : bool :=
  match ev.2 with Counted k' => bool_decide (k' = k) | _ => false end.

Definition is_dropped (r : string) (ev : Event * verdict) : bool :=
  match ev.2 with Dropped r' => bool_decide (r' = r) | _ => false end.

Definition is_unclassified (ev : Event * verdict) : bool :=
  match ev.2 with Unclassified _ => true | _ => false end.

Definition tally (f : Event * verdict → bool) (os : list observation) : nat :=
  length (List.filter f (settled os)).

(** The reasons the worker gives. *)
Definition worker_reasons : list string :=
  [ReasonDeviceUnknown; ReasonNotPod; ReasonNotIndexed; ReasonContainerNotFound].

Section Tallies.

Context {W : Type}.

Lemma count_omap (f : op (W:=W) → bool) os :
  count f (omap counted_op os) =
  foldr (λ o n, (match counted_op o with Some p => if f p then 1 else 0 | None => 0 end) + n) 0 os.
Proof.
  induction os as [|o os IH]; [done|]. cbn [foldr]. rewrite <- IH.
  change (o :: os) with ([o] ++ os). rewrite omap_app, count_app. f_equal.
  cbn [omap list_omap]. destruct (counted_op o) as [p|]; [apply count_one|done].
Qed.

Lemma tally_cons f o os :
  tally f (o :: os) =
    ((match o with Settled e v => if f (e, v) then 1 else 0 | _ => 0 end) + tally f os)%nat.
Proof. unfold tally, settled. destruct o; cbn; try done. by destruct (f _). Qed.

Lemma count_counted k os :
  count (W:=W) (is_ioctl k) (omap counted_op os) = Z.of_nat (tally (is_counted k) os).
Proof.
  rewrite count_omap. induction os as [|o os IH]; [done|]. cbn [foldr].
  rewrite tally_cons, Nat2Z.inj_add, IH. f_equal.
  destruct o as [| | | | | | |e [k'|r|err]]; try done.
  change (is_counted k (e, Counted k')) with (bool_decide (k' = k)).
  cbn [counted_op is_ioctl]. by case_bool_decide.
Qed.

Lemma count_dropped r os :
  r ≠ ReasonQueueFull →
  count (W:=W) (is_drop r) (omap counted_op os) = Z.of_nat (tally (is_dropped r) os).
Proof.
  intros Hr. rewrite count_omap. induction os as [|o os IH]; [done|]. cbn [foldr].
  rewrite tally_cons, Nat2Z.inj_add, IH. f_equal.
  destruct o as [| | | | | | |e [k'|r'|err]]; try done; cbn [counted_op is_drop].
  - by rewrite bool_decide_eq_false_2 by congruence.
  - change (is_dropped r (e, Dropped r')) with (bool_decide (r' = r)). by case_bool_decide.
Qed.

(** The worker never reports a full queue. *)
Lemma count_queue_full os :
  Forall (λ ev, is_dropped ReasonQueueFull ev = false) (settled os) →
  count (W:=W) (is_drop ReasonQueueFull) (omap counted_op os) =
    Z.of_nat (length (overflowed os)).
Proof.
  rewrite count_omap. unfold settled, overflowed.
  induction os as [|o os IH]; [done|]. cbn [foldr].
  destruct o as [| | | | |e| |e [k'|r'|err]]; cbn [omap list_omap]; try (intros Hf; by rewrite IH).
  - intros Hf. rewrite (IH Hf). cbn [counted_op is_drop length].
    rewrite bool_decide_eq_true_2 by done. lia.
  - intros [_ Hf]%Forall_cons. by rewrite IH.
  - intros [Hr Hf]%Forall_cons. rewrite (IH Hf). cbn [counted_op is_drop].
    change (is_dropped ReasonQueueFull (e, Dropped r')) with (bool_decide (r' = ReasonQueueFull))
      in Hr. by rewrite Hr.
  - intros [_ Hf]%Forall_cons. by rewrite IH.
Qed.

Lemma verdict_of_reason deviceMap e r reason :
  verdict_of deviceMap e r = Dropped reason → reason ∈ worker_reasons.
Proof.
  unfold verdict_of. intros H. repeat (case_match; simplify_eq); by_decide.
Qed.

(** Every settled event has exactly one of the three kinds of verdict. *)
Lemma settled_partition os :
  length (settled os) =
    (length (List.filter (λ ev, match ev.2 with Counted _ => true | _ => false end) (settled os)) +
     length (List.filter (λ ev, match ev.2 with Dropped _ => true | _ => false end) (settled os)) +
     tally is_unclassified os)%nat.
Proof.
  unfold tally. induction (settled os) as [|[e [k|r|err]] l IH]; cbn; lia.
Qed.

End Tallies.

(** ** A run: one submission of a container, then a shutdown *)

Module SampleRun.

Definition x : exec_ctx := {|
  cpu := 1%nat;
  ktime_tai_ns := 1000;
  current_cgroup_id := 4;
  current_pid_tgid := Z.shiftl 4242 32 + 4243;
|}.

Definition deviceMap : gmap deviceNode deviceMeta :=
  {[ (226, 128) := DeviceMeta "0000:00:02.0" "i915" ]}.

Definition start : agent Model.hash Model.ring (list Z) unit unit PodMap Z :=
  Agent (MkLoader (BpfProgram.Sample.state 4096) (Some tt) (Some tt) false false [])
    NewCollector PodMap.Sample.before [] Idle Reading false Waiting true [].

Definition acts : list (action lookup_env) :=
  [Ioctl x 0 0xC0406469 0; Read; Offer; Receive; Judge (PodMap.Sample.at_time 7); Settle;
   Signal; ShutdownServer None; CloseRing; ReadClosed; WorkerDone; ClosePodMap; CloseLoader; Return].

Definition go (acts : list (action lookup_env)) :=
  run BpfProgram.Sample.memory BpfProgram.Sample.relo (λ _, None) (λ _, None) (λ _, None) None
    deviceMap 4 BpfProgram.Sample.devs BpfProgram.Sample.tbl acts start [].

(** The submission is counted for the container, and [main] returns. *)
Example counted :
  match go acts with
  | Some (a, _) =>
      ioctlTotal (a_collector a) !! Key "ml" "trainer" "main" "0000:00:02.0" "i915" "submit" =
        Some 1 ∧ a_main a = Returned ∧ a_ready a = false
  | None => False
  end.
Proof. vm_compute. split_and!; reflexivity. Qed.

End SampleRun.

Lemma sample_initial :
  initial BpfProgram.Sample.devs BpfProgram.Sample.tbl 2 SampleRun.start.
Proof.
  split; try done.
  - exact BpfProgram.Sample.devices_held.
  - exact BpfProgram.Sample.ioctls_held.
  - by exists [0; 0].
Qed.

Lemma sample_relo : ∃ off, BpfProgram.Sample.relo "inode" "i_rdev" = Some (off, 4).
Proof. eexists. vm_compute. reflexivity. Qed.

Lemma sample_acts : Forall (wf_action 2) SampleRun.acts.
Proof.
  apply Forall_cons. split.
  - split; [|by_decide]. split; [cbn; lia|]. split; [by_decide|]. split; by_decide.
  - repeat (apply Forall_cons; split; [exact I|]). apply List.Forall_nil.
Qed.

(** Every prefix of the run is reachable. *)
Lemma sample_reach n a os :
  SampleRun.go (take n SampleRun.acts) = Some (a, os) →
  reach BpfProgram.Sample.memory BpfProgram.Sample.relo (λ _, None) (λ _, None) (λ _, None) None
    SampleRun.deviceMap 4 BpfProgram.Sample.devs BpfProgram.Sample.tbl 2 SampleRun.start a os.
Proof.
  unfold SampleRun.go. apply run_reach; [constructor|]. apply Forall_take, sample_acts.
Qed.

(** ** Properties *)

Section Properties.

Context {H R P link reader St Env W : Type}.
Context `{!BpfHash H, !BpfRingbuf R, !BpfPercpu P, !Resolver St Env}.
Context `{!BpfRingbufOk R, !BpfPercpuOk P, !ResolverOk St Env}.

Abbreviation agent := (agent H R P link reader St W).

(** Histories that count nothing, such as that of the setup. *)
Definition counts_nothing (o : op (W:=W)) : Prop :=
  match o with OpIoctl _ | OpDrop _ => False | _ => True end.

Lemma counts_nothing_ioctl k ops : Forall counts_nothing ops → count (is_ioctl k) ops = 0.
Proof.
  intros Hf. unfold count. induction Hf as [|o ops Ho _ IH]; [done|]. destruct o; try done.
Qed.

Lemma counts_nothing_drop r ops : Forall counts_nothing ops → count (is_drop r) ops = 0.
Proof.
  intros Hf. unfold count. induction Hf as [|o ops Ho _ IH]; [done|]. destruct o; try done.
Qed.

(** C2: Nothing is lost unaccounted, in any interleaving of the kernel, the
    reader, the worker and a shutdown: every event the kernel submitted is in
    the ring buffer, is in the hands of the reader loop, was dropped by the full
    queue, waits in the queue, is being handled, or has been settled by the
    worker; the series of the collector and the kernel's drop counter are exactly
    the numbers of these outcomes. *)
Theorem agent_accounts kernel_bytes relo link_Close reader_Close obj_Close podmap_Close
    deviceMap queueSize devs tbl ncpus off lookup_error ops0 (a0 a : agent) os :
  (∀ addr n, 0 ≤ n → Z.of_nat (length (kernel_bytes addr n)) = n) →
  relo "inode" "i_rdev" = Some (off, 4) →
  initial devs tbl ncpus a0 → resolver_inv (a_podmap a0) →
  a_collector a0 = run_ops ops0 → Forall counts_nothing ops0 →
  reach kernel_bytes relo link_Close reader_Close obj_Close podmap_Close deviceMap queueSize
    devs tbl ncpus a0 a os →
  length (submitted os) =
    (length (ring_records (st_events (bpfObjects (a_loader a)))) +
     length (option_list (in_hand (a_main a))) + length (overflowed os) +
     length (a_queue a) + length (option_list (a_handling a)) + length (settled os))%nat ∧
  DroppedEvents lookup_error None (bpfObjects (a_loader a)) =
    Ok (wrap 64 (Z.of_nat (length (lost os)))) ∧
  (∀ k, ioctlTotal (a_collector a) !! k =
     if bool_decide (tally (is_counted k) os = 0%nat) then None
     else Some (wrap 64 (Z.of_nat (tally (is_counted k) os)))) ∧
  (∀ r, r ∈ worker_reasons → eventsDroppedTotal (a_collector a) !! r =
     Some (wrap 64 (Z.of_nat (tally (is_dropped r) os)))) ∧
  eventsDroppedTotal (a_collector a) !! ReasonQueueFull =
    Some (wrap 64 (Z.of_nat (length (overflowed os)))).
Proof.
  intros Hk Hrelo I0 Hp Hc0 Hn Hr.
  destruct (reach_judged _ _ _ _ _ _ _ _ _ _ _ _ _ _ Hr Hp (init_worker _ _ _ _ I0))
    as [_ [Hj _]%Forall_app].
  destruct (reach_invariants _ _ _ _ _ _ _ _ _ _ _ _ Hk Hrelo _ _ _ I0 Hr) as [J1 [Q1 Q2 _ Q4 _]
    [_ _ (pending & K1 & K2 & _) (vs & D1 & _ & D2)] _].
  assert (Hcol : a_collector a = run_ops (ops0 ++ omap counted_op os)).
  { unfold run_ops. by rewrite foldl_app, J1, Hc0. }
  split_and!.
  - apply (f_equal length) in Q1, Q2, K2. rewrite K1, length_fmap.
    rewrite !length_app, !length_fmap in *. lia.
  - rewrite (DroppedEvents_sum _ _ vs D1). by rewrite D2.
  - intros k. rewrite Hcol, ioctl_count. cbv zeta. rewrite andb_true_r.
    rewrite count_app, (counts_nothing_ioctl k ops0 Hn), count_counted, Z.add_0_l.
    by repeat case_bool_decide; lia || done.
  - intros r Hw. assert (r ≠ ReasonQueueFull ∧ r ∈ dropReasons) as [Hq Hd].
    { revert r Hw. apply Forall_forall. by_decide. }
    rewrite Hcol, drop_count. cbv zeta. rewrite (bool_decide_eq_true_2 (r ∈ _)) by done.
    rewrite andb_false_r, count_app, (counts_nothing_drop r ops0 Hn), Z.add_0_l.
    by rewrite count_dropped.
  - rewrite Hcol, drop_count. cbv zeta.
    rewrite (bool_decide_eq_true_2 (ReasonQueueFull ∈ dropReasons)) by by_decide.
    rewrite andb_false_r, count_app, (counts_nothing_drop _ ops0 Hn), Z.add_0_l.
    rewrite count_queue_full; [done|]. eapply Forall_impl; [exact Hj|].
    intros [e v] (env & p & _ & Hv). cbn in Hv. unfold is_dropped. cbn [snd]. subst v.
    destruct (verdict_of _ _ _) as [k|r|err] eqn:Ev; [done| |done].
    apply verdict_of_reason in Ev. apply bool_decide_eq_false_2. intros ->.
    revert Ev. apply (bool_decide_unpack _). by vm_compute.
Qed.

(** C12: Order and bounds: the worker settles events in the order in which the
    kernel submitted them, the queue never exceeds its size, and an event that
    was queued is settled before any event queued after it is received. *)
Theorem agent_in_order kernel_bytes relo link_Close reader_Close obj_Close podmap_Close
    deviceMap queueSize devs tbl ncpus off (a0 a : agent) os :
  (∀ addr n, 0 ≤ n → Z.of_nat (length (kernel_bytes addr n)) = n) →
  relo "inode" "i_rdev" = Some (off, 4) → initial devs tbl ncpus a0 →
  reach kernel_bytes relo link_Close reader_Close obj_Close podmap_Close deviceMap queueSize
    devs tbl ncpus a0 a os →
  (settled os).*1 `sublist_of` (event_view <$> submitted os) ∧
  queued os = (settled os).*1 ++ option_list (a_handling a) ++ a_queue a ∧
  queued os `sublist_of` pulled os ∧ pulled os `prefix_of` (event_view <$> submitted os) ∧
  (length (a_queue a) ≤ queueSize)%nat.
Proof.
  intros Hk Hrelo I0 Hr.
  destruct (reach_invariants _ _ _ _ _ _ _ _ _ _ _ _ Hk Hrelo _ _ _ I0 Hr) as [_ [Q1 Q2 Q3 _ Q5]
    [_ _ (pending & _ & K2 & _) _] _].
  assert (Hq : queued os = (settled os).*1 ++ option_list (a_handling a) ++ a_queue a).
  { by rewrite Q1, Q2, <- app_assoc. }
  assert (Q3' : queued os `sublist_of` pulled os).
  { etransitivity; [|exact Q3]. by apply sublist_inserts_r. }
  split_and!; try done.
  - rewrite K2. apply sublist_inserts_r. etransitivity; [|exact Q3']. rewrite Hq.
    by apply sublist_inserts_r.
  - rewrite K2. by eexists.
Qed.

(** The server's probe says whether the agent is running: [a_ready] is what
    [ready.Load] returns. *)
Lemma readyz_status {W'} HandlerFor addr (w : W') (b : bool) :
  status (ServeHTTP (NewServer HandlerFor addr (Some snd)) "/readyz" (w, b)) = StatusOK ↔ b = true.
Proof. rewrite readyz. cbn [snd]. by destruct b. Qed.

(** Readiness follows the signal: at every reachable point [/readyz] answers
    200 exactly while no signal has been received, [/healthz] always; the
    signal goroutine alone calls [CloseReader], and the loop leaves, closing the
    queue, only after that. *)
Theorem agent_readiness kernel_bytes relo link_Close reader_Close obj_Close podmap_Close
    deviceMap queueSize devs tbl ncpus off HandlerFor addr (a0 a : agent) os (w : W) :
  (∀ ad n, 0 ≤ n → Z.of_nat (length (kernel_bytes ad n)) = n) →
  relo "inode" "i_rdev" = Some (off, 4) → initial devs tbl ncpus a0 →
  reach kernel_bytes relo link_Close reader_Close obj_Close podmap_Close deviceMap queueSize
    devs tbl ncpus a0 a os →
  let srv := NewServer HandlerFor addr (Some snd) in
  (status (ServeHTTP srv "/readyz" (w, a_ready a)) = StatusOK ↔ a_signal a = Waiting) ∧
  status (ServeHTTP srv "/healthz" (w, a_ready a)) = StatusOK ∧
  closeReaderOnce (a_loader a) = bool_decide (a_signal a = ReaderClosed) ∧
  (in_loop (a_main a) = false → a_signal a = ReaderClosed).
Proof.
  intros Hk Hrelo I0 Hr srv. subst srv.
  destruct (reach_invariants _ _ _ _ _ _ _ _ _ _ _ _ Hk Hrelo _ _ _ I0 Hr) as [_ _ _ [C1 C2 C3 _ _]].
  split_and!; [|by rewrite healthz|done..].
  rewrite readyz_status, C1. apply bool_decide_eq_true.
Qed.

(** C11: Shutdown completes when the reader can be closed: once [rb.Close] has
    been called and has not failed, every action of the process strictly
    decreases the remaining work and leaves the reader closed, kernel activity
    does not increase it, and until the process has ended some action of it is
    enabled — so [main] drains the queue, closes pod map and loader and returns
    after at most [3 * QueueSize + 11] actions; when it has, every event that was
    queued has been settled. When [rb.Close] fails, which is only logged, the
    reader is not closed: [main] stays in its loop, reading on, as long as no
    read reports [ErrClosed]. *)
Theorem agent_shutdown kernel_bytes relo link_Close reader_Close obj_Close podmap_Close
    deviceMap queueSize devs tbl ncpus off (a0 a : agent) os (env : Env) :
  (∀ addr n, 0 ≤ n → Z.of_nat (length (kernel_bytes addr n)) = n) →
  relo "inode" "i_rdev" = Some (off, 4) → initial devs tbl ncpus a0 →
  reach kernel_bytes relo link_Close reader_Close obj_Close podmap_Close deviceMap queueSize
    devs tbl ncpus a0 a os →
  let step := do_step kernel_bytes relo link_Close reader_Close obj_Close podmap_Close
                deviceMap queueSize in
  let is_closed a := reader_closed reader_Close (a_loader a) in
  (is_closed a = true →
     (remaining a ≤ 3 * queueSize + 11)%nat ∧
     (∀ act a', step act a = Some a' → is_closed a' = true ∧
        if is_kernel_action act then remaining a' = remaining a
        else (remaining a' < remaining a)%nat) ∧
     (a_main a ≠ Returned → ∃ act a', is_kernel_action act = false ∧ step act a = Some a')) ∧
  (a_main a = Returned →
     (settled os).*1 = queued os ∧ a_queue a = [] ∧ a_worker a = Idle) ∧
  (a_signal a = ReaderClosed →
     is_closed a = true ∨ ∃ rd err, rb (a_loader a) = Some rd ∧ reader_Close rd = Some err) ∧
  (is_closed a = false → a_main a = Reading →
     step ReadClosed a = None ∧
     (∀ err, errors_Is ErrClosed err = false →
        ∃ a', step (ReadFails err) a = Some a' ∧ a_main a' = Reading) ∧
     (ring_records (st_events (bpfObjects (a_loader a))) ≠ [] →
        ∃ e a', step Read a = Some a' ∧ a_main a' = Offering e)).
Proof.
  intros Hk Hrelo I0 Hr step is_closed. subst step is_closed. cbv beta.
  destruct (reach_invariants _ _ _ _ _ _ _ _ _ _ _ _ Hk Hrelo _ _ _ I0 Hr) as [_ Q K C].
  split_and!; [intros Hcl; split_and!|..].
  - by eapply remaining_bound.
  - intros act a' Hs. split; [by eapply closed_stays|].
    pose proof (remaining_step _ _ _ _ _ _ _ _ _ _ _ C Hcl Hs) as Hm.
    destruct (is_kernel_action act); [apply Hm|exact Hm].
  - intros Hret. destruct (shutdown_enabled kernel_bytes relo link_Close reader_Close obj_Close
      podmap_Close deviceMap queueSize ncpus env a C Hcl Hret) as (act & a' & _ & _ & ? & ?).
    by exists act, a'.
  - by eapply returned_settled.
  - by apply closed_or_failed.
  - intros Ho Hm. by eapply open_reads.
Qed.

End Properties.

(** C32: An event whose cgroup is indexed but whose path does not parse — a
    pod's own cgroup, for one — is counted nowhere: no series of the collector
    changes, only a line is logged. *)
Theorem unparsed_event_uncounted {W} deviceMap env event (c : Collector W) (p : PodMap) log
    device path err :
  deviceMap !! (wrap 32 (Loader.Major event), Loader.Minor event) = Some device →
  CgroupID event ≠ 0 → cached env (CgroupID event) p = None →
  byInode (index p) !! CgroupID event = Some path →
  Contains path "kubepods" = true → parseCgroupPath path = Err err →
  handle_event deviceMap env event c p log =
    (c, p, log ++ [Errorf "parse cgroup %d: %w" [err]]).
Proof.
  intros Hd Hz Hc Hi Hk Hp. destruct (parseCgroupPath_error _ _ Hp) as (E1 & E2 & E3).
  rewrite Hk in E1. cbn in E1.
  assert (Hr : resolve env (CgroupID event) p =
               (p, Err (Errorf "parse cgroup %d: %w" [err]))).
  { unfold resolve, PodMap_Resolver, container_info.
    by rewrite bool_decide_eq_false_2, Hc, ParseCgroupToIDs_eq, Hi, Hp, E2 by done. }
  unfold handle_event, judge. rewrite Hd, Hr. by rewrite !errors_Is_wrap, E1, E2, E3.
Qed.

Lemma unparsed_event_uncounted_witness :
  ∃ log, handle_event SampleRun.deviceMap (PodMap.Sample.at_time 7)
      (MkEvent 0 3 0 0 128 226 1) (NewCollector (W:=Z))
      (rebuilt_at (at_rebuild (PodMap.Sample.at_time 7)) PodMap.Sample.before) [] =
    (NewCollector, rebuilt_at (at_rebuild (PodMap.Sample.at_time 7)) PodMap.Sample.before, log).
Proof.
  eexists.
  apply (unparsed_event_uncounted SampleRun.deviceMap (PodMap.Sample.at_time 7)
    (MkEvent 0 3 0 0 128 226 1) NewCollector
    (rebuilt_at (at_rebuild (PodMap.Sample.at_time 7)) PodMap.Sample.before) []
    (DeviceMeta "0000:00:02.0" "i915") "/cg/kubepods/pod7"
    (errors_New "container ID not found in cgroup path %q")); try reflexivity.
  done.
Defined.

Lemma agent_accounts_witness :
  ∃ a os, SampleRun.go SampleRun.acts = Some (a, os) ∧
    length (submitted os) =
    (length (ring_records (st_events (bpfObjects (a_loader a)))) +
     length (option_list (in_hand (a_main a))) + length (overflowed os) +
     length (a_queue a) + length (option_list (a_handling a)) + length (settled os))%nat.
Proof.
  assert (Hok : bool_decide (is_Some (SampleRun.go SampleRun.acts)) = true) by (vm_compute; reflexivity).
  destruct (SampleRun.go SampleRun.acts) as [[a os]|] eqn:E; [clear Hok|discriminate Hok].
  exists a, os. split; [reflexivity|]. destruct sample_relo as [off Hoff].
  apply (agent_accounts BpfProgram.Sample.memory BpfProgram.Sample.relo (λ _, None) (λ _, None)
    (λ _, None) None SampleRun.deviceMap 4 BpfProgram.Sample.devs BpfProgram.Sample.tbl 2 off
    (errors_New "e") [] SampleRun.start a os).
  - exact BpfProgram.Sample.memory_length.
  - exact Hoff.
  - exact sample_initial.
  - apply map_Forall_empty.
  - reflexivity.
  - by apply List.Forall_nil.
  - by apply (sample_reach 14).
Defined.

Lemma agent_in_order_witness :
  ∃ a os, SampleRun.go SampleRun.acts = Some (a, os) ∧
    (settled os).*1 `sublist_of` (event_view <$> submitted os).
Proof.
  assert (Hok : bool_decide (is_Some (SampleRun.go SampleRun.acts)) = true) by (vm_compute; reflexivity).
  destruct (SampleRun.go SampleRun.acts) as [[a os]|] eqn:E; [clear Hok|discriminate Hok].
  exists a, os. split; [reflexivity|]. destruct sample_relo as [off Hoff].
  apply (agent_in_order BpfProgram.Sample.memory BpfProgram.Sample.relo (λ _, None) (λ _, None)
    (λ _, None) None SampleRun.deviceMap 4 BpfProgram.Sample.devs BpfProgram.Sample.tbl 2 off
    SampleRun.start a os).
  - exact BpfProgram.Sample.memory_length.
  - exact Hoff.
  - exact sample_initial.
  - by apply (sample_reach 14).
Defined.

Lemma agent_readiness_witness :
  ∃ a os, SampleRun.go (take 6 SampleRun.acts) = Some (a, os) ∧
    closeReaderOnce (a_loader a) = bool_decide (a_signal a = ReaderClosed).
Proof.
  assert (Hok : bool_decide (is_Some (SampleRun.go (take 6 SampleRun.acts))) = true)
    by (vm_compute; reflexivity).
  destruct (SampleRun.go (take 6 SampleRun.acts)) as [[a os]|] eqn:E;
    [clear Hok|discriminate Hok].
  exists a, os. split; [reflexivity|]. destruct sample_relo as [off Hoff].
  apply (agent_readiness BpfProgram.Sample.memory BpfProgram.Sample.relo (λ _, None) (λ _, None)
    (λ _, None) None SampleRun.deviceMap 4 BpfProgram.Sample.devs BpfProgram.Sample.tbl 2 off
    (λ _, Response 200 "") "0.0.0.0:8080" SampleRun.start a os 0).
  - exact BpfProgram.Sample.memory_length.
  - exact Hoff.
  - exact sample_initial.
  - by apply (sample_reach 6).
Defined.

Lemma agent_shutdown_witness :
  ∃ a os, SampleRun.go (take 9 SampleRun.acts) = Some (a, os) ∧ (remaining a ≤ 3 * 4 + 11)%nat.
Proof.
  assert (Hok : match SampleRun.go (take 9 SampleRun.acts) with
                | Some (a, _) => reader_closed (λ _, None) (a_loader a)
                | None => false
                end = true) by (vm_compute; reflexivity).
  destruct (SampleRun.go (take 9 SampleRun.acts)) as [[a os]|] eqn:E; [|discriminate Hok].
  exists a, os. split; [reflexivity|]. destruct sample_relo as [off Hoff].
  apply (agent_shutdown BpfProgram.Sample.memory BpfProgram.Sample.relo (λ _, None) (λ _, None)
    (λ _, None) None SampleRun.deviceMap 4 BpfProgram.Sample.devs BpfProgram.Sample.tbl 2 off
    SampleRun.start a os (PodMap.Sample.at_time 7)).
  - exact BpfProgram.Sample.memory_length.
  - exact Hoff.
  - exact sample_initial.
  - by apply (sample_reach 9).
  - exact Hok.
Defined.
