(* ===== verification/Fairness.v ===== *)
(** * Weakly fair executions

    Infinite executions of a deterministic labelled step function, as functions
    of time, with the actions divided among components. An action takes the
    [turn] of a component, and a component is enabled when it has an action of
    its own ([component]): an action whose outcome the environment chooses, such
    as a call that fails, takes the turn of the component that makes it but is
    none it could rely on. A component is treated fairly when it has a turn
    again and again or is disabled again and again. The rule [fair_progress]
    concludes that something happens from a measure that only one component
    at a time has to decrease. *)

From S2P Require Import Prelude.

Section Fairness.

Context {S A C : Type} `{!EqDecision C}.

(** [step act s]: the state after [act], when it is enabled in [s];
    [turn act]: who makes the step; [component act]: who can rely on it. *)
Variable step : A → S → option S.
Variables turn component : A → option C.

Record execution : Type := Execution {
  state_at : nat → S;
  action_at : nat → option A;   (** [None]: nothing happens at this time *)
}.

Definition valid (x : execution) : Prop :=
  ∀ n, match action_at x n with
       | Some act => step act (state_at x n) = Some (state_at x (Datatypes.S n))
       | None => state_at x (Datatypes.S n) = state_at x n
       end.

Definition acts_at (c : C) (x : execution) (n : nat) : Prop :=
  ∃ act, action_at x n = Some act ∧ turn act = Some c.

Definition enabled (c : C) (s : S) : Prop :=
  ∃ act, component act = Some c ∧ is_Some (step act s).

(** From any time on, [c] has a turn at some time or is disabled at some time. *)
Definition fair (c : C) (x : execution) : Prop :=
  ∀ n, ∃ m, (n ≤ m)%nat ∧ (acts_at c x m ∨ ¬ enabled c (state_at x m)).

(** What every step preserves holds from the time it first holds. *)
Lemma valid_invariant (I : S → Prop) x n m :
  valid x → (∀ act s s', I s → step act s = Some s' → I s') →
  (n ≤ m)%nat → I (state_at x n) → I (state_at x m).
Proof.
  intros Hv HI Hnm Hn. induction Hnm as [|m _ IH]; [done|].
  specialize (Hv m). destruct (action_at x m) as [act|]; [by eapply HI|by rewrite Hv].
Qed.

(** While [P] holds, which only steps of [c] can end: [c] acts, or is disabled,
    at a time at which [P] still holds. *)
Lemma fair_first (P : S → Prop) c x n :
  valid x → fair c x → P (state_at x n) →
  (∀ act s s', P s → step act s = Some s' → turn act ≠ Some c → P s') →
  ∃ m, (n ≤ m)%nat ∧ P (state_at x m) ∧ (acts_at c x m ∨ ¬ enabled c (state_at x m)).
Proof.
  intros Hv Hf Hn HP. destruct (Hf n) as (m & Hnm & Hm).
  assert (H : (∃ k, (n ≤ k)%nat ∧ P (state_at x k) ∧ acts_at c x k) ∨ P (state_at x m)).
  { clear Hm. induction Hnm as [|m Hnm [?|IH]]; [by right|by left|].
    specialize (Hv m). destruct (action_at x m) as [act|] eqn:Ea; [|right; by rewrite Hv].
    destruct (decide (turn act = Some c)) as [Hc|Hc]; [|right; by eapply HP].
    left. exists m. split_and!; [done|done|by exists act]. }
  destruct H as [(k & Hk & HPk & Hc)|HPm].
  - exists k. split_and!; [done|done|by left].
  - by exists m.
Qed.

(** If moreover [P] enables [c], then [c] acts. *)
Lemma fair_acts (P : S → Prop) c x n :
  valid x → fair c x → P (state_at x n) →
  (∀ s, P s → enabled c s) →
  (∀ act s s', P s → step act s = Some s' → turn act ≠ Some c → P s') →
  ∃ m act, (n ≤ m)%nat ∧ P (state_at x m) ∧ action_at x m = Some act ∧ turn act = Some c ∧
           step act (state_at x m) = Some (state_at x (Datatypes.S m)).
Proof.
  intros Hv Hf Hn Hen HP.
  destruct (fair_first P c x n Hv Hf Hn HP) as (m & Hm & HPm & [(act & Ha & Hc)|Hno]).
  - exists m, act. specialize (Hv m). rewrite Ha in Hv. done.
  - by destruct Hno; apply Hen.
Qed.

(** *** Finite executions, followed by silence *)

Fixpoint steps (acts : list A) (s : S) : option S :=
  match acts with
  | [] => Some s
  | act :: acts => s' ← step act s; steps acts s'
  end.

Lemma steps_app acts acts' s : steps (acts ++ acts') s = s' ← steps acts s; steps acts' s'.
Proof.
  revert s. induction acts as [|act acts IH]; intros s; [done|]. cbn [app steps].
  destruct (step act s); [|done]. opt_cbn. apply IH.
Qed.

Definition execution_of (acts : list A) (s : S) : execution :=
  Execution (λ n, default s (steps (take n acts) s)) (λ n, acts !! n).

Lemma execution_of_valid acts s : is_Some (steps acts s) → valid (execution_of acts s).
Proof.
  intros Hs n. cbn [execution_of action_at state_at].
  destruct (acts !! n) as [act|] eqn:Ea.
  - rewrite (take_S_r _ _ _ Ea), steps_app.
    rewrite <- (take_drop n acts), steps_app, (drop_S _ _ _ Ea) in Hs.
    destruct (steps (take n acts) s) as [s1|]; [|by destruct Hs]. cbn in *.
    destruct (step act s1) as [s2|]; [done|by destruct Hs].
  - apply lookup_ge_None in Ea. by rewrite !take_ge by lia.
Qed.

Lemma execution_of_end acts s s' n :
  steps acts s = Some s' → (length acts ≤ n)%nat → state_at (execution_of acts s) n = s'.
Proof. intros Hs Hn. cbn. by rewrite take_ge, Hs. Qed.

(** A component that is disabled in the end has been treated fairly. *)
Lemma execution_of_fair acts s s' c :
  steps acts s = Some s' → ¬ enabled c s' → fair c (execution_of acts s).
Proof.
  intros Hs Hno n. exists (n `max` length acts)%nat. split; [lia|]. right.
  by rewrite (execution_of_end _ _ _ _ Hs) by lia.
Qed.

Section Progress.

(** In states of [I] in which [Q] does not hold yet, the component [helper s]
    is enabled; its steps decrease [measure]; other steps do not increase it,
    and leave the helper alone when they leave the measure alone. *)
Variables I Q : S → Prop.
Variable measure : S → nat.
Variable helper : S → C.

Hypothesis I_step : ∀ act s s', I s → step act s = Some s' → I s'.
Hypothesis helper_enabled : ∀ s, I s → Q s ∨ enabled (helper s) s.
Hypothesis progress : ∀ act s s', I s → step act s = Some s' →
  Q s ∨ (measure s' < measure s)%nat ∨
  (measure s' = measure s ∧ helper s' = helper s ∧ turn act ≠ Some (helper s)).

(** Up to time [m], either [Q] or a decrease has happened, or the helper is
    still the same and has not acted. *)
Lemma wait x n m :
  valid x → I (state_at x n) → (n ≤ m)%nat →
  (∃ k, (n ≤ k ≤ m)%nat ∧
        (Q (state_at x k) ∨ (measure (state_at x k) < measure (state_at x n))%nat)) ∨
  (measure (state_at x m) = measure (state_at x n) ∧
   helper (state_at x m) = helper (state_at x n)).
Proof.
  intros Hv Hn Hnm. induction Hnm as [|m Hnm IH]; [by right|].
  destruct IH as [(k & Hk & H)|[Em Eh]]; [left; exists k; split; [lia|done]|].
  assert (Hm : I (state_at x m)) by (by eapply (valid_invariant I x n)).
  pose proof (Hv m) as Hs. destruct (action_at x m) as [act|].
  2: { right. by rewrite Hs. }
  destruct (progress _ _ _ Hm Hs) as [HQ|[Hlt|(Em' & Eh' & _)]].
  - left. exists m. split; [lia|by left].
  - left. exists (Datatypes.S m). split; [lia|right; lia].
  - right. split; congruence.
Qed.

Theorem fair_progress x n :
  valid x → (∀ s, fair (helper s) x) → I (state_at x n) → ∃ m, (n ≤ m)%nat ∧ Q (state_at x m).
Proof.
  intros Hv Hf. remember (measure (state_at x n)) as k eqn:Ek. revert n Ek.
  induction (lt_wf k) as [k _ IH]. intros n -> Hn.
  destruct (Hf (state_at x n) n) as (m & Hnm & Hm).
  assert (Hstep : ∀ j, (n ≤ j)%nat → (measure (state_at x j) < measure (state_at x n))%nat →
    ∃ m, (n ≤ m)%nat ∧ Q (state_at x m)).
  { intros j Hj Hlt. destruct (IH _ Hlt j eq_refl) as (i & Hi & HQ).
    - by eapply (valid_invariant I x n).
    - exists i. split; [lia|done]. }
  destruct (wait x n m Hv Hn Hnm) as [(j & Hj & [HQ|Hlt])|[Em Eh]].
  - exists j. split; [lia|done].
  - apply (Hstep j); [lia|done].
  - assert (HI : I (state_at x m)) by (by eapply (valid_invariant I x n)).
    destruct (helper_enabled _ HI) as [HQ|Hen]; [by exists m|].
    rewrite <- Eh in Hm. destruct Hm as [(act & Ha & Hc)|Hno]; [|done].
    pose proof (Hv m) as Hs. rewrite Ha in Hs.
    destruct (progress _ _ _ HI Hs) as [HQ|[Hlt|(_ & _ & Hne)]]; [by exists m| |done].
    apply (Hstep (Datatypes.S m)); lia.
Qed.

End Progress.

(** Again and again there is a time after which the first turn of [c], if it has
    one, is an action of its own: what fails does not fail for ever. *)
Definition recovers (c : C) (x : execution) : Prop :=
  ∀ n, ∃ m, (n ≤ m)%nat ∧ ∀ k act, (m ≤ k)%nat →
    action_at x k = Some act → turn act = Some c →
    (∀ j, (m ≤ j < k)%nat → ¬ acts_at c x j) → component act = Some c.

#[export] Instance acts_at_dec c x n : Decision (acts_at c x n).
Proof.
  destruct (action_at x n) as [act|] eqn:Ea.
  - destruct (decide (turn act = Some c)) as [Ht|Ht].
    + left. by exists act.
    + right. intros (act' & Ha & Ht'). congruence.
  - right. intros (act' & Ha & _). congruence.
Defined.

(** The first turn in an interval that has one. *)
Lemma first_turn c x m k :
  (m ≤ k)%nat → acts_at c x k →
  ∃ i, (m ≤ i ≤ k)%nat ∧ acts_at c x i ∧ ∀ j, (m ≤ j < i)%nat → ¬ acts_at c x j.
Proof.
  intros Hmk. remember (k - m)%nat as d eqn:Ed. revert m Hmk Ed.
  induction d as [|d IH]; intros m Hmk Ed Hk.
  - exists k. split_and!; [lia|lia|done|]. lia.
  - destruct (decide (acts_at c x m)) as [Hm|Hm].
    + exists m. split_and!; [lia|lia|done|]. lia.
    + destruct (IH (Datatypes.S m)) as (i & Hi & Hai & Hno); [lia|lia|done|].
      exists i. split_and!; [lia|lia|done|]. intros j Hj.
      destruct (decide (j = m)) as [->|]; [done|]. apply Hno. lia.
Qed.

End Fairness.

(** Fair turns that are not wasted for ever are fair actions. *)
Lemma recovers_fair {S A C} `{!EqDecision C} (step : A → S → option S)
    (turn component : A → option C) c (x : execution (S:=S) (A:=A)) :
  fair step turn component c x → recovers turn component c x → fair step component component c x.
Proof.
  intros Hf Hr n. destruct (Hr n) as (m & Hnm & Hrec). destruct (Hf m) as (k & Hmk & [Hk|Hk]).
  - destruct (first_turn turn c x m k Hmk Hk) as (i & Hi & (act & Ha & Ht) & Hno).
    exists i. split; [lia|left]. exists act. split; [done|]. by apply (Hrec i act); [lia|..].
  - exists k. split; [lia|by right].
Qed.

(** From a time on at which no turn is wasted any more. *)
Lemma settled_fair {S A C} `{!EqDecision C} (step : A → S → option S)
    (turn component : A → option C) c (x : execution (S:=S) (A:=A)) m :
  (∀ k act, (m ≤ k)%nat → action_at x k = Some act → turn act = Some c → component act = Some c) →
  fair step turn component c x → fair step component component c x.
Proof.
  intros Hm Hf. eapply recovers_fair; [exact Hf|]. intros n. exists (n `max` m)%nat.
  split; [lia|]. intros k act Hk Ha Ht _. apply (Hm k); [lia|done..].
Qed.
