(* ===== verification/Liveness.v ===== *)
(** * The agent makes progress

    [Agent] says what the agent's goroutines may do; here they do it. An
    execution of the agent is infinite in time, its goroutines are scheduled
    fairly ([Fairness]), and the kernel, signals and read errors come as they
    please. A failing read takes a turn of [main]; that reads do not fail for
    ever is a hypothesis of its own where it is needed ([recovers]). The theorems:
    every event that enters the queue is settled, and a signal leads to the
    return of [main] with everything settled, unless closing the ring buffer's
    reader fails. Here a method
    of the collector is one step; [Scheduling] derives the same of the goroutines
    that share its mutex with scrapes. *)

From S2P Require Import Prelude.
From S2P Require Import BpfProgram.
From S2P Require Import Kernel.
From S2P Require Import Loader.
From S2P Require Import PodMap.
From S2P Require Import Metrics.
From S2P Require Import Setup.
From S2P Require Import Fairness.
From S2P Require Import Agent.

Section Liveness.

Context {H R P link reader St Env W : Type}.
Context `{!BpfHash H, !BpfRingbuf R, !BpfPercpu P, !Resolver St Env}.
Context `{!BpfRingbufOk R, !BpfPercpuOk P}.
Context (kernel_bytes : Z → Z → bytes) (relo : string → string → option (Z * Z)).
Context (link_Close : link → option error) (reader_Close : reader → option error).
Context (obj_Close : string → option error) (podmap_Close : option error).
Context (deviceMap : gmap deviceNode deviceMeta) (queueSize : nat).
Context (devs tbl : gmap (Z * Z) Z) (ncpus : nat).

Abbreviation agent := (agent H R P link reader St W).
Abbreviation step := (do_step (W:=W) kernel_bytes relo link_Close reader_Close obj_Close
  podmap_Close deviceMap queueSize).
Abbreviation reaches := (reach (W:=W) kernel_bytes relo link_Close reader_Close obj_Close
  podmap_Close deviceMap queueSize devs tbl ncpus).

(** The agent with what it has done so far. *)
Definition history : Type := agent * list observation.

Definition history_step (act : action Env) (h : history) : option history :=
  if bool_decide (wf_action ncpus act) then
    a' ← step act h.1;
    Some (a', h.2 ++ observe kernel_bytes relo queueSize devs tbl act h.1)
  else None.

(** An execution of the agent from [a0]. *)
Record agent_run (a0 : agent) (x : execution (S:=history) (A:=action Env)) : Prop := {
  run_start : state_at x 0 = (a0, []);
  run_valid : valid history_step x;
}.

Lemma history_step_Some act h h' :
  history_step act h = Some h' →
  wf_action ncpus act ∧ step act h.1 = Some h'.1 ∧
  h'.2 = h.2 ++ observe kernel_bytes relo queueSize devs tbl act h.1.
Proof.
  unfold history_step. case_bool_decide; [|done].
  destruct (step act h.1) as [a'|]; [|done]. opt_cbn. by intros [= <-].
Qed.

Lemma history_enabled act h a' :
  wf_action ncpus act → step act h.1 = Some a' → is_Some (history_step act h).
Proof.
  intros Hw Hs. unfold history_step. rewrite bool_decide_eq_true_2, Hs by done. by eexists.
Qed.

Lemma reaches_step a0 act h h' :
  reaches a0 h.1 h.2 → history_step act h = Some h' → reaches a0 h'.1 h'.2.
Proof.
  intros Hr (Hw & Hs & ->)%history_step_Some. by eapply reach_step.
Qed.

Lemma run_reaches a0 x n : agent_run a0 x → reaches a0 (state_at x n).1 (state_at x n).2.
Proof.
  intros [H0 Hv].
  apply (valid_invariant history_step (λ h, reaches a0 h.1 h.2) x 0 n Hv); [|lia|].
  - intros act s s'. apply reaches_step.
  - rewrite H0. constructor.
Qed.

(** Only the worker receives and settles. *)
Lemma observe_quiet (act : action Env) (a : agent) :
  component act ≠ Some ThWorker →
  took (observe kernel_bytes relo queueSize devs tbl act a) = [] ∧
  settled (observe kernel_bytes relo queueSize devs tbl act a) = [].
Proof.
  intros Hc.
  destruct act as [x filp cmd arg| |err| | | | |env| | | |err| | | |]; try done; cbn [observe].
  - destruct (tracked _ _ _ _) as [[[? ?] ?]|]; [|done]. by destruct (ring_reserve _ _).
  - destruct (ring_read _) as [[raw r]|]; [|done]. by destruct (ReadEvent (Ok raw)).
  - by destruct (ReadEvent (Err err)).
  - destruct (a_main a); try done. by case_bool_decide.
  - by destruct (a_main a).
Qed.

(** Only a successful read pulls. *)
Lemma observe_pulled (act : action Env) (a : agent) :
  act ≠ Read → pulled (observe kernel_bytes relo queueSize devs tbl act a) = [].
Proof.
  intros Hc.
  destruct act as [x filp cmd arg| |err| | | | |env| | | |err| | | |]; try done; cbn [observe].
  - destruct (tracked _ _ _ _) as [[[? ?] ?]|]; [|done]. by destruct (ring_reserve _ _).
  - unfold ReadEvent. by destruct (errors_Is _ _).
  - destruct (a_main a); try done. by case_bool_decide.
  - by destruct (a_main a).
  - by destruct (a_queue a).
  - by destruct (a_worker a).
Qed.

(** *** Every queued event is settled *)

Section Queue.

(** How many events have to be settled. *)
Variable goal : nat.

Definition queue_ok (h : history) : Prop :=
  queue_inv queueSize h.1 h.2 ∧ control_inv h.1 ∧ (goal ≤ length (queued h.2))%nat.

Definition settled_enough (h : history) : Prop := (goal ≤ length (settled h.2))%nat.

(** Each event that is missing takes three steps, less those the worker has made
    with the one in hand. *)
Definition queue_measure (h : history) : nat :=
  3 * (goal - length (settled h.2)) -
  match a_worker h.1 with Idle => 0 | Received _ => 1 | Judged _ _ => 2 end.

Lemma queue_ok_step act h h' : queue_ok h → history_step act h = Some h' → queue_ok h'.
Proof.
  intros (Q & C & Hg) (Hw & Hs & Eos)%history_step_Some. split_and!.
  - rewrite Eos. by eapply step_queue.
  - by eapply step_control.
  - rewrite Eos. unfold queued in *. rewrite omap_app, length_app. lia.
Qed.

Lemma queue_helper_enabled (env : Env) h :
  queue_ok h → settled_enough h ∨ enabled history_step component ThWorker h.
Proof.
  intros ([Q1 Q2 _ _ _] & C & Hg). unfold settled_enough, a_handling in *.
  destruct (decide (goal ≤ length (settled h.2))%nat) as [|Hlt]; [by left|right].
  rewrite Q1, Q2 in Hg.
  destruct (worker_enabled kernel_bytes relo link_Close reader_Close obj_Close podmap_Close
    deviceMap queueSize ncpus env h.1) as (act & a' & Hc & Hw & _ & Hs).
  - destruct (a_worker h.1); [|by left..]. right. intros Eq. rewrite Eq in Hg.
    rewrite !length_app, length_fmap in Hg. cbn in Hg. lia.
  - exists act. split; [done|]. by eapply history_enabled.
Qed.

Lemma queue_progress act h h' :
  queue_ok h → history_step act h = Some h' →
  settled_enough h ∨ (queue_measure h' < queue_measure h)%nat ∨
  (queue_measure h' = queue_measure h ∧ ThWorker = ThWorker ∧ component act ≠ Some ThWorker).
Proof.
  intros ([Q1 Q2 _ _ _] & _ & Hg) (_ & Hs & Eos)%history_step_Some.
  unfold settled_enough, queue_measure. rewrite Eos. unfold settled, a_handling in *.
  rewrite !omap_app, !length_app. fold (settled h.2) in *.
  apply (f_equal length) in Q1, Q2. rewrite length_app in Q1.
  rewrite length_app, length_fmap in Q2.
  destruct (decide (component act = Some ThWorker)) as [Hc|Hc].
  - rewrite do_step_rule in Hs.
    destruct Hs as [| | | | | |e q Hq Hw|env e v p He Hj|e v c log He Hv|Hm Hq Hw Hd| | | | | |];
      try discriminate Hc; cbn [observe].
    + rewrite Hw in *. rewrite Hq in *. cbn in *. lia.
    + rewrite He in *. cbn in *. lia.
    + rewrite He in *. cbn in *. lia.
    + left. rewrite Hq in Q1. rewrite Hw in Q2. cbn in *. lia.
  - right; right. destruct (observe_quiet act h.1 Hc) as [_ E2]. unfold settled in E2.
    rewrite E2, Nat.add_0_r. split_and!; [|done..].
    assert (Ew : a_worker h'.1 = a_worker h.1); [|by rewrite Ew].
    rewrite do_step_rule in Hs.
    destruct Hs as [|raw r _ _ _|err _ _ _| |e _| | | | | | | | | | |]; try done; try by destruct Hc.
    + by destruct (take_read_same (ReadEvent (Ok raw)) (with_loader (set_ring r (a_loader h.1)) h.1))
        as (_ & _ & _ & -> & _).
    + by destruct (take_read_same (ReadEvent (Err err)) h.1) as (_ & _ & _ & -> & _).
    + by destruct (offer_same queueSize e h.1) as (_ & _ & -> & _).
Qed.

End Queue.

(** *** A signal leads to the end *)

Section Exit.

Variable a0 : agent.

(** The signal goroutine has the next move until it has closed the reader. *)
Definition signal_ok (h : history) : Prop :=
  control_inv h.1 ∧ a_signal h.1 ≠ Waiting.

Definition signal_measure (h : history) : nat :=
  match a_signal h.1 with Waiting => 3 | NotReady => 2 | ServerDown => 1 | ReaderClosed => 0 end.

Lemma signal_step act h h' :
  signal_ok h → history_step act h = Some h' →
  signal_ok h' ∧
  (a_signal h.1 = ReaderClosed ∨ (signal_measure h' < signal_measure h)%nat ∨
   (signal_measure h' = signal_measure h ∧ ThSignal = ThSignal ∧
    component act ≠ Some ThSignal)).
Proof.
  intros [C Hw] (_ & Hs & _)%history_step_Some.
  assert (C' : control_inv h'.1) by (by eapply step_control).
  unfold signal_ok, signal_measure. rewrite do_step_rule in Hs.
  destruct Hs as [x filp cmd arg o ret _ Ho|raw r _ _ Hr|err _ _ _| |e _|e _|e q Hq Hh
    |env e v p He Hj|e v c log He Hv|_ Hq Hh Hd|Hsig|err Hsig|l err Hsig Hc|_ _|l err _ Hc|_]; try done;
    rewrite ?take_read_signal, ?offer_signal; cbn [a_signal with_loader with_signal] in *;
    rewrite ?Hsig;
    (split; [done|]); try (right; right; done); try (right; left; lia).
Qed.

Lemma signal_enabled h :
  signal_ok h → a_signal h.1 = ReaderClosed ∨ enabled history_step component ThSignal h.
Proof.
  intros [_ Hw]. destruct (a_signal h.1) eqn:Es; [done| | |by left]; right.
  - exists (ShutdownServer None). split; [done|].
    eapply history_enabled; [done|]. apply do_step_rule. by constructor.
  - destruct (CloseReader reader_Close (a_loader h.1)) as [l err] eqn:E.
    exists CloseRing. split; [done|].
    eapply history_enabled; [done|]. apply do_step_rule. by econstructor.
Qed.

(** Once the reader is closed, main and worker finish. *)
Definition closed_ok (h : history) : Prop :=
  control_inv h.1 ∧ reader_closed reader_Close (a_loader h.1) = true.

Lemma closed_step act h h' :
  closed_ok h → history_step act h = Some h' →
  closed_ok h' ∧
  (a_main h.1 = Returned ∨ (remaining h'.1 < remaining h.1)%nat ∨
   (remaining h'.1 = remaining h.1 ∧ shutdown_helper h'.1 = shutdown_helper h.1 ∧
    component act ≠ Some (shutdown_helper h.1))).
Proof.
  intros [C Hc] (_ & Hs & _)%history_step_Some.
  assert (C' : control_inv h'.1) by (by eapply step_control).
  pose proof (remaining_step _ _ _ _ _ _ _ _ _ _ _ C Hc Hs) as Hm. split.
  - split; [done|]. eapply closed_stays; [exact C|exact Hc|exact Hs].
  - destruct act; cbn [is_kernel_action] in Hm; try (right; left; exact Hm).
    destruct Hm as [Em Eh]. right; right. done.
Qed.

End Exit.

(** *** Every submitted event is read *)

Section Ring.

Context (off : Z).
Hypothesis kernel_bytes_length : ∀ a n, 0 ≤ n → Z.of_nat (length (kernel_bytes a n)) = n.
Hypothesis relo_rdev : relo "inode" "i_rdev" = Some (off, 4).

(** How many events have to be read. *)
Variable goal : nat.

Definition ring_ok (h : history) : Prop :=
  kernel_inv devs tbl ncpus h.1 h.2 ∧ control_inv h.1 ∧
  (goal ≤ length (submitted h.2))%nat.

Definition read_enough (h : history) : Prop :=
  (goal ≤ length (pulled h.2))%nat ∨ closeReaderOnce (a_loader h.1) = true.

Lemma ring_ok_step act h h' : ring_ok h → history_step act h = Some h' → ring_ok h'.
Proof.
  intros (K & C & Hg) (Hw & Hs & Eos)%history_step_Some. split_and!.
  - rewrite Eos. by eapply step_kernel.
  - by eapply step_control.
  - rewrite Eos. unfold submitted in *. rewrite omap_app, length_app. lia.
Qed.

Lemma ring_open h : ring_ok h → ¬ read_enough h → in_loop (a_main h.1) = true.
Proof.
  intros (_ & [_ C2 C3 _ _] & _) Hn. unfold read_enough in *.
  destruct (in_loop (a_main h.1)); [done|]. rewrite (C3 eq_refl), bool_decide_eq_true_2 in C2 by done.
  naive_solver.
Qed.

Lemma ring_read_next h :
  ring_ok h → (length (pulled h.2) < goal)%nat →
  ∃ e r, ring_read (st_events (bpfObjects (a_loader h.1))) = Some (event_bytes e, r) ∧
         ReadEvent (Ok (event_bytes e)) = Ok (event_view e).
Proof.
  intros ([_ _ (pending & R1 & R2 & R3) _] & _ & Hg) Hlt.
  apply (f_equal length) in R2. rewrite length_app, !length_fmap in R2.
  destruct pending as [|e pending]; [cbn in R2; lia|].
  destruct (ring_read_cons _ _ _ R1) as (r & Hr & _). apply Forall_cons in R3 as [We _].
  exists e, r. split; [done|].
  by rewrite <- (app_nil_r (event_bytes e)), (ReadEvent_event e [] We).
Qed.

Lemma ring_enabled h :
  ring_ok h → read_enough h ∨ enabled history_step component ThMain h.
Proof.
  intros Hok. destruct (decide (goal ≤ length (pulled h.2))%nat) as [|Hlt]; [by left; left|].
  destruct (closeReaderOnce (a_loader h.1)) eqn:Ec; [by left; right|right].
  destruct (ring_read_next h Hok ltac:(lia)) as (e & r & Hr & _).
  assert (Hin : in_loop (a_main h.1) = true).
  { apply ring_open; [done|]. unfold read_enough. rewrite Ec. intros [?|?]; [lia|done]. }
  destruct (a_main h.1) as [|e'|e'| | | |] eqn:Em; try discriminate Hin.
  - exists Read. split; [done|]. eapply history_enabled; [done|].
    cbn [do_step]. unfold can_read, reader_closed. by rewrite Em, Ec, Hr.
  - exists Offer. split; [done|]. eapply history_enabled; [done|]. cbn [do_step]. by rewrite Em.
  - exists Overflow. split; [done|]. eapply history_enabled; [done|]. cbn [do_step]. by rewrite Em.
Qed.

(** Each event that is missing takes three steps of [main]. *)
Definition ring_measure (h : history) : nat :=
  3 * (goal - length (pulled h.2)) +
  match a_main h.1 with Offering _ => 2 | Overflowing _ => 1 | _ => 0 end.

(** Only [main] moves [main]. *)
Lemma main_kept act (a a' : agent) :
  step act a = Some a' → closeReaderOnce (a_loader a) = false →
  component act ≠ Some ThMain → a_main a' = a_main a.
Proof.
  rewrite do_step_rule. intros Hs Hopen Hc.
  destruct Hs as [|raw r _ _ _|err Hm _ Herr| |e _| | | |e v c log _ _|Hm _ _ _| | | | | |]; try done;
    try by destruct Hc.
  unfold read_error in Herr. rewrite Hopen, orb_false_r in Herr. apply negb_true_iff in Herr.
  unfold ReadEvent. rewrite Herr. cbn [take_read]. by rewrite errors_Is_wrap, Herr.
Qed.

Lemma ring_progress act h h' :
  ring_ok h → history_step act h = Some h' →
  read_enough h ∨ (ring_measure h' < ring_measure h)%nat ∨
  (ring_measure h' = ring_measure h ∧ ThMain = ThMain ∧ component act ≠ Some ThMain).
Proof.
  intros Hok (_ & Hs & Eos)%history_step_Some.
  destruct (decide (goal ≤ length (pulled h.2))%nat) as [|Hlt]; [by left; left|].
  destruct (closeReaderOnce (a_loader h.1)) eqn:Ec; [by left; right|right].
  destruct (ring_read_next h Hok ltac:(lia)) as (e & r & Hr & He).
  assert (El : length (pulled h'.2) = (length (pulled h.2) + length (pulled
    (observe kernel_bytes relo queueSize devs tbl act h.1)))%nat).
  { rewrite Eos. unfold pulled. by rewrite omap_app, length_app. }
  unfold ring_measure. rewrite El.
  assert (Hin : in_loop (a_main h.1) = true).
  { apply ring_open; [done|]. unfold read_enough. rewrite Ec. intros [?|?]; [lia|done]. }
  assert (main_after : ∀ m (o : option agent) a', (if bool_decide (a_main h.1 = m) then o else None) = Some a' →
    a_main h.1 = m) by (intros m o a'; by case_bool_decide).
  destruct (decide (component act = Some ThMain)) as [Hc|Hc].
  - left. destruct act as [| | | | | | | | | | | | | | |]; try discriminate Hc; cbn [do_step] in Hs.
    + unfold can_read, reader_closed in Hs. rewrite Hr, He in Hs.
      destruct (bool_decide _) eqn:Em in Hs; [|done]. apply bool_decide_eq_true in Em.
      rewrite Ec in Hs. cbn in Hs. injection Hs as <-. cbn [observe]. rewrite Hr, He, Em.
      cbn. lia.
    + unfold reader_closed in Hs. by rewrite Ec, andb_false_r in Hs.
    + destruct (a_main h.1) as [|e'|e'| | | |] eqn:Em; try discriminate Hs. injection Hs as <-.
      cbn [observe]. rewrite Em. unfold offer. case_bool_decide; cbn; lia.
    + destruct (a_main h.1) as [|e'|e'| | | |] eqn:Em; try discriminate Hs. injection Hs as <-.
      cbn [observe]. rewrite Em. cbn. lia.
    + destruct (a_main h.1) eqn:Em; discriminate Hs || discriminate Hin.
    + apply main_after in Hs. by rewrite Hs in Hin.
    + apply main_after in Hs. by rewrite Hs in Hin.
  - right. rewrite (main_kept act h.1 h'.1) by done. rewrite (observe_pulled act) by (by intros ->).
    cbn [length]. rewrite Nat.add_0_r. done.
Qed.

End Ring.

(** *** Prefixes *)

Lemma prefix_of_length {A} (l1 l2 l : list A) :
  l1 `prefix_of` l → l2 `prefix_of` l → (length l1 ≤ length l2)%nat → l1 `prefix_of` l2.
Proof.
  intros H1 H2 Hl. destruct (prefix_weak_total l1 l2 l H1 H2) as [|H21]; [done|].
  apply prefix_length_eq in H21 as ->; [done|lia].
Qed.

(** What has been observed stays observed. *)
Lemma run_prefix {B} (f : observation → option B) a0 x n m :
  agent_run a0 x → (n ≤ m)%nat →
  omap f (state_at x n).2 `prefix_of` omap f (state_at x m).2.
Proof.
  intros [_ Hv] Hnm.
  apply (valid_invariant history_step
    (λ h, omap f (state_at x n).2 `prefix_of` omap f h.2) x n m Hv); [|done|done].
  intros act h h' Hp (_ & _ & ->)%history_step_Some. rewrite omap_app.
  etransitivity; [exact Hp|]. by eexists.
Qed.

(** *** Finite runs as executions *)

(** A process that has returned does nothing more. *)
Lemma returned_disabled h t :
  control_inv h.1 → a_main h.1 = Returned → ¬ enabled history_step component t h.
Proof.
  intros [C1 C2 C3 C4 C5] Hret (act & Hc & h' & (_ & Hs & _)%history_step_Some).
  destruct (C4 (C5 ltac:(by rewrite Hret))) as (_ & Hq & Hh). rewrite do_step_rule in Hs.
  assert (Hsig : a_signal h.1 = ReaderClosed) by (apply C3; by rewrite Hret).
  destruct Hs; try done; congruence.
Qed.

Abbreviation run_from := (run (W:=W) kernel_bytes relo link_Close reader_Close obj_Close
  podmap_Close deviceMap queueSize devs tbl).

Lemma steps_run acts a os :
  Forall (wf_action ncpus) acts → steps history_step acts (a, os) = run_from acts a os.
Proof.
  revert a os. induction acts as [|act acts IH]; intros a os; [done|].
  intros [Hw Hws]%Forall_cons. cbn [steps run].
  assert (E : history_step act (a, os) =
    a' ← step act a; Some (a', os ++ observe kernel_bytes relo queueSize devs tbl act a)).
  { unfold history_step. by rewrite bool_decide_eq_true_2. }
  rewrite E. destruct (step act a); [|done]. opt_cbn. by apply IH.
Qed.

(** The run of some actions, and nothing after it. *)
Definition run_of (acts : list (action Env)) (a0 : agent) :
    execution (S:=history) (A:=action Env) :=
  execution_of history_step acts (a0, []).

Lemma run_of_run acts a0 :
  Forall (wf_action ncpus) acts → is_Some (run_from acts a0 []) → agent_run a0 (run_of acts a0).
Proof.
  intros Hw Hs. split; [done|]. apply execution_of_valid. by rewrite steps_run.
Qed.

(** A run that has returned is fair. *)
Lemma run_of_fair acts a0 a os t :
  Forall (wf_action ncpus) acts → run_from acts a0 [] = Some (a, os) → control_inv a →
  a_main a = Returned → fair history_step turn component t (run_of acts a0).
Proof.
  intros Hw Hr Hc Hret. apply execution_of_fair with (a, os); [by rewrite steps_run|].
  by apply returned_disabled.
Qed.

Lemma run_invariants off a0 x :
  (∀ a n, 0 ≤ n → Z.of_nat (length (kernel_bytes a n)) = n) →
  relo "inode" "i_rdev" = Some (off, 4) →
  initial devs tbl ncpus a0 → agent_run a0 x →
  ∀ n, invariants queueSize devs tbl ncpus a0 (state_at x n).1 (state_at x n).2.
Proof.
  intros Hk Hrelo I0 Hx n. eapply reach_invariants; [done..|by apply run_reaches].
Qed.

Lemma run_rb a0 x n : agent_run a0 x → rb (a_loader (state_at x n).1) = rb (a_loader a0).
Proof.
  intros [H0 Hv].
  apply (valid_invariant history_step (λ h, rb (a_loader h.1) = rb (a_loader a0)) x 0 n Hv); [|lia|].
  - intros act h h' E (_ & Hs & _)%history_step_Some. rewrite <- E. by eapply step_rb.
  - by rewrite H0.
Qed.

(** *** Whose turn it is *)

(** Only [main] can waste a turn. *)
Lemma turn_component t (act : action Env) : t ≠ ThMain → turn act = Some t → component act = Some t.
Proof. destruct act; cbn; congruence. Qed.

Lemma other_fair t x :
  t ≠ ThMain → fair history_step turn component t x → fair history_step component component t x.
Proof.
  intros Ht. apply (settled_fair history_step turn component t x 0).
  intros k act _ _. by apply turn_component.
Qed.

(** Once the reader is closed, reads do not fail any more. *)
Lemma closed_fair x n t :
  valid history_step x → closed_ok (state_at x n) →
  fair history_step turn component t x → fair history_step component component t x.
Proof.
  intros Hv Hn. apply (settled_fair history_step turn component t x n).
  intros k act Hk Ha Ht.
  assert (Hok : closed_ok (state_at x k)).
  { apply (valid_invariant history_step closed_ok x n k Hv); [|done|done].
    intros. by eapply closed_step. }
  destruct act; try exact Ht. specialize (Hv k). rewrite Ha in Hv.
  apply history_step_Some in Hv as (_ & Hs & _). cbn [do_step] in Hs. unfold can_read in Hs.
  destruct Hok as [_ Hcl]. by rewrite Hcl, andb_false_r in Hs.
Qed.

(** ** Properties *)

(** Every event is handled in the end: in an execution in which main loop
    and worker get their turns, what the kernel has submitted by some time is
    read, in order, unless a shutdown closes the reader first, when reads do not
    fail for ever, and what has been queued by some time is settled, in order,
    whatever the reads do, shutdown or not. *)
Theorem events_are_handled (env : Env) off a0 x n :
  (∀ a n, 0 ≤ n → Z.of_nat (length (kernel_bytes a n)) = n) →
  relo "inode" "i_rdev" = Some (off, 4) →
  initial devs tbl ncpus a0 → agent_run a0 x →
  fair history_step turn component ThMain x → fair history_step turn component ThWorker x →
  (recovers turn component ThMain x →
   ∃ m, (n ≤ m)%nat ∧
     ((event_view <$> submitted (state_at x n).2) `prefix_of` pulled (state_at x m).2 ∨
      closeReaderOnce (a_loader (state_at x m).1) = true)) ∧
  (∃ m, (n ≤ m)%nat ∧ queued (state_at x n).2 `prefix_of` (settled (state_at x m).2).*1).
Proof.
  intros Hk Hrelo I0 Hx Hmain Hworker.
  pose proof (run_invariants off a0 x Hk Hrelo I0 Hx) as Hinv.
  apply other_fair in Hworker; [|done]. split.
  - intros Hrec. apply (recovers_fair _ _ _ _ _ Hmain) in Hrec.
    destruct (fair_progress history_step component component
      (ring_ok (length (submitted (state_at x n).2)))
      (read_enough (length (submitted (state_at x n).2)))
      (ring_measure (length (submitted (state_at x n).2))) (λ _, ThMain))
      with (x := x) (n := n) as (m & Hm & Hread).
    + intros. by eapply ring_ok_step.
    + intros. by apply ring_enabled.
    + intros. by eapply ring_progress.
    + by eapply run_valid.
    + done.
    + destruct (Hinv n). done.
    + exists m. split; [done|]. destruct Hread as [Hlen|Hc]; [left|by right].
      destruct (Hinv m) as [_ _ [_ _ (pending & _ & R2 & _) _] _].
      apply (prefix_of_length _ _ (event_view <$> submitted (state_at x m).2)).
      * destruct (run_prefix (λ o, match o with Submitted e => Some e | _ => None end) a0 x n m Hx
          Hm) as [l El]. unfold submitted. rewrite El, fmap_app. by eexists.
      * rewrite R2. by eexists.
      * by rewrite length_fmap.
  - destruct (fair_progress history_step component component
      (queue_ok (length (queued (state_at x n).2)))
      (settled_enough (length (queued (state_at x n).2)))
      (queue_measure (length (queued (state_at x n).2))) (λ _, ThWorker))
      with (x := x) (n := n) as (m & Hm & Hset).
    + intros. by eapply queue_ok_step.
    + intros. by apply queue_helper_enabled.
    + intros. by eapply queue_progress.
    + by eapply run_valid.
    + done.
    + destruct (Hinv n). done.
    + exists m. split; [done|]. destruct (Hinv m) as [_ [Q1 Q2 _ _ _] _ _].
      apply (prefix_of_length _ _ (queued (state_at x m).2)).
      * by apply (run_prefix (λ o, match o with Queued e => Some e | _ => None end) a0).
      * rewrite Q1, Q2, <- app_assoc. by eexists.
      * by rewrite length_fmap.
Qed.

(** A signal ends the process: in an execution in which every goroutine gets
    its turns, once a signal has been received [main] returns, and then every
    event that was queued has been settled and none is left over; it stays so —
    unless closing the reader fails. *)
Theorem signal_ends_process (env : Env) off a0 x n :
  (∀ a n, 0 ≤ n → Z.of_nat (length (kernel_bytes a n)) = n) →
  relo "inode" "i_rdev" = Some (off, 4) →
  initial devs tbl ncpus a0 → agent_run a0 x → (∀ t, fair history_step turn component t x) →
  a_signal (state_at x n).1 ≠ Waiting →
  (∃ m, (n ≤ m)%nat ∧ a_main (state_at x m).1 = Returned ∧
     (settled (state_at x m).2).*1 = queued (state_at x m).2 ∧
     a_queue (state_at x m).1 = [] ∧ a_worker (state_at x m).1 = Idle ∧
     ∀ k, (m ≤ k)%nat → a_main (state_at x k).1 = Returned) ∨
  ∃ rd err, rb (a_loader a0) = Some rd ∧ reader_Close rd = Some err.
Proof.
  intros Hk Hrelo I0 Hx Hfair Hsig.
  pose proof (run_invariants off a0 x Hk Hrelo I0 Hx) as Hinv.
  destruct (fair_progress history_step component component signal_ok
    (λ h, a_signal h.1 = ReaderClosed) signal_measure (λ _, ThSignal))
    with (x := x) (n := n) as (m1 & Hm1 & Hclosed).
  { intros. by eapply signal_step. }
  { intros. by apply signal_enabled. }
  { intros. by eapply signal_step. }
  { by eapply run_valid. }
  { intros _. by apply other_fair. }
  { destruct (Hinv n). done. }
  destruct (closed_or_failed reader_Close _ (invs_control _ _ _ _ _ _ _ (Hinv m1)) Hclosed)
    as [Hcl|Hfail]; [left|right; by rewrite <- (run_rb a0 x m1 Hx)].
  assert (Hok1 : closed_ok (state_at x m1)) by (split; [apply (Hinv m1)|done]).
  destruct (fair_progress history_step component component closed_ok
    (λ h, a_main h.1 = Returned) (λ h, remaining h.1) (λ h, shutdown_helper h.1))
    with (x := x) (n := m1) as (m & Hm & Hret).
  { intros. by eapply closed_step. }
  { intros h [C Hc]. destruct (decide (a_main h.1 = Returned)) as [|Hr]; [by left|right].
    destruct (shutdown_enabled kernel_bytes relo link_Close reader_Close obj_Close podmap_Close
      deviceMap queueSize ncpus env h.1 C Hc Hr) as (act & a' & Hcomp & Hw & _ & Hs).
    exists act. split; [done|]. by eapply history_enabled. }
  { intros. by eapply closed_step. }
  { by eapply run_valid. }
  { intros s. apply (closed_fair x m1); [by eapply run_valid|done|apply Hfair]. }
  { done. }
  destruct (Hinv m) as [_ Q _ C]. destruct (returned_settled _ _ _ Q C Hret) as (E1 & E2 & E3).
  exists m. split_and!; [lia|done..|]. intros k Hmk.
  apply (valid_invariant history_step (λ h, a_main h.1 = Returned) x m k); try done.
  - by eapply run_valid.
  - intros act h h' Hr (_ & Hs & _)%history_step_Some. rewrite do_step_rule in Hs.
    destruct Hs; cbn in *; congruence.
Qed.

End Liveness.

(** The sample run, followed by silence, is an execution like that. *)
Abbreviation sample_execution :=
  (run_of BpfProgram.Sample.memory BpfProgram.Sample.relo (λ _, None) (λ _, None) (λ _, None) None
     SampleRun.deviceMap 4 BpfProgram.Sample.devs BpfProgram.Sample.tbl 2 SampleRun.acts
     SampleRun.start).

Lemma sample_run_fair :
  ∃ a os, SampleRun.go SampleRun.acts = Some (a, os) ∧
    agent_run BpfProgram.Sample.memory BpfProgram.Sample.relo (λ _, None) (λ _, None) (λ _, None)
      None SampleRun.deviceMap 4 BpfProgram.Sample.devs BpfProgram.Sample.tbl 2 SampleRun.start
      sample_execution ∧
    ∀ t, fair (history_step BpfProgram.Sample.memory BpfProgram.Sample.relo (λ _, None) (λ _, None)
      (λ _, None) None SampleRun.deviceMap 4 BpfProgram.Sample.devs BpfProgram.Sample.tbl 2)
      turn component t sample_execution.
Proof.
  assert (Hok : bool_decide (is_Some (SampleRun.go SampleRun.acts)) = true)
    by (vm_compute; reflexivity).
  pose proof SampleRun.counted as Hc.
  destruct (SampleRun.go SampleRun.acts) as [[a os]|] eqn:E; [clear Hok|discriminate Hok].
  destruct Hc as (_ & Hret & _). exists a, os. split; [reflexivity|]. split.
  - apply run_of_run; [exact sample_acts|]. unfold SampleRun.go in E. rewrite E. by eexists.
  - intros t. apply (run_of_fair _ _ _ _ _ _ _ _ _ _ _ _ _ a os t sample_acts E); [|exact Hret].
    destruct sample_relo as [off Hoff].
    pose proof (sample_reach 14 a os E) as Hr.
    by destruct (reach_invariants _ _ _ _ _ _ _ _ _ _ _ _ BpfProgram.Sample.memory_length Hoff _ _ _
      sample_initial Hr) as [_ _ _ ?].
Qed.

Lemma events_are_handled_witness :
  ∃ m, (3 ≤ m)%nat ∧
    queued (state_at sample_execution 3).2 `prefix_of` (settled (state_at sample_execution m).2).*1.
Proof.
  destruct sample_run_fair as (a & os & _ & Hrun & Hfair). destruct sample_relo as [off Hoff].
  apply (events_are_handled BpfProgram.Sample.memory BpfProgram.Sample.relo (λ _, None) (λ _, None)
    (λ _, None) None SampleRun.deviceMap 4 BpfProgram.Sample.devs BpfProgram.Sample.tbl 2
    (PodMap.Sample.at_time 7) off SampleRun.start sample_execution 3).
  - exact BpfProgram.Sample.memory_length.
  - exact Hoff.
  - exact sample_initial.
  - exact Hrun.
  - apply Hfair.
  - apply Hfair.
Defined.

Lemma signal_ends_process_witness :
  ∃ m, (7 ≤ m)%nat ∧ a_main (state_at sample_execution m).1 = Returned.
Proof.
  destruct sample_run_fair as (a & os & _ & Hrun & Hfair). destruct sample_relo as [off Hoff].
  destruct (signal_ends_process BpfProgram.Sample.memory BpfProgram.Sample.relo (λ _, None)
    (λ _, None) (λ _, None) None SampleRun.deviceMap 4 BpfProgram.Sample.devs BpfProgram.Sample.tbl 2
    (PodMap.Sample.at_time 7) off SampleRun.start sample_execution 7) as [(m & Hm & Hret & _)|(rd & err & _ & [=])].
  - exact BpfProgram.Sample.memory_length.
  - exact Hoff.
  - exact sample_initial.
  - exact Hrun.
  - exact Hfair.
  - assert (Hs : bool_decide (a_signal (state_at sample_execution 7).1 = Waiting) = false)
      by (vm_compute; reflexivity).
    by apply bool_decide_eq_false in Hs.
  - by exists m.
Defined.
