(* ===== verification/System.v ===== *)
(** * The whole agent: from [drm_ioctl] to a labelled counter

    The pieces together: the agent [main] starts on a node's devices, its kernel
    program, reader, queue, worker and pod map. The theorems say which calls are
    counted, under which labels, and which events are not counted at all. *)

From S2P Require Import Prelude.
From S2P Require Import GoStrings.
From S2P Require Import CLayout.
From S2P Require Import Kernel.
From S2P Require Import BpfProgram.
From S2P Require Import Bytecode.
From S2P Require Import ObjectCode.
From S2P Require Import Hw.
From S2P Require Import Loader.
From S2P Require Import Discovery.
From S2P Require Import Cgroup.
From S2P Require Import PodMap.
From S2P Require Import Config.
From S2P Require Import Metrics.
From S2P Require Import Setup.
From S2P Require Import Agent.

Local Open Scope Z_scope.

(** The agent at the end of [main]'s setup: the threads are started on what it
    has built, with an empty channel. *)
Definition start_agent {H R P link reader conn} (r : running H R P link reader conn) :
    agent H R P link reader PodMap (world H R P) :=
  Agent (s_loader (r_setup r)) (s_collector (r_setup r)) (r_podmap r) [] Idle Reading false
    Waiting (r_ready r) [].

Definition queue_size (c : Config) : nat := Z.to_nat (QueueSize c).

(** The ring buffer and the drop counters of a freshly loaded program. *)
Definition fresh_objects {H R P} `{!BpfHash H, !BpfRingbuf R, !BpfPercpu P} (ncpus : nat)
    (o : bpf_state H R P) : Prop :=
  (∀ k, hash_lookup (st_devices o) k = None) ∧ (∀ k, hash_lookup (st_ioctls o) k = None) ∧
  ring_records (st_events o) = [] ∧
  ∃ vs, pcpu_values (st_dropped o) 0 = Some vs ∧ length vs = ncpus ∧
        wrap 64 (foldr Z.add 0 vs) = 0.

Section System.

Context {H R P link reader conn : Type}.
Context `{!BpfHash H, !BpfHashOk H, !BpfRingbuf R, !BpfRingbufOk R, !BpfPercpu P, !BpfPercpuOk P}.
Context (lookup_error : error) (range_kinds : list (Z * Z) → list (Z * Z)).
Context (h : host H R P link reader conn) (ds : list Device) (r : running H R P link reader conn).
Context (ncpus : nat).
Hypothesis range_kinds_perm : ∀ kinds, range_kinds kinds ≡ₚ kinds.
Hypothesis range_devices_perm : ∀ l, h_range_devices h l ≡ₚ l.
Hypothesis loads_fresh : ∀ opt o, h_loadBpfObjects h opt = Ok o → fresh_objects ncpus o.
Hypothesis Hstarted : started lookup_error range_kinds h ds r.

Abbreviation devs := (devs_of ds).
Abbreviation tbl := (tbl_of range_kinds ds).

Lemma start_initial : initial devs tbl ncpus (start_agent r).
Proof.
  destruct Hstarted as [_ _ _ S1 S2 _ _ _ (opt & objs & Eo & E1 & E2 & E3 & E4) _ _ Hr].
  destruct (loads_fresh opt objs Eo) as (_ & _ & F1 & F2).
  split; cbn; try done; by rewrite ?E1, ?E2.
Qed.

Lemma start_rebuilds : CgroupIndexRebuilds (a_podmap (start_agent r)) = 0.
Proof. by destruct Hstarted as [_ _ _ _ _ _ _ _ _ (_ & _ & _ & Hz) _ _]. Qed.

Lemma start_collector : a_collector (start_agent r) = run_ops (boot_ops lookup_error ds).
Proof. by destruct Hstarted. Qed.

Lemma discovered_wf d n : d ∈ ds → n ∈ Nodes d → wf_node n.
Proof.
  destruct Hstarted as [_ _ [logs Hd] _ _ _ _ _ _ _ _ _]. by eapply Discover_nodes.
Qed.

(** What the kernel's filter accepts, in terms of the devices. *)
Lemma tracked_devices rdev cmd major minor kind :
  distinct_nodes ds →
  tracked devs tbl rdev cmd = Some (major, minor, kind) ↔
  major = rdev / 2 ^ 20 ∧ minor = rdev `mod` 2 ^ 20 ∧
  ∃ d v n, d ∈ ds ∧ GetVendor registeredVendors d = Some v ∧ n ∈ Nodes d ∧
           node_key n = (major, minor) ∧ (cmd `mod` 2 ^ 8, kind) ∈ Ioctls v.
Proof.
  intros Hd. unfold tracked. split.
  - destruct (devs !! _) as [id|] eqn:Ed; [|done]. opt_cbn.
    destruct (tbl !! _) as [k|] eqn:Et; [|done]. opt_cbn. intros [= <- <- <-].
    apply (devs_of_lookup _ _ _ Hd) in Ed as (d & v & n & Hdv & Hn & Ek & ->).
    apply (tbl_of_lookup _ range_kinds_perm) in Et as (d' & v' & Hdv' & Ev & Hin).
    apply vendor_id_inj in Ev as <-; [|by eapply supported_vendor..].
    apply supported_elem in Hdv as [? ?]. split_and!; [done..|]. exists d, v, n. done.
  - intros (-> & -> & d & v & n & Hin & Hv & Hn & Ek & Hk).
    assert (Hdv : (d, v) ∈ supported ds) by by apply supported_elem.
    assert (devs !! (rdev / 2 ^ 20, rdev `mod` 2 ^ 20) = Some (vendor_id v)) as ->.
    { apply (devs_of_lookup _ _ _ Hd). by exists d, v, n. }
    opt_cbn.
    assert (tbl !! (vendor_id v, cmd `mod` 2 ^ 8) = Some kind) as ->; [|done].
    apply (tbl_of_lookup _ range_kinds_perm). by exists d, v.
Qed.

(** The labels of a node. *)
Lemma node_meta d v n :
  distinct_nodes ds → d ∈ ds → GetVendor registeredVendors d = Some v → n ∈ Nodes d →
  s_deviceMap (r_setup r) !! node_key n = Some (DeviceMeta (PciAddress d) (Name v)).
Proof.
  intros Hd Hin Hv Hn. destruct Hstarted as [_ _ _ _ _ -> _ _ _ _ _ _].
  apply (metas_of_lookup _ _ _ Hd). exists d, v, n. by rewrite supported_elem.
Qed.

(** The call [cmd] on the node [(major, minor)] is one the agent counts. *)
Definition counted_call (major minor cmd : Z) (d : Device) (v : Vendor) (kind : Z) : Prop :=
  d ∈ ds ∧ GetVendor registeredVendors d = Some v ∧
  (∃ n, n ∈ Nodes d ∧ node_key n = (major, minor)) ∧ (cmd `mod` 2 ^ 8, kind) ∈ Ioctls v.

(** The kernel's tables accept a call exactly when it is a counted one. *)
Lemma tracked_counted major minor cmd d v kind :
  distinct_nodes ds → 0 ≤ major < 2 ^ 12 → 0 ≤ minor < 2 ^ 20 →
  counted_call major minor cmd d v kind →
  tracked devs tbl (MKDEV major minor) cmd = Some (major, minor, kind).
Proof.
  intros Hd Hmaj Hmin (Hin & Hv & (n & Hn & En) & Hkind).
  destruct (MKDEV_split major minor Hmaj Hmin) as (_ & Ediv & Emod).
  apply (tracked_devices _ _ _ _ _ Hd). rewrite Ediv, Emod. split_and!; [done..|]. by exists d, v, n.
Qed.

Lemma tracked_uncounted major minor cmd :
  distinct_nodes ds → 0 ≤ major < 2 ^ 12 → 0 ≤ minor < 2 ^ 20 →
  (∀ d v kind, ¬ counted_call major minor cmd d v kind) →
  tracked devs tbl (MKDEV major minor) cmd = None.
Proof.
  intros Hd Hmaj Hmin Hno. destruct (MKDEV_split major minor Hmaj Hmin) as (_ & Ediv & Emod).
  destruct (tracked _ _ _ _) as [[[major' minor'] kind]|] eqn:Et; [|done].
  apply (tracked_devices _ _ _ _ _ Hd) in Et as (-> & -> & d & v & n & Hin & Hv & Hn & En & Hkind).
  rewrite Ediv, Emod in En. exfalso. apply (Hno d v kind). split_and!; [done..|by exists n|done].
Qed.

Lemma settled_event kernel_bytes relo link_Close reader_Close obj_Close podmap_Close queueSize
    off a os e v :
  (∀ addr n, 0 ≤ n → Z.of_nat (length (kernel_bytes addr n)) = n) →
  relo "inode" "i_rdev" = Some (off, 4) →
  reach kernel_bytes relo link_Close reader_Close obj_Close podmap_Close
    (s_deviceMap (r_setup r)) queueSize devs tbl ncpus (start_agent r) a os →
  (e, v) ∈ settled os →
  (∃ ev, e = event_view ev ∧ ev ∈ submitted os ∧ tracked_event devs tbl ncpus ev) ∧
  (∃ env p, wf_podmap p ∧
     v = verdict_of (s_deviceMap (r_setup r)) e (container_info env (CgroupID e) p).2).
Proof.
  intros Hk Hrelo Hr Hin.
  destruct (reach_invariants _ _ _ _ _ _ _ _ _ _ _ _ Hk Hrelo _ _ _ start_initial Hr)
    as [_ [_ Q2 Q3 _ _] [_ _ (pending & _ & K2 & _) _] _].
  assert (Hp : resolver_inv (a_podmap (start_agent r))).
  { destruct Hstarted as [_ _ _ _ _ _ _ _ _ [Hc _] _ _]. cbn. unfold wf_podmap. rewrite Hc.
    apply map_Forall_empty. }
  destruct (reach_judged _ _ _ _ _ _ _ _ _ _ _ _ _ _ Hr Hp eq_refl) as [_ [Hj _]%Forall_app].
  split.
  - assert (Hpull : e ∈ pulled os).
    { eapply elem_of_sublist, Q3. apply elem_of_app. left.
      destruct (reach_invariants _ _ _ _ _ _ _ _ _ _ _ _ Hk Hrelo _ _ _ start_initial Hr)
        as [_ [-> _ _ _ _] _ _].
      apply elem_of_app. left. rewrite Q2, elem_of_app. left.
      apply list_elem_of_fmap. by exists (e, v). }
    assert (Hsub : e ∈ event_view <$> submitted os) by (rewrite K2, elem_of_app; by left).
    apply list_elem_of_fmap in Hsub as (ev & -> & Hev). exists ev. split_and!; [done..|].
    pose proof (reach_tracked _ _ _ _ _ _ _ _ _ _ _ _ _ _ Hr) as Ht.
    rewrite Forall_forall in Ht. by apply Ht.
  - rewrite Forall_forall in Hj. destruct (Hj _ Hin) as (env & p & Hinv & Hv).
    exists env, p. split; [exact Hinv|exact Hv].
Qed.

End System.

(** ** Properties *)

(** C1: Every verdict is about the call that caused it: in any run of the
    started agent, a settled event is that of a counted call on a node of a
    discovered device with a vendor; it is never dropped as [device_unknown];
    and when it is counted, the labels are the names of a pod's container —
    none empty — the device's PCI address, its vendor's name, and the call's
    kind, which is not "unknown". *)
Theorem counted_under_its_labels {H R P link reader conn}
    `{!BpfHash H, !BpfHashOk H, !BpfRingbuf R, !BpfRingbufOk R, !BpfPercpu P, !BpfPercpuOk P}
    lookup_error range_kinds (h : host H R P link reader conn) ds r ncpus
    kernel_bytes relo link_Close reader_Close obj_Close podmap_Close off a os e v :
  (∀ kinds, range_kinds kinds ≡ₚ kinds) → (∀ l, h_range_devices h l ≡ₚ l) →
  (∀ opt o, h_loadBpfObjects h opt = Ok o → fresh_objects ncpus o) →
  started lookup_error range_kinds h ds r → distinct_nodes ds →
  (∀ addr n, 0 ≤ n → Z.of_nat (length (kernel_bytes addr n)) = n) →
  relo "inode" "i_rdev" = Some (off, 4) →
  reach kernel_bytes relo link_Close reader_Close obj_Close podmap_Close
    (s_deviceMap (r_setup r)) (queue_size (r_config r)) (devs_of ds) (tbl_of range_kinds ds)
    ncpus (start_agent r) a os →
  (e, v) ∈ settled os →
  ∃ x major minor cmd kind d vendor,
    counted_call ds major minor cmd d vendor kind ∧
    e = event_view (event_of x cmd minor major kind) ∧
    v ≠ Dropped ReasonDeviceUnknown ∧
    ∀ k, v = Counted k → ∃ i, named i ∧
      k = Key (Namespace i) (PodName i) (ContainerName i) (PciAddress d) (Name vendor)
            (Kind.String kind) ∧ Kind.String kind ≠ "unknown".
Proof.
  intros Hrk Hrd Hload Hs Hd Hk Hrelo Hr Hin.
  destruct (settled_event _ _ _ _ _ _ Hload Hs _ _ _ _ _ _ _ _ _ _ _ _ Hk Hrelo Hr Hin)
    as [(ev & -> & _ & x & rdev & cmd & major & minor & kind & Ht & _ & _ & ->)
        (env & p & Hp & Hv)].
  apply (tracked_devices _ _ Hrk _ _ _ _ _ Hd) in Ht
    as (_ & _ & d & vendor & n & Hdin & Hven & Hn & Ekey & Hkind).
  exists x, major, minor, cmd, kind, d, vendor.
  pose proof (node_meta _ _ _ _ _ Hs d vendor n Hd Hdin Hven Hn) as Hm. rewrite Ekey in Hm.
  destruct (discovered_wf _ _ _ _ _ Hrd Hs d n Hdin Hn) as [Hmaj _].
  injection Ekey as <- <-. unfold verdict_of in Hv.
  cbn [event_view event_of Loader.Major Loader.Minor Loader.Kind CgroupID ev_major ev_minor ev_kind
       ev_cgroup_id] in Hv.
  rewrite (wrap_id 32 _ Hmaj), Hm in Hv. cbn [meta_pciAddress meta_vendor] in Hv.
  split_and!; [split_and!; [done..|by exists n|done]|done| |].
  - rewrite Hv. destruct (container_info _ _ _).2; [done|]. repeat case_match; done.
  - intros k ->. destruct (container_info env _ p) as [p' [i|err]] eqn:Ec; cbn [snd] in Hv;
      [|repeat case_match; done].
    injection Hv as ->. exists i. split_and!.
    + eapply (resolve_named (St:=PodMap) env (current_cgroup_id x) p); [exact Hp|].
      by unfold resolve, PodMap_Resolver; rewrite Ec.
    + done.
    + destruct (GetVendor_elem _ _ _ Hven) as [Hreg _].
      destruct (registered_numbers vendor _ kind Hreg Hkind) as (_ & _ & Hkk).
      revert kind Hkk Hkind Hin Hr Ec. clear. intros kind Hkk _ _ _ _. revert kind Hkk.
      apply Forall_forall. by_decide.
Qed.

(** The started agent's program counts exactly the right calls: a call on
    the device numbered [MKDEV(major, minor)] submits its event — or counts a
    drop when the ring buffer is full — when the node belongs to a discovered
    device whose vendor lists the call's number, and does nothing otherwise. *)
Theorem started_filter {H R P link reader conn}
    `{!BpfHash H, !BpfHashOk H, !BpfRingbuf R, !BpfRingbufOk R, !BpfPercpu P, !BpfPercpuOk P}
    lookup_error range_kinds (h : host H R P link reader conn) ds r
    kernel_bytes relo off x filp cmd arg major minor :
  (∀ kinds, range_kinds kinds ≡ₚ kinds) →
  started lookup_error range_kinds h ds r → distinct_nodes ds →
  (∀ addr n, 0 ≤ n → Z.of_nat (length (kernel_bytes addr n)) = n) →
  relo "inode" "i_rdev" = Some (off, 4) →
  rdev_of kernel_bytes relo filp = MKDEV major minor →
  0 ≤ major < 2 ^ 12 → 0 ≤ minor < 2 ^ 20 →
  let o := bpfObjects (s_loader (r_setup r)) in
  (∀ d v kind, counted_call ds major minor cmd d v kind →
     kubenpu_ioctl kernel_bytes relo x filp cmd arg o =
       match ring_reserve (st_events o) (sizeof struct_event) with
       | Some (_, events) =>
           (BpfState (st_devices o) (st_ioctls o)
              (ring_submit events (event_bytes (event_of x cmd minor major kind)))
              (st_dropped o), 0)
       | None => (count_drop x o, 0)
       end) ∧
  ((∀ d v kind, ¬ counted_call ds major minor cmd d v kind) →
   kubenpu_ioctl kernel_bytes relo x filp cmd arg o = (o, 0)).
Proof.
  intros Hrk Hs Hd Hk Hrelo Hrdev Hmaj Hmin o.
  pose proof (started_devices _ _ _ _ _ Hs) as S1. pose proof (started_ioctls _ _ _ _ _ Hs) as S2.
  rewrite (kubenpu_ioctl_tracked _ _ Hk (devs_of ds) (tbl_of range_kinds ds) x filp cmd arg o off
             S1 S2 Hrelo).
  rewrite Hrdev. split.
  - intros d v kind Hc. rewrite (tracked_counted _ _ Hrk _ _ _ _ _ _ Hd Hmaj Hmin Hc).
    by destruct (ring_reserve _ _) as [[buf events]|].
  - intros Hno. by rewrite (tracked_uncounted _ _ Hrk _ _ _ Hd Hmaj Hmin Hno).
Qed.

(** C4: The code the started agent loads counts exactly the right calls: the
    program in the object file it embeds, patched for the running kernel and
    executed on a call of the device numbered [MKDEV(major, minor)], exits with
    0, having submitted the call's event — or counted a drop when the ring
    buffer is full — when the node belongs to a discovered device whose vendor
    lists the call's number, and having done nothing otherwise. *)
Theorem started_object_filter {H R P link reader conn}
    `{!BpfHash H, !BpfHashOk H, !BpfRingbuf R, !BpfRingbufOk R, !BpfPercpu P, !BpfPercpuOk P}
    lookup_error range_kinds (h : host H R P link reader conn) ds r
    kernel_bytes relo f_inode i_rdev x filp cmd arg stack major minor :
  (∀ kinds, range_kinds kinds ≡ₚ kinds) →
  started lookup_error range_kinds h ds r → distinct_nodes ds →
  (∀ addr n, 0 ≤ n → Z.of_nat (length (kernel_bytes addr n)) = n) →
  relo "file" "f_inode" = Some (f_inode, 8) → relo "inode" "i_rdev" = Some (i_rdev, 4) →
  rdev_of kernel_bytes relo filp = MKDEV major minor →
  0 ≤ major < 2 ^ 12 → 0 ≤ minor < 2 ^ 20 → length stack = Z.to_nat stack_size →
  let o := bpfObjects (s_loader (r_setup r)) in
  let call := loaded_run kernel_bytes relo x [filp; cmd; arg] stack o in
  (∀ d v kind, counted_call ds major minor (wrap 32 cmd) d v kind →
     call = Some (Exited
       match ring_reserve (st_events o) (sizeof struct_event) with
       | Some (_, events) =>
           (BpfState (st_devices o) (st_ioctls o)
              (ring_submit events (event_bytes (event_of x (wrap 32 cmd) minor major kind)))
              (st_dropped o), 0)
       | None => (count_drop x o, 0)
       end)) ∧
  ((∀ d v kind, ¬ counted_call ds major minor (wrap 32 cmd) d v kind) →
   call = Some (Exited (o, 0))).
Proof.
  intros Hrk Hs Hd Hk Hinode Hrelo Hrdev Hmaj Hmin Hstack o call. unfold call.
  pose proof (started_devices _ _ _ _ _ Hs) as S1. pose proof (started_ioctls _ _ _ _ _ Hs) as S2.
  rewrite (loaded_run_ioctl kernel_bytes relo f_inode i_rdev (devs_of ds) (tbl_of range_kinds ds))
    by done.
  rewrite (kubenpu_ioctl_tracked _ _ Hk (devs_of ds) (tbl_of range_kinds ds) x filp _ _ o i_rdev
             S1 S2 Hrelo).
  rewrite Hrdev. split.
  - intros d v kind Hc. rewrite (tracked_counted _ _ Hrk _ _ _ _ _ _ Hd Hmaj Hmin Hc).
    by destruct (ring_reserve _ _) as [[buf events]|].
  - intros Hno. by rewrite (tracked_uncounted _ _ Hrk _ _ _ Hd Hmaj Hmin Hno).
Qed.

(** The open file [filp] is the device file at [path]: the kernel's number of its
    inode is what [Stat], [unix.Major] and [unix.Minor] tell user space. *)
Definition device_file (sys : system) (kernel_bytes : Z → Z → bytes)
    (relo : string → string → option (Z * Z)) (filp : Z) (path : string) : Prop :=
  ∃ rdev, Stat_Rdev sys path = Ok rdev ∧
    0 ≤ unix_Major sys rdev < 2 ^ 12 ∧ 0 ≤ unix_Minor sys rdev < 2 ^ 20 ∧
    rdev_of kernel_bytes relo filp = MKDEV (unix_Major sys rdev) (unix_Minor sys rdev).

(** C7: Opening a discovered node is enough to be counted: a call on a file
    opened from the path of a discovered device's node is submitted (or counted
    as lost) with the node's numbers and the kind of the call, and these numbers
    lead the worker back to that device and its vendor, when the device has a
    vendor that lists the call's number; otherwise the program does nothing. *)
Theorem opened_device_counted {H R P link reader conn}
    `{!BpfHash H, !BpfHashOk H, !BpfRingbuf R, !BpfRingbufOk R, !BpfPercpu P, !BpfPercpuOk P}
    lookup_error range_kinds (h : host H R P link reader conn) ds r
    kernel_bytes relo off x filp cmd arg d n :
  (∀ kinds, range_kinds kinds ≡ₚ kinds) → (∀ l, h_range_devices h l ≡ₚ l) →
  started lookup_error range_kinds h ds r → distinct_nodes ds →
  (∀ addr n, 0 ≤ n → Z.of_nat (length (kernel_bytes addr n)) = n) →
  relo "inode" "i_rdev" = Some (off, 4) →
  d ∈ ds → n ∈ Nodes d → device_file (h_sys h) kernel_bytes relo filp (Path n) →
  let o := bpfObjects (s_loader (r_setup r)) in
  (∀ v kind, GetVendor registeredVendors d = Some v → (cmd `mod` 2 ^ 8, kind) ∈ Ioctls v →
     kubenpu_ioctl kernel_bytes relo x filp cmd arg o =
       match ring_reserve (st_events o) (sizeof struct_event) with
       | Some (_, events) =>
           (BpfState (st_devices o) (st_ioctls o)
              (ring_submit events (event_bytes (event_of x cmd (Hw.Minor n) (Hw.Major n) kind)))
              (st_dropped o), 0)
       | None => (count_drop x o, 0)
       end ∧
     s_deviceMap (r_setup r) !! (Hw.Major n, Hw.Minor n) = Some (DeviceMeta (PciAddress d) (Name v))) ∧
  ((∀ v kind, GetVendor registeredVendors d = Some v → (cmd `mod` 2 ^ 8, kind) ∉ Ioctls v) →
   kubenpu_ioctl kernel_bytes relo x filp cmd arg o = (o, 0)).
Proof.
  intros Hrk Hrd Hs Hd Hk Hrelo Hin Hn (rdev & Hst & Hmaj & Hmin & Hrdev) o.
  destruct (started_discovered _ _ _ _ _ Hs) as [logs Hdisc].
  destruct (Discover_statted _ _ _ _ _ _ _ Hrd Hdisc Hin Hn) as (rdev' & Hst' & Emaj & Emin).
  rewrite Hst in Hst'. injection Hst' as <-.
  rewrite wrap_id in Emaj by (unfold in_width; lia). rewrite wrap_id in Emin by (unfold in_width; lia).
  rewrite <- Emaj, <- Emin in *.
  rewrite (kubenpu_ioctl_tracked _ _ Hk (devs_of ds) (tbl_of range_kinds ds) x filp cmd arg o off
             (started_devices _ _ _ _ _ Hs) (started_ioctls _ _ _ _ _ Hs) Hrelo), Hrdev.
  split.
  - intros v kind Hv Hkind. split; [|by eapply node_meta].
    rewrite (tracked_counted _ _ Hrk _ _ _ d v kind Hd Hmaj Hmin).
    + by destruct (ring_reserve _ _) as [[buf events]|].
    + split_and!; [done..|by exists n|done].
  - intros Hno. rewrite (tracked_uncounted _ _ Hrk _ _ _ Hd Hmaj Hmin); [done|].
    intros d' v kind (Hin' & Hv & (n' & Hn' & En) & Hkind).
    assert (d' = d) as -> by (by eapply (Hd d' d n' n)). by eapply Hno.
Qed.

(** ** The sample node: one iGPU, one container *)

Lemma sample_started :
  ∃ r, main (errors_New "E2BIG") (errors_New "ENOENT") id sample_host = Running r ∧
       started (errors_New "ENOENT") id sample_host [SampleFs.device] r.
Proof.
  assert (Hok : is_running (main (errors_New "E2BIG") (errors_New "ENOENT") id sample_host) = true)
    by (vm_compute; reflexivity).
  destruct (main (errors_New "E2BIG") (errors_New "ENOENT") id sample_host) as [|err|r] eqn:E;
    [discriminate Hok..|]. exists r.
  destruct (main_started (errors_New "E2BIG") (errors_New "ENOENT") id sample_host r)
    as [ds Hs]; [reflexivity|reflexivity|intros opt objs [= <-]; by split|exact E|].
  split; [reflexivity|]. destruct (started_discovered _ _ _ _ _ Hs) as [logs Hd].
  rewrite (started_config _ _ _ _ _ Hs) in Hd.
  assert (Hds : Discover (h_sys sample_host) (h_range_devices sample_host)
    (Discovery.MkPaths (Config.DriPath (Load (h_env sample_host)))
      (Config.AccelPath (Load (h_env sample_host)))
      (Config.SysfsDriPath (Load (h_env sample_host)))
      (Config.SysfsAccelPath (Load (h_env sample_host)))) = (Ok [SampleFs.device], []))
    by exact SampleFs.Discover_runs.
  rewrite Hds in Hd. injection Hd as <- <-. exact Hs.
Qed.

Lemma sample_fresh opt o :
  h_loadBpfObjects sample_host opt = Ok o → fresh_objects 1 o.
Proof. intros [= <-]. split_and!; try done. by exists [0]. Qed.

Lemma started_filter_witness :
  ∃ r : running Model.hash Model.ring (list Z) unit unit unit,
    let o := bpfObjects (s_loader (r_setup r)) in
    (∀ d v kind, ¬ counted_call [SampleFs.device] 226 128 0 d v kind) →
    kubenpu_ioctl BpfProgram.Sample.memory BpfProgram.Sample.relo SampleRun.x 0 0 0 o = (o, 0).
Proof.
  destruct sample_started as (r & _ & Hs). destruct sample_relo as [off Hoff]. exists r.
  refine (proj2 (started_filter (errors_New "ENOENT") id sample_host [SampleFs.device] r
    BpfProgram.Sample.memory BpfProgram.Sample.relo off SampleRun.x 0 0 0 226 128 _ Hs _ _ Hoff
    _ _ _)).
  - reflexivity.
  - exact sample_distinct.
  - exact BpfProgram.Sample.memory_length.
  - vm_compute. reflexivity.
  - lia.
  - lia.
Defined.

Lemma started_object_filter_witness :
  ∃ r : running Model.hash Model.ring (list Z) unit unit unit,
    let o := bpfObjects (s_loader (r_setup r)) in
    (∀ d v kind, ¬ counted_call [SampleFs.device] 226 128 (wrap 32 0) d v kind) →
    loaded_run BpfProgram.Sample.memory BpfProgram.Sample.relo SampleRun.x [0; 0; 0]
      (replicate 512 Byte.x00) o = Some (Exited (o, 0)).
Proof.
  destruct sample_started as (r & _ & Hs). exists r.
  refine (proj2 (started_object_filter (errors_New "ENOENT") id sample_host [SampleFs.device] r
    BpfProgram.Sample.memory BpfProgram.Sample.relo 32 76 SampleRun.x 0 0 0 _ 226 128
    _ Hs _ _ _ _ _ _ _ _)).
  - reflexivity.
  - exact sample_distinct.
  - exact BpfProgram.Sample.memory_length.
  - vm_compute. reflexivity.
  - vm_compute. reflexivity.
  - vm_compute. reflexivity.
  - lia.
  - lia.
  - reflexivity.
Defined.

(** One submission, handled, on the agent [main] started. *)
Definition sample_go (r : running Model.hash Model.ring (list Z) unit unit unit) :=
  run BpfProgram.Sample.memory BpfProgram.Sample.relo (λ _, None) (λ _, None) (λ _, None) None
    (s_deviceMap (r_setup r)) (queue_size (r_config r))
    (devs_of [SampleFs.device]) (tbl_of id [SampleFs.device])
    [Ioctl (Build_exec_ctx 0 1000 4 0) 0 0xC0406469 0; Read; Offer; Receive;
     Judge (PodMap.Sample.at_time 7); Settle] (start_agent r) [].

Lemma sample_settles r :
  main (errors_New "E2BIG") (errors_New "ENOENT") id sample_host = Running r →
  ∃ a os e v, sample_go r = Some (a, os) ∧ (e, v) ∈ settled os.
Proof.
  intros Hr.
  assert (Hok : match main (errors_New "E2BIG") (errors_New "ENOENT") id sample_host with
                | Running r => match sample_go r with
                               | Some (_, os) => match settled os with [] => false | _ => true end
                               | None => false
                               end
                | _ => false
                end = true) by (vm_compute; reflexivity).
  rewrite Hr in Hok. destruct (sample_go r) as [[a os]|]; [|done].
  destruct (settled os) as [|[e v] l] eqn:E; [done|].
  exists a, os, e, v. split; [done|]. rewrite E. by left.
Qed.

Lemma counted_under_its_labels_witness :
  ∃ r a os e v, sample_go r = Some (a, os) ∧ (e, v) ∈ settled os ∧
    ∃ x major minor cmd kind d vendor,
      counted_call [SampleFs.device] major minor cmd d vendor kind ∧
      e = event_view (event_of x cmd minor major kind) ∧
      v ≠ Dropped ReasonDeviceUnknown ∧
      ∀ k, v = Counted k → ∃ i, named i ∧
        k = Key (Namespace i) (PodName i) (ContainerName i) (PciAddress d) (Name vendor)
              (Kind.String kind) ∧ Kind.String kind ≠ "unknown".
Proof.
  destruct sample_started as (r & Hr & Hs). destruct sample_relo as [off Hoff].
  destruct (sample_settles r Hr) as (a & os & e & v & Hgo & Hin).
  exists r, a, os, e, v. split; [exact Hgo|]. split; [exact Hin|].
  apply (counted_under_its_labels (errors_New "ENOENT") id sample_host [SampleFs.device] r 1
    BpfProgram.Sample.memory BpfProgram.Sample.relo (λ _, None) (λ _, None) (λ _, None) None off
    a os e v).
  - reflexivity.
  - reflexivity.
  - exact sample_fresh.
  - exact Hs.
  - exact sample_distinct.
  - exact BpfProgram.Sample.memory_length.
  - exact Hoff.
  - eapply run_reach; [constructor| |exact Hgo].
    apply Forall_cons. split.
    + split; [|by_decide]. split; [cbn; lia|]. split; [by_decide|]. split; by_decide.
    + repeat (apply Forall_cons; split; [exact I|]). apply List.Forall_nil.
  - exact Hin.
Defined.

(** The sample file is open on [/dev/dri/renderD128]. *)
Lemma sample_file :
  device_file SampleFs.sys BpfProgram.Sample.memory BpfProgram.Sample.relo 0 "/dev/dri/renderD128".
Proof. exists (226 * 256 + 128). split_and!; by vm_compute. Qed.

Lemma opened_device_counted_witness :
  ∃ r : running Model.hash Model.ring (list Z) unit unit unit,
    s_deviceMap (r_setup r) !! (226, 128) = Some (DeviceMeta "0000:00:02.0" "i915").
Proof.
  destruct sample_started as (r & _ & Hs). destruct sample_relo as [off Hoff]. exists r.
  destruct (opened_device_counted (errors_New "ENOENT") id sample_host [SampleFs.device] r
    BpfProgram.Sample.memory BpfProgram.Sample.relo off SampleRun.x 0 0xC0406469 0 SampleFs.device
    (MkNode 128 226 "/dev/dri/renderD128")) as [Hc _].
  - reflexivity.
  - reflexivity.
  - exact Hs.
  - exact sample_distinct.
  - exact BpfProgram.Sample.memory_length.
  - exact Hoff.
  - by left.
  - by right; left.
  - exact sample_file.
  - destruct (Hc i915.vendor Kind.KindSubmit) as [_ Hm]; [reflexivity|by_decide|exact Hm].
Defined.
