(* ===== verification/Scrape.v ===== *)
(** * Scrapes of the running agent

    The collector is gathered while the agent runs: [Collect] takes the mutex of
    the collector and, holding it, reads the kernel's drop counters and then the
    pod map's rebuild counter, which go on while it does. So a scrape is a
    function of three states of the agent ([gather_at]), in the order of a run
    ([Goroutines] proves this of the interleaved program), and of what the
    [Lookup] of the drop counters returned. What is shown here is what a metrics
    backend relies on: from one scrape of the process to a later one no counter
    decreases, and the only series that can disappear is the kernel's drop
    counter, when the later [Lookup] of it fails — as it does once [loader.Close]
    has closed the map, while handlers may still run. *)

From S2P Require Import Prelude.
From S2P Require Import BpfProgram.
From S2P Require Import Kernel.
From S2P Require Import Loader.
From S2P Require Import Discovery.
From S2P Require Import Cgroup.
From S2P Require Import Hw.
From S2P Require Import PodMap.
From S2P Require Import Metrics.
From S2P Require Import Setup.
From S2P Require Import Agent.
From S2P Require Import System.

Local Open Scope Z_scope.

(** ** Counting goes up *)

Lemma count_le {W} f (ops : list (op (W:=W))) : count f ops ≤ Z.of_nat (length ops).
Proof. unfold count. pose proof (List.filter_length_le f ops). lia. Qed.

Lemma length_omap {A B} (f : A → option B) l : (length (omap f l) ≤ length l)%nat.
Proof. induction l as [|x l IH]; [done|]. cbn. destruct (f x); cbn; lia. Qed.

Lemma wrap_mono w n n' : 0 ≤ n ≤ n' → n' < 2 ^ w → wrap w n ≤ wrap w n'.
Proof. intros ? ?. rewrite !wrap_id by (unfold in_width; lia). lia. Qed.

(** A counter that has had [count] increments, now and later. *)
Lemma counter_grows {W} f (ops ops' : list (op (W:=W))) :
  count f (ops ++ ops') < 2 ^ 64 →
  count f ops ≤ count f (ops ++ ops') ∧
  wrap 64 (count f ops) = count f ops ∧
  wrap 64 (count f (ops ++ ops')) = count f (ops ++ ops').
Proof.
  intros Hlen. pose proof (count_nonneg f ops). pose proof (count_nonneg f ops').
  rewrite count_app in *. rewrite !wrap_id by (unfold in_width; lia). lia.
Qed.

Section Histories.

Context {W : Type} `{!MapRange}.

(** The series of a history are series of every longer one, with no smaller
    counter; the two sources are what the caller says. The drop counter of the
    kernel is left out when its source fails. *)
Lemma Collect_grows (ops ops' : list (op (W:=W))) w w' m :
  (∀ k, count (is_ioctl k) (ops ++ ops') < 2 ^ 64) →
  (∀ r, count (is_drop r) (ops ++ ops') < 2 ^ 64) →
  rebuilds_source (ops ++ ops') = rebuilds_source ops →
  dropped_source (ops ++ ops') = dropped_source ops →
  (∀ s, rebuilds_source ops = Some s → s w ≤ s w') →
  (∀ s lost, dropped_source ops = Some s → s w = Ok lost →
     (∃ lost', s w' = Ok lost' ∧ lost ≤ lost') ∨ ∃ err, s w' = Err err) →
  m ∈ Collect w (run_ops ops) →
  (∃ m', m' ∈ Collect w' (run_ops (ops ++ ops')) ∧
         series m' = series m ∧ type m' = type m ∧ value m ≤ value m') ∨
  (series m = ("kubenpu_events_dropped_total", [ReasonRingbufFull]) ∧
   ∃ s err, dropped_source ops = Some s ∧ s w' = Err err).
Proof.
  intros Hi Hdr Er Ed Hr Hd Hm. setoid_rewrite elem_of_Collect.
  destruct (desc_names ops) as (_ & N2 & _ & _).
  destruct (sources_set ops) as [S1 S2]. destruct (sources_set (ops ++ ops')) as [S3 S4].
  destruct (descs_set ops) as (D1 & D2 & D3 & D4).
  destruct (descs_set (ops ++ ops')) as (D5 & D6 & D7 & D8).
  rewrite D5, D6, D7, D8, S3, S4, Er, Ed.
  apply elem_of_Collect in Hm.
  rewrite D1, D2, D3, D4, S1, S2 in Hm. rewrite D2 in N2.
  destruct Hm as [(k & v & Hk & ->)|[(r & v & Hk & ->)|[(s & lost & Es & Hs & ->)|[->|(k & Hk & ->)]]]].
  - destruct (counter_grows (is_ioctl k) ops ops' (Hi k)) as (Hle & E1 & E2).
    rewrite ioctl_count in Hk. cbv zeta in Hk.
    case_bool_decide as H0; cbn [andb negb] in Hk; [done|]. injection Hk as <-.
    left. eexists. split.
    { left. exists k, (wrap 64 (count (is_ioctl k) (ops ++ ops'))). split; [|reflexivity].
      rewrite ioctl_count. cbv zeta. rewrite bool_decide_eq_false_2; [done|].
      pose proof (count_nonneg (is_ioctl k) ops). lia. }
    split_and!; [done..|]. apply float64_mono. lia.
  - destruct (counter_grows (is_drop r) ops ops' (Hdr r)) as (Hle & E1 & E2).
    rewrite drop_count in Hk. cbv zeta in Hk.
    destruct (bool_decide _ && _) eqn:Eb in Hk; [done|]. injection Hk as <-.
    left. eexists. split.
    { right; left. exists r, (wrap 64 (count (is_drop r) (ops ++ ops'))). split; [|reflexivity].
      rewrite drop_count. cbv zeta. replace (_ && _) with false; [done|]. symmetry.
      apply andb_false_iff in Eb as [Eb|Eb]; apply andb_false_iff; [left|by right].
      apply bool_decide_eq_false in Eb. apply bool_decide_eq_false.
      pose proof (count_nonneg (is_drop r) ops). lia. }
    split_and!; [done..|]. apply float64_mono. lia.
  - destruct (Hd s lost Es Hs) as [(lost' & Hs' & Hle)|(err & Hs')].
    + left. eexists. split.
      { right; right; left. by exists s, lost'. }
      split_and!; [done..|]. by apply float64_mono.
    + right. unfold series. cbn [desc labels]. rewrite N2. split; [done|]. by exists s, err.
  - left. eexists. split; [by right; right; right; left|]. split_and!; [done..|].
    apply float64_mono. destruct (rebuilds_source ops) as [s|]; [by apply Hr|lia].
  - left. eexists. split.
    { right; right; right; right. exists k. split; [|reflexivity].
      apply device_set, elem_of_app. left. by apply device_set. }
    done.
Qed.

End Histories.

(** ** The rebuild counter of the pod map *)

Lemma container_info_rebuilds e cg p :
  CgroupIndexRebuilds (container_info e cg p).1 = CgroupIndexRebuilds p ∨
  CgroupIndexRebuilds (container_info e cg p).1 = wrap 64 (CgroupIndexRebuilds p + 1).
Proof.
  unfold container_info, fetch_names.
  repeat (case_match; simplify_eq; cbn [fst]); auto.
Qed.

Section Runs.

Context {H R P link reader W : Type}.
Context `{!BpfHash H, !BpfRingbuf R, !BpfRingbufOk R, !BpfPercpu P, !BpfPercpuOk P}.
Context (kernel_bytes : Z → Z → bytes) (relo : string → string → option (Z * Z)).
Context (link_Close : link → option error) (reader_Close : reader → option error).
Context (obj_Close : string → option error) (podmap_Close : option error).
Context (deviceMap : gmap deviceNode deviceMeta) (queueSize : nat).
Context (devs tbl : gmap (Z * Z) Z) (ncpus : nat).

Abbreviation agent := (agent H R P link reader PodMap W).
Abbreviation step := (do_step (W:=W) kernel_bytes relo link_Close reader_Close obj_Close
  podmap_Close deviceMap queueSize).
Abbreviation obs := (observe (H:=H) (link:=link) (reader:=reader) (St:=PodMap) (Env:=lookup_env) (W:=W)
  kernel_bytes relo queueSize devs tbl).
Abbreviation reaches := (reach (W:=W) kernel_bytes relo link_Close reader_Close obj_Close
  podmap_Close deviceMap queueSize devs tbl ncpus).

Lemma reach_trans (a0 a a' : agent) os os' :
  reaches a0 a os → reaches a a' os' → reaches a0 a' (os ++ os').
Proof.
  intros Hr. induction 1 as [|a' os' act a'' _ IH Hw Hs]; [by rewrite app_nil_r|].
  rewrite app_assoc. by econstructor.
Qed.

(** An event that the worker has received and not yet looked up. *)
Definition to_judge (a : agent) : Z := match a_worker a with Received _ => 1 | _ => 0 end.

(** Only the worker touches the pod map, once per event it has received. *)
Lemma step_rebuilds act (a a' : agent) :
  in_width 64 (CgroupIndexRebuilds (a_podmap a)) → step act a = Some a' →
  ∃ n, 0 ≤ n ∧ n + to_judge a' ≤ to_judge a + Z.of_nat (length (took (obs act a))) ∧
       CgroupIndexRebuilds (a_podmap a') = wrap 64 (CgroupIndexRebuilds (a_podmap a) + n).
Proof.
  intros Hw. assert (E0 : CgroupIndexRebuilds (a_podmap a) =
    wrap 64 (CgroupIndexRebuilds (a_podmap a) + 0)) by (by rewrite Z.add_0_r, wrap_id).
  assert (Hsame : a_podmap a' = a_podmap a → to_judge a' ≤ to_judge a →
    ∃ n, 0 ≤ n ∧ n + to_judge a' ≤ to_judge a + Z.of_nat (length (took (obs act a))) ∧
         CgroupIndexRebuilds (a_podmap a') = wrap 64 (CgroupIndexRebuilds (a_podmap a) + n)).
  { intros -> Hle. exists 0. split_and!; [lia|lia|exact E0]. }
  rewrite do_step_rule.
  destruct 1 as [|raw r _ _ _|err _ _ _| |e _|e _|e q Hq Hh|env e v p He Hj|e v c log He _|_ _ Hi _| | | | | |];
    try by apply Hsame.
  - destruct (take_read_same (ReadEvent (Ok raw)) (with_loader (set_ring r (a_loader a)) a))
      as (_ & Ep & _ & Ew & _). apply Hsame; [done|]. unfold to_judge. rewrite Ew. done.
  - destruct (take_read_same (ReadEvent (Err err)) a) as (_ & Ep & _ & Ew & _).
    apply Hsame; [done|]. unfold to_judge. by rewrite Ew.
  - destruct (offer_same queueSize e a) as (_ & Ep & Ew & _).
    apply Hsame; [done|]. unfold to_judge. by rewrite Ew.
  - exists 0. cbn [observe]. rewrite Hq. unfold to_judge. rewrite Hh. cbn. split_and!; [lia..|done].
  - rewrite judge_verdict in Hj. injection Hj as _ <-. unfold to_judge. rewrite He.
    cbn [with_worker a_worker a_podmap observe took omap list_omap length].
    case_bool_decide; [|exists 0; split_and!; [lia|lia|exact E0]].
    destruct (container_info_rebuilds env (CgroupID e) (a_podmap a)) as [E|E].
    + exists 0. split_and!; [lia|lia|]. cbn [resolve]. etransitivity; [exact E|exact E0].
    + exists 1. split_and!; [lia|lia|exact E].
  - apply Hsame; [done|]. unfold to_judge. by rewrite He.
  - apply Hsame; [done|]. unfold to_judge. by rewrite Hi.
Qed.

Lemma reach_rebuilds (a a' : agent) os :
  in_width 64 (CgroupIndexRebuilds (a_podmap a)) → reaches a a' os →
  ∃ n, 0 ≤ n ∧ n + to_judge a' ≤ to_judge a + Z.of_nat (length (took os)) ∧
       CgroupIndexRebuilds (a_podmap a') = wrap 64 (CgroupIndexRebuilds (a_podmap a) + n).
Proof.
  intros H0. induction 1 as [|a' os act a'' _ (n & Hn & Hle & E) Hw Hs].
  - exists 0. split_and!; [lia|cbn; lia|by rewrite Z.add_0_r, wrap_id].
  - destruct (step_rebuilds act a' a'') as (n' & Hn' & Hle' & E'); [|done|].
    { rewrite E. by apply wrap_in_width. }
    exists (n + n'). unfold took in *. rewrite omap_app, length_app.
    split_and!; [lia|lia|]. by rewrite E', E, wrap_add_l, Z.add_assoc.
Qed.

(** From no rebuilds on, the counter does not wrap in runs that long. *)
Lemma rebuilds_grow (a0 a a' : agent) os os' :
  CgroupIndexRebuilds (a_podmap a0) = 0 → a_worker a0 = Idle →
  reaches a0 a os → reaches a a' os' → Z.of_nat (length (os ++ os')) < 2 ^ 64 →
  CgroupIndexRebuilds (a_podmap a) ≤ CgroupIndexRebuilds (a_podmap a').
Proof.
  intros H0 Hi Hr Hr' Hlen.
  destruct (reach_rebuilds a0 a os) as (n & Hn & Hle & E); [by rewrite H0|done|].
  rewrite H0, Z.add_0_l in E. unfold to_judge at 2 in Hle. rewrite Hi in Hle.
  destruct (reach_rebuilds a a' os') as (n' & Hn' & Hle' & E'); [|done|].
  { rewrite E. by apply wrap_in_width. }
  pose proof (length_omap (λ o, match o with Took e => Some e | _ => None end) os).
  pose proof (length_omap (λ o, match o with Took e => Some e | _ => None end) os').
  assert (0 ≤ to_judge a') by (unfold to_judge; by destruct (a_worker a')).
  rewrite E', E, wrap_add_l. unfold took in *. rewrite length_app in Hlen.
  apply wrap_mono; lia.
Qed.

End Runs.

(** ** Scraping the started agent *)

Section Gather.

Context {H R P link reader : Type} `{!MapRange}.

(** What the two sources of the collector read, when a [Lookup] of the drop
    counters fails like this. *)
Definition world_of (failure : option error) (a : agent H R P link reader PodMap (world H R P)) :
    world H R P :=
  World (a_podmap a) (bpfObjects (a_loader a)) failure.

(** [Collect] on the running agent: the collector's maps as they are in [a], the
    state in which it takes the mutex; the kernel's drop counters as they are in
    [a1], when [kernelDroppedSource] is called, and the rebuild counter as it is
    in [a2], when [cgroupIndexRebuildsSource] is; [failure] says whether the
    [Lookup] of the former failed. *)
Definition gather_at (failure : option error)
    (a a1 a2 : agent H R P link reader PodMap (world H R P)) : list Metric :=
  Collect (World (a_podmap a2) (bpfObjects (a_loader a1)) failure) (a_collector a).

(** All at once, when no [Lookup] fails. *)
Definition gather (a : agent H R P link reader PodMap (world H R P)) : list Metric :=
  gather_at None a a a.

End Gather.

Lemma boot_ops_quiet {H R P} `{!BpfPercpu P} lookup_error ds :
  Forall counts_nothing (boot_ops (H:=H) (R:=R) (P:=P) lookup_error ds).
Proof.
  unfold boot_ops. apply Forall_app. split; [|by repeat constructor].
  apply Forall_fmap, Forall_true. by intros [d v].
Qed.

Lemma sources_kept {W} (ops : list (op (W:=W))) os :
  rebuilds_source (ops ++ omap counted_op os) = rebuilds_source ops ∧
  dropped_source (ops ++ omap counted_op os) = dropped_source ops.
Proof.
  unfold rebuilds_source, dropped_source. rewrite !foldl_app.
  generalize (foldl (λ s (o : op (W:=W)), match o with OpRebuildsSource s' => Some s' | _ => s end)
    None ops).
  generalize (foldl (λ s (o : op (W:=W)), match o with OpDroppedSource s' => Some s' | _ => s end)
    None ops).
  intros s s'. induction os as [|o os IH]; [done|]. cbn [omap list_omap].
  destruct o as [| | | | | | |e [k|reason|err]]; cbn [counted_op]; try exact IH; cbn [foldl]; exact IH.
Qed.

Lemma run_ops_app {W} (ops ops' : list (op (W:=W))) :
  run_ops (ops ++ ops') = foldl apply_op (run_ops ops) ops'.
Proof. unfold run_ops. apply foldl_app. Qed.

Lemma boot_sources {H R P} `{!BpfPercpu P} lookup_error ds :
  rebuilds_source (boot_ops (H:=H) (R:=R) (P:=P) lookup_error ds) =
    Some (λ w, CgroupIndexRebuilds (w_podmap w)) ∧
  dropped_source (boot_ops (H:=H) (R:=R) (P:=P) lookup_error ds) =
    Some (λ w, DroppedEvents lookup_error (w_lookup w) (w_objects w)).
Proof. unfold boot_ops, rebuilds_source, dropped_source. by rewrite !foldl_app. Qed.

Lemma lost_grow os os' :
  Z.of_nat (length (os ++ os')) < 2 ^ 64 →
  wrap 64 (Z.of_nat (length (lost os))) ≤ wrap 64 (Z.of_nat (length (lost (os ++ os')))).
Proof.
  intros Hlen. unfold lost. rewrite omap_app.
  pose proof (length_omap (λ o, match o with Lost x => Some x | _ => None end) os).
  pose proof (length_omap (λ o, match o with Lost x => Some x | _ => None end) os').
  rewrite !length_app in *. apply wrap_mono; lia.
Qed.

(** The histories behind the collector count no more than there are
    observations. *)
Lemma count_history {W} f (ops : list (op (W:=W))) os :
  count f ops = 0 → 0 ≤ count f (ops ++ omap counted_op os) ≤ Z.of_nat (length os).
Proof.
  intros E. rewrite count_app, E. pose proof (count_nonneg f (omap counted_op os)).
  pose proof (count_le f (omap counted_op os)).
  pose proof (length_omap (counted_op (W:=W)) os). lia.
Qed.

(** ** Properties *)

(** Counters of the running agent never decrease: let one scrape of the
    started agent take the collector's mutex in [a] and read the kernel's and
    the pod map's counters in the later states [a1] and [a2], and a second scrape
    start after that and do so in [a'], [a1'], [a2'], in a run of less than 2^64
    observable steps. The second has every series of the first, of the same type
    and with at least its value — ioctl counts, drops of the agent and of the
    kernel's ring buffer, index rebuilds and device information alike — but the
    drops of the kernel's ring buffer when its [Lookup] has failed. *)
Theorem gather_grows {H R P link reader conn} `{!MapRange}
    `{!BpfHash H, !BpfHashOk H, !BpfRingbuf R, !BpfRingbufOk R, !BpfPercpu P, !BpfPercpuOk P}
    lookup_error range_kinds (h : host H R P link reader conn) ds r ncpus
    kernel_bytes relo link_Close reader_Close obj_Close podmap_Close off
    a a1 a2 a' a1' a2' os os1 os2 os' os1' os2' failure failure' m :
  (∀ opt o, h_loadBpfObjects h opt = Ok o → fresh_objects ncpus o) →
  started lookup_error range_kinds h ds r →
  (∀ addr n, 0 ≤ n → Z.of_nat (length (kernel_bytes addr n)) = n) →
  relo "inode" "i_rdev" = Some (off, 4) →
  let reaches := reach kernel_bytes relo link_Close reader_Close obj_Close podmap_Close
    (s_deviceMap (r_setup r)) (queue_size (r_config r)) (devs_of ds) (tbl_of range_kinds ds)
    ncpus in
  reaches (start_agent r) a os → reaches a a1 os1 → reaches a1 a2 os2 →
  reaches a2 a' os' → reaches a' a1' os1' → reaches a1' a2' os2' →
  Z.of_nat (length (os ++ os1 ++ os2 ++ os' ++ os1' ++ os2')) < 2 ^ 64 →
  m ∈ gather_at failure a a1 a2 →
  (∃ m', m' ∈ gather_at failure' a' a1' a2' ∧
         series m' = series m ∧ type m' = type m ∧ value m ≤ value m') ∨
  (series m = ("kubenpu_events_dropped_total", [ReasonRingbufFull]) ∧ is_Some failure').
Proof.
  intros Hload Hs Hk Hrelo reaches Hr Hr1 Hr2 Hr' Hr1' Hr2' Hlen Hm.
  assert (trans : ∀ x y z os os', reaches x y os → reaches y z os' → reaches x z (os ++ os'))
    by apply reach_trans.
  pose proof (start_initial _ _ _ _ _ _ Hload Hs) as I0.
  pose proof (trans _ _ _ _ _ (trans _ _ _ _ _ Hr1 Hr2) Hr') as Hc.
  pose proof (trans _ _ _ _ _ Hr Hr1) as Hk1.
  pose proof (trans _ _ _ _ _ (trans _ _ _ _ _ Hr2 Hr') Hr1') as Hk2.
  pose proof (trans _ _ _ _ _ Hk1 Hr2) as Hb1.
  pose proof (trans _ _ _ _ _ (trans _ _ _ _ _ Hr' Hr1') Hr2') as Hb2.
  assert (inv : ∀ x os, reaches (start_agent r) x os → invariants (queue_size (r_config r))
    (devs_of ds) (tbl_of range_kinds ds) ncpus (start_agent r) x os).
  { intros x os0. by apply (reach_invariants _ _ _ _ _ _ _ _ _ _ _ _ Hk Hrelo). }
  destruct (inv _ _ Hr) as [C1 _ _ _].
  destruct (inv _ _ (trans _ _ _ _ _ Hr Hc)) as [C2 _ _ _].
  destruct (inv _ _ Hk1) as [_ _ [_ _ _ (vs & D1 & _ & D2)] _].
  destruct (inv _ _ (trans _ _ _ _ _ Hk1 Hk2)) as [_ _ [_ _ _ (vs' & D1' & _ & D2')] _].
  rewrite (start_collector _ _ _ _ _ Hs), <- run_ops_app in C1, C2.
  rewrite omap_app, app_assoc in C2. unfold gather_at in *. rewrite C1 in Hm. rewrite C2.
  destruct (sources_kept (boot_ops (H:=H) (R:=R) (P:=P) lookup_error ds) os) as [E1 E2].
  destruct (boot_sources (H:=H) (R:=R) (P:=P) lookup_error ds) as [B1 B2].
  assert (Hb : ∀ f, count f (boot_ops (H:=H) (R:=R) (P:=P) lookup_error ds) = 0 →
    count f ((boot_ops lookup_error ds ++ omap counted_op os) ++
             omap counted_op ((os1 ++ os2) ++ os')) < 2 ^ 64).
  { intros f Hf. rewrite <- app_assoc, <- omap_app.
    eapply Z.le_lt_trans; [by apply count_history|]. rewrite !length_app in *. lia. }
  pose proof (boot_ops_quiet (H:=H) (R:=R) (P:=P) lookup_error ds) as Hq.
  assert (Hfail : ∀ s err, dropped_source (boot_ops (H:=H) (R:=R) (P:=P) lookup_error ds ++
      omap counted_op os) = Some s →
    s (World (a_podmap a2') (bpfObjects (a_loader a1')) failure') = Err err → is_Some failure').
  { intros s err. rewrite E2, B2. intros [= <-]. cbn [w_objects w_lookup].
    destruct failure'; [done|]. by rewrite (DroppedEvents_sum _ _ vs' D1'). }
  destruct (Collect_grows (boot_ops lookup_error ds ++ omap counted_op os)
    (omap counted_op ((os1 ++ os2) ++ os'))
    (World (a_podmap a2) (bpfObjects (a_loader a1)) failure)
    (World (a_podmap a2') (bpfObjects (a_loader a1')) failure') m)
    as [Hg|(Em & s & err & Es & Hse)]; [..|by left|right; split; [done|by eapply Hfail]].
  - intros k. by apply Hb, counts_nothing_ioctl.
  - intros reason. by apply Hb, counts_nothing_drop.
  - rewrite <- app_assoc, <- omap_app, E1. by apply sources_kept.
  - rewrite <- app_assoc, <- omap_app, E2. by apply sources_kept.
  - rewrite E1, B1. intros s [= <-]. cbn [w_podmap].
    apply (rebuilds_grow kernel_bytes relo link_Close reader_Close obj_Close podmap_Close _ _ _ _ _
      (start_agent r) a2 a2' _ _ (start_rebuilds _ _ _ _ _ Hs) eq_refl Hb1 Hb2).
    rewrite !length_app in *. lia.
  - rewrite E2, B2. intros s lost [= <-]. cbn [w_objects w_lookup].
    destruct failure; [done|]. destruct failure' as [err|]; [right; by eexists|].
    rewrite (DroppedEvents_sum _ _ vs D1), (DroppedEvents_sum _ _ vs' D1'), D2, D2'.
    intros [= <-]. left. eexists. split; [done|]. apply lost_grow. rewrite !length_app in *. lia.
  - exact Hm.
Qed.

Lemma sample_go_length r a os :
  main (errors_New "E2BIG") (errors_New "ENOENT") id sample_host = Running r →
  sample_go r = Some (a, os) → (length os < 9)%nat.
Proof.
  intros Hr Hgo.
  assert (Hok : match main (errors_New "E2BIG") (errors_New "ENOENT") id sample_host with
                | Running r => match sample_go r with
                               | Some (_, os) => (length os <? 9)%nat
                               | None => true
                               end
                | _ => true
                end = true) by (vm_compute; reflexivity).
  rewrite Hr, Hgo in Hok. by apply Nat.ltb_lt.
Qed.

(** Two scrapes of the sample agent: when it starts and when its first call has
    been counted. *)
Lemma gather_grows_witness :
  ∃ r a os m', sample_go r = Some (a, os) ∧ m' ∈ gather a ∧
    series m' = ("kubenpu_cgroup_index_rebuilds_total", []) ∧ type m' = CounterValue ∧
    0 ≤ value m'.
Proof.
  destruct sample_started as (r & Hr & Hs). destruct sample_relo as [off Hoff].
  destruct (sample_settles r Hr) as (a & os & e & v & Hgo & Hin).
  destruct (gather_grows (errors_New "ENOENT") id sample_host [SampleFs.device] r 1
    BpfProgram.Sample.memory BpfProgram.Sample.relo (λ _, None) (λ _, None) (λ _, None) None off
    (start_agent r) (start_agent r) (start_agent r) a a a [] [] [] os [] [] None None
    (ConstMetric (cgroupRebuildsDesc (a_collector (start_agent r))) CounterValue
       (float64 (CgroupIndexRebuilds (a_podmap (start_agent r)))) []))
    as [(m' & Hm & Es & Et & Hle)|[_ [? [=]]]].
  - exact sample_fresh.
  - exact Hs.
  - exact BpfProgram.Sample.memory_length.
  - exact Hoff.
  - constructor.
  - constructor.
  - constructor.
  - eapply run_reach; [constructor| |exact Hgo].
    apply Forall_cons. split.
    + split; [|by_decide]. split; [cbn; lia|]. split; [by_decide|]. split; by_decide.
    + repeat (apply Forall_cons; split; [exact I|]). apply List.Forall_nil.
  - constructor.
  - constructor.
  - pose proof (sample_go_length r a os Hr Hgo). rewrite !app_nil_l, !app_nil_r. lia.
  - apply elem_of_Collect. right; right; right; left.
    by rewrite (start_collector _ _ _ _ _ Hs).
  - exists r, a, os, m'. split; [exact Hgo|]. split; [exact Hm|]. rewrite Es, Et.
    cbn [series desc labels type]. rewrite (start_rebuilds _ _ _ _ _ Hs) in Hle.
    split; [|split; [reflexivity|exact Hle]].
    rewrite (start_collector _ _ _ _ _ Hs). unfold series. cbn [desc labels].
    by destruct (desc_names (boot_ops (H:=Model.hash) (R:=Model.ring) (P:=list Z)
      (errors_New "ENOENT") [SampleFs.device])) as (_ & _ & -> & _).
Defined.
