(* ===== verification/Goroutines.v ===== *)
(** * The goroutines of the agent and the collector's mutex

    In [Agent] a call of a collector method is one step, and a scrape is a
    function of the agent's states. Here the methods are what they are in
    [metrics.go]: take the mutex, read a map entry, write it back, release the
    mutex; and a scrape takes the mutex, sends one metric after the other,
    calling its two sources on the way, and releases it. The reader loop, the
    worker and any number of HTTP handlers interleave at each of these points.
    A metric that is sent is received: the registry drains the channel. The
    handlers go on while the process closes its loader: a [Lookup] of the drop
    counters can fail, and does in a closed map ([lookup_may]).

    The shared memory and the position of the goroutines between collector
    calls are a state of [Agent]; [section] says where in a method a goroutine
    is, [scrape] where in [Collect] a handler is. The theorems: the agent's part
    of every execution is a run of [Agent] — no update is lost, no scrape sees a
    half-made one — and every finished scrape is [gather_at] of three states of
    that run; whoever holds the mutex can move and soon releases it, so nobody
    waits for ever; and counters do not decrease from scrape to scrape, nor do
    series disappear, but for the one whose [Lookup] failed. *)

From stdpp Require Import functions.
From S2P Require Import Prelude.
From S2P Require Import BpfProgram.
From S2P Require Import Kernel.
From S2P Require Import Loader.
From S2P Require Import Discovery.
From S2P Require Import Hw.
From S2P Require Import PodMap.
From S2P Require Import Metrics.
From S2P Require Import Setup.
From S2P Require Import Agent.
From S2P Require Import System.
From S2P Require Import Scrape.

Local Open Scope Z_scope.

(** ** The body of a counter method *)

(** The map entry that [IncIoctl] or [IncEventsDropped] increments. *)
Inductive slot : Type :=
  | SlotIoctl (k : key)
  | SlotDrop (reason : string).

Section Slots.

Context {W : Type}.

(** [c.m[key]]: a missing entry reads as zero. *)
Definition load (s : slot) (c : Collector W) : Z :=
  match s with
  | SlotIoctl k => default 0 (ioctlTotal c !! k)
  | SlotDrop reason => default 0 (eventsDroppedTotal c !! reason)
  end.

(** [c.m[key] = v] *)
Definition store (s : slot) (v : Z) (c : Collector W) : Collector W :=
  MkCollector
    (match s with SlotIoctl k => <[k := v]> (ioctlTotal c) | _ => ioctlTotal c end)
    (match s with
     | SlotDrop reason => <[reason := v]> (eventsDroppedTotal c)
     | _ => eventsDroppedTotal c
     end)
    (deviceInfo c) (cgroupIndexRebuildsSource c) (kernelDroppedSource c)
    (ioctlDesc c) (eventsDroppedDesc c) (cgroupRebuildsDesc c) (deviceInfoDesc c).

(** The method as one step. *)
Definition increment (s : slot) (c : Collector W) : Collector W :=
  match s with
  | SlotIoctl k => IncIoctl (namespace k) (pod k) (container k) (device k) (vendor k) (kind k) c
  | SlotDrop reason => IncEventsDropped reason c
  end.

Lemma store_increment s (c : Collector W) :
  store s (wrap 64 (load s c + 1)) c = increment s c.
Proof. destruct s as [[]|reason]; by destruct c. Qed.

End Slots.

(** What the worker's verdict increments. *)
Definition slot_of (v : verdict) : option slot :=
  match v with
  | Counted k => Some (SlotIoctl k)
  | Dropped reason => Some (SlotDrop reason)
  | Unclassified _ => None
  end.

(** ** Goroutines *)

(** Where a goroutine is in a counter method. *)
Inductive section : Type :=
  | NotCalling
  | Blocked            (** at [c.mu.Lock()] *)
  | Holding
  | Loaded (v : Z)     (** it has read the entry *)
  | Unlocking.         (** it has written it; [defer c.mu.Unlock()] is next *)

Definition locked (s : section) : bool :=
  match s with Holding | Loaded _ | Unlocking => true | _ => false end.

(** Where an HTTP handler is in [Collect], with the metrics it has sent; in a
    loop, the keys that are left; once it has called [kernelDroppedSource], the
    error of that [Lookup], if it failed. *)
Inductive scrape : Type :=
  | ScBlocked
  | ScIoctls (ks : list key) (sent : list Metric)
  | ScDrops (reasons : list string) (sent : list Metric)
  | ScKernel (sent : list Metric)
  | ScRebuilds (sent : list Metric) (failure : option error)
  | ScDevices (ks : list deviceKey) (sent : list Metric) (failure : option error)
  | ScUnlocking (sent : list Metric) (failure : option error)
  | ScDone (sent : list Metric) (failure : option error).

Definition inside (pc : scrape) : bool :=
  match pc with ScBlocked | ScDone _ _ => false | _ => true end.

(** Who holds the mutex: a goroutine in a counter method, or a handler. *)
Inductive holder : Type :=
  | Method (t : thread)
  | Handler (n : nat).

#[export] Instance holder_eq_dec : EqDecision holder.
Proof. solve_decision. Defined.

Section Collecting.

Context {W : Type} `{!MapRange}.

(** The metrics [Collect] sends, loop by loop. *)
Definition ioctl_metric (c : Collector W) (k : key) : Metric :=
  ConstMetric (ioctlDesc c) CounterValue (float64 (default 0 (ioctlTotal c !! k)))
    [namespace k; pod k; container k; device k; vendor k; kind k].

Definition drop_metric (c : Collector W) (reason : string) : Metric :=
  ConstMetric (eventsDroppedDesc c) CounterValue
    (float64 (default 0 (eventsDroppedTotal c !! reason))) [reason].

Definition kernel_metrics (w : W) (c : Collector W) : list Metric :=
  match kernelDroppedSource c with
  | Some source =>
      match source w with
      | Ok lost => [ConstMetric (eventsDroppedDesc c) CounterValue (float64 lost)
                      [ReasonRingbufFull]]
      | Err _ => []
      end
  | None => []
  end.

Definition rebuild_metric (w : W) (c : Collector W) : Metric :=
  ConstMetric (cgroupRebuildsDesc c) CounterValue
    (float64 match cgroupIndexRebuildsSource c with Some source => source w | None => 0 end) [].

Definition device_metric (c : Collector W) (k : deviceKey) : Metric :=
  ConstMetric (deviceInfoDesc c) GaugeValue 1
    [dk_device k; dk_vendor k; driver k; pciID k; numaNode k].

(** The keys in the order in which the loops visit them. *)
Definition ioctl_keys (c : Collector W) : list key := (range_map (ioctlTotal c)).*1.
Definition drop_keys (c : Collector W) : list string := (range_map (eventsDroppedTotal c)).*1.
Definition device_keys (c : Collector W) : list deviceKey :=
  (range_map (gset_to_gmap tt (deviceInfo c))).*1.

(** A scrape whose sources are called in two worlds. *)
Definition collected (w1 w2 : W) (c : Collector W) : list Metric :=
  (ioctl_metric c <$> ioctl_keys c) ++ (drop_metric c <$> drop_keys c) ++
  kernel_metrics w1 c ++ [rebuild_metric w2 c] ++ (device_metric c <$> device_keys c).

(** One step of [Collect]: the next position, and whether the mutex is taken or
    released. The drop counters are looked up in one step, in the world in which
    [Lookup] fails with [failure] or succeeds. *)
Definition scrape_step (failure : option error) (free : bool) (w : option error → W)
    (c : Collector W) (pc : scrape) :
    option (scrape * option bool) :=
  match pc with
  | ScBlocked => if free then Some (ScIoctls (ioctl_keys c) [], Some true) else None
  | ScIoctls (k :: ks) sent => Some (ScIoctls ks (sent ++ [ioctl_metric c k]), None)
  | ScIoctls [] sent => Some (ScDrops (drop_keys c) sent, None)
  | ScDrops (r :: rs) sent => Some (ScDrops rs (sent ++ [drop_metric c r]), None)
  | ScDrops [] sent => Some (ScKernel sent, None)
  | ScKernel sent => Some (ScRebuilds (sent ++ kernel_metrics (w failure) c) failure, None)
  | ScRebuilds sent f =>
      Some (ScDevices (device_keys c) (sent ++ [rebuild_metric (w None) c]) f, None)
  | ScDevices (k :: ks) sent f => Some (ScDevices ks (sent ++ [device_metric c k]) f, None)
  | ScDevices [] sent f => Some (ScUnlocking sent f, None)
  | ScUnlocking sent f => Some (ScDone sent f, Some false)
  | ScDone _ _ => None
  end.

(** The lines of [Collect] that are left, and how many steps they take. *)
Definition to_send (w1 w2 : W) (c : Collector W) (pc : scrape) : list Metric :=
  match pc with
  | ScBlocked => collected w1 w2 c
  | ScIoctls ks _ =>
      (ioctl_metric c <$> ks) ++ (drop_metric c <$> drop_keys c) ++
      kernel_metrics w1 c ++ [rebuild_metric w2 c] ++ (device_metric c <$> device_keys c)
  | ScDrops rs _ =>
      (drop_metric c <$> rs) ++
      kernel_metrics w1 c ++ [rebuild_metric w2 c] ++ (device_metric c <$> device_keys c)
  | ScKernel _ => kernel_metrics w1 c ++ [rebuild_metric w2 c] ++ (device_metric c <$> device_keys c)
  | ScRebuilds _ _ => [rebuild_metric w2 c] ++ (device_metric c <$> device_keys c)
  | ScDevices ks _ _ => device_metric c <$> ks
  | ScUnlocking _ _ | ScDone _ _ => []
  end.

Definition scrape_left (c : Collector W) (pc : scrape) : nat :=
  match pc with
  | ScIoctls ks _ => length ks + length (drop_keys c) + length (device_keys c) + 6
  | ScDrops rs _ => length rs + length (device_keys c) + 5
  | ScKernel _ => length (device_keys c) + 4
  | ScRebuilds _ _ => length (device_keys c) + 3
  | ScDevices ks _ _ => length ks + 2
  | ScUnlocking _ _ => 1
  | ScBlocked | ScDone _ _ => 0
  end%nat.

(** [Collect] of [Metrics] is the scrape in one world. *)
Lemma collected_Collect w (c : Collector W) : collected w w c = Collect w c.
Proof.
  unfold collected, Collect, ioctl_keys, drop_keys, device_keys. rewrite <- !list_fmap_compose.
  f_equal; [|f_equal]; try apply list_fmap_ext.
  - intros i [k v] Hk. apply list_elem_of_lookup_2, range_lookup in Hk. unfold compose, ioctl_metric.
    cbn. by rewrite Hk.
  - intros i [k v] Hk. apply list_elem_of_lookup_2, range_lookup in Hk. unfold compose, drop_metric.
    cbn. by rewrite Hk.
  - f_equal. f_equal. apply list_fmap_ext. by intros i [k []] _.
Qed.

End Collecting.

(** ** The process *)

Record process (H R P link reader : Type) : Type := Process {
  p_agent : agent H R P link reader PodMap (world H R P);
  p_mu : option holder;           (** [collector.mu] *)
  p_section : thread → section;
  p_scrapes : gmap nat scrape;    (** the handlers of [/metrics], by request *)
}.
Arguments Process {H R P link reader}.
Arguments p_agent {H R P link reader}.
Arguments p_mu {H R P link reader}.
Arguments p_section {H R P link reader}.
Arguments p_scrapes {H R P link reader}.

Inductive label : Type :=
  | Act (act : action lookup_env)   (** a step of [Agent] without a collector method *)
  | Call (t : thread)
  | Lock (t : thread)
  | Load (t : thread)
  | Store (t : thread)
  | Unlock (t : thread)
  | Request (n : nat)               (** a handler calls [Collect] *)
  | CollectStep (n : nat) (failure : option error).
      (** it goes on, and a [Lookup] it makes fails or not *)

(** Who takes a step of the mutex's holder. *)
Definition holder_of (l : label) : option holder :=
  match l with
  | Call t | Lock t | Load t | Store t | Unlock t => Some (Method t)
  | CollectStep n _ => Some (Handler n)
  | Act _ | Request _ => None
  end.

(** Case analysis on the guards of a step. *)
Ltac pstep_cases Hs :=
  repeat match type of Hs with
  | context [match ?x with _ => _ end] => destruct x eqn:?; try discriminate Hs
  end.

Section Process.

Context {H R P link reader : Type}.
Context `{!BpfHash H, !BpfRingbuf R, !BpfPercpu P, !MapRange}.
Context (kernel_bytes : Z → Z → bytes) (relo : string → string → option (Z * Z)).
Context (link_Close : link → option error) (reader_Close : reader → option error).
Context (obj_Close : string → option error) (podmap_Close : option error).
Context (deviceMap : gmap deviceNode deviceMeta) (queueSize : nat).
Context (devs tbl : gmap (Z * Z) Z) (ncpus : nat).

Abbreviation agent := (agent H R P link reader PodMap (world H R P)).
Abbreviation process := (process H R P link reader).
Abbreviation agent_step := (do_step (W:=world H R P) kernel_bytes relo link_Close reader_Close
  obj_Close podmap_Close deviceMap queueSize).
Abbreviation obs := (observe (H:=H) (link:=link) (reader:=reader) (St:=PodMap) (Env:=lookup_env)
  (W:=world H R P) kernel_bytes relo queueSize devs tbl).
Abbreviation reaches := (reach (W:=world H R P) kernel_bytes relo link_Close reader_Close obj_Close
  podmap_Close deviceMap queueSize devs tbl ncpus).

(** The counter method a goroutine is about to call, or is calling. *)
Definition calling (t : thread) (a : agent) : option slot :=
  match t with
  | ThMain =>
      match a_main a with Overflowing _ => Some (SlotDrop ReasonQueueFull) | _ => None end
  | ThWorker => match a_worker a with Judged _ v => slot_of v | _ => None end
  | ThSignal => None
  end.

(** The state of the goroutine once the method is done. *)
Definition method_done (t : thread) (a : agent) : agent :=
  match t with
  | ThMain => with_main Reading a
  | ThWorker => with_worker Idle (a_podmap a) a
  | ThSignal => a
  end.

(** The step of [Agent] that the method is. *)
Definition method_action (t : thread) : action lookup_env :=
  match t with ThMain => Overflow | _ => Settle end.

(** The goroutine whose program an action is part of. *)
Definition runner (act : action lookup_env) : option thread :=
  match act with
  | ReadFails _ => Some ThMain
  | Signal => Some ThSignal
  | _ => component act
  end.

(** A [Lookup] in the map of dropped events can always fail, and does when
    [loader.Close] has closed the map. *)
Definition lookup_may (failure : option error) (a : agent) : bool :=
  negb (object_closed obj_Close "dropped" (a_loader a)) || bool_decide (is_Some failure).

Definition runs_method (act : action lookup_env) (a : agent) : bool :=
  match act with
  | Overflow => true
  | Settle => bool_decide (is_Some (calling ThWorker a))
  | _ => false
  end.

Definition with_agent (a : agent) (p : process) : process :=
  Process a (p_mu p) (p_section p) (p_scrapes p).

Definition with_section (t : thread) (s : section) (mu : option holder) (p : process) : process :=
  Process (p_agent p) mu (<[t := s]> (p_section p)) (p_scrapes p).

Definition with_scrape (n : nat) (pc : scrape) (mu : option holder) (p : process) : process :=
  Process (p_agent p) mu (p_section p) (<[n := pc]> (p_scrapes p)).

Definition outside (act : action lookup_env) (p : process) : bool :=
  match runner act with
  | Some t => match p_section p t with NotCalling => true | _ => false end
  | None => true
  end.

Definition pstep (l : label) (p : process) : option process :=
  let a := p_agent p in
  match l with
  | Act act =>
      if runs_method act a || negb (outside act p) then None
      else a' ← agent_step act a; Some (with_agent a' p)
  | Call t =>
      match p_section p t, calling t a with
      | NotCalling, Some _ => Some (with_section t Blocked (p_mu p) p)
      | _, _ => None
      end
  | Lock t =>
      match p_section p t, p_mu p with
      | Blocked, None => Some (with_section t Holding (Some (Method t)) p)
      | _, _ => None
      end
  | Load t =>
      match p_section p t, calling t a with
      | Holding, Some s => Some (with_section t (Loaded (load s (a_collector a))) (p_mu p) p)
      | _, _ => None
      end
  | Store t =>
      match p_section p t, calling t a with
      | Loaded v, Some s =>
          let c := store s (wrap 64 (v + 1)) (a_collector a) in
          Some (with_section t Unlocking (p_mu p)
                  (with_agent (with_collector c (method_done t a)) p))
      | _, _ => None
      end
  | Unlock t =>
      match p_section p t with
      | Unlocking => Some (with_section t NotCalling None p)
      | _ => None
      end
  | Request n =>
      match p_scrapes p !! n with
      | None => if bool_decide (a_main a = Returned) then None
                else Some (with_scrape n ScBlocked (p_mu p) p)
      | Some _ => None
      end
  | CollectStep n failure =>
      if bool_decide (a_main a = Returned) || negb (lookup_may failure a) then None
      else
        pc ← p_scrapes p !! n;
        '(pc', mu) ← scrape_step failure (bool_decide (p_mu p = None)) (λ f, world_of f a)
                       (a_collector a) pc;
        Some (with_scrape n pc'
                match mu with
                | None => p_mu p
                | Some true => Some (Handler n)
                | Some false => None
                end p)
  end.

(** What a step does that the accounts count: the store is the method. *)
Definition pobserve (l : label) (p : process) : list observation :=
  match l with
  | Act act => obs act (p_agent p)
  | Store t => obs (method_action t) (p_agent p)
  | _ => []
  end.

Definition wf_label (l : label) : Prop :=
  match l with Act act => wf_action ncpus act | _ => True end.

#[export] Instance wf_label_dec l : Decision (wf_label l).
Proof. destruct l; apply _. Defined.

Inductive prun (p0 : process) : process → list observation → Prop :=
  | prun_refl : prun p0 p0 []
  | prun_step p os l p' :
      prun p0 p os → wf_label l → pstep l p = Some p' → prun p0 p' (os ++ pobserve l p).

(** ** Mutual exclusion *)

(** The mutex is held by whoever is in a critical section; a value that has
    been read is still the entry's. *)
Record mutex_inv (p : process) : Prop := {
  mi_method t : locked (p_section p t) = true ↔ p_mu p = Some (Method t);
  mi_handler n :
    (∃ pc, p_scrapes p !! n = Some pc ∧ inside pc = true) ↔ p_mu p = Some (Handler n);
  mi_calling t : p_section p t = Blocked ∨ p_section p t = Holding →
    is_Some (calling t (p_agent p));
  mi_loaded t v : p_section p t = Loaded v →
    ∃ s, calling t (p_agent p) = Some s ∧ v = load s (a_collector (p_agent p));
}.

(** Outside of a method, a goroutine leaves the collector and the other
    goroutines alone. *)
Lemma act_keeps act (a a' : agent) :
  agent_step act a = Some a' → runs_method act a = false →
  a_collector a' = a_collector a ∧
  ∀ t, runner act ≠ Some t → calling t a' = calling t a.
Proof.
  rewrite do_step_rule. intros Hs Hm.
  destruct Hs as [|raw r _ _ _|err _ _ _| |e Hr|e Hr|e q Hq Hw|env e v p He Hj|e v c log He Hv|Hr Hq Hw _| | | |Hr _
    |l err Hr _|Hr];
    try (split; [done|]; intros [| |] Ht;
         first [done|by (unfold calling; cbn; rewrite Hr)|by destruct Ht]).
  - destruct (take_read_same (ReadEvent (Ok raw)) (with_loader (set_ring r (a_loader a)) a))
      as (Ec & _ & _ & Ew & _).
    split; [done|]. intros [| |] Ht; [by destruct Ht|by unfold calling; rewrite Ew|done].
  - destruct (take_read_same (ReadEvent (Err err)) a) as (Ec & _ & _ & Ew & _).
    split; [done|]. intros [| |] Ht; [by destruct Ht|by unfold calling; rewrite Ew|done].
  - destruct (offer_same queueSize e a) as (Ec & _ & Ew & _). split; [done|].
    intros [| |] Ht; [by destruct Ht|by unfold calling; rewrite Ew|done].
  - cbn [runs_method] in Hm. apply bool_decide_eq_false in Hm. unfold calling in Hm.
    rewrite He in Hm. destruct v; cbn in Hm; try (by destruct Hm; eexists).
    cbn in Hv. injection Hv as <- _. split; [done|].
    intros [| |] Ht; [done|by destruct Ht|done].
Qed.

(** A goroutine moves in its method, and may change the shared memory if nobody
    else is in a critical section. *)
Lemma inv_section t s mu (a' : agent) p :
  mutex_inv p →
  (locked s = true ↔ mu = Some (Method t)) →
  (∀ g, g ≠ Method t → mu = Some g ↔ p_mu p = Some g) →
  (s = Blocked ∨ s = Holding → is_Some (calling t a')) →
  (∀ v, s = Loaded v → ∃ sl, calling t a' = Some sl ∧ v = load sl (a_collector a')) →
  (∀ t', t' ≠ t → calling t' a' = calling t' (p_agent p)) →
  (a_collector a' = a_collector (p_agent p) ∨ p_mu p = Some (Method t)) →
  mutex_inv (with_section t s mu (with_agent a' p)).
Proof.
  intros [I1 I2 I3 I4] Hs Hmu Hc Hl Hk Ha.
  assert (Hsec : ∀ t', t' ≠ t → <[t := s]> (p_section p) t' = p_section p t').
  { intros t' Hne. by apply fn_lookup_insert_ne. }
  split; cbn [with_section with_agent p_section p_mu p_scrapes p_agent].
  - intros t'. destruct (decide (t' = t)) as [->|Hne]; [by rewrite fn_lookup_insert|].
    rewrite Hsec, I1, Hmu by congruence. done.
  - intros n. rewrite I2, Hmu by done. done.
  - intros t'. destruct (decide (t' = t)) as [->|Hne]; [by rewrite fn_lookup_insert|].
    rewrite Hsec, Hk by done. apply I3.
  - intros t' v. destruct (decide (t' = t)) as [->|Hne]; [rewrite fn_lookup_insert; apply Hl|].
    rewrite Hsec, Hk by done. intros Hv. destruct Ha as [->|Ha]; [by apply I4|].
    assert (Hlk : p_mu p = Some (Method t')) by (apply I1; by rewrite Hv). congruence.
Qed.

(** A handler moves in [Collect]. *)
Lemma inv_scrape n pc mu p :
  mutex_inv p →
  (inside pc = true ↔ mu = Some (Handler n)) →
  (∀ g, g ≠ Handler n → mu = Some g ↔ p_mu p = Some g) →
  mutex_inv (with_scrape n pc mu p).
Proof.
  intros [I1 I2 I3 I4] Hs Hmu. split; cbn [with_scrape p_section p_mu p_scrapes p_agent]; try done.
  - intros t. rewrite I1, Hmu by done. done.
  - intros n'. destruct (decide (n' = n)) as [->|Hne].
    + rewrite lookup_insert_eq, <- Hs. naive_solver.
    + rewrite lookup_insert_ne by done. rewrite I2, Hmu by congruence. done.
Qed.

(** An action of [Agent] without a method, of a goroutine that is in none. *)
Lemma inv_act act (a' : agent) p :
  mutex_inv p → agent_step act (p_agent p) = Some a' → runs_method act (p_agent p) = false →
  outside act p = true → mutex_inv (with_agent a' p).
Proof.
  intros [I1 I2 I3 I4] Hs Hm Ho. destruct (act_keeps act _ a' Hs Hm) as [Ec Hk].
  assert (Hk' : ∀ t, p_section p t ≠ NotCalling → calling t a' = calling t (p_agent p)).
  { intros t Ht. apply Hk. intros Hr. unfold outside in Ho. rewrite Hr in Ho.
    by destruct (p_section p t). }
  split; cbn [with_agent p_section p_mu p_scrapes p_agent]; try done.
  - intros t Ht. rewrite Hk'; [by apply I3|]. intros Hn. rewrite Hn in Ht. naive_solver.
  - intros t v Ht. rewrite Hk', Ec by (by rewrite Ht). by apply I4.
Qed.

Lemma method_done_keeps t t' (c : Collector (world H R P)) (a : agent) :
  t' ≠ t → calling t' (with_collector c (method_done t a)) = calling t' a.
Proof. by destruct t, t'. Qed.

(** The store of a method is the method's step in [Agent]: nobody has changed
    the entry since it was read. *)
Lemma store_step t v s p :
  mutex_inv p → p_section p t = Loaded v → calling t (p_agent p) = Some s →
  agent_step (method_action t) (p_agent p) =
    Some (with_collector (store s (wrap 64 (v + 1)) (a_collector (p_agent p)))
            (method_done t (p_agent p))).
Proof.
  intros [_ _ _ I4] Hv Hs. destruct (I4 t v Hv) as (s' & Hs' & ->).
  rewrite Hs in Hs'. injection Hs' as <-. rewrite store_increment.
  destruct t; cbn [calling method_action method_done do_step] in *; [| |done].
  - destruct (a_main (p_agent p)); try discriminate Hs. by injection Hs as <-.
  - destruct (a_worker (p_agent p)) as [|e|e w]; try discriminate Hs.
    destruct w as [k|reason|err]; cbn in Hs; try discriminate Hs; by injection Hs as <-.
Qed.

Lemma scrape_step_mutex failure free w (c : Collector (world H R P)) pc pc' mu :
  scrape_step failure free w c pc = Some (pc', mu) →
  match mu with
  | Some true => free = true ∧ inside pc = false ∧ inside pc' = true
  | Some false => inside pc = true ∧ inside pc' = false
  | None => inside pc = true ∧ inside pc' = true
  end.
Proof.
  destruct pc as [|ks sent|rs sent|sent|sent f|ks sent f|sent f|sent f]; cbn [scrape_step].
  - destruct free; [|done]. by intros [= <- <-].
  - destruct ks; by intros [= <- <-].
  - destruct rs; by intros [= <- <-].
  - by intros [= <- <-].
  - by intros [= <- <-].
  - destruct ks; by intros [= <- <-].
  - by intros [= <- <-].
  - done.
Qed.

Lemma pstep_inv l p p' : mutex_inv p → pstep l p = Some p' → mutex_inv p'.
Proof.
  intros I Hs. pose proof I as [I1 I2 I3 I4].
  assert (Hsame : with_agent (p_agent p) p = p) by (by destruct p).
  destruct l as [act|t|t|t|t|t|n|n failure]; cbn [pstep] in Hs.
  - destruct (runs_method act (p_agent p) || negb (outside act p)) eqn:Eg; [done|].
    apply orb_false_iff in Eg as [Em Eo]. apply negb_false_iff in Eo.
    destruct (agent_step act (p_agent p)) as [a'|] eqn:Ea; [|done]. injection Hs as <-.
    by eapply inv_act.
  - pstep_cases Hs. injection Hs as <-. rewrite <- Hsame.
    apply inv_section; [done| |done|by intros _; eexists|done|done|by left].
    cbn. rewrite <- I1. by rewrite Heqs.
  - pstep_cases Hs. injection Hs as <-. rewrite <- Hsame.
    apply inv_section; [done|done| |by intros _; apply I3; left|done|done|by left].
    intros g Hne. cbn. rewrite Heqo. naive_solver.
  - pstep_cases Hs. injection Hs as <-. rewrite <- Hsame.
    apply inv_section; [done| |done|naive_solver|naive_solver|done|by left].
    cbn. by rewrite <- I1, Heqs.
  - pstep_cases Hs. injection Hs as <-.
    apply inv_section; [done| |done|naive_solver|done| |].
    + cbn. by rewrite <- I1, Heqs.
    + intros t' Hne. by apply method_done_keeps.
    + right. apply I1. by rewrite Heqs.
  - pstep_cases Hs. injection Hs as <-. rewrite <- Hsame.
    assert (Hmu : p_mu p = Some (Method t)) by (apply I1; by rewrite Heqs).
    apply inv_section; [done|done| |naive_solver|done|done|by left].
    intros g Hne. cbn. rewrite Hmu. naive_solver.
  - pstep_cases Hs. injection Hs as <-. apply inv_scrape; try done.
    rewrite <- I2. split; [done|]. intros (pc & Hpc & _). congruence.
  - destruct (_ || _); [done|]. destruct (p_scrapes p !! n) as [pc|] eqn:Epc; [|done].
    cbn [mbind option_bind] in Hs. destruct (scrape_step _ _ _ _ pc) as [[pc' mu]|] eqn:Esc; [|done]. injection Hs as <-.
    apply scrape_step_mutex in Esc.
    assert (Hin : inside pc = true → p_mu p = Some (Handler n)).
    { intros E. apply I2. by exists pc. }
    apply inv_scrape; [done|..]; destruct mu as [[]|].
    + destruct Esc as (_ & _ & ->). done.
    + destruct Esc as [_ ->]. done.
    + destruct Esc as [E1%Hin ->]. done.
    + destruct Esc as (E1%bool_decide_eq_true & _). intros g Hne. rewrite E1.
      split; [by intros [= <-]|done].
    + destruct Esc as [E1%Hin _]. intros g Hne. rewrite E1. split; [done|by intros [= <-]].
    + done.
Qed.

(** ** Scrapes *)

(** A run of [Agent] from [b] to [a] that passes through these states. *)
Fixpoint visits (b : agent) (l : list agent) (a : agent) (os : list observation) : Prop :=
  match l with
  | [] => reaches b a os
  | x :: l => ∃ os1 os2, os = os1 ++ os2 ∧ reaches b x os1 ∧ visits x l a os2
  end.

Lemma visits_reach b l a a' os os' :
  visits b l a os → reaches a a' os' → visits b l a' (os ++ os').
Proof.
  revert b os. induction l as [|x l IH]; intros b os; cbn [visits].
  - intros Hr Hr'. by eapply reach_trans.
  - intros (os1 & os2 & -> & Hx & Hl) Hr'. exists os1, (os2 ++ os').
    split_and!; [by rewrite app_assoc|done|by apply IH].
Qed.

Lemma visits_here b l a os : visits b l a os → visits b (l ++ [a]) a os.
Proof.
  revert b os. induction l as [|x l IH]; intros b os; cbn [visits app].
  - intros Hr. exists os, []. split_and!; [by rewrite app_nil_r|done|constructor].
  - intros (os1 & os2 & -> & Hx & Hl). exists os1, os2. split_and!; [done|done|by apply IH].
Qed.

(** What a handler has sent and will send, in terms of the states in which it
    took the mutex ([al]) and called the sources ([a1], [a2]), and of how the
    [Lookup] in [a1] failed. *)
Definition scrape_ok (b a : agent) (os : list observation) (pc : scrape) : Prop :=
  let c := a_collector a in
  match pc with
  | ScBlocked => True
  | ScIoctls _ sent | ScDrops _ sent | ScKernel sent =>
      ∃ al, visits b [al] a os ∧ a_collector al = c ∧
      ∀ w1 w2, sent ++ to_send w1 w2 c pc = collected w1 w2 c
  | ScRebuilds sent f =>
      ∃ al a1, visits b [al; a1] a os ∧ lookup_may f a1 = true ∧ a_collector al = c ∧
      ∀ w2, sent ++ to_send (world_of f a1) w2 c pc = collected (world_of f a1) w2 c
  | ScDevices _ sent f | ScUnlocking sent f =>
      ∃ al a1 a2, visits b [al; a1; a2] a os ∧ lookup_may f a1 = true ∧ a_collector al = c ∧
      sent ++ to_send (world_of f a1) (world_of None a2) c pc =
        collected (world_of f a1) (world_of None a2) c
  | ScDone sent f =>
      ∃ al a1 a2, visits b [al; a1; a2] a os ∧ lookup_may f a1 = true ∧
      sent = collected (world_of f a1) (world_of None a2) (a_collector al)
  end.

Lemma scrape_ok_step b a os failure free pc pc' mu :
  reaches b a os → scrape_ok b a os pc → lookup_may failure a = true →
  scrape_step failure free (λ f, world_of f a) (a_collector a) pc = Some (pc', mu) →
  scrape_ok b a os pc'.
Proof.
  intros Hr Hok Hf Hs.
  destruct pc as [|[|k ks] sent|[|r rs] sent|sent|sent f|[|k ks] sent f|sent f|sent f];
    cbn [scrape_step] in Hs.
  - destruct free; [|done]. injection Hs as <- _. exists a.
    split_and!; [by apply (visits_here b [])|done..].
  - injection Hs as <- _. destruct Hok as (al & Hv & Ec & Eq). by exists al.
  - injection Hs as <- _. destruct Hok as (al & Hv & Ec & Eq). exists al.
    split_and!; [done..|]. intros w1 w2. rewrite <- (Eq w1 w2), <- app_assoc. done.
  - injection Hs as <- _. destruct Hok as (al & Hv & Ec & Eq). by exists al.
  - injection Hs as <- _. destruct Hok as (al & Hv & Ec & Eq). exists al.
    split_and!; [done..|]. intros w1 w2. rewrite <- (Eq w1 w2), <- app_assoc. done.
  - injection Hs as <- _. destruct Hok as (al & Hv & Ec & Eq). exists al, a.
    split_and!; [by apply (visits_here b [al])|done|done|].
    intros w2. rewrite <- (Eq _ w2), <- app_assoc. done.
  - injection Hs as <- _. destruct Hok as (al & a1 & Hv & Hl & Ec & Eq). exists al, a1, a.
    split_and!; [by apply (visits_here b [al; a1])|done|done|]. rewrite <- Eq, <- app_assoc. done.
  - injection Hs as <- _. exact Hok.
  - injection Hs as <- _. destruct Hok as (al & a1 & a2 & Hv & Hl & Ec & Eq). exists al, a1, a2.
    split_and!; [done..|]. rewrite <- Eq, <- app_assoc. done.
  - injection Hs as <- _. destruct Hok as (al & a1 & a2 & Hv & Hl & Ec & Eq). exists al, a1, a2.
    split_and!; [done|done|]. rewrite Ec, <- Eq. cbn. by rewrite app_nil_r.
  - done.
Qed.

Lemma scrape_ok_reach b a a' os os' pc :
  scrape_ok b a os pc → reaches a a' os' →
  (inside pc = true → a_collector a' = a_collector a) → scrape_ok b a' (os ++ os') pc.
Proof.
  intros Hok Hr Hin. destruct pc; cbn [scrape_ok inside] in *; rewrite ?Hin by done.
  - done.
  - destruct Hok as (al & Hv & ?). exists al. split; [by eapply visits_reach|done].
  - destruct Hok as (al & Hv & ?). exists al. split; [by eapply visits_reach|done].
  - destruct Hok as (al & Hv & ?). exists al. split; [by eapply visits_reach|done].
  - destruct Hok as (al & a1 & Hv & ?). exists al, a1. split; [by eapply visits_reach|done].
  - destruct Hok as (al & a1 & a2 & Hv & ?). exists al, a1, a2. split; [by eapply visits_reach|done].
  - destruct Hok as (al & a1 & a2 & Hv & ?). exists al, a1, a2. split; [by eapply visits_reach|done].
  - destruct Hok as (al & a1 & a2 & Hv & ?). exists al, a1, a2. split; [by eapply visits_reach|done].
Qed.

(** *** Steps of the process are runs of the agent *)

Lemma reach_one act a a' :
  wf_action ncpus act → agent_step act a = Some a' → reaches a a' (obs act a).
Proof. intros Hw Hs. apply (reach_step _ _ _ _ _ _ _ _ _ _ _ a a []); [constructor|done..]. Qed.

Lemma pstep_agent l p p' :
  mutex_inv p → wf_label l → pstep l p = Some p' →
  reaches (p_agent p) (p_agent p') (pobserve l p) ∧
  (∀ n pc, p_scrapes p !! n = Some pc → inside pc = true →
     a_collector (p_agent p') = a_collector (p_agent p)).
Proof.
  intros I Hw Hs. destruct l as [act|t|t|t|t|t|n|n failure]; cbn [pstep pobserve wf_label] in *.
  - destruct (runs_method act (p_agent p) || negb (outside act p)) eqn:Eg; [done|].
    apply orb_false_iff in Eg as [Em _].
    destruct (agent_step act (p_agent p)) as [a'|] eqn:Ea; [|done]. injection Hs as <-.
    split; [by apply reach_one|]. intros n pc _ _. by destruct (act_keeps act _ a' Ea Em).
  - pstep_cases Hs. injection Hs as <-. split; [constructor|done].
  - pstep_cases Hs. injection Hs as <-. split; [constructor|done].
  - pstep_cases Hs. injection Hs as <-. split; [constructor|done].
  - destruct (p_section p t) as [| | |v|] eqn:Es; try discriminate Hs.
    destruct (calling t (p_agent p)) as [s|] eqn:Ec; [|done]. injection Hs as <-. split.
    + apply reach_one; [by destruct t|]. by apply store_step.
    + intros n pc Hpc Hin. destruct I as [I1 I2 _ _].
      assert (H1 : p_mu p = Some (Method t)) by (apply I1; by rewrite Es).
      assert (H2 : p_mu p = Some (Handler n)) by (apply I2; by exists pc). congruence.
  - pstep_cases Hs. injection Hs as <-. split; [constructor|done].
  - pstep_cases Hs. injection Hs as <-. split; [constructor|done].
  - destruct (_ || _); [done|]. destruct (p_scrapes p !! n) as [pc|] eqn:Epc; [|done].
    cbn [mbind option_bind] in Hs. destruct (scrape_step _ _ _ _ pc) as [[pc' mu]|] eqn:Esc; [|done].
    injection Hs as <-. split; [constructor|done].
Qed.

(** How the handlers move. *)
Lemma pstep_scrapes l p p' n pc' :
  pstep l p = Some p' → p_scrapes p' !! n = Some pc' →
  p_scrapes p !! n = Some pc' ∨ pc' = ScBlocked ∨
  (p_agent p' = p_agent p ∧ pobserve l p = [] ∧ ∃ failure pc mu, p_scrapes p !! n = Some pc ∧
   lookup_may failure (p_agent p) = true ∧
   scrape_step failure (bool_decide (p_mu p = None)) (λ f, world_of f (p_agent p))
     (a_collector (p_agent p)) pc = Some (pc', mu)).
Proof.
  intros Hs Hn. destruct l as [act|t|t|t|t|t|m|m failure]; cbn [pstep pobserve] in *.
  - destruct (runs_method act (p_agent p) || negb (outside act p)); [done|].
    destruct (agent_step act (p_agent p)) as [a'|]; [|done]. injection Hs as <-. by left.
  - pstep_cases Hs. injection Hs as <-. by left.
  - pstep_cases Hs. injection Hs as <-. by left.
  - pstep_cases Hs. injection Hs as <-. by left.
  - pstep_cases Hs. injection Hs as <-. by left.
  - pstep_cases Hs. injection Hs as <-. by left.
  - pstep_cases Hs. injection Hs as <-. cbn [with_scrape p_scrapes] in Hn.
    destruct (decide (n = m)) as [->|Hne].
    + rewrite lookup_insert_eq in Hn. injection Hn as <-. by right; left.
    + rewrite lookup_insert_ne in Hn by done. by left.
  - destruct (_ || _) eqn:Eg; [done|]. apply orb_false_iff in Eg as [_ Ef%negb_false_iff].
    destruct (p_scrapes p !! m) as [pc|] eqn:Epc; [|done].
    cbn [mbind option_bind] in Hs. destruct (scrape_step _ _ _ _ pc) as [[pc1 mu]|] eqn:Esc; [|done].
    injection Hs as <-. cbn [with_scrape p_scrapes p_agent] in *.
    destruct (decide (n = m)) as [->|Hne].
    + rewrite lookup_insert_eq in Hn. injection Hn as <-. right; right.
      split_and!; [done|done|by exists failure, pc, mu].
    + rewrite lookup_insert_ne in Hn by done. by left.
Qed.

(** *** Executions *)

Record run_ok (p0 p : process) (os : list observation) : Prop := {
  ro_mutex : mutex_inv p;
  ro_reach : reaches (p_agent p0) (p_agent p) os;
  ro_scrapes n pc : p_scrapes p0 !! n = None → p_scrapes p !! n = Some pc →
    scrape_ok (p_agent p0) (p_agent p) os pc;
}.

Lemma prun_ok p0 p os : mutex_inv p0 → prun p0 p os → run_ok p0 p os.
Proof.
  intros I0. induction 1 as [|p os l p' _ [I Hr Hsc] Hw Hs].
  - split; [done|constructor|]. congruence.
  - destruct (pstep_agent l p p' I Hw Hs) as [Hone Hkeep]. split.
    + by eapply pstep_inv.
    + by eapply reach_trans.
    + intros n pc' Hnew Hn. destruct (pstep_scrapes l p p' n pc' Hs Hn)
        as [Hold|[->|(Ea & Eo & failure & pc & mu & Hold & Hf & Hst)]].
      * apply (scrape_ok_reach _ (p_agent p)); [by apply (Hsc n)|done|]. by apply (Hkeep n).
      * done.
      * rewrite Ea, Eo, app_nil_r. eapply scrape_ok_step; [done|by apply (Hsc n)|exact Hf|exact Hst].
Qed.

Lemma prun_trans p0 p1 p2 os os' : prun p0 p1 os → prun p1 p2 os' → prun p0 p2 (os ++ os').
Proof.
  intros H1. induction 1 as [|p os' l p' _ IH Hw Hs]; [by rewrite app_nil_r|].
  rewrite app_assoc. by econstructor.
Qed.

(** ** The mutex is always released *)

(** How many steps the holder still takes in its critical section. *)
Definition left (p : process) : nat :=
  match p_mu p with
  | None => 0
  | Some (Method t) =>
      match p_section p t with Holding => 3 | Loaded _ => 2 | Unlocking => 1 | _ => 0 end
  | Some (Handler n) =>
      match p_scrapes p !! n with
      | Some pc => scrape_left (a_collector (p_agent p)) pc
      | None => 0
      end
  end.

Lemma scrape_left_step failure free w (c : Collector (world H R P)) pc pc' mu :
  inside pc = true → scrape_step failure free w c pc = Some (pc', mu) →
  (scrape_left c pc' < scrape_left c pc)%nat.
Proof.
  destruct pc as [|[|k ks] sent|[|r rs] sent|sent|sent f|[|k ks] sent f|sent f|sent f]; try done;
    intros _ [= <- <-]; cbn; lia.
Qed.

Lemma scrape_step_enabled failure free w (c : Collector (world H R P)) pc :
  inside pc = true → is_Some (scrape_step failure free w c pc).
Proof. destruct pc as [|[]|[]| | |[]| |]; try done; by eexists. Qed.

(** A [Lookup] in the closed map has failed. *)
Lemma lookup_closed failure (a : agent) :
  lookup_may failure a = true → object_closed obj_Close "dropped" (a_loader a) = true →
  is_Some failure.
Proof. unfold lookup_may. intros Hf Hc. rewrite Hc in Hf. by apply bool_decide_eq_true in Hf. Qed.

(** A [Lookup] can fail at any time. *)
Lemma lookup_may_fails err (a : agent) : lookup_may (Some err) a = true.
Proof. unfold lookup_may. by rewrite bool_decide_eq_true_2, orb_true_r by (by eexists). Qed.

(** The holder of the mutex is never blocked. *)
Lemma method_enabled p t :
  mutex_inv p → locked (p_section p t) = true →
  ∃ l p', holder_of l = Some (Method t) ∧ wf_label l ∧ pstep l p = Some p'.
Proof.
  intros [I1 I2 I3 I4] Hlk. destruct (p_section p t) as [| | |v|] eqn:Es; try discriminate Hlk.
  - destruct (I3 t) as [s Hc]; [by right|]. eexists (Load t), _.
    split_and!; [done|done|]. cbn [pstep]. by rewrite Es, Hc.
  - destruct (I4 t v Es) as (s & Hc & _). eexists (Store t), _.
    split_and!; [done|done|]. cbn [pstep]. by rewrite Es, Hc.
  - eexists (Unlock t), _. split_and!; [done|done|]. cbn [pstep]. by rewrite Es.
Qed.

Lemma handler_enabled p n pc err :
  a_main (p_agent p) ≠ Returned → p_scrapes p !! n = Some pc → inside pc = true →
  ∃ p', pstep (CollectStep n (Some err)) p = Some p'.
Proof.
  intros Hret Hpc Hin.
  destruct (scrape_step_enabled (Some err) (bool_decide (p_mu p = None))
    (λ f, world_of f (p_agent p)) (a_collector (p_agent p)) pc Hin) as [[pc' mu] Hs].
  eexists. cbn [pstep]. rewrite bool_decide_eq_false_2, lookup_may_fails, Hpc by done.
  cbn [orb negb mbind option_bind]. rewrite Hs. reflexivity.
Qed.

Lemma holder_enabled p g :
  mutex_inv p → a_main (p_agent p) ≠ Returned → p_mu p = Some g →
  ∃ l p', holder_of l = Some g ∧ wf_label l ∧ pstep l p = Some p'.
Proof.
  intros I Hret Hmu. pose proof I as [I1 I2 _ _]. destruct g as [t|n].
  - apply I1 in Hmu. by apply method_enabled.
  - apply I2 in Hmu as (pc & Hpc & Hin). destruct (handler_enabled p n pc (errors_New "EIO") Hret Hpc Hin) as [p' Hs].
    by eexists (CollectStep n _), p'.
Qed.

(** Its steps bring it closer to the end of its critical section. *)
Lemma holder_progress l p p' g :
  mutex_inv p → p_mu p = Some g → holder_of l = Some g → pstep l p = Some p' →
  p_mu p' = None ∨ (p_mu p' = Some g ∧ (left p' < left p)%nat).
Proof.
  intros [I1 I2 _ _] Hmu Hl Hs. unfold left. rewrite Hmu.
  destruct l as [act|t|t|t|t|t|n|n failure]; try discriminate Hl; injection Hl as <-; cbn [pstep] in Hs.
  1-5: pose proof (proj2 (I1 t) Hmu) as Hlk; pstep_cases Hs; try discriminate Hlk;
    try (by rewrite Hmu in *); injection Hs as <-;
    cbn [with_section with_agent p_mu p_section].
  - right. rewrite Hmu, fn_lookup_insert. split; [done|lia].
  - right. rewrite Hmu, fn_lookup_insert. split; [done|lia].
  - by left.
  - destruct (_ || _); [done|]. apply I2 in Hmu as Hin. destruct Hin as (pc & Hpc & Hin).
    rewrite Hpc in *. cbn [mbind option_bind] in Hs.
    destruct (scrape_step _ _ _ _ pc) as [[pc' mu]|] eqn:Esc; [|done].
    pose proof (scrape_step_mutex _ _ _ _ _ _ _ Esc) as Hm.
    pose proof (scrape_left_step _ _ _ _ _ _ _ Hin Esc) as Hlt. injection Hs as <-.
    cbn [with_scrape p_mu p_scrapes p_agent]. destruct mu as [[]|]; [|by left|].
    + destruct Hm as (_ & Hin' & _). congruence.
    + right. rewrite Hmu, lookup_insert_eq. done.
Qed.

(** What others do does not matter to it. *)
Lemma others_wait l p p' g :
  mutex_inv p → p_mu p = Some g → holder_of l ≠ Some g → pstep l p = Some p' →
  p_mu p' = Some g ∧ left p' = left p.
Proof.
  intros [I1 I2 I3 I4] Hmu Hl Hs. unfold left. rewrite Hmu.
  destruct l as [act|t|t|t|t|t|n|n failure]; cbn [pstep] in Hs; cbn [holder_of] in Hl.
  - destruct (runs_method act (p_agent p) || negb (outside act p)) eqn:Eg; [done|].
    apply orb_false_iff in Eg as [Em _].
    destruct (agent_step act (p_agent p)) as [a'|] eqn:Ea; [|done]. injection Hs as <-.
    destruct (act_keeps act _ a' Ea Em) as [Ec _]. cbn [with_agent p_mu p_section p_scrapes p_agent].
    by rewrite Hmu, Ec.
  - pstep_cases Hs. injection Hs as <-. cbn [with_section p_mu p_section p_scrapes p_agent].
    rewrite Hmu. split; [done|]. destruct g as [t'|n]; [|done].
    by rewrite fn_lookup_insert_ne by congruence.
  - rewrite Hmu in Hs. by destruct (p_section p t).
  - pstep_cases Hs. assert (Hlk : p_mu p = Some (Method t)) by (apply I1; by rewrite Heqs).
    congruence.
  - pstep_cases Hs. assert (Hlk : p_mu p = Some (Method t)) by (apply I1; by rewrite Heqs).
    congruence.
  - pstep_cases Hs. assert (Hlk : p_mu p = Some (Method t)) by (apply I1; by rewrite Heqs).
    congruence.
  - pstep_cases Hs. injection Hs as <-. cbn [with_scrape p_mu p_section p_scrapes p_agent].
    rewrite Hmu. split; [done|]. destruct g as [t'|n']; [done|].
    destruct (decide (n' = n)) as [->|Hne]; [|by rewrite lookup_insert_ne].
    apply I2 in Hmu as (pc & Hpc & _). congruence.
  - destruct (_ || _); [done|]. destruct (p_scrapes p !! n) as [pc|] eqn:Epc; [|done].
    cbn [mbind option_bind] in Hs.
    destruct (scrape_step _ _ _ _ pc) as [[pc' mu]|] eqn:Esc; [|done].
    pose proof (scrape_step_mutex _ _ _ _ _ _ _ Esc) as Hm. rewrite Hmu in Hm.
    assert (Hin : inside pc = true → False).
    { intros Hin. apply Hl. rewrite <- Hmu. symmetry. apply I2. by exists pc. }
    destruct mu as [[]|]; [by destruct Hm| |]; destruct Hm as [Hi _]; by destruct (Hin Hi).
Qed.

(** A free mutex can be taken by whoever waits for it. *)
Lemma free_enabled p :
  a_main (p_agent p) ≠ Returned → p_mu p = None →
  (∀ t, p_section p t = Blocked → ∃ p', pstep (Lock t) p = Some p' ∧ left p' = 3%nat) ∧
  (∀ n, p_scrapes p !! n = Some ScBlocked → ∃ failure p', pstep (CollectStep n failure) p = Some p' ∧
     left p' = (length (ioctl_keys (a_collector (p_agent p))) +
                length (drop_keys (a_collector (p_agent p))) +
                length (device_keys (a_collector (p_agent p))) + 6)%nat).
Proof.
  intros Hret Hmu. split.
  - intros t Hb. eexists. cbn [pstep]. rewrite Hb, Hmu. split; [reflexivity|].
    unfold left. cbn [with_section p_mu p_section]. by rewrite fn_lookup_insert.
  - intros n Hb. eexists (Some (errors_New "EIO")), _. cbn [pstep].
    rewrite bool_decide_eq_false_2, lookup_may_fails, Hb, Hmu by done.
    cbn [orb negb mbind option_bind scrape_step]. rewrite bool_decide_eq_true_2 by done.
    split; [reflexivity|]. unfold left. cbn [with_scrape p_mu p_scrapes p_agent].
    by rewrite lookup_insert_eq.
Qed.

(** The execution of given steps. *)
Fixpoint play (ls : list label) (p : process) (os : list observation) :
    option (process * list observation) :=
  match ls with
  | [] => Some (p, os)
  | l :: ls => p' ← pstep l p; play ls p' (os ++ pobserve l p)
  end.

Lemma play_prun p0 p os ls p' os' :
  prun p0 p os → Forall wf_label ls → play ls p os = Some (p', os') → prun p0 p' os'.
Proof.
  revert p os. induction ls as [|l ls IH]; intros p os Hr Hw; cbn [play].
  - by intros [= <- <-].
  - apply Forall_cons in Hw as [Hw Hws].
    destruct (pstep l p) as [p1|] eqn:E; [|done]. opt_cbn. apply IH; [|done]. by econstructor.
Qed.

(** The process when [main] enters its loop. *)
Definition start_process (a : agent) : process := Process a None (λ _, NotCalling) ∅.

Lemma start_mutex a : mutex_inv (start_process a).
Proof.
  split; cbn; try done.
  - intros n. split; [|done]. by intros (pc & ?%lookup_empty_Some & _).
  - by intros t [?|?].
Qed.

End Process.

(** *** Scrapes of the started agent *)

(** The sources [main] has set read one part of the world each. *)
Lemma collected_gather {H R P link reader} `{!BpfPercpu P, !MapRange} lookup_error failure
    (a1 a2 : agent H R P link reader PodMap (world H R P)) (c : Collector (world H R P)) :
  cgroupIndexRebuildsSource c = Some (λ w, CgroupIndexRebuilds (w_podmap w)) →
  kernelDroppedSource c = Some (λ w, DroppedEvents lookup_error (w_lookup w) (w_objects w)) →
  collected (world_of failure a1) (world_of None a2) c =
    Collect (World (a_podmap a2) (bpfObjects (a_loader a1)) failure) c.
Proof.
  intros E1 E2. rewrite <- collected_Collect. unfold collected, kernel_metrics, rebuild_metric.
  by rewrite E1, E2.
Qed.

Lemma reach_sources {H R P link reader conn}
    `{!BpfHash H, !BpfHashOk H, !BpfRingbuf R, !BpfRingbufOk R, !BpfPercpu P, !BpfPercpuOk P}
    lookup_error range_kinds (h : host H R P link reader conn) ds r ncpus
    kernel_bytes relo link_Close reader_Close obj_Close podmap_Close queueSize devs tbl a os :
  started lookup_error range_kinds h ds r →
  reach kernel_bytes relo link_Close reader_Close obj_Close podmap_Close
    (s_deviceMap (r_setup r)) queueSize devs tbl ncpus (start_agent r) a os →
  cgroupIndexRebuildsSource (a_collector a) = Some (λ w, CgroupIndexRebuilds (w_podmap w)) ∧
  kernelDroppedSource (a_collector a) = Some (λ w, DroppedEvents lookup_error (w_lookup w) (w_objects w)).
Proof.
  intros Hs Hr.
  assert (C : a_collector a = foldl apply_op (a_collector (start_agent r)) (omap counted_op os)).
  { induction Hr as [|a os act a' _ IH Hw Hst]; [done|].
    rewrite omap_app, foldl_app, <- IH. by eapply step_counts. }
  rewrite (start_collector _ _ _ _ _ Hs), <- run_ops_app in C. rewrite C.
  destruct (sources_set (boot_ops (H:=H) (R:=R) (P:=P) lookup_error ds ++ omap counted_op os))
    as [-> ->].
  destruct (sources_kept (boot_ops (H:=H) (R:=R) (P:=P) lookup_error ds) os) as [-> ->].
  apply boot_sources.
Qed.

(** ** A process: one call of the container, and a scrape *)

Module SampleProcess.

(** The worker counts while a handler waits for the mutex. *)
Definition labels : list label :=
  [Act (Ioctl SampleRun.x 0 0xC0406469 0); Act Read; Act Offer; Act Receive;
   Act (Judge (PodMap.Sample.at_time 7)); Call ThWorker; Request 0; Lock ThWorker; Load ThWorker;
   Store ThWorker; Unlock ThWorker] ++ replicate 13 (CollectStep 0 None).

Abbreviation agent :=
  (agent Model.hash Model.ring (list Z) unit unit PodMap (world Model.hash Model.ring (list Z))).

Definition start : agent :=
  Agent (MkLoader (BpfProgram.Sample.state 4096) (Some tt) (Some tt) false false [])
    NewCollector PodMap.Sample.before [] Idle Reading false Waiting true [].

End SampleProcess.

Abbreviation sample_play ls :=
  (play BpfProgram.Sample.memory BpfProgram.Sample.relo (λ _, None) (λ _, None) (λ _, None) None
     SampleRun.deviceMap 4 BpfProgram.Sample.devs BpfProgram.Sample.tbl ls (start_process SampleProcess.start) []).

Lemma sample_labels n : Forall (wf_label 2) (take n SampleProcess.labels).
Proof.
  apply Forall_take. apply Forall_cons. split.
  - split; [|by_decide]. split; [cbn; lia|]. split; [by_decide|]. split; by_decide.
  - repeat (apply Forall_cons; split; [exact I|]). apply List.Forall_nil.
Qed.

(** ** Properties *)

Section Properties.

Context {H R P link reader : Type}.
Context `{!BpfHash H, !BpfRingbuf R, !BpfPercpu P, !MapRange}.
Context (kernel_bytes : Z → Z → bytes) (relo : string → string → option (Z * Z)).
Context (link_Close : link → option error) (reader_Close : reader → option error).
Context (obj_Close : string → option error) (podmap_Close : option error).
Context (deviceMap : gmap deviceNode deviceMeta) (queueSize : nat).
Context (devs tbl : gmap (Z * Z) Z) (ncpus : nat).

Abbreviation agent := (agent H R P link reader PodMap (world H R P)).
Abbreviation step := (pstep kernel_bytes relo link_Close reader_Close obj_Close podmap_Close
  deviceMap queueSize).
Abbreviation executes := (prun kernel_bytes relo link_Close reader_Close obj_Close podmap_Close
  deviceMap queueSize devs tbl ncpus).
Abbreviation passes := (visits kernel_bytes relo link_Close reader_Close obj_Close podmap_Close
  deviceMap queueSize devs tbl ncpus).

(** C14: The mutex makes the collector's methods atomic: however the goroutines
    and any number of scrapes interleave at the single reads and writes inside
    the methods, the shared memory goes through a run of [Agent], in which each
    method is one step and no increment is lost; at most one goroutine or
    handler is in a critical section; and what a finished scrape has sent is
    what the collector held in the state in which it took the mutex, with the
    kernel's and the pod map's counters of two later states of that run — the
    former left out when the [Lookup] of it has failed, as it must once
    [loader.Close] has closed the map. *)
Theorem goroutines_refine (a0 : agent) p os :
  executes (start_process a0) p os →
  reach kernel_bytes relo link_Close reader_Close obj_Close podmap_Close deviceMap queueSize
    devs tbl ncpus a0 (p_agent p) os ∧
  (∀ t, locked (p_section p t) = true ↔ p_mu p = Some (Method t)) ∧
  (∀ n, (∃ pc, p_scrapes p !! n = Some pc ∧ inside pc = true) ↔ p_mu p = Some (Handler n)) ∧
  (∀ n sent failure, p_scrapes p !! n = Some (ScDone sent failure) →
     ∃ al a1 a2, passes a0 [al; a1; a2] (p_agent p) os ∧
       (object_closed obj_Close "dropped" (a_loader a1) = true → is_Some failure) ∧
       sent = collected (world_of failure a1) (world_of None a2) (a_collector al)).
Proof.
  intros Hr. destruct (prun_ok _ _ _ _ _ _ _ _ _ _ _ _ _ _ (start_mutex a0) Hr)
    as [[I1 I2 _ _] Hreach Hsc].
  split_and!; [done..|]. intros n sent failure Hn.
  destruct (Hsc n (ScDone sent failure) eq_refl Hn) as (al & a1 & a2 & Hv & Hf & Hsent).
  exists al, a1, a2. split_and!; [done| |done]. intros Hcl. by apply lookup_closed in Hf.
Qed.

(** Nobody waits for the collector for ever: in every reachable state of a
    process that has not returned, whoever holds the mutex has an enabled step;
    its steps bring it closer to the release, and the steps of all others leave
    that distance alone; and a mutex that is free can be taken by every
    goroutine and handler that waits for it, which then are three steps, or as
    many as there are series and five more, from its release. *)
Theorem mutex_released (a0 : agent) p os :
  executes (start_process a0) p os → a_main (p_agent p) ≠ Returned →
  (∀ g, p_mu p = Some g → ∃ l p', holder_of l = Some g ∧ wf_label ncpus l ∧ step l p = Some p') ∧
  (∀ g l p', p_mu p = Some g → step l p = Some p' →
     if decide (holder_of l = Some g)
     then p_mu p' = None ∨ (p_mu p' = Some g ∧ (left p' < left p)%nat)
     else p_mu p' = Some g ∧ left p' = left p) ∧
  (p_mu p = None →
     (∀ t, p_section p t = Blocked → ∃ p', step (Lock t) p = Some p' ∧ left p' = 3%nat) ∧
     (∀ n, p_scrapes p !! n = Some ScBlocked → ∃ failure p', step (CollectStep n failure) p = Some p' ∧
        left p' = (length (ioctl_keys (a_collector (p_agent p))) +
                   length (drop_keys (a_collector (p_agent p))) +
                   length (device_keys (a_collector (p_agent p))) + 6)%nat)).
Proof.
  intros Hr Hret. destruct (prun_ok _ _ _ _ _ _ _ _ _ _ _ _ _ _ (start_mutex a0) Hr) as [I _ _].
  split_and!.
  - intros g Hg. by apply holder_enabled.
  - intros g l p' Hg Hs. case_decide; [by eapply holder_progress|by eapply others_wait].
  - intros Hmu. by apply free_enabled.
Qed.

End Properties.

(** C18: Counters of the running agent never decrease: of two scrapes of the
    started agent, one finished when the other begins, in an execution of less
    than 2^64 observable steps in which goroutines, the kernel and other
    scrapes interleave at will, the second has every series of the first, of
    the same type and with at least its value — ioctl counts, drops of the agent
    and of the kernel's ring buffer, index rebuilds and device information — with
    one exception: the series of the ring buffer's drops can be missing, and only
    when the second scrape's [Lookup] of them has failed. *)
Theorem counters_never_decrease {H R P link reader conn} `{!MapRange}
    `{!BpfHash H, !BpfHashOk H, !BpfRingbuf R, !BpfRingbufOk R, !BpfPercpu P, !BpfPercpuOk P}
    lookup_error range_kinds (h : host H R P link reader conn) ds r ncpus
    kernel_bytes relo link_Close reader_Close obj_Close podmap_Close off
    p p' os os' i j sent sent' failure failure' m :
  (∀ opt o, h_loadBpfObjects h opt = Ok o → fresh_objects ncpus o) →
  started lookup_error range_kinds h ds r →
  (∀ addr n, 0 ≤ n → Z.of_nat (length (kernel_bytes addr n)) = n) →
  relo "inode" "i_rdev" = Some (off, 4) →
  let executes := prun kernel_bytes relo link_Close reader_Close obj_Close podmap_Close
    (s_deviceMap (r_setup r)) (queue_size (r_config r)) (devs_of ds) (tbl_of range_kinds ds)
    ncpus in
  executes (start_process (start_agent r)) p os → executes p p' os' →
  Z.of_nat (length (os ++ os')) < 2 ^ 64 →
  p_scrapes p !! i = Some (ScDone sent failure) →
  p_scrapes p !! j = None → p_scrapes p' !! j = Some (ScDone sent' failure') →
  m ∈ sent →
  (∃ m', m' ∈ sent' ∧ series m' = series m ∧ type m' = type m ∧ value m ≤ value m') ∨
  (series m = ("kubenpu_events_dropped_total", [ReasonRingbufFull]) ∧ is_Some failure').
Proof.
  intros Hload Hs Hk Hrelo executes Hr Hr' Hlen Hi Hj Hj' Hm. subst executes.
  destruct (prun_ok _ _ _ _ _ _ _ _ _ _ _ _ _ _ (start_mutex _) Hr) as [I _ Hsc].
  destruct (prun_ok _ _ _ _ _ _ _ _ _ _ _ _ _ _ I Hr') as [_ _ Hsc'].
  destruct (Hsc i (ScDone sent failure) eq_refl Hi) as (al & a1 & a2 & Hv & _ & ->).
  destruct (Hsc' j (ScDone sent' failure') Hj Hj') as (al' & a1' & a2' & Hv' & _ & ->).
  destruct Hv as (o1 & o1' & -> & V1 & o2 & o2' & -> & V2 & o3 & o3' & -> & V3 & V4).
  destruct Hv' as (o5 & o5' & -> & V5 & o6 & o6' & -> & V6 & o7 & o7' & -> & V7 & _).
  pose proof (reach_trans _ _ _ _ _ _ _ _ _ _ _ _ _ _ _ _ V4 V5) as V45.
  pose proof (reach_trans _ _ _ _ _ _ _ _ _ _ _ _ _ _ _ _ V3 V45) as V35.
  pose proof (reach_trans _ _ _ _ _ _ _ _ _ _ _ _ _ _ _ _ V2 V35) as V25.
  pose proof (reach_trans _ _ _ _ _ _ _ _ _ _ _ _ _ _ _ _ V1 V25) as V15.
  destruct (reach_sources _ _ _ _ _ _ _ _ _ _ _ _ _ _ _ _ _ Hs V1) as [E1 E2].
  destruct (reach_sources _ _ _ _ _ _ _ _ _ _ _ _ _ _ _ _ _ Hs V15) as [E1' E2'].
  rewrite (collected_gather lookup_error failure) in Hm by done.
  rewrite (collected_gather lookup_error failure') by done.
  eapply (gather_grows _ _ _ _ _ _ _ _ _ _ _ _ off al a1 a2 al' a1' a2'); try done.
  rewrite !length_app in *. lia.
Qed.

(** *** The samples *)

Lemma goroutines_refine_witness :
  ∃ p os sent (al a1 a2 : SampleProcess.agent), sample_play SampleProcess.labels = Some (p, os) ∧
    p_scrapes p !! 0%nat = Some (ScDone sent None) ∧
    sent = collected (world_of None a1) (world_of None a2) (a_collector al).
Proof.
  assert (Hok : match sample_play SampleProcess.labels with
                | Some (p, _) => match p_scrapes p !! 0%nat with Some (ScDone _ None) => true | _ => false end
                | None => false
                end = true) by (vm_compute; reflexivity).
  destruct (sample_play SampleProcess.labels) as [[p os]|] eqn:E; [|discriminate Hok].
  destruct (p_scrapes p !! 0%nat) as [[| | | | | | |sent [err|]]|] eqn:Es; try discriminate Hok.
  destruct (goroutines_refine BpfProgram.Sample.memory BpfProgram.Sample.relo (λ _, None) (λ _, None)
    (λ _, None) None SampleRun.deviceMap 4 BpfProgram.Sample.devs BpfProgram.Sample.tbl 2
    SampleProcess.start p os) as (_ & _ & _ & Hsc).
  - eapply play_prun; [constructor|apply (sample_labels 24)|exact E].
  - destruct (Hsc 0%nat sent None Es) as (al & a1 & a2 & _ & _ & Hsent).
    exists p, os, sent, al, a1, a2. split; [reflexivity|]. split; [exact Es|exact Hsent].
Defined.

(** The worker has the mutex and a handler waits for it. *)
Lemma mutex_released_witness :
  ∃ p os l p', sample_play (take 9 SampleProcess.labels) = Some (p, os) ∧
    holder_of l = Some (Method ThWorker) ∧
    pstep BpfProgram.Sample.memory BpfProgram.Sample.relo (λ _, None) (λ _, None) (λ _, None) None
      SampleRun.deviceMap 4 l p = Some p'.
Proof.
  assert (Hok : match sample_play (take 9 SampleProcess.labels) with
                | Some (p, _) => bool_decide (p_mu p = Some (Method ThWorker)) &&
                                 bool_decide (a_main (p_agent p) = Reading)
                | None => false
                end = true) by (vm_compute; reflexivity).
  destruct (sample_play (take 9 SampleProcess.labels)) as [[p os]|] eqn:E; [|discriminate Hok].
  apply andb_true_iff in Hok as [Hmu Hmain]. apply bool_decide_eq_true in Hmu, Hmain.
  destruct (mutex_released BpfProgram.Sample.memory BpfProgram.Sample.relo (λ _, None) (λ _, None)
    (λ _, None) None SampleRun.deviceMap 4 BpfProgram.Sample.devs BpfProgram.Sample.tbl 2
    SampleProcess.start p os) as (Hen & _).
  - eapply play_prun; [constructor|apply (sample_labels 9)|exact E].
  - by rewrite Hmain.
  - destruct (Hen (Method ThWorker) Hmu) as (l & p' & Hl & _ & Hs).
    exists p, os, l, p'. split; [reflexivity|]. split; [exact Hl|exact Hs].
Defined.

(** The agent [main] starts is scraped, counts a call, and is scraped again. *)
Module SampleScrapes.

Definition first : list label := Request 0 :: replicate 13 (CollectStep 0 None).

Definition second : list label :=
  [Act (Ioctl (Build_exec_ctx 0 1000 4 0) 0 0xC0406469 0); Act Read; Act Offer; Act Receive;
   Act (Judge (PodMap.Sample.at_time 7)); Call ThWorker; Request 1; Lock ThWorker; Load ThWorker;
   Store ThWorker; Unlock ThWorker] ++ replicate 14 (CollectStep 1 None).

Definition go (r : running Model.hash Model.ring (list Z) unit unit unit) (ls : list label)
    (p : process Model.hash Model.ring (list Z) unit unit) :=
  play BpfProgram.Sample.memory BpfProgram.Sample.relo (λ _, None) (λ _, None) (λ _, None) None
    (s_deviceMap (r_setup r)) (queue_size (r_config r))
    (devs_of [SampleFs.device]) (tbl_of id [SampleFs.device]) ls p [].

Definition finished (n : nat) (p : process Model.hash Model.ring (list Z) unit unit) : bool :=
  match p_scrapes p !! n with Some (ScDone (_ :: _) None) => true | _ => false end.

Definition both (r : running Model.hash Model.ring (list Z) unit unit unit) : bool :=
  match go r first (start_process (start_agent r)) with
  | Some (p, os) =>
      match go r second p with
      | Some (p', os') =>
          finished 0 p && finished 1 p' && bool_decide (p_scrapes p !! 1%nat = None) &&
          (length (os ++ os') <? 9)%nat
      | None => false
      end
  | None => false
  end.

End SampleScrapes.

Lemma sample_scrapes_labels :
  Forall (wf_label 1) SampleScrapes.first ∧ Forall (wf_label 1) SampleScrapes.second.
Proof.
  split; [repeat (apply Forall_cons; split; [exact I|]); apply List.Forall_nil|].
  apply Forall_cons. split.
  - split; [|by_decide]. split; [cbn; lia|]. split; [by_decide|]. split; by_decide.
  - repeat (apply Forall_cons; split; [exact I|]). apply List.Forall_nil.
Qed.

(** The first scrape's first metric is in the second, no smaller. *)
Lemma counters_never_decrease_witness :
  ∃ (p' : process Model.hash Model.ring (list Z) unit unit) m sent',
    p_scrapes p' !! 1%nat = Some (ScDone sent' None) ∧
    ∃ m', m' ∈ sent' ∧ series m' = series m ∧ type m' = type m ∧ value m ≤ value m'.
Proof.
  destruct sample_started as (r & Hr & Hs). destruct sample_relo as [off Hoff].
  assert (Hok : match main (errors_New "E2BIG") (errors_New "ENOENT") id sample_host with
                | Running r => SampleScrapes.both r
                | _ => false
                end = true) by (vm_compute; reflexivity).
  rewrite Hr in Hok. unfold SampleScrapes.both in Hok.
  destruct (SampleScrapes.go r SampleScrapes.first _) as [[p os]|] eqn:E1; [|discriminate Hok].
  destruct (SampleScrapes.go r SampleScrapes.second p) as [[p' os']|] eqn:E2; [|discriminate Hok].
  apply andb_true_iff in Hok as [[[H0 H1]%andb_true_iff Hn]%andb_true_iff Hlen].
  apply bool_decide_eq_true in Hn. apply Nat.ltb_lt in Hlen. unfold SampleScrapes.finished in H0, H1.
  destruct (p_scrapes p !! 0%nat) as [[| | | | | | |[|m sent] [err|]]|] eqn:Ep; try discriminate H0.
  destruct (p_scrapes p' !! 1%nat) as [[| | | | | | |[|m' sent'] [err'|]]|] eqn:Ep'; try discriminate H1.
  exists p', m, (m' :: sent'). split; [exact Ep'|].
  destruct (counters_never_decrease (errors_New "ENOENT") id sample_host [SampleFs.device] r 1
    BpfProgram.Sample.memory BpfProgram.Sample.relo (λ _, None) (λ _, None) (λ _, None) None off
    p p' os os' 0 1 (m :: sent) (m' :: sent') None None m) as [Hm|[_ [? [=]]]].
  - exact sample_fresh.
  - exact Hs.
  - exact BpfProgram.Sample.memory_length.
  - exact Hoff.
  - eapply play_prun; [constructor|exact (proj1 sample_scrapes_labels)|exact E1].
  - eapply play_prun; [constructor|exact (proj2 sample_scrapes_labels)|exact E2].
  - lia.
  - exact Ep.
  - exact Hn.
  - exact Ep'.
  - by left.
  - exact Hm.
Defined.
