(* ===== verification/Scheduling.v ===== *)
(** * Goroutines and scrapes under a fair scheduler

    The executions of [Goroutines] in infinite time. The Go scheduler lets every
    goroutine run that can ([fair]); a read that fails is a turn of [main] like
    one that succeeds, and that reads do not fail for ever is a hypothesis of its
    own where it is needed ([recovers]). [sync.Mutex] is free of starvation:
    whoever waits for it gets it if it is released again and again ([served]).
    Under these the executions of the goroutines, lock by lock, are fair
    executions of [Agent] ([view], [goroutine_fair]), so that the theorems of
    [Liveness] hold of the program with its mutex: events are handled and a
    signal ends the process, unless closing the reader fails, however scrapes
    come in between; and every scrape is answered. *)

From stdpp Require Import functions.
From S2P Require Import Prelude.
From S2P Require Import BpfProgram.
From S2P Require Import Kernel.
From S2P Require Import Loader.
From S2P Require Import PodMap.
From S2P Require Import Metrics.
From S2P Require Import Setup.
From S2P Require Import Agent.
From S2P Require Import Fairness.
From S2P Require Import Liveness.
From S2P Require Import System.
From S2P Require Import Scrape.
From S2P Require Import Goroutines.

Section Waiting.

Context {H R P link reader : Type}.

(** Whether the process still runs and this goroutine or handler is at
    [c.mu.Lock()]. *)
Definition waits (g : holder) (p : process H R P link reader) : bool :=
  negb (bool_decide (a_main (p_agent p) = Returned)) &&
  match g with
  | Method t => match p_section p t with Blocked => true | _ => false end
  | Handler n => match p_scrapes p !! n with Some ScBlocked => true | _ => false end
  end.

(** Nobody holds the mutex, or the process has ended. *)
Definition available (p : process H R P link reader) : Prop :=
  p_mu p = None ∨ a_main (p_agent p) = Returned.

(** Who can rely on a step; calls of the kernel, signals, failing reads and
    requests come from outside. *)
Definition actor (l : label) : option holder :=
  match l with Act act => Method <$> component act | _ => holder_of l end.

(** Who makes a step: [main] makes a read that fails. *)
Definition turn_of (l : label) : option holder :=
  match l with Act act => Method <$> turn act | _ => holder_of l end.

(** The step of [Agent] that a step is, if it is one. *)
Definition agent_action (l : label) : option (action lookup_env) :=
  match l with Act act => Some act | Store t => Some (method_action t) | _ => None end.

End Waiting.

(** What a goroutine can rely on, it makes itself. *)
Lemma actor_turn l g : actor l = Some g → turn_of l = Some g.
Proof. destruct l as [act| | | | | | |]; try done. by destruct act. Qed.

Section Scheduling.

Context {H R P link reader : Type}.
Context `{!BpfHash H, !BpfRingbuf R, !BpfPercpu P, !MapRange}.
Context (kernel_bytes : Z → Z → bytes) (relo : string → string → option (Z * Z)).
Context (link_Close : link → option error) (reader_Close : reader → option error).
Context (obj_Close : string → option error) (podmap_Close : option error).
Context (deviceMap : gmap deviceNode deviceMeta) (queueSize : nat).
Context (devs tbl : gmap (Z * Z) Z) (ncpus : nat).

Abbreviation agent := (agent H R P link reader PodMap (world H R P)).
Abbreviation process := (process H R P link reader).
Abbreviation step := (pstep kernel_bytes relo link_Close reader_Close obj_Close podmap_Close
  deviceMap queueSize).
Abbreviation seen := (pobserve kernel_bytes relo queueSize devs tbl).
Abbreviation executes := (prun kernel_bytes relo link_Close reader_Close obj_Close podmap_Close
  deviceMap queueSize devs tbl ncpus).
Abbreviation agent_history_step := (history_step (H:=H) (link:=link) (reader:=reader) (St:=PodMap)
  (Env:=lookup_env) (W:=world H R P) kernel_bytes relo link_Close reader_Close obj_Close
  podmap_Close deviceMap queueSize devs tbl ncpus).

(** ** Executions *)

(** The process with what it has observably done. *)
Definition moment : Type := process * list observation.

Definition sched_step (l : label) (h : moment) : option moment :=
  if bool_decide (wf_label ncpus l) then p' ← step l h.1; Some (p', h.2 ++ seen l h.1) else None.

(** A mutex that is available again and again is given to everyone who waits. *)
Definition served (g : holder) (x : execution (S:=moment) (A:=label)) : Prop :=
  ∀ n, (∀ k, (n ≤ k)%nat → ∃ m, (k ≤ m)%nat ∧ available (state_at x m).1) →
       ∃ m, (n ≤ m)%nat ∧ waits g (state_at x m).1 = false.

(** An execution of the process from [a0], with every goroutine and handler
    scheduled and served. *)
Record scheduled (a0 : agent) (x : execution (S:=moment) (A:=label)) : Prop := {
  sc_start : state_at x 0 = (start_process a0, []);
  sc_valid : valid sched_step x;
  sc_fair g : fair sched_step turn_of actor g x;
  sc_served g : served g x;
}.

(** What [Agent] sees of an execution. *)
Definition view (x : execution (S:=moment) (A:=label)) :
    execution (S:=agent * list observation) (A:=action lookup_env) :=
  Execution (λ n, (p_agent (state_at x n).1, (state_at x n).2))
            (λ n, l ← action_at x n; agent_action l).

Lemma sched_step_Some l h h' :
  sched_step l h = Some h' →
  wf_label ncpus l ∧ step l h.1 = Some h'.1 ∧ h'.2 = h.2 ++ seen l h.1.
Proof.
  unfold sched_step. case_bool_decide; [|done].
  destruct (step l h.1) as [p'|]; [|done]. opt_cbn. by intros [= <-].
Qed.

Lemma sched_enabled l h p' :
  wf_label ncpus l → step l h.1 = Some p' → is_Some (sched_step l h).
Proof. intros Hw Hs. unfold sched_step. rewrite bool_decide_eq_true_2, Hs by done. by eexists. Qed.

(** *** Invariants *)

Record sched_ok (h : moment) : Prop := {
  so_mutex : mutex_inv h.1;
  so_control : control_inv (p_agent h.1);
}.

Lemma sched_ok_step l h h' : sched_ok h → sched_step l h = Some h' → sched_ok h'.
Proof.
  intros [Im Ic] (Hw & Hs & _)%sched_step_Some. split; [by eapply pstep_inv|].
  destruct (pstep_agent kernel_bytes relo link_Close reader_Close obj_Close podmap_Close deviceMap
    queueSize devs tbl ncpus l _ _ Im Hw Hs) as [Hr _].
  induction Hr as [|a' os act a'' _ IH _ Hst]; [done|]. by eapply step_control.
Qed.

Lemma scheduled_ok a0 x n :
  control_inv a0 → scheduled a0 x → sched_ok (state_at x n).
Proof.
  intros Hc [Est Hv _ _].
  apply (valid_invariant sched_step sched_ok x 0 n Hv); [apply sched_ok_step|lia|].
  rewrite Est. split; [apply start_mutex|done].
Qed.

Lemma returned_calling (a : agent) t :
  control_inv a → a_main a = Returned → calling t a = None.
Proof.
  intros [_ _ _ C4 C5] Hret. destruct (C4 (C5 ltac:(by rewrite Hret))) as (_ & _ & Hw).
  destruct t; cbn [calling]; by rewrite ?Hret, ?Hw.
Qed.

(** A goroutine that waits for the mutex keeps [main] from returning. *)
Lemma blocked_running h t :
  sched_ok h → p_section h.1 t = Blocked → a_main (p_agent h.1) ≠ Returned.
Proof.
  intros [[_ _ I3 _] Hc] Hb Hret. destruct (I3 t) as [s Hs]; [by left|].
  by rewrite (returned_calling _ t Hc Hret) in Hs.
Qed.

(** *** The holder of the mutex *)

Lemma left_positive (p : process) g : mutex_inv p → p_mu p = Some g → (0 < left p)%nat.
Proof.
  intros [I1 I2 _ _] Hmu. unfold left. rewrite Hmu. destruct g as [t|n].
  - apply I1 in Hmu. destruct (p_section p t); try discriminate Hmu; lia.
  - apply I2 in Hmu as (pc & -> & Hin).
    destruct pc as [|ks sent|rs sent|sent|sent f|ks sent f|sent f|sent f]; try discriminate Hin; cbn; lia.
Qed.

(** A step that is not of the holder in its critical section is not the holder's. *)
Lemma others_act l (p p' : process) g :
  mutex_inv p → p_mu p = Some g → holder_of l ≠ Some g → step l p = Some p' → turn_of l ≠ Some g.
Proof.
  intros [I1 _ _ _] Hmu Hl Hs. destruct l as [act| | | | | | |]; try done.
  cbn [turn_of]. destruct (turn act) as [t|] eqn:Ec; [|done]. intros [= <-].
  apply I1 in Hmu. assert (Er : runner act = Some t) by (by destruct act).
  cbn [pstep] in Hs. unfold outside in Hs. rewrite Er in Hs.
  destruct (p_section p t); try discriminate Hmu; by rewrite orb_true_r in Hs.
Qed.

(** A step is the holder's, and the mutex comes closer to its release, or it
    leaves the mutex alone. *)
Lemma holder_or_other l (p p' : process) g :
  mutex_inv p → p_mu p = Some g → step l p = Some p' →
  (left p' < left p)%nat ∨ (left p' = left p ∧ p_mu p' = Some g ∧ turn_of l ≠ Some g).
Proof.
  intros I Hmu Hs. destruct (decide (holder_of l = Some g)) as [Hl|Hl].
  - left. destruct (holder_progress kernel_bytes relo link_Close reader_Close obj_Close
      podmap_Close deviceMap queueSize l _ _ g I Hmu Hl Hs) as [Emu'|[_ Hlt]]; [|done].
    pose proof (left_positive _ _ I Hmu). unfold left at 1. by rewrite Emu'.
  - right. destruct (others_wait kernel_bytes relo link_Close reader_Close obj_Close podmap_Close
      deviceMap queueSize l _ _ g I Hmu Hl Hs) as [Emu' Eleft].
    split_and!; [done|done|]. by eapply others_act.
Qed.

(** ** One goroutine at a time *)

(** What the steps of a goroutine do, by where it is. *)
Lemma own_step l p p' t :
  turn_of l = Some (Method t) → step l p = Some p' →
  match p_section p t with
  | NotCalling => (∃ act, l = Act act ∧ turn act = Some t) ∨ p_section p' t = Blocked
  | Blocked => p_section p' t = Holding
  | Holding => ∃ v, p_section p' t = Loaded v
  | Loaded _ => l = Store t
  | Unlocking => p_section p' t = NotCalling
  end.
Proof.
  intros Hl Hs. destruct l as [act|t'|t'|t'|t'|t'|n|n failure]; try discriminate Hl; cbn [pstep] in Hs.
  - cbn [turn_of] in Hl. destruct (turn act) as [t'|] eqn:Ec; [|discriminate Hl].
    injection Hl as ->. assert (Er : runner act = Some t) by (by destruct act).
    unfold outside in Hs. rewrite Er in Hs.
    destruct (p_section p t); [left; by exists act|..]; by rewrite orb_true_r in Hs.
  - injection Hl as ->. destruct (p_section p t); try discriminate Hs.
    destruct (calling t (p_agent p)); [|done]. injection Hs as <-. right. apply fn_lookup_insert.
  - injection Hl as ->. destruct (p_section p t); try discriminate Hs.
    destruct (p_mu p); [done|]. injection Hs as <-. apply fn_lookup_insert.
  - injection Hl as ->. destruct (p_section p t); try discriminate Hs.
    destruct (calling t (p_agent p)); [|done]. injection Hs as <-. eexists. apply fn_lookup_insert.
  - injection Hl as ->. destruct (p_section p t); try discriminate Hs. done.
  - injection Hl as ->. destruct (p_section p t); try discriminate Hs.
    injection Hs as <-. apply fn_lookup_insert.
Qed.

(** What is not its step leaves it where it is. *)
Lemma others_step l p p' t :
  turn_of l ≠ Some (Method t) → step l p = Some p' → p_section p' t = p_section p t.
Proof.
  intros Hl Hs.
  assert (Hne : ∀ s t', Some (Method t') ≠ Some (Method t) →
    <[t' := s]> (p_section p) t = p_section p t).
  { intros s t' Hne. apply fn_lookup_insert_ne. congruence. }
  destruct l as [act|t'|t'|t'|t'|t'|n|n failure]; cbn [pstep] in Hs; cbn [turn_of holder_of] in Hl;
    pstep_cases Hs.
  - destruct (do_step _ _ _ _ _ _ _ _ act (p_agent p)); [|done]. by injection Hs as <-.
  - injection Hs as <-. by apply Hne.
  - injection Hs as <-. by apply Hne.
  - injection Hs as <-. by apply Hne.
  - injection Hs as <-. by apply Hne.
  - injection Hs as <-. by apply Hne.
  - by injection Hs as <-.
  - destruct (p_scrapes p !! n) as [pc|]; [|done]. cbn [mbind option_bind] in Hs.
    destruct (scrape_step _ _ _ _ pc) as [[pc' mu]|]; [|done]. by injection Hs as <-.
Qed.

(** ** The mutex is released again and again *)

Lemma mutex_available a0 x n :
  control_inv a0 → scheduled a0 x → ∃ m, (n ≤ m)%nat ∧ available (state_at x m).1.
Proof.
  intros Hc Hx.
  apply (fair_progress sched_step turn_of actor (λ h, mutex_inv h.1) (λ h, available h.1)
    (λ h, left h.1) (λ h, default (Handler 0) (p_mu h.1))).
  - intros l h h' I (_ & Hs & _)%sched_step_Some. by eapply pstep_inv.
  - intros h I. destruct (p_mu h.1) as [g|] eqn:Emu; [|by left; left].
    destruct (decide (a_main (p_agent h.1) = Returned)) as [|Hret]; [by left; right|right].
    destruct (holder_enabled kernel_bytes relo link_Close reader_Close obj_Close podmap_Close
      deviceMap queueSize ncpus h.1 g I Hret Emu) as (l & p' & Hl & Hw & Hs).
    exists l. split; [|by eapply sched_enabled]. destruct l; by try discriminate Hl.
  - intros l h h' I (_ & Hs & _)%sched_step_Some.
    destruct (p_mu h.1) as [g|] eqn:Emu; [|by left; left]. right. cbn [default].
    destruct (holder_or_other l _ _ g I Emu Hs) as [?|(? & -> & ?)]; [by left|by right].
  - apply Hx.
  - intros h. by apply (sc_fair _ _ Hx).
  - apply (scheduled_ok a0 x n Hc Hx).
Qed.

Section Goroutine.

Variables (a0 : agent) (x : execution (S:=moment) (A:=label)) (t : thread).
Hypothesis Hcontrol : control_inv a0.
Hypothesis Hx : scheduled a0 x.

(** The goroutine makes a step of [Agent]. *)
Definition moves_at (m : nat) : Prop := acts_at turn t (view x) m.

Lemma ok n : sched_ok (state_at x n).
Proof. by eapply scheduled_ok. Qed.

(** In a critical section it takes its next step. *)
Lemma section_advances s n :
  locked s = true → p_section (state_at x n).1 t = s →
  ∃ m l, (n ≤ m)%nat ∧ action_at x m = Some l ∧ turn_of l = Some (Method t) ∧
         p_section (state_at x m).1 t = s ∧ step l (state_at x m).1 = Some (state_at x (S m)).1.
Proof.
  intros Hlk Hn.
  destruct (fair_acts sched_step turn_of actor (λ h, sched_ok h ∧ p_section h.1 t = s) (Method t) x n)
    as (m & l & Hm & [_ Hs] & Ha & Hl & (_ & Hst & _)%sched_step_Some).
  - apply Hx.
  - by apply (sc_fair _ _ Hx).
  - split; [apply ok|done].
  - intros h [[Im _] Hs]. rewrite <- Hs in Hlk.
    destruct (method_enabled kernel_bytes relo link_Close reader_Close obj_Close podmap_Close
      deviceMap queueSize ncpus h.1 t Im Hlk) as (l & p' & Hl & Hw & Hst).
    exists l. split; [|by eapply sched_enabled]. destruct l; by try discriminate Hl.
  - intros l h h' [Hok Hs] Hst Hl. split; [by eapply sched_ok_step|].
    apply sched_step_Some in Hst as (_ & Hst & _). rewrite <- Hs. by eapply others_step.
  - by exists m, l.
Qed.

Lemma loaded_moves v n :
  p_section (state_at x n).1 t = Loaded v → ∃ m, (n ≤ m)%nat ∧ moves_at m.
Proof.
  intros Hn. destruct (section_advances (Loaded v) n eq_refl Hn) as (m & l & Hm & Ha & Hl & Hs & Hst).
  exists m. split; [done|]. pose proof (own_step _ _ _ _ Hl Hst) as Hown. rewrite Hs in Hown.
  subst l. exists (method_action t). cbn. rewrite Ha. split; [done|].
  cbn [pstep] in Hst. rewrite Hs in Hst. by destruct t.
Qed.

Lemma holding_moves n :
  p_section (state_at x n).1 t = Holding → ∃ m, (n ≤ m)%nat ∧ moves_at m.
Proof.
  intros Hn. destruct (section_advances Holding n eq_refl Hn) as (m & l & Hm & Ha & Hl & Hs & Hst).
  pose proof (own_step _ _ _ _ Hl Hst) as Hown. rewrite Hs in Hown. destruct Hown as [v Hv].
  destruct (loaded_moves v (S m) Hv) as (k & Hk & Hmv). exists k. split; [lia|done].
Qed.

(** A goroutine that waits gets the mutex. *)
Lemma blocked_moves n :
  p_section (state_at x n).1 t = Blocked → ∃ m, (n ≤ m)%nat ∧ moves_at m.
Proof.
  intros Hn.
  destruct (sc_served _ _ Hx (Method t) n) as (m & Hnm & Hm).
  { intros k _. by eapply mutex_available. }
  assert (Hk : (∃ k, (n ≤ k)%nat ∧ p_section (state_at x k).1 t = Holding) ∨
    p_section (state_at x m).1 t = Blocked).
  { clear Hm. induction Hnm as [|m Hnm [?|IH]]; [by right|by left|].
    pose proof (sc_valid _ _ Hx m) as Hst. destruct (action_at x m) as [l|]; [|right; by rewrite Hst].
    apply sched_step_Some in Hst as (_ & Hst & _).
    destruct (decide (turn_of l = Some (Method t))) as [Hl|Hl].
    - left. exists (S m). split; [lia|].
      pose proof (own_step _ _ _ _ Hl Hst) as Hown. by rewrite IH in Hown.
    - right. rewrite <- IH. by eapply others_step. }
  destruct Hk as [(k & Hk & Hh)|Hb].
  - destruct (holding_moves k Hh) as (m' & Hm' & Hmv). exists m'. split; [lia|done].
  - pose proof (blocked_running _ t (ok m) Hb) as Hret. unfold waits in Hm.
    by rewrite bool_decide_eq_false_2, Hb in Hm.
Qed.

(** Outside of the methods, it is enabled in the process if it is in [Agent]. *)
Lemma idle_disabled h :
  p_section h.1 t = NotCalling → ¬ enabled sched_step actor (Method t) h →
  ¬ enabled agent_history_step component t (p_agent h.1, h.2).
Proof.
  intros Hs Hno (act & Hc & h' & (Hw & Hst & _)%history_step_Some). cbn [fst] in Hst. apply Hno.
  destruct (runs_method act (p_agent h.1)) eqn:Em.
  - exists (Call t). split; [done|].
    assert (Hcall : is_Some (calling t (p_agent h.1))).
    { destruct act; try discriminate Em; injection Hc as <-; cbn [calling do_step] in *.
      - destruct (a_main (p_agent h.1)); try discriminate Hst. by eexists.
      - by apply bool_decide_eq_true in Em. }
    destruct Hcall as [sl Hsl]. eapply sched_enabled; [done|]. cbn [pstep]. by rewrite Hs, Hsl.
  - exists (Act act). split; [by cbn; rewrite Hc|].
    assert (Er : runner act = Some t) by (by destruct act).
    eapply sched_enabled; [exact Hw|]. cbn [pstep]. unfold outside. rewrite Em, Er, Hs.
    cbn [orb negb]. by rewrite Hst.
Qed.

Lemma idle_moves n :
  p_section (state_at x n).1 t = NotCalling →
  ∃ m, (n ≤ m)%nat ∧ (moves_at m ∨ ¬ enabled agent_history_step component t (state_at (view x) m)).
Proof.
  intros Hn.
  destruct (fair_first sched_step turn_of actor (λ h, p_section h.1 t = NotCalling) (Method t) x n)
    as (m & Hm & Hs & [(l & Ha & Hl)|Hno]).
  - apply Hx.
  - apply (sc_fair _ _ Hx).
  - done.
  - intros l h h' Hs (_ & Hst & _)%sched_step_Some Hl. rewrite <- Hs. by eapply others_step.
  - pose proof (sc_valid _ _ Hx m) as Hst. rewrite Ha in Hst.
    apply sched_step_Some in Hst as (_ & Hst & _).
    pose proof (own_step _ _ _ _ Hl Hst) as Hown. rewrite Hs in Hown.
    destruct Hown as [(act & -> & Hc)|Hb].
    + exists m. split; [done|left]. exists act. cbn. by rewrite Ha.
    + destruct (blocked_moves (S m) Hb) as (k & Hk & Hmv). exists k. split; [lia|by left].
  - exists m. split; [done|right]. by apply idle_disabled.
Qed.

Lemma goroutine_fair : fair agent_history_step turn component t (view x).
Proof.
  intros n. destruct (p_section (state_at x n).1 t) as [| | |v|] eqn:Es.
  - by apply idle_moves.
  - destruct (blocked_moves n Es) as (m & ? & ?). exists m. split; [done|by left].
  - destruct (holding_moves n Es) as (m & ? & ?). exists m. split; [done|by left].
  - destruct (loaded_moves v n Es) as (m & ? & ?). exists m. split; [done|by left].
  - destruct (section_advances Unlocking n eq_refl Es) as (m & l & Hm & Ha & Hl & Hs & Hst).
    pose proof (own_step _ _ _ _ Hl Hst) as Hown. rewrite Hs in Hown.
    destruct (idle_moves (S m) Hown) as (k & Hk & Hmv). exists k. split; [lia|done].
Qed.

End Goroutine.

(** ** The agent's part of an execution *)

Lemma step_view l h h' :
  sched_ok h → sched_step l h = Some h' →
  match agent_action l with
  | Some act => agent_history_step act (p_agent h.1, h.2) = Some (p_agent h'.1, h'.2)
  | None => (p_agent h'.1, h'.2) = (p_agent h.1, h.2)
  end.
Proof.
  intros [Im _] (Hw & Hs & Eos)%sched_step_Some. rewrite Eos.
  assert (Hact : ∀ act os, wf_action ncpus act →
    do_step kernel_bytes relo link_Close reader_Close obj_Close podmap_Close deviceMap queueSize
      act (p_agent h.1) = Some (p_agent h'.1) →
    agent_history_step act (p_agent h.1, os) = Some (p_agent h'.1,
      os ++ observe kernel_bytes relo queueSize devs tbl act (p_agent h.1))).
  { intros act os Hwa Hst. unfold history_step. cbn [fst snd].
    by rewrite bool_decide_eq_true_2, Hst. }
  destruct l as [act|t|t|t|t|t|n|n failure]; cbn [agent_action pobserve pstep] in *;
    rewrite ?app_nil_r.
  - destruct (runs_method act (p_agent h.1) || _); [done|].
    destruct (do_step _ _ _ _ _ _ _ _ act (p_agent h.1)) as [a'|] eqn:Ea; [|done].
    injection Hs as Hs. apply Hact; [done|]. by rewrite <- Hs.
  - pstep_cases Hs. by injection Hs as <-.
  - pstep_cases Hs. by injection Hs as <-.
  - pstep_cases Hs. by injection Hs as <-.
  - destruct (p_section h.1 t) as [| | |v|] eqn:Es; try discriminate Hs.
    destruct (calling t (p_agent h.1)) as [sl|] eqn:Ec; [|done]. injection Hs as Hs.
    apply Hact; [by destruct t|]. rewrite <- Hs. by apply store_step.
  - pstep_cases Hs. by injection Hs as <-.
  - pstep_cases Hs. by injection Hs as <-.
  - destruct (_ || _); [done|]. destruct (p_scrapes h.1 !! n) as [pc|]; [|done].
    cbn [mbind option_bind] in Hs. destruct (scrape_step _ _ _ _ pc) as [[pc' mu]|]; [|done].
    by injection Hs as <-.
Qed.

Lemma view_run a0 x :
  control_inv a0 → scheduled a0 x →
  agent_run kernel_bytes relo link_Close reader_Close obj_Close podmap_Close deviceMap queueSize
    devs tbl ncpus a0 (view x).
Proof.
  intros Hc Hx. split; [cbn; by rewrite (sc_start _ _ Hx)|]. intros n. cbn [view action_at state_at].
  pose proof (sc_valid _ _ Hx n) as Hst. destruct (action_at x n) as [l|]; opt_cbn.
  - apply step_view; [by eapply scheduled_ok|done].
  - by rewrite Hst.
Qed.

(** ** A scrape comes to its end *)

Lemma scrape_moves l p p' n pc :
  step l p = Some p' → p_scrapes p !! n = Some pc →
  p_scrapes p' !! n = Some pc ∨
  ∃ failure pc' mu, p_scrapes p' !! n = Some pc' ∧
    scrape_step failure (bool_decide (p_mu p = None)) (λ f, world_of f (p_agent p))
      (a_collector (p_agent p)) pc = Some (pc', mu).
Proof.
  intros Hs Hn. destruct l as [act|t|t|t|t|t|m|m failure]; cbn [pstep] in Hs.
  1-6: pstep_cases Hs.
  1: destruct (do_step _ _ _ _ _ _ _ _ act (p_agent p)); [|done].
  1-6: injection Hs as <-; by left.
  - pstep_cases Hs. injection Hs as <-. left. cbn. by rewrite lookup_insert_ne by congruence.
  - destruct (_ || _); [done|]. destruct (p_scrapes p !! m) as [pc0|] eqn:Em; [|done].
    cbn [mbind option_bind] in Hs.
    destruct (scrape_step _ _ _ _ pc0) as [[pc' mu]|] eqn:Est; [|done]. injection Hs as <-. cbn.
    destruct (decide (n = m)) as [->|Hne]; [right|left; by rewrite lookup_insert_ne].
    exists failure, pc', mu. rewrite lookup_insert_eq. split; [done|]. congruence.
Qed.

(** It has finished, or the process has. *)
Definition answered (n : nat) (p : process) : Prop :=
  (∃ sent failure, p_scrapes p !! n = Some (ScDone sent failure)) ∨ a_main (p_agent p) = Returned.

(** It has passed the mutex. *)
Definition under_way (n : nat) (h : moment) : Prop :=
  mutex_inv h.1 ∧ ∃ pc, p_scrapes h.1 !! n = Some pc ∧ pc ≠ ScBlocked.

Lemma under_way_step n l h h' : under_way n h → sched_step l h = Some h' → under_way n h'.
Proof.
  intros (I & pc & Hpc & Hne) (_ & Hs & _)%sched_step_Some. split; [by eapply pstep_inv|].
  destruct (scrape_moves l _ _ n pc Hs Hpc) as [Hpc'|(failure & pc' & mu & Hpc' & Hst)]; [by exists pc|].
  exists pc'. split; [done|]. intros ->.
  by destruct pc as [|[]|[]| | |[]| |]; try discriminate Hst; destruct Hne.
Qed.

Lemma under_way_inside n h :
  under_way n h → answered n h.1 ∨
  (a_main (p_agent h.1) ≠ Returned ∧ p_mu h.1 = Some (Handler n) ∧
   ∃ pc, p_scrapes h.1 !! n = Some pc ∧ inside pc = true).
Proof.
  intros ([_ I2 _ _] & pc & Hpc & Hne).
  destruct (decide (a_main (p_agent h.1) = Returned)) as [|Hret]; [by left; right|].
  destruct (inside pc) eqn:Hin.
  - right. split_and!; [done|apply I2; by exists pc|by exists pc].
  - left; left. destruct pc; try done. by eexists _, _.
Qed.

Lemma under_way_answered a0 x n k :
  scheduled a0 x → under_way n (state_at x k) → ∃ m, (k ≤ m)%nat ∧ answered n (state_at x m).1.
Proof.
  intros Hx Hk.
  apply (fair_progress sched_step turn_of actor (under_way n) (λ h, answered n h.1) (λ h, left h.1)
    (λ _, Handler n)); [apply under_way_step| | |apply Hx|intros _; by apply (sc_fair _ _ Hx)|done].
  - intros h Hu. destruct (under_way_inside n h Hu) as [|(Hret & _ & pc & Hpc & Hin)]; [by left|right].
    destruct (handler_enabled kernel_bytes relo link_Close reader_Close obj_Close podmap_Close
      deviceMap queueSize h.1 n pc (errors_New "EIO") Hret Hpc Hin) as [p' Hs].
    exists (CollectStep n (Some (errors_New "EIO"))). split; [done|]. by eapply sched_enabled.
  - intros l h h' Hu (_ & Hs & _)%sched_step_Some.
    destruct (under_way_inside n h Hu) as [|(_ & Hmu & _)]; [by left|right]. destruct Hu as [I _].
    by destruct (holder_or_other l h.1 h'.1 (Handler n) I Hmu Hs) as [?|(? & _ & ?)]; [left|right].
Qed.

Lemma waiting_answered a0 x n k :
  control_inv a0 → scheduled a0 x → is_Some (p_scrapes (state_at x k).1 !! n) →
  ∃ m, (k ≤ m)%nat ∧ answered n (state_at x m).1.
Proof.
  intros Hc Hx [pc Hpc]. pose proof (λ j, so_mutex _ (scheduled_ok a0 x j Hc Hx)) as Hmutex.
  assert (Hblocked : ∃ m, (k ≤ m)%nat ∧ (under_way n (state_at x m) ∨ answered n (state_at x m).1)).
  { destruct (sc_served _ _ Hx (Handler n) k) as (m & Hm & Hw).
    { intros j _. by eapply mutex_available. }
    exists m. split; [done|].
    assert (Hs : is_Some (p_scrapes (state_at x m).1 !! n)).
    { apply (valid_invariant sched_step (λ h, is_Some (p_scrapes h.1 !! n)) x k m (sc_valid _ _ Hx));
        [|done|by exists pc].
      intros l h h' [pc0 Hpc0] (_ & Hst & _)%sched_step_Some.
      destruct (scrape_moves l _ _ n pc0 Hst Hpc0) as [?|(? & pc' & _ & ? & _)]; by eexists. }
    destruct Hs as [pc' Hpc']. unfold waits in Hw. rewrite Hpc' in Hw.
    case_bool_decide; [by right; right|]. left. split; [done|].
    exists pc'. split; [done|]. by intros ->. }
  destruct Hblocked as (m & Hm & [Hu|]); [|by exists m].
  destruct (under_way_answered a0 x n m Hx Hu) as (j & Hj & Ha). exists j. split; [lia|done].
Qed.

Lemma scheduled_executes a0 x n :
  scheduled a0 x → executes (start_process a0) (state_at x n).1 (state_at x n).2.
Proof.
  intros [Est Hv _ _].
  apply (valid_invariant sched_step (λ h, executes (start_process a0) h.1 h.2) x 0 n Hv); [|lia|].
  - intros l h h' Hr (Hw & Hs & ->)%sched_step_Some. by econstructor.
  - rewrite Est. constructor.
Qed.

(** *** Finite executions *)

Lemma ended_goroutine h t :
  control_inv (p_agent h.1) → a_main (p_agent h.1) = Returned →
  (∀ t, p_section h.1 t = NotCalling) → ¬ enabled sched_step actor (Method t) h.
Proof.
  intros Hc Hret Hsec (l & Hl & h' & (Hw & Hs & _)%sched_step_Some).
  pose proof (own_step _ _ _ _ (actor_turn _ _ Hl) Hs) as Hown. rewrite Hsec in Hown.
  destruct Hown as [(act & -> & _)|Hb].
  - apply (returned_disabled kernel_bytes relo link_Close reader_Close obj_Close podmap_Close
      deviceMap queueSize devs tbl ncpus (p_agent h.1, h.2) t Hc Hret).
    cbn [actor] in Hl. destruct (component act) as [t'|] eqn:Ec; [|done]. injection Hl as ->.
    exists act. split; [done|]. cbn [pstep] in Hs. destruct (runs_method _ _ || _); [done|].
    destruct (do_step _ _ _ _ _ _ _ _ act (p_agent h.1)) as [a'|] eqn:Ea; [|done].
    by eapply history_enabled.
  - pose proof (returned_calling (p_agent h.1) t Hc Hret) as Hno.
    destruct l as [act|t'|t'|t'|t'|t'|n|n failure]; try discriminate Hl; cbn [pstep] in Hs;
      try (injection Hl as ->; rewrite Hsec, ?Hno in Hs; discriminate Hs).
    destruct (runs_method _ _ || _); [done|].
    destruct (do_step _ _ _ _ _ _ _ _ act (p_agent h.1)) as [a'|]; [|done]. injection Hs as Hs.
    rewrite <- Hs in Hb. cbn in Hb. by rewrite Hsec in Hb.
Qed.

(** A process that has ended does nothing more. *)
Lemma ended_disabled h g :
  control_inv (p_agent h.1) → a_main (p_agent h.1) = Returned →
  (∀ t, p_section h.1 t = NotCalling) → ¬ enabled sched_step actor g h.
Proof.
  intros Hc Hret Hsec Hen. destruct g as [t|n].
  - revert Hen. apply (ended_goroutine h t Hc Hret Hsec).
  - destruct Hen as (l & Hl & h' & (_ & Hs & _)%sched_step_Some).
    destruct l as [act|t|t|t|t|t|m|m failure]; try discriminate Hl; [by destruct act|].
    cbn [pstep] in Hs. by rewrite bool_decide_eq_true_2 in Hs.
Qed.

(** A finite execution in whose last state nobody can move and nobody waits. *)
Lemma execution_scheduled a0 ls h :
  steps sched_step ls (start_process a0, []) = Some h →
  (∀ g, ¬ enabled sched_step actor g h) → (∀ g, waits g h.1 = false) →
  scheduled a0 (execution_of sched_step ls (start_process a0, [])).
Proof.
  intros Hs Hdis Hwaits. split.
  - done.
  - apply execution_of_valid. by eexists.
  - intros g. by eapply execution_of_fair.
  - intros g n _. exists (n `max` length ls)%nat. split; [lia|].
    by rewrite (execution_of_end _ _ _ _ _ Hs) by lia.
Qed.

Lemma ended_scheduled a0 ls h :
  steps sched_step ls (start_process a0, []) = Some h →
  control_inv a0 → a_main (p_agent h.1) = Returned → (∀ t, p_section h.1 t = NotCalling) →
  scheduled a0 (execution_of sched_step ls (start_process a0, [])).
Proof.
  intros Hs Hc0 Hret Hsec.
  assert (Hc : control_inv (p_agent h.1)).
  { rewrite <- (execution_of_end _ _ _ _ (length ls) Hs) by done. apply so_control.
    apply (valid_invariant sched_step sched_ok _ 0 (length ls)); [|apply sched_ok_step|lia|].
    - apply execution_of_valid. by eexists.
    - split; [apply start_mutex|done]. }
  apply (execution_scheduled a0 ls h Hs).
  - intros g. by apply ended_disabled.
  - intros g. unfold waits. by rewrite bool_decide_eq_true_2.
Qed.

(** *** A reader that cannot be closed *)

(** A signal has been received, and closing the reader was tried. *)
Definition after_signal (a0 : agent) : agent :=
  with_signal ReaderClosed false
    (a_log a0 ++ option_list (CloseReader reader_Close (a_loader a0)).2)
    (with_loader (CloseReader reader_Close (a_loader a0)).1 a0).

Definition signal_labels : list label :=
  [Act Signal; Act (ShutdownServer None); Act CloseRing].

Lemma signal_steps a0 :
  a_signal a0 = Waiting →
  steps sched_step signal_labels (start_process a0, []) =
    Some (start_process (after_signal a0), []).
Proof.
  intros Hsig. unfold signal_labels, sched_step. cbn. rewrite Hsig.
  do 3 (rewrite bool_decide_eq_true_2 by done; cbn).
  unfold after_signal. rewrite app_nil_r.
  by destruct (CloseReader reader_Close (a_loader a0)) as [l err].
Qed.

(** If that failed, and there is nothing to read, nobody can move. *)
Lemma unclosed_disabled `{!BpfRingbufOk R} a0 rd err g os :
  initial devs tbl ncpus a0 → rb (a_loader a0) = Some rd → reader_Close rd = Some err →
  ¬ enabled sched_step actor g (start_process (after_signal a0), os).
Proof.
  intros I0 Hrd Herr (l & Hl & h' & (_ & Hs & _)%sched_step_Some).
  destruct I0 as [_ _ Hring _ Hq Hw Hm _ _ _ Hclose].
  assert (Hl' : (CloseReader reader_Close (a_loader a0)).1 =
    log_calls [CallReaderClose rd] (set_closeReaderOnce (a_loader a0))).
  { unfold CloseReader. rewrite Hclose. cbn. by rewrite Hrd. }
  assert (Hcalling : ∀ t, calling t (after_signal a0) = None).
  { intros [| |]; cbn; by rewrite ?Hm, ?Hw. }
  assert (Hread : reader_closed reader_Close (a_loader (after_signal a0)) = false).
  { cbn. rewrite Hl'. unfold reader_closed. cbn. by rewrite Hrd, Herr. }
  cbn [fst start_process] in Hs. destruct l as [act|t|t|t|t|t|n|n failure]; cbn [pstep] in Hs;
    cbn [p_section p_agent p_scrapes p_mu] in Hs; try discriminate Hl.
  - destruct (runs_method _ _ || _); [done|].
    destruct (do_step _ _ _ _ _ _ _ _ act _) as [a'|] eqn:Ea; [|done].
    rewrite do_step_rule in Ea. cbn in Hl.
    destruct Ea; try discriminate Hl; cbn in *; try congruence.
    rewrite Hl' in *. cbn in *.
    match goal with E : ring_read _ = _ |- _ => by rewrite (ring_read_nil _ Hring) in E end.
  - cbn [start_process p_section p_agent] in Hs. by rewrite Hcalling in Hs.
  - discriminate Hs.
  - discriminate Hs.
  - discriminate Hs.
  - discriminate Hs.
  - by destruct (_ || _).
Qed.

(** ** Properties *)

Section Properties.

Context `{!BpfRingbufOk R, !BpfPercpuOk P}.
Context (env : lookup_env) (off : Z).
Hypothesis kernel_bytes_length : ∀ a n, 0 ≤ n → Z.of_nat (length (kernel_bytes a n)) = n.
Hypothesis i_rdev_at : relo "inode" "i_rdev" = Some (off, 4).

(** C9: Every event is handled in the end, whatever the goroutines and the scrapes
    do at the collector's mutex: in an execution in which goroutines and handlers
    that can run do run, and a mutex that is released again and again is given
    to everyone who waits for it, what has been queued by some time is settled,
    in order, shutdown or not and whatever the reads do; and if reads do not fail
    for ever — again and again the next read of [main] succeeds — what the kernel
    has submitted by some time is read, in order, unless a shutdown closes the
    reader first. *)
Theorem queued_events_settled (a0 : agent) x n :
  initial devs tbl ncpus a0 → scheduled a0 x →
  (recovers turn component ThMain (view x) →
   ∃ m, (n ≤ m)%nat ∧
     ((event_view <$> submitted (state_at x n).2) `prefix_of` pulled (state_at x m).2 ∨
      closeReaderOnce (a_loader (p_agent (state_at x m).1)) = true)) ∧
  (∃ m, (n ≤ m)%nat ∧ queued (state_at x n).2 `prefix_of` (settled (state_at x m).2).*1).
Proof.
  intros I0 Hx. pose proof (initial_control _ _ _ a0 I0) as Hc.
  apply (events_are_handled kernel_bytes relo link_Close reader_Close obj_Close podmap_Close
    deviceMap queueSize devs tbl ncpus env off a0 (view x) n); try done.
  - by apply view_run.
  - by eapply goroutine_fair.
  - by eapply goroutine_fair.
Qed.

(** C3: A signal ends the process, whatever scrapes are under way: in such an
    execution, once a signal has been received [main] returns, and then every
    event that was queued has been settled and none is left over; it stays so —
    unless [rb.Close] fails, which the program only logs: the reader is then not
    closed, and [main] need not leave its loop. *)
Theorem signal_returns (a0 : agent) x n :
  initial devs tbl ncpus a0 → scheduled a0 x →
  a_signal (p_agent (state_at x n).1) ≠ Waiting →
  (∃ m, (n ≤ m)%nat ∧ a_main (p_agent (state_at x m).1) = Returned ∧
     (settled (state_at x m).2).*1 = queued (state_at x m).2 ∧
     a_queue (p_agent (state_at x m).1) = [] ∧ a_worker (p_agent (state_at x m).1) = Idle ∧
     ∀ k, (m ≤ k)%nat → a_main (p_agent (state_at x k).1) = Returned) ∨
  ∃ rd err, rb (a_loader a0) = Some rd ∧ reader_Close rd = Some err.
Proof.
  intros I0 Hx Hsig. pose proof (initial_control _ _ _ a0 I0) as Hc.
  apply (signal_ends_process kernel_bytes relo link_Close reader_Close obj_Close podmap_Close
    deviceMap queueSize devs tbl ncpus env off a0 (view x) n); try done.
  - by apply view_run.
  - intros t. by eapply goroutine_fair.
Qed.

(** C29: Why the exception: when [rb.Close] fails, the process can go on for ever
    after a signal — there is an execution, fair to everybody, in which the
    signal goroutine has done all it does, readiness is withdrawn and the error
    is logged, and [main] is in its loop, waiting for records, at every later
    time. *)
Theorem failed_close_runs_on (a0 : agent) rd err :
  initial devs tbl ncpus a0 → rb (a_loader a0) = Some rd → reader_Close rd = Some err →
  ∃ x, scheduled a0 x ∧ ∀ m, (3 ≤ m)%nat →
    a_signal (p_agent (state_at x m).1) = ReaderClosed ∧
    a_ready (p_agent (state_at x m).1) = false ∧
    Errorf "failed to close ring buffer reader: %w" [err] ∈ a_log (p_agent (state_at x m).1) ∧
    a_main (p_agent (state_at x m).1) = Reading.
Proof.
  intros I0 Hrd Herr. pose proof (signal_steps a0 (init_signal _ _ _ _ I0)) as Hs.
  exists (execution_of sched_step signal_labels (start_process a0, [])). split.
  - apply (execution_scheduled _ _ _ Hs).
    + intros g. by eapply unclosed_disabled.
    + intros [t|n]; unfold waits; by rewrite andb_false_r.
  - intros m Hm. rewrite (execution_of_end _ _ _ _ m Hs) by done.
    cbn [fst start_process p_agent]. unfold after_signal. cbn. split_and!; [done|done| |].
    + unfold CloseReader. rewrite (init_reader _ _ _ _ I0). cbn. rewrite Hrd, Herr. cbn.
      apply elem_of_app. right. by left.
    + exact (init_main _ _ _ _ I0).
Qed.

(** C15: Every scrape is answered: in such an execution a handler that has called
    [Collect] finishes, unless [main] returns first; and then it has sent what
    the collector held in the state in which it took the mutex, with the
    kernel's and the pod map's counters of two later states of the run, the
    former left out when the [Lookup] of it has failed. *)
Theorem scrapes_answered (a0 : agent) x n i :
  initial devs tbl ncpus a0 → scheduled a0 x → is_Some (p_scrapes (state_at x n).1 !! i) →
  ∃ m, (n ≤ m)%nat ∧
    (a_main (p_agent (state_at x m).1) = Returned ∨
     ∃ sent failure al a1 a2, p_scrapes (state_at x m).1 !! i = Some (ScDone sent failure) ∧
       visits kernel_bytes relo link_Close reader_Close obj_Close podmap_Close deviceMap queueSize
         devs tbl ncpus a0 [al; a1; a2] (p_agent (state_at x m).1) (state_at x m).2 ∧
       (object_closed obj_Close "dropped" (a_loader a1) = true → is_Some failure) ∧
       sent = collected (world_of failure a1) (world_of None a2) (a_collector al)).
Proof.
  intros I0 Hx Hi.
  destruct (waiting_answered a0 x i n (initial_control _ _ _ a0 I0) Hx Hi)
    as (m & Hm & [(sent & failure & Hs)|Hret]).
  - exists m. split; [done|right].
    destruct (prun_ok _ _ _ _ _ _ _ _ _ _ _ _ _ _ (start_mutex a0) (scheduled_executes a0 x m Hx))
      as [_ _ Hsc].
    destruct (Hsc i (ScDone sent failure) eq_refl Hs) as (al & a1 & a2 & Hv & Hf & E).
    exists sent, failure, al, a1, a2. split_and!; [done|done| |done].
    intros Hcl. by eapply lookup_closed.
  - exists m. split; [done|by left].
Qed.

End Properties.

End Scheduling.

(** ** A process: one call, a scrape beside it, a signal, and the end *)

Module SampleSchedule.

Definition labels : list label :=
  SampleProcess.labels ++
  [Act Signal; Act (ShutdownServer None); Act CloseRing; Act ReadClosed; Act WorkerDone;
   Act ClosePodMap; Act CloseLoader; Act Return].

Abbreviation sched := (sched_step BpfProgram.Sample.memory BpfProgram.Sample.relo (λ _, None)
  (λ _, None) (λ _, None) None SampleRun.deviceMap 4 BpfProgram.Sample.devs BpfProgram.Sample.tbl 2).

Definition run := execution_of sched labels (start_process SampleProcess.start, []).

Definition resting (p : process Model.hash Model.ring (list Z) unit unit) (t : thread) : bool :=
  match p_section p t with NotCalling => true | _ => false end.

Lemma resting_section p t : resting p t = true → p_section p t = NotCalling.
Proof. unfold resting. by destruct (p_section p t). Qed.

Definition ended : bool :=
  match steps sched labels (start_process SampleProcess.start, []) with
  | Some (p, _) =>
      bool_decide (a_main (p_agent p) = Returned) && resting p ThMain && resting p ThWorker &&
      resting p ThSignal
  | None => false
  end.

End SampleSchedule.

Lemma sample_start_initial :
  initial BpfProgram.Sample.devs BpfProgram.Sample.tbl 2 SampleProcess.start.
Proof.
  split; try done.
  - exact BpfProgram.Sample.devices_held.
  - exact BpfProgram.Sample.ioctls_held.
  - by exists [0; 0].
Qed.

Lemma sample_scheduled :
  scheduled BpfProgram.Sample.memory BpfProgram.Sample.relo (λ _, None) (λ _, None) (λ _, None) None
    SampleRun.deviceMap 4 BpfProgram.Sample.devs BpfProgram.Sample.tbl 2 SampleProcess.start
    SampleSchedule.run.
Proof.
  assert (Hok : SampleSchedule.ended = true) by (vm_compute; reflexivity).
  unfold SampleSchedule.ended in Hok.
  destruct (steps SampleSchedule.sched _ _) as [[p os]|] eqn:E; [|discriminate Hok].
  apply andb_true_iff in Hok as [[[Hret Hm]%andb_true_iff Hw]%andb_true_iff Hs].
  apply bool_decide_eq_true in Hret. apply SampleSchedule.resting_section in Hm, Hw, Hs.
  apply (ended_scheduled _ _ _ _ _ _ _ _ _ _ _ _ _ (p, os) E).
  - exact (initial_control _ _ _ _ sample_start_initial).
  - exact Hret.
  - intros [| |]; [exact Hm|exact Hw|exact Hs].
Qed.

(** No read of the sample fails. *)
Lemma sample_recovers : recovers turn component ThMain (view SampleSchedule.run).
Proof.
  assert (Hok : forallb (λ l, match agent_action l with Some (ReadFails _) => false | _ => true end)
                  SampleSchedule.labels = true) by (vm_compute; reflexivity).
  intros n. exists n. split; [done|]. intros k act _ Ha Ht _.
  cbn [view SampleSchedule.run execution_of action_at] in Ha.
  destruct (SampleSchedule.labels !! k) as [l|] eqn:El; [|discriminate Ha].
  cbn [mbind option_bind] in Ha. apply list_elem_of_lookup_2, list_elem_of_In in El.
  rewrite forallb_forall in Hok. specialize (Hok l El). rewrite Ha in Hok.
  destruct act; try exact Ht. discriminate Hok.
Qed.

Lemma queued_events_settled_witness :
  (∃ m, (3 ≤ m)%nat ∧
     ((event_view <$> submitted (state_at SampleSchedule.run 3).2) `prefix_of`
        pulled (state_at SampleSchedule.run m).2 ∨
      closeReaderOnce (a_loader (p_agent (state_at SampleSchedule.run m).1)) = true)) ∧
  ∃ m, (3 ≤ m)%nat ∧
    queued (state_at SampleSchedule.run 3).2 `prefix_of`
      (settled (state_at SampleSchedule.run m).2).*1.
Proof.
  destruct sample_relo as [off Hoff].
  destruct (queued_events_settled BpfProgram.Sample.memory BpfProgram.Sample.relo (λ _, None)
    (λ _, None) (λ _, None) None SampleRun.deviceMap 4 BpfProgram.Sample.devs BpfProgram.Sample.tbl 2
    (PodMap.Sample.at_time 7) off BpfProgram.Sample.memory_length Hoff
    SampleProcess.start SampleSchedule.run 3 sample_start_initial sample_scheduled) as [Hr Hq].
  split; [exact (Hr sample_recovers)|exact Hq].
Defined.

Lemma signal_returns_witness :
  ∃ m, (25 ≤ m)%nat ∧ a_main (p_agent (state_at SampleSchedule.run m).1) = Returned.
Proof.
  destruct sample_relo as [off Hoff].
  destruct (signal_returns BpfProgram.Sample.memory BpfProgram.Sample.relo (λ _, None)
    (λ _, None) (λ _, None) None SampleRun.deviceMap 4 BpfProgram.Sample.devs BpfProgram.Sample.tbl 2
    (PodMap.Sample.at_time 7) off BpfProgram.Sample.memory_length Hoff
    SampleProcess.start SampleSchedule.run 25 sample_start_initial sample_scheduled)
    as [(m & Hm & Hret & _)|(rd & err & _ & Herr)].
  - assert (Hs : bool_decide (a_signal (p_agent (state_at SampleSchedule.run 25).1) = Waiting) =
      false) by (vm_compute; reflexivity).
    exact (bool_decide_eq_false_1 _ Hs).
  - exists m. split; [exact Hm|exact Hret].
  - discriminate Herr.
Defined.

Lemma failed_close_runs_on_witness :
  ∃ x : execution (S:=moment (H:=Model.hash) (R:=Model.ring) (P:=list Z) (link:=unit) (reader:=unit))
          (A:=label),
    ∀ m, (3 ≤ m)%nat →
    a_signal (p_agent (state_at x m).1) = ReaderClosed ∧
    a_main (p_agent (state_at x m).1) = Reading.
Proof.
  destruct (failed_close_runs_on BpfProgram.Sample.memory BpfProgram.Sample.relo (λ _, None)
    (λ _, Some (errors_New "EIO")) (λ _, None) None SampleRun.deviceMap 4 BpfProgram.Sample.devs
    BpfProgram.Sample.tbl 2 SampleProcess.start tt (errors_New "EIO") sample_start_initial
    eq_refl eq_refl) as (x & _ & Hx).
  exists x. intros m Hm. destruct (Hx m Hm) as (Hsig & _ & _ & Hmain). split; [exact Hsig|exact Hmain].
Defined.

(** The handler has been called and waits while the worker counts. *)
Lemma scrapes_answered_witness :
  ∃ m, (8 ≤ m)%nat ∧
    (a_main (p_agent (state_at SampleSchedule.run m).1) = Returned ∨
     ∃ sent failure,
       p_scrapes (state_at SampleSchedule.run m).1 !! 0%nat = Some (ScDone sent failure)).
Proof.
  assert (Hs : match p_scrapes (state_at SampleSchedule.run 8).1 !! 0%nat with
               | Some ScBlocked => true
               | _ => false
               end = true) by (vm_compute; reflexivity).
  assert (Hi : is_Some (p_scrapes (state_at SampleSchedule.run 8).1 !! 0%nat)).
  { destruct (p_scrapes (state_at SampleSchedule.run 8).1 !! 0%nat) as [pc|];
      [exists pc; reflexivity|discriminate Hs]. }
  destruct (scrapes_answered BpfProgram.Sample.memory BpfProgram.Sample.relo (λ _, None)
    (λ _, None) (λ _, None) None SampleRun.deviceMap 4 BpfProgram.Sample.devs BpfProgram.Sample.tbl 2
    SampleProcess.start SampleSchedule.run 8 0 sample_start_initial sample_scheduled Hi)
    as (m & Hm & [Hret|(sent & failure & _ & _ & _ & Hsent & _)]).
  - exists m. split; [exact Hm|left; exact Hret].
  - exists m. split; [exact Hm|right]. exists sent, failure. exact Hsent.
Defined.
