(* ===== verification/Tabwriter.v ===== *)
(** * Go's [text/tabwriter] and [utf8.RuneCount]

    The elastic tabstops the listing of [kubenpuctl] is aligned with: text is
    split into cells ended by tabs, newlines and their kin; consecutive lines
    that have a cell in a column share the column's width, recursively from left
    to right; the last cell of a line is not part of a column. The writer is
    modelled for the flags the program passes (none) and a padding character
    that is not a tab; cells hold their text, where Go's index a common buffer.

    The theorem [format_table]: lines with the same number of cells come out as
    a table, each column as wide as its widest cell plus the padding. *)

From S2P Require Import Prelude.
From S2P Require Import GoStrings.

Local Open Scope Z_scope.

(** ** [utf8.RuneCount] *)

(** [first] and [acceptRanges]: how long the encoding is that a byte starts, and
    the range of its second byte. *)
Definition rune_lead (b : N) : option (nat * N * N) :=
  (if bool_decide (b < 0xC2) then None
   else if bool_decide (b ≤ 0xDF) then Some (2%nat, 0x80, 0xBF)
   else if bool_decide (b = 0xE0) then Some (3%nat, 0xA0, 0xBF)
   else if bool_decide (b = 0xED) then Some (3%nat, 0x80, 0x9F)
   else if bool_decide (b ≤ 0xEF) then Some (3%nat, 0x80, 0xBF)
   else if bool_decide (b = 0xF0) then Some (4%nat, 0x90, 0xBF)
   else if bool_decide (b ≤ 0xF3) then Some (4%nat, 0x80, 0xBF)
   else if bool_decide (b = 0xF4) then Some (4%nat, 0x80, 0x8F)
   else None)%N.

(** [n] continuation bytes. *)
Fixpoint continues (n : nat) (s : string) : bool :=
  match n, s with
  | O, _ => true
  | S n, String c s => bool_decide (0x80 ≤ N_of_ascii c ≤ 0xBF)%N && continues n s
  | S _, EmptyString => false
  end.

(** The bytes of the rune that starts with [c]: one when the encoding is not
    valid. *)
Definition rune_size (c : ascii) (s : string) : nat :=
  match rune_lead (N_of_ascii c) with
  | Some (S (S n), lo, hi) =>
      match s with
      | String c1 s =>
          if bool_decide (lo ≤ N_of_ascii c1 ≤ hi)%N && continues n s then S (S n) else 1
      | EmptyString => 1
      end
  | _ => 1
  end.

(** Runes that start after the next [skip] bytes. *)
Fixpoint rune_starts (skip : nat) (s : string) : Z :=
  match s with
  | EmptyString => 0
  | String c s =>
      match skip with
      | S skip => rune_starts skip s
      | O => 1 + rune_starts (rune_size c s - 1) s
      end
  end.

Definition RuneCount (s : string) : Z := rune_starts 0 s.

Lemma RuneCount_nonneg s : 0 ≤ RuneCount s.
Proof.
  unfold RuneCount. generalize 0%nat. induction s as [|c s IH]; intros [|k]; cbn; try done.
  pose proof (IH (rune_size c s - 1)%nat). lia.
Qed.

(** A byte below 128 is a rune by itself. *)
Definition is_ascii (c : ascii) : bool := bool_decide (N_of_ascii c < 0x80)%N.

Lemma RuneCount_ascii s : all_chars is_ascii s = true → RuneCount s = Z.of_nat (String.length s).
Proof.
  unfold RuneCount. induction s as [|c s IH]; cbn [all_chars rune_starts String.length]; [done|].
  intros [Hc%bool_decide_eq_true Hs]%andb_true_iff.
  assert (rune_size c s = 1%nat) as ->.
  { unfold rune_size, rune_lead. rewrite bool_decide_eq_true_2 by lia. done. }
  rewrite Nat.sub_diag, IH by done. lia.
Qed.

Example RuneCount_ex :
  RuneCount (byte_string [0x69; 0xC3; 0xA9; 0xE2; 0x82; 0xAC; 0xF0; 0x9F; 0x98; 0x80; 0xC3])%nat = 5.
Proof. vm_compute. reflexivity. Qed.

(** ** The writer *)

Record cell : Type := Cell {
  text : string;
  width : Z;
}.

Record Writer : Type := MkWriter {
  w_lines : list (list cell);   (** the buffered lines but the last *)
  w_line : list cell;           (** the last one: its ended cells *)
  w_text : string;              (** the current cell *)
  w_seen : string;              (** the part of it whose width is not known yet *)
  w_width : Z;                  (** the width of the other part *)
  w_escape : bool;              (** inside escaped text *)
  w_out : string;               (** what has been written to the output *)
}.

Section Writer.

(** [minwidth] and [padding] of [NewWriter]; [padchar] is a space. *)
Variables minwidth padding : Z.

Definition spaces (n : Z) : string :=
  Nat.iter (Z.to_nat n) (String " ") "".

(** [writeLines], one line. *)
Fixpoint write_line (widths : list Z) (line : list cell) : string :=
  match line with
  | [] => ""
  | c :: line =>
      match widths with
      | [] => String.append (text c) (write_line [] line)
      | w :: widths =>
          String.append (text c) (String.append (spaces (w - width c)) (write_line widths line))
      end
  end.

(** The width of the column block of these lines: that of the widest cell. *)
Definition column_width (column : nat) (lines : list (list cell)) : Z :=
  foldl (λ w line, match line !! column with Some c => w `max` (width c + padding) | None => w end)
    minwidth lines.

(** [column < len(line)-1]: the line has a tab-ended cell there. *)
Definition in_column (column : nat) (line : list cell) : bool := (column <? length line - 1)%nat.

(** Runs of consecutive lines that agree on [p]. *)
Fixpoint blocks {A} (p : A → bool) (l : list A) : list (bool * list A) :=
  match l with
  | [] => []
  | x :: l =>
      match blocks p l with
      | (b, block) :: bs =>
          if Bool.eqb (p x) b then (b, x :: block) :: bs else (p x, [x]) :: (b, block) :: bs
      | [] => [(p x, [x])]
      end
  end.

(** [format]; [fuel] bounds the number of columns. *)
Fixpoint format (fuel : nat) (widths : list Z) (lines : list (list cell)) : list string :=
  match fuel with
  | O => write_line widths <$> lines
  | S fuel =>
      blocks (in_column (length widths)) lines ≫= λ '(b, block),
        if b : bool
        then format fuel (widths ++ [column_width (length widths) block]) block
        else write_line widths <$> block
  end.

Definition columns (lines : list (list cell)) : nat := foldr (λ line, max (length line)) 0%nat lines.

Definition reset (out : string) : Writer := MkWriter [] [] "" "" 0 false out.

Definition NewWriter : Writer := reset "".

Definition append_text (ch : ascii) (w : Writer) : Writer :=
  MkWriter (w_lines w) (w_line w) (String.append (w_text w) (String ch ""))
    (String.append (w_seen w) (String ch "")) (w_width w) (w_escape w) (w_out w).

Definition updateWidth (w : Writer) : Writer :=
  MkWriter (w_lines w) (w_line w) (w_text w) "" (w_width w + RuneCount (w_seen w)) (w_escape w)
    (w_out w).

Definition startEscape (w : Writer) : Writer :=
  MkWriter (w_lines w) (w_line w) (w_text w) (w_seen w) (w_width w) true (w_out w).

(** [endEscape] without [StripEscape]: the escape characters stay in the text
    and do not count. *)
Definition endEscape (w : Writer) : Writer :=
  let w := updateWidth w in
  MkWriter (w_lines w) (w_line w) (w_text w) (w_seen w) (w_width w - 2) false (w_out w).

Definition terminateCell (w : Writer) : Writer :=
  MkWriter (w_lines w) (w_line w ++ [Cell (w_text w) (w_width w)]) "" (w_seen w) 0 (w_escape w)
    (w_out w).

Definition addLine (w : Writer) : Writer :=
  MkWriter (w_lines w ++ [w_line w]) [] (w_text w) (w_seen w) (w_width w) (w_escape w) (w_out w).

(** [Flush]: newlines separate the buffered lines. *)
Definition Flush (w : Writer) : Writer :=
  let w :=
    if String.eqb (w_text w) "" then w
    else terminateCell (if w_escape w then endEscape w else w) in
  let lines := w_lines w ++ [w_line w] in
  reset (String.append (w_out w)
           (Join (format (columns lines) [] lines) (String newline ""))).

Definition is_break (ch : ascii) : bool :=
  bool_decide (ch ∈ ["009"; "010"; "011"; "012"]%char).

Definition Escape : ascii := "255".

(** One character of [Write]. *)
Definition write_char (w : Writer) (ch : ascii) : Writer :=
  if w_escape w then
    let w := append_text ch w in
    if Ascii.eqb ch Escape then endEscape w else w
  else if is_break ch then
    let w := terminateCell (updateWidth w) in
    let ncells := length (w_line w) in
    if Ascii.eqb ch newline || Ascii.eqb ch "012" then
      let w := addLine w in
      if Ascii.eqb ch "012" || (ncells =? 1)%nat then Flush w else w
    else w
  else if Ascii.eqb ch Escape then startEscape (append_text ch (updateWidth w))
  else append_text ch w.

Definition Write (w : Writer) (s : string) : Writer := foldl write_char w (String.list_ascii_of_string s).

End Writer.

(** ** Lemmas: blocks and fuel *)

Lemma blocks_same {A} (p : A → bool) b l :
  l ≠ [] → Forall (λ x, p x = b) l → blocks p l = [(b, l)].
Proof.
  intros Hne Hl. induction Hl as [|x l Hx Hl IH]; [done|]. cbn [blocks].
  destruct l as [|y l]; [by rewrite Hx|]. rewrite IH by done. by rewrite Hx, eqb_reflx.
Qed.

Lemma blocks_concat {A} (p : A → bool) l : (blocks p l ≫= snd) = l.
Proof.
  induction l as [|x l IH]; [done|]. cbn [blocks]. destruct (blocks p l) as [|[b block] bs].
  - cbn in IH |- *. by subst l.
  - destruct (Bool.eqb _ _); cbn in IH |- *; by rewrite IH.
Qed.

Lemma columns_elem lines line : line ∈ lines → (length line ≤ columns lines)%nat.
Proof. unfold columns. induction 1; cbn [foldr]; lia. Qed.

Lemma columns_bound lines n :
  (∀ line, line ∈ lines → (length line ≤ n)%nat) → (columns lines ≤ n)%nat.
Proof.
  unfold columns. induction lines as [|line lines IH]; cbn [foldr]; [lia|]. intros H.
  pose proof (H line ltac:(by left)). specialize (IH ltac:(intros; apply H; by right)). lia.
Qed.

Lemma columns_block p lines b block :
  (b, block) ∈ blocks p lines → (columns block ≤ columns lines)%nat.
Proof.
  intros Hb. apply columns_bound. intros line Hl. apply columns_elem.
  rewrite <- (blocks_concat p lines). apply list_elem_of_bind. by exists (b, block).
Qed.

(** Beyond the columns there are, [format] writes the lines. *)
Lemma format_flat minwidth padding fuel widths lines :
  (columns lines ≤ length widths + 1)%nat →
  format minwidth padding fuel widths lines = write_line widths <$> lines.
Proof.
  intros Hc. destruct fuel as [|fuel]; [done|]. cbn [format].
  destruct lines as [|line lines]; [done|].
  rewrite (blocks_same _ false); [by cbn; rewrite app_nil_r|done|].
  apply Forall_forall. intros l Hl%columns_elem. unfold in_column. apply Nat.ltb_ge. lia.
Qed.

(** [columns] is enough fuel. *)
Lemma format_fuel minwidth padding fuel fuel' widths lines :
  (columns lines ≤ length widths + fuel + 1)%nat →
  (columns lines ≤ length widths + fuel' + 1)%nat →
  format minwidth padding fuel widths lines = format minwidth padding fuel' widths lines.
Proof.
  revert fuel' widths lines. induction fuel as [|fuel IH]; intros fuel' widths lines H1 H2.
  { by rewrite !format_flat by lia. }
  destruct fuel' as [|fuel']; [by rewrite !format_flat by lia|]. cbn [format].
  apply Forall_bind_ext, Forall_forall. intros [[] block] Hb; [|done].
  apply columns_block in Hb. apply IH; rewrite length_app; cbn [length]; lia.
Qed.

(** Lines with the same number of cells are a table. *)
Definition table_widths (minwidth padding : Z) (n : nat) (rows : list (list cell)) : list Z :=
  (λ column, column_width minwidth padding column rows) <$> seq 0 n.

Lemma format_table minwidth padding fuel n k rows :
  Forall (λ row, length row = S n) rows → (k ≤ n)%nat → (n - k ≤ fuel)%nat →
  format minwidth padding fuel (table_widths minwidth padding k rows) rows =
  write_line (table_widths minwidth padding n rows) <$> rows.
Proof.
  intros Hrows. revert k. induction fuel as [|fuel IH]; intros k Hk Hf.
  { by replace k with n by lia. }
  destruct (decide (k = n)) as [->|Hne].
  { apply format_flat. apply columns_bound. intros row Hr. rewrite Forall_forall in Hrows.
    rewrite (Hrows row Hr). unfold table_widths. rewrite length_fmap, length_seq. lia. }
  destruct rows as [|row rows]; [done|]. set (all := row :: rows) in *. cbn [format].
  assert (El : length (table_widths minwidth padding k all) = k)
    by (unfold table_widths; by rewrite length_fmap, length_seq).
  rewrite El, (blocks_same _ true); [|done|].
  - cbn [mbind list_bind]. rewrite app_nil_r, <- (IH (S k)) by lia. f_equal.
    unfold table_widths. by rewrite seq_S, fmap_app.
  - eapply Forall_impl; [exact Hrows|]. intros l Hl. unfold in_column. apply Nat.ltb_lt. cbn in Hl. lia.
Qed.

(** A column holds its cells with the padding, and is no wider than it must. *)
Lemma column_width_ge minwidth padding column rows :
  minwidth ≤ column_width minwidth padding column rows ∧
  ∀ row c, row ∈ rows → row !! column = Some c →
    width c + padding ≤ column_width minwidth padding column rows.
Proof.
  unfold column_width. revert minwidth. induction rows as [|row rows IH]; intros m; cbn [foldl].
  { split; [done|]. by intros ? ? ?%not_elem_of_nil. }
  destruct (IH (match row !! column with Some c => m `max` (width c + padding) | None => m end))
    as [H1 H2]. split.
  - destruct (row !! column); lia.
  - intros row' c [->|Hr]%elem_of_cons Hc; [rewrite Hc in H1 |- *; lia|by eapply H2].
Qed.

Lemma column_width_attained minwidth padding column rows :
  column_width minwidth padding column rows = minwidth ∨
  ∃ row c, row ∈ rows ∧ row !! column = Some c ∧
    column_width minwidth padding column rows = width c + padding.
Proof.
  unfold column_width. revert minwidth. induction rows as [|row rows IH]; intros m; cbn [foldl].
  { by left. }
  destruct (IH (match row !! column with Some c => m `max` (width c + padding) | None => m end))
    as [E|(row' & c & Hr & Hc & E)].
  - rewrite E. destruct (row !! column) as [c|] eqn:Ec; [|by left].
    destruct (Z.max_spec m (width c + padding)) as [[_ ->]|[_ ->]]; [right|by left].
    exists row, c. split_and!; [by left|done..].
  - right. exists row', c. split_and!; [by right|done..].
Qed.

(** ** Lemmas: writing lines of plain cells *)

(** Text without the characters the writer looks at. *)
Definition plain (s : string) : bool :=
  all_chars (λ c, negb (is_break c || Ascii.eqb c Escape)) s.

Definition plain_cell (s : string) : cell := Cell s (RuneCount s).

Definition cells_of (row : list string) : list cell := plain_cell <$> row.

Section Lines.

Context (minwidth padding : Z).

Abbreviation Write := (Write minwidth padding).

Lemma Write_app w s s' : Write w (String.append s s') = Write (Write w s) s'.
Proof.
  unfold Tabwriter.Write. rewrite <- foldl_app. f_equal.
  induction s as [|c s IH]; [done|]. cbn. by rewrite IH.
Qed.

Lemma Write_plain lines line text seen width out s :
  plain s = true →
  Write (MkWriter lines line text seen width false out) s =
    MkWriter lines line (String.append text s) (String.append seen s) width false out.
Proof.
  revert text seen. induction s as [|c s IH]; intros text seen.
  { intros _. by rewrite !append_nil_r. }
  cbn [plain all_chars]. intros [[Hb He]%negb_true_iff%orb_false_iff Hs]%andb_true_iff.
  unfold Tabwriter.Write in *. cbn [String.list_ascii_of_string foldl]. unfold write_char at 2.
  cbn [w_escape]. rewrite Hb, He. unfold append_text. cbn [w_lines w_line w_text w_seen w_width
    w_escape w_out]. rewrite IH by done. by rewrite !append_assoc.
Qed.

(** The cells of a line, one after the other. *)
Lemma Write_cells lines line out cells c :
  Forall (λ c, plain c = true) (c :: cells) →
  Write (MkWriter lines line "" "" 0 false out) (Join (c :: cells) (String "009" "")) =
    match last (c :: cells) with
    | Some d => MkWriter lines (line ++ (plain_cell <$> removelast (c :: cells))) d d 0 false out
    | None => MkWriter lines line "" "" 0 false out
    end.
Proof.
  revert line c. induction cells as [|d cells IH]; intros line c [Hc Hcs]%Forall_cons.
  - cbn [Join]. rewrite Write_plain by done. cbn. by rewrite app_nil_r.
  - rewrite Join_cons by done. rewrite Write_app, Write_plain, Write_app by done.
    cbn [String.append].
    replace (Write (MkWriter lines line c c 0 false out) (String "009" ""))
      with (MkWriter lines (line ++ [plain_cell c]) "" "" 0 false out) by reflexivity.
    rewrite IH by done. cbn [last]. change (last (d :: cells)) with (last (d :: cells)).
    destruct (last (d :: cells)) as [e|] eqn:E; [|by apply last_None in E].
    f_equal. cbn [removelast]. rewrite <- app_assoc. done.
Qed.

(** A line as it is written: cells between tabs, and a newline. *)
Definition row_text (cells : list string) : string :=
  String.append (Join cells (String "009" "")) (String newline "").

(** A line of at least two plain cells is buffered as these. *)
Lemma Write_line lines out cells :
  Forall (λ c, plain c = true) cells → (2 ≤ length cells)%nat →
  Write (MkWriter lines [] "" "" 0 false out) (row_text cells) =
    MkWriter (lines ++ [plain_cell <$> cells]) [] "" "" 0 false out.
Proof.
  intros Hp Hl. destruct cells as [|c cells]; [cbn in Hl; lia|].
  unfold row_text. rewrite Write_app, Write_cells by done.
  destruct (last (c :: cells)) as [d|] eqn:E; [|by apply last_None in E].
  apply last_Some in E as [l E]. rewrite E in Hl |- *. rewrite removelast_last, app_nil_l.
  unfold Tabwriter.Write. cbn [String.list_ascii_of_string foldl]. unfold write_char.
  cbn [w_escape]. change (is_break newline) with true. change (Ascii.eqb newline newline) with true.
  change (Ascii.eqb newline "012") with false. cbn [orb].
  unfold updateWidth, terminateCell, addLine.
  cbn [w_lines w_line w_text w_seen w_width w_escape w_out].
  rewrite length_app in Hl. rewrite length_app, length_fmap. cbn [length] in *.
  replace (length l + 1 =? 1)%nat with false by (symmetry; apply Nat.eqb_neq; lia).
  by rewrite fmap_app.
Qed.

Definition plain_row (n : nat) (row : list string) : Prop :=
  Forall (λ c, plain c = true) row ∧ length row = S n.

Lemma Write_rows lines out n (rows : list (list string)) :
  Forall (plain_row (S n)) rows →
  foldl Write (MkWriter lines [] "" "" 0 false out) (row_text <$> rows) =
    MkWriter (lines ++ (cells_of <$> rows)) [] "" "" 0 false out.
Proof.
  revert lines. induction rows as [|row rows IH]; intros lines.
  { intros _. cbn. by rewrite app_nil_r. }
  intros [[Hp Hl] Hr]%Forall_cons. cbn [fmap list_fmap foldl].
  rewrite Write_line by (done || lia). rewrite IH by done.
  by rewrite <- app_assoc.
Qed.

Lemma blocks_snoc {A} (p : A → bool) l x :
  l ≠ [] → Forall (λ x, p x = true) l → p x = false → blocks p (l ++ [x]) = [(true, l); (false, [x])].
Proof.
  intros Hne Hl Hx. induction Hl as [|y l Hy Hl IH]; [done|]. cbn [app blocks].
  destruct l as [|z l]; [cbn; by rewrite Hx, Hy|]. rewrite IH by done. by rewrite Hy.
Qed.

Lemma Join_trailing (ls : list string) sep :
  Join (ls ++ [""]) sep = foldr (λ l s, String.append l (String.append sep s)) "" ls.
Proof.
  induction ls as [|l ls IH]; [done|]. cbn [foldr app]. rewrite <- IH.
  apply Join_cons. by destruct ls.
Qed.

(** Rows of plain cells, written and flushed, come out as a table. *)
Lemma Flush_table n (rows : list (list string)) :
  rows ≠ [] → Forall (plain_row (S n)) rows →
  w_out (Flush minwidth padding (foldl Write NewWriter (row_text <$> rows))) =
    foldr (λ row s, String.append
        (write_line (table_widths minwidth padding (S n) (cells_of <$> rows)) (cells_of row))
        (String newline s)) "" rows.
Proof.
  intros Hne Hrows. unfold NewWriter, reset. rewrite (Write_rows [] "" n) by done.
  unfold Flush. cbn [w_text w_lines w_line w_out reset app]. change (String.eqb "" "") with true.
  cbn [w_lines w_line w_out reset app].
  set (cells := cells_of <$> rows).
  assert (Hlen : Forall (λ row, length row = S (S n)) cells).
  { apply Forall_fmap. eapply Forall_impl; [exact Hrows|]. intros row [_ Hl].
    unfold compose, cells_of. cbn beta. by rewrite length_fmap. }
  assert (Hcol : (S (S n) ≤ columns (cells ++ [[]]))%nat).
  { destruct rows as [|row rows]; [done|]. apply Forall_cons in Hlen as [<- _].
    apply columns_elem. by left. }
  destruct (columns (cells ++ [[]])) as [|fuel]; [lia|]. cbn [format length].
  rewrite (blocks_snoc (in_column 0)); [|by destruct rows| |done].
  2: { eapply Forall_impl; [exact Hlen|]. intros row E. cbn in E. unfold in_column. rewrite E. done. }
  cbn [mbind list_bind]. change ([] ++ [column_width minwidth padding 0 cells]) with
    (table_widths minwidth padding 1 cells).
  rewrite (format_table _ _ _ (S n)) by (done || lia). cbn [fmap list_fmap write_line app].
  change (String.append "" ?s) with s. rewrite Join_trailing. subst cells. clear.
  generalize (table_widths minwidth padding (S n) (cells_of <$> rows)). intros ws.
  induction rows as [|row rows IH]; [done|]. cbn [fmap list_fmap foldr]. by rewrite IH.
Qed.

End Lines.
