(* ===== verification/Ctl.v ===== *)
(** * [cmd/kubenpuctl]: the [devices] command

    What the command writes to standard output, through the tab writer
    ([Tabwriter]), and to standard error, and how the process ends. [cobra],
    which calls the command and reports its error, is a library: the class
    [Cobra] is what is used of it, [CobraOk] what it documents of the settings
    [SilenceUsage] and [SilenceErrors]. How it parses the command line is not
    modelled. *)

From stdpp Require Import pretty.
From S2P Require Import Prelude.
From S2P Require Import GoStrings.
From S2P Require Import Tabwriter.
From S2P Require Import Hw.
From S2P Require Import Discovery.

Local Open Scope Z_scope.

(** [fmt.Sprintf("%d:%d", node.Major, node.Minor)] *)
Definition node_text (n : Node) : string :=
  String.append (Itoa (Major n)) (String.append ":" (Itoa (Minor n))).

(** The cells of a device's line. *)
Definition device_cells (device : Device) : list string :=
  let nodes := node_text <$> Nodes device in
  let vendorName :=
    match GetVendor registeredVendors device with
    | Some vendor => Name vendor
    | None => "-"
    end in
  let pciID := if String.eqb (PciID device) "" then "-" else PciID device in
  [DriverName device; pciID; PciAddress device; Join nodes ","; vendorName; NumaNode device].

Definition tab : string := String "009" "".

Definition line (cells : list string) : string :=
  String.append (Join cells tab) (String newline "").

Definition header : list string := ["DRIVER"; "PCI ID"; "ADDRESS"; "NODES"; "VENDOR"; "NUMA"].

(** What is written to standard error: lines of the log, and what cobra
    reports. *)
Inductive message : Type :=
  | LogLine (l : log_line)
  | CobraError (err : error)
  | CobraUsage.

(** What a command, or the process, has written, and the error it returns. *)
Record outcome : Type := Outcome {
  o_stdout : string;
  o_stderr : list message;
  o_err : option error;
}.

(** [devicesCmd.RunE]. The tab writer gets one [Write] per line and the deferred
    [Flush]. *)
Definition RunE (sys : system) (range_order : list Device → list Device) : outcome :=
  let paths := MkPaths "/dev/dri" "/dev/accel" "/sys/class/drm" "/sys/class/accel" in
  match Discover sys range_order paths with
  | (Err err, logs) => Outcome "" (LogLine <$> logs) (Some err)
  | (Ok devices, logs) =>
      let w := Write 0 2 NewWriter (line header) in
      let w := foldl (λ w device, Write 0 2 w (line (device_cells device))) w devices in
      Outcome (w_out (Flush 0 2 w)) (LogLine <$> logs) None
  end.

(** The fields of a [cobra.Command] that decide what it prints of an error. *)
Record Command : Type := MkCommand {
  SilenceUsage : bool;
  SilenceErrors : bool;
}.

Definition rootCmd : Command := MkCommand true false.

Definition devicesCmd : Command := MkCommand false false.

(** [Execute] of a root command, when the command line asks for this command
    and its [RunE] does this. *)
Class Cobra : Type := cobra_Execute : Command → Command → outcome → outcome.

(** [flag.ErrHelp] asks for the help text and is no error. *)
Definition ErrHelp : string := "flag.ErrHelp".

(** The documented behaviour: a command that succeeds is left alone; an error is
    returned, and is reported on standard error unless the command or the root
    has [SilenceErrors]; the usage follows unless one has [SilenceUsage]. *)
Class CobraOk {cobra : Cobra} : Prop := {
  cobra_success root cmd o : o_err o = None → cobra_Execute root cmd o = o;
  cobra_failure root cmd o err :
    o_err o = Some err → errors_Is ErrHelp err = false →
    cobra_Execute root cmd o =
      Outcome (o_stdout o)
        (o_stderr o ++
         (if SilenceErrors root || SilenceErrors cmd then [] else [CobraError err]) ++
         (if SilenceUsage root || SilenceUsage cmd then [] else [CobraUsage]))
        (Some err);
}.

(** [Execute]: what the process writes, and its exit status. *)
Definition Execute {cobra : Cobra} (sys : system) (range_order : list Device → list Device) :
    outcome * Z :=
  let o := cobra_Execute rootCmd devicesCmd (RunE sys range_order) in
  (o, match o_err o with Some _ => 1 | None => 0 end).

(** ** Lemmas *)

Lemma parse_digits_no_char x s acc z :
  digit_val x = None → parse_digits acc s = Some z → no_char x s = true.
Proof.
  intros Hx. unfold no_char. revert acc. induction s as [|c s IH]; intros acc; cbn; [done|].
  destruct (digit_val c) as [d|] eqn:Ec; [|done]. intros H. cbn in H.
  rewrite (IH _ H), andb_true_r. apply negb_true_iff. destruct (Ascii.eqb_spec c x); [|done].
  congruence.
Qed.

Lemma Itoa_no_char x n : digit_val x = None → 0 ≤ n → no_char x (Itoa n) = true.
Proof.
  intros Hx Hn. unfold Itoa. destruct n as [|p|p]; [|change (pretty (Z.pos p)) with (pretty (N.pos p))|lia].
  - apply (parse_digits_no_char x "0" 0 0 Hx). done.
  - pose proof (parse_uint_pretty (N.pos p)) as Hp. unfold parse_uint in Hp.
    destruct (pretty (N.pos p)) as [|c s] eqn:E; [done|]. by eapply parse_digits_no_char.
Qed.

(** Reading a node back from the listing. *)
Definition parse_node (s : string) : option (Z * Z) :=
  match Cut s ":" with
  | Some (major, minor) =>
      match ParseInt major, ParseInt minor with
      | Some a, Some b => Some (a, b)
      | _, _ => None
      end
  | None => None
  end.

Lemma parse_node_text n :
  0 ≤ Major n < 2 ^ 63 → 0 ≤ Minor n < 2 ^ 63 → parse_node (node_text n) = Some (Major n, Minor n).
Proof.
  intros Ha Hb. unfold parse_node, node_text.
  rewrite (Cut_first ":") by (apply Itoa_no_char; [done|lia]).
  rewrite !ParseInt_Itoa by lia. done.
Qed.

Lemma node_text_no_comma n :
  0 ≤ Major n → 0 ≤ Minor n → no_char "," (node_text n) = true.
Proof.
  intros Ha Hb. unfold node_text, no_char. rewrite !all_chars_app. cbn [all_chars].
  pose proof (Itoa_no_char "," (Major n) eq_refl Ha) as H1.
  pose proof (Itoa_no_char "," (Minor n) eq_refl Hb) as H2. unfold no_char in *.
  by rewrite H1, H2.
Qed.

(** The six cells of a device, and the node numbers read back from theirs. *)
Lemma device_cells_fields d :
  ∃ pciID nodes vendor,
    device_cells d = [DriverName d; pciID; PciAddress d; nodes; vendor; NumaNode d] ∧
    (pciID = "-" ∨ pciID = PciID d) ∧ pciID ≠ "" ∧
    (vendor = "-" ↔ GetVendor registeredVendors d = None) ∧
    (Nodes d ≠ [] →
     Forall (λ n, 0 ≤ Major n < 2 ^ 63 ∧ 0 ≤ Minor n < 2 ^ 63) (Nodes d) →
     parse_node <$> Split nodes "," = (λ n, Some (Major n, Minor n)) <$> Nodes d).
Proof.
  do 3 eexists. split; [reflexivity|]. split_and!.
  - destruct (String.eqb (PciID d) ""); auto.
  - by destruct (String.eqb_spec (PciID d) "").
  - destruct (GetVendor registeredVendors d) as [v|] eqn:Ev; [|done].
    split; [|done]. intros Hv. apply GetVendor_elem in Ev as [Ev _]. exfalso. revert v Ev Hv.
    cut (Forall (λ v, Name v ≠ "-") registeredVendors); [rewrite Forall_forall; auto|]. by_decide.
  - intros Hne Hn. rewrite Split_Join.
    + rewrite <- list_fmap_compose. apply list_fmap_ext. intros j n Hj.
      apply list_elem_of_lookup_2 in Hj. rewrite Forall_forall in Hn.
      destruct (Hn n Hj). by apply parse_node_text.
    + by destruct (Nodes d).
    + apply Forall_fmap. eapply Forall_impl; [exact Hn|]. intros n [? ?].
      apply node_text_no_comma; lia.
Qed.

Lemma foldl_fmap {A B C} (f : C → B → C) (g : A → B) l c :
  foldl f c (g <$> l) = foldl (λ c a, f c (g a)) c l.
Proof. revert c. induction l as [|a l IH]; intros c; [done|]. apply IH. Qed.

(** A table as text: the cells of each row padded to the columns' widths. *)
Definition table_text (widths : list Z) (rows : list (list string)) : string :=
  foldr (λ row s, String.append (write_line widths (cells_of row)) (String newline s)) "" rows.

(** Every cell of a column fits with two spaces after it, one cell tightly. *)
Definition fits (rows : list (list string)) (column : nat) (w : Z) : Prop :=
  (∀ row c, row ∈ rows → row !! column = Some c → RuneCount c + 2 ≤ w) ∧
  ∃ row c, row ∈ rows ∧ row !! column = Some c ∧ w = RuneCount c + 2.

Lemma column_fits (rows : list (list string)) column row c :
  row ∈ rows → row !! column = Some c →
  fits rows column (column_width 0 2 column (cells_of <$> rows)).
Proof.
  assert (Hcell : ∀ row c, row ∈ rows → row !! column = Some c →
    cells_of row ∈ cells_of <$> rows ∧ cells_of row !! column = Some (plain_cell c)).
  { intros row' c' Hr Hc. split; [by apply list_elem_of_fmap_2|]. unfold cells_of.
    by rewrite list_lookup_fmap, Hc. }
  destruct (column_width_ge 0 2 column (cells_of <$> rows)) as [_ Hge].
  assert (Hin : ∀ row c, row ∈ rows → row !! column = Some c →
    RuneCount c + 2 ≤ column_width 0 2 column (cells_of <$> rows)).
  { intros row' c' Hr Hc. destruct (Hcell row' c' Hr Hc) as [H1 H2]. exact (Hge _ _ H1 H2). }
  intros Hr Hc. split; [done|].
  destruct (column_width_attained 0 2 column (cells_of <$> rows)) as [E|(cs & ce & H1 & H2 & ->)].
  { pose proof (Hin row c Hr Hc). pose proof (RuneCount_nonneg c). lia. }
  apply list_elem_of_fmap in H1 as (row' & -> & Hr'). unfold cells_of in H2.
  rewrite list_lookup_fmap in H2. destruct (row' !! column) as [c'|] eqn:E; [|done].
  injection H2 as <-. by exists row', c'.
Qed.

(** ** Properties *)

(** C33: The listing is a faithful table: when discovery fails the process writes
    nothing to standard output, the log of the discovery and then the error to
    standard error, without the usage, and exits with 1; otherwise it exits with
    0, writes only the log to standard error and, when no text of a device holds
    a control character of the tab writer, to standard output the header and one
    row per device, every column but the last aligned and two spaces wider than
    its widest cell; a device's row has the driver, the PCI id or "-", the
    address, the nodes, the vendor or "-", and the NUMA node, and the numbers of
    the nodes can be read back. *)
Theorem devices_listing {cobra : Cobra} {ok : CobraOk} sys range_order :
  let paths := MkPaths "/dev/dri" "/dev/accel" "/sys/class/drm" "/sys/class/accel" in
  let '(o, status) := Execute sys range_order in
  match Discover sys range_order paths with
  | (Err err, logs) =>
      errors_Is ErrHelp err = false →
      o_stdout o = "" ∧ o_stderr o = (LogLine <$> logs) ++ [CobraError err] ∧ status = 1
  | (Ok ds, logs) =>
      status = 0 ∧ o_stderr o = LogLine <$> logs ∧
      (let rows := header :: (device_cells <$> ds) in
       Forall (λ d, Forall (λ c, Tabwriter.plain c = true) (device_cells d)) ds →
       ∃ widths, length widths = 5%nat ∧ (∀ j w, widths !! j = Some w → fits rows j w) ∧
         o_stdout o = table_text widths rows) ∧
      ∀ d, d ∈ ds → ∃ pciID nodes vendor,
        device_cells d = [DriverName d; pciID; PciAddress d; nodes; vendor; NumaNode d] ∧
        (pciID = "-" ∨ pciID = PciID d) ∧ pciID ≠ "" ∧
        (vendor = "-" ↔ GetVendor registeredVendors d = None) ∧
        (Nodes d ≠ [] →
         Forall (λ n, 0 ≤ Major n < 2 ^ 63 ∧ 0 ≤ Minor n < 2 ^ 63) (Nodes d) →
         parse_node <$> Split nodes "," = (λ n, Some (Major n, Minor n)) <$> Nodes d)
  end.
Proof.
  cbv zeta. unfold Execute, RunE. cbv zeta. destruct (Discover _ _ _) as [[ds|err] logs].
  2: { intros Hh. rewrite (cobra_failure _ _ _ err) by done. done. }
  rewrite cobra_success by done. cbn [o_err o_stdout o_stderr].
  split; [done|]. split; [done|]. split; [|intros d _; apply device_cells_fields].
  intros Hp. exists (table_widths 0 2 5 (cells_of <$> (header :: (device_cells <$> ds)))).
  split; [done|]. split.
  - intros j w. unfold table_widths. rewrite list_lookup_fmap.
    intros (j' & [-> Hj]%lookup_seq & ->)%fmap_Some.
    destruct (lookup_lt_is_Some_2 header j) as [c Hc]; [cbn; lia|].
    eapply column_fits; [by left|exact Hc].
  - unfold table_text. etransitivity; [|apply (Flush_table 0 2 4); [done|]].
    + f_equal. f_equal. cbn [fmap list_fmap foldl]. change (row_text header) with (line header).
      fold (device_cells <$> ds). rewrite !foldl_fmap. done.
    + apply Forall_cons. split; [split; [by_decide|done]|].
      apply Forall_fmap. eapply Forall_impl; [exact Hp|]. intros d Hd. by split.
Qed.

(** What the command prints on the sample node. *)
Definition sample_listing : string :=
  foldr (λ l s, String.append l (String newline s)) ""
    ["DRIVER  PCI ID     ADDRESS       NODES          VENDOR  NUMA";
     "i915    8086:5917  0000:00:02.0  226:1,226:128  i915    -1"].

Example RunE_runs : o_stdout (RunE SampleFs.sys id) = sample_listing.
Proof. vm_compute. reflexivity. Qed.

(** A cobra that does what is documented. *)
Module SampleCobra.

#[export] Instance cobra : Cobra := λ root cmd o,
  match o_err o with
  | None => o
  | Some err =>
      if errors_Is ErrHelp err then Outcome (o_stdout o) (o_stderr o) None
      else Outcome (o_stdout o)
             (o_stderr o ++
              (if SilenceErrors root || SilenceErrors cmd then [] else [CobraError err]) ++
              (if SilenceUsage root || SilenceUsage cmd then [] else [CobraUsage]))
             (Some err)
  end.

#[export] Instance cobra_ok : CobraOk.
Proof.
  split.
  - intros root cmd o E. unfold cobra_Execute, cobra. by rewrite E.
  - intros root cmd o err E Hh. unfold cobra_Execute, cobra. by rewrite E, Hh.
Qed.

End SampleCobra.

Lemma devices_listing_witness :
  ∃ widths, length widths = 5%nat ∧
    o_stdout (Execute (cobra:=SampleCobra.cobra) SampleFs.sys id).1 =
      table_text widths [header; device_cells SampleFs.device].
Proof.
  pose proof (devices_listing (cobra:=SampleCobra.cobra) (ok:=SampleCobra.cobra_ok)
    SampleFs.sys id) as Hl. cbv zeta in Hl.
  assert (Hd : Discover SampleFs.sys id SampleFs.paths = (Ok [SampleFs.device], []))
    by exact SampleFs.Discover_runs.
  unfold SampleFs.paths in Hd. destruct (Execute SampleFs.sys id) as [o status] eqn:Eo.
  rewrite Hd in Hl. destruct Hl as (_ & _ & Ht & _). destruct Ht as (widths & H1 & _ & H2).
  - apply Forall_singleton. by_decide.
  - exists widths. split; [exact H1|exact H2].
Defined.
